(* ===== verification/_CoqProject ===== *)
-Q . S2P
Prelude.v
Board.v
Relay.v
RelaySpec.v
Frames.v
Io.v
IoSpec.v
HostConfig.v
HostConfigSpec.v
Flash.v
FlashSpec.v
Can.v
Timers.v
Dispatch.v
DispatchSpec.v
Sessions.v
CanSessions.v
FuseSessions.v
Malloc.v
MallocSpec.v
I2c.v
I2cSpec.v
Udp.v
UdpSpec.v
Net.v
NetSpec.v
Main.v
MainSpec.v
CanRace.v
Delay.v
Kernel.v
OsQueue.v
OsQueueSpec.v
LwipTimers.v
SysArch.v
Usart.v
Pbuf.v
MempSpec.v
PbufSpec.v
PbufData.v
PbufInv.v
PbufShape.v
PbufLife.v
Eth.v
EthSpec.v
EthOut.v
EthLink.v
IpInput.v
IpInputSpec.v
IpLink.v
