(* ===== verification/Prelude.v ===== *)
(** * FiuNv: a verification library for the fault injection unit firmware

    The program is the firmware of a fault injection unit on an STM32F429. A host
    asks, over UDP or CAN, for electrical faults on up to 72 channels; the firmware
    checks and accumulates the request, turns it into a 17-byte frame, and a relay
    driver shows the frame on 224 relays, 17 bus lines and 15 resistance lines. A
    timer ends the fault, another drives a "loose contact". Settings live in flash;
    lamps and temperature inputs hang on an I2C port expander; memory for the network
    comes from pools; at power-up fuses and temperatures are checked before any task
    starts.

    ** How the development is made

    Code is a function of the monad [M] of this file: explicit state, and an outcome
    that tells a returned value ([Done]) from undefined behaviour of C ([Undefined]:
    an index out of bounds, a division by zero, a null pointer, an uninitialised
    read) and from a program that stops for good ([Halted]: a reset, an endless
    loop). Integers are [Z] with the wrap-around of their width written out ([u8],
    [u16], [u32]). Writes of pins, timers, delays, messages are events of a history
    ([Board.event]); what a relay or a line shows is a function of that history. Every
    definition evaluates. [wp] is total correctness: the code returns, in a state
    that satisfies the postcondition.

    ** The parts, and the files under src/ they model

    - [Prelude] (this file): integers, outcomes, the monad, record updates, loops,
      rules of [wp].
    - [Board]: FiuProcess.h, the pins; events; levels (the output registers), modes,
      latched data. A pin in a mode other than output does not show its level
      ([Board.driven]): that is PF6, line 6, after a loose contact.
    - [Relay], [RelaySpec], [Frames]: HARDWARE/Fiu/FiuProcess.c. Record [fiu] for its
      globals; [RelaySpec.board] says what is energised; [Frames.shows] is the
      contract of a frame, as tables, and [FiuCom_Process] refines it, passing through
      rest.
    - [Io], [IoSpec]: HARDWARE/LED/led.c, the start-up part of FiuProcess.c,
      [Fuse_check] of USER/main.c. The wiring of the fuses is the parameter [Board].
    - [HostConfig], [HostConfigSpec]: the configuration part of
      HARDWARE/Fiu/FiuHostDataAnalysis.c. Record [host]; invariant [host_ok]; what
      each message adds ([config_effect], [configure_pin]).
    - [Flash], [FlashSpec]: HARDWARE/STMFLASH/stmflash.c, [InfModify],
      [IpModifiedCheck], [CanModifiedCheck]. The flash and the HAL are the class
      [FlashHW] with its laws [FlashLaws]; [word_flash] is an instance.
    - [Can]: HARDWARE/CAN/can.c and the ring of received messages, a bounded queue;
      [CanRace]: the same ring with the interrupt between any two steps of the task,
      its test for a full ring as it is compiled, and the overrun it lets through.
    - [Timers]: HARDWARE/TIMER/timer.c as the values written to the registers.
      [HAL_TIM_PWM_MspInit] runs at every start, because [startFault] has
      de-initialised the handle before.
    - [Dispatch], [DispatchSpec], [Sessions], [CanSessions], [FuseSessions]: every
      command of [HostCanDataAnalysisNoLoopBuf] and [HostCanDataAnalysis],
      [startFault], the timer interrupt, over the state [sys] of all of the above;
      whole exchanges with the host.
    - [Malloc], [MallocSpec]: MALLOC/malloc.c; a pool refines a heap of disjoint
      blocks.
    - [I2c], [I2cSpec]: HARDWARE/IIC/myiic.c and HARDWARE/PCF8574/pcf8574.c, edge by
      edge. The device on the bus is the class [I2CDevice], the data sheet of the
      expander the class [PCF8574Laws], and a state machine [pcf] an instance.
    - [Udp], [UdpSpec]: LWIP/udpecho/udpecho.c and mulcast.c, the receive callbacks
      with their arrays on the stack.
    - [Net], [NetSpec]: the memory part of LWIP/lwip_app/lwip_comm/lwip_comm.c and
      HARDWARE/LAN8720/lan8720.c, [McuInfoInit].
    - [Main], [MainSpec]: USER/main.c; the record [firmware] of everything;
      [first_fault] goes from power-up through a datagram to the relays.
    - [Kernel], [OsQueue], [OsQueueSpec]: of uC/OS-II, the bit maps of priorities as
      sets, scheduling, the tick, and message queues and semaphores. A call that
      blocks is two functions, before and after the other tasks run. The invariant
      [queue_inv] says that the most urgent ready task runs and that nobody waits
      while a message is there.
    - [LwipTimers]: the timers of lwIP, a list of differences that stands for due times.
    - [SysArch]: LWIP/arch/sys_arch.c against the class [MessageQueue]; the queue of the
      kernel is the instance.
    - [Delay]: SYSTEM/delay/delay.c over the readings of the SysTick (class [SysTick]);
      what an event [EvDelayMs] of the other files stands for.
    - [Usart]: the receive interrupt of SYSTEM/usart/usart.c.
    - [Pbuf], [MempSpec], [PbufSpec], [PbufData], [PbufInv], [PbufShape], [PbufLife]:
      pbuf.c and memp.c of lwIP.
      Buffers are a map from addresses, their pools lists of free elements.
      [PbufSpec.pool_ok] ties the count of each buffer to the pointers to it, those of
      the users ([own]) and those in other buffers; [PbufData.chain] is a packet,
      [PbufData.bytes] what it carries; [PbufLife.pb_step] is what users may do.
    - [Eth], [EthSpec], [EthOut], [EthLink]: netif/ethernetif.c, the functions of
      stm32f4xx_hal_eth.c it calls, the interrupt of HARDWARE/LAN8720/lan8720.c, and
      [tcpip_input] of lwIP's tcpip.c, against the class [MessageQueue] and the packet
      buffers. [EthSpec.rx_ok], [EthOut.tx_ok] are the invariants of the rings,
      [EthSpec.waiting] says which frames the DMA has left in them, [EthSpec.nif_ok]
      that the mailbox holds packets with given bytes.
    - [IpInput], [IpInputSpec], [IpLink]: of lwIP, [ethernet_input] of netif/etharp.c,
      [ip_input] of core/ipv4/ip.c, [udp_input] of core/udp.c and what [tcpip_thread] of
      api/tcpip.c and [sys_timeouts_mbox_fetch] of core/timers.c do with a packet.
      Whoever gets the packet is an entry of the history [handed]; reassembly, the
      handlers of the timers and the other messages are arguments, any functions: the
      theorems are about packets that are no fragments, while no timer is due.
      [IpInputSpec.settled] is the fate of a packet, [IpInputSpec.udp_frame] a frame with
      a whole datagram, [IpInputSpec.delivered] its arrival.

    ** What the theorems show

    That the unit does what the host asked for: [first_fault], [fault_is_shown],
    [datagram_runs_messages], [frame_shows_fault]. That it is safe: it opens before it
    closes ([frame_breaks_before_it_makes]), a reset opens everything, it does not
    start on a blown fuse or when too warm ([main_guards]), invariants hold. That data
    survives: the ring of CAN messages with the interrupt anywhere in between
    ([fifo_under_interrupts]), mailboxes, pools, flash; frames of the network on their
    way to the task of lwIP ([interrupt_delivers]) and back ([output_hands_over]), in
    buffers that are neither lost nor released too early ([pool_lives]), and up to the
    callback that listens ([datagram_reaches_callback], [packet_settled_once]). That
    things end: the CAN task drains its ring, waits time out, delays are over ([delay_us_waits]). And where it
    fails: most of the findings are theorems about what the code does, such as an
    array index out of bounds or a state that is not cleared.

    ** Bounds and fuel

    Loops over constant ranges are recursions on the list of their indices. Loops
    with an exit inside have fuel: [Flash.erase_fuel] covers every word between the
    two addresses, and the loop stops after at most that many; [I2c.IIC_Poll] has
    251, one more than [ucErrTime] allows; [Delay.delay_loop] takes fewer readings than
    twice the cycles it waits for, plus three; a walk along a chain of packet buffers has
    one more than there are buffers ([Pbuf.walk_fuel]), enough because chains have no
    cycle; [Eth.irq_fuel] is one more than the ring has descriptors; the copy from one
    packet buffer has 45, as 65535 bytes fill 44 buffers of the MAC;
    [IpLink.sys_timeouts_mbox_fetch] has any fuel but zero, as no timer is due. Running out of fuel is [Spin] or an error,
    so every [wp] also shows that the fuel is enough.

    ** Not modelled

    The HAL, the CMSIS headers, the rest of lwIP and of uC/OS-II are vendored: what the
    program sees of them are events, classes with laws, or arguments. [Kernel] to
    [SysArch] have what waiting for a message needs, not how tasks, mailboxes and
    semaphores are created and deleted. Of the protocols, ARP, ICMP, IGMP, reassembly and
    everything that is sent end where a packet is handed to them; the pcbs are a list
    that is given. Packet buffers come from the
    pool only; the memory of malloc.c is taken to be zero at power-up, so no buffer has a
    stale flag. The DMA does not move while the interrupt handler runs, and nobody waits
    at the mailbox when it posts; [OSIntEnter] and [OSIntExit] are left out. Sending is proved for packets that fit one descriptor
    (1524 bytes, with an [mtu] of 1500). The LCD, KEY and SDRAM drivers do nothing to the state of the unit. Clock and
    interrupt-controller set-up ([Stm32_Clock_Init], the MspInit functions)
    has no counterpart in the state. [printf] is an event with its format only.
    Preemption is modelled where tasks and interrupts share data on purpose (the CAN
    ring) and where the kernel switches tasks (the queues); elsewhere functions run to
    completion. In particular the network task, after a software reset, writes to the
    expander on the I2C bus that the lamp task uses (main.c, line 263, no lock): a
    transaction inside another one is not modelled. Stopping a timer whose handle was
    never initialised, as [startFault] does before the first fault, goes through a null
    [Instance]; it is the event of a stop ([Timers.stop_timers]). A task never waits at
    more than one object ([OSTCBEventMultiPtr] is null). *)
From Stdlib Require Import ZArith Lia.
From stdpp Require Import base tactics decidable list list_numbers numbers gmap.
#[export] Set Default Goal Selector "!".
Open Scope Z_scope.

(** ** Machine integers: values of [Z] with the wrap-around of the width *)
Definition u8 (z : Z) : Z := z mod 2 ^ 8.
Definition u16 (z : Z) : Z := z mod 2 ^ 16.
Definition u32 (z : Z) : Z := z mod 2 ^ 32.
Definition u64 (z : Z) : Z := z mod 2 ^ 64.

(** [w]-bit values. *)
Definition in_width (w z : Z) : Prop := 0 <= z < 2 ^ w.
Abbreviation is_u8 := (in_width 8).
Abbreviation is_u16 := (in_width 16).
Abbreviation is_u32 := (in_width 32).
Abbreviation is_u64 := (in_width 64).

#[export] Instance in_width_dec w z : Decision (in_width w z).
Proof. unfold in_width. apply _. Defined.

(** ** Outcomes of C code *)
Inductive fault :=
  | OutOfBounds      (** an array access outside the array *)
  | DivByZero        (** integer division by zero *)
  | UninitRead       (** a read of an object that was never written *)
  | NullDeref.       (** a dereference of a null pointer *)

Inductive halt :=
  | SystemReset      (** [HAL_NVIC_SystemReset] *)
  | ErrorLoop        (** the endless loop of [Error_loop] *)
  | Spin.            (** an empty endless loop *)

Inductive outcome (S A : Type) :=
  | Done (a : A) (s : S)
  | Undefined (f : fault)
  | Halted (h : halt) (s : S).
Arguments Done {S A}.
Arguments Undefined {S A}.
Arguments Halted {S A}.

#[export] Instance fault_eq_dec : EqDecision fault.
Proof. solve_decision. Defined.
#[export] Instance halt_eq_dec : EqDecision halt.
Proof. solve_decision. Defined.

(** A C function over the state [S]. *)
Definition M (S A : Type) : Type := S -> outcome S A.

#[export] Instance M_ret S : MRet (M S) := fun A a s => Done a s.
#[export] Instance M_bind S : MBind (M S) := fun A B k m s =>
  match m s with
  | Done a s' => k a s'
  | Undefined f => Undefined f
  | Halted h s' => Halted h s'
  end.

Definition gets {S A} (f : S -> A) : M S A := fun s => Done (f s) s.
Definition modify {S} (f : S -> S) : M S unit := fun s => Done tt (f s).
Definition undefined {S A} (f : fault) : M S A := fun _ => Undefined f.
Definition halt_with {S A} (h : halt) : M S A := fun s => Halted h s.
Definition skip {S} : M S unit := mret tt.

(** [for] loops: the body run on each element in turn. *)
Fixpoint for_each {S A} (l : list A) (body : A -> M S unit) : M S unit :=
  match l with
  | [] => skip
  | x :: l => body x ;; for_each l body
  end.

(** Loops that update local variables. *)
Fixpoint for_fold {S A B} (l : list A) (acc : B) (body : B -> A -> M S B) : M S B :=
  match l with
  | [] => mret acc
  | x :: l => acc' ← body acc x; for_fold l acc' body
  end.

(** The values [a, a+1, ..., a+n-1] of a counting loop. *)
Definition zseq (a n : Z) : list Z := seqZ a n.

(** ** Field access by name *)
Class Eta (R : Type) := eta : R -> R.
Class Upd {R E : Type} (g : R -> E) := upd : (E -> E) -> R -> R.
#[global] Hint Mode Upd - - + : typeclass_instances.

Ltac derive_upd :=
  lazymatch goal with
  | |- @Upd ?R ?E ?g =>
      let c := eval hnf in (@eta R _) in
      exact (fun (f : E -> E) (r : R) =>
        ltac:(let b := eval cbv beta in (c r) in
              let t := constr:(g r) in
              lazymatch b with
              | context C [t] => let b' := context C [f t] in exact b'
              end))
  end.

Declare Scope c_scope.
Delimit Scope c_scope with c.
Open Scope c_scope.
Notation "r <| g := v |>" := (upd (g := g) (fun _ => v) r)
  (at level 1, left associativity, g at level 1, v at level 99,
   format "r <| g := v |>") : c_scope.
Notation "r <| g ::= f |>" := (upd (g := g) f r)
  (at level 1, left associativity, g at level 1, f at level 99,
   format "r <| g ::= f |>") : c_scope.

Definition put {S E} (g : S -> E) `{!Upd g} (v : E) : M S unit :=
  modify (fun s => s <| g := v |>).
Notation "g ::= v" := (put g v) (at level 70, no associativity) : c_scope.

(** Fields that behave as fields. *)
Class UpdLaws {S E} (g : S -> E) `{!Upd g} : Prop := {
  upd_get s v : g (s <| g := v |>) = v;
  upd_upd s v w : s <| g := v |> <| g := w |> = s <| g := w |>;
  upd_same s : s <| g := g s |> = s;
  upd_mod f s : s <| g ::= f |> = s <| g := f (g s) |>;
}.
Ltac upd_laws := constructor; [done|done|by intros []|done].

(** Run code of a component inside the system that contains its state. *)
Definition zoom {S T A} (g : S -> T) `{!Upd g} (m : M T A) : M S A := fun s =>
  match m (g s) with
  | Done a t => Done a (s <| g := t |>)
  | Undefined f => Undefined f
  | Halted h t => Halted h (s <| g := t |>)
  end.

(** ** C arrays: an access outside the array is undefined *)
Definition index {A} (l : list A) (i : Z) : option A :=
  if bool_decide (0 <= i) then l !! Z.to_nat i else None.

Definition from_array {S A} (o : option A) : M S A :=
  match o with Some a => mret a | None => undefined OutOfBounds end.

Definition rd {S A} (g : S -> list A) (i : Z) : M S A :=
  l ← gets g; from_array (index l i).

Definition wr {S A} (g : S -> list A) `{!Upd g} (i : Z) (v : A) : M S unit :=
  l ← gets g;
  if bool_decide (0 <= i < Z.of_nat (length l))
  then put g (<[Z.to_nat i := v]> l)
  else undefined OutOfBounds.


(** [setbit]/[clrbit] of comm.h, on an unsigned char. *)
Definition setbit (x y : Z) : Z := u8 (Z.lor x (Z.shiftl 1 y)).
Definition clrbit (x y : Z) : Z := u8 (Z.land x (Z.lnot (Z.shiftl 1 y))).

(** ** Little-endian memory: what [memcpy] between an integer and bytes does *)
Fixpoint le_value (l : list Z) : Z :=
  match l with
  | [] => 0
  | b :: l => b + 2 ^ 8 * le_value l
  end.

Fixpoint le_bytes (n : nat) (z : Z) : list Z :=
  match n with
  | O => []
  | S n => u8 z :: le_bytes n (Z.shiftr z 8)
  end.

(** [memcpy (&l[off], src, length src)] inside one array. *)
Definition blit {A} (l : list A) (off : nat) (src : list A) : list A :=
  take off l ++ src ++ drop (off + length src) l.

(** * Lemmas *)

(** ** Machine integers *)
Lemma in_width_small w z : in_width w z -> z mod 2 ^ w = z.
Proof. apply Z.mod_small. Qed.

Lemma in_width_mod w z : 0 <= w -> in_width w (z mod 2 ^ w).
Proof. intros Hw. apply Z.mod_pos_bound. by apply Z.pow_pos_nonneg. Qed.

Lemma testbit_mod_pow2 w z k :
  0 <= w -> Z.testbit (z mod 2 ^ w) k = bool_decide (k < w) && Z.testbit z k.
Proof.
  intros Hw. case_bool_decide as Hk; simpl.
  - destruct (decide (0 <= k)).
    + by rewrite Z.mod_pow2_bits_low by lia.
    + by rewrite !Z.testbit_neg_r by lia.
  - by rewrite Z.mod_pow2_bits_high by lia.
Qed.

Lemma in_width_nonneg w z : in_width w z -> 0 <= w.
Proof.
  unfold in_width. intros Hz. destruct (decide (0 <= w)); [done|].
  rewrite Z.pow_neg_r in Hz; lia.
Qed.

Lemma in_width_testbit w z k :
  in_width w z -> w <= k -> Z.testbit z k = false.
Proof.
  intros Hz Hk. pose proof (in_width_nonneg _ _ Hz).
  rewrite <- (in_width_small w z Hz), testbit_mod_pow2 by done.
  by rewrite bool_decide_eq_false_2 by lia.
Qed.

(** Two values are equal when they have the same bits. *)
Lemma bits_ext x y : (forall k, 0 <= k -> Z.testbit x k = Z.testbit y k) -> x = y.
Proof.
  intros H. apply Z.bits_inj. intros k.
  destruct (decide (0 <= k)); [by apply H|]. by rewrite !Z.testbit_neg_r by lia.
Qed.

Lemma bits_ext_width w x y :
  in_width w x -> in_width w y ->
  (forall k, 0 <= k < w -> Z.testbit x k = Z.testbit y k) -> x = y.
Proof.
  intros Hx Hy H. apply bits_ext. intros k Hk. destruct (decide (k < w)).
  - apply H; lia.
  - by rewrite (in_width_testbit w x), (in_width_testbit w y) by (done || lia).
Qed.

Lemma testbits_in_width w z :
  0 <= w -> (forall k, w <= k -> Z.testbit z k = false) -> in_width w z.
Proof.
  intros Hw H. cut (z mod 2 ^ w = z); [intros <-; by apply in_width_mod|].
  apply bits_ext. intros k ?. rewrite testbit_mod_pow2 by done.
  case_bool_decide; [done|]. rewrite H by lia. done.
Qed.

Lemma testbit_one_shl y k :
  0 <= y -> Z.testbit (Z.shiftl 1 y) k = bool_decide (k = y).
Proof.
  intros Hy. rewrite Z.shiftl_1_l.
  case_bool_decide as E; [subst; by apply Z.pow2_bits_true|].
  destruct (decide (0 <= k)); [|by rewrite Z.testbit_neg_r by lia].
  by rewrite Z.pow2_bits_false by lia.
Qed.

Lemma lor_in_width w x y : in_width w x -> in_width w y -> in_width w (Z.lor x y).
Proof.
  intros Hx Hy. pose proof (in_width_nonneg _ _ Hx).
  apply testbits_in_width; [done|]. intros k Hk.
  by rewrite Z.lor_spec, (in_width_testbit w x), (in_width_testbit w y).
Qed.

Lemma shl1_in_width w y : 0 <= y < w -> in_width w (Z.shiftl 1 y).
Proof.
  intros Hy. rewrite Z.shiftl_1_l. split; [apply Z.pow_nonneg; lia|].
  apply Z.pow_lt_mono_r; lia.
Qed.

Lemma setbit_testbit x y k :
  is_u8 x -> 0 <= y < 8 ->
  Z.testbit (setbit x y) k = Z.testbit x k || bool_decide (k = y).
Proof.
  intros Hx Hy. unfold setbit, u8.
  rewrite in_width_small by (apply lor_in_width, shl1_in_width; done).
  by rewrite Z.lor_spec, testbit_one_shl by lia.
Qed.

Lemma clrbit_testbit x y k :
  is_u8 x -> 0 <= y < 8 ->
  Z.testbit (clrbit x y) k = Z.testbit x k && negb (bool_decide (k = y)).
Proof.
  intros Hx Hy. unfold clrbit, u8. rewrite testbit_mod_pow2 by lia.
  destruct (decide (k < 0)); [by rewrite !Z.testbit_neg_r, andb_false_r by lia|].
  rewrite Z.land_spec, Z.lnot_spec, testbit_one_shl by lia.
  case_bool_decide; simpl; [done|].
  by rewrite (in_width_testbit 8 x) by (done || lia).
Qed.

(** ** Little-endian values *)
Lemma le_value_cons_testbit b l k :
  is_u8 b -> 0 <= k ->
  Z.testbit (le_value (b :: l)) k =
  if bool_decide (k < 8) then Z.testbit b k else Z.testbit (le_value l) (k - 8).
Proof.
  intros Hb Hk. cbn [le_value].
  assert (b + 2 ^ 8 * le_value l = Z.lor b (Z.shiftl (le_value l) 8)) as ->.
  { rewrite Z.shiftl_mul_pow2, (Z.mul_comm (le_value l)) by lia.
    symmetry. rewrite <- Z.lxor_lor; [symmetry; apply Z.add_nocarry_lxor|];
    (apply bits_ext; intros j ?; rewrite Z.land_spec, Z.bits_0;
     rewrite (Z.mul_comm (2 ^ 8)), <- Z.shiftl_mul_pow2, Z.shiftl_spec by lia;
     destruct (decide (j < 8));
     [rewrite (Z.testbit_neg_r _ (j - 8)) by lia; apply andb_false_r
     |by rewrite (in_width_testbit 8 b) by (done || lia)]). }
  rewrite Z.lor_spec, Z.shiftl_spec by lia. case_bool_decide.
  - by rewrite (Z.testbit_neg_r _ (k - 8)), orb_false_r by lia.
  - by rewrite (in_width_testbit 8 b) by (done || lia).
Qed.

Lemma le_value_testbit l k :
  Forall is_u8 l -> 0 <= k ->
  Z.testbit (le_value l) k = Z.testbit (nth (Z.to_nat (k / 8)) l 0) (k mod 8).
Proof.
  intros Hl. revert k. induction Hl as [|b l Hb _ IH]; intros k Hk.
  - cbn [le_value]. destruct (Z.to_nat (k / 8)); by rewrite !Z.bits_0.
  - rewrite le_value_cons_testbit by done. case_bool_decide.
    + by rewrite Z.div_small, Z.mod_small by lia.
    + rewrite IH by lia.
      assert (k / 8 = (k - 8) / 8 + 1) as ->.
      { rewrite <- Z.div_add by lia. f_equal; lia. }
      assert (k mod 8 = (k - 8) mod 8) as ->.
      { rewrite <- (Z.mod_add (k - 8) 1) by lia. f_equal; lia. }
      assert (0 <= (k - 8) / 8) by (apply Z.div_pos; lia).
      by rewrite Z2Nat.inj_add, Nat.add_comm by lia.
Qed.

Lemma le_bytes_length n z : length (le_bytes n z) = n.
Proof. revert z. induction n; intros; simpl; auto. Qed.

Lemma le_bytes_u8 n z : Forall is_u8 (le_bytes n z).
Proof.
  revert z. induction n; intros; simpl; constructor; [|done].
  apply (in_width_mod 8). lia.
Qed.

Lemma le_bytes_lookup n z i :
  (i < n)%nat -> le_bytes n z !! i = Some (u8 (Z.shiftr z (8 * Z.of_nat i))).
Proof.
  revert z i. induction n as [|n IH]; intros z i Hi; [lia|].
  destruct i as [|i]; simpl; [done|]. rewrite IH by lia.
  rewrite Z.shiftr_shiftr by lia. do 3 f_equal. lia.
Qed.

(** Storing an integer to memory and reading it back. *)
Lemma le_value_bytes n z :
  in_width (8 * Z.of_nat n) z -> le_value (le_bytes n z) = z.
Proof.
  revert z. induction n as [|n IH]; intros z Hz.
  { unfold in_width in Hz. simpl in *. lia. }
  simpl le_bytes. cbn [le_value]. rewrite IH.
  - unfold u8. rewrite Z.shiftr_div_pow2 by lia.
    pose proof (Z.div_mod z (2 ^ 8)). lia.
  - unfold in_width in *. rewrite Z.shiftr_div_pow2 by lia.
    replace (8 * Z.of_nat (S n)) with (8 + 8 * Z.of_nat n) in Hz by lia.
    rewrite Z.pow_add_r in Hz by lia. split; [apply Z.div_pos; lia|].
    apply Z.div_lt_upper_bound; lia.
Qed.

(** Reading memory as an integer and storing it back. *)
Lemma le_bytes_value l : Forall is_u8 l -> le_bytes (length l) (le_value l) = l.
Proof.
  induction 1 as [|b l Hb _ IH]; [done|]. cbn [length le_bytes le_value].
  unfold in_width in Hb. change (2 ^ 8) with 256 in *. f_equal.
  - unfold u8. change (2 ^ 8) with 256. Z.to_euclidean_division_equations. lia.
  - rewrite Z.shiftr_div_pow2 by lia. change (2 ^ 8) with 256.
    replace ((b + 256 * le_value l) / 256) with (le_value l); [done|].
    Z.to_euclidean_division_equations. lia.
Qed.

Lemma le_value_width l : Forall is_u8 l -> in_width (8 * Z.of_nat (length l)) (le_value l).
Proof.
  induction 1 as [|b l Hb _ IH]; unfold in_width in *; cbn [length le_value].
  - done.
  - replace (8 * Z.of_nat (S (length l))) with (8 + 8 * Z.of_nat (length l)) by lia.
    rewrite Z.pow_add_r by lia. nia.
Qed.

Lemma blit_length {A} (l src : list A) off :
  (off + length src <= length l)%nat -> length (blit l off src) = length l.
Proof.
  intros. unfold blit. rewrite !length_app, length_take, length_drop. lia.
Qed.

Lemma blit_lookup {A} (l src : list A) off i :
  (off + length src <= length l)%nat ->
  blit l off src !! i =
  if bool_decide (off <= i < off + length src)%nat then src !! (i - off)%nat else l !! i.
Proof.
  intros Hl. unfold blit. case_bool_decide as Hi.
  - rewrite lookup_app_r by (rewrite length_take; lia).
    rewrite length_take, lookup_app_l by lia. f_equal. lia.
  - destruct (decide (i < off)%nat).
    + rewrite lookup_app_l by (rewrite length_take; lia).
      by rewrite lookup_take_lt by lia.
    + rewrite lookup_app_r by (rewrite length_take; lia).
      rewrite length_take, lookup_app_r, lookup_drop by lia. f_equal. lia.
Qed.

(** ** Arrays *)
Lemma index_Some {A} (l : list A) i a :
  index l i = Some a <-> 0 <= i /\ l !! Z.to_nat i = Some a.
Proof. unfold index. case_bool_decide; naive_solver. Qed.

Lemma index_is_Some {A} (l : list A) i :
  0 <= i < Z.of_nat (length l) -> exists a, index l i = Some a.
Proof.
  intros Hi. unfold index. rewrite bool_decide_eq_true_2 by lia.
  apply lookup_lt_is_Some. lia.
Qed.

Lemma index_None {A} (l : list A) i :
  index l i = None <-> ~ (0 <= i < Z.of_nat (length l)).
Proof.
  unfold index. case_bool_decide.
  - rewrite lookup_ge_None. lia.
  - split; [lia|done].
Qed.

Lemma index_of_nat {A} (l : list A) (n : nat) : index l (Z.of_nat n) = l !! n.
Proof. unfold index. by rewrite bool_decide_eq_true_2, Nat2Z.id by lia. Qed.

(** ** Running code *)
Section run.
Context {S : Type}.
Implicit Types s : S.

Lemma bind_Done {A B} (m : M S A) (k : A -> M S B) s a s' :
  m s = Done a s' -> (m ≫= k) s = k a s'.
Proof. unfold mbind, M_bind. by intros ->. Qed.

Lemma bind_Undefined {A B} (m : M S A) (k : A -> M S B) s f :
  m s = Undefined f -> (m ≫= k) s = Undefined f.
Proof. unfold mbind, M_bind. by intros ->. Qed.

Lemma bind_Halted {A B} (m : M S A) (k : A -> M S B) s h s' :
  m s = Halted h s' -> (m ≫= k) s = Halted h s'.
Proof. unfold mbind, M_bind. by intros ->. Qed.

Lemma bind_bind {A B C} (m : M S A) (f : A -> M S B) (g : B -> M S C) s :
  ((m ≫= f) ≫= g) s = (m ≫= (fun a => f a ≫= g)) s.
Proof. unfold mbind, M_bind. by destruct (m s). Qed.

Lemma bind_ret {A B} (a : A) (k : A -> M S B) s : (mret a ≫= k) s = k a s.
Proof. done. Qed.

Lemma bind_gets {A B} (f : S -> A) (k : A -> M S B) s :
  (gets f ≫= k) s = k (f s) s.
Proof. done. Qed.

Lemma bind_modify {B} (f : S -> S) (k : unit -> M S B) s :
  (modify f ≫= k) s = k tt (f s).
Proof. done. Qed.

Lemma bind_put {E B} (g : S -> E) `{!Upd g} v (k : unit -> M S B) s :
  ((g ::= v) ≫= k) s = k tt s <| g := v |>.
Proof. done. Qed.

Lemma rd_Done {A} (g : S -> list A) i a s :
  index (g s) i = Some a -> rd g i s = Done a s.
Proof. unfold rd. rewrite bind_gets. by intros ->. Qed.

Lemma rd_oob {A} (g : S -> list A) i s :
  index (g s) i = None -> rd g i s = Undefined OutOfBounds.
Proof. unfold rd. rewrite bind_gets. by intros ->. Qed.

Lemma wr_Done {A} (g : S -> list A) `{!Upd g} i v s :
  0 <= i < Z.of_nat (length (g s)) ->
  wr g i v s = Done tt s <| g := <[Z.to_nat i := v]> (g s) |>.
Proof. intros. unfold wr. rewrite bind_gets. by rewrite bool_decide_eq_true_2. Qed.

Lemma wr_oob {A} (g : S -> list A) `{!Upd g} i v s :
  ~ (0 <= i < Z.of_nat (length (g s))) ->
  wr g i v s = Undefined OutOfBounds.
Proof. intros. unfold wr. rewrite bind_gets. by rewrite bool_decide_eq_false_2. Qed.

Lemma bind_wr {A B} (g : S -> list A) `{!Upd g} i v (k : unit -> M S B) s :
  0 <= i < Z.of_nat (length (g s)) ->
  (wr g i v ≫= k) s = k tt s <| g := <[Z.to_nat i := v]> (g s) |>.
Proof. intros. by rewrite (bind_Done _ _ _ _ _ (wr_Done _ _ _ _ H)). Qed.

Lemma bind_rd {A B} (g : S -> list A) i a (k : A -> M S B) s :
  index (g s) i = Some a -> (rd g i ≫= k) s = k a s.
Proof. intros H. by rewrite (bind_Done _ _ _ _ _ (rd_Done _ _ _ _ H)). Qed.

Lemma for_each_app {A} (l1 l2 : list A) (body : A -> M S unit) s :
  for_each (l1 ++ l2) body s = (for_each l1 body ;; for_each l2 body) s.
Proof.
  revert s. induction l1 as [|x l1 IH]; intros s; simpl; [done|].
  rewrite bind_bind. unfold mbind, M_bind in *.
  destruct (body x s); auto.
Qed.

Lemma for_fold_app {A B} (l1 l2 : list A) (acc : B) body s :
  for_fold (l1 ++ l2) acc body s = (acc' ← for_fold l1 acc body; for_fold l2 acc' body) s.
Proof.
  revert acc s. induction l1 as [|x l1 IH]; intros acc s; simpl; [done|].
  rewrite bind_bind. unfold mbind, M_bind in *. by destruct (body acc x s).
Qed.

(** Two bodies that agree as long as [P] holds, and keep it. *)
Lemma for_fold_ext {A B} (P : S -> Prop) (l : list A) (acc : B) body1 body2 s :
  (forall acc x s, x ∈ l -> P s -> body1 acc x s = body2 acc x s /\
    forall acc' s', body2 acc x s = Done acc' s' -> P s') ->
  P s -> for_fold l acc body1 s = for_fold l acc body2 s.
Proof.
  revert acc s. induction l as [|x l IH]; intros acc s Hbody HP; simpl; [done|].
  destruct (Hbody acc x s) as [E HP']; [by constructor|done|].
  unfold mbind, M_bind. rewrite E. destruct (body2 acc x s) as [acc' s'|f|h s'] eqn:E2; try done.
  apply IH; [|by eapply HP']. intros. apply Hbody; [by constructor|done].
Qed.

Lemma for_fold_keep {A B} (P : S -> Prop) (l : list A) (acc : B) body s acc' s' :
  (forall acc x s acc' s', x ∈ l -> P s -> body acc x s = Done acc' s' -> P s') ->
  P s -> for_fold l acc body s = Done acc' s' -> P s'.
Proof.
  revert acc s. induction l as [|x l IH]; intros acc s Hbody HP; simpl.
  - by intros [= _ <-].
  - unfold mbind, M_bind. destruct (body acc x s) as [acc1 s1|f|h s1] eqn:E; try done.
    apply IH; [|eapply Hbody; [constructor|exact HP|exact E]].
    intros. eapply Hbody; [by constructor|done|done].
Qed.

Lemma for_fold_filter {A B} (p : A -> bool) (l : list A) (acc : B) body s :
  for_fold l acc (fun acc x => if p x then body acc x else mret acc) s =
  for_fold (List.filter p l) acc body s.
Proof.
  revert acc s. induction l as [|x l IH]; intros acc s; simpl; [done|].
  destruct (p x); simpl; [|by rewrite bind_ret].
  unfold mbind, M_bind. by destruct (body acc x s).
Qed.

Lemma for_fold_map {A A' B} (g : A -> A') (l : list A) (acc : B) body s :
  for_fold (g <$> l) acc body s = for_fold l acc (fun acc x => body acc (g x)) s.
Proof.
  revert acc s. induction l as [|x l IH]; intros acc s; simpl; [done|].
  unfold mbind, M_bind. destruct (body acc (g x) s) as [acc1 s1|f|h s1]; [|done..]. apply IH.
Qed.

Lemma for_fold_concat {A B} (ll : list (list A)) (acc : B) body s :
  for_fold (concat ll) acc body s =
  for_fold ll acc (fun acc l => for_fold l acc body) s.
Proof.
  revert acc s. induction ll as [|l ll IH]; intros acc s; simpl; [done|].
  rewrite for_fold_app. unfold mbind, M_bind.
  destruct (for_fold l acc body s) as [acc1 s1|f|h s1]; [|done..]. apply IH.
Qed.

(** ** Total correctness: the code returns, with a result in [Q]. *)
Definition wp {A} (m : M S A) (Q : A -> S -> Prop) (s : S) : Prop :=
  match m s with Done a s' => Q a s' | _ => False end.

Lemma wp_Done {A} (m : M S A) (Q : A -> S -> Prop) s :
  wp m Q s <-> exists a s', m s = Done a s' /\ Q a s'.
Proof. unfold wp. destruct (m s); naive_solver. Qed.

Lemma wp_run {A} (m m' : M S A) (Q : A -> S -> Prop) s s' :
  m s = m' s' -> wp m' Q s' -> wp m Q s.
Proof. unfold wp. by intros ->. Qed.

(** Total correctness by evaluation. *)
Lemma wp_check {A} (m : M S A) (c : A -> S -> bool) s :
  match m s with Done a s' => c a s' | _ => false end = true -> wp m (fun a s' => c a s' = true) s.
Proof. unfold wp. by destruct (m s). Qed.

Lemma wp_mono {A} (m : M S A) (Q Q' : A -> S -> Prop) s :
  wp m Q s -> (forall a s', Q a s' -> Q' a s') -> wp m Q' s.
Proof. unfold wp. destruct (m s); naive_solver. Qed.

Lemma wp_conj {A} (m : M S A) (Q Q' : A -> S -> Prop) s :
  wp m Q s -> wp m Q' s -> wp m (fun a s' => Q a s' /\ Q' a s') s.
Proof. unfold wp. destruct (m s); naive_solver. Qed.

Lemma wp_ret {A} (a : A) (Q : A -> S -> Prop) s : Q a s -> wp (mret a) Q s.
Proof. done. Qed.

Lemma wp_bind {A B} (m : M S A) (k : A -> M S B) Q s :
  wp m (fun a => wp (k a) Q) s -> wp (m ≫= k) Q s.
Proof. unfold wp, mbind, M_bind. by destruct (m s). Qed.

Lemma wp_gets {A} (f : S -> A) (Q : A -> S -> Prop) s : Q (f s) s -> wp (gets f) Q s.
Proof. done. Qed.

Lemma wp_modify (f : S -> S) (Q : unit -> S -> Prop) s : Q tt (f s) -> wp (modify f) Q s.
Proof. done. Qed.

Lemma wp_put {E} (g : S -> E) `{!Upd g} v (Q : unit -> S -> Prop) s :
  Q tt s <| g := v |> -> wp (g ::= v) Q s.
Proof. done. Qed.

Lemma wp_rd {A} (g : S -> list A) i (Q : A -> S -> Prop) s :
  0 <= i < Z.of_nat (length (g s)) ->
  (forall a, index (g s) i = Some a -> Q a s) -> wp (rd g i) Q s.
Proof.
  intros Hi HQ. destruct (index_is_Some _ _ Hi) as [a Ha].
  unfold wp. rewrite (rd_Done _ _ _ _ Ha). by apply HQ.
Qed.

Lemma wp_wr {A} (g : S -> list A) `{!Upd g} i v (Q : unit -> S -> Prop) s :
  0 <= i < Z.of_nat (length (g s)) ->
  Q tt s <| g := <[Z.to_nat i := v]> (g s) |> -> wp (wr g i v) Q s.
Proof. intros Hi HQ. unfold wp. by rewrite wr_Done. Qed.

(** Loops: [I] indexed by what is left to do. *)
Lemma wp_for_each {A} (I : list A -> S -> Prop) (body : A -> M S unit) l s :
  I l s ->
  (forall x l' s', I (x :: l') s' -> wp (body x) (fun _ => I l') s') ->
  wp (for_each l body) (fun _ => I []) s.
Proof.
  intros HI Hbody. revert s HI. induction l as [|x l IH]; intros s HI; simpl.
  - by apply wp_ret.
  - apply wp_bind. eapply wp_mono; [by apply Hbody|].
    intros [] s' HI'. exact (IH s' HI').
Qed.

(** Loops with an invariant that does not depend on the position. *)
Lemma wp_for_each_inv {A} (I : S -> Prop) (body : A -> M S unit) l s :
  I s ->
  (forall x s', x ∈ l -> I s' -> wp (body x) (fun _ => I) s') ->
  wp (for_each l body) (fun _ => I) s.
Proof.
  revert s. induction l as [|x l IH]; intros s HI Hbody; simpl.
  - by apply wp_ret.
  - apply wp_bind. eapply wp_mono.
    + apply Hbody; [constructor|done].
    + intros [] s' HI'. apply IH; [exact HI'|]. intros y s'' Hy. apply Hbody. by constructor.
Qed.

(** Counting loops: [I i] holds before the iteration [i]. *)
Lemma wp_for_seqZ {B} (I : Z -> B -> S -> Prop) (body : B -> Z -> M S B) a n acc s :
  0 <= n -> I a acc s ->
  (forall i acc s, a <= i < a + n -> I i acc s -> wp (body acc i) (I (i + 1)) s) ->
  wp (for_fold (seqZ a n) acc body) (I (a + n)) s.
Proof.
  intros Hn. revert a acc s. pattern n. revert n Hn. apply natlike_ind.
  - intros a acc s HI _. rewrite Z.add_0_r. by apply wp_ret.
  - intros n Hn IH a acc s HI Hbody. rewrite seqZ_cons by lia. simpl.
    apply wp_bind. eapply wp_mono; [apply Hbody; [lia|done]|].
    intros acc' s' HI'. replace (Z.pred (Z.succ n)) with n by lia.
    replace (a + Z.succ n) with (Z.succ a + n) by lia.
    apply IH; [exact HI'|]. intros i ? ? ?. apply Hbody. lia.
Qed.

Lemma wp_each_seqZ (I : Z -> S -> Prop) (body : Z -> M S unit) a n s :
  0 <= n -> I a s ->
  (forall i s, a <= i < a + n -> I i s -> wp (body i) (fun _ => I (i + 1)) s) ->
  wp (for_each (seqZ a n) body) (fun _ => I (a + n)) s.
Proof.
  intros Hn. revert a s. pattern n. revert n Hn. apply natlike_ind.
  - intros a s HI _. rewrite Z.add_0_r. by apply wp_ret.
  - intros n Hn IH a s HI Hbody. rewrite seqZ_cons by lia. simpl.
    apply wp_bind. eapply wp_mono; [apply Hbody; [lia|done]|].
    intros [] s' HI'. replace (Z.pred (Z.succ n)) with n by lia.
    replace (a + Z.succ n) with (Z.succ a + n) by lia.
    apply IH; [exact HI'|]. intros i ? ?. apply Hbody. lia.
Qed.
End run.

Lemma zoom_Done {S T A} (g : S -> T) `{!Upd g} (m : M T A) s a t :
  m (g s) = Done a t -> zoom g m s = Done a s <| g := t |>.
Proof. unfold zoom. by intros ->. Qed.

Lemma wp_zoom {S T A} (g : S -> T) `{!Upd g} (m : M T A) (Q : A -> S -> Prop) s :
  wp m (fun a t => Q a s <| g := t |>) (g s) -> wp (zoom g m) Q s.
Proof. unfold wp, zoom. by destruct (m (g s)). Qed.

(** A loop that writes every element of an array. *)
Lemma fill_run {St A} (g : St -> list A) `{!Upd g, !UpdLaws g} (f : Z -> A) n s :
  Z.of_nat (length (g s)) = n ->
  for_each (seqZ 0 n) (fun i => wr g i (f i)) s = Done tt (s <| g := f <$> seqZ 0 n |>).
Proof.
  intros Hn.
  assert (wp (for_each (seqZ 0 n) (fun i => wr g i (f i)))
    (fun _ s' => s' = s <| g := f <$> seqZ 0 n |>) s) as Hwp.
  { eapply wp_mono; [apply (wp_each_seqZ (fun i s' => exists l,
      s' = s <| g := l |> /\ length l = Z.to_nat n /\
      take (Z.to_nat i) l = f <$> seqZ 0 i))|].
    - lia.
    - exists (g s). rewrite upd_same. split_and!; [done|lia|done].
    - intros i s' Hi (l & -> & Hl & Htake).
      apply wp_wr; rewrite upd_get; [lia|]. exists (<[Z.to_nat i := f i]> l).
      rewrite upd_upd, length_insert. split_and!; [done|done|].
      replace (Z.to_nat (i + 1)) with (S (Z.to_nat i)) by lia.
      rewrite (take_S_r _ _ (f i)) by (rewrite list_lookup_insert_eq by lia; done).
      rewrite take_insert_ge, Htake, seqZ_app, fmap_app by lia. f_equal.
    - rewrite Z.add_0_l. intros [] s' (l & -> & Hl & Htake).
      rewrite take_ge in Htake by lia. by subst. }
  apply wp_Done in Hwp as ([] & s' & -> & ->). done.
Qed.

(** ** What code keeps *)

(** Code that keeps a property of the state whenever it returns. *)
Definition keeps {S A} (P : S -> Prop) (m : M S A) : Prop :=
  forall s a s', P s -> m s = Done a s' -> P s'.

Lemma keeps_bind {S A B} (P : S -> Prop) (m : M S A) (k : A -> M S B) :
  keeps P m -> (forall a, keeps P (k a)) -> keeps P (m ≫= k).
Proof.
  intros Hm Hk s b s'' HP. unfold mbind, M_bind. destruct (m s) as [a s'|f|h s'] eqn:E; try done.
  apply Hk. by eapply Hm.
Qed.

Lemma keeps_same {S A} (P : S -> Prop) (m : M S A) :
  (forall s a s', m s = Done a s' -> s' = s) -> keeps P m.
Proof. intros H s a s' HP E. by rewrite (H _ _ _ E). Qed.

Lemma keeps_ret {S A} (P : S -> Prop) (a : A) : keeps P (mret a : M S A).
Proof. by intros s b s' HP [= _ <-]. Qed.

Lemma keeps_gets {S A} (P : S -> Prop) (f : S -> A) : keeps P (gets f).
Proof. by intros s b s' HP [= _ <-]. Qed.

Lemma keeps_undefined {S A} (P : S -> Prop) e : keeps P (undefined e : M S A).
Proof. by intros s b s' HP. Qed.

Lemma keeps_halt {S A} (P : S -> Prop) e : keeps P (halt_with e : M S A).
Proof. by intros s b s' HP. Qed.

Lemma keeps_from_array {S A} (P : S -> Prop) (o : option A) : keeps P (from_array o : M S A).
Proof. destruct o; [apply keeps_ret|apply keeps_undefined]. Qed.

Lemma keeps_modify {S} (P : S -> Prop) f : (forall s, P s -> P (f s)) -> keeps P (modify f).
Proof. intros H s b s' HP [= _ <-]. by apply H. Qed.

Lemma keeps_loop {S A} (P : S -> Prop) (l : list A) (body : A -> M S unit) :
  (forall x, keeps P (body x)) -> keeps P (for_each l body).
Proof.
  intros H. induction l as [|x l IH]; cbn [for_each]; [apply keeps_ret|by apply keeps_bind].
Qed.

Lemma keeps_fold {S A B} (P : S -> Prop) (l : list A) (acc : B) (body : B -> A -> M S B) :
  (forall b x, keeps P (body b x)) -> keeps P (for_fold l acc body).
Proof.
  intros H. revert acc. induction l as [|x l IH]; intros acc; cbn [for_fold];
    [apply keeps_ret|apply keeps_bind; auto].
Qed.

Lemma keeps_zoom {S T A} (P : S -> Prop) (Q : T -> Prop) (g : S -> T) `{!Upd g} (m : M T A) :
  (forall s, P s -> Q (g s)) -> (forall s t, P s -> Q t -> P (s <| g := t |>)) ->
  keeps Q m -> keeps P (zoom g m).
Proof.
  intros H1 H2 Hm s a s' HP. unfold zoom. destruct (m (g s)) as [b t|f|h t] eqn:E; try done.
  intros [= <- <-]. apply H2; [done|]. eapply Hm; [|exact E]. by apply H1.
Qed.

Lemma keeps_true {S A} (m : M S A) : keeps (fun _ => True) m.
Proof. by intros s a s'. Qed.

(** ** Automation *)

(** One step of symbolic execution of the goal [wp m Q s]. *)
Ltac wp_step :=
  lazymatch goal with
  | |- wp (mbind _ _) _ _ => apply wp_bind
  | |- wp (mret _) _ _ => apply wp_ret
  | |- wp skip _ _ => apply wp_ret
  | |- wp (gets _) _ _ => apply wp_gets
  | |- wp (put _ _) _ _ => apply wp_put
  | |- wp (modify _) _ _ => apply wp_modify
  | |- wp (zoom _ _) _ _ => apply wp_zoom
  | |- wp (if ?b then _ else _) _ _ => destruct b eqn:?
  end.

Ltac head_of t := lazymatch t with ?f _ => head_of f | _ => t end.

(** Structural proof of [keeps]: [leaf] for the primitives of a component (it may
    leave a goal [keeps]), definitions unfolded where it does not apply. *)
Ltac keeps_with leaf :=
  lazymatch goal with
  | |- keeps _ (mbind _ _) => apply keeps_bind; [keeps_with leaf|intro; keeps_with leaf]
  | |- keeps _ (mret _) => apply keeps_ret
  | |- keeps _ skip => apply keeps_ret
  | |- keeps _ (gets _) => apply keeps_gets
  | |- keeps _ (undefined _) => apply keeps_undefined
  | |- keeps _ (halt_with _) => apply keeps_halt
  | |- keeps _ (from_array _) => apply keeps_from_array
  | |- keeps _ (for_each _ _) => apply keeps_loop; intro; keeps_with leaf
  | |- keeps _ (for_fold _ _ _) => apply keeps_fold; intros; keeps_with leaf
  | |- keeps _ (let _ := _ in _) => cbv zeta; keeps_with leaf
  | |- keeps _ (if ?b then _ else _) => destruct b; keeps_with leaf
  | |- keeps _ (match ?b with _ => _ end) => destruct b; keeps_with leaf
  | |- keeps _ ?m => first [leaf; keeps_with leaf | let h := head_of m in unfold h; keeps_with leaf]
  end.

Create HintDb width.
#[export] Hint Resolve lor_in_width shl1_in_width : width.
