(* ===== verification/Board.v ===== *)
(** * The board as the firmware drives it

    The pins of FiuProcess.h, the effects of the firmware on the outside world
    as a history of events (newest first), and what that history says of the
    level of a pin and of the data a positive-edge-triggered register
    (the SN74374 of FiuProcess.c) has sampled. *)
From Stdlib Require Import ZArith Lia String.
From stdpp Require Import base tactics decidable list numbers strings.
From S2P Require Import Prelude.
Open Scope Z_scope.
Open Scope c_scope.

(** ** Pins *)
Inductive gpio_port := GPIOA | GPIOB | GPIOC | GPIOD | GPIOE | GPIOF | GPIOG | GPIOH | GPIOI.

Record pin := Pin { pin_port : gpio_port; pin_num : Z }.

Definition port_index (p : gpio_port) : Z :=
  match p with
  | GPIOA => 0 | GPIOB => 1 | GPIOC => 2 | GPIOD => 3 | GPIOE => 4
  | GPIOF => 5 | GPIOG => 6 | GPIOH => 7 | GPIOI => 8
  end.

Definition pin_eqb (p q : pin) : bool :=
  (port_index (pin_port p) =? port_index (pin_port q)) && (pin_num p =? pin_num q).

(** The macros of FiuProcess.h. *)
Definition CH_EN : pin := Pin GPIOH 12.

Definition CHCLK : list pin :=
  [Pin GPIOH 15; Pin GPIOI 0; Pin GPIOI 1; Pin GPIOI 2; Pin GPIOI 3; Pin GPIOA 15;
   Pin GPIOC 10; Pin GPIOC 11; Pin GPIOC 12; Pin GPIOD 3; Pin GPIOD 4; Pin GPIOD 5;
   Pin GPIOD 6; Pin GPIOD 7].

Definition RELAYEN : list pin :=
  [Pin GPIOB 13; Pin GPIOB 14; Pin GPIOB 15; Pin GPIOD 11; Pin GPIOD 12; Pin GPIOD 13;
   Pin GPIOG 3; Pin GPIOG 6; Pin GPIOG 7; Pin GPIOC 6; Pin GPIOC 7; Pin GPIOC 8;
   Pin GPIOC 9; Pin GPIOA 8; Pin GPIOH 13; Pin GPIOH 14].

Definition CTRLBUS1 : pin := Pin GPIOF 8.
Definition CTRLBUS2 : pin := Pin GPIOC 13.
Definition CTRLBUS3 : pin := Pin GPIOI 9.
Definition CTRLBUS4 : pin := Pin GPIOI 10.
Definition CTRLBUS5 : pin := Pin GPIOI 11.
Definition CTRLBUS6 : pin := Pin GPIOF 6.
Definition CTRLBUS7 : pin := Pin GPIOF 7.
Definition CTRLBUS8 : pin := Pin GPIOI 8.
Definition CTRLBUS9 : pin := Pin GPIOE 2.
Definition CTRLBUS10 : pin := Pin GPIOE 3.
Definition CTRLBUS11 : pin := Pin GPIOE 4.
Definition CTRLBUS12 : pin := Pin GPIOE 5.
Definition CTRLBUS13 : pin := Pin GPIOE 6.
Definition CTRLBUS14 : pin := Pin GPIOF 9.
Definition CTRLBUS15 : pin := Pin GPIOF 10.
Definition CTRLBUS16 : pin := Pin GPIOA 0.
Definition CTRLBUS17 : pin := Pin GPIOH 2.

Definition CTRLBUS : list pin :=
  [CTRLBUS1; CTRLBUS2; CTRLBUS3; CTRLBUS4; CTRLBUS5; CTRLBUS6; CTRLBUS7; CTRLBUS8;
   CTRLBUS9; CTRLBUS10; CTRLBUS11; CTRLBUS12; CTRLBUS13; CTRLBUS14; CTRLBUS15;
   CTRLBUS16; CTRLBUS17].

Definition FUSETEST : list pin :=
  [Pin GPIOA 5; Pin GPIOA 6; Pin GPIOB 0; Pin GPIOB 1; Pin GPIOH 6].

Definition FUSEDATA : list pin :=
  [Pin GPIOH 11; Pin GPIOH 10; Pin GPIOH 9; Pin GPIOH 8; Pin GPIOH 7].

Definition RESCTRL : list pin :=
  [Pin GPIOI 7; Pin GPIOI 6; Pin GPIOI 5; Pin GPIOI 4; Pin GPIOB 9; Pin GPIOB 8;
   Pin GPIOB 7; Pin GPIOB 6; Pin GPIOB 5; Pin GPIOB 4; Pin GPIOB 3; Pin GPIOG 12;
   Pin GPIOG 11; Pin GPIOG 10; Pin GPIOG 9].

(** ** Effects *)
Inductive gpio_mode := OUTPUT_PP | INPUT | AF_PP.

Inductive event :=
  | EvPin (p : pin) (level : bool)                 (** a write of an output pin *)
  | EvMode (port : gpio_port) (pins : list Z) (mode : gpio_mode)  (** [HAL_GPIO_Init] *)
  | EvDelayMs (n : Z)
  | EvDelayUs (n : Z)
  | EvPrint (text : string)
  | EvPwmStop                                       (** [HAL_TIM_PWM_Stop] of TIM10 *)
  | EvPwmDeInit                                     (** [HAL_TIM_PWM_DeInit] of TIM10 *)
  | EvPwmStart (prescaler period pulse : Z)         (** TIM10 started as PWM *)
  | EvTim2Stop                                      (** [HAL_TIM_Base_Stop_IT] of TIM2 *)
  | EvTim2DeInit                                    (** [HAL_TIM_Base_DeInit] of TIM2 *)
  | EvTim2Start (prescaler period : Z)              (** TIM2 started with its interrupt *)
  | EvCanTx (ext_id : Z) (data : list Z)            (** a frame given to [HAL_CAN_Transmit] *)
  | EvUdpTx (data : list Z).                        (** a datagram given to [udp_sendto] *)

(** States that carry the history of effects. *)
Class HasTrace (S : Type) := {
  events : S -> list event;
  emit_event : event -> S -> S;
}.

Class HasTraceLaws (S : Type) `{!HasTrace S} := {
  events_emit e (s : S) : events (emit_event e s) = e :: events s;
}.

Definition emit {S} `{!HasTrace S} (e : event) : M S unit := modify (emit_event e).

(** [HAL_GPIO_WritePin], and the writes through the bit-band aliases of sys.h. *)
Definition write_pin {S} `{!HasTrace S} (p : pin) (b : bool) : M S unit := emit (EvPin p b).
Definition pin_set {S} `{!HasTrace S} (p : pin) : M S unit := write_pin p true.
Definition pin_reset {S} `{!HasTrace S} (p : pin) : M S unit := write_pin p false.
Definition delay_ms {S} `{!HasTrace S} (n : Z) : M S unit := emit (EvDelayMs n).
Definition delay_us {S} `{!HasTrace S} (n : Z) : M S unit := emit (EvDelayUs n).
Definition gpio_init {S} `{!HasTrace S} (port : gpio_port) (pins : list Z) (m : gpio_mode)
  : M S unit := emit (EvMode port pins m).

(** A fixed sequence of pin writes. *)
Definition write_pins {S} `{!HasTrace S} (l : list (pin * bool)) : M S unit :=
  for_each l (fun '(p, b) => write_pin p b).

(** The environment: the level an input pin has after a history of effects. *)
Class Board := pin_in : list event -> pin -> bool.

(** [HAL_GPIO_ReadPin]. *)
Definition read_pin {S} `{!Board, !HasTrace S} (p : pin) : M S bool :=
  gets (fun s => pin_in (events s) p).

(** ** What a history says of the board *)

(** What the output register of a pin holds: the last level written, low after a
    reset.  A write reaches the register in every mode of the pin; it is the level of
    the pin as long as the pin is an output ([driven]). *)
Fixpoint level (t : list event) (p : pin) : bool :=
  match t with
  | [] => false
  | EvPin q b :: t => if pin_eqb p q then b else level t p
  | _ :: t => level t p
  end.

(** The mode of a pin, [None] before its set-up. *)
Fixpoint pin_mode (t : list event) (p : pin) : option gpio_mode :=
  match t with
  | [] => None
  | EvMode port pins m :: t =>
      if (port_index (pin_port p) =? port_index port) && bool_decide (pin_num p ∈ pins)
      then Some m else pin_mode t p
  | _ :: t => pin_mode t p
  end.

Definition is_output (t : list event) (p : pin) : bool :=
  match pin_mode t p with Some OUTPUT_PP => true | _ => false end.

(** The level the firmware gives a pin, [None] when it has left the pin to a timer
    or made it an input. *)
Definition driven (t : list event) (p : pin) : option bool :=
  if is_output t p then Some (level t p) else None.

(** The levels of some pins as a number, the first pin its lowest bit. *)
Fixpoint sample (t : list event) (data : list pin) : Z :=
  match data with
  | [] => 0
  | p :: data => Z.b2z (level t p) + 2 * sample t data
  end.

(** What a register has sampled from [data] at the last rising edge of [clk],
    [None] before the first one. *)
Fixpoint latched (clk : pin) (data : list pin) (t : list event) : option Z :=
  match t with
  | [] => None
  | EvPin q b :: t =>
      if pin_eqb clk q && b && negb (level t clk) then Some (sample t data)
      else latched clk data t
  | _ :: t => latched clk data t
  end.

(** * Lemmas *)
Lemma pin_eqb_spec p q : pin_eqb p q = true <-> p = q.
Proof.
  destruct p as [pp pn], q as [qp qn]. unfold pin_eqb. cbn.
  rewrite andb_true_iff, !Z.eqb_eq. split; [|by intros [= -> ->]].
  intros [Hp ->]. f_equal. destruct pp, qp; by try discriminate Hp.
Qed.

Lemma pin_eqb_refl p : pin_eqb p p = true.
Proof. by apply pin_eqb_spec. Qed.

Lemma pin_eqb_ne p q : p <> q -> pin_eqb p q = false.
Proof. intros H. destruct (pin_eqb p q) eqn:E; [|done]. by apply pin_eqb_spec in E. Qed.

Lemma pin_eqb_sym p q : pin_eqb p q = pin_eqb q p.
Proof. unfold pin_eqb. by rewrite (Z.eqb_sym (port_index _)), (Z.eqb_sym (pin_num _)). Qed.

#[export] Instance pin_eq_dec : EqDecision pin.
Proof.
  intros p q. destruct (pin_eqb p q) eqn:E; [left; by apply pin_eqb_spec|right].
  intros ->. by rewrite pin_eqb_refl in E.
Defined.

Section trace.
Context {S : Type} `{!HasTrace S, !HasTraceLaws S}.

(** Effects that happened one after the other, oldest first. *)
Definition emit_all (es : list event) (s : S) : S := foldl (fun s e => emit_event e s) s es.

Lemma events_emit_all es s : events (emit_all es s) = rev es ++ events s.
Proof.
  revert s. induction es as [|e es IH]; intros s; simpl; [done|].
  unfold emit_all in *. rewrite IH, events_emit. by rewrite <- app_assoc.
Qed.

Lemma emit_all_app es es' s : emit_all (es ++ es') s = emit_all es' (emit_all es s).
Proof. apply foldl_app. Qed.

Lemma write_pins_Done l s :
  write_pins l s = Done tt (emit_all ((fun '(p, b) => EvPin p b) <$> l) s).
Proof.
  revert s. induction l as [|[p b] l IH]; intros s; simpl; [done|].
  exact (IH (emit_event (EvPin p b) s)).
Qed.
End trace.

Lemma level_pin p b t : level (EvPin p b :: t) p = b.
Proof. simpl. by rewrite pin_eqb_refl. Qed.

Lemma level_pin_ne p q b t : p <> q -> level (EvPin q b :: t) p = level t p.
Proof. intros. simpl. by rewrite pin_eqb_ne. Qed.

(** Writes of other pins leave a level alone. *)
Definition untouched (p : pin) (es : list event) : Prop :=
  Forall (fun e => match e with EvPin q _ => pin_eqb p q = false | _ => True end) es.

Lemma level_untouched p es t : untouched p es -> level (es ++ t) p = level t p.
Proof.
  induction 1 as [|e es He _ IH]; simpl; [done|].
  destruct e; try done. by rewrite He.
Qed.

Lemma latched_untouched clk data es t :
  untouched clk es -> latched clk data (es ++ t) = latched clk data t.
Proof.
  induction 1 as [|e es He _ IH]; simpl; [done|].
  destruct e; try done. by rewrite He.
Qed.

Lemma sample_testbit t data k :
  0 <= k ->
  Z.testbit (sample t data) k =
  match data !! Z.to_nat k with Some p => level t p | None => false end.
Proof.
  revert k. induction data as [|p data IH]; intros k Hk; cbn [sample].
  { by rewrite Z.bits_0, lookup_nil. }
  destruct (decide (k = 0)) as [->|].
  - rewrite Z.add_comm, Z.testbit_0_r. done.
  - replace k with (Z.succ (k - 1)) at 1 by lia.
    rewrite Z.add_comm, Z.testbit_succ_r by lia. rewrite IH by lia.
    replace (Z.to_nat k) with (S (Z.to_nat (k - 1))) by lia. done.
Qed.

Lemma sample_in_width t data : in_width (Z.of_nat (length data)) (sample t data).
Proof.
  apply testbits_in_width; [lia|]. intros k Hk. rewrite sample_testbit by lia.
  by rewrite lookup_ge_None_2 by lia.
Qed.
