(* ===== verification/Relay.v ===== *)
(** * The relay driver: src/HARDWARE/Fiu/FiuProcess.c

    The globals of the file as a record, one definition per function.  The
    relays hang on fourteen 16-bit SN74374 registers, loaded through the shared
    data pins RELAYEN1..16 by a pulse on CHCLK1..14; [uDqStatus] is the
    firmware's copy of their contents.  Channel [c] owns relays [3c], [3c+1] and
    [3c+2], relay [r] being bit [r mod 16] of register [r / 16]. *)
From Stdlib Require Import ZArith Lia String.
From stdpp Require Import base tactics decidable list list_numbers numbers.
From S2P Require Import Prelude Board.
Open Scope Z_scope.
Open Scope c_scope.

Definition CHANNUMBER : Z := 72.

Record fiu := Fiu {
  tr : list event;               (** the effects so far, newest first *)
  g_FiuByte17Data : list Z;      (** the frame built by FiuHostDataAnalysis.c *)
  uFiuCom_buf : list Z;
  uDqStatus : list Z;
  uResistance : list Z;
  uKasuStatus : list Z;
  uKamnStatus : list Z;
  uFaultModePreStatus : Z;
  uFaultModeStatus : Z;
}.

#[export] Instance fiu_eta : Eta fiu := fun s =>
  Fiu (tr s) (g_FiuByte17Data s) (uFiuCom_buf s) (uDqStatus s) (uResistance s)
      (uKasuStatus s) (uKamnStatus s) (uFaultModePreStatus s) (uFaultModeStatus s).
#[export] Instance upd_tr : Upd tr := ltac:(derive_upd).
#[export] Instance upd_g_FiuByte17Data : Upd g_FiuByte17Data := ltac:(derive_upd).
#[export] Instance upd_uFiuCom_buf : Upd uFiuCom_buf := ltac:(derive_upd).
#[export] Instance upd_uDqStatus : Upd uDqStatus := ltac:(derive_upd).
#[export] Instance upd_uResistance : Upd uResistance := ltac:(derive_upd).
#[export] Instance upd_uKasuStatus : Upd uKasuStatus := ltac:(derive_upd).
#[export] Instance upd_uKamnStatus : Upd uKamnStatus := ltac:(derive_upd).
#[export] Instance upd_uFaultModePreStatus : Upd uFaultModePreStatus := ltac:(derive_upd).
#[export] Instance upd_uFaultModeStatus : Upd uFaultModeStatus := ltac:(derive_upd).

#[export] Instance fiu_trace : HasTrace fiu := {
  events := tr;
  emit_event e s := s <| tr ::= cons e |>;
}.

#[export] Instance fiu_trace_laws : HasTraceLaws fiu.
Proof. by constructor. Qed.

(** The globals as the C start-up code leaves them. *)
Definition fiu_boot : fiu := {|
  tr := [];
  g_FiuByte17Data := replicate 17 0;
  uFiuCom_buf := replicate 17 0;
  uDqStatus := replicate 14 0;
  uResistance := replicate 15 0;
  uKasuStatus := replicate 72 0;
  uKamnStatus := replicate 72 0;
  uFaultModePreStatus := 0;
  uFaultModeStatus := 0;
|}.

(** ** Registers *)

(** [CHCLKn_RESET;delay_ms(1);CHCLKn_SET;delay_ms(1);CHCLKn_RESET;] *)
Definition pulse (clk : pin) : M fiu unit :=
  pin_reset clk ;; delay_ms 1 ;; pin_set clk ;; delay_ms 1 ;; pin_reset clk.

(** The [switch (uNumber)] of [Sn74374_fun] and [Sn74374_Clear0]. *)
Definition clock_register (uNumber : Z) : M fiu unit :=
  match index CHCLK uNumber with
  | Some clk => pulse clk
  | None => skip
  end.

(** RELAYEN(k+1) takes bit k of the value. *)
Definition drive_data (uSetValuetemp : Z) : M fiu unit :=
  for_each (zip (seqZ 0 16) RELAYEN) (fun '(k, p) =>
    if bool_decide (Z.land (Z.shiftr uSetValuetemp k) 1 > 0) then pin_set p else pin_reset p).

Definition Sn74374_fun (uNumber uSetValue : Z) : M fiu unit :=
  old ← rd uDqStatus uNumber;
  let uSetValuetemp := u16 (Z.lor old uSetValue) in
  drive_data uSetValuetemp ;;
  wr uDqStatus uNumber uSetValuetemp ;;
  clock_register uNumber.

Definition Sn74374_Clear0 (uNumber : Z) : M fiu unit :=
  wr uDqStatus uNumber 0 ;;
  for_each RELAYEN pin_reset ;;
  clock_register uNumber.

Definition Sn74374_Set0 : M fiu unit :=
  for_each (seqZ 0 14) Sn74374_Clear0.

(** ** Bus lines *)
Definition HI_FunRelay_Set (uSetValue : Z) : M fiu unit :=
  if uSetValue =? 0 then
    write_pins [(CTRLBUS2, false); (CTRLBUS14, false); (CTRLBUS15, false);
                (CTRLBUS16, false); (CTRLBUS17, false)]
  else if uSetValue =? 1 then
    write_pins [(CTRLBUS2, false); (CTRLBUS14, false); (CTRLBUS15, false);
                (CTRLBUS16, false); (CTRLBUS17, false)]
  else if uSetValue =? 2 then
    write_pins [(CTRLBUS2, false); (CTRLBUS14, false); (CTRLBUS15, false);
                (CTRLBUS16, true); (CTRLBUS17, false)]
  else skip.

(** The lines 1, 2, 3, 4, 5, 6, 7, 10 and 11 every nonzero code of
    [HV_FunRelay_Set] writes, in its order. *)
Definition hv_lines (b3 b5 b6 b10 b11 : bool) : list (pin * bool) :=
  [(CTRLBUS1, true); (CTRLBUS2, false); (CTRLBUS3, b3); (CTRLBUS4, false);
   (CTRLBUS5, b5); (CTRLBUS6, b6); (CTRLBUS7, false); (CTRLBUS10, b10); (CTRLBUS11, b11)].

Definition HV_FunRelay_Set (uSetValue : Z) : M fiu unit :=
  if uSetValue =? 0 then
    write_pins ((fun p => (p, false)) <$> CTRLBUS)
  else if uSetValue =? 1 then
    write_pins (hv_lines false false false true true ++ [(CTRLBUS13, true)])
  else if uSetValue =? 2 then
    write_pins (hv_lines false false false true true ++ [(CTRLBUS13, false)])
  else if uSetValue =? 3 then
    write_pins (hv_lines false false false true false ++ [(CTRLBUS12, true)])
  else if uSetValue =? 4 then
    write_pins (hv_lines false false false true false ++ [(CTRLBUS12, false)])
  else if uSetValue =? 5 then
    write_pins (hv_lines false true true true true ++ [(CTRLBUS13, true)])
  else if uSetValue =? 6 then
    write_pins (hv_lines false true true true true ++ [(CTRLBUS13, false)])
  else if uSetValue =? 7 then
    write_pins (hv_lines false true true true false ++ [(CTRLBUS12, true)])
  else if uSetValue =? 8 then
    write_pins (hv_lines false true true true false ++ [(CTRLBUS13, false)])
  else if uSetValue =? 9 then
    write_pins (hv_lines false true false false false ++ [(CTRLBUS13, false)])
  else if uSetValue =? 10 then
    write_pins (hv_lines false true true false false ++ [(CTRLBUS13, false)])
  else if uSetValue =? 11 then
    write_pins (hv_lines true true true false false ++ [(CTRLBUS13, false)])
  else skip.

(** RESCTRL1..8 take the bits of the low byte, RESCTRL9..15 those of the high one. *)
Definition Resistance_select (uResvalueHigh uResvalueLow : Z) : M fiu unit :=
  if Z.land (Z.shiftr uResvalueHigh 7) 1 =? 0 then
    for_each (zip (seqZ 0 8) (take 8 RESCTRL)) (fun '(k, p) =>
      write_pin p (Z.land (Z.shiftr uResvalueLow k) 1 =? 1)) ;;
    for_each (zip (seqZ 0 7) (drop 8 RESCTRL)) (fun '(k, p) =>
      write_pin p (Z.land (Z.shiftr uResvalueHigh k) 1 =? 1))
  else skip.

(** ** One channel *)

(** The repeated lines
    [utemp=uChannel*3+k; uDqNumber=utemp/16; uDqPin=utemp%16; uDqPinVal=0x1<<uDqPin;]
    as the pair ([uDqNumber], [uDqPinVal]). *)
Definition relay_of (uChannel k : Z) : Z * Z :=
  let utemp := u8 (uChannel * 3 + k) in
  (u8 (utemp / 16), u16 (Z.shiftl 1 (utemp mod 16))).

(** ... followed by [Sn74374_fun(uDqNumber,uDqPinVal);]. *)
Definition close_relay (uChannel k : Z) : M fiu unit :=
  let '(uDqNumber, uDqPinVal) := relay_of uChannel k in
  Sn74374_fun uDqNumber uDqPinVal.

Definition fuhegz_set (uChannel uSetValue : Z) : M fiu unit :=
  close_relay uChannel 0 ;;
  (if uSetValue =? 2 then close_relay uChannel 1 ;; HV_FunRelay_Set 1
   else if uSetValue =? 3 then close_relay uChannel 1 ;; HV_FunRelay_Set 2
   else if uSetValue =? 4 then close_relay uChannel 1 ;; HV_FunRelay_Set 3
   else if uSetValue =? 5 then close_relay uChannel 1 ;; HV_FunRelay_Set 4
   else skip) ;;
  uFaultModePreStatus ::= 0.

Definition ddlgz_set (uChannel uSetValue : Z) : M fiu unit :=
  close_relay uChannel 0 ;;
  if uSetValue =? 2 then close_relay uChannel 1 ;; HI_FunRelay_Set 1
  else if uSetValue =? 3 then close_relay uChannel 1 ;; HI_FunRelay_Set 2
  else skip.

Definition kstdgz_set (uChannel uSetValue : Z) : M fiu unit :=
  close_relay uChannel 0 ;;
  close_relay uChannel 1 ;;
  close_relay uChannel 2 ;;
  wr uKasuStatus uChannel 1 ;;
  if uSetValue =? 1 then HV_FunRelay_Set 9
  else if uSetValue =? 2 then HV_FunRelay_Set 5
  else if uSetValue =? 3 then HV_FunRelay_Set 6
  else if uSetValue =? 4 then HV_FunRelay_Set 7
  else if uSetValue =? 5 then HV_FunRelay_Set 8
  else skip.

(** [HV_FunRelay_Set(v);Resistance_select(uFiuCom_buf[13],uFiuCom_buf[14]);] *)
Definition bus_and_resistance (v : Z) : M fiu unit :=
  HV_FunRelay_Set v ;;
  hi ← rd uFiuCom_buf 13;
  lo ← rd uFiuCom_buf 14;
  Resistance_select hi lo.

Definition ksldmn_set (uChannel uSetValue : Z) : M fiu unit :=
  close_relay uChannel 0 ;;
  close_relay uChannel 1 ;;
  close_relay uChannel 2 ;;
  wr uKasuStatus uChannel 1 ;;
  if uSetValue =? 1 then bus_and_resistance 10
  else if uSetValue =? 2 then bus_and_resistance 5
  else if uSetValue =? 3 then bus_and_resistance 6
  else if uSetValue =? 4 then bus_and_resistance 7
  else if uSetValue =? 5 then bus_and_resistance 8
  else if uSetValue =? 7 then bus_and_resistance 11
  else skip.

Definition ksldmn_two_set (uChannel1 uChannel2 type : Z) : M fiu unit :=
  close_relay uChannel1 0 ;;
  close_relay uChannel1 1 ;;
  Sn74374_fun (relay_of uChannel2 0).1 0 ;;
  close_relay uChannel2 2 ;;
  if type =? 0 then bus_and_resistance 10 else skip.

(** ** One frame *)
Definition tdreset_process : M fiu unit :=
  Sn74374_Set0 ;;
  HV_FunRelay_Set 0 ;;
  Resistance_select 0 0 ;;
  HI_FunRelay_Set 0.

(** [for (i=0;i<9;i++) if(uFiuCom_buf[i+3]>0) for(j=0;j<8;j++)
    { utemp=(uFiuCom_buf[i+3]>>j)&0x1; uChan=8*i+j; if(utemp==1) body }] *)
Definition for_channels {B} (acc : B) (body : B -> Z -> M fiu B) : M fiu B :=
  for_fold (seqZ 0 9) acc (fun acc i =>
    b ← rd uFiuCom_buf (i + 3);
    if b >? 0 then
      for_fold (seqZ 0 8) acc (fun acc j =>
        b ← rd uFiuCom_buf (i + 3);
        let utemp := Z.land (Z.shiftr b j) 1 in
        let uChan := u8 (8 * i + j) in
        if utemp =? 1 then body acc uChan else mret acc)
    else mret acc).

(** [for (i=0;i<17;i++) uFiuCom_buf[i]=0;] *)
Definition clear_buf : M fiu unit :=
  for_each (seqZ 0 17) (fun i => wr uFiuCom_buf i 0).

Definition fuhegz_process : M fiu unit :=
  tdreset_process ;;
  for_channels tt (fun _ uChan => t ← rd uFiuCom_buf 12; fuhegz_set uChan t) ;;
  clear_buf.

Definition kstdgz_process : M fiu unit :=
  tdreset_process ;;
  for_channels tt (fun _ uChan => t ← rd uFiuCom_buf 12; kstdgz_set uChan t) ;;
  clear_buf.

(** The local array [uChanSet[4]] filled from index 0 by [uChanSet[t++]=uChan]:
    its first [t] elements. *)
Definition uChanSet_push (set : list Z) (uChan : Z) : M fiu (list Z) :=
  if (length set <? 4)%nat then mret (set ++ [uChan]) else undefined OutOfBounds.

Definition ksldmn_process : M fiu unit :=
  tdreset_process ;;
  t ← rd uFiuCom_buf 12;
  (if ((0 <=? t) && (t <? 6)) || (t =? 7)
   then for_channels tt (fun _ uChan => t ← rd uFiuCom_buf 12; ksldmn_set uChan t)
   else skip) ;;
  t ← rd uFiuCom_buf 12;
  (if t =? 6 then
     uChanSet ← for_channels [] uChanSet_push;
     match uChanSet with
     | [c0; c1] => ksldmn_two_set c0 c1 0
     | _ => skip
     end
   else skip) ;;
  clear_buf.

Definition ddltdgz_process : M fiu unit :=
  tdreset_process ;;
  for_channels tt (fun _ uChan => t ← rd uFiuCom_buf 12; ddlgz_set uChan t) ;;
  clear_buf.

Definition FiuCom_Process (uType : Z) : M fiu unit :=
  for_each (seqZ 0 17) (fun i => b ← rd g_FiuByte17Data i; wr uFiuCom_buf i b) ;;
  b0 ← rd uFiuCom_buf 0;
  b1 ← rd uFiuCom_buf 1;
  b15 ← rd uFiuCom_buf 15;
  b16 ← rd uFiuCom_buf 16;
  if (b0 =? 0xbe) && (b1 =? 0xbe) && (b15 =? 0xed) && (b16 =? 0xed) then
    cmd ← rd uFiuCom_buf 2;
    if cmd =? 0 then fuhegz_process
    else if cmd =? 1 then kstdgz_process
    else if cmd =? 2 then ksldmn_process
    else if cmd =? 3 then ddltdgz_process
    else if cmd =? 4 then tdreset_process
    else emit (EvPrint "error")
  else skip.

(** ** What the relays do *)

(** The contents of register [n], as sampled from the data pins. *)
Definition register (n : nat) (s : fiu) : option Z :=
  clk ← CHCLK !! n; latched clk RELAYEN (tr s).

(** Relay [r] is energised: bit [r mod 16] of register [r / 16]. *)
Definition energised (s : fiu) (r : Z) : bool :=
  match register (Z.to_nat (r / 16)) s with
  | Some v => Z.testbit v (r mod 16)
  | None => false
  end.

(** The output register of bus line CTRLBUSn. *)
Definition bus_level (s : fiu) (n : Z) : bool :=
  match index CTRLBUS (n - 1) with
  | Some p => level (tr s) p
  | None => false
  end.

(** The level the firmware gives bus line CTRLBUSn, [None] when the line is not an
    output: line 6 is the output of TIM10 after a loose contact (timer.c, 117-122). *)
Definition bus_driven (s : fiu) (n : Z) : option bool :=
  p ← index CTRLBUS (n - 1); driven (tr s) p.

(** The resistance code on RESCTRL1..15. *)
Definition resistance (s : fiu) : Z := sample (tr s) RESCTRL.
