(* ===== verification/RelaySpec.v ===== *)
(** * What the relay driver does

    Registers against [uDqStatus], channels against relays, and the state of
    relays, bus lines and resistance lines after each kind of frame. *)
From Stdlib Require Import ZArith Lia.
From stdpp Require Import base tactics decidable list list_numbers numbers.
From S2P Require Import Prelude Board Relay.
Open Scope Z_scope.
Open Scope c_scope.

(** ** Who writes which pins *)
Definition RELAY_PINS : list pin := RELAYEN ++ CHCLK.

Definition writes_in (G : list pin) (es : list event) : Prop :=
  Forall (fun e => match e with EvPin q _ => q ∈ G | _ => True end) es.

Lemma writes_in_untouched G es p : p ∉ G -> writes_in G es -> untouched p es.
Proof.
  unfold writes_in, untouched. intros Hp W. eapply Forall_impl; [|exact W].
  intros [] ?; try done. apply pin_eqb_ne. by intros ->.
Qed.

Lemma writes_in_app G es1 es2 :
  writes_in G es1 -> writes_in G es2 -> writes_in G (es1 ++ es2).
Proof. apply Forall_app_2. Qed.

Lemma level_writes_in G es t p :
  writes_in G es -> p ∉ G -> level (es ++ t) p = level t p.
Proof. intros. by apply level_untouched, (writes_in_untouched G). Qed.

Lemma sample_writes_in G es t data :
  writes_in G es -> (forall p, p ∈ data -> p ∉ G) -> sample (es ++ t) data = sample t data.
Proof.
  intros W. induction data as [|p data IH]; intros H; simpl; [done|].
  rewrite (level_writes_in G) by (done || apply H; constructor).
  by rewrite IH by (intros; apply H; by constructor).
Qed.

Lemma latched_writes_in G es t clk data :
  writes_in G es -> clk ∉ G -> latched clk data (es ++ t) = latched clk data t.
Proof. intros. by apply latched_untouched, (writes_in_untouched G). Qed.

(** The pin groups do not overlap. *)
Lemma groups_NoDup : NoDup (RELAYEN ++ CHCLK ++ CTRLBUS ++ RESCTRL).
Proof. apply (bool_decide_eq_true_1 (NoDup _)). by vm_compute. Qed.

Lemma disjoint_bool (G G' : list pin) :
  forallb (fun p => negb (bool_decide (p ∈ G'))) G = true ->
  forall p, p ∈ G -> p ∉ G'.
Proof.
  rewrite forallb_forall. intros H p Hp Hp'. apply list_elem_of_In in Hp.
  specialize (H p Hp). rewrite bool_decide_eq_true_2 in H by done. done.
Qed.

Lemma subset_bool (G G' : list pin) :
  forallb (fun p => bool_decide (p ∈ G')) G = true -> forall p, p ∈ G -> p ∈ G'.
Proof.
  rewrite forallb_forall. intros H p Hp. apply list_elem_of_In in Hp.
  specialize (H p Hp). by apply bool_decide_eq_true_1 in H.
Qed.

Lemma chclk_NoDup : NoDup CHCLK.
Proof. apply (bool_decide_eq_true_1 (NoDup _)). by vm_compute. Qed.

Lemma chclk_not_relayen p : p ∈ CHCLK -> p ∉ RELAYEN.
Proof. apply disjoint_bool. by vm_compute. Qed.

Lemma chclk_not_bus p : p ∈ CHCLK -> p ∉ CTRLBUS ++ RESCTRL.
Proof. apply disjoint_bool. by vm_compute. Qed.

Lemma bus_not_relay p : p ∈ CTRLBUS -> p ∉ RELAY_PINS ++ RESCTRL.
Proof. apply disjoint_bool. by vm_compute. Qed.

Lemma resctrl_not_relay p : p ∈ RESCTRL -> p ∉ RELAY_PINS ++ CTRLBUS.
Proof. apply disjoint_bool. by vm_compute. Qed.

(** ** Registers *)

(** Bit [k] of the value goes to RELAYEN(k+1). *)
Definition drive_events (v : Z) : list event :=
  rev ((fun '(k, p) => EvPin p (Z.testbit v k)) <$> zip (seqZ 0 16) RELAYEN).

Definition pulse_events (clk : pin) : list event :=
  [EvPin clk false; EvDelayMs 1; EvPin clk true; EvDelayMs 1; EvPin clk false].

Lemma land_shiftr_1 v k : 0 <= k -> Z.land (Z.shiftr v k) 1 = Z.b2z (Z.testbit v k).
Proof.
  intros Hk. rewrite (Z.land_ones _ 1) by lia. change (2 ^ 1) with 2.
  rewrite Z.testbit_spec' by lia. by rewrite Z.shiftr_div_pow2 by lia.
Qed.

Lemma bit_gt_0 v k : 0 <= k -> bool_decide (Z.land (Z.shiftr v k) 1 > 0) = Z.testbit v k.
Proof. intros. rewrite land_shiftr_1 by done. by destruct (Z.testbit v k). Qed.

Lemma bit_eq_1 v k : 0 <= k -> (Z.land (Z.shiftr v k) 1 =? 1) = Z.testbit v k.
Proof. intros. rewrite land_shiftr_1 by done. by destruct (Z.testbit v k). Qed.

(** A loop of pin writes is a list of effects. *)
Lemma for_each_pins {A} (l : list A) (body : A -> M fiu unit) (f : A -> event) s :
  (forall x s, x ∈ l -> body x s = Done tt (emit_event (f x) s)) ->
  for_each l body s = Done tt (s <| tr ::= app (rev (f <$> l)) |>).
Proof.
  revert s. induction l as [|x l IH]; intros s H; [by destruct s|].
  simpl for_each. rewrite (bind_Done _ _ _ _ _ (H x s ltac:(constructor))).
  rewrite IH by (intros; apply H; by constructor).
  simpl. f_equal. unfold upd, upd_tr. simpl. by rewrite <- app_assoc.
Qed.

Lemma drive_data_run v s : drive_data v s = Done tt (s <| tr ::= app (drive_events v) |>).
Proof.
  unfold drive_data. apply for_each_pins. intros [k p] s' Hx.
  apply elem_of_zip_l, elem_of_seqZ in Hx. rewrite bit_gt_0 by lia.
  by destruct (Z.testbit v k).
Qed.

Lemma clock_register_run n clk s :
  index CHCLK n = Some clk ->
  clock_register n s = Done tt (s <| tr ::= app (pulse_events clk) |>).
Proof. unfold clock_register. by intros ->. Qed.

Lemma drive_sample v t : is_u16 v -> sample (drive_events v ++ t) RELAYEN = v.
Proof.
  intros Hv. apply (bits_ext_width 16); [apply (sample_in_width _ RELAYEN)|done|].
  intros k Hk. rewrite sample_testbit by lia.
  assert (k = 0 \/ k = 1 \/ k = 2 \/ k = 3 \/ k = 4 \/ k = 5 \/ k = 6 \/ k = 7 \/ k = 8 \/
    k = 9 \/ k = 10 \/ k = 11 \/ k = 12 \/ k = 13 \/ k = 14 \/ k = 15) by lia.
  destruct_or!; subst; reflexivity.
Qed.

(** The copy [uDqStatus] agrees with what the registers have sampled. *)
Record coherent (s : fiu) : Prop := {
  coh_len : length (uDqStatus s) = 14%nat;
  coh_u16 : Forall is_u16 (uDqStatus s);
  coh_reg : forall n, register n s = uDqStatus s !! n;
  coh_frame : length (g_FiuByte17Data s) = 17%nat;
}.

Lemma chclk_lookup n : (n < 14)%nat -> exists clk, CHCLK !! n = Some clk /\ index CHCLK (Z.of_nat n) = Some clk.
Proof.
  intros. rewrite index_of_nat. destruct (lookup_lt_is_Some_2 CHCLK n) as [clk ?]; eauto.
Qed.

Lemma pulse_latched clk data t :
  clk ∉ data -> latched clk data (pulse_events clk ++ t) = Some (sample t data).
Proof.
  intros Hc. unfold pulse_events. simpl. rewrite !pin_eqb_refl. simpl. f_equal.
  induction data as [|p data IH]; simpl; [done|].
  apply not_elem_of_cons in Hc as [Hp Hc]. rewrite IH by done. by rewrite pin_eqb_ne by done.
Qed.

Lemma drive_writes v : writes_in RELAYEN (drive_events v).
Proof.
  unfold writes_in, drive_events. apply Forall_rev, Forall_fmap, Forall_forall.
  intros [k p] Hx%list_elem_of_In. by apply elem_of_zip_r in Hx.
Qed.

Lemma pulse_writes clk : writes_in [clk] (pulse_events clk).
Proof. repeat constructor. Qed.

(** A load of register [n] with [v], seen from any register. *)
Lemma register_load n n' clk v s :
  is_u16 v -> CHCLK !! n = Some clk ->
  register n' (s <| tr ::= fun t => pulse_events clk ++ drive_events v ++ t |>) =
  if bool_decide (n' = n) then Some v else register n' s.
Proof.
  intros Hv Hclk. unfold register. case_bool_decide as E.
  - subst. rewrite Hclk. cbn -[pulse_events drive_events].
    rewrite pulse_latched by (by apply chclk_not_relayen, list_elem_of_lookup_2 with n).
    by rewrite drive_sample.
  - destruct (CHCLK !! n') as [clk'|] eqn:Hclk'; [|done]. cbn -[pulse_events drive_events].
    assert (clk' ∈ CHCLK) by by apply list_elem_of_lookup_2 with n'.
    rewrite (latched_writes_in [clk]) by
      (apply pulse_writes || (intros ->%list_elem_of_singleton;
       apply E; eapply NoDup_lookup; eauto using chclk_NoDup)).
    rewrite (latched_writes_in RELAYEN) by (apply drive_writes || by apply chclk_not_relayen).
    done.
Qed.

(** ** The state of the board *)

(** The frame buffer is [f], the relays [R] are energised, exactly the bus lines
    [L] are high, and the resistance code is [v]. *)
Record board (f : list Z) (R : Z -> bool) (L : list Z) (v : Z) (s : fiu) : Prop := {
  bd_coh : coherent s;
  bd_buf : uFiuCom_buf s = f;
  bd_kasu : length (uKasuStatus s) = 72%nat;
  bd_relays : forall r, 0 <= r < 224 -> energised s r = R r;
  bd_bus : forall n, 1 <= n <= 17 -> bus_level s n = bool_decide (n ∈ L);
  bd_res : resistance s = v;
}.

Lemma board_ext f R R' L v s :
  (forall r, 0 <= r < 224 -> R r = R' r) -> board f R L v s -> board f R' L v s.
Proof. intros HR []. constructor; try done. intros. rewrite <- HR by done. auto. Qed.

Lemma writes_in_mono G G' es : (forall p, p ∈ G -> p ∈ G') -> writes_in G es -> writes_in G' es.
Proof. intros H W. eapply Forall_impl; [|exact W]. intros [] ?; auto. Qed.

Lemma writes_in_l G G' es : writes_in G es -> writes_in (G ++ G') es.
Proof. apply writes_in_mono. intros. apply elem_of_app. by left. Qed.

Lemma writes_in_r G G' es : writes_in G' es -> writes_in (G ++ G') es.
Proof. apply writes_in_mono. intros. apply elem_of_app. by right. Qed.

Lemma load_writes clk v :
  clk ∈ CHCLK -> writes_in RELAY_PINS (pulse_events clk ++ drive_events v).
Proof.
  intros Hc. apply writes_in_app.
  - eapply writes_in_mono; [|apply pulse_writes]. intros p ->%list_elem_of_singleton.
    apply elem_of_app. by right.
  - eapply Forall_impl; [|apply drive_writes]. intros [] ?; try done.
    apply elem_of_app; by left.
Qed.

Lemma bus_level_writes_in es s n :
  writes_in (RELAY_PINS ++ RESCTRL) es ->
  bus_level (s <| tr ::= app es |>) n = bus_level s n.
Proof.
  intros W. unfold bus_level. destruct (index CTRLBUS (n - 1)) as [p|] eqn:Hp; [|done].
  apply index_Some in Hp as [_ Hp%list_elem_of_lookup_2].
  eapply level_writes_in; [exact W|]. by apply bus_not_relay.
Qed.

Lemma resistance_writes_in es s :
  writes_in (RELAY_PINS ++ CTRLBUS) es ->
  resistance (s <| tr ::= app es |>) = resistance s.
Proof. intros W. eapply sample_writes_in; [exact W|]. by apply resctrl_not_relay. Qed.

Lemma register_writes_in es s n :
  writes_in (CTRLBUS ++ RESCTRL) es ->
  register n (s <| tr ::= app es |>) = register n s.
Proof.
  intros W. unfold register. destruct (CHCLK !! n) as [clk|] eqn:Hclk; [|done].
  eapply latched_writes_in; [exact W|].
  by apply chclk_not_bus, list_elem_of_lookup_2 with n.
Qed.

(** Register [n] loaded with [x]. *)
Definition load (n : nat) (x : Z) (clk : pin) (s : fiu) : fiu :=
  s <| uDqStatus := <[n := x]> (uDqStatus s) |>
    <| tr ::= app (pulse_events clk ++ drive_events x) |>.

Lemma energised_register s s' r :
  register (Z.to_nat (r / 16)) s' = register (Z.to_nat (r / 16)) s ->
  energised s' r = energised s r.
Proof. unfold energised. by intros ->. Qed.

Lemma register_load_eq n n' clk x s :
  is_u16 x -> CHCLK !! n = Some clk ->
  register n' (load n x clk s) = if bool_decide (n' = n) then Some x else register n' s.
Proof.
  intros Hx Hclk. unfold load. etrans; [|by eapply register_load]. unfold register.
  destruct (CHCLK !! n'); [|done]. cbn -[pulse_events drive_events]. by rewrite <- app_assoc.
Qed.

Lemma board_load f R L v n x clk s :
  board f R L v s -> CHCLK !! n = Some clk -> is_u16 x ->
  board f (fun r => if r / 16 =? Z.of_nat n then Z.testbit x (r mod 16) else R r) L v
    (load n x clk s).
Proof.
  intros [[Hlen H16 Hreg Hfr] Hbuf Hkasu HR HL Hv] Hclk Hx.
  assert (n < 14)%nat by (by apply lookup_lt_Some in Hclk).
  assert (forall n', register n' (load n x clk s) =
    if bool_decide (n' = n) then Some x else register n' s) as Hload
    by (intros; by apply register_load_eq).
  assert (writes_in RELAY_PINS (pulse_events clk ++ drive_events x)) as W
    by by apply load_writes, list_elem_of_lookup_2 with n.
  constructor; try done.
  - constructor; [| | |done].
    + unfold load. cbn. by rewrite length_insert.
    + by apply Forall_insert.
    + intros n'. rewrite Hload. unfold load. cbn. case_bool_decide as E.
      * subst. by rewrite list_lookup_insert_eq by lia.
      * by rewrite list_lookup_insert_ne by done.
  - intros r Hr. assert (0 <= r / 16) by (apply Z.div_pos; lia).
    destruct (Z.eqb_spec (r / 16) (Z.of_nat n)) as [E|E].
    + unfold energised. rewrite Hload, E, Nat2Z.id, bool_decide_eq_true_2 by done. done.
    + rewrite <- HR by done. apply energised_register. rewrite Hload.
      by rewrite bool_decide_eq_false_2 by lia.
  - intros k Hk. rewrite <- HL by done.
    unfold load. by rewrite bus_level_writes_in by by apply writes_in_l.
  - rewrite <- Hv.
    unfold load. by rewrite resistance_writes_in by by apply writes_in_l.
Qed.

Lemma fiu_app_app s es es' :
  s <| tr ::= app es |> <| tr ::= app es' |> = s <| tr ::= app (es' ++ es) |>.
Proof. unfold upd, upd_tr. cbn. by rewrite app_assoc. Qed.

Lemma Sn74374_fun_run n old x clk s :
  uDqStatus s !! n = Some old -> CHCLK !! n = Some clk -> is_u16 old -> is_u16 x ->
  Sn74374_fun (Z.of_nat n) x s = Done tt (load n (Z.lor old x) clk s).
Proof.
  intros Hold Hclk Ho Hx. unfold Sn74374_fun, u16.
  rewrite (bind_Done _ _ _ old s) by (apply rd_Done; by rewrite index_of_nat).
  rewrite in_width_small by auto with width.
  rewrite (bind_Done _ _ _ _ _ (drive_data_run _ _)).
  apply lookup_lt_Some in Hold.
  rewrite bind_wr by (change (uDqStatus _) with (uDqStatus s); lia).
  assert (index CHCLK (Z.of_nat n) = Some clk) as Hi by by rewrite index_of_nat.
  rewrite (clock_register_run _ clk _ Hi), Nat2Z.id. unfold load. f_equal.
Qed.

(** [Sn74374_fun] closes the relays of the mask and opens none. *)
Lemma Sn74374_fun_board f R L v n x s :
  board f R L v s -> (n < 14)%nat -> is_u16 x ->
  wp (Sn74374_fun (Z.of_nat n) x) (fun _ =>
    board f (fun r => R r || ((r / 16 =? Z.of_nat n) && Z.testbit x (r mod 16))) L v) s.
Proof.
  intros HB Hn Hx. pose proof HB as [[Hlen H16 Hreg Hfr] _ _ HR _ _].
  destruct (chclk_lookup n Hn) as (clk & Hclk & _).
  destruct (lookup_lt_is_Some_2 (uDqStatus s) n) as [old Hold]; [lia|].
  assert (is_u16 old) by by eapply Forall_lookup_1.
  unfold wp. rewrite (Sn74374_fun_run n old x clk) by done.
  eapply board_ext; [|apply (board_load f R L v); auto with width].
  intros r Hr. cbn. destruct (Z.eqb_spec (r / 16) (Z.of_nat n)) as [E|E]; cbn.
  - rewrite Z.lor_spec. f_equal. rewrite <- HR by done. unfold energised.
    by rewrite E, Nat2Z.id, Hreg, Hold.
  - by rewrite orb_false_r.
Qed.

(** [close_relay c k] closes relay [3c + k] and nothing else. *)
Lemma close_relay_board f R L v c k s :
  board f R L v s -> 0 <= c < 72 -> 0 <= k < 3 ->
  wp (close_relay c k) (fun _ => board f (fun r => R r || (r =? 3 * c + k)) L v) s.
Proof.
  intros HB Hc Hk. unfold close_relay, relay_of.
  assert (u8 (c * 3 + k) = 3 * c + k) as -> by (unfold u8; rewrite Z.mod_small; lia).
  set (r0 := 3 * c + k). assert (0 <= r0 / 16 < 14) by
    (split; [apply Z.div_pos|apply Z.div_lt_upper_bound]; lia).
  assert (0 <= r0 mod 16 < 16) by (apply Z.mod_pos_bound; lia).
  assert (u8 (r0 / 16) = Z.of_nat (Z.to_nat (r0 / 16))) as ->
    by (unfold u8; rewrite Z.mod_small; lia).
  assert (is_u16 (Z.shiftl 1 (r0 mod 16))) by auto with width.
  unfold u16. rewrite in_width_small by done.
  eapply wp_mono; [apply Sn74374_fun_board; [exact HB|lia|done]|].
  intros [] s' HB'. eapply board_ext; [|exact HB']. intros r Hr. cbn.
  f_equal. rewrite testbit_one_shl, Z2Nat.id by lia. apply eq_true_iff_eq.
  rewrite andb_true_iff, bool_decide_eq_true, !Z.eqb_eq.
  split; [|by intros ->]. intros [E1 E2].
  rewrite (Z.div_mod r 16), (Z.div_mod r0 16) by lia. lia.
Qed.

(** ** Resets *)
Lemma Sn74374_Clear0_run n clk s :
  CHCLK !! n = Some clk -> (n < length (uDqStatus s))%nat ->
  Sn74374_Clear0 (Z.of_nat n) s = Done tt (load n 0 clk s).
Proof.
  intros Hclk Hn. unfold Sn74374_Clear0. rewrite bind_wr by lia.
  assert (index CHCLK (Z.of_nat n) = Some clk) as Hi by by rewrite index_of_nat.
  rewrite (bind_Done _ _ _ _ _
    (for_each_pins RELAYEN pin_reset (fun p => EvPin p false) _ ltac:(done))).
  rewrite (clock_register_run _ clk _ Hi), Nat2Z.id. done.
Qed.

Definition bus_lines (s : fiu) : list Z := filter (fun n => bus_level s n = true) (seqZ 1 17).

Lemma register_out n s : (14 <= n)%nat -> register n s = None.
Proof. intros. unfold register. by rewrite (lookup_ge_None_2 CHCLK) by done. Qed.

Lemma bus_lines_spec s n :
  1 <= n <= 17 -> bus_level s n = bool_decide (n ∈ bus_lines s).
Proof.
  intros Hn. apply eq_true_iff_eq. unfold bus_lines.
  rewrite bool_decide_eq_true, list_elem_of_filter, elem_of_seqZ. intuition lia.
Qed.

(** [Sn74374_Set0] opens every relay, whatever the registers held before. *)
Lemma Sn74374_Set0_board s :
  length (uDqStatus s) = 14%nat -> length (uKasuStatus s) = 72%nat ->
  length (g_FiuByte17Data s) = 17%nat ->
  wp Sn74374_Set0 (fun _ s' =>
    board (uFiuCom_buf s) (fun _ => false) (bus_lines s') (resistance s') s') s.
Proof.
  intros Hlen Hkasu Hfr.
  eapply wp_mono; [apply (wp_each_seqZ (fun i s' =>
    uFiuCom_buf s' = uFiuCom_buf s /\ length (uKasuStatus s') = 72%nat /\
    length (g_FiuByte17Data s') = 17%nat /\
    length (uDqStatus s') = 14%nat /\
    forall n, (Z.of_nat n < i) -> (n < 14)%nat ->
      uDqStatus s' !! n = Some 0 /\ register n s' = Some 0))|].
  - lia.
  - repeat split; auto; lia.
  - intros i s' Hi (Hbuf & Hk & Hf & Hl & Hdone).
    destruct (chclk_lookup (Z.to_nat i)) as (clk & Hclk & _); [lia|].
    assert (forall n', register n' (load (Z.to_nat i) 0 clk s') =
      if bool_decide (n' = Z.to_nat i) then Some 0 else register n' s') as Hload
      by (intros; by apply register_load_eq).
    pose proof (Sn74374_Clear0_run (Z.to_nat i) clk s' Hclk ltac:(lia)) as E.
    rewrite Z2Nat.id in E by lia. unfold wp. rewrite E. clear E.
    repeat split; try done.
    + unfold load. cbn. by rewrite length_insert.
    + unfold load. cbn. destruct (decide (n = Z.to_nat i)) as [->|].
      * by rewrite list_lookup_insert_eq by lia.
      * rewrite list_lookup_insert_ne by done. apply Hdone; lia.
    + rewrite Hload. case_bool_decide; [done|]. apply Hdone; lia.
  - cbn. intros [] s' (Hbuf & Hk & Hf & Hl & Hdone).
    constructor; try done.
    + constructor; [done| | |done].
      * apply Forall_lookup. intros n x Hx.
        pose proof (lookup_lt_Some _ _ _ Hx). destruct (Hdone n) as [E _]; [lia..|].
        rewrite E in Hx. injection Hx as <-. by apply (bool_decide_eq_true_1 _).
      * intros n. destruct (decide (n < 14)%nat).
        -- by destruct (Hdone n) as [-> ->]; [lia..|].
        -- rewrite register_out, lookup_ge_None_2 by lia. done.
    + intros r Hr. unfold energised.
      assert (0 <= r / 16 < 14) by
        (split; [apply Z.div_pos|apply Z.div_lt_upper_bound]; lia).
      destruct (Hdone (Z.to_nat (r / 16))) as [_ ->]; [lia..|]. apply Z.bits_0.
    + intros. by apply bus_lines_spec.
Qed.

(** ** Bus lines *)

(** The last level a sequence of writes gives to [p]. *)
Fixpoint final (W : list (pin * bool)) (p : pin) : option bool :=
  match W with
  | [] => None
  | (q, b) :: W =>
      match final W p with
      | Some b' => Some b'
      | None => if pin_eqb p q then Some b else None
      end
  end.

Definition write_events (W : list (pin * bool)) : list event :=
  rev ((fun '(p, b) => EvPin p b) <$> W).

Lemma write_pins_run W s :
  write_pins W s = Done tt (s <| tr ::= app (write_events W) |>).
Proof. apply for_each_pins. by intros [p b]. Qed.

Lemma level_write_events W t p :
  level (write_events W ++ t) p = default (level t p) (final W p).
Proof.
  revert t. induction W as [|[q b] W IH]; intros t; [done|].
  unfold write_events in *. cbn -[level]. rewrite <- app_assoc, IH.
  destruct (final W p); [done|]. simpl. by destruct (pin_eqb p q).
Qed.

Definition writes_bus (W : list (pin * bool)) : bool :=
  forallb (fun '(p, _) => bool_decide (p ∈ CTRLBUS)) W.

(** The writes take the bus lines from [L0] to [L]. *)
Definition bus_step (L0 : list Z) (W : list (pin * bool)) (L : list Z) : bool :=
  forallb (fun '(n, p) =>
    eqb (default (bool_decide (n ∈ L0)) (final W p)) (bool_decide (n ∈ L)))
    (zip (seqZ 1 17) CTRLBUS).

Lemma ctrlbus_zip n p :
  index CTRLBUS (n - 1) = Some p -> (n, p) ∈ zip (seqZ 1 17) CTRLBUS.
Proof.
  intros [Hn Hp]%index_Some. apply list_elem_of_lookup_2 with (Z.to_nat (n - 1)).
  apply lookup_zip_Some. split; [|done]. apply lookup_lt_Some in Hp.
  change (length CTRLBUS) with 17%nat in Hp. apply lookup_seqZ. lia.
Qed.

Lemma write_bus_board f R L0 L v W s :
  board f R L0 v s -> writes_bus W = true -> bus_step L0 W L = true ->
  wp (write_pins W) (fun _ => board f R L v) s.
Proof.
  intros [[Hlen H16 Hreg Hfr] Hbuf Hkasu HR HL Hv] HW HS.
  assert (writes_in CTRLBUS (write_events W)) as HWE.
  { apply Forall_rev, Forall_fmap, Forall_forall. intros [p b] Hx.
    unfold writes_bus in HW. rewrite forallb_forall in HW.
    specialize (HW _ Hx). cbn in HW |- *. by apply bool_decide_eq_true_1 in HW. }
  unfold wp. rewrite write_pins_run. constructor; try done.
  - constructor; try done. intros n. rewrite <- Hreg.
    apply register_writes_in. by apply writes_in_l.
  - intros r Hr. rewrite <- HR by done. apply energised_register, register_writes_in.
    by apply writes_in_l.
  - intros n Hn. specialize (HL n Hn). unfold bus_level in *.
    destruct (index CTRLBUS (n - 1)) as [p|] eqn:Hp.
    + unfold bus_step in HS. rewrite forallb_forall in HS.
      pose proof (proj1 (list_elem_of_In _ _) (ctrlbus_zip _ _ Hp)) as Hin.
      specialize (HS _ Hin). apply eqb_prop in HS. rewrite <- HS, <- HL.
      apply level_write_events.
    + apply index_None in Hp. change (length CTRLBUS) with 17%nat in Hp. lia.
  - rewrite <- Hv. apply resistance_writes_in. by apply writes_in_r.
Qed.

(** ** Resistance lines *)

(** The code on RESCTRL1..15: bits 0..7 from the low byte, 8..14 from the high one. *)
Definition resistance_code (hi lo : Z) : Z := le_value [lo; hi].

Definition resistance_writes (hi lo : Z) : list (pin * bool) :=
  ((fun '(k, p) => (p, Z.testbit lo k)) <$> zip (seqZ 0 8) (take 8 RESCTRL)) ++
  ((fun '(k, p) => (p, Z.testbit hi k)) <$> zip (seqZ 0 7) (drop 8 RESCTRL)).

Lemma resistance_loop_run b n l s :
  for_each (zip (seqZ 0 n) l) (fun '(k, p) => write_pin p (Z.land (Z.shiftr b k) 1 =? 1)) s =
  Done tt (s <| tr ::= app (write_events ((fun '(k, p) => (p, Z.testbit b k)) <$> zip (seqZ 0 n) l)) |>).
Proof.
  rewrite (for_each_pins _ _ (fun '(k, p) => EvPin p (Z.testbit b k))).
  - unfold write_events. do 4 f_equal. rewrite <- list_fmap_compose.
    apply list_fmap_ext. by intros ? [k p] _.
  - intros [k p] s' Hx. apply elem_of_zip_l, elem_of_seqZ in Hx. by rewrite bit_eq_1 by lia.
Qed.

Lemma Resistance_select_run hi lo s :
  is_u8 hi ->
  Resistance_select hi lo s =
  Done tt (if hi <? 128 then s <| tr ::= app (write_events (resistance_writes hi lo)) |> else s).
Proof.
  intros Hhi. unfold Resistance_select.
  assert ((Z.land (Z.shiftr hi 7) 1 =? 0) = (hi <? 128)) as ->.
  { unfold in_width in Hhi. rewrite (Z.land_ones _ 1), Z.shiftr_div_pow2 by lia.
    apply eq_true_iff_eq. rewrite Z.eqb_eq, Z.ltb_lt.
    change (2 ^ 7) with 128. change (2 ^ 1) with 2. change (2 ^ 8) with 256 in Hhi.
    Z.to_euclidean_division_equations. lia. }
  destruct (hi <? 128); [|done].
  rewrite (bind_Done _ _ _ _ _ (resistance_loop_run lo 8 (take 8 RESCTRL) s)).
  by rewrite resistance_loop_run.
Qed.

Lemma resistance_writes_sample hi lo t :
  is_u8 hi -> is_u8 lo -> hi < 128 ->
  sample (write_events (resistance_writes hi lo) ++ t) RESCTRL = resistance_code hi lo.
Proof.
  intros Hhi Hlo H. unfold in_width in Hhi, Hlo. apply (bits_ext_width 15).
  - apply (sample_in_width _ RESCTRL).
  - unfold resistance_code, in_width. cbn -[Z.add Z.mul Z.pow]. lia.
  - intros k Hk. rewrite sample_testbit by lia.
    unfold resistance_code. rewrite le_value_testbit by (repeat constructor; unfold in_width; lia).
    assert (k = 0 \/ k = 1 \/ k = 2 \/ k = 3 \/ k = 4 \/ k = 5 \/ k = 6 \/ k = 7 \/ k = 8 \/
      k = 9 \/ k = 10 \/ k = 11 \/ k = 12 \/ k = 13 \/ k = 14) by lia.
    destruct_or!; subst; reflexivity.
Qed.

Lemma Resistance_select_board f R L v hi lo s :
  board f R L v s -> is_u8 hi -> is_u8 lo ->
  wp (Resistance_select hi lo) (fun _ =>
    board f R L (if hi <? 128 then resistance_code hi lo else v)) s.
Proof.
  intros HB Hhi Hlo. unfold wp. rewrite Resistance_select_run by done.
  destruct (Z.ltb_spec hi 128); [|done].
  destruct HB as [[Hlen H16 Hreg Hfr] Hbuf Hkasu HR HL Hv].
  assert (writes_in RESCTRL (write_events (resistance_writes hi lo))) as W.
  { apply Forall_rev, Forall_fmap, Forall_app. split; apply Forall_fmap, Forall_forall;
    intros [k p] Hx%list_elem_of_In; apply elem_of_zip_r in Hx; cbn.
    - revert Hx. apply subset_bool. by vm_compute.
    - revert Hx. apply subset_bool. by vm_compute. }
  constructor; try done.
  - constructor; try done. intros n. rewrite <- Hreg.
    apply register_writes_in. by apply writes_in_r.
  - intros r Hr. rewrite <- HR by done. apply energised_register, register_writes_in.
    by apply writes_in_r.
  - intros n Hn. rewrite <- HL by done. apply bus_level_writes_in. by apply writes_in_r.
  - by apply resistance_writes_sample.
Qed.

(** [tdreset_process] opens every relay and takes every line low, from any state. *)
Lemma tdreset_board s :
  length (uDqStatus s) = 14%nat -> length (uKasuStatus s) = 72%nat ->
  length (g_FiuByte17Data s) = 17%nat ->
  wp tdreset_process (fun _ => board (uFiuCom_buf s) (fun _ => false) [] 0) s.
Proof.
  intros Hd Hk Hf. unfold tdreset_process.
  repeat wp_step. eapply wp_mono; [by apply Sn74374_Set0_board|].
  intros [] s1 H1. repeat wp_step. unfold HV_FunRelay_Set. simpl (0 =? 0). cbv iota.
  eapply wp_mono; [apply (write_bus_board _ _ _ [] _ _ _ H1); by vm_compute|].
  intros [] s2 H2. repeat wp_step.
  eapply wp_mono; [apply (Resistance_select_board _ _ _ _ 0 0 _ H2); unfold in_width; lia|].
  intros [] s3 H3. unfold HI_FunRelay_Set. simpl (0 =? 0). cbv iota.
  eapply wp_mono; [apply (write_bus_board _ _ _ [] _ _ _ H3); by vm_compute|].
  by intros [] s4.
Qed.
