(* ===== verification/Frames.v ===== *)
(** * One frame, from the bytes to the board

    What [FiuCom_Process] of src/HARDWARE/Fiu/FiuProcess.c promises: which
    relays, bus lines and resistance code each of the 17-byte frames selects,
    as tables over the bytes of the frame, and that the code implements them. *)
From Stdlib Require Import ZArith Lia Btauto String.
From stdpp Require Import base tactics decidable list list_numbers numbers.
From S2P Require Import Prelude Board Relay RelaySpec.
Open Scope Z_scope.
Open Scope c_scope.

(** ** The contract of a frame *)

(** Channel [c] is selected by bit [c mod 8] of byte [3 + c / 8]. *)
Definition selected (f : list Z) (c : Z) : bool :=
  (0 <=? c) && (c <? 72) && Z.testbit (nth (Z.to_nat (3 + c / 8)) f 0) (c mod 8).

(** Some channel below [n] is selected. *)
Definition any_selected (f : list Z) (n : Z) : bool := existsb (selected f) (seqZ 0 n).

(** Relay [k] of a selected channel is closed by a frame of this kind and type. *)
Definition wants (kind type k : Z) : bool :=
  if kind =? 0 then (k =? 0) || ((k =? 1) && (2 <=? type) && (type <=? 5))
  else if kind =? 3 then (k =? 0) || ((k =? 1) && (2 <=? type) && (type <=? 3))
  else true.

(** The high bus lines of each code of [HV_FunRelay_Set]. *)
Definition hv_high (code : Z) : list Z :=
  if code =? 1 then [1; 10; 11; 13]
  else if code =? 2 then [1; 10; 11]
  else if code =? 3 then [1; 10; 12]
  else if code =? 4 then [1; 10]
  else if code =? 5 then [1; 5; 6; 10; 11; 13]
  else if code =? 6 then [1; 5; 6; 10; 11]
  else if code =? 7 then [1; 5; 6; 10; 12]
  else if code =? 8 then [1; 5; 6; 10]
  else if code =? 9 then [1; 5]
  else if code =? 10 then [1; 5; 6]
  else if code =? 11 then [1; 3; 5; 6]
  else [].

(** The code a frame of this kind and type uses, 0 for none. *)
Definition hv_code (kind type : Z) : Z :=
  if kind =? 0 then (if (2 <=? type) && (type <=? 5) then type - 1 else 0)
  else if (2 <=? type) && (type <=? 5) then type + 3
  else if kind =? 1 then (if type =? 1 then 9 else 0)
  else if type =? 1 then 10
  else if type =? 7 then 11
  else 0.

Definition bus_of (kind type : Z) : list Z :=
  if kind =? 3 then (if type =? 3 then [16] else []) else hv_high (hv_code kind type).

(** Only the resistance faults (kind 2) use the resistance lines. *)
Definition resistance_of (kind type hi lo : Z) : Z :=
  if (kind =? 2) && negb (hv_code kind type =? 0) && (hi <? 128)
  then resistance_code hi lo else 0.

(** Relay [3c + k] for the channels below [n]. *)
Definition relays_of (kind type : Z) (f : list Z) (n r : Z) : bool :=
  (r <? 3 * n) && selected f (r / 3) && wants kind type (r mod 3).

(** ** Channels *)
Lemma HV_board f R L0 v code s :
  board f R L0 v s -> 1 <= code <= 11 -> L0 = [] \/ L0 = hv_high code ->
  wp (HV_FunRelay_Set code) (fun _ => board f R (hv_high code) v) s.
Proof.
  intros HB Hc HL.
  assert (code = 1 \/ code = 2 \/ code = 3 \/ code = 4 \/ code = 5 \/ code = 6 \/ code = 7 \/
    code = 8 \/ code = 9 \/ code = 10 \/ code = 11) by lia.
  destruct_or! HL; destruct_or!; subst;
    (eapply write_bus_board; [exact HB|by vm_compute|by vm_compute]).
Qed.

Lemma bus_and_resistance_board f R L0 v code s hi lo :
  board f R L0 v s -> 1 <= code <= 11 -> L0 = [] \/ L0 = hv_high code ->
  index f 13 = Some hi -> index f 14 = Some lo -> is_u8 hi -> is_u8 lo ->
  wp (bus_and_resistance code) (fun _ =>
    board f R (hv_high code) (if hi <? 128 then resistance_code hi lo else v)) s.
Proof.
  intros HB Hc HL Hhi Hlo ??. unfold bus_and_resistance. apply wp_bind.
  eapply wp_mono; [by eapply HV_board|]. intros [] s' HB'. apply wp_bind.
  unfold wp at 1. rewrite (rd_Done _ _ hi) by by rewrite (bd_buf _ _ _ _ _ HB').
  apply wp_bind. unfold wp at 1. rewrite (rd_Done _ _ lo) by by rewrite (bd_buf _ _ _ _ _ HB').
  by apply Resistance_select_board.
Qed.

(** The rule of the loop over the channels: [I n] holds once the channels below
    [n] have been treated. *)
Lemma wp_for_channels {B} (I : Z -> B -> fiu -> Prop) (f : list Z) acc body s :
  Forall is_u8 f -> length f = 17%nat ->
  (forall n acc s, I n acc s -> uFiuCom_buf s = f) ->
  (forall n acc s, 0 <= n < 72 -> I n acc s -> selected f n = true ->
    wp (body acc n) (I (n + 1)) s) ->
  (forall n acc s, 0 <= n < 72 -> I n acc s -> selected f n = false -> I (n + 1) acc s) ->
  I 0 acc s -> wp (for_channels acc body) (I 72) s.
Proof.
  intros Hf Hlen Hbuf Hsel Hskip HI. unfold for_channels.
  apply (wp_for_seqZ (fun i => I (8 * i)) _ 0 9); [lia|exact HI|].
  intros i acc' s' Hi HI'. apply wp_bind.
  destruct (index_is_Some f (i + 3)) as [b Hb]; [lia|].
  assert (is_u8 b) as Hb8 by (apply index_Some in Hb as [_ ?]; by eapply Forall_lookup_1).
  unfold wp at 1. rewrite (rd_Done _ _ b) by by rewrite (Hbuf _ _ _ HI').
  assert (forall j, 0 <= j < 8 -> selected f (8 * i + j) = Z.testbit b j) as Hbit.
  { intros j Hj. unfold selected.
    rewrite (proj2 (Z.leb_le _ _)), (proj2 (Z.ltb_lt _ _)) by lia. cbn.
    replace ((8 * i + j) / 8) with i by (Z.to_euclidean_division_equations; lia).
    replace ((8 * i + j) mod 8) with j by (Z.to_euclidean_division_equations; lia).
    apply index_Some in Hb as [_ Hb]. rewrite (Z.add_comm 3 i).
    by rewrite (nth_lookup_Some _ _ _ _ Hb). }
  replace (8 * (i + 1)) with (8 * i + 8) by lia.
  destruct (b >? 0) eqn:Hpos.
  - apply (wp_for_seqZ (fun j => I (8 * i + j)) _ 0 8); [lia|by rewrite Z.add_0_r|].
    intros j acc'' s'' Hj HI''. apply wp_bind. unfold wp at 1.
    rewrite (rd_Done _ _ b) by by rewrite (Hbuf _ _ _ HI'').
    rewrite bit_eq_1 by lia. unfold u8. rewrite Z.mod_small by lia. rewrite Z.add_assoc.
    rewrite <- Hbit by lia. destruct (selected f (8 * i + j)) eqn:Hs.
    + apply Hsel; [lia|done|done].
    + apply wp_ret, Hskip; [lia|done|done].
  - apply wp_ret. unfold in_width in Hb8. rewrite Z.gtb_ltb, Z.ltb_ge in Hpos.
    assert (b = 0) as -> by lia.
    assert (forall j, 0 <= j -> j <= 8 -> I (8 * i + j) acc' s') as Hall; [|apply Hall; lia].
    apply (natlike_ind (fun j => j <= 8 -> I (8 * i + j) acc' s')).
    + by rewrite Z.add_0_r.
    + intros j Hj IH ?. unfold Z.succ. rewrite Z.add_assoc.
      apply Hskip; [lia|apply IH; lia|]. by rewrite Hbit, Z.bits_0 by lia.
Qed.

(** Globals that say nothing of the board. *)
Lemma board_kasu f R L v s l :
  length l = 72%nat -> board f R L v s -> board f R L v (s <| uKasuStatus := l |>).
Proof. intros Hl [[] ? ? ? ? ?]. by repeat constructor. Qed.

Lemma board_prestatus f R L v s x :
  board f R L v s -> board f R L v (s <| uFaultModePreStatus := x |>).
Proof. intros [[] ? ? ? ? ?]. by repeat constructor. Qed.

(** [R] and the relays that a frame of this kind and type closes on channel [c]. *)
Definition with_relays (kind type : Z) (R : Z -> bool) (c r : Z) : bool :=
  R r || existsb (fun k => wants kind type k && (r =? 3 * c + k)) [0; 1; 2].

(** The cases of the type byte. *)
Lemma type_cases t :
  t = 1 \/ t = 2 \/ t = 3 \/ t = 4 \/ t = 5 \/ t = 7 \/
  ((t =? 1) = false /\ (t =? 2) = false /\ (t =? 3) = false /\ (t =? 4) = false /\
   (t =? 5) = false /\ (t =? 7) = false /\ (2 <=? t) && (t <=? 5) = false /\
   (2 <=? t) && (t <=? 3) = false).
Proof. lia. Qed.

(** The lines are as at the start of the frame, or as a channel has left them. *)
Definition lines (kind type hi lo : Z) (touched : bool) (L : list Z) (v : Z) : Prop :=
  if touched then L = bus_of kind type /\ v = resistance_of kind type hi lo
  else L = [] /\ v = 0.

(** Run the next call by its rule. *)
Tactic Notation "call" uconstr(H) := first [apply wp_bind; eapply wp_mono; [eapply H|intros [] ? ?] | eapply wp_mono; [eapply H|intros [] ? ?]].

Section channel.
Context (f : list Z) (t hi lo : Z).
Context (Hhi : index f 13 = Some hi) (Hlo : index f 14 = Some lo).
Context (Hhi8 : is_u8 hi) (Hlo8 : is_u8 lo).

Definition channel_post (kind c : Z) (R : Z -> bool) (s' : fiu) : Prop :=
  board f (with_relays kind t R c) (bus_of kind t) (resistance_of kind t hi lo) s'.

Lemma relays_ext L v s' R R' : board f R L v s' ->
  (forall r, R r = R' r) -> board f R' L v s'.
Proof. intros HB HR. by eapply board_ext; [intros; apply HR|]. Qed.

(** Close the last goal of a case: the relays agree as boolean functions. *)
Ltac same_relays := eapply relays_ext; [eassumption|]; intros r;
  unfold with_relays, wants; first [solve [cbn -[Z.mul]; btauto] | cbn -[Z.mul Z.leb]].

Lemma lines_bus kind touched L v :
  lines kind t hi lo touched L v -> kind <> 3 -> L = [] \/ L = hv_high (hv_code kind t).
Proof.
  unfold lines, bus_of. intros HL Hk. apply Z.eqb_neq in Hk. rewrite Hk in HL.
  destruct touched; destruct HL; auto.
Qed.

Lemma fuhegz_channel touched R L v c s :
  board f R L v s -> lines 0 t hi lo touched L v -> 0 <= c < 72 ->
  wp (fuhegz_set c t) (fun _ => channel_post 0 c R) s.
Proof.
  intros HB HL Hc. unfold channel_post.
  assert (v = 0) as -> by (unfold lines in HL; destruct touched; by destruct HL).
  pose proof (lines_bus _ _ _ _ HL ltac:(done)) as HL'.
  change (resistance_of 0 t hi lo) with 0. change (bus_of 0 t) with (hv_high (hv_code 0 t)).
  unfold fuhegz_set. call close_relay_board; [exact HB|lia|lia|].
  apply wp_bind.
  eapply (wp_mono _ (fun _ => board f (with_relays 0 t R c) (hv_high (hv_code 0 t)) 0));
    [|intros [] ? ?; by apply wp_put, board_prestatus].
  destruct (type_cases t) as [->|[->|[->|[->|[->|[->|Ht]]]]]];
    cbn -[skip HV_FunRelay_Set close_relay Z.mul hv_high] in *.
  2-5: call close_relay_board; [done|lia|lia|]; call HV_board; [done|lia|done|]; same_relays.
  1-2: apply wp_ret; destruct_or! HL'; subst; same_relays.
  destruct Ht as (_ & E2 & E3 & E4 & E5 & _ & E6 & _). rewrite E2, E3, E4, E5.
  unfold hv_code in *. cbn in HL' |- *. rewrite E6 in *.
  apply wp_ret. destruct_or! HL'; subst; same_relays; rewrite E6; btauto.
Qed.

Lemma ddlgz_channel touched R L v c s :
  board f R L v s -> lines 3 t hi lo touched L v -> 0 <= c < 72 ->
  wp (ddlgz_set c t) (fun _ => channel_post 3 c R) s.
Proof.
  intros HB HL Hc. unfold channel_post.
  assert (v = 0) as -> by (unfold lines in HL; destruct touched; by destruct HL).
  assert (L = [] \/ L = bus_of 3 t) as HL' by
    (unfold lines in HL; destruct touched; destruct HL; auto).
  change (resistance_of 3 t hi lo) with 0.
  unfold ddlgz_set. call close_relay_board; [exact HB|lia|lia|].
  destruct (type_cases t) as [->|[->|[->|[->|[->|[->|Ht]]]]]];
    cbn -[skip HI_FunRelay_Set close_relay Z.mul] in *.
  2: call close_relay_board; [done|lia|lia|]; destruct_or! HL'; subst;
    (call (write_bus_board f _ _ []); [done|by vm_compute|by vm_compute|]; same_relays).
  2: call close_relay_board; [done|lia|lia|]; destruct_or! HL'; subst;
    (call (write_bus_board f _ _ [16]); [done|by vm_compute|by vm_compute|]; same_relays).
  1-4: apply wp_ret; destruct_or! HL'; subst; same_relays.
  destruct Ht as (_ & E2 & E3 & _ & _ & _ & _ & E6). rewrite E2, E3.
  unfold bus_of in *. cbn in HL' |- *. rewrite E3 in *.
  apply wp_ret. destruct_or! HL'; subst; same_relays; rewrite E6; btauto.
Qed.

Lemma kstdgz_channel touched R L v c s :
  board f R L v s -> lines 1 t hi lo touched L v -> 0 <= c < 72 ->
  wp (kstdgz_set c t) (fun _ => channel_post 1 c R) s.
Proof.
  intros HB HL Hc. unfold channel_post.
  assert (v = 0) as -> by (unfold lines in HL; destruct touched; by destruct HL).
  pose proof (lines_bus _ _ _ _ HL ltac:(done)) as HL'.
  change (resistance_of 1 t hi lo) with 0. change (bus_of 1 t) with (hv_high (hv_code 1 t)).
  unfold kstdgz_set. do 3 (call close_relay_board; [eassumption|lia|lia|]).
  apply wp_bind, wp_wr; [rewrite (bd_kasu _ _ _ _ _ H1); lia|].
  eapply (board_kasu _ _ _ _ _ (<[Z.to_nat c := 1]> (uKasuStatus s'1))) in H1;
    [|by rewrite length_insert, (bd_kasu _ _ _ _ _ H1)].
  destruct (type_cases t) as [->|[->|[->|[->|[->|[->|Ht]]]]]];
    cbn -[skip HV_FunRelay_Set close_relay Z.mul hv_high] in *.
  1-5: call HV_board; [eassumption|lia|done|]; same_relays.
  1: apply wp_ret; destruct_or! HL'; subst; same_relays.
  destruct Ht as (E1 & E2 & E3 & E4 & E5 & _ & E6 & _). rewrite E1, E2, E3, E4, E5.
  unfold hv_code in *. cbn in HL' |- *. rewrite E6, E1 in *.
  apply wp_ret. destruct_or! HL'; subst; same_relays.
Qed.

Lemma ksldmn_channel touched R L v c s :
  board f R L v s -> lines 2 t hi lo touched L v -> 0 <= c < 72 ->
  wp (ksldmn_set c t) (fun _ => channel_post 2 c R) s.
Proof.
  intros HB HL Hc. unfold channel_post.
  assert ((if hi <? 128 then resistance_code hi lo else v) =
    if hi <? 128 then resistance_code hi lo else 0) as Hv.
  { unfold lines, resistance_of in HL. destruct (hi <? 128) eqn:E; [done|].
    rewrite !andb_false_r in HL. destruct touched; by destruct HL. }
  pose proof (lines_bus _ _ _ _ HL ltac:(done)) as HL'.
  change (bus_of 2 t) with (hv_high (hv_code 2 t)).
  unfold ksldmn_set. do 3 (call close_relay_board; [eassumption|lia|lia|]).
  apply wp_bind, wp_wr; [rewrite (bd_kasu _ _ _ _ _ H1); lia|].
  eapply (board_kasu _ _ _ _ _ (<[Z.to_nat c := 1]> (uKasuStatus s'1))) in H1;
    [|by rewrite length_insert, (bd_kasu _ _ _ _ _ H1)].
  unfold lines, resistance_of in *.
  destruct (type_cases t) as [->|[->|[->|[->|[->|[->|Ht]]]]]];
    cbn -[skip bus_and_resistance close_relay Z.mul hv_high resistance_code Z.ltb] in *.
  1-6: call bus_and_resistance_board; [eassumption|lia|done|done|done|done|done|]; rewrite Hv in *; same_relays.
  destruct Ht as (E1 & E2 & E3 & E4 & E5 & E7 & E6 & _). rewrite E1, E2, E3, E4, E5, E7.
  unfold bus_of, hv_code in *. cbn in HL, HL' |- *. rewrite E6, E1, E7 in *. cbn in HL, HL' |- *.
  assert (v = 0) as -> by (destruct touched; by destruct HL).
  apply wp_ret. destruct_or! HL'; subst; same_relays.
Qed.
End channel.

(** ** Frames *)

(** The arrays have the sizes of their declarations. *)
Record fiu_ok (s : fiu) : Prop := {
  ok_dq : length (uDqStatus s) = 14%nat;
  ok_kasu : length (uKasuStatus s) = 72%nat;
  ok_buf : length (uFiuCom_buf s) = 17%nat;
  ok_frame : length (g_FiuByte17Data s) = 17%nat;
}.

Lemma board_ok f R L v s : length f = 17%nat -> board f R L v s -> fiu_ok s.
Proof. intros Hf [[] Hb ? ? ? ?]. constructor; try done. by rewrite Hb. Qed.

Lemma clear_buf_board f R L v s :
  length f = 17%nat -> board f R L v s ->
  wp clear_buf (fun _ => board (replicate 17 0) R L v) s.
Proof.
  intros Hf HB. eapply wp_mono; [apply (wp_each_seqZ (fun i s' => exists f',
    board f' R L v s' /\ length f' = 17%nat /\ take (Z.to_nat i) f' = replicate (Z.to_nat i) 0))|].
  - lia.
  - by exists f.
  - intros i s' Hi (f' & HB' & Hf' & Ht).
    apply wp_wr; [rewrite (bd_buf _ _ _ _ _ HB'); lia|].
    exists (<[Z.to_nat i := 0]> f'). split_and!.
    + rewrite (bd_buf _ _ _ _ _ HB'). destruct HB' as [[] ? ? ? ? ?]. by repeat constructor.
    + by rewrite length_insert.
    + rewrite Z2Nat.inj_add by lia. rewrite Nat.add_comm. cbn [Z.to_nat Pos.to_nat].
      change (Pos.to_nat 1 + Z.to_nat i)%nat with (S (Z.to_nat i)).
      rewrite replicate_S_end, <- Ht, (take_S_r _ _ 0) by (apply list_lookup_insert_eq; lia).
      by rewrite take_insert_ge by lia.
  - cbn. intros [] s' (f' & HB' & Hf' & Ht). rewrite take_ge in Ht by (rewrite Hf'; done).
    by subst.
Qed.

Section frame.
Context (f : list Z) (t hi lo : Z).
Context (Hf : Forall is_u8 f) (Hlen : length f = 17%nat).
Context (Ht : index f 12 = Some t) (Hhi : index f 13 = Some hi) (Hlo : index f 14 = Some lo).

Lemma byte_u8 i b : index f i = Some b -> is_u8 b.
Proof using Hf. intros [_ Hb]%index_Some. by eapply Forall_lookup_1. Qed.

Lemma any_selected_step n :
  0 <= n -> any_selected f (n + 1) = any_selected f n || selected f n.
Proof using.
  clear. intros Hn. unfold any_selected. rewrite seqZ_app by lia.
  rewrite existsb_app, Z.add_0_l, (seqZ_cons n 1) by lia. cbn. by rewrite orb_false_r.
Qed.

Lemma relays_step kind n r :
  0 <= n -> 0 <= r -> relays_of kind t f (n + 1) r =
  if selected f n then with_relays kind t (relays_of kind t f n) n r
  else relays_of kind t f n r.
Proof using.
  clear. intros Hn Hr. unfold relays_of, with_relays.
  assert (r mod 3 = 0 \/ r mod 3 = 1 \/ r mod 3 = 2) as Hm by
    (Z.to_euclidean_division_equations; lia).
  destruct (decide (r / 3 = n)) as [Hq|Hq].
  - rewrite Hq, (proj2 (Z.ltb_lt r (3 * (n + 1)))), (proj2 (Z.ltb_ge r (3 * n)))
      by (Z.to_euclidean_division_equations; lia).
    assert (r = 3 * n + r mod 3) as Hr3 by (Z.to_euclidean_division_equations; lia).
    destruct (selected f n); [|done]. cbn -[Z.mul wants].
    destruct_or! Hm; rewrite Hm in *;
      do 3 first [rewrite (proj2 (Z.eqb_eq r _)) by lia
                 |rewrite (proj2 (Z.eqb_neq r _)) by lia];
      cbn -[wants]; btauto.
  - assert ((r <? 3 * (n + 1)) = (r <? 3 * n)) as ->.
    { apply eq_true_iff_eq. rewrite !Z.ltb_lt. Z.to_euclidean_division_equations; lia. }
    destruct (selected f n); [|done]. cbn -[Z.mul wants].
    do 3 rewrite (proj2 (Z.eqb_neq r _)) by (Z.to_euclidean_division_equations; lia).
    btauto.
Qed.

(** The rule of one of the four handlers: what one channel does gives what the
    loop over the channels does. *)
Lemma channels_board kind (set : Z -> Z -> M fiu unit) s :
  (forall touched R L v c s, board f R L v s -> lines kind t hi lo touched L v ->
    0 <= c < 72 -> wp (set c t) (fun _ => channel_post f t hi lo kind c R) s) ->
  board f (fun _ => false) [] 0 s ->
  wp (for_channels tt (fun _ c => t ← rd uFiuCom_buf 12; set c t)) (fun _ s' =>
    exists L v, board f (relays_of kind t f 72) L v s' /\
      lines kind t hi lo (any_selected f 72) L v) s.
Proof using Hf Hlen Ht.
  intros Hset HB.
  apply (wp_for_channels (fun n _ s' => exists L v, board f (relays_of kind t f n) L v s' /\
    lines kind t hi lo (any_selected f n) L v) f); [done|done|..].
  - intros n _ s' (L & v & HB' & _). apply HB'.
  - intros n [] s' Hn (L & v & HB' & HL) Hs. apply wp_bind.
    unfold wp at 1. rewrite (rd_Done _ _ t) by by rewrite (bd_buf _ _ _ _ _ HB').
    eapply wp_mono; [by eapply Hset|]. intros [] s'' HB''.
    exists (bus_of kind t), (resistance_of kind t hi lo).
    rewrite any_selected_step, Hs, orb_true_r by lia. split; [|done].
    eapply board_ext; [|exact HB'']. intros r Hr. cbn.
    by rewrite relays_step, Hs by lia.
  - intros n [] s' Hn (L & v & HB' & HL) Hs. exists L, v.
    rewrite any_selected_step, Hs, orb_false_r by lia. split; [|done].
    eapply board_ext; [|exact HB']. intros r Hr. cbn. by rewrite relays_step, Hs by lia.
  - exists [], 0. split; [|done]. eapply board_ext; [|exact HB]. intros r Hr.
    unfold relays_of. by rewrite (proj2 (Z.ltb_ge r (3 * 0))) by lia.
Qed.
End frame.

Definition byte (f : list Z) (i : Z) : Z := nth (Z.to_nat i) f 0.

(** A frame of seventeen bytes between its markers. *)
Record frame_bytes (f : list Z) : Prop := {
  fb_u8 : Forall is_u8 f;
  fb_len : length f = 17%nat;
  fb_mark : byte f 0 = 0xbe /\ byte f 1 = 0xbe /\ byte f 15 = 0xed /\ byte f 16 = 0xed;
}.

(** The board shows the fault that the frame [f] asks for. *)
Record shows (f : list Z) (s : fiu) : Prop := {
  sh_relays : forall r, 0 <= r < 216 -> energised s r =
    selected f (r / 3) && wants (byte f 2) (byte f 12) (r mod 3);
  sh_bus : forall n, 1 <= n <= 17 -> bus_level s n =
    any_selected f 72 && bool_decide (n ∈ bus_of (byte f 2) (byte f 12));
  sh_resistance : resistance s =
    if any_selected f 72 then resistance_of (byte f 2) (byte f 12) (byte f 13) (byte f 14) else 0;
}.

(** The board at rest: no relay closed, every line low. *)
Record at_rest (s : fiu) : Prop := {
  rest_relays : forall r, 0 <= r < 224 -> energised s r = false;
  rest_bus : forall n, 1 <= n <= 17 -> bus_level s n = false;
  rest_resistance : resistance s = 0;
}.

Lemma byte_index f i : length f = 17%nat -> 0 <= i < 17 -> index f i = Some (byte f i).
Proof.
  intros Hf Hi. unfold index, byte. rewrite bool_decide_eq_true_2 by lia.
  destruct (lookup_lt_is_Some_2 f (Z.to_nat i)) as [b Hb]; [lia|].
  by rewrite Hb, (nth_lookup_Some _ _ _ _ Hb).
Qed.

Lemma board_at_rest f s : board f (fun _ => false) [] 0 s -> at_rest s.
Proof. intros [? ? ? HR HL ?]. constructor; auto. Qed.

(** The copy of the frame into [uFiuCom_buf]. *)
Lemma copy_frame s :
  fiu_ok s ->
  for_each (seqZ 0 17) (fun i => b ← rd g_FiuByte17Data i; wr uFiuCom_buf i b) s =
  Done tt (s <| uFiuCom_buf := g_FiuByte17Data s |>).
Proof.
  intros [Hd Hk Hb Hg].
  assert (wp (for_each (seqZ 0 17) (fun i => b ← rd g_FiuByte17Data i; wr uFiuCom_buf i b))
    (fun _ s' => s' = s <| uFiuCom_buf := g_FiuByte17Data s |>) s) as Hwp.
  { eapply wp_mono; [apply (wp_each_seqZ (fun i s' => exists l,
      s' = s <| uFiuCom_buf := l |> /\ length l = 17%nat /\
      take (Z.to_nat i) l = take (Z.to_nat i) (g_FiuByte17Data s)))|].
    - lia.
    - exists (uFiuCom_buf s). split_and!; [by destruct s|done|done].
    - intros i s' Hi (l & -> & Hl & Htake). apply wp_bind, wp_rd; [cbn; lia|].
      intros b Hbi. apply wp_wr; [cbn; lia|].
      exists (<[Z.to_nat i := b]> l). split_and!; [done|by rewrite length_insert|].
      apply index_Some in Hbi as [_ Hbi]. cbn in Hbi.
      replace (Z.to_nat (i + 1)) with (S (Z.to_nat i)) by lia.
      rewrite (take_S_r _ _ b) by (rewrite list_lookup_insert_eq by lia; done).
      rewrite (take_S_r (g_FiuByte17Data s) _ b) by done.
      by rewrite take_insert_ge, Htake by lia.
    - cbn. intros [] s' (l & -> & Hl & Htake).
      rewrite !take_ge in Htake by (by rewrite ?Hl, ?Hg). by subst. }
  apply wp_Done in Hwp as ([] & s' & -> & ->). done.
Qed.

(** The [switch] on the kind of the frame. *)
Definition handler (cmd : Z) : M fiu unit :=
  if cmd =? 0 then fuhegz_process
  else if cmd =? 1 then kstdgz_process
  else if cmd =? 2 then ksldmn_process
  else if cmd =? 3 then ddltdgz_process
  else if cmd =? 4 then tdreset_process
  else emit (EvPrint "error").

Definition marked (f : list Z) : bool :=
  (byte f 0 =? 0xbe) && (byte f 1 =? 0xbe) && (byte f 15 =? 0xed) && (byte f 16 =? 0xed).

Lemma FiuCom_Process_run u s :
  fiu_ok s ->
  FiuCom_Process u s =
  let f := g_FiuByte17Data s in
  if marked f then handler (byte f 2) (s <| uFiuCom_buf := f |>)
  else Done tt (s <| uFiuCom_buf := f |>).
Proof.
  intros Hok. unfold FiuCom_Process. rewrite (bind_Done _ _ _ _ _ (copy_frame _ Hok)).
  set (f := g_FiuByte17Data s). set (s' := s <| uFiuCom_buf := f |>).
  assert (forall i, 0 <= i < 17 -> index (uFiuCom_buf s') i = Some (byte f i)) as Hi
    by (intros; by apply byte_index; [apply ok_frame|]).
  do 4 (erewrite bind_rd by (apply Hi; lia)). fold (marked f).
  destruct (marked f); [|done]. by erewrite bind_rd by (apply Hi; lia).
Qed.

(** Every handler ends by clearing the buffer. *)
Lemma clear_buf_shows f L v s :
  frame_bytes f ->
  board f (relays_of (byte f 2) (byte f 12) f 72) L v s ->
  lines (byte f 2) (byte f 12) (byte f 13) (byte f 14) (any_selected f 72) L v ->
  wp clear_buf (fun _ s' => shows f s' /\ fiu_ok s') s.
Proof.
  intros [H8 Hlen _] HB HL. eapply wp_mono; [by eapply clear_buf_board|].
  intros [] s3 HB3. split; [|by eapply board_ok; [|exact HB3]].
  destruct HB3 as [_ _ _ HR3 HL3 Hv3]. constructor.
  - intros r Hr. rewrite HR3 by lia. unfold relays_of.
    by rewrite (proj2 (Z.ltb_lt r (3 * 72))) by lia.
  - intros n Hn. rewrite HL3 by done. unfold lines in HL.
    destruct (any_selected f 72); by destruct HL as [-> _].
  - rewrite Hv3. unfold lines in HL. destruct (any_selected f 72); by destruct HL as [_ ->].
Qed.

(** The handlers that reset the board and then treat the channels. *)
Lemma handler_shows kind f (set : Z -> Z -> M fiu unit) s :
  fiu_ok s -> frame_bytes f -> uFiuCom_buf s = f -> byte f 2 = kind ->
  (forall touched R L v c s, board f R L v s ->
    lines kind (byte f 12) (byte f 13) (byte f 14) touched L v -> 0 <= c < 72 ->
    wp (set c (byte f 12)) (fun _ =>
      channel_post f (byte f 12) (byte f 13) (byte f 14) kind c R) s) ->
  wp (tdreset_process ;;
      for_channels tt (fun _ c => t ← rd uFiuCom_buf 12; set c t) ;; clear_buf)
    (fun _ s' => shows f s' /\ fiu_ok s') s.
Proof.
  intros [Hd Hk Hb Hg] Hfb Hf <- Hset. apply wp_bind. pose proof Hfb as [H8 Hlen _].
  eapply wp_mono; [by apply tdreset_board|]. intros [] s1 HB. rewrite Hf in HB.
  apply wp_bind. eapply wp_mono.
  - eapply (channels_board f _ _ _ H8 Hlen); [by apply byte_index|apply Hset|exact HB].
  - intros [] s2 (L & v & HB2 & HL). by eapply clear_buf_shows.
Qed.

Lemma wp_byte {B} f R L v i (k : Z -> M fiu B) Q s :
  length f = 17%nat -> board f R L v s -> 0 <= i < 17 ->
  wp (k (byte f i)) Q s -> wp (t ← rd uFiuCom_buf i; k t) Q s.
Proof.
  intros Hlen HB Hi HQ. unfold wp. erewrite bind_rd; [exact HQ|].
  rewrite (bd_buf _ _ _ _ _ HB). by apply byte_index.
Qed.

Lemma ksldmn_shows f s :
  fiu_ok s -> frame_bytes f -> uFiuCom_buf s = f -> byte f 2 = 2 ->
  0 <= byte f 12 < 6 \/ byte f 12 = 7 -> is_u8 (byte f 13) -> is_u8 (byte f 14) ->
  wp ksldmn_process (fun _ s' => shows f s' /\ fiu_ok s') s.
Proof.
  intros [Hd Hk Hb Hg] Hfb Hf Hkind Ht ??. apply wp_bind. pose proof Hfb as [H8 Hlen _].
  eapply wp_mono; [by apply tdreset_board|]. intros [] s1 HB. rewrite Hf in HB.
  eapply wp_byte; [done|exact HB|lia|].
  assert (((0 <=? byte f 12) && (byte f 12 <? 6)) || (byte f 12 =? 7) = true) as -> by lia.
  apply wp_bind. eapply wp_mono.
  - eapply (channels_board f _ (byte f 13) (byte f 14) H8 Hlen (byte_index _ 12 Hlen ltac:(lia)) 2);
      [intros; eapply ksldmn_channel; try done; by apply byte_index|exact HB].
  - intros [] s2 (L & v & HB2 & HL). eapply wp_byte; [done|exact HB2|lia|].
    rewrite (proj2 (Z.eqb_neq (byte f 12) 6)) by lia. apply wp_bind, wp_ret.
    eapply clear_buf_shows; [done|by rewrite Hkind|by rewrite Hkind].
Qed.

Lemma frame_shows u s f :
  fiu_ok s -> g_FiuByte17Data s = f -> frame_bytes f -> 0 <= byte f 2 < 4 ->
  (byte f 2 = 2 -> byte f 12 < 6 \/ byte f 12 = 7) ->
  wp (FiuCom_Process u) (fun _ s' => shows f s' /\ fiu_ok s') s.
Proof.
  intros Hok <- Hfb Hkind Htype. pose proof Hfb as [H8 Hlen (M0 & M1 & M15 & M16)].
  unfold wp. rewrite FiuCom_Process_run by done. cbv zeta. unfold marked.
  rewrite M0, M1, M15, M16. cbn [Z.eqb Pos.eqb andb].
  set (f := g_FiuByte17Data s) in *. set (s0 := s <| uFiuCom_buf := f |>).
  assert (fiu_ok s0) as Hok0 by (by destruct Hok; constructor).
  assert (forall i, 0 <= i < 17 -> is_u8 (byte f i)) as Hb8.
  { intros i Hi. pose proof (byte_index f i Hlen Hi) as [_ Hb]%index_Some.
    by eapply Forall_lookup_1. }
  assert (byte f 2 = 0 \/ byte f 2 = 1 \/ byte f 2 = 2 \/ byte f 2 = 3) as [E|[E|[E|E]]] by lia;
    rewrite E; cbn [handler Z.eqb Pos.eqb].
  - apply (handler_shows 0); try done. intros. by eapply fuhegz_channel.
  - apply (handler_shows 1); try done. intros. by eapply kstdgz_channel.
  - apply ksldmn_shows; auto with lia. specialize (Htype E).
    pose proof (Hb8 12 ltac:(lia)) as [? _]. lia.
  - apply (handler_shows 3); try done. intros. by eapply ddlgz_channel.
Qed.

(** The type byte of a fault with load has a bit above the low nibble set, and
    no handler looks for such a value: the relays of the selected channels switch,
    but no bus line ever goes high and no resistance is selected. *)
Theorem frame_with_load_drives_no_line (u : Z) (s : fiu) :
  fiu_ok s -> frame_bytes (g_FiuByte17Data s) ->
  byte (g_FiuByte17Data s) 2 ∈ [0; 1; 3] -> 0x10 <= byte (g_FiuByte17Data s) 12 ->
  wp (FiuCom_Process u) (fun _ s' =>
    (forall n, 1 <= n <= 17 -> bus_level s' n = false) /\ resistance s' = 0 /\
    (forall c, 0 <= c < 72 -> energised s' (3 * c) = selected (g_FiuByte17Data s) c)) s.
Proof.
  intros Hok Hfb Hkind Htype. set (f := g_FiuByte17Data s) in *.
  rewrite !elem_of_cons in Hkind.
  assert (byte f 2 = 0 \/ byte f 2 = 1 \/ byte f 2 = 3) as Hk
    by (destruct_or! Hkind; auto; by apply not_elem_of_nil in Hkind).
  assert (bus_of (byte f 2) (byte f 12) = []) as Hbus.
  { unfold bus_of, hv_code. destruct (type_cases (byte f 12)) as [E|[E|[E|[E|[E|[E|Ht]]]]]]; [lia..|].
    destruct Ht as (E1 & _ & E3 & _ & _ & _ & E6 & _). rewrite E1, E3, E6.
    by destruct_or! Hk; rewrite Hk. }
  eapply wp_mono; [apply (frame_shows u s f); try done; lia|].
  intros [] s' [[HR HL Hv] _]. rewrite Hbus in HL. split_and!.
  - intros n Hn. rewrite HL by done. by rewrite andb_false_r.
  - rewrite Hv. unfold resistance_of. destruct (any_selected f 72); [|done].
    by destruct_or! Hk; rewrite Hk.
  - intros c Hc. rewrite HR by lia.
    replace (3 * c / 3) with c by (Z.to_euclidean_division_equations; lia).
    replace (3 * c mod 3) with 0 by (Z.to_euclidean_division_equations; lia).
    unfold wants. destruct_or! Hk; rewrite Hk; cbn; by rewrite andb_true_r.
Qed.

(** ** ECU to ECU: the type that connects two channels *)

(** The selected channels, in increasing order. *)
Definition chosen (f : list Z) : list Z := List.filter (selected f) (seqZ 0 72).

Lemma selected_bit f i j b :
  0 <= i < 9 -> 0 <= j < 8 -> index f (i + 3) = Some b ->
  selected f (8 * i + j) = Z.testbit b j.
Proof.
  intros Hi Hj [_ Hb]%index_Some. unfold selected.
  rewrite (proj2 (Z.leb_le _ _)), (proj2 (Z.ltb_lt _ _)) by lia. cbn.
  replace ((8 * i + j) / 8) with i by (Z.to_euclidean_division_equations; lia).
  replace ((8 * i + j) mod 8) with j by (Z.to_euclidean_division_equations; lia).
  rewrite (Z.add_comm 3 i). by rewrite (nth_lookup_Some _ _ _ _ Hb).
Qed.

(** The double loop over bytes and bits visits the selected channels in order. *)
Lemma for_channels_chosen {B} f (acc : B) body s :
  length f = 17%nat -> Forall is_u8 f -> uFiuCom_buf s = f ->
  (forall acc c s acc' s', uFiuCom_buf s = f -> body acc c s = Done acc' s' -> uFiuCom_buf s' = f) ->
  for_channels acc body s = for_fold (chosen f) acc body s.
Proof.
  intros Hlen H8 Hs Hbody. unfold for_channels, chosen.
  rewrite <- (for_fold_filter (selected f)).
  change (seqZ 0 72) with (concat ((fun i => (fun j => 8 * i + j) <$> seqZ 0 8) <$> seqZ 0 9)).
  rewrite for_fold_concat, for_fold_map.
  apply (for_fold_ext (fun s => uFiuCom_buf s = f)); [|done].
  clear acc s Hs. intros acc i s Hi%elem_of_seqZ Hs. split.
  - rewrite for_fold_map. destruct (index_is_Some f (i + 3)) as [b Hb]; [lia|].
    erewrite bind_rd by (rewrite Hs; exact Hb). destruct (Z.gtb_spec b 0) as [Hb0|Hb0].
    + apply (for_fold_ext (fun s => uFiuCom_buf s = f)); [|done].
      clear acc s Hs. intros acc j s Hj%elem_of_seqZ Hs.
      erewrite bind_rd by (rewrite Hs; exact Hb).
      rewrite bit_eq_1, (selected_bit f i j b) by (lia || done).
      unfold u8. rewrite Z.mod_small by lia. destruct (Z.testbit b j).
      * split; [done|]. intros acc' s'. by apply Hbody.
      * split; [done|]. by intros acc' s' [= _ <-].
    + assert (b = 0) as ->.
      { pose proof Hb as [_ Hb']%index_Some. eapply Forall_lookup_1 in Hb'; [|exact H8].
        destruct Hb'. lia. }
      rewrite (for_fold_ext (fun _ => True) _ _ _ (fun (acc : B) (_ : Z) => (mret acc : M fiu B))); [|..|done].
      * clear. generalize (seqZ 0 8). induction l as [|x l IH]; [done|]. exact IH.
      * intros acc' j s' Hj%elem_of_seqZ _. split; [|done].
        by rewrite (selected_bit f i j 0), Z.bits_0 by (lia || done).
  - intros acc' s'. apply (for_fold_keep (fun s => uFiuCom_buf s = f)); [|done].
    intros acc1 c s1 acc2 s2 _ Hs1. destruct (selected f c); [by apply Hbody|].
    by intros [= _ <-].
Qed.

Lemma uChanSet_collect l set s :
  for_fold l set uChanSet_push s =
  if (length (set ++ l) <=? 4)%nat || (length l =? 0)%nat
  then Done (set ++ l) s else Undefined OutOfBounds.
Proof.
  revert set. induction l as [|c l IH]; intros set; simpl.
  { by rewrite app_nil_r, orb_true_r. }
  rewrite orb_false_r, length_app. cbn [length].
  assert (uChanSet_push set c s = if (length set <? 4)%nat then Done (set ++ [c]) s
    else Undefined OutOfBounds) as Hpush
    by (unfold uChanSet_push; by destruct (_ <? _)%nat).
  unfold mbind, M_bind. rewrite Hpush.
  destruct (Nat.ltb_spec (length set) 4) as [Hl|Hl].
  - rewrite IH, <- app_assoc, length_app. cbn [length app].
    destruct l; cbn [length]; [|by rewrite orb_false_r].
    rewrite orb_true_r. by rewrite (proj2 (Nat.leb_le _ _)) by lia.
  - by rewrite (proj2 (Nat.leb_gt _ _)) by lia.
Qed.

Lemma chosen_range f c : c ∈ chosen f -> 0 <= c < 72.
Proof.
  intros Hc. apply list_elem_of_In, filter_In in Hc as [Hc _].
  apply list_elem_of_In, elem_of_seqZ in Hc. lia.
Qed.

(** The start of [ksldmn_process] on a frame of type 6. *)
Lemma ksldmn_two f s :
  fiu_ok s -> frame_bytes f -> uFiuCom_buf s = f -> byte f 12 = 6 ->
  exists s1, board f (fun _ => false) [] 0 s1 /\
    ksldmn_process s =
    (if (length (chosen f) <=? 4)%nat
     then match chosen f with [c0; c1] => ksldmn_two_set c0 c1 0 | _ => skip end ;; clear_buf
     else undefined OutOfBounds) s1.
Proof.
  intros [Hd Hk Hb Hg] [H8 Hlen _] Hf Ht.
  pose proof (tdreset_board s Hd Hk Hg) as HB. rewrite Hf in HB.
  apply wp_Done in HB as ([] & s1 & E & HB). exists s1. split; [done|].
  assert (forall i, 0 <= i < 17 -> index (uFiuCom_buf s1) i = Some (byte f i)) as Hi
    by (intros; rewrite (bd_buf _ _ _ _ _ HB); by apply byte_index).
  unfold ksldmn_process. rewrite (bind_Done _ _ _ _ _ E).
  erewrite bind_rd by (apply Hi; lia). rewrite Ht, (bind_Done _ _ s1 tt s1) by done.
  erewrite bind_rd by (apply Hi; lia). rewrite Ht. cbn [Z.eqb Pos.eqb].
  rewrite bind_bind. unfold mbind, M_bind.
  rewrite (for_channels_chosen f); [|done|done|apply HB|].
  - rewrite uChanSet_collect. cbn [app].
    assert ((length (chosen f) <=? 4)%nat || (length (chosen f) =? 0)%nat =
      (length (chosen f) <=? 4)%nat) as -> by (destruct (chosen f); [done|apply orb_false_r]).
    by destruct (length (chosen f) <=? 4)%nat.
  - intros acc c s2 acc' s3 Hs2. unfold uChanSet_push. destruct (_ <? _)%nat; [|done].
    by intros [= _ <-].
Qed.

(** What [ksldmn_two_set] does to a board at rest. *)
Lemma ksldmn_two_set_board f a b s :
  length f = 17%nat -> Forall is_u8 f -> board f (fun _ => false) [] 0 s ->
  0 <= a < 72 -> 0 <= b < 72 ->
  wp (ksldmn_two_set a b 0) (fun _ => board f
    (fun r => (r =? 3 * a) || (r =? 3 * a + 1) || (r =? 3 * b + 2)) [1; 5; 6]
    (if byte f 13 <? 128 then resistance_code (byte f 13) (byte f 14) else 0)) s.
Proof.
  intros Hlen H8 HB Ha Hb. unfold ksldmn_two_set.
  do 2 (call close_relay_board; [eassumption|lia|lia|]).
  assert ((relay_of b 0).1 = Z.of_nat (Z.to_nat (3 * b / 16))) as ->.
  { unfold relay_of. cbn. unfold u8.
    rewrite Z.add_0_r, (Z.mod_small (b * 3)), Z.mod_small, (Z.mul_comm b) by
      (Z.to_euclidean_division_equations; lia).
    rewrite Z2Nat.id; [done|Z.to_euclidean_division_equations; lia]. }
  call Sn74374_fun_board; [eassumption|Z.to_euclidean_division_equations; lia|unfold in_width; lia|].
  call close_relay_board; [eassumption|lia|lia|].
  assert (forall i, 0 <= i < 17 -> is_u8 (byte f i)) as Hb8.
  { intros i Hi. pose proof (byte_index f i Hlen Hi) as [_ Hbi]%index_Some.
    by eapply Forall_lookup_1. }
  eapply wp_mono; [eapply (bus_and_resistance_board f _ _ _ 10);
    [eassumption|lia|by left|by apply byte_index|by apply byte_index|apply Hb8; lia|apply Hb8; lia]|].
  intros [] s'' HB'. eapply board_ext; [|exact HB']. intros r Hr. cbn -[Z.mul].
  rewrite Z.bits_0, andb_false_r, orb_false_r, Z.add_0_r. done.
Qed.

(** A resistance frame of type 6 connects the ECU side of its first channel to
    the load side of its second through the resistance code when exactly two
    channels are selected, and leaves the board at rest for none, one, three or
    four. *)
Theorem frame_ecu_to_ecu (u : Z) (s : fiu) :
  fiu_ok s -> frame_bytes (g_FiuByte17Data s) ->
  byte (g_FiuByte17Data s) 2 = 2 -> byte (g_FiuByte17Data s) 12 = 6 ->
  (length (chosen (g_FiuByte17Data s)) <= 4)%nat ->
  wp (FiuCom_Process u) (fun _ s' =>
    match chosen (g_FiuByte17Data s) with
    | [a; b] =>
        (forall r, 0 <= r < 224 -> energised s' r =
          (r =? 3 * a) || (r =? 3 * a + 1) || (r =? 3 * b + 2)) /\
        (forall n, 1 <= n <= 17 -> bus_level s' n = bool_decide (n ∈ [1; 5; 6])) /\
        resistance s' =
          (if byte (g_FiuByte17Data s) 13 <? 128
           then resistance_code (byte (g_FiuByte17Data s) 13) (byte (g_FiuByte17Data s) 14) else 0)
    | _ => at_rest s'
    end) s.
Proof.
  intros Hok Hfb Hkind Htype Hch. pose proof Hfb as [H8 Hlen (M0 & M1 & M15 & M16)].
  unfold wp at 1. rewrite FiuCom_Process_run by done. cbv zeta. unfold marked.
  rewrite M0, M1, M15, M16, Hkind. cbn [Z.eqb Pos.eqb andb handler].
  set (f := g_FiuByte17Data s) in *. set (s0 := s <| uFiuCom_buf := f |>).
  destruct (ksldmn_two f s0) as (s1 & HB & ->); [by destruct Hok; constructor|done..|].
  rewrite (proj2 (Nat.leb_le _ _)) by done.
  pose proof (chosen_range f) as Hrange. destruct (chosen f) as [|a [|b [|c l]]] eqn:Hc.
  3: { assert (wp (ksldmn_two_set a b 0 ;; clear_buf) (fun _ => board (replicate 17 0)
         (fun r => (r =? 3 * a) || (r =? 3 * a + 1) || (r =? 3 * b + 2)) [1; 5; 6]
         (if byte f 13 <? 128 then resistance_code (byte f 13) (byte f 14) else 0)) s1) as Hwp.
       { call ksldmn_two_set_board; [done|done|exact HB|apply Hrange; repeat constructor..|].
         by eapply clear_buf_board. }
       eapply wp_mono; [exact Hwp|]. intros [] s' [_ _ _ HR HL Hv]. by split_and!. }
  all: eapply wp_mono; [apply wp_bind, wp_ret; by eapply clear_buf_board|];
    intros [] s' HB'; by eapply board_at_rest.
Qed.

(** With five or more channels selected, a resistance frame of type 6 writes
    past the end of the four-byte array [uChanSet]. *)
Theorem frame_ecu_to_ecu_overflow (u : Z) (s : fiu) :
  fiu_ok s -> frame_bytes (g_FiuByte17Data s) ->
  byte (g_FiuByte17Data s) 2 = 2 -> byte (g_FiuByte17Data s) 12 = 6 ->
  (4 < length (chosen (g_FiuByte17Data s)))%nat ->
  FiuCom_Process u s = Undefined OutOfBounds.
Proof.
  intros Hok Hfb Hkind Htype Hch. pose proof Hfb as [H8 Hlen (M0 & M1 & M15 & M16)].
  rewrite FiuCom_Process_run by done. cbv zeta. unfold marked.
  rewrite M0, M1, M15, M16, Hkind. cbn [Z.eqb Pos.eqb andb handler].
  set (f := g_FiuByte17Data s) in *. set (s0 := s <| uFiuCom_buf := f |>).
  destruct (ksldmn_two f s0) as (s1 & HB & ->); [by destruct Hok; constructor|done..|].
  by rewrite (proj2 (Nat.leb_gt _ _)) by done.
Qed.

Lemma reset_run u s :
  fiu_ok s -> marked (g_FiuByte17Data s) = true -> byte (g_FiuByte17Data s) 2 = 4 ->
  wp (FiuCom_Process u) (fun _ s' => at_rest s' /\ fiu_ok s') s.
Proof.
  intros Hok Hm Hkind. unfold wp. rewrite FiuCom_Process_run by done.
  cbv zeta. rewrite Hm, Hkind. cbn [handler Z.eqb Pos.eqb]. destruct Hok.
  eapply wp_mono; [by apply tdreset_board|].
  intros [] s' HB. split; [by eapply board_at_rest|by eapply board_ok; [|exact HB]].
Qed.

(** A frame of kind 4 puts the board at rest, whatever it showed before and
    whatever its other bytes are. *)
Theorem frame_resets (u : Z) (s : fiu) :
  fiu_ok s -> marked (g_FiuByte17Data s) = true -> byte (g_FiuByte17Data s) 2 = 4 ->
  wp (FiuCom_Process u) (fun _ s' => at_rest s' /\ fiu_ok s') s.
Proof. apply reset_run. Qed.

(** Bytes without the frame markers, and frames of an unknown kind, have no
    effect on the board (the latter prints "error"). *)
Theorem frame_rejected (u : Z) (s : fiu) :
  fiu_ok s ->
  marked (g_FiuByte17Data s) = false \/ byte (g_FiuByte17Data s) 2 ∉ [0; 1; 2; 3; 4] ->
  wp (FiuCom_Process u) (fun _ s' =>
    (tr s' = tr s \/ tr s' = EvPrint "error" :: tr s) /\ uDqStatus s' = uDqStatus s) s.
Proof.
  intros Hok Hbad. unfold wp. rewrite FiuCom_Process_run by done. cbv zeta.
  destruct (marked (g_FiuByte17Data s)); [|by split; [left|]].
  destruct Hbad as [|Hbad]; [done|]. rewrite !not_elem_of_cons in Hbad.
  destruct Hbad as (E0 & E1 & E2 & E3 & E4 & _). unfold handler.
  rewrite !(proj2 (Z.eqb_neq _ _)) by done. by split; [right|].
Qed.

(** ** Break before make *)

(** Effects on pins only: no timer, no message. *)
Definition quiet (e : event) : Prop :=
  match e with EvPin _ _ | EvDelayMs _ | EvDelayUs _ | EvPrint _ => True | _ => False end.

(** Code that only adds such effects to the history. *)
Definition extends {A} (m : M fiu A) : Prop :=
  forall s a s', m s = Done a s' -> exists es, tr s' = es ++ tr s /\ Forall quiet es.

Lemma extends_ret {A} (a : A) : extends (mret a).
Proof. intros s a' s' [= _ <-]. by exists []. Qed.

Lemma extends_undefined {A} e : extends (undefined e : M fiu A).
Proof. done. Qed.

Lemma extends_bind {A B} (m : M fiu A) (k : A -> M fiu B) :
  extends m -> (forall a, extends (k a)) -> extends (m ≫= k).
Proof.
  intros Hm Hk s b s'. unfold mbind, M_bind. destruct (m s) as [a s1|e|h s1] eqn:E; try done.
  intros E2. destruct (Hm _ _ _ E) as (es1 & E1 & Q1).
  destruct (Hk a _ _ _ E2) as (es2 & -> & Q2).
  exists (es2 ++ es1). rewrite E1, app_assoc. split; [done|by apply Forall_app_2].
Qed.

Lemma extends_gets {A} (f : fiu -> A) : extends (gets f).
Proof. intros s a' s' [= _ <-]. by exists []. Qed.

Lemma extends_emit e : quiet e -> extends (emit e).
Proof. intros He s a' s' [= _ <-]. exists [e]. split; [done|by repeat constructor]. Qed.

Lemma extends_put {E} (g : fiu -> E) `{!Upd g} v :
  (forall s, tr (s <| g := v |>) = tr s) -> extends (g ::= v).
Proof. intros H s a' s' [= _ <-]. exists []. split; [apply H|done]. Qed.

Lemma extends_rd {A} (g : fiu -> list A) i : extends (rd g i).
Proof.
  apply extends_bind; [apply extends_gets|]. intros l. unfold from_array.
  destruct (index l i); [apply extends_ret|apply extends_undefined].
Qed.

Lemma extends_wr {A} (g : fiu -> list A) `{!Upd g} i v :
  (forall s l, tr (s <| g := l |>) = tr s) -> extends (wr g i v).
Proof.
  intros H. apply extends_bind; [apply extends_gets|]. intros l.
  case_bool_decide; [by apply extends_put|apply extends_undefined].
Qed.

Lemma extends_for_each {A} (l : list A) body :
  (forall x, extends (body x)) -> extends (for_each l body).
Proof.
  intros H. induction l as [|x l IH]; [apply extends_ret|].
  apply extends_bind; [apply H|]. by intros [].
Qed.

Lemma extends_for_fold {A B} (l : list A) (acc : B) body :
  (forall acc x, extends (body acc x)) -> extends (for_fold l acc body).
Proof.
  intros H. revert acc. induction l as [|x l IH]; intros acc; [apply extends_ret|].
  apply extends_bind; [apply H|]. intros. apply IH.
Qed.

(** Walk through the code. *)
Ltac extends_step :=
  lazymatch goal with
  | |- extends (mbind _ _) => apply extends_bind; [|intros ?]
  | |- extends (mret _) => apply extends_ret
  | |- extends skip => apply extends_ret
  | |- extends (undefined _) => apply extends_undefined
  | |- extends (gets _) => apply extends_gets
  | |- extends (rd _ _) => apply extends_rd
  | |- extends (wr _ _ _) => apply extends_wr; done
  | |- extends (put _ _) => apply extends_put; done
  | |- extends (for_each _ _) => apply extends_for_each; intros ?
  | |- extends (for_fold _ _ _) => apply extends_for_fold; intros ? ?
  | |- extends (if ?b then _ else _) => destruct b
  | |- extends (match ?x with _ => _ end) => destruct x
  | |- extends (emit _) => apply extends_emit; exact I
  | |- extends (write_pin _ _) => apply extends_emit; exact I
  | |- extends (pin_set _) => apply extends_emit; exact I
  | |- extends (pin_reset _) => apply extends_emit; exact I
  | |- extends (delay_ms _) => apply extends_emit; exact I
  | |- extends _ => solve [auto with extends nocore]
  end.

Create HintDb extends.

Lemma close_relay_extends c k : extends (close_relay c k).
Proof.
  unfold close_relay. destruct (relay_of c k). unfold Sn74374_fun, clock_register, pulse, drive_data.
  repeat extends_step.
Qed.

Lemma write_pins_extends W : extends (write_pins W).
Proof. unfold write_pins. apply extends_for_each. intros []. by apply extends_emit. Qed.

Lemma HV_extends v : extends (HV_FunRelay_Set v).
Proof. unfold HV_FunRelay_Set. repeat case_match; apply write_pins_extends || apply extends_ret. Qed.

Lemma HI_extends v : extends (HI_FunRelay_Set v).
Proof. unfold HI_FunRelay_Set. repeat case_match; apply write_pins_extends || apply extends_ret. Qed.

Lemma Resistance_extends hi lo : extends (Resistance_select hi lo).
Proof. unfold Resistance_select. repeat extends_step. Qed.

#[export] Hint Resolve close_relay_extends HV_extends HI_extends Resistance_extends : extends.

Lemma tdreset_extends : extends tdreset_process.
Proof.
  unfold tdreset_process, Sn74374_Set0, Sn74374_Clear0, clock_register, pulse.
  repeat extends_step.
Qed.

Lemma for_channels_extends {B} (acc : B) body :
  (forall acc c, extends (body acc c)) -> extends (for_channels acc body).
Proof. intros H. unfold for_channels. repeat extends_step; apply H. Qed.

Lemma clear_buf_extends : extends clear_buf.
Proof. unfold clear_buf. repeat extends_step. Qed.

Lemma ksldmn_set_extends c t : extends (ksldmn_set c t).
Proof. unfold ksldmn_set, bus_and_resistance. repeat extends_step. Qed.

Lemma ksldmn_two_set_extends a b t : extends (ksldmn_two_set a b t).
Proof.
  unfold ksldmn_two_set, bus_and_resistance, Sn74374_fun, drive_data, clock_register, pulse.
  repeat extends_step.
Qed.

Lemma uChanSet_push_extends set c : extends (uChanSet_push set c).
Proof. unfold uChanSet_push. repeat extends_step. Qed.

#[export] Hint Resolve clear_buf_extends ksldmn_set_extends ksldmn_two_set_extends
  uChanSet_push_extends : extends.

(** Every handler is the reset followed by code that extends the history. *)
Lemma handler_split cmd :
  0 <= cmd < 4 -> exists rest : M fiu unit, extends rest /\
  handler cmd = (tdreset_process ;; rest).
Proof.
  intros Hc. assert (cmd = 0 \/ cmd = 1 \/ cmd = 2 \/ cmd = 3) as [->|[->|[->| ->]]] by lia;
    cbn [handler Z.eqb Pos.eqb];
    unfold fuhegz_process, kstdgz_process, ksldmn_process, ddltdgz_process;
    (eexists; split; [|reflexivity]);
    unfold fuhegz_set, kstdgz_set, ddlgz_set;
    repeat lazymatch goal with
      | |- extends (for_channels _ _) => apply for_channels_extends; intros
      | |- _ => extends_step
      end.
Qed.

Lemma FiuCom_Process_extends u s s' :
  fiu_ok s -> FiuCom_Process u s = Done tt s' -> exists es, tr s' = es ++ tr s /\ Forall quiet es.
Proof.
  intros Hok. rewrite FiuCom_Process_run by done. cbv zeta.
  destruct (marked _); [|by intros [= <-]; exists []].
  set (s0 := s <| uFiuCom_buf := g_FiuByte17Data s |>). change (tr s) with (tr s0).
  generalize (byte (g_FiuByte17Data s) 2). intros cmd.
  destruct (decide (0 <= cmd < 4)) as [Hc|Hc].
  - destruct (handler_split _ Hc) as (rest & Hrest & ->).
    apply (extends_bind tdreset_process); [apply tdreset_extends|by intros []].
  - unfold handler. rewrite !(proj2 (Z.eqb_neq cmd _)) by lia.
    destruct (cmd =? 4); [apply tdreset_extends|by apply extends_emit].
Qed.

Lemma pin_mode_quiet es t p : Forall quiet es -> pin_mode (es ++ t) p = pin_mode t p.
Proof. induction 1 as [|e es He _ IH]; cbn; [done|]. destruct e; done. Qed.

(** C4: whatever the board showed before, a well-formed frame of one of the four
    fault kinds leaves exactly the relays of the selected channels closed, exactly
    the bus lines of its type high in their output registers and its resistance code
    selected; the code returns, with every array access in bounds.  Of the resistance
    faults (kind 2) the types are those below 6 and 7: type 6, ECU to ECU, is
    [frame_ecu_to_ecu], and the handler has no case above 7.  No frame changes the
    mode of a pin: a line that is an output shows its level, and line 6, which a loose
    contact leaves to TIM10 (timer.c, 117-122), stays with the timer. *)
Theorem frame_shows_fault (u : Z) (s : fiu) :
  fiu_ok s -> frame_bytes (g_FiuByte17Data s) ->
  0 <= byte (g_FiuByte17Data s) 2 < 4 ->
  (byte (g_FiuByte17Data s) 2 = 2 ->
    byte (g_FiuByte17Data s) 12 < 6 \/ byte (g_FiuByte17Data s) 12 = 7) ->
  wp (FiuCom_Process u) (fun _ s' =>
    shows (g_FiuByte17Data s) s' /\ fiu_ok s' /\
    (forall p, pin_mode (tr s') p = pin_mode (tr s) p) /\
    (forall n, 1 <= n <= 17 -> bus_driven s' n = (fun _ => bus_level s' n) <$> bus_driven s n)) s.
Proof.
  intros Hok Hfb Hkind Htype.
  destruct (proj1 (wp_Done _ _ _) (frame_shows u s _ Hok eq_refl Hfb Hkind Htype))
    as ([] & s' & E & Hshows & Hok').
  destruct (FiuCom_Process_extends u s s' Hok E) as (es & Htr & Hq).
  assert (forall p, pin_mode (tr s') p = pin_mode (tr s) p) as Hmode
    by (intros p; rewrite Htr; by apply pin_mode_quiet).
  unfold wp. rewrite E. split_and!; [done|done|done|]. intros n Hn. unfold bus_driven, bus_level, driven, is_output.
  destruct (index CTRLBUS (n - 1)) as [p|]; cbn; [|done]. rewrite Hmode.
  by destruct (pin_mode (tr s) p) as [[]|].
Qed.

(** C9: break before make. Between the fault shown before a frame and the one it
    asks for, the board passes through the state where every relay is open and
    every line is low: no two faults are ever connected at once. *)
Theorem frame_breaks_before_it_makes (u : Z) (s s' : fiu) :
  fiu_ok s -> marked (g_FiuByte17Data s) = true -> 0 <= byte (g_FiuByte17Data s) 2 < 4 ->
  FiuCom_Process u s = Done tt s' ->
  exists mid es1 es2, tr mid = es1 ++ tr s /\ at_rest mid /\ tr s' = es2 ++ tr mid.
Proof.
  intros Hok Hm Hk. rewrite FiuCom_Process_run by done. cbv zeta. rewrite Hm.
  destruct (handler_split _ Hk) as (rest & Hrest & ->).
  set (s0 := s <| uFiuCom_buf := g_FiuByte17Data s |>).
  assert (wp tdreset_process (fun _ => at_rest) s0) as Hrst.
  { destruct Hok. eapply wp_mono; [by apply tdreset_board|].
    intros [] ?. apply board_at_rest. }
  apply wp_Done in Hrst as ([] & mid & E & Hrest'). rewrite (bind_Done _ _ _ _ _ E). intros E2.
  destruct (tdreset_extends _ _ _ E) as (es1 & E1 & _).
  destruct (Hrest _ _ _ E2) as (es2 & -> & _). by exists mid, es1, es2.
Qed.

(** ** Instances *)

(** The unit after power-up, with the frame [f] to process. *)
Definition boot_with (f : list Z) : fiu := fiu_boot <| g_FiuByte17Data := f |>.

Lemma boot_with_ok f : length f = 17%nat -> fiu_ok (boot_with f).
Proof. by constructor. Qed.

Lemma frame_bytes_intro f :
  bool_decide (Forall is_u8 f) && (length f =? 17)%nat && marked f = true -> frame_bytes f.
Proof.
  rewrite !andb_true_iff, bool_decide_eq_true, Nat.eqb_eq. unfold marked.
  rewrite !andb_true_iff, !Z.eqb_eq. intros [[? ?] ?]. constructor; tauto.
Qed.

(** Channels 3 and 70 short to UbattA+. *)
Definition frame_short : list Z :=
  [0xbe; 0xbe; 0; 0x08; 0; 0; 0; 0; 0; 0; 0; 0x40; 2; 0; 0; 0xed; 0xed].

Lemma frame_shows_fault_witness :
  wp (FiuCom_Process 0) (fun _ s' => shows frame_short s' /\ fiu_ok s' /\
    (forall p, pin_mode (tr s') p = None) /\
    (forall n, 1 <= n <= 17 ->
      bus_driven s' n = (fun _ => bus_level s' n) <$> bus_driven (boot_with frame_short) n))
    (boot_with frame_short).
Proof.
  apply (frame_shows_fault 0 (boot_with frame_short)).
  - by apply boot_with_ok.
  - by apply frame_bytes_intro.
  - by vm_compute.
  - by vm_compute.
Defined.

Lemma frame_with_load_witness :
  let f := [0xbe; 0xbe; 0; 0x08; 0; 0; 0; 0; 0; 0; 0; 0; 0x12; 0; 0; 0xed; 0xed] in
  wp (FiuCom_Process 0) (fun _ s' =>
    (forall n, 1 <= n <= 17 -> bus_level s' n = false) /\ resistance s' = 0 /\
    (forall c, 0 <= c < 72 -> energised s' (3 * c) = selected f c)) (boot_with f).
Proof.
  intros f. apply (frame_with_load_drives_no_line 0 (boot_with f)).
  - by apply boot_with_ok.
  - by apply frame_bytes_intro.
  - by constructor.
  - by vm_compute.
Defined.

(** Channels 1 and 9 through code 0x0203. *)
Lemma frame_ecu_to_ecu_witness :
  let f := [0xbe; 0xbe; 2; 0x02; 0x02; 0; 0; 0; 0; 0; 0; 0; 6; 2; 3; 0xed; 0xed] in
  wp (FiuCom_Process 0) (fun _ s' =>
    (forall r, 0 <= r < 224 -> energised s' r = (r =? 3 * 1) || (r =? 3 * 1 + 1) || (r =? 3 * 9 + 2)) /\
    (forall n, 1 <= n <= 17 -> bus_level s' n = bool_decide (n ∈ [1; 5; 6])) /\
    resistance s' = 0x203) (boot_with f).
Proof.
  intros f. apply (frame_ecu_to_ecu 0 (boot_with f)).
  - by apply boot_with_ok.
  - by apply frame_bytes_intro.
  - done.
  - done.
  - apply Nat.leb_le. by vm_compute.
Defined.

Lemma frame_ecu_to_ecu_overflow_witness :
  FiuCom_Process 0 (boot_with [0xbe; 0xbe; 2; 0x1f; 0; 0; 0; 0; 0; 0; 0; 0; 6; 0; 0; 0xed; 0xed])
  = Undefined OutOfBounds.
Proof.
  apply frame_ecu_to_ecu_overflow.
  - by apply boot_with_ok.
  - by apply frame_bytes_intro.
  - done.
  - done.
  - apply Nat.ltb_lt. by vm_compute.
Defined.

Lemma frame_resets_witness :
  wp (FiuCom_Process 0) (fun _ s' => at_rest s' /\ fiu_ok s')
    (boot_with [0xbe; 0xbe; 4; 0; 0; 0; 0; 0; 0; 0; 0; 0; 0; 0; 0; 0xed; 0xed]).
Proof.
  apply frame_resets.
  - by apply boot_with_ok.
  - done.
  - done.
Defined.

Lemma frame_rejected_witness :
  wp (FiuCom_Process 0) (fun _ s' => (tr s' = [] \/ tr s' = [EvPrint "error"]) /\
    uDqStatus s' = replicate 14 0) (boot_with (replicate 17 0)).
Proof. apply (frame_rejected 0 (boot_with (replicate 17 0))); [by apply boot_with_ok|by left]. Defined.

Lemma frame_short_runs : exists s', FiuCom_Process 0 (boot_with frame_short) = Done tt s'.
Proof.
  assert (wp (FiuCom_Process 0) (fun _ s' => shows frame_short s' /\ fiu_ok s')
    (boot_with frame_short)) as H.
  { apply frame_shows; [by apply boot_with_ok|done|by apply frame_bytes_intro|done|done]. }
  destruct (proj1 (wp_Done _ _ _) H) as ([] & s' & H' & _). exact (ex_intro _ s' H').
Qed.

Lemma frame_breaks_before_it_makes_witness :
  exists s' mid es1 es2, FiuCom_Process 0 (boot_with frame_short) = Done tt s' /\
    tr mid = es1 ++ tr (boot_with frame_short) /\ at_rest mid /\ tr s' = es2 ++ tr mid.
Proof.
  destruct frame_short_runs as [s' E].
  destruct (frame_breaks_before_it_makes 0 (boot_with frame_short) s'
    (boot_with_ok frame_short eq_refl) eq_refl (conj (Z.le_refl 0) eq_refl) E) as (mid & es1 & es2 & H).
  exact (ex_intro _ s' (ex_intro _ mid (ex_intro _ es1 (ex_intro _ es2 (conj E H))))).
Defined.
