(* ===== verification/Io.v ===== *)
(** * Pin set-up and fuses: src/HARDWARE/LED/led.c, the start-up part of
    src/HARDWARE/Fiu/FiuProcess.c and [Fuse_check] of src/USER/main.c

    Which pins are outputs, the state in which the board starts, and the test of
    the five fuses. *)
From Stdlib Require Import ZArith Lia String.
From stdpp Require Import base tactics decidable list list_numbers numbers.
From S2P Require Import Prelude Board Relay.
Open Scope Z_scope.
Open Scope c_scope.

(** [GPIO_Initure.Mode=GPIO_MODE_OUTPUT_PP; ... HAL_GPIO_Init(port,&GPIO_Initure);] *)
Definition outputs (port : gpio_port) (pins : list Z) : M fiu unit := gpio_init port pins OUTPUT_PP.

(** [HAL_GPIO_WritePin(port,pin,GPIO_PIN_RESET);] for each pin. *)
Definition resets (port : gpio_port) (pins : list Z) : M fiu unit :=
  for_each pins (fun n => pin_reset (Pin port n)).

(** The ports A to I of [LED_Init]. *)
Definition LED_Init_ports : M fiu unit :=
  outputs GPIOA [0; 3; 5; 6; 8; 15] ;;
  resets GPIOA [0; 3; 5; 6; 8; 15] ;;
  outputs GPIOB [0; 1; 3; 4; 5; 6; 7; 8; 9; 12; 13; 14; 15] ;;
  resets GPIOB [0; 1; 3; 4; 5; 6; 7; 8; 9; 12; 13; 14; 15] ;;
  outputs GPIOC [6; 7; 8; 9; 11; 10; 12; 13] ;;
  resets GPIOC [10; 11; 6; 7; 8; 9; 12; 13] ;;
  outputs GPIOD [6; 7; 5; 3; 4; 11; 12; 13] ;;
  resets GPIOD [3; 4; 5; 6; 7; 11; 12; 13] ;;
  outputs GPIOE [6; 5; 3; 4; 2] ;;
  resets GPIOE [3; 2; 4; 5; 6] ;;
  outputs GPIOF [6; 7; 8; 9; 10] ;;
  resets GPIOF [6; 7; 8; 9; 10] ;;
  outputs GPIOG [6; 7; 3; 11; 12; 10; 9] ;;
  resets GPIOG [3; 6; 7; 9; 10; 11; 12] ;;
  outputs GPIOI [0; 1; 2; 3; 4; 5; 6; 7; 8; 9; 10; 11; 15] ;;
  resets GPIOI [0; 1; 2; 3; 4; 5; 6; 7; 8; 9; 10; 11; 15].

(** Port H: the fuse inputs, the protection relay, the output enable of the registers. *)
Definition LED_Init_portH : M fiu unit :=
  gpio_init GPIOH [7; 8; 9; 10; 11] INPUT ;;
  outputs GPIOH [2; 3; 6; 13; 14; 12; 15] ;;
  resets GPIOH [2] ;;
  pin_set (Pin GPIOH 3) ;;
  resets GPIOH [6; 13; 14; 15; 12] ;;
  pin_set CH_EN.

Definition LED_Init : M fiu unit :=
  LED_Init_ports ;;
  LED_Init_portH ;;
  Sn74374_Set0 ;;
  HV_FunRelay_Set 0.

(** ** Fuses *)
Section fuses.
Context {outside : Board}.
Context {S : Type} `{!HasTrace S}.

(** One fuse of [Fuse_test]: [FUSETESTn=1; delay_ms(40); if(FUSEDATAn==0)
    uTest_result|=(0x1<<k);] *)
Definition fuse_bit (test data : pin) (k uTest_result : Z) : M S Z :=
  pin_set test ;;
  delay_ms 40 ;;
  v ← read_pin data;
  mret (if negb v then u8 (Z.lor uTest_result (Z.shiftl 1 k)) else uTest_result).

Definition Fuse_test : M S Z :=
  r ← fuse_bit (Pin GPIOA 5) (Pin GPIOH 11) 0 0;
  r ← fuse_bit (Pin GPIOA 6) (Pin GPIOH 10) 1 r;
  r ← fuse_bit (Pin GPIOB 0) (Pin GPIOH 9) 2 r;
  r ← fuse_bit (Pin GPIOB 1) (Pin GPIOH 8) 3 r;
  r ← fuse_bit (Pin GPIOH 6) (Pin GPIOH 7) 4 r;
  for_each FUSETEST pin_reset ;;
  mret r.

(** One fuse of [Fuse_check]; the first three test pins are taken low again. *)
Definition check_fuse (test data : pin) (k fuse_status : Z) (release : bool) : M S Z :=
  pin_set test ;;
  delay_ms 50 ;;
  fuse_pinVal ← read_pin data;
  let fuse_status := if negb fuse_pinVal then setbit fuse_status k else fuse_status in
  (if release then pin_reset test else skip) ;;
  mret fuse_status.

Definition Fuse_check : M S Z :=
  s ← check_fuse (Pin GPIOA 5) (Pin GPIOH 11) 0 0 true;
  s ← check_fuse (Pin GPIOA 6) (Pin GPIOH 10) 1 s true;
  s ← check_fuse (Pin GPIOB 0) (Pin GPIOH 9) 2 s true;
  s ← check_fuse (Pin GPIOB 1) (Pin GPIOH 8) 3 s false;
  check_fuse (Pin GPIOH 6) (Pin GPIOH 7) 4 s false.
End fuses.

(** ** [RelayIO_Init]: the older start-up code, called by nothing in the image *)
Definition RelayIO_Init_pins : M fiu unit :=
  outputs GPIOH [12] ;;
  outputs GPIOH [15; 2] ;;
  outputs GPIOI [0; 1; 2; 3; 9; 10; 11; 8] ;;
  outputs GPIOA [0; 15; 3; 5; 6] ;;
  outputs GPIOC [10; 11; 12; 13] ;;
  outputs GPIOD [3; 4; 5; 6; 7] ;;
  outputs GPIOB [13; 14; 15; 0; 1] ;;
  outputs GPIOD [11; 12; 13] ;;
  outputs GPIOG [3; 6; 7] ;;
  outputs GPIOC [6; 7; 8; 9] ;;
  outputs GPIOA [8] ;;
  outputs GPIOH [13; 14; 6] ;;
  outputs GPIOF [8; 14; 6; 7; 9; 10] ;;
  outputs GPIOE [2; 3; 4; 5; 6] ;;
  gpio_init GPIOH [7; 8; 9; 10; 11] INPUT ;;
  outputs GPIOI [4; 5; 6; 7] ;;
  outputs GPIOB [3; 4; 5; 6; 7; 8; 9] ;;
  outputs GPIOG [9; 10; 11; 12].

Definition RelayIO_Init `{!Board} : M fiu unit :=
  RelayIO_Init_pins ;;
  ufuseresult ← Fuse_test;
  emit (EvPrint "fuse test result value=%d") ;;
  pin_set CH_EN ;;
  Sn74374_Set0 ;;
  HV_FunRelay_Set 0 ;;
  for_each (seqZ 0 CHANNUMBER) (fun i => wr uKasuStatus i 0 ;; wr uKamnStatus i 0) ;;
  for_each (seqZ 0 15) (fun i => wr uResistance i (2 ^ i)) ;;
  uFaultModeStatus ::= 0xff ;;
  uFaultModePreStatus ::= 0xff ;;
  if ufuseresult >? 0 then halt_with Spin else skip.
