(* ===== verification/IoSpec.v ===== *)
(** * What the pin set-up and the fuse test promise *)
From Stdlib Require Import ZArith Lia.
From stdpp Require Import base tactics decidable list list_numbers numbers.
From S2P Require Import Prelude Board Relay RelaySpec Frames Io.
Open Scope Z_scope.
Open Scope c_scope.

(** The pins the relay driver writes. *)
Definition DRIVEN : list pin := RELAYEN ++ CHCLK ++ CTRLBUS ++ RESCTRL.

(** The state of the board after power-up and the set-up of the pins. *)
Definition led_state : fiu :=
  match (LED_Init_ports ;; LED_Init_portH) fiu_boot with Done _ s => s | _ => fiu_boot end.

Lemma led_run : (LED_Init_ports ;; LED_Init_portH) fiu_boot = Done tt led_state.
Proof. by vm_compute. Qed.

Definition led_check (s : fiu) : bool :=
  (resistance s =? 0) && level (tr s) CH_EN && level (tr s) (Pin GPIOH 3) &&
  negb (level (tr s) (Pin GPIOB 12)) &&
  forallb (is_output (tr s)) (CH_EN :: DRIVEN ++ FUSETEST) &&
  forallb (fun p => match pin_mode (tr s) p with Some INPUT => true | _ => false end) FUSEDATA.

Lemma led_checked : match LED_Init fiu_boot with Done _ s => led_check s | _ => false end = true.
Proof. by vm_compute. Qed.

(** After power-up, [LED_Init] leaves the board at rest, the firmware's copy in
    agreement with the registers, the registers' outputs enabled, the protection
    relay closed, the buzzer silent, every pin of the relay driver an output and
    every fuse pin an input. *)
Theorem LED_Init_starts_at_rest :
  wp LED_Init (fun _ s =>
    board (replicate 17 0) (fun _ => false) [] 0 s /\
    level (tr s) CH_EN = true /\ level (tr s) (Pin GPIOH 3) = true /\
    level (tr s) (Pin GPIOB 12) = false /\
    forallb (is_output (tr s)) (CH_EN :: DRIVEN ++ FUSETEST) = true /\
    forallb (fun p => match pin_mode (tr s) p with Some INPUT => true | _ => false end) FUSEDATA
      = true) fiu_boot.
Proof.
  assert (wp LED_Init (fun _ s =>
    board (replicate 17 0) (fun _ => false) [] (resistance s) s) fiu_boot) as HB.
  { apply (wp_run _ ((LED_Init_ports ;; LED_Init_portH) ;; Sn74374_Set0 ;; HV_FunRelay_Set 0)
      _ _ fiu_boot).
    { unfold LED_Init. by rewrite bind_bind. }
    eapply wp_run; [by rewrite (bind_Done _ _ _ _ _ led_run)|].
    apply wp_bind. eapply wp_mono; [by apply Sn74374_Set0_board; vm_compute|].
    intros [] s HB. unfold HV_FunRelay_Set. cbn [Z.eqb].
    eapply wp_mono; [by apply (write_bus_board _ _ _ [] _ _ _ HB); vm_compute|].
    intros [] s' HB'. by rewrite (bd_res _ _ _ _ _ HB'). }
  eapply wp_mono; [exact (wp_conj _ _ _ _ HB (wp_check LED_Init (fun _ => led_check) fiu_boot led_checked))|].
  unfold led_check. intros [] s [HB' HM]. rewrite !andb_true_iff, Z.eqb_eq, negb_true_iff in HM.
  destruct HM as (((((Hv & H1) & H2) & H5) & H3) & H4). rewrite Hv in HB'.
  exact (conj HB' (conj H1 (conj H2 (conj H5 (conj H3 H4))))).
Qed.

(** ** Fuses *)
Section fuses.
Context {outside : Board}.
Context {S : Type} `{!HasTrace S, !HasTraceLaws S}.
(** The wiring: a fuse passes the level of its test pin to its data pin, unless
    it is blown. *)
Context (intact : Z -> bool).
Context (wiring : forall t k test data,
  index FUSETEST k = Some test -> index FUSEDATA k = Some data ->
  pin_in t data = level t test && intact k).

(** The blown fuses as bits 0..4. *)
Definition blown : Z :=
  foldr (fun k acc => Z.b2z (negb (intact k)) + 2 * acc) 0 (seqZ 0 5).

(** The result so far, with fuse [k] tested. *)
Definition fuse_step (k r : Z) : Z := if negb (intact k) then Z.lor r (Z.shiftl 1 k) else r.

Lemma fuse_step_u8 k r : 0 <= k < 5 -> is_u8 r -> is_u8 (fuse_step k r).
Proof using.
  clear. intros Hk Hr. unfold fuse_step. destruct (negb _); [|done].
  apply lor_in_width; [done|]. apply shl1_in_width. lia.
Qed.

Lemma fuse_steps : fuse_step 4 (fuse_step 3 (fuse_step 2 (fuse_step 1 (fuse_step 0 0)))) = blown.
Proof using.
  clear wiring. unfold fuse_step, blown.
  change (seqZ 0 5) with [0; 1; 2; 3; 4]. cbn [foldr].
  by destruct (intact 0), (intact 1), (intact 2), (intact 3), (intact 4).
Qed.

Lemma or_bit k r : 0 <= k < 5 -> is_u8 r -> u8 (Z.lor r (Z.shiftl 1 k)) = Z.lor r (Z.shiftl 1 k).
Proof using.
  clear. intros Hk Hr. apply in_width_small, lor_in_width; [done|]. apply shl1_in_width. lia.
Qed.

Lemma fuse_bit_run test data k r (s : S) :
  0 <= k < 5 -> is_u8 r ->
  index FUSETEST k = Some test -> index FUSEDATA k = Some data ->
  exists s', fuse_bit test data k r s = Done (fuse_step k r) s'.
Proof using All.
  intros Hk Hr Ht Hd. eexists. unfold fuse_bit, pin_set, write_pin, delay_ms, emit, read_pin.
  rewrite !bind_modify, bind_gets, !events_emit, (wiring _ k test data Ht Hd). cbn [level].
  by rewrite pin_eqb_refl, or_bit.
Qed.

Lemma check_fuse_run test data k r release (s : S) :
  0 <= k < 5 -> is_u8 r ->
  index FUSETEST k = Some test -> index FUSEDATA k = Some data ->
  check_fuse test data k r release s = Done (fuse_step k r) (emit_all
    ([EvPin test true; EvDelayMs 50] ++ (if release then [EvPin test false] else [])) s).
Proof using All.
  intros Hk Hr Ht Hd. unfold check_fuse, pin_set, pin_reset, write_pin, delay_ms, emit, read_pin.
  rewrite !bind_modify, bind_gets, !events_emit, (wiring _ k test data Ht Hd).
  cbn [level]. rewrite pin_eqb_refl. cbn [andb].
  unfold setbit. rewrite or_bit by done. by destruct release.
Qed.

(** Run the next fuse of either test. *)
Ltac run_fuse Hr :=
  match goal with
  | |- context [mbind _ (fuse_bit ?a ?b ?k ?r) ?s] =>
      let E := fresh "E" in
      destruct (fuse_bit_run a b k r s ltac:(lia) Hr eq_refl eq_refl) as [? E];
      rewrite (bind_Done _ _ _ _ _ E)
  | |- context [mbind _ (check_fuse ?a ?b ?k ?r ?rel) ?s] =>
      rewrite (bind_Done _ _ _ _ _ (check_fuse_run a b k r rel s ltac:(lia) Hr eq_refl eq_refl))
  end;
  match type of Hr with
  | is_u8 ?r => match goal with |- context [fuse_step ?k r] =>
      apply (fuse_step_u8 k) in Hr; [|lia] end
  end.

Lemma Fuse_test_run (s : S) : exists s', Fuse_test s = Done blown s'.
Proof using All.
  assert (is_u8 0) as Hr by done. unfold Fuse_test. do 5 run_fuse Hr. eexists.
  rewrite fuse_steps. reflexivity.
Qed.

(** What [Fuse_check] does to the test pins. *)
Definition fuse_effects : list event :=
  [EvPin (Pin GPIOA 5) true; EvDelayMs 50; EvPin (Pin GPIOA 5) false;
   EvPin (Pin GPIOA 6) true; EvDelayMs 50; EvPin (Pin GPIOA 6) false;
   EvPin (Pin GPIOB 0) true; EvDelayMs 50; EvPin (Pin GPIOB 0) false;
   EvPin (Pin GPIOB 1) true; EvDelayMs 50; EvPin (Pin GPIOH 6) true; EvDelayMs 50].

Lemma Fuse_check_run (s : S) : Fuse_check s = Done blown (emit_all fuse_effects s).
Proof using All.
  assert (is_u8 0) as Hr by done. unfold Fuse_check. do 4 run_fuse Hr.
  rewrite check_fuse_run by (done || lia). by rewrite fuse_steps.
Qed.

Lemma fuse_effects_levels (s : S) k p :
  index FUSETEST k = Some p -> level (events (emit_all fuse_effects s)) p = (3 <=? k).
Proof using All.
  rewrite events_emit_all. intros [Hk Hp]%index_Some.
  pose proof (lookup_lt_Some _ _ _ Hp) as Hlt. change (length FUSETEST) with 5%nat in Hlt.
  assert (k = 0 \/ k = 1 \/ k = 2 \/ k = 3 \/ k = 4) as [->|[->|[->|[->| ->]]]] by lia;
    injection Hp as <-; reflexivity.
Qed.

(** With fuses wired between their test and data pins, both fuse tests return
    exactly the blown fuses as bits 0 to 4; [Fuse_check], the one the firmware
    calls, leaves the test pins of the fuses 4 and 5 high. *)
Theorem fuse_tests_agree (s : S) :
  wp Fuse_test (fun r _ => r = blown) s /\
  wp Fuse_check (fun r s' => r = blown /\
    forall k p, index FUSETEST k = Some p -> level (events s') p = (3 <=? k)) s.
Proof using All.
  destruct (Fuse_test_run s) as [s1 E1]. unfold wp. rewrite E1, Fuse_check_run.
  split; [done|]. split; [done|]. apply fuse_effects_levels.
Qed.
End fuses.

(** A board on which the fuses [intact] are whole. *)
Definition wired (intact : Z -> bool) : Board := fun t p =>
  match list_find (fun q => pin_eqb p q = true) FUSEDATA with
  | Some (k, _) =>
      match FUSETEST !! k with
      | Some test => level t test && intact (Z.of_nat k)
      | None => false
      end
  | None => false
  end.

Lemma wired_fuses intact t k test data :
  index FUSETEST k = Some test -> index FUSEDATA k = Some data ->
  @pin_in (wired intact) t data = level t test && intact k.
Proof.
  intros [Hk Ht]%index_Some [_ Hd]%index_Some.
  pose proof (lookup_lt_Some _ _ _ Ht) as Hlt. change (length FUSETEST) with 5%nat in Hlt.
  assert (k = 0 \/ k = 1 \/ k = 2 \/ k = 3 \/ k = 4) as [->|[->|[->|[->| ->]]]] by lia;
    injection Ht as <-; injection Hd as <-; reflexivity.
Qed.

(** A board whose second fuse is blown. *)
Definition fuse_board : Board := wired (fun k => negb (k =? 1)).

Lemma fuse_tests_agree_witness :
  wp (Fuse_test (outside := fuse_board)) (fun r _ => r = 2) fiu_boot /\
  wp (Fuse_check (outside := fuse_board)) (fun r s' => r = 2 /\
    forall k p, index FUSETEST k = Some p -> level (events s') p = (3 <=? k)) fiu_boot.
Proof.
  apply (fuse_tests_agree (outside := fuse_board) (fun k => negb (k =? 1))). apply wired_fuses.
Defined.
