(* ===== verification/HostConfig.v ===== *)
(** * The configuration of a fault: src/HARDWARE/Fiu/FiuHostDataAnalysis.c

    A host message of eight bytes asks for one pin of one fault; the pins of a
    fault accumulate in [P0] and [P1] until the host says that the configuration
    is done.  Here: the globals, the check of a message, and its effect on the
    globals.  [P0] holds channels 0..63; bits 0..7 of [P1] channels 64..71, bits
    8..11 the fault type and bit 12 "with load". *)
From Stdlib Require Import ZArith Lia.
From stdpp Require Import base tactics decidable list list_numbers numbers.
From S2P Require Import Prelude Relay.
Open Scope Z_scope.
Open Scope c_scope.

Definition ERRORNUM : Z := 80.

Record host := Host {
  g_DataFromHost : list Z;
  P0 : Z; P1 : Z; P2 : Z;
  P3_0 : Z; P3_1 : Z; P3_2 : Z; P3_3 : Z; P4_0 : Z; P4_1 : Z;
  g_Ptime : Z; g_Pfreq : Z; g_Pduty : Z; g_CRC : Z; g_Cmd3Err3Cnt : Z;
  g_workStatus : Z;
  g_bLoose : Z; g_bFreq : Z; g_bDuty : Z; g_bTime : Z;
  g_HostConfigPass : Z;
  g_HostConfigErr : list Z;
  g_SendTxcmd : Z;
  FIU_CurCmd : Z;
  FIU_Cmd0_CurErrorType : Z;              (** [int8_t], -1 for none yet *)
  FIU_Cmd0_CurPinFlag : list Z;
  FIU_Cmd1_Flag : Z;
  FIU_Cmd2_Flag : Z;
  FIU_Cmd2_ErrorType0Flag : Z;
  FIU_Cmd2_ErrorType0FlagWithLoadFlag : Z;
  FIU_Cmd2_ErrorType0Cnt : Z;
  FIU_Cmd3_Flag : Z;
  FIU_Cmd3_ErrorType3Flag : Z;
  FIU_Cmd3_ErrorType3Cnt : Z;
  FIU_Cmd4_FreqDutyFlag : Z;
  FIU_Cmd4_ResistanceFlag : Z;
  FIU_Cmd2_Err0 : Z;
  g_WorkMode : Z;
}.

#[export] Instance host_eta : Eta host := fun s =>
  Host (g_DataFromHost s) (P0 s) (P1 s) (P2 s)
    (P3_0 s) (P3_1 s) (P3_2 s) (P3_3 s) (P4_0 s) (P4_1 s)
    (g_Ptime s) (g_Pfreq s) (g_Pduty s) (g_CRC s) (g_Cmd3Err3Cnt s) (g_workStatus s)
    (g_bLoose s) (g_bFreq s) (g_bDuty s) (g_bTime s)
    (g_HostConfigPass s) (g_HostConfigErr s) (g_SendTxcmd s) (FIU_CurCmd s)
    (FIU_Cmd0_CurErrorType s) (FIU_Cmd0_CurPinFlag s) (FIU_Cmd1_Flag s) (FIU_Cmd2_Flag s)
    (FIU_Cmd2_ErrorType0Flag s) (FIU_Cmd2_ErrorType0FlagWithLoadFlag s)
    (FIU_Cmd2_ErrorType0Cnt s) (FIU_Cmd3_Flag s) (FIU_Cmd3_ErrorType3Flag s)
    (FIU_Cmd3_ErrorType3Cnt s) (FIU_Cmd4_FreqDutyFlag s) (FIU_Cmd4_ResistanceFlag s)
    (FIU_Cmd2_Err0 s) (g_WorkMode s).
#[export] Instance upd_g_DataFromHost : Upd g_DataFromHost := ltac:(derive_upd).
#[export] Instance upd_P0 : Upd P0 := ltac:(derive_upd).
#[export] Instance upd_P1 : Upd P1 := ltac:(derive_upd).
#[export] Instance upd_P2 : Upd P2 := ltac:(derive_upd).
#[export] Instance upd_P3_0 : Upd P3_0 := ltac:(derive_upd).
#[export] Instance upd_P3_1 : Upd P3_1 := ltac:(derive_upd).
#[export] Instance upd_P3_2 : Upd P3_2 := ltac:(derive_upd).
#[export] Instance upd_P3_3 : Upd P3_3 := ltac:(derive_upd).
#[export] Instance upd_P4_0 : Upd P4_0 := ltac:(derive_upd).
#[export] Instance upd_P4_1 : Upd P4_1 := ltac:(derive_upd).
#[export] Instance upd_g_Ptime : Upd g_Ptime := ltac:(derive_upd).
#[export] Instance upd_g_Pfreq : Upd g_Pfreq := ltac:(derive_upd).
#[export] Instance upd_g_Pduty : Upd g_Pduty := ltac:(derive_upd).
#[export] Instance upd_g_CRC : Upd g_CRC := ltac:(derive_upd).
#[export] Instance upd_g_Cmd3Err3Cnt : Upd g_Cmd3Err3Cnt := ltac:(derive_upd).
#[export] Instance upd_g_workStatus : Upd g_workStatus := ltac:(derive_upd).
#[export] Instance upd_g_bLoose : Upd g_bLoose := ltac:(derive_upd).
#[export] Instance upd_g_bFreq : Upd g_bFreq := ltac:(derive_upd).
#[export] Instance upd_g_bDuty : Upd g_bDuty := ltac:(derive_upd).
#[export] Instance upd_g_bTime : Upd g_bTime := ltac:(derive_upd).
#[export] Instance upd_g_HostConfigPass : Upd g_HostConfigPass := ltac:(derive_upd).
#[export] Instance upd_g_HostConfigErr : Upd g_HostConfigErr := ltac:(derive_upd).
#[export] Instance upd_g_SendTxcmd : Upd g_SendTxcmd := ltac:(derive_upd).
#[export] Instance upd_FIU_CurCmd : Upd FIU_CurCmd := ltac:(derive_upd).
#[export] Instance upd_FIU_Cmd0_CurErrorType : Upd FIU_Cmd0_CurErrorType := ltac:(derive_upd).
#[export] Instance upd_FIU_Cmd0_CurPinFlag : Upd FIU_Cmd0_CurPinFlag := ltac:(derive_upd).
#[export] Instance upd_FIU_Cmd1_Flag : Upd FIU_Cmd1_Flag := ltac:(derive_upd).
#[export] Instance upd_FIU_Cmd2_Flag : Upd FIU_Cmd2_Flag := ltac:(derive_upd).
#[export] Instance upd_FIU_Cmd2_ErrorType0Flag : Upd FIU_Cmd2_ErrorType0Flag := ltac:(derive_upd).
#[export] Instance upd_FIU_Cmd2_ErrorType0FlagWithLoadFlag :
  Upd FIU_Cmd2_ErrorType0FlagWithLoadFlag := ltac:(derive_upd).
#[export] Instance upd_FIU_Cmd2_ErrorType0Cnt : Upd FIU_Cmd2_ErrorType0Cnt := ltac:(derive_upd).
#[export] Instance upd_FIU_Cmd3_Flag : Upd FIU_Cmd3_Flag := ltac:(derive_upd).
#[export] Instance upd_FIU_Cmd3_ErrorType3Flag : Upd FIU_Cmd3_ErrorType3Flag := ltac:(derive_upd).
#[export] Instance upd_FIU_Cmd3_ErrorType3Cnt : Upd FIU_Cmd3_ErrorType3Cnt := ltac:(derive_upd).
#[export] Instance upd_FIU_Cmd4_FreqDutyFlag : Upd FIU_Cmd4_FreqDutyFlag := ltac:(derive_upd).
#[export] Instance upd_FIU_Cmd4_ResistanceFlag : Upd FIU_Cmd4_ResistanceFlag := ltac:(derive_upd).
#[export] Instance upd_FIU_Cmd2_Err0 : Upd FIU_Cmd2_Err0 := ltac:(derive_upd).
#[export] Instance upd_g_WorkMode : Upd g_WorkMode := ltac:(derive_upd).

(** The globals as the C start-up code leaves them. *)
Definition host_boot : host :=
  Host (replicate 8 0) 0 0 0 0 0 0 0 0 0 0 0 0 0 0 0 0 0 0 0 0 (replicate 80 0) 0 0 0
    (replicate 80 0) 0 0 0 0 0 0 0 0 0 0 0 0.

(** ** Initialisation *)
Definition P_init : M host unit :=
  P0 ::= 0 ;; P1 ::= 0 ;; P2 ::= 0 ;;
  P3_0 ::= 0 ;; P3_1 ::= 0 ;; P3_2 ::= 0 ;; P3_3 ::= 0 ;; P4_0 ::= 0 ;; P4_1 ::= 0 ;;
  g_Ptime ::= 0 ;; g_Pfreq ::= 0 ;; g_Pduty ::= 0 ;; g_CRC ::= 0 ;;
  g_bFreq ::= 0 ;; g_bDuty ::= 0 ;; g_bTime ::= 0 ;; g_Cmd3Err3Cnt ::= 0.

Definition FIU_Cmd0_CurPinFlag_init : M host unit :=
  g_SendTxcmd ::= 0 ;;
  FIU_CurCmd ::= 255 ;;
  FIU_Cmd0_CurErrorType ::= -1 ;;
  FIU_Cmd1_Flag ::= 0 ;;
  FIU_Cmd2_Flag ::= 0 ;;
  FIU_Cmd2_ErrorType0Flag ::= 0 ;;
  FIU_Cmd2_ErrorType0FlagWithLoadFlag ::= 0 ;;
  FIU_Cmd2_ErrorType0Cnt ::= 0 ;;
  FIU_Cmd3_Flag ::= 0 ;;
  FIU_Cmd3_ErrorType3Flag ::= 0 ;;
  FIU_Cmd3_ErrorType3Cnt ::= 0 ;;
  FIU_Cmd4_FreqDutyFlag ::= 0 ;;
  FIU_Cmd4_ResistanceFlag ::= 0 ;;
  for_each (seqZ 0 ERRORNUM) (fun i => wr FIU_Cmd0_CurPinFlag i 0) ;;
  FIU_Cmd2_Err0 ::= 0.

Definition GlobalDataInit : M host unit := P_init ;; FIU_Cmd0_CurPinFlag_init.

Definition ErrorNumInit : M host unit :=
  g_HostConfigPass ::= 0 ;;
  for_each (seqZ 0 ERRORNUM) (fun i => wr g_HostConfigErr i (u8 (i + 0x81))).

(** ** Pins in 64-bit words *)

(** A byte array of eight [b]s with [f] applied at [PinNum / 8], as a word. *)
Definition one_byte (b : Z) (f : Z -> Z) (PinNum : Z) : M host Z :=
  let ByteIndex := PinNum / 8 in
  let tmpArray := replicate 8 b in
  x ← from_array (index tmpArray ByteIndex);
  mret (le_value (<[Z.to_nat ByteIndex := f x]> tmpArray)).

Definition McuFault64BitValuePinSet (ToSetValue PinNum : Z) : M host Z :=
  let BitIndex := PinNum mod 8 in
  tmp ← one_byte 0x00 (fun x => setbit x BitIndex) PinNum;
  mret (Z.lor tmp ToSetValue).

Definition McuFault64BitValuePinClr (ToClrValue PinNum : Z) : M host Z :=
  let BitIndex := PinNum mod 8 in
  tmp ← one_byte 0xFF (fun x => clrbit x BitIndex) PinNum;
  mret (Z.land tmp ToClrValue).

(** ** The check of a message *)
Definition err (i : Z) : M host Z := rd g_HostConfigErr i.
Definition pass : M host Z := gets g_HostConfigPass.

(** [canByte0 == 0x00], lines 1404 to 1439.  An error type other than the current
    one meets no [return] and passes. *)
Definition HostConfigCheck_0 (CurPinNum canByte3 : Z) : M host Z :=
  if negb (canByte3 =? 0) then
    if CurPinNum >? CHANNUMBER then err 27
    else if canByte3 >? 4 then err 25
    else
      t ← gets FIU_Cmd0_CurErrorType;
      if (t =? -1) || (t =? canByte3) then
        flag ← rd FIU_Cmd0_CurPinFlag CurPinNum;
        if negb (flag =? 0) then err 28
        else
          FIU_Cmd0_CurErrorType ::= canByte3 ;;
          wr FIU_Cmd0_CurPinFlag CurPinNum 1 ;;
          pass
      else pass
  else
    if CurPinNum >? CHANNUMBER then err 29
    else
      flag ← rd FIU_Cmd0_CurPinFlag CurPinNum;
      if flag =? 1 then err 30
      else wr FIU_Cmd0_CurPinFlag CurPinNum 1 ;; pass.

Definition HostConfigCheck_1 (CurPinNum canByte3 canByte4 : Z) : M host Z :=
  if (if canByte3 =? 0 then negb (canByte4 =? 0) else canByte4 >? 1)
  then err (if canByte3 =? 0 then 26 else 50)
  else if CurPinNum >? CHANNUMBER then err 31
  else
    flag ← gets FIU_Cmd1_Flag;
    if negb (flag =? 0) then err 32 else FIU_Cmd1_Flag ::= 1 ;; pass.

Definition HostConfigCheck_2 (CurPinNum canByte3 canByte4 : Z) : M host Z :=
  if negb (canByte3 =? 0) && negb (canByte3 =? 6) then
    if canByte4 >? 1 then err 54
    else if CurPinNum >? CHANNUMBER then err 33
    else
      flag ← gets FIU_Cmd2_Flag;
      if negb (flag =? 0) then err 34 else FIU_Cmd2_Flag ::= 1 ;; pass
  else if canByte3 =? 6 then
    if negb (canByte4 =? 0) then err 53
    else if CurPinNum >? CHANNUMBER then err 33
    else
      flag ← gets FIU_Cmd2_Flag;
      if negb (flag =? 0) then err 34 else FIU_Cmd2_Flag ::= 1 ;; pass
  else
    if canByte4 >? 1 then err 51
    else if CurPinNum >? CHANNUMBER then err 35
    else
      flag ← gets FIU_Cmd2_ErrorType0Flag;
      if flag =? 0 then
        FIU_Cmd2_Flag ::= 1 ;;
        cnt ← gets FIU_Cmd2_ErrorType0Cnt;
        FIU_Cmd2_ErrorType0Cnt ::= u8 (cnt + 1) ;;
        (if u8 (cnt + 1) >=? 2 then FIU_Cmd2_ErrorType0Flag ::= 1 else skip) ;;
        pass
      else err 36.

Definition HostConfigCheck_3 (CurPinNum canByte3 canByte4 : Z) : M host Z :=
  if negb (canByte3 =? 3) && negb (canByte3 =? 0) then
    if canByte4 >? 1 then err 57
    else if CurPinNum >? CHANNUMBER then err 37
    else
      flag ← gets FIU_Cmd3_Flag;
      if negb (flag =? 0) then err 38 else FIU_Cmd3_Flag ::= 1 ;; pass
  else if canByte3 =? 0 then
    if negb (canByte4 =? 0) then err 56
    else if CurPinNum >? CHANNUMBER then err 37
    else
      flag ← gets FIU_Cmd3_Flag;
      if negb (flag =? 0) then err 38 else FIU_Cmd3_Flag ::= 1 ;; pass
  else
    if canByte4 >? 1 then err 55
    else
      flag ← gets FIU_Cmd3_ErrorType3Flag;
      if flag =? 0 then
        FIU_Cmd3_Flag ::= 1 ;;
        cnt ← gets FIU_Cmd3_ErrorType3Cnt;
        FIU_Cmd3_ErrorType3Cnt ::= u8 (cnt + 1) ;;
        (if u8 (cnt + 1) >=? 2 then FIU_Cmd3_ErrorType3Flag ::= 1 else skip) ;;
        pass
      else err 39.

(** The part of [canByte0 == 0x04] on the resistance, lines 1640 to 1657. *)
Definition HostConfigCheck_4r (canByte5 canByte6 canByte7 : Z) : M host Z :=
  if canByte5 =? 1 then
    flag ← gets FIU_Cmd4_ResistanceFlag;
    if flag =? 0 then
      let resistance := u16 (Z.lor (Z.shiftl canByte7 8) canByte6) in
      if resistance >? 32000 then err 44 else pass
    else err 45
  else pass.

Definition HostConfigCheck_4 (canByte2 canByte3 canByte4 canByte5 canByte6 canByte7 : Z)
  : M host Z :=
  if canByte2 =? 1 then
    FIU_Cmd4_FreqDutyFlag ::= 1 ;;
    if (canByte3 <? 2) || (canByte3 >? 99) then err 40
    else if canByte3 =? 2 then
      if (canByte4 <? 30) || (canByte4 >? 50) then err 42
      else HostConfigCheck_4r canByte5 canByte6 canByte7
    else
      if (canByte4 <? 1) || (canByte4 >? 99) then err 43
      else HostConfigCheck_4r canByte5 canByte6 canByte7
  else HostConfigCheck_4r canByte5 canByte6 canByte7.

Definition HostConfigCheck
  (canByte0 canByte1 canByte2 canByte3 canByte4 canByte5 canByte6 canByte7 : Z) : M host Z :=
  if canByte1 >? 16 then err 23
  else
    same ← (if negb (canByte0 =? 0x04) then
              cmd ← gets FIU_CurCmd;
              if (cmd =? 255) || (cmd =? canByte0) then FIU_CurCmd ::= canByte0 ;; mret true
              else mret false
            else mret true);
    if negb same then err 24
    else if canByte0 =? 0 then HostConfigCheck_0 canByte2 canByte3
    else if canByte0 =? 1 then HostConfigCheck_1 canByte2 canByte3 canByte4
    else if canByte0 =? 2 then HostConfigCheck_2 canByte2 canByte3 canByte4
    else if canByte0 =? 3 then HostConfigCheck_3 canByte2 canByte3 canByte4
    else if canByte0 =? 4 then
      HostConfigCheck_4 canByte2 canByte3 canByte4 canByte5 canByte6 canByte7
    else pass.

(** ** The effect of a message *)

(** [if (nCurPinNum < limit) P0 = ...PinSet(P0,nCurPinNum);
     else P1 = ...PinSet(P1,nCurPinNum - 64);] *)
Definition set_pin (limit nCurPinNum : Z) : M host unit :=
  if nCurPinNum <? limit then
    p ← gets P0; p ← McuFault64BitValuePinSet p nCurPinNum; P0 ::= p
  else
    p ← gets P1; p ← McuFault64BitValuePinSet p (u8 (nCurPinNum - 64)); P1 ::= p.

(** [P1 = McuFault64BitValuePinSet(P1,n);] *)
Definition set_P1 (n : Z) : M host unit :=
  p ← gets P1; p ← McuFault64BitValuePinSet p n; P1 ::= p.

Definition clr_P1 (n : Z) : M host unit :=
  p ← gets P1; p ← McuFault64BitValuePinClr p n; P1 ::= p.

(** The [if(nCurWithLoad == 1) ... else if(nCurWithLoad == 0) ... else] of most
    branches, which fails with error [e]; otherwise the function returns pass. *)
Definition set_load (nCurWithLoad e : Z) : M host Z :=
  if nCurWithLoad =? 1 then set_P1 12 ;; pass
  else if nCurWithLoad =? 0 then clr_P1 12 ;; pass
  else P_init ;; err e.

(** [P_init(); return g_HostConfigErr[e];] *)
Definition refuse (e : Z) : M host Z := P_init ;; err e.

(** Compound faults. *)
Definition config_cmd0 (nCurPinNum nCurErrorType nCurWithLoad : Z) : M host Z :=
  if nCurErrorType =? 0 then set_pin CHANNUMBER nCurPinNum ;; set_P1 8 ;; pass
  else if nCurErrorType =? 1 then
    set_pin CHANNUMBER nCurPinNum ;; set_P1 9 ;; set_load nCurWithLoad 2
  else if nCurErrorType =? 2 then
    set_pin CHANNUMBER nCurPinNum ;; set_P1 9 ;; set_P1 8 ;; set_load nCurWithLoad 3
  else if nCurErrorType =? 3 then
    set_pin CHANNUMBER nCurPinNum ;; set_P1 10 ;; set_load nCurWithLoad 4
  else if nCurErrorType =? 4 then
    set_pin CHANNUMBER nCurPinNum ;; set_P1 10 ;; set_P1 8 ;; set_load nCurWithLoad 5
  else refuse 6.

(** Fast channel. *)
Definition config_cmd1 (nCurPinNum nCurErrorType nCurWithLoad : Z) : M host Z :=
  if nCurErrorType =? 0 then set_pin CHANNUMBER nCurPinNum ;; set_P1 8 ;; pass
  else if nCurErrorType =? 1 then
    set_pin CHANNUMBER nCurPinNum ;; set_P1 9 ;; set_load nCurWithLoad 7
  else if nCurErrorType =? 2 then
    set_pin CHANNUMBER nCurPinNum ;; set_P1 9 ;; set_P1 8 ;; set_load nCurWithLoad 8
  else if nCurErrorType =? 3 then
    set_pin CHANNUMBER nCurPinNum ;; set_P1 10 ;; set_load nCurWithLoad 9
  else if nCurErrorType =? 4 then
    set_pin CHANNUMBER nCurPinNum ;; set_P1 10 ;; set_P1 8 ;; set_load nCurWithLoad 10
  else refuse 11.

(** Leakage through a resistance. *)
Definition config_cmd2 (nCurPinNum nCurErrorType nCurWithLoad : Z) : M host Z :=
  if nCurErrorType =? 0 then
    if nCurWithLoad =? 1 then
      set_pin CHANNUMBER nCurPinNum ;; set_P1 8 ;; set_P1 12 ;; pass
    else if nCurWithLoad =? 0 then
      set_pin CHANNUMBER nCurPinNum ;; set_P1 8 ;; clr_P1 12 ;; pass
    else err 12
  else if nCurErrorType =? 1 then
    set_pin CHANNUMBER nCurPinNum ;; set_P1 9 ;; set_P1 12 ;; pass
  else if nCurErrorType =? 2 then
    set_pin CHANNUMBER nCurPinNum ;; set_P1 8 ;; set_P1 9 ;; set_load nCurWithLoad 13
  else if nCurErrorType =? 3 then
    set_pin CHANNUMBER nCurPinNum ;; set_P1 10 ;; set_load nCurWithLoad 14
  else if nCurErrorType =? 4 then
    set_pin CHANNUMBER nCurPinNum ;; set_P1 10 ;; set_P1 8 ;; set_load nCurWithLoad 15
  else if nCurErrorType =? 5 then
    set_pin CHANNUMBER nCurPinNum ;; set_P1 10 ;; set_P1 9 ;; set_load nCurWithLoad 16
  else if nCurErrorType =? 6 then
    set_pin CHANNUMBER nCurPinNum ;; set_P1 10 ;; set_P1 9 ;; set_P1 8 ;;
    set_load nCurWithLoad 14
  else refuse 17.

(** High current, 18 channels. *)
Definition config_cmd3 (nCurPinNum nCurErrorType nCurWithLoad : Z) : M host Z :=
  if nCurErrorType =? 0 then set_pin 18 nCurPinNum ;; set_P1 8 ;; pass
  else if nCurErrorType =? 1 then
    set_pin 18 nCurPinNum ;; set_P1 9 ;; set_load nCurWithLoad 17
  else if nCurErrorType =? 2 then
    set_pin 18 nCurPinNum ;; set_P1 8 ;; set_P1 9 ;; set_load nCurWithLoad 18
  else if nCurErrorType =? 3 then refuse 2
  else refuse 19.

(** Loose contact and resistance. *)
Definition config_cmd4 : M host Z :=
  b2 ← rd g_DataFromHost 2;
  (if negb (b2 =? 0) then
     g_bLoose ::= 1 ;; g_bFreq ::= 1 ;; g_bDuty ::= 1 ;;
     b3 ← rd g_DataFromHost 3; g_Pfreq ::= b3 ;;
     b4 ← rd g_DataFromHost 4; g_Pduty ::= b4
   else g_Ptime ::= 0 ;; g_Pfreq ::= 0 ;; g_Pduty ::= 0) ;;
  b5 ← rd g_DataFromHost 5;
  (if negb (b5 =? 0) then
     b7 ← rd g_DataFromHost 7;
     b6 ← rd g_DataFromHost 6;
     P4_0 ::= u16 (Z.lor (Z.shiftl b7 8) b6)
   else skip) ;;
  pass.

Definition McuGetHostConfigInfo : M host Z :=
  nCurCommandVal ← rd g_DataFromHost 0;
  nCurPinNum ← rd g_DataFromHost 2;
  nCurPinNum1 ← rd g_DataFromHost 5;
  nCurErrorType ← rd g_DataFromHost 3;
  nCurWithLoad ← rd g_DataFromHost 4;
  nCurCanDataByte6 ← rd g_DataFromHost 6;
  nCurCanDataByte7 ← rd g_DataFromHost 7;
  byte1 ← rd g_DataFromHost 1;
  result ← HostConfigCheck nCurCommandVal byte1 nCurPinNum nCurErrorType nCurWithLoad
             nCurPinNum1 nCurCanDataByte6 nCurCanDataByte7;
  ok ← gets g_HostConfigPass;
  if negb (result =? ok) then GlobalDataInit ;; mret result
  else if nCurCommandVal =? 0 then config_cmd0 nCurPinNum nCurErrorType nCurWithLoad
  else if nCurCommandVal =? 1 then config_cmd1 nCurPinNum nCurErrorType nCurWithLoad
  else if nCurCommandVal =? 2 then config_cmd2 nCurPinNum nCurErrorType nCurWithLoad
  else if nCurCommandVal =? 3 then config_cmd3 nCurPinNum nCurErrorType nCurWithLoad
  else if nCurCommandVal =? 4 then config_cmd4
  else pass.

(** ** The frame for the relay driver *)

(** [DataAtPxToFiuBytes17]: the new contents of [g_FiuByte17Data]. *)
Definition frame_bytes_of (h : host) (g : list Z) : list Z :=
  let g := <[0%nat := 0xbe]> g in
  let g := <[1%nat := 0xbe]> g in
  let g := <[2%nat := FIU_CurCmd h]> g in
  let g := blit g 3 (le_bytes 8 (P0 h)) in
  let g := blit g 11 (le_bytes 2 (P1 h)) in
  let g := <[13%nat := u8 (Z.shiftr (P4_0 h) 8)]> g in
  let g := <[14%nat := Z.land (P4_0 h) 0xff]> g in
  let g := <[15%nat := 0xed]> g in
  <[16%nat := 0xed]> g.
