(* ===== verification/HostConfigSpec.v ===== *)
(** * What the configuration of a fault promises

    Pins in 64-bit words, the invariant of the globals, what an accepted message
    adds to the configuration, and what a refused one leaves of it. *)
From Stdlib Require Import ZArith Lia.
From stdpp Require Import base tactics decidable list list_numbers numbers.
From S2P Require Import Prelude Relay HostConfig.
Open Scope Z_scope.
Open Scope c_scope.

(** ** Pins in words *)

(** The word with only bit [n] set, and the one with only bit [n] clear, as the
    byte arrays of the code make them. *)
Lemma one_byte_set n :
  0 <= n < 64 ->
  exists x, index (replicate 8 0) (n / 8) = Some x /\
    le_value (<[Z.to_nat (n / 8) := setbit x (n mod 8)]> (replicate 8 0)) = Z.shiftl 1 n.
Proof.
  intros Hn.
  assert (forallb (fun n => match index (replicate 8 0) (n / 8) with
    | Some x => le_value (<[Z.to_nat (n / 8) := setbit x (n mod 8)]> (replicate 8 0)) =? Z.shiftl 1 n
    | None => false end) (seqZ 0 64) = true) as H by by vm_compute.
  rewrite forallb_forall in H. specialize (H n).
  rewrite <- list_elem_of_In, elem_of_seqZ in H. specialize (H Hn).
  destruct (index _ _) as [x|]; [|done]. exists x. by apply Z.eqb_eq in H.
Qed.

Lemma one_byte_clr n :
  0 <= n < 64 ->
  exists x, index (replicate 8 0xFF) (n / 8) = Some x /\
    le_value (<[Z.to_nat (n / 8) := clrbit x (n mod 8)]> (replicate 8 0xFF)) =
    Z.lxor (Z.ones 64) (Z.shiftl 1 n).
Proof.
  intros Hn.
  assert (forallb (fun n => match index (replicate 8 0xFF) (n / 8) with
    | Some x => le_value (<[Z.to_nat (n / 8) := clrbit x (n mod 8)]> (replicate 8 0xFF)) =?
        Z.lxor (Z.ones 64) (Z.shiftl 1 n)
    | None => false end) (seqZ 0 64) = true) as H by by vm_compute.
  rewrite forallb_forall in H. specialize (H n).
  rewrite <- list_elem_of_In, elem_of_seqZ in H. specialize (H Hn).
  destruct (index _ _) as [x|]; [|done]. exists x. by apply Z.eqb_eq in H.
Qed.

Lemma PinSet_run v n h :
  0 <= n < 64 -> McuFault64BitValuePinSet v n h = Done (Z.lor (Z.shiftl 1 n) v) h.
Proof.
  intros Hn. unfold McuFault64BitValuePinSet, one_byte.
  destruct (one_byte_set n Hn) as (x & Hx & E). rewrite Hx, bind_bind. cbn [from_array].
  rewrite !bind_ret. by rewrite E.
Qed.

Lemma PinClr_run v n h :
  0 <= n < 64 ->
  McuFault64BitValuePinClr v n h = Done (Z.land (Z.lxor (Z.ones 64) (Z.shiftl 1 n)) v) h.
Proof.
  intros Hn. unfold McuFault64BitValuePinClr, one_byte.
  destruct (one_byte_clr n Hn) as (x & Hx & E). rewrite Hx, bind_bind. cbn [from_array].
  rewrite !bind_ret. by rewrite E.
Qed.

Lemma index_replicate_oob (b n : Z) : 64 <= n -> index (replicate 8 b) (n / 8) = None.
Proof.
  intros Hn. apply index_None. cbn. Z.to_euclidean_division_equations. lia.
Qed.

(** [McuFault64BitValuePinSet] sets bit [PinNum] of a 64-bit value and leaves
    the others, for every pin below 64; from 64 on (unchecked by its callers) it
    writes past its local array. *)
Theorem PinSet_correct (v n : Z) (h : host) :
  is_u64 v -> 0 <= n ->
  if n <? 64
  then exists r, McuFault64BitValuePinSet v n h = Done r h /\ is_u64 r /\
    forall k, 0 <= k -> Z.testbit r k = Z.testbit v k || bool_decide (k = n)
  else McuFault64BitValuePinSet v n h = Undefined OutOfBounds.
Proof.
  intros Hv Hn. destruct (Z.ltb_spec n 64) as [Hlt|Hge].
  - rewrite PinSet_run by lia. eexists. split; [done|]. split.
    + apply lor_in_width; [apply shl1_in_width; lia|done].
    + intros k Hk. by rewrite Z.lor_spec, testbit_one_shl, orb_comm by lia.
  - unfold McuFault64BitValuePinSet, one_byte.
    by rewrite index_replicate_oob.
Qed.

(** [McuFault64BitValuePinClr] clears bit [PinNum] of a 64-bit value and leaves
    the others, for every pin below 64, and is out of bounds from 64 on. *)
Theorem PinClr_correct (v n : Z) (h : host) :
  is_u64 v -> 0 <= n ->
  if n <? 64
  then exists r, McuFault64BitValuePinClr v n h = Done r h /\ is_u64 r /\
    forall k, 0 <= k -> Z.testbit r k = Z.testbit v k && negb (bool_decide (k = n))
  else McuFault64BitValuePinClr v n h = Undefined OutOfBounds.
Proof.
  intros Hv Hn. destruct (Z.ltb_spec n 64) as [Hlt|Hge].
  - rewrite PinClr_run by lia. eexists. split; [done|].
    assert (forall k, 0 <= k -> Z.testbit (Z.land (Z.lxor (Z.ones 64) (Z.shiftl 1 n)) v) k =
      Z.testbit v k && negb (bool_decide (k = n))) as Hbits.
    { intros k Hk. rewrite Z.land_spec, Z.lxor_spec, testbit_one_shl by lia.
      destruct (decide (k < 64)).
      - rewrite Z.ones_spec_low by lia. rewrite andb_comm. f_equal.
      - by rewrite (in_width_testbit 64 v), andb_false_r by (done || lia). }
    split; [|done]. apply testbits_in_width; [lia|]. intros k Hk.
    by rewrite Hbits, (in_width_testbit 64 v) by (done || lia).
  - unfold McuFault64BitValuePinClr, one_byte.
    by rewrite index_replicate_oob.
Qed.

Lemma PinSet_correct_witness :
  (exists r, McuFault64BitValuePinSet 5 40 host_boot = Done r host_boot /\ is_u64 r /\
    forall k, 0 <= k -> Z.testbit r k = Z.testbit 5 k || bool_decide (k = 40)) /\
  McuFault64BitValuePinSet 5 70 host_boot = Undefined OutOfBounds.
Proof.
  split.
  - apply (PinSet_correct 5 40 host_boot); [by vm_compute|lia].
  - apply (PinSet_correct 5 70 host_boot); [by vm_compute|lia].
Defined.

Lemma PinClr_correct_witness :
  exists r, McuFault64BitValuePinClr 0x1500 12 host_boot = Done r host_boot /\ is_u64 r /\
    forall k, 0 <= k -> Z.testbit r k = Z.testbit 0x1500 k && negb (bool_decide (k = 12)).
Proof. apply (PinClr_correct 0x1500 12 host_boot); [by vm_compute|lia]. Defined.

(** ** The invariant of the globals *)
Record host_ok (h : host) : Prop := {
  hok_data : length (g_DataFromHost h) = 8%nat;
  hok_data8 : Forall is_u8 (g_DataFromHost h);
  hok_P0 : is_u64 (P0 h);
  hok_P1 : is_u64 (P1 h);
  hok_P4 : is_u16 (P4_0 h);
  hok_cmd : is_u8 (FIU_CurCmd h);
  hok_time : is_u16 (g_Ptime h);
  hok_freq : is_u8 (g_Pfreq h);
  hok_duty : is_u8 (g_Pduty h);
  hok_pass : g_HostConfigPass h = 0;
  hok_err : g_HostConfigErr h = (fun i => i + 0x81) <$> seqZ 0 80;
  hok_flags : length (FIU_Cmd0_CurPinFlag h) = 80%nat;
  hok_mode : is_u8 (g_WorkMode h);
}.

(** Reads of a message byte. *)
Definition msg (h : host) (i : Z) : Z := nth (Z.to_nat i) (g_DataFromHost h) 0.

Lemma msg_index h i :
  length (g_DataFromHost h) = 8%nat -> 0 <= i < 8 -> index (g_DataFromHost h) i = Some (msg h i).
Proof.
  intros Hl Hi. unfold index, msg. rewrite bool_decide_eq_true_2 by lia.
  destruct (lookup_lt_is_Some_2 (g_DataFromHost h) (Z.to_nat i)) as [b Hb]; [lia|].
  by rewrite Hb, (nth_lookup_Some _ _ _ _ Hb).
Qed.

Lemma msg_u8 h i : host_ok h -> 0 <= i < 8 -> is_u8 (msg h i).
Proof.
  intros [Hl H8 _ _ _ _ _ _ _ _ _ _ _] Hi.
  pose proof (msg_index h i Hl Hi) as [_ Hb]%index_Some. by eapply Forall_lookup_1.
Qed.

Lemma err_run i h : host_ok h -> 0 <= i < 80 -> err i h = Done (i + 0x81) h.
Proof.
  intros Hok Hi. unfold err. apply rd_Done. rewrite (hok_err _ Hok).
  unfold index. rewrite bool_decide_eq_true_2 by lia.
  rewrite list_lookup_fmap, lookup_seqZ_lt by lia. cbn. f_equal. lia.
Qed.

Lemma pass_run h : host_ok h -> pass h = Done 0 h.
Proof. intros Hok. unfold pass, gets. by rewrite (hok_pass _ Hok). Qed.

#[export] Instance g_HostConfigErr_laws : UpdLaws g_HostConfigErr.
Proof. upd_laws. Qed.
#[export] Instance FIU_Cmd0_CurPinFlag_laws : UpdLaws FIU_Cmd0_CurPinFlag.
Proof. upd_laws. Qed.

(** [ErrorNumInit] makes the table of the error codes. *)
Lemma ErrorNumInit_run h :
  length (g_HostConfigErr h) = 80%nat ->
  ErrorNumInit h = Done tt (h <| g_HostConfigPass := 0 |>
    <| g_HostConfigErr := (fun i => i + 0x81) <$> seqZ 0 80 |>).
Proof.
  intros Hl. unfold ErrorNumInit. rewrite bind_put.
  rewrite (fill_run g_HostConfigErr (fun i => u8 (i + 0x81)) 80) by (cbn; lia).
  do 2 f_equal.
Qed.

Lemma wp_err i (Q : Z -> host -> Prop) h :
  host_ok h -> 0 <= i < 80 -> Q (i + 0x81) h -> wp (err i) Q h.
Proof. intros Hok Hi HQ. unfold wp. by rewrite err_run. Qed.

Lemma wp_pass (Q : Z -> host -> Prop) h : host_ok h -> Q 0 h -> wp pass Q h.
Proof. intros Hok HQ. unfold wp. by rewrite pass_run. Qed.

(** What no check changes. *)
Record same_config (h h' : host) : Prop := {
  sc_data : g_DataFromHost h' = g_DataFromHost h;
  sc_P0 : P0 h' = P0 h;
  sc_P1 : P1 h' = P1 h;
  sc_P4 : P4_0 h' = P4_0 h;
  sc_time : g_Ptime h' = g_Ptime h;
  sc_freq : g_Pfreq h' = g_Pfreq h;
  sc_duty : g_Pduty h' = g_Pduty h;
  sc_loose : g_bLoose h' = g_bLoose h;
  sc_mode : g_WorkMode h' = g_WorkMode h;
}.

Lemma same_config_refl h : same_config h h.
Proof. done. Qed.

Lemma same_config_trans h1 h2 h3 : same_config h1 h2 -> same_config h2 h3 -> same_config h1 h3.
Proof. intros [] []. constructor; congruence. Qed.

(** The codes a message is answered with: 0, or the table of errors. *)
Definition answer (r : Z) : Prop := r = 0 \/ 0x81 <= r < 0xd1.

Definition check_post (h : host) (r : Z) (h' : host) : Prop :=
  host_ok h' /\ same_config h h' /\ answer r.

Ltac host_update :=
  match goal with
  | H : host_ok _ |- host_ok _ =>
      destruct H; constructor; cbn; rewrite ?length_insert; assumption || idtac
  end.

(** Walk through the code of a check. *)
Ltac check_step :=
  lazymatch goal with
  | |- wp (err _) _ _ => apply wp_err; [|lia|]
  | |- wp pass _ _ => apply wp_pass
  | |- wp (rd FIU_Cmd0_CurPinFlag _) _ _ => apply wp_rd; [|intros ? _]
  | |- wp (wr FIU_Cmd0_CurPinFlag _ _) _ _ => apply wp_wr
  | |- _ => wp_step
  end.

Ltac check_done :=
  repeat check_step;
  try (split_and!; [..|constructor; done|unfold answer; lia]);
  try host_update;
  try (match goal with H : host_ok ?h |- _ => cbn; rewrite ?(hok_flags _ H) end;
       unfold CHANNUMBER, in_width in *; lia).

Section checks.
Context (h : host) (Hok : host_ok h) (b2 b3 b4 b5 b6 b7 : Z).
Context (H2 : is_u8 b2).

Lemma HostConfigCheck_0_ok : wp (HostConfigCheck_0 b2 b3) (check_post h) h.
Proof using Hok H2. unfold HostConfigCheck_0. check_done. Qed.

Lemma HostConfigCheck_1_ok : wp (HostConfigCheck_1 b2 b3 b4) (check_post h) h.
Proof using Hok. unfold HostConfigCheck_1. destruct (b3 =? 0); check_done. Qed.

Lemma HostConfigCheck_2_ok : wp (HostConfigCheck_2 b2 b3 b4) (check_post h) h.
Proof using Hok. unfold HostConfigCheck_2. check_done. Qed.

Lemma HostConfigCheck_3_ok : wp (HostConfigCheck_3 b2 b3 b4) (check_post h) h.
Proof using Hok. unfold HostConfigCheck_3. check_done. Qed.

Lemma HostConfigCheck_4_ok : wp (HostConfigCheck_4 b2 b3 b4 b5 b6 b7) (check_post h) h.
Proof using Hok. unfold HostConfigCheck_4, HostConfigCheck_4r. check_done. Qed.
End checks.

Lemma check_post_trans h1 h2 r h3 : same_config h1 h2 -> check_post h2 r h3 -> check_post h1 r h3.
Proof. intros H12 (? & ? & ?). split_and!; [done|by eapply same_config_trans|done]. Qed.

Lemma HostConfigCheck_ok h b0 b1 b2 b3 b4 b5 b6 b7 :
  host_ok h -> is_u8 b0 -> is_u8 b2 ->
  wp (HostConfigCheck b0 b1 b2 b3 b4 b5 b6 b7) (check_post h) h.
Proof.
  intros Hok H0 H2. unfold HostConfigCheck.
  destruct (b1 >? 16); [by check_done|]. apply wp_bind.
  eapply (wp_mono _ (fun _ h' => host_ok h' /\ same_config h h')).
  { check_done; (split; [|done]); try done; host_update. }
  intros same h' [Hok' Hsame]. destruct same; cbn [negb].
  2: { eapply wp_mono; [by apply (wp_err 24 (check_post h'));
         [..|split_and!; [|apply same_config_refl|unfold answer; lia]]|].
       intros. by eapply check_post_trans. }
  eapply wp_mono; [|intros ? ?; by apply check_post_trans].
  repeat case_match.
  - by apply HostConfigCheck_0_ok.
  - by apply HostConfigCheck_1_ok.
  - by apply HostConfigCheck_2_ok.
  - by apply HostConfigCheck_3_ok.
  - by apply HostConfigCheck_4_ok.
  - apply wp_pass; [done|]. split_and!; [done|apply same_config_refl|by left].
Qed.

(** ** Resets *)

(** Nothing is configured. *)
Record cleared (h : host) : Prop := {
  cl_P0 : P0 h = 0;
  cl_P1 : P1 h = 0;
  cl_P4 : P4_0 h = 0;
  cl_time : g_Ptime h = 0;
  cl_freq : g_Pfreq h = 0;
  cl_duty : g_Pduty h = 0;
}.

(** No message has been accepted since the last reset of the flags. *)
Record fresh (h : host) : Prop := {
  fr_cmd : FIU_CurCmd h = 255;
  fr_type : FIU_Cmd0_CurErrorType h = -1;
  fr_flags : FIU_Cmd0_CurPinFlag h = replicate 80 0;
  fr_1 : FIU_Cmd1_Flag h = 0;
  fr_2 : FIU_Cmd2_Flag h = 0 /\ FIU_Cmd2_ErrorType0Flag h = 0 /\ FIU_Cmd2_ErrorType0Cnt h = 0;
  fr_3 : FIU_Cmd3_Flag h = 0 /\ FIU_Cmd3_ErrorType3Flag h = 0 /\ FIU_Cmd3_ErrorType3Cnt h = 0;
  fr_4 : FIU_Cmd4_ResistanceFlag h = 0;
}.

(** What neither reset touches. *)
Definition same_rest (h h' : host) : Prop :=
  g_DataFromHost h' = g_DataFromHost h /\ g_bLoose h' = g_bLoose h /\
  g_WorkMode h' = g_WorkMode h /\ g_workStatus h' = g_workStatus h.

Lemma P_init_ok h :
  host_ok h -> wp P_init (fun _ h' => host_ok h' /\ cleared h' /\ same_rest h h' /\
    (fresh h -> fresh h')) h.
Proof.
  intros Hok. unfold P_init. repeat wp_step. split_and!; [|done|done|by intros []].
  destruct Hok. by constructor.
Qed.

Lemma FIU_Cmd0_CurPinFlag_init_ok h :
  host_ok h -> wp FIU_Cmd0_CurPinFlag_init (fun _ h' => host_ok h' /\ fresh h' /\
    same_rest h h' /\ same_config h h') h.
Proof.
  intros Hok. unfold FIU_Cmd0_CurPinFlag_init. repeat wp_step. unfold wp at 1.
  rewrite (fill_run FIU_Cmd0_CurPinFlag (fun _ => 0) 80) by (cbn; by rewrite (hok_flags _ Hok)).
  repeat wp_step. split_and!; [|done|done|done]. destruct Hok. by constructor.
Qed.

Lemma GlobalDataInit_ok h :
  host_ok h -> wp GlobalDataInit (fun _ h' => host_ok h' /\ cleared h' /\ fresh h' /\
    same_rest h h') h.
Proof.
  intros Hok. unfold GlobalDataInit. apply wp_bind.
  eapply wp_mono; [by apply P_init_ok|]. intros [] h1 (Hok1 & Hc & Hs & _).
  eapply wp_mono; [by apply FIU_Cmd0_CurPinFlag_init_ok|]. intros [] h2 (Hok2 & Hf & Hs2 & []).
  split_and!; [done| |done|].
  - destruct Hc. constructor; congruence.
  - unfold same_rest in *. naive_solver congruence.
Qed.

(** ** The effect of an accepted message *)
#[export] Instance P0_laws : UpdLaws P0.
Proof. upd_laws. Qed.
#[export] Instance P1_laws : UpdLaws P1.
Proof. upd_laws. Qed.

(** Bit [n] set or cleared in a word. *)
Definition set64 (n v : Z) : Z := Z.lor (Z.shiftl 1 n) v.
Definition clr64 (n v : Z) : Z := Z.land (Z.lxor (Z.ones 64) (Z.shiftl 1 n)) v.

Lemma set64_u64 n v : 0 <= n < 64 -> is_u64 v -> is_u64 (set64 n v).
Proof. intros. apply lor_in_width; [apply shl1_in_width; lia|done]. Qed.

Lemma land_in_width w x y : 0 <= w -> in_width w y -> in_width w (Z.land x y).
Proof.
  intros Hw Hy. apply testbits_in_width; [done|]. intros k Hk.
  by rewrite Z.land_spec, (in_width_testbit w y), andb_false_r.
Qed.

Lemma wp_set_pin limit pin h (Q : unit -> host -> Prop) :
  host_ok h -> 0 <= pin < 64 -> pin < limit ->
  (host_ok (h <| P0 := set64 pin (P0 h) |>) -> Q tt (h <| P0 := set64 pin (P0 h) |>)) ->
  wp (set_pin limit pin) Q h.
Proof.
  intros Hok Hp Hl HQ. unfold wp, set_pin. rewrite (proj2 (Z.ltb_lt _ _)) by done.
  rewrite bind_gets, (bind_Done _ _ _ _ _ (PinSet_run _ _ _ Hp)). apply HQ.
  destruct Hok. constructor; try done. by apply set64_u64.
Qed.

(** Code that only applies [f] to [P1]. *)
Definition modifies_P1 (m : M host unit) (f : Z -> Z) : Prop :=
  forall h, m h = Done tt (h <| P1 := f (P1 h) |>).

Lemma modifies_bind m1 m2 f g :
  modifies_P1 m1 f -> modifies_P1 m2 g -> modifies_P1 (m1 ;; m2) (fun p => g (f p)).
Proof. intros H1 H2 h. rewrite (bind_Done _ _ _ _ _ (H1 h)), H2. by rewrite upd_get, upd_upd. Qed.

Lemma modifies_set n : 0 <= n < 64 -> modifies_P1 (set_P1 n) (set64 n).
Proof.
  intros Hn h. unfold set_P1. rewrite bind_gets.
  by rewrite (bind_Done _ _ _ _ _ (PinSet_run _ _ _ Hn)).
Qed.

Lemma modifies_clr n : 0 <= n < 64 -> modifies_P1 (clr_P1 n) (clr64 n).
Proof.
  intros Hn h. unfold clr_P1. rewrite bind_gets.
  by rewrite (bind_Done _ _ _ _ _ (PinClr_run _ _ _ Hn)).
Qed.

(** The error types of a command that the unit can show, and its pins. *)
Definition types_of (cmd : Z) : Z :=
  if cmd =? 0 then 4 else if cmd =? 1 then 4 else if cmd =? 2 then 6 else 2.
Definition pins_of (cmd : Z) : Z := if cmd =? 3 then 18 else 64.

(** Error type [t] of the host is type [t + 1] of the frame, in bits 8..11 of [P1]. *)
Definition p1_fault (t p : Z) : Z := Z.lor (Z.shiftl (t + 1) 8) p.

(** The "with load" bit: type 0 of the commands 0, 1 and 3 leaves it, type 1 of the
    command 2 always sets it, the others follow the message. *)
Definition p1_load (cmd t load p : Z) : Z :=
  if (t =? 0) && negb (cmd =? 2) then p
  else if (load =? 1) || ((cmd =? 2) && (t =? 1)) then set64 12 p
  else clr64 12 p.

Lemma p1_fault_u64 t p : 0 <= t <= 6 -> is_u64 p -> is_u64 (p1_fault t p).
Proof.
  intros Ht Hp. apply lor_in_width; [|done]. rewrite Z.shiftl_mul_pow2 by lia.
  unfold in_width. lia.
Qed.

Lemma p1_load_u64 cmd t load p : is_u64 p -> is_u64 (p1_load cmd t load p).
Proof.
  intros Hp. unfold p1_load. repeat case_match; [done|apply set64_u64; [lia|done]|].
  by apply land_in_width.
Qed.

Definition config_cmd (cmd : Z) : Z -> Z -> Z -> M host Z :=
  if cmd =? 0 then config_cmd0 else if cmd =? 1 then config_cmd1
  else if cmd =? 2 then config_cmd2 else config_cmd3.

(** A run of writes of [P1] that ends in success. *)
Lemma modifies_pass m f h (F : Z) :
  host_ok h -> modifies_P1 m f -> f (P1 h) = F -> is_u64 F ->
  wp (m ;; pass) (fun r h' => r = 0 /\ host_ok h' /\ h' = h <| P1 := F |>) h.
Proof.
  intros Hok Hm <- HF. apply wp_bind. unfold wp at 1. rewrite Hm.
  assert (host_ok (h <| P1 := f (P1 h) |>)) by (by destruct Hok; constructor).
  by apply wp_pass.
Qed.

Lemma host_ok_P1 h p : host_ok h -> is_u64 p -> host_ok (h <| P1 := p |>).
Proof. intros [] Hp. by constructor. Qed.

Lemma step_P1 {A} m f (k : M host A) p h Q :
  modifies_P1 m f -> wp k Q (h <| P1 := f p |>) -> wp (m ;; k) Q (h <| P1 := p |>).
Proof.
  intros Hm Hk. apply wp_bind. unfold wp at 1. rewrite Hm. by rewrite upd_get, upd_upd.
Qed.

(** The configuration with [P1] set to [p], answered with 0. *)
Definition accepted (h : host) (p r : Z) (h' : host) : Prop :=
  r = 0 /\ host_ok h' /\ h' = h <| P1 := p |>.

Lemma tail_pass p h : host_ok h -> is_u64 p -> wp pass (accepted h p) (h <| P1 := p |>).
Proof. intros. apply wp_pass; [by apply host_ok_P1|]. by split_and!; [|apply host_ok_P1|]. Qed.

Lemma tail_load cmd t load e p h :
  host_ok h -> is_u64 p -> load = 0 \/ load = 1 ->
  (t =? 0) && negb (cmd =? 2) = false -> (cmd =? 2) && (t =? 1) = false ->
  wp (set_load load e) (accepted h (p1_load cmd t load p)) (h <| P1 := p |>).
Proof.
  intros Hok Hp Hload E1 E2. unfold p1_load. rewrite E1, E2, orb_false_r. unfold set_load.
  destruct Hload as [-> | ->]; cbn [Z.eqb Pos.eqb].
  - eapply step_P1; [by apply modifies_clr|]. apply tail_pass; [done|]. by apply land_in_width.
  - eapply step_P1; [by apply modifies_set|]. apply tail_pass; [done|]. by apply set64_u64.
Qed.

Lemma p1_fault_1 p : set64 8 p = p1_fault 0 p.
Proof. done. Qed.
Lemma p1_fault_2 p : set64 9 p = p1_fault 1 p.
Proof. done. Qed.
Lemma p1_fault_3 p : set64 8 (set64 9 p) = p1_fault 2 p.
Proof. unfold set64, p1_fault. by rewrite Z.lor_assoc. Qed.
Lemma p1_fault_3' p : set64 9 (set64 8 p) = p1_fault 2 p.
Proof. unfold set64, p1_fault. by rewrite Z.lor_assoc. Qed.
Lemma p1_fault_4 p : set64 10 p = p1_fault 3 p.
Proof. done. Qed.
Lemma p1_fault_5 p : set64 8 (set64 10 p) = p1_fault 4 p.
Proof. unfold set64, p1_fault. by rewrite Z.lor_assoc. Qed.
Lemma p1_fault_6 p : set64 9 (set64 10 p) = p1_fault 5 p.
Proof. unfold set64, p1_fault. by rewrite Z.lor_assoc. Qed.
Lemma p1_fault_7 p : set64 8 (set64 9 (set64 10 p)) = p1_fault 6 p.
Proof. unfold set64, p1_fault. by rewrite !Z.lor_assoc. Qed.

(** One of the branches: the pin, then [P1]. *)
Lemma wp_branch limit pin h (k : M host Z) F :
  host_ok h -> 0 <= pin < 64 -> pin < limit ->
  (forall h0, host_ok h0 -> wp k (accepted h0 (F (P1 h0))) (h0 <| P1 := P1 h0 |>)) ->
  wp (set_pin limit pin ;; k)
    (accepted (h <| P0 := set64 pin (P0 h) |>) (F (P1 h))) h.
Proof.
  intros Hok Hp Hl Hk. apply wp_bind, wp_set_pin; [done..|]. intros Hok0.
  specialize (Hk _ Hok0). by rewrite upd_same in Hk.
Qed.

Ltac branch_P1 :=
  repeat (eapply step_P1; [by apply modifies_set|]);
  try (eapply step_P1; [by apply modifies_clr|]);
  rewrite ?p1_fault_7, ?p1_fault_6, ?p1_fault_5, ?p1_fault_3, ?p1_fault_3',
    ?p1_fault_4, ?p1_fault_2, ?p1_fault_1.

(** The branch for error type [t] of [cmd]. *)
Ltac config_branch cmd t load :=
  apply (wp_branch _ _ _ _ (fun p => p1_load cmd t load (p1_fault t p)));
    [assumption|lia|unfold CHANNUMBER; lia|];
  intros h0 Hok0;
  assert (is_u64 (p1_load cmd t load (p1_fault t (HostConfig.P1 h0)))) as HU
    by (apply p1_load_u64, p1_fault_u64; [lia|apply hok_P1, Hok0]);
  branch_P1;
  first [ exact (tail_pass _ _ Hok0 HU)
        | apply tail_load; [assumption|apply p1_fault_u64; [lia|apply hok_P1, Hok0]|auto|reflexivity|reflexivity] ].

Lemma config_accepts (cmd pin t load : Z) (h : host) :
  host_ok h -> 0 <= cmd < 4 -> 0 <= t <= types_of cmd -> 0 <= pin < pins_of cmd ->
  load = 0 \/ load = 1 ->
  wp (config_cmd cmd pin t load)
    (accepted (h <| P0 := set64 pin (P0 h) |>) (p1_load cmd t load (p1_fault t (P1 h)))) h.
Proof.
  intros Hok Hcmd Ht Hp Hload.
  assert (cmd = 0 \/ cmd = 1 \/ cmd = 2 \/ cmd = 3) as [->|[->|[->| ->]]] by lia;
    cbn in Ht, Hp; unfold config_cmd; cbn [Z.eqb Pos.eqb];
    unfold config_cmd0, config_cmd1, config_cmd2, config_cmd3;
    (assert (t = 0 \/ t = 1 \/ t = 2 \/ t = 3 \/ t = 4 \/ t = 5 \/ t = 6) as Hcase by lia;
     destruct_or! Hcase; subst t; try lia; destruct Hload as [-> | ->]; cbn [Z.eqb Pos.eqb];
     match goal with |- wp _ (accepted _ (p1_load ?c ?t ?l _)) _ => config_branch c t l end).
Qed.

(** C23: every error type the unit can show (five for compound and fast-channel
    faults, seven for leakage, three for high current) adds its pin to [P0] and
    its code, the host's type plus one, to bits 8..11 of [P1], sets or clears the
    "with load" bit, and is answered with 0; nothing else changes. *)
Theorem config_effect (cmd pin t load : Z) (h : host) :
  host_ok h -> 0 <= cmd < 4 -> 0 <= t <= types_of cmd -> 0 <= pin < pins_of cmd ->
  load = 0 \/ load = 1 ->
  wp (config_cmd cmd pin t load)
    (accepted (h <| P0 := set64 pin (P0 h) |>) (p1_load cmd t load (p1_fault t (P1 h)))) h.
Proof. apply config_accepts. Qed.

Lemma config_effect_witness :
  wp (config_cmd 2 17 5 0) (accepted
    (host_boot <| g_HostConfigErr := (fun i => i + 0x81) <$> seqZ 0 80 |> <| P0 := set64 17 0 |>)
    0x600) (host_boot <| g_HostConfigErr := (fun i => i + 0x81) <$> seqZ 0 80 |>).
Proof.
  apply (config_effect 2 17 5 0).
  - constructor; try (by vm_compute); by apply (bool_decide_eq_true_1 _).
  - lia.
  - cbn. lia.
  - cbn. lia.
  - by left.
Defined.

(** ** Any message *)

(** Steps of which only the invariant matters. *)
Lemma keep_set_pin limit pin h (Q : unit -> host -> Prop) :
  host_ok h -> 0 <= pin < 64 -> pin < limit ->
  (forall h', host_ok h' -> Q tt h') -> wp (set_pin limit pin) Q h.
Proof. intros. apply wp_set_pin; auto. Qed.

Lemma keep_set_P1 n h (Q : unit -> host -> Prop) :
  host_ok h -> 0 <= n < 64 -> (forall h', host_ok h' -> Q tt h') -> wp (set_P1 n) Q h.
Proof.
  intros Hok Hn HQ. unfold wp. rewrite (modifies_set n Hn). apply HQ, host_ok_P1; [done|].
  by apply set64_u64, hok_P1.
Qed.

Lemma keep_clr_P1 n h (Q : unit -> host -> Prop) :
  host_ok h -> 0 <= n < 64 -> (forall h', host_ok h' -> Q tt h') -> wp (clr_P1 n) Q h.
Proof.
  intros Hok Hn HQ. unfold wp. rewrite (modifies_clr n Hn). apply HQ, host_ok_P1; [done|].
  by apply land_in_width, hok_P1.
Qed.

Lemma keep_P_init h (Q : unit -> host -> Prop) :
  host_ok h -> (forall h', host_ok h' -> cleared h' -> Q tt h') -> wp P_init Q h.
Proof.
  intros Hok HQ. eapply wp_mono; [by apply P_init_ok|]. intros [] h' (? & ? & _). by apply HQ.
Qed.

(** The answer to a message: 0, or an error that leaves nothing configured. *)
Definition answered (r : Z) (h' : host) : Prop :=
  host_ok h' /\ answer r /\ (r <> 0 -> cleared h').

Ltac config_step :=
  lazymatch goal with
  | |- wp (set_pin _ _) _ _ => apply keep_set_pin; [assumption|lia|assumption|intros]
  | |- wp (set_P1 _) _ _ => apply keep_set_P1; [assumption|lia|intros]
  | |- wp (clr_P1 _) _ _ => apply keep_clr_P1; [assumption|lia|intros]
  | |- wp P_init _ _ => apply keep_P_init; [assumption|intros]
  | |- wp (set_load _ _) _ _ => unfold set_load
  | |- wp (refuse _) _ _ => unfold refuse
  | |- wp (err _) _ _ => apply wp_err; [assumption|lia|split_and!;
      [assumption|unfold answer; lia|intros _; first [assumption | exfalso; lia]]]
  | |- wp pass _ _ => apply wp_pass; [assumption|split_and!; [assumption|by left|done]]
  | |- _ => wp_step
  end.

Lemma config_cmd_keeps cmd pin t load h :
  host_ok h -> 0 <= cmd < 4 -> 0 <= pin < pins_of cmd ->
  (cmd = 2 -> t = 0 -> 0 <= load <= 1) ->
  wp (config_cmd cmd pin t load) answered h.
Proof.
  intros Hok Hcmd Hp Hload.
  assert (pin < CHANNUMBER /\ 0 <= pin < 64) as [Hlim Hp64]
    by (unfold pins_of, CHANNUMBER in *; destruct (cmd =? 3); lia).
  unfold config_cmd, pins_of in *.
  assert (cmd = 0 \/ cmd = 1 \/ cmd = 2 \/ cmd = 3) as [->|[->|[->| ->]]] by lia;
    cbn [Z.eqb Pos.eqb] in *; unfold config_cmd0, config_cmd1, config_cmd2, config_cmd3.
  4: destruct Hp as [_ Hp].
  all: repeat config_step.
Qed.

(** Reads of the message, in a state that still holds it. *)
Lemma wp_msg {A} i (k : Z -> M host A) Q h :
  host_ok h -> 0 <= i < 8 -> wp (k (msg h i)) Q h -> wp (b ← rd g_DataFromHost i; k b) Q h.
Proof.
  intros Hok Hi HQ. unfold wp. erewrite bind_rd; [exact HQ|].
  by apply msg_index; [apply hok_data|].
Qed.

Lemma keep_put {E} (g : host -> E) `{!Upd g} v h (Q : unit -> host -> Prop) :
  host_ok (h <| g := v |>) -> (forall h', host_ok h' -> Q tt h') -> wp (g ::= v) Q h.
Proof. intros Hok HQ. apply wp_put. by apply HQ. Qed.

Ltac keep_step :=
  lazymatch goal with
  | |- wp (mbind _ (rd g_DataFromHost _)) _ _ => apply wp_msg; [assumption|lia|]
  | |- wp (put _ _) _ _ => apply keep_put;
      [match goal with H : host_ok _ |- _ => destruct H; constructor; try assumption; try done end|intros]
  | |- _ => config_step
  end.

Lemma u16_width z : is_u16 (u16 z).
Proof. by apply (in_width_mod 16). Qed.

Lemma config_cmd4_keeps h : host_ok h -> wp config_cmd4 answered h.
Proof.
  intros Hok. unfold config_cmd4. apply wp_msg; [done|lia|]. apply wp_bind.
  eapply (wp_mono _ (fun _ => host_ok)).
  - destruct (negb _); repeat keep_step; cbn; try done; try (apply msg_u8; [by constructor|lia]).
  - clear h Hok. intros [] h Hok. repeat keep_step; try done. apply u16_width.
Qed.

(** [McuGetHostConfigInfo], up to the [switch]. *)
Definition config_switch (h : host) : M host Z :=
  if msg h 0 =? 0 then config_cmd0 (msg h 2) (msg h 3) (msg h 4)
  else if msg h 0 =? 1 then config_cmd1 (msg h 2) (msg h 3) (msg h 4)
  else if msg h 0 =? 2 then config_cmd2 (msg h 2) (msg h 3) (msg h 4)
  else if msg h 0 =? 3 then config_cmd3 (msg h 2) (msg h 3) (msg h 4)
  else if msg h 0 =? 4 then config_cmd4
  else pass.

Definition check_message (h : host) : M host Z :=
  HostConfigCheck (msg h 0) (msg h 1) (msg h 2) (msg h 3) (msg h 4) (msg h 5) (msg h 6) (msg h 7).

Lemma McuGetHostConfigInfo_run h :
  host_ok h ->
  McuGetHostConfigInfo h =
  (result ← check_message h; ok ← gets g_HostConfigPass;
   if negb (result =? ok) then GlobalDataInit ;; mret result else config_switch h) h.
Proof.
  intros Hok. unfold McuGetHostConfigInfo, check_message, config_switch.
  do 8 (erewrite bind_rd by (apply msg_index; [by apply hok_data|lia])). done.
Qed.

Lemma config_switch_keeps h h1 :
  host_ok h -> host_ok h1 -> (0 <= msg h 0 < 4 -> msg h 2 < pins_of (msg h 0)) ->
  (msg h 0 = 2 -> msg h 3 = 0 -> msg h 4 <= 1) ->
  wp (config_switch h) answered h1.
Proof.
  intros Hok Hok1 Hp Hload. unfold config_switch.
  destruct (msg_u8 h 4 Hok ltac:(lia)) as [H4 _].
  destruct (msg_u8 h 0 Hok ltac:(lia)) as [H0 _].
  destruct (msg_u8 h 2 Hok ltac:(lia)) as [H2 _].
  destruct (Z.eqb_spec (msg h 0) 0) as [E|E0].
  { rewrite E in Hp. apply (config_cmd_keeps 0); [done|lia| |intros; lia]. split; [done|]. apply Hp. lia. }
  destruct (Z.eqb_spec (msg h 0) 1) as [E|E1].
  { rewrite E in Hp. apply (config_cmd_keeps 1); [done|lia| |intros; lia]. split; [done|]. apply Hp. lia. }
  destruct (Z.eqb_spec (msg h 0) 2) as [E|E2].
  { rewrite E in Hp. apply (config_cmd_keeps 2); [done|lia| |intros; lia]. split; [done|]. apply Hp. lia. }
  destruct (Z.eqb_spec (msg h 0) 3) as [E|E3].
  { rewrite E in Hp. apply (config_cmd_keeps 3); [done|lia| |intros; lia]. split; [done|]. apply Hp. lia. }
  destruct (msg h 0 =? 4); [by apply config_cmd4_keeps|].
  apply wp_pass; [done|]. split_and!; [done|by left|done].
Qed.

(** The one error of the [switch] that does not clear what is configured, number 12,
    is never reached: the check refuses its messages. *)
Lemma check_message_load h :
  host_ok h -> wp (check_message h) (fun e _ => e = 0 -> msg h 0 = 2 -> msg h 3 = 0 -> msg h 4 <= 1) h.
Proof.
  intros Hok. destruct (decide (msg h 0 = 2 /\ msg h 3 = 0 /\ 1 < msg h 4)) as [(E0 & E3 & E4)|Hno].
  2: { eapply wp_mono; [by apply HostConfigCheck_ok; [|apply msg_u8; [|lia]..]|]. intros. lia. }
  eapply (wp_mono _ (fun e _ => e <> 0)); [|intros; lia].
  assert (forall i h', host_ok h' -> 0 <= i < 80 -> wp (err i) (fun e _ => e <> 0) h') as Herr
    by (intros i h' Hok' Hi; apply wp_err; [done|done|lia]).
  unfold check_message, HostConfigCheck. destruct (msg h 1 >? 16); [apply Herr; [done|lia]|].
  pose proof (msg_u8 h 0 Hok ltac:(lia)) as H0.
  apply wp_bind. eapply (wp_mono _ (fun _ => host_ok)).
  { repeat check_step; try done; host_update. }
  intros same h' Hok'. destruct same; cbn [negb]; [|apply Herr; [done|lia]].
  rewrite E0, E3. cbn [Z.eqb Pos.eqb]. unfold HostConfigCheck_2. cbn [Z.eqb Pos.eqb negb andb].
  rewrite (proj2 (Z.gtb_lt _ _)) by done. apply Herr; [done|lia].
Qed.

Lemma check_message_ok h : host_ok h -> wp (check_message h) (check_post h) h.
Proof.
  intros Hok. apply HostConfigCheck_ok; [done|apply msg_u8; [done|lia]|apply msg_u8; [done|lia]].
Qed.

(** C21: for pins below 64 (below 18 for high current), a configuration message is
    always handled within the bounds of every array and answered with 0 or one of
    the eighty error codes, and the globals stay well formed.  A refused message,
    whether by the check or by the [switch] after it, leaves nothing configured; one
    the check refuses also resets the record of the pins and commands seen. *)
Theorem McuGetHostConfigInfo_safe (h : host) :
  host_ok h -> (0 <= msg h 0 < 4 -> msg h 2 < pins_of (msg h 0)) ->
  wp McuGetHostConfigInfo (fun r h' =>
    host_ok h' /\ answer r /\ (r <> 0 -> cleared h') /\
    (forall e h1, check_message h h = Done e h1 -> e <> 0 -> r = e /\ fresh h')) h.
Proof.
  intros Hok Hp. eapply wp_run; [by apply McuGetHostConfigInfo_run|].
  destruct (proj1 (wp_Done _ _ _) (check_message_ok h Hok)) as (e & h1 & E & Hok1 & Hsame & Hans).
  destruct (proj1 (wp_Done _ _ _) (check_message_load h Hok)) as (e' & h1' & E' & Hload).
  rewrite E in E'. injection E' as <- <-.
  eapply wp_run; [by rewrite (bind_Done _ _ _ _ _ E), bind_gets, (hok_pass _ Hok1)|].
  destruct (Z.eqb_spec e 0) as [->|Hne]; cbn [negb].
  - eapply wp_mono; [by apply config_switch_keeps; auto|].
    intros r h' (Hr & Ha & Hc). split_and!; [done..|]. intros e' h1' E' Hne. rewrite E in E'. congruence.
  - apply wp_bind. eapply wp_mono; [by apply GlobalDataInit_ok|].
    intros [] h2 (Hok2 & Hcl & Hfr & _). apply wp_ret. split_and!; [done..|].
    intros e' h1' E' _. rewrite E in E'. split; [congruence|done].
Qed.

(** The globals as [main] leaves them before the first message. *)
Definition host_ready : host :=
  host_boot <| g_HostConfigErr := (fun i => i + 0x81) <$> seqZ 0 80 |>
            <| FIU_CurCmd := 255 |> <| FIU_Cmd0_CurErrorType := -1 |>.

Lemma host_ready_init :
  (ErrorNumInit ;; GlobalDataInit) host_boot = Done tt host_ready.
Proof. by vm_compute. Qed.

(** A message received. *)
Definition received (m : list Z) (h : host) : host := h <| g_DataFromHost := m |>.

Lemma received_ok m h : length m = 8%nat -> Forall is_u8 m -> host_ok h -> host_ok (received m h).
Proof. intros ?? []. by constructor. Qed.

Lemma host_ready_ok : host_ok host_ready.
Proof. constructor; try done; by apply (bool_decide_eq_true_1 _). Qed.

(** A message the check lets pass and the [switch] refuses: "with load" is 2. *)
Lemma McuGetHostConfigInfo_safe_witness :
  let h := received [0; 0; 40; 2; 2; 0; 0; 0] host_ready in
  wp McuGetHostConfigInfo (fun r h' =>
    host_ok h' /\ answer r /\ (r <> 0 -> cleared h') /\
    (forall e h1, check_message h h = Done e h1 -> e <> 0 -> r = e /\ fresh h')) h.
Proof.
  intros h. apply (McuGetHostConfigInfo_safe h).
  - apply received_ok; [reflexivity|by apply (bool_decide_eq_true_1 _)|apply host_ready_ok].
  - by vm_compute.
Defined.

(** ** Several pins *)

(** The pins [pins] of a compound fault of type [t], without load, are configured. *)
Record configured (t : Z) (pins : list Z) (h : host) : Prop := {
  cf_ok : host_ok h;
  cf_cmd : FIU_CurCmd h = if bool_decide (pins = []) then 255 else 0;
  cf_type : FIU_Cmd0_CurErrorType h = if bool_decide (pins = []) || (t =? 0) then -1 else t;
  cf_flags : forall i, 0 <= i < 80 ->
    FIU_Cmd0_CurPinFlag h !! Z.to_nat i = Some (if bool_decide (i ∈ pins) then 1 else 0);
  cf_P0 : forall k, 0 <= k -> Z.testbit (P0 h) k = bool_decide (k ∈ pins);
  cf_P1 : P1 h = if bool_decide (pins = []) then 0 else Z.shiftl (t + 1) 8;
}.

(** A message for one more pin. *)
Definition asks (h : host) (t p : Z) : Prop :=
  msg h 0 = 0 /\ msg h 1 <= 16 /\ msg h 2 = p /\ msg h 3 = t /\ msg h 4 = 0.

Lemma CurCmd_ok h c : host_ok h -> is_u8 c -> host_ok (h <| FIU_CurCmd := c |>).
Proof. intros [] ?. by constructor. Qed.

Lemma check_message_0 t pins h p :
  configured t pins h -> asks h t p -> 0 <= t <= 4 -> 0 <= p <= 72 ->
  wp (check_message h) (fun r h' =>
    if bool_decide (p ∈ pins) then r = 0x81 + (if t =? 0 then 30 else 28) /\ host_ok h'
    else r = 0 /\ host_ok h' /\
      h' = h <| FIU_CurCmd := 0 |>
             <| FIU_Cmd0_CurErrorType := if t =? 0 then FIU_Cmd0_CurErrorType h else t |>
             <| FIU_Cmd0_CurPinFlag := <[Z.to_nat p := 1]> (FIU_Cmd0_CurPinFlag h) |>) h.
Proof.
  intros [Hok Hcmd Htype Hflags HP0 HP1] (M0 & M1 & M2 & M3 & M4) Ht Hp.
  unfold check_message, HostConfigCheck. rewrite M0, M2, M3, M4.
  assert ((msg h 1 >? 16) = false) as -> by lia.
  assert ((FIU_CurCmd h =? 255) || (FIU_CurCmd h =? 0) = true) as Hc
    by (rewrite Hcmd; by case_bool_decide).
  eapply wp_run.
  { rewrite (bind_Done _ _ _ true (h <| FIU_CurCmd := 0 |>)); [reflexivity|].
    cbn [Z.eqb Pos.eqb negb]. by rewrite bind_gets, Hc, bind_put. }
  cbn [negb Z.eqb]. set (h1 := h <| FIU_CurCmd := 0 |>).
  assert (host_ok h1) as Hok1 by (by apply CurCmd_ok).
  assert (index (FIU_Cmd0_CurPinFlag h1) p = Some (if bool_decide (p ∈ pins) then 1 else 0)) as Hflag.
  { unfold index. rewrite bool_decide_eq_true_2 by lia. apply Hflags. lia. }
  assert ((p >? CHANNUMBER) = false) as Hpc by (unfold CHANNUMBER; lia).
  unfold HostConfigCheck_0. rewrite Hpc. destruct (Z.eqb_spec t 0) as [->|Hne]; cbn [negb].
  - eapply wp_run; [by rewrite (bind_rd _ _ _ _ _ Hflag)|]. case_bool_decide; cbn [Z.eqb Pos.eqb].
    + by apply wp_err; [|lia|].
    + apply wp_bind, wp_wr; [rewrite (hok_flags _ Hok1); lia|].
      assert (host_ok (h1 <| FIU_Cmd0_CurPinFlag := <[Z.to_nat p:=1]> (FIU_Cmd0_CurPinFlag h1) |>)) as Hok2
        by (destruct Hok1; constructor; try done; cbn; by rewrite length_insert).
      apply wp_pass; [done|]. split_and!; [done|done|]. by destruct h.
  - assert ((t >? 4) = false) as -> by lia.
    eapply wp_run.
    { rewrite bind_gets. assert ((FIU_Cmd0_CurErrorType h1 =? -1) || (FIU_Cmd0_CurErrorType h1 =? t) = true) as ->;
        [|by rewrite (bind_rd _ _ _ _ _ Hflag)].
      change (FIU_Cmd0_CurErrorType h1) with (FIU_Cmd0_CurErrorType h). rewrite Htype.
      rewrite orb_false_r. destruct (bool_decide (pins = [])); [reflexivity|].
      by rewrite Z.eqb_refl, orb_true_r. }
    case_bool_decide; cbn [negb Z.eqb Pos.eqb].
    + by apply wp_err; [|lia|].
    + apply wp_bind, wp_put, wp_bind, wp_wr; [rewrite (hok_flags (h1 <| FIU_Cmd0_CurErrorType := t |>)); [lia|by destruct Hok1; constructor]|].
      apply wp_pass; [by destruct Hok1; constructor; try done; cbn; rewrite length_insert|].
      split_and!; [done|by destruct Hok1; constructor; try done; cbn; rewrite length_insert|done].
Qed.

Lemma p1_compound t :
  0 <= t <= 4 -> p1_load 0 t 0 (p1_fault t 0) = Z.shiftl (t + 1) 8 /\
  p1_load 0 t 0 (p1_fault t (Z.shiftl (t + 1) 8)) = Z.shiftl (t + 1) 8.
Proof.
  intros Ht. assert (t = 0 \/ t = 1 \/ t = 2 \/ t = 3 \/ t = 4) as [->|[->|[->|[->| ->]]]] by lia;
    by vm_compute.
Qed.

Lemma cmd0_run h h1 : msg h 0 = 0 -> config_switch h h1 = config_cmd 0 (msg h 2) (msg h 3) (msg h 4) h1.
Proof. intros M0. unfold config_switch. by rewrite M0. Qed.

(** The step of [configured]. *)
Lemma configure_step t pins p h :
  configured t pins h -> asks h t p -> 0 <= t <= 4 -> 0 <= p < 64 ->
  wp McuGetHostConfigInfo (fun r h' =>
    if bool_decide (p ∈ pins)
    then r = 0x81 + (if t =? 0 then 30 else 28) /\ host_ok h' /\ cleared h' /\ fresh h'
    else r = 0 /\ configured t (p :: pins) h' /\ same_rest h h' /\ P4_0 h' = P4_0 h /\
      g_Pfreq h' = g_Pfreq h) h.
Proof.
  intros Hconf Hasks Ht Hp. pose proof (cf_ok _ _ _ Hconf) as Hok.
  eapply wp_run; [by apply McuGetHostConfigInfo_run|].
  destruct (proj1 (wp_Done _ _ _) (check_message_0 t pins h p Hconf Hasks Ht ltac:(lia)))
    as (e & h1 & E & Hpost).
  case_bool_decide as Hin.
  - destruct Hpost as [-> Hok1].
    eapply wp_run; [by rewrite (bind_Done _ _ _ _ _ E), bind_gets, (hok_pass _ Hok1)|].
    assert ((0x81 + (if t =? 0 then 30 else 28) =? 0) = false) as -> by (destruct (t =? 0); done).
    apply wp_bind. eapply wp_mono; [by apply GlobalDataInit_ok|].
    intros [] h2 (Hok2 & Hcl & Hfr & _). by apply wp_ret.
  - destruct Hpost as (-> & Hok1 & Eh1).
    eapply wp_run; [by rewrite (bind_Done _ _ _ _ _ E), bind_gets, (hok_pass _ Hok1)|].
    cbn [Z.eqb negb]. destruct Hasks as (M0 & M1 & M2 & M3 & M4).
    eapply wp_run; [by apply cmd0_run|]. rewrite M2, M3, M4.
    eapply wp_mono; [apply (config_accepts 0 p t 0 h1); [done|lia|done|cbn; lia|by left]|].
    intros r h2 (-> & Hok2 & Eh2). destruct Hconf as [_ Hcmd Htype Hflags HP0 HP1].
    assert (P0 h1 = P0 h /\ P1 h1 = P1 h) as [EP0 EP1] by by rewrite Eh1.
    split; [done|]. rewrite Eh2, Eh1 in *. split; [|done]. constructor; try done.
    + cbn -[bool_decide]. rewrite Htype, (bool_decide_eq_false_2 (p :: pins = [])) by done.
      destruct (Z.eqb_spec t 0) as [->|]; [by rewrite orb_true_r|done].
    + intros i Hi. cbn -[bool_decide]. destruct (decide (i = p)) as [->|Hne].
      * rewrite list_lookup_insert_eq by (rewrite (hok_flags _ Hok); lia).
        by rewrite bool_decide_eq_true_2 by constructor.
      * rewrite list_lookup_insert_ne, Hflags by lia. f_equal.
        assert (bool_decide (i ∈ p :: pins) = bool_decide (i ∈ pins)) as ->; [|done].
        apply bool_decide_ext. rewrite elem_of_cons. naive_solver.
    + intros k Hk. change (P0 _) with (set64 p (P0 h)). unfold set64.
      rewrite Z.lor_spec, testbit_one_shl, HP0 by lia. rewrite <- bool_decide_or.
      apply bool_decide_ext. by rewrite elem_of_cons.
    + change (P1 _) with (p1_load 0 t 0 (p1_fault t (P1 h))). rewrite HP1.
      rewrite (bool_decide_eq_false_2 (p :: pins = [])) by done.
      case_bool_decide; by apply p1_compound.
Qed.

(** C22: the pins of a compound fault accumulate: a message for a new pin of the
    same type is accepted and adds exactly that pin; a message for a pin already
    there is refused with error 28 (30 for an open circuit) and clears the whole
    configuration. *)
Theorem configure_pin (t p : Z) (pins : list Z) (h : host) :
  configured t pins h -> asks h t p -> 0 <= t <= 4 -> 0 <= p < 64 ->
  wp McuGetHostConfigInfo (fun r h' =>
    if bool_decide (p ∈ pins)
    then r = 0x81 + (if t =? 0 then 30 else 28) /\ host_ok h' /\ cleared h' /\ fresh h'
    else r = 0 /\ configured t (p :: pins) h' /\ same_rest h h' /\ P4_0 h' = P4_0 h /\
      g_Pfreq h' = g_Pfreq h) h.
Proof. apply configure_step. Qed.

Lemma configured_ready t m :
  length m = 8%nat -> Forall is_u8 m -> configured t [] (received m host_ready).
Proof.
  intros Hm H8. pose proof (received_ok m host_ready Hm H8 host_ready_ok).
  constructor; try done.
  - intros i Hi. change (FIU_Cmd0_CurPinFlag _) with (replicate 80 0).
    rewrite lookup_replicate_2 by lia. done.
  - intros k Hk. apply Z.bits_0.
Qed.

Lemma configure_pin_witness :
  let h := received [0; 0; 40; 2; 0; 0; 0; 0] host_ready in
  wp McuGetHostConfigInfo (fun r h' =>
    r = 0 /\ configured 2 [40] h' /\ same_rest h h' /\ P4_0 h' = P4_0 h /\
      g_Pfreq h' = g_Pfreq h) h.
Proof.
  intros h. apply (configure_pin 2 40 [] h).
  - by apply configured_ready; [|apply (bool_decide_eq_true_1 _)].
  - by vm_compute.
  - lia.
  - lia.
Defined.

(** A compound-fault message of another type than the one being configured is
    neither refused nor recorded: the check passes without marking the pin, and
    the type bits of the two faults are mixed in [P1]. *)
Theorem mixed_types_pass (t p : Z) (pins : list Z) (t0 : Z) (h : host) :
  configured t0 pins h -> pins <> [] -> asks h t p ->
  1 <= t0 <= 4 -> 1 <= t <= 4 -> t <> t0 -> 0 <= p < 64 ->
  wp McuGetHostConfigInfo (fun r h' => r = 0 /\
    FIU_Cmd0_CurPinFlag h' = FIU_Cmd0_CurPinFlag h /\
    (forall k, 8 <= k < 12 -> Z.testbit (P1 h') k =
      Z.testbit (t0 + 1) (k - 8) || Z.testbit (t + 1) (k - 8))) h.
Proof.
  intros Hconf Hpins Hasks Ht0 Ht Hne Hp. pose proof (cf_ok _ _ _ Hconf) as Hok.
  destruct Hconf as [_ Hcmd Htype Hflags HP0 HP1]. destruct Hasks as (M0 & M1 & M2 & M3 & M4).
  rewrite bool_decide_eq_false_2 in Hcmd, HP1 by done.
  rewrite bool_decide_eq_false_2, (proj2 (Z.eqb_neq t0 0)) in Htype by (done || lia). cbn in Htype.
  eapply wp_run; [by apply McuGetHostConfigInfo_run|].
  assert (host_ok (h <| FIU_CurCmd := 0 |>)) as Hok1 by (by apply CurCmd_ok).
  assert (check_message h h = Done 0 (h <| FIU_CurCmd := 0 |>)) as E.
  { unfold check_message, HostConfigCheck. rewrite M0, M2, M3, M4.
    assert ((msg h 1 >? 16) = false) as -> by lia.
    rewrite (bind_Done _ _ _ true (h <| FIU_CurCmd := 0 |>))
      by (cbn [Z.eqb Pos.eqb negb]; by rewrite bind_gets, Hcmd).
    cbn [negb Z.eqb]. unfold HostConfigCheck_0. rewrite (proj2 (Z.eqb_neq t 0)) by lia.
    assert ((p >? CHANNUMBER) = false) as -> by (unfold CHANNUMBER; lia).
    assert ((t >? 4) = false) as -> by lia. cbn [negb]. rewrite bind_gets.
    change (FIU_Cmd0_CurErrorType (h <| FIU_CurCmd := 0 |>)) with (FIU_Cmd0_CurErrorType h).
    rewrite Htype. rewrite (proj2 (Z.eqb_neq t0 (-1))), (proj2 (Z.eqb_neq t0 t)) by lia. cbn [orb].
    by apply pass_run. }
  eapply wp_run; [by rewrite (bind_Done _ _ _ _ _ E), bind_gets, (hok_pass _ Hok1)|].
  cbn [Z.eqb negb]. eapply wp_run; [by apply cmd0_run|]. rewrite M2, M3, M4.
  eapply wp_mono; [apply (config_accepts 0 p t 0); [done|lia|cbn; lia|cbn; lia|by left]|].
  intros r h2 (-> & Hok2 & ->). split; [done|]. split; [done|]. intros k Hk.
  change (P1 _) with (p1_load 0 t 0 (p1_fault t (P1 h))). rewrite HP1.
  unfold p1_load. rewrite (proj2 (Z.eqb_neq t 0)) by lia. cbn [negb andb orb Z.eqb Pos.eqb].
  unfold clr64, p1_fault.
  rewrite Z.land_spec, Z.lxor_spec, Z.lor_spec, testbit_one_shl, !Z.shiftl_spec by lia.
  rewrite Z.ones_spec_low, (bool_decide_eq_false_2 (k = 12)) by lia.
  cbn [xorb andb]. apply orb_comm.
Qed.

Lemma mixed_types_pass_witness :
  exists h, configured 1 [5] h /\
  wp McuGetHostConfigInfo (fun r h' => r = 0 /\
    FIU_Cmd0_CurPinFlag h' = FIU_Cmd0_CurPinFlag (received [0; 0; 6; 2; 0; 0; 0; 0] h) /\
    (forall k, 8 <= k < 12 -> Z.testbit (P1 h') k =
      Z.testbit (1 + 1) (k - 8) || Z.testbit (2 + 1) (k - 8)))
    (received [0; 0; 6; 2; 0; 0; 0; 0] h).
Proof.
  assert (wp McuGetHostConfigInfo (fun r h' =>
    r = 0 /\ configured 1 [5] h' /\ same_rest (received [0; 0; 5; 1; 0; 0; 0; 0] host_ready) h' /\
    P4_0 h' = P4_0 (received [0; 0; 5; 1; 0; 0; 0; 0] host_ready) /\
    g_Pfreq h' = g_Pfreq (received [0; 0; 5; 1; 0; 0; 0; 0] host_ready))
    (received [0; 0; 5; 1; 0; 0; 0; 0] host_ready)) as Hstep.
  { apply (configure_step 1 [] 5).
    - apply configured_ready; [reflexivity|by apply (bool_decide_eq_true_1 _)].
    - by vm_compute.
    - lia.
    - lia. }
  destruct (proj1 (wp_Done _ _ _) Hstep) as (r & h & _ & _ & Hc & _). exists h. split; [exact Hc|].
  apply (mixed_types_pass 2 6 [5] 1).
  - destruct Hc. constructor; try assumption. apply received_ok;
      [reflexivity|by apply (bool_decide_eq_true_1 _)|assumption].
  - discriminate.
  - by vm_compute.
  - lia.
  - lia.
  - lia.
  - lia.
Defined.

(** The channels 64 to 71 cannot be configured: the check lets their pins pass,
    and the comparison with CHANNUMBER (72 where 64 is meant) sends them to the word
    of the low channels, eight bytes past whose array the bit is written. *)
Theorem high_channel_overflow (t p : Z) (pins : list Z) (h : host) :
  configured t pins h -> asks h t p -> 0 <= t <= 4 -> 64 <= p < 72 -> p ∉ pins ->
  McuGetHostConfigInfo h = Undefined OutOfBounds.
Proof.
  intros Hconf Hasks Ht Hp Hin. pose proof (cf_ok _ _ _ Hconf) as Hok.
  rewrite McuGetHostConfigInfo_run by done.
  destruct (proj1 (wp_Done _ _ _) (check_message_0 t pins h p Hconf Hasks Ht ltac:(lia)))
    as (e & h1 & E & Hpost).
  rewrite bool_decide_eq_false_2 in Hpost by done. destruct Hpost as (-> & Hok1 & _).
  rewrite (bind_Done _ _ _ _ _ E), bind_gets, (hok_pass _ Hok1). cbn [Z.eqb negb].
  destruct Hasks as (M0 & M1 & M2 & M3 & M4). rewrite cmd0_run, M2, M3, M4 by done.
  assert (forall k : M host Z, (set_pin CHANNUMBER p ;; k) h1 = Undefined OutOfBounds) as Hset.
  { intros k. apply bind_Undefined. unfold set_pin, CHANNUMBER.
    rewrite (proj2 (Z.ltb_lt p 72)) by lia. rewrite bind_gets. apply bind_Undefined.
    unfold McuFault64BitValuePinSet, one_byte. by rewrite index_replicate_oob by lia. }
  unfold config_cmd, config_cmd0. cbn [Z.eqb].
  assert (t = 0 \/ t = 1 \/ t = 2 \/ t = 3 \/ t = 4) as [->|[->|[->|[->| ->]]]] by lia;
    cbn [Z.eqb Pos.eqb]; apply Hset.
Qed.

Lemma high_channel_overflow_witness :
  McuGetHostConfigInfo (received [0; 0; 64; 1; 0; 0; 0; 0] host_ready) = Undefined OutOfBounds.
Proof.
  apply (high_channel_overflow 1 64 []).
  - apply configured_ready; [reflexivity|by apply (bool_decide_eq_true_1 _)].
  - by vm_compute.
  - lia.
  - lia.
  - apply not_elem_of_nil.
Defined.
