(* ===== verification/Flash.v ===== *)
(** * Settings in flash: src/HARDWARE/STMFLASH/stmflash.c, [InfModify] of
    src/HARDWARE/Fiu/FiuHostDataAnalysis.c, [IpModifiedCheck] and
    [CanModifiedCheck] of src/USER/main.c

    The flash of the microcontroller and the HAL functions that erase and program
    it are not part of the program: they are the parameter [FlashHW], with what
    their documentation says of them as the laws [FlashLaws]. *)
From Stdlib Require Import ZArith Lia.
From stdpp Require Import base tactics decidable list list_numbers numbers.
From S2P Require Import Prelude.
Open Scope Z_scope.
Open Scope c_scope.

(** ** The device *)
Class FlashHW := {
  mem : Type;
  read_word : mem -> Z -> Z;                     (** a 32-bit read *)
  flash_unlock : mem -> mem;                     (** [HAL_FLASH_Unlock] *)
  flash_lock : mem -> mem;                       (** [HAL_FLASH_Lock] *)
  erase_sector : mem -> Z -> mem * bool;         (** [HAL_FLASHEx_Erase], and whether it succeeded *)
  program_word : mem -> Z -> Z -> mem * bool;    (** [HAL_FLASH_Program] *)
  wait_ok : mem -> bool;                         (** [FLASH_WaitForLastOperation] is [HAL_OK] *)
}.

Definition STM32_FLASH_BASE : Z := 0x08000000.
Definition BLANK : Z := 0xFFFFFFFF.

(** The first addresses of the sectors 1 to 23. *)
Definition ADDR_FLASH_SECTOR : list Z :=
  [0x08004000; 0x08008000; 0x0800C000; 0x08010000; 0x08020000; 0x08040000; 0x08060000;
   0x08080000; 0x080A0000; 0x080C0000; 0x080E0000; 0x08100000; 0x08104000; 0x08108000;
   0x0810C000; 0x08110000; 0x08120000; 0x08140000; 0x08160000; 0x08180000; 0x081A0000;
   0x081C0000; 0x081E0000].

(** The chain of comparisons: the first sector that ends above the address. *)
Fixpoint find_sector (starts : list Z) (n addr : Z) : Z :=
  match starts with
  | [] => n
  | a :: starts => if addr <? a then n else find_sector starts (n + 1) addr
  end.

Definition STMFLASH_GetFlashSector (addr : Z) : Z := find_sector ADDR_FLASH_SECTOR 0 addr.

Section flash.
Context {hw : FlashHW}.

Definition STMFLASH_ReadWord (faddr : Z) (m : mem) : Z := read_word m faddr.

(** [STMFLASH_Read]: the words read, from [ReadAddr] on. *)
Fixpoint STMFLASH_Read (ReadAddr : Z) (NumToRead : nat) (m : mem) : list Z :=
  match NumToRead with
  | O => []
  | S n => STMFLASH_ReadWord ReadAddr m :: STMFLASH_Read (u32 (ReadAddr + 4)) n m
  end.

(** The loop that erases until the target is blank, with at most [fuel]
    iterations; [None] when they do not suffice. *)
Fixpoint erase_loop (fuel : nat) (addrx endaddr : Z) (m : mem) : option mem :=
  match fuel with
  | O => None
  | S fuel =>
      if addrx <? endaddr then
        if negb (STMFLASH_ReadWord addrx m =? BLANK) then
          let '(m, ok) := erase_sector m (STMFLASH_GetFlashSector addrx) in
          if ok then erase_loop fuel addrx endaddr m else Some m
        else erase_loop fuel (u32 (addrx + 4)) endaddr m
      else Some m
  end.

(** The loop [while(WriteAddr<endaddr)] that programs the words. *)
Fixpoint program_loop (WriteAddr endaddr : Z) (pBuffer : list Z) (m : mem) : mem :=
  match pBuffer with
  | [] => m
  | w :: pBuffer =>
      if WriteAddr <? endaddr then
        let '(m, ok) := program_word m WriteAddr w in
        if ok then program_loop (u32 (WriteAddr + 4)) endaddr pBuffer m else m
      else m
  end.

(** Each address is looked at once, and once more after an erase. *)
Definition erase_fuel (NumToWrite : nat) : nat := (2 * NumToWrite + 1)%nat.

(** An endless loop is [Spin]. *)
Definition STMFLASH_Write (WriteAddr : Z) (pBuffer : list Z) : M mem unit :=
  if (WriteAddr <? STM32_FLASH_BASE) || negb (WriteAddr mod 4 =? 0) then skip
  else
    modify flash_unlock ;;
    let endaddr := u32 (WriteAddr + Z.of_nat (length pBuffer) * 4) in
    (if WriteAddr <? 0x1FFF0000 then
       m ← gets id;
       match erase_loop (erase_fuel (length pBuffer)) WriteAddr endaddr m with
       | Some m' => modify (fun _ => m')
       | None => halt_with Spin
       end
     else skip) ;;
    m ← gets id;
    (if wait_ok m then modify (program_loop WriteAddr endaddr pBuffer) else skip) ;;
    modify flash_lock.
End flash.

(** ** Records of settings *)
Definition FLASH_PROCHEAD : Z := 0x080F0000.
Definition FLASH_PROCHEAD_SIZE : Z := 48.
Definition FLASH_PROC_SIZE : Z := 64.
Definition FLASH_IP_PORT : Z := FLASH_PROCHEAD + 0x30.
Definition FLASH_PROCHEAD_CAN : Z := FLASH_PROCHEAD + 0x40.
Definition FLASH_PROCHEAD_CAN_r : Z := FLASH_PROCHEAD + 0x80.
Definition FLASH_PROCHEAD_WM : Z := FLASH_PROCHEAD + 0xC0.

(** Words to the bytes of memory and back. *)
Definition bytes_of_words (ws : list Z) : list Z := ws ≫= le_bytes 4.

Fixpoint words_of_bytes (n : nat) (bs : list Z) : list Z :=
  match n with
  | O => []
  | S n => le_value (take 4 bs) :: words_of_bytes n (drop 4 bs)
  end.

Section settings.
Context {hw : FlashHW}.

(** The record [InfModify] writes: twenty-four pairs 0xaa 0x55, four bytes of the
    message, zeros. *)
Definition InfModify_record (data : list Z) (addr : Z) (m : mem) : option (list Z) :=
  let tmp_flash := replicate 64 0 in
  let tmp_flash := blit tmp_flash 0 (bytes_of_words (STMFLASH_Read addr 12 m)) in
  let tmp_flash := foldl (fun l i => <[Z.to_nat (i + 1) := 0x55]> (<[Z.to_nat i := 0xaa]> l))
    tmp_flash ((fun i => 2 * i) <$> seqZ 0 24) in
  let first := if negb (addr =? FLASH_PROCHEAD_WM) then 2 else 1 in
  b0 ← index data first; b1 ← index data (first + 1);
  b2 ← index data (first + 2); b3 ← index data (first + 3);
  Some (<[51%nat := b3]> (<[50%nat := b2]> (<[49%nat := b1]> (<[48%nat := b0]> tmp_flash)))).

(** [data] is [g_DataFromHost]. *)
Definition InfModify (data : list Z) (addr : Z) : M mem unit :=
  m ← gets id;
  tmp_flash ← from_array (InfModify_record data addr m);
  STMFLASH_Write addr (words_of_bytes 16 tmp_flash).

(** The test both checks make: the loop over the first 48 bytes, which only ever
    clears the flag. *)
Definition head_flag (flag : Z) (tmp : list Z) : Z :=
  foldl (fun flag i =>
    if (nth (Z.to_nat i) tmp 0 =? 0xaa) && (nth (Z.to_nat (i + 1)) tmp 0 =? 0x55)
    then flag else 0) flag ((fun i => 2 * i) <$> seqZ 0 24).
End settings.

(** ** The settings in use *)
Record settings := Settings {
  g_IpAllModified : Z;
  g_LocalUdpPort : Z;
  g_IP_ADDR : list Z;
  g_NETMASK_ADDR : list Z;
  g_GW_ADDR : list Z;
  g_CanAllModified : Z;
  g_RemoteCanId : Z;
  g_LocalCanId_r : Z;
}.

#[export] Instance settings_eta : Eta settings := fun s =>
  Settings (g_IpAllModified s) (g_LocalUdpPort s) (g_IP_ADDR s) (g_NETMASK_ADDR s) (g_GW_ADDR s)
    (g_CanAllModified s) (g_RemoteCanId s) (g_LocalCanId_r s).
#[export] Instance upd_g_IpAllModified : Upd g_IpAllModified := ltac:(derive_upd).
#[export] Instance upd_g_LocalUdpPort : Upd g_LocalUdpPort := ltac:(derive_upd).
#[export] Instance upd_g_IP_ADDR : Upd g_IP_ADDR := ltac:(derive_upd).
#[export] Instance upd_g_NETMASK_ADDR : Upd g_NETMASK_ADDR := ltac:(derive_upd).
#[export] Instance upd_g_GW_ADDR : Upd g_GW_ADDR := ltac:(derive_upd).
#[export] Instance upd_g_CanAllModified : Upd g_CanAllModified := ltac:(derive_upd).
#[export] Instance upd_g_RemoteCanId : Upd g_RemoteCanId := ltac:(derive_upd).
#[export] Instance upd_g_LocalCanId_r : Upd g_LocalCanId_r := ltac:(derive_upd).

(** The initial values of the globals. *)
Definition settings_boot : settings := {|
  g_IpAllModified := 1;
  g_LocalUdpPort := 50099;
  g_IP_ADDR := [192; 168; 1; 100];
  g_NETMASK_ADDR := [255; 255; 255; 0];
  g_GW_ADDR := [192; 168; 1; 1];
  g_CanAllModified := 1;
  g_RemoteCanId := 0x1FFFFFFF;
  g_LocalCanId_r := 0x1FFFFFFF;
|}.

Section checks.
Context {hw : FlashHW}.

Definition IpModifiedCheck (m : mem) : M settings unit :=
  let tmp := bytes_of_words (STMFLASH_Read FLASH_PROCHEAD 12 m) in
  flag ← gets g_IpAllModified;
  g_IpAllModified ::= head_flag flag tmp ;;
  flag ← gets g_IpAllModified;
  if flag =? 1 then
    let tmp := blit tmp 0 (bytes_of_words (STMFLASH_Read FLASH_IP_PORT 2 m)) in
    g_IP_ADDR ::= take 4 tmp ;;
    g_LocalUdpPort ::= 50099 ;;
    g_NETMASK_ADDR ::= [255; 255; 255; 0] ;;
    g_GW_ADDR ::= take 3 tmp ++ [1]
  else skip.

(** [(tmp[51]<<24) | (tmp[50]<<16) | (tmp[49]<<8) | tmp[48]] *)
Definition id_of (tmp : list Z) : Z :=
  u32 (Z.lor (Z.lor (Z.lor (Z.shiftl (nth 51 tmp 0) 24) (Z.shiftl (nth 50 tmp 0) 16))
    (Z.shiftl (nth 49 tmp 0) 8)) (nth 48 tmp 0)).

Definition CanModifiedCheck (m : mem) : M settings unit :=
  let tmp := bytes_of_words (STMFLASH_Read FLASH_PROCHEAD_CAN 16 m) in
  flag ← gets g_CanAllModified;
  g_CanAllModified ::= head_flag flag tmp ;;
  flag ← gets g_CanAllModified;
  (if flag =? 1 then g_RemoteCanId ::= id_of tmp else skip) ;;
  g_CanAllModified ::= 1 ;;
  let tmp := bytes_of_words (STMFLASH_Read FLASH_PROCHEAD_CAN_r 16 m) in
  flag ← gets g_CanAllModified;
  g_CanAllModified ::= head_flag flag tmp ;;
  flag ← gets g_CanAllModified;
  if flag =? 1 then g_LocalCanId_r ::= id_of tmp else skip.
End checks.
