(* ===== verification/FlashSpec.v ===== *)
(** * What the settings in flash promise

    The laws of a healthy flash, what a write does to the sector it is in, and the
    round trips from a host message to the settings after the next power-up. *)
From Stdlib Require Import ZArith Lia.
From stdpp Require Import base tactics decidable list list_numbers numbers.
From S2P Require Import Prelude Flash.
Open Scope Z_scope.
Open Scope c_scope.

(** ** A healthy device *)
Class FlashLaws {hw : FlashHW} := {
  read_u32 m a : is_u32 (read_word m a);
  read_unlock m a : read_word (flash_unlock m) a = read_word m a;
  read_lock m a : read_word (flash_lock m) a = read_word m a;
  wait_fine m : wait_ok m = true;
  erase_fine m s : exists m', erase_sector m s = (m', true) /\
    forall a, read_word m' a = if STMFLASH_GetFlashSector a =? s then BLANK else read_word m a;
  program_fine m a w : read_word m a = BLANK -> is_u32 w ->
    exists m', program_word m a w = (m', true) /\
      forall b, b mod 4 = 0 -> read_word m' b = if b =? a then w else read_word m b;
}.

(** A range of words inside one sector of the flash. *)
Record in_sector (s a n : Z) : Prop := {
  is_aligned : a mod 4 = 0;
  is_n : 0 <= n;
  is_low : STM32_FLASH_BASE <= a;
  is_high : a + 4 * n < 0x08200000;
  is_sector : forall i, 0 <= i < n -> STMFLASH_GetFlashSector (a + 4 * i) = s;
}.

Lemma in_sector_next s a n : in_sector s a (n + 1) -> 0 <= n -> in_sector s (a + 4) n.
Proof.
  intros [Ha Hn Hl Hh Hs] Hn'. constructor; [|lia..|].
  - Z.to_euclidean_division_equations. lia.
  - intros i Hi. rewrite <- (Hs (i + 1)) by lia. f_equal. lia.
Qed.

(** The sectors are intervals, so it is enough to look at the two ends. *)
Lemma find_sector_mono starts n a b c :
  find_sector starts n a = find_sector starts n c -> a <= b <= c ->
  find_sector starts n b = find_sector starts n a.
Proof.
  revert n. induction starts as [|x starts IH]; intros n Hac Hb; cbn [find_sector] in *; [done|].
  assert (forall l k z, k <= find_sector l k z) as Hge.
  { clear. induction l as [|y l IH]; intros k z; cbn [find_sector]; [lia|].
    destruct (z <? y); [lia|]. etrans; [|apply IH]. lia. }
  destruct (Z.ltb_spec a x), (Z.ltb_spec b x), (Z.ltb_spec c x); try lia.
  - pose proof (Hge starts (n + 1) c). lia.
  - auto.
Qed.

Lemma in_sector_intro s a n :
  a mod 4 = 0 -> 0 < n -> STM32_FLASH_BASE <= a -> a + 4 * n < 0x08200000 ->
  STMFLASH_GetFlashSector a = s -> STMFLASH_GetFlashSector (a + 4 * (n - 1)) = s ->
  in_sector s a n.
Proof.
  intros Ha Hn Hl Hh <- H2. constructor; try lia. intros i Hi.
  unfold STMFLASH_GetFlashSector in *.
  apply (find_sector_mono _ _ _ _ (a + 4 * (n - 1))); [by rewrite H2|lia].
Qed.

Section write.
Context {hw : FlashHW} {laws : FlashLaws}.

Definition blank_at (m : mem) (a : Z) (n : Z) : Prop :=
  forall i, 0 <= i < n -> read_word m (a + 4 * i) = BLANK.

Lemma erase_loop_blank fuel s a (n : nat) m :
  in_sector s a (Z.of_nat n) -> blank_at m a (Z.of_nat n) -> (n < fuel)%nat ->
  erase_loop fuel a (a + 4 * Z.of_nat n) m = Some m.
Proof using.
  clear. revert fuel a. induction n as [|n IH]; intros fuel a Hs Hb Hf;
    (destruct fuel as [|fuel]; [lia|]); cbn [erase_loop].
  - by rewrite (proj2 (Z.ltb_ge _ _)) by lia.
  - rewrite (proj2 (Z.ltb_lt _ _)) by lia. unfold STMFLASH_ReadWord.
    pose proof (Hb 0 ltac:(lia)) as H0. rewrite Z.mul_0_r, Z.add_0_r in H0. rewrite H0.
    rewrite Z.eqb_refl. cbn [negb].
    destruct Hs as [Ha Hn Hl Hh Hsec] eqn:E. unfold STM32_FLASH_BASE in *.
    unfold u32. rewrite Z.mod_small by lia.
    replace (a + 4 * Z.of_nat (S n)) with (a + 4 + 4 * Z.of_nat n) by lia.
    apply IH; [apply in_sector_next; [|lia]|..].
    + by replace (Z.of_nat n + 1) with (Z.of_nat (S n)) by lia.
    + intros i Hi. rewrite <- (Hb (i + 1)) by lia. f_equal. lia.
    + lia.
Qed.

(** The loop erases the sector when some word of the target is not blank. *)
Lemma erase_loop_run fuel s a (n : nat) m :
  in_sector s a (Z.of_nat n) -> (2 * n < fuel)%nat ->
  exists m', erase_loop fuel a (a + 4 * Z.of_nat n) m = Some m' /\
    blank_at m' a (Z.of_nat n) /\
    ((blank_at m a (Z.of_nat n) /\ m' = m) \/
     (~ blank_at m a (Z.of_nat n) /\
      forall b, read_word m' b = if STMFLASH_GetFlashSector b =? s then BLANK else read_word m b)).
Proof using All.
  revert fuel a. induction n as [|n IH]; intros fuel a Hs Hf;
    (destruct fuel as [|fuel]; [lia|]); cbn [erase_loop].
  - rewrite (proj2 (Z.ltb_ge _ _)) by lia. exists m.
    assert (blank_at m a (Z.of_nat 0)) by (intros i Hi; lia). split_and!; auto.
  - rewrite (proj2 (Z.ltb_lt _ _)) by lia. unfold STMFLASH_ReadWord.
    destruct Hs as [Ha Hn Hl Hh Hsec] eqn:E. pose proof Hs as Hs'.
    pose proof (Hsec 0 ltac:(lia)) as Hsec0. rewrite Z.mul_0_r, Z.add_0_r in Hsec0.
    destruct (Z.eqb_spec (read_word m a) BLANK) as [Hb|Hb]; cbn [negb].
    + unfold u32. unfold STM32_FLASH_BASE in *. rewrite Z.mod_small by lia.
      replace (a + 4 * Z.of_nat (S n)) with (a + 4 + 4 * Z.of_nat n) by lia.
      assert (forall m, blank_at m a (Z.of_nat (S n)) <->
        read_word m a = BLANK /\ blank_at m (a + 4) (Z.of_nat n)) as Hblank.
      { intros m1. split.
        - intros H. split; [rewrite <- (H 0) by lia; f_equal; lia|].
          intros i Hi. rewrite <- (H (i + 1)) by lia. f_equal. lia.
        - intros [H0 H] i Hi. destruct (decide (i = 0)) as [->|]; [by rewrite Z.mul_0_r, Z.add_0_r|].
          rewrite <- (H (i - 1)) by lia. f_equal. lia. }
      destruct (IH fuel (a + 4)) as (m' & Hrun & Hbl & Hcase).
      { apply in_sector_next; [|lia]. by replace (Z.of_nat n + 1) with (Z.of_nat (S n)) by lia. }
      { lia. }
      exists m'. split; [done|]. rewrite !Hblank. destruct Hcase as [[H1 ->]|[H1 H2]].
      * split; [done|]. by left.
      * split; [split; [|done]|right; split; [tauto|done]].
        rewrite H2, Hb. by destruct (_ =? _).
    + destruct (erase_fine m (STMFLASH_GetFlashSector a)) as (m' & Her & Hr). rewrite Her.
      rewrite Hsec0 in Hr.
      assert (blank_at m' a (Z.of_nat (S n))) as Hbl.
      { intros i Hi. rewrite Hr, Hsec by lia. by rewrite Z.eqb_refl. }
      exists m'. split; [|split; [done|right; split; [|done]]].
      * apply (erase_loop_blank _ s); [done|done|lia].
      * intros H. apply Hb. rewrite <- (H 0) by lia. f_equal. lia.
Qed.

Lemma program_loop_run s a e ws m :
  e = a + 4 * Z.of_nat (length ws) -> in_sector s a (Z.of_nat (length ws)) -> blank_at m a (Z.of_nat (length ws)) ->
  Forall is_u32 ws ->
  (forall i w, ws !! i = Some w -> read_word (program_loop a e ws m) (a + 4 * Z.of_nat i) = w) /\
  (forall b, b mod 4 = 0 -> (b < a \/ a + 4 * Z.of_nat (length ws) <= b) ->
    read_word (program_loop a e ws m) b = read_word m b).
Proof using All.
  revert a m. induction ws as [|w ws IH]; intros a m He Hs Hb Hw; cbn [program_loop].
  - split; [by intros []|done].
  - inversion_clear Hw as [|? ? Hw1 Hws]. destruct Hs as [Ha Hn Hl Hh Hsec] eqn:E.
    pose proof Hs as Hs'. cbn [length] in *. unfold STM32_FLASH_BASE in *.
    destruct (program_fine m a w) as (m1 & Hp & Hr).
    { rewrite <- (Hb 0) by lia. f_equal. lia. }
    { done. }
    rewrite (proj2 (Z.ltb_lt _ _)), Hp by lia. unfold u32. rewrite Z.mod_small by lia.
    assert (forall i, (a + 4 + 4 * i) mod 4 = 0) as Hmod
      by (intros i; replace (a + 4 + 4 * i) with (a + (1 + i) * 4) by lia;
          by rewrite Z.mod_add).
    destruct (IH (a + 4) m1) as [IH1 IH2]; [lia|..].
    { apply in_sector_next; [|lia].
      by replace (Z.of_nat (length ws) + 1) with (Z.of_nat (S (length ws))) by lia. }
    { intros i Hi. rewrite Hr by apply Hmod. rewrite (proj2 (Z.eqb_neq _ _)) by lia.
      rewrite <- (Hb (i + 1)) by lia. f_equal. lia. }
    { done. }
    split.
    + intros [|i] w' Hi; cbn in Hi.
      * injection Hi as <-. rewrite Z.mul_0_r, Z.add_0_r, IH2, Hr, Z.eqb_refl by (done || lia). done.
      * rewrite <- (IH1 i w' Hi). f_equal. lia.
    + intros b Hb4 Hout. rewrite IH2, Hr by (done || lia).
      by rewrite (proj2 (Z.eqb_neq _ _)) by lia.
Qed.
End write.

(** ** Writes and reads *)
Section access.
Context {hw : FlashHW} {laws : FlashLaws}.

(** [STMFLASH_Write] to a range inside a sector: the words are stored; words
    elsewhere stay when the range was blank, and the whole sector is lost
    when it was not. *)
Lemma STMFLASH_Write_run s a ws m :
  in_sector s a (Z.of_nat (length ws)) -> Forall is_u32 ws ->
  wp (STMFLASH_Write a ws) (fun _ m' =>
    (forall i w, ws !! i = Some w -> read_word m' (a + 4 * Z.of_nat i) = w) /\
    ((blank_at m a (Z.of_nat (length ws)) /\
      forall b, b mod 4 = 0 -> (b < a \/ a + 4 * Z.of_nat (length ws) <= b) ->
        read_word m' b = read_word m b) \/
     (~ blank_at m a (Z.of_nat (length ws)) /\
      forall b, b mod 4 = 0 -> (b < a \/ a + 4 * Z.of_nat (length ws) <= b) ->
        read_word m' b = if STMFLASH_GetFlashSector b =? s then BLANK else read_word m b))) m.
Proof using All.
  intros Hs Hw. pose proof Hs as [Ha Hn Hl Hh _]. unfold STM32_FLASH_BASE in *.
  unfold STMFLASH_Write, STM32_FLASH_BASE.
  rewrite (proj2 (Z.ltb_ge _ _)), Ha by lia. cbn [Z.eqb negb orb].
  apply wp_bind, wp_modify. rewrite (proj2 (Z.ltb_lt a 0x1FFF0000)) by lia.
  destruct (erase_loop_run (erase_fuel (length ws)) s a (length ws) (flash_unlock m))
    as (m1 & E & Hbl & Hcase); [done|unfold erase_fuel; lia|].
  assert (forall n, blank_at (flash_unlock m) a n <-> blank_at m a n) as Hunl
    by (intros n; unfold blank_at; by setoid_rewrite read_unlock).
  rewrite Hunl in Hcase.
  apply wp_bind, wp_bind, wp_gets. unfold u32. rewrite (Z.mul_comm _ 4), Z.mod_small by lia.
  cbn [id]. rewrite E. apply wp_modify, wp_bind, wp_gets. cbn [id]. rewrite wait_fine.
  apply wp_bind, wp_modify, wp_modify.
  destruct (program_loop_run s a (a + 4 * Z.of_nat (length ws)) ws m1) as [Hin Hout]; [done..|].
  split; [intros i w Hi; rewrite read_lock; by apply Hin|].
  destruct Hcase as [[Hb ->]|[Hb Her]]; [left|right]; (split; [done|]);
    intros b Hb4 Hr; rewrite read_lock, Hout by done.
  - by rewrite read_unlock.
  - rewrite Her. by rewrite read_unlock.
Qed.

Lemma STMFLASH_Read_run a (n : nat) m :
  0 <= a -> a + 4 * Z.of_nat n < 2 ^ 32 ->
  STMFLASH_Read a n m = (fun i => read_word m (a + 4 * i)) <$> seqZ 0 (Z.of_nat n).
Proof using.
  clear. revert a. induction n as [|n IH]; intros a Ha Hn; [done|].
  rewrite seqZ_cons by lia. cbn [STMFLASH_Read fmap list_fmap]. f_equal.
  - unfold STMFLASH_ReadWord. f_equal. lia.
  - unfold u32. rewrite Z.mod_small, IH by lia.
    replace (Z.pred (Z.of_nat (S n))) with (Z.of_nat n) by lia.
    change (Z.succ 0) with (1 + 0). rewrite <- fmap_add_seqZ, <- list_fmap_compose.
    apply list_fmap_ext. intros i x _. cbn. f_equal. lia.
Qed.
End access.

(** ** Bytes and words *)
Lemma bytes_of_words_of_bytes n bs :
  length bs = (4 * n)%nat -> Forall is_u8 bs -> bytes_of_words (words_of_bytes n bs) = bs.
Proof.
  revert bs. induction n as [|n IH]; intros bs Hl H8.
  - by destruct bs.
  - cbn [words_of_bytes]. unfold bytes_of_words in *. rewrite bind_cons, IH.
    + assert (length (take 4 bs) = 4%nat) as E by (rewrite length_take; lia).
      rewrite <- E at 1. rewrite le_bytes_value by by apply Forall_take.
      apply take_drop.
    + rewrite length_drop. lia.
    + by apply Forall_drop.
Qed.

Lemma words_of_bytes_length n bs : length (words_of_bytes n bs) = n.
Proof. revert bs. induction n; intros; cbn; auto. Qed.

Lemma words_of_bytes_u32 n bs :
  length bs = (4 * n)%nat -> Forall is_u8 bs -> Forall is_u32 (words_of_bytes n bs).
Proof.
  revert bs. induction n as [|n IH]; intros bs Hl H8; cbn; constructor.
  - assert (length (take 4 bs) = 4%nat) as E by (rewrite length_take; lia).
    pose proof (le_value_width (take 4 bs) (Forall_take _ _ _ H8)) as H. by rewrite E in H.
  - apply IH; [rewrite length_drop; lia|by apply Forall_drop].
Qed.

Lemma bytes_of_words_length ws : length (bytes_of_words ws) = (4 * length ws)%nat.
Proof.
  induction ws as [|w ws IH]; [done|]. unfold bytes_of_words in *.
  rewrite bind_cons, length_app, IH, le_bytes_length. cbn [length]. lia.
Qed.

(** ** Records *)

(** The head that marks a record as written. *)
Definition head48 : list Z := concat (replicate 24 [0xaa; 0x55]).

Lemma head_overwrite l :
  length l = 48%nat ->
  foldl (fun l i => <[Z.to_nat (i + 1) := 0x55]> (<[Z.to_nat i := 0xaa]> l))
    (blit (replicate 64 0) 0 l) ((fun i => 2 * i) <$> seqZ 0 24) = head48 ++ replicate 16 0.
Proof.
  intros Hl. do 48 (destruct l as [|? l]; [discriminate|]). destruct l; [|discriminate].
  reflexivity.
Qed.

(** A record: the head, four bytes, zeros. *)
Definition record (bs : list Z) : list Z := head48 ++ bs ++ replicate 12 0.

(** The bytes of the message that go into the record at [addr]. *)
Definition payload (data : list Z) (addr : Z) : list Z :=
  take 4 (drop (if addr =? FLASH_PROCHEAD_WM then 1 else 2) data).

Lemma InfModify_record_run `{!FlashHW} data addr m :
  length data = 8%nat -> InfModify_record data addr m = Some (record (payload data addr)).
Proof.
  intros Hl. unfold InfModify_record. rewrite head_overwrite by by rewrite bytes_of_words_length.
  do 8 (destruct data as [|? data]; [discriminate|]). destruct data; [|discriminate].
  unfold payload. by destruct (addr =? FLASH_PROCHEAD_WM).
Qed.

Lemma record_length bs : length bs = 4%nat -> length (record bs) = 64%nat.
Proof. intros H. unfold record. rewrite !length_app, H. reflexivity. Qed.

Lemma record_u8 bs : Forall is_u8 bs -> Forall is_u8 (record bs).
Proof.
  intros H. apply Forall_app. split; [by apply (bool_decide_eq_true_1 _)|].
  apply Forall_app. split; [done|by apply (bool_decide_eq_true_1 _)].
Qed.

Lemma payload_length data addr : length data = 8%nat -> length (payload data addr) = 4%nat.
Proof. intros H. unfold payload. rewrite length_take, length_drop. destruct (_ =? _); lia. Qed.

Lemma payload_u8 data addr : Forall is_u8 data -> Forall is_u8 (payload data addr).
Proof. intros. by apply Forall_take, Forall_drop. Qed.

(** The places of the records. *)
Definition RECORDS : list Z :=
  [FLASH_PROCHEAD; FLASH_PROCHEAD_CAN; FLASH_PROCHEAD_CAN_r; FLASH_PROCHEAD_WM].

Lemma record_in_sector addr : addr ∈ RECORDS -> in_sector 11 addr 16.
Proof.
  unfold RECORDS. rewrite !elem_of_cons. intros H.
  destruct_or! H; try (subst; apply in_sector_intro; done). by apply not_elem_of_nil in H.
Qed.

Section roundtrip.
Context {hw : FlashHW} {laws : FlashLaws}.

(** The record [bs] is stored at [addr]. *)
Definition stored (m : mem) (addr : Z) (bs : list Z) : Prop :=
  forall i w, words_of_bytes 16 (record bs) !! i = Some w ->
    read_word m (addr + 4 * Z.of_nat i) = w.

Lemma InfModify_run data addr m :
  length data = 8%nat -> Forall is_u8 data -> addr ∈ RECORDS ->
  wp (InfModify data addr) (fun _ m' => stored m' addr (payload data addr) /\
    ((blank_at m addr 16 /\
      forall b, b mod 4 = 0 -> (b < addr \/ addr + 64 <= b) -> read_word m' b = read_word m b) \/
     (~ blank_at m addr 16 /\
      forall b, b mod 4 = 0 -> (b < addr \/ addr + 64 <= b) ->
        read_word m' b = if STMFLASH_GetFlashSector b =? 11 then BLANK else read_word m b))) m.
Proof using All.
  intros Hl H8 Ha. unfold InfModify. apply wp_bind, wp_gets. cbn [id].
  rewrite InfModify_record_run by done. cbn [from_array]. apply wp_bind, wp_ret.
  eapply wp_mono; [apply (STMFLASH_Write_run 11)|].
  - rewrite words_of_bytes_length. by apply record_in_sector.
  - apply words_of_bytes_u32; [by apply record_length, payload_length|].
    by apply record_u8, payload_u8.
  - rewrite words_of_bytes_length. intros [] m' [Hin Hout]. split; [exact Hin|exact Hout].
Qed.

(** Words read from a stored record. *)
Lemma stored_read m addr bs (off n : nat) :
  stored m addr bs -> (off + n <= 16)%nat -> 0 <= addr -> addr + 64 < 2 ^ 32 ->
  STMFLASH_Read (addr + 4 * Z.of_nat off) n m = take n (drop off (words_of_bytes 16 (record bs))).
Proof using.
  clear laws. intros Hs Hn Ha Hh. rewrite STMFLASH_Read_run by lia. apply list_eq. intros i.
  rewrite list_lookup_fmap. destruct (decide (i < n)%nat) as [Hi|Hi].
  - rewrite lookup_seqZ_lt by lia. rewrite lookup_take_lt, lookup_drop by lia. cbn [fmap option_fmap option_map].
    destruct (lookup_lt_is_Some_2 (words_of_bytes 16 (record bs)) (off + i)) as [w Hw];
      [rewrite words_of_bytes_length; lia|].
    rewrite Hw. f_equal. rewrite <- (Hs _ _ Hw). f_equal. lia.
  - rewrite lookup_seqZ_ge by lia. rewrite lookup_take_ge by lia. done.
Qed.

Lemma words_record b0 b1 b2 b3 :
  words_of_bytes 16 (record [b0; b1; b2; b3]) =
  replicate 12 0x55aa55aa ++ [le_value [b0; b1; b2; b3]; 0; 0; 0].
Proof using. reflexivity. Qed.

Lemma head_flag_head flag rest : head_flag flag (head48 ++ rest) = flag.
Proof using. reflexivity. Qed.

Lemma head_flag_blank flag rest : head_flag flag (replicate 48 0xff ++ rest) = 0.
Proof using. reflexivity. Qed.

(** ** The checks at power-up *)
Lemma IpModifiedCheck_run m st b0 b1 b2 b3 :
  stored m FLASH_PROCHEAD [b0; b1; b2; b3] -> Forall is_u8 [b0; b1; b2; b3] ->
  g_IpAllModified st = 1 ->
  IpModifiedCheck m st = Done tt (st <| g_IpAllModified := 1 |>
    <| g_IP_ADDR := [b0; b1; b2; b3] |> <| g_LocalUdpPort := 50099 |>
    <| g_NETMASK_ADDR := [255; 255; 255; 0] |> <| g_GW_ADDR := [b0; b1; b2; 1] |>).
Proof using.
  clear laws. intros Hs H8 Hflag. unfold IpModifiedCheck.
  pose proof (stored_read m FLASH_PROCHEAD _ 0 12 Hs ltac:(lia) ltac:(done) ltac:(done)) as R1.
  pose proof (stored_read m FLASH_PROCHEAD _ 12 2 Hs ltac:(lia) ltac:(done) ltac:(done)) as R2.
  change (FLASH_PROCHEAD + 4 * Z.of_nat 0) with FLASH_PROCHEAD in R1.
  change (FLASH_PROCHEAD + 4 * Z.of_nat 12) with FLASH_IP_PORT in R2.
  rewrite words_record in R1, R2. rewrite R1, R2.
  change (bytes_of_words (take 12 (drop 0 _))) with (head48 ++ []).
  rewrite bind_gets, head_flag_head, Hflag, bind_put, bind_gets. cbn [Z.eqb Pos.eqb].
  change (bytes_of_words (take 2 (drop 12 _))) with
    (le_bytes 4 (le_value [b0; b1; b2; b3]) ++ [0; 0; 0; 0]).
  pose proof (le_bytes_value _ H8) as E. cbn [length] in E. rewrite E. reflexivity.
Qed.

Lemma id_of_record b0 b1 b2 b3 :
  Forall is_u8 [b0; b1; b2; b3] -> id_of (record [b0; b1; b2; b3]) = le_value [b0; b1; b2; b3].
Proof using.
  clear laws. intros H8. unfold id_of.
  change (nth 48 (record _) 0) with b0. change (nth 49 (record _) 0) with b1.
  change (nth 50 (record _) 0) with b2. change (nth 51 (record _) 0) with b3.
  pose proof (Forall_lookup_1 _ _ 0 b0 H8 eq_refl) as B0.
  pose proof (Forall_lookup_1 _ _ 1 b1 H8 eq_refl) as B1.
  pose proof (Forall_lookup_1 _ _ 2 b2 H8 eq_refl) as B2.
  pose proof (Forall_lookup_1 _ _ 3 b3 H8 eq_refl) as B3.
  apply (bits_ext_width 32); [by apply (in_width_mod 32)|apply (le_value_width _ H8)|].
  intros k Hk. unfold u32. rewrite testbit_mod_pow2, bool_decide_eq_true_2 by lia. cbn [andb].
  rewrite le_value_testbit by (done || lia). rewrite !Z.lor_spec, !Z.shiftl_spec by lia.
  assert (forall b j, is_u8 b -> 8 <= j -> Z.testbit b j = false) as Hhi
    by (intros; by apply (in_width_testbit 8)).
  assert (k / 8 = 0 \/ k / 8 = 1 \/ k / 8 = 2 \/ k / 8 = 3) as Hq
    by (Z.to_euclidean_division_equations; lia).
  destruct_or! Hq; rewrite Hq; cbn [Z.to_nat Pos.to_nat nth];
    change (Pos.to_nat 1) with 1%nat; change (Pos.to_nat 2) with 2%nat; change (Pos.to_nat 3) with 3%nat; cbn [nth].
  - replace (k mod 8) with k by (Z.to_euclidean_division_equations; lia).
    rewrite !(Z.testbit_neg_r _ (k - _)) by (Z.to_euclidean_division_equations; lia). done.
  - replace (k mod 8) with (k - 8) by (Z.to_euclidean_division_equations; lia).
    rewrite (Z.testbit_neg_r _ (k - 24)), (Z.testbit_neg_r _ (k - 16)), (Hhi b0)
      by (done || Z.to_euclidean_division_equations; lia). by rewrite orb_false_r.
  - replace (k mod 8) with (k - 16) by (Z.to_euclidean_division_equations; lia).
    rewrite (Z.testbit_neg_r _ (k - 24)), (Hhi b0), (Hhi b1)
      by (done || Z.to_euclidean_division_equations; lia). by rewrite !orb_false_r.
  - replace (k mod 8) with (k - 24) by (Z.to_euclidean_division_equations; lia).
    rewrite (Hhi b0), (Hhi b1), (Hhi b2)
      by (done || Z.to_euclidean_division_equations; lia). by rewrite !orb_false_r.
Qed.

Lemma stored_bytes m addr b0 b1 b2 b3 :
  stored m addr [b0; b1; b2; b3] -> Forall is_u8 [b0; b1; b2; b3] ->
  0 <= addr -> addr + 64 < 2 ^ 32 ->
  bytes_of_words (STMFLASH_Read addr 16 m) = record [b0; b1; b2; b3].
Proof using.
  clear laws. intros Hs H8 Ha Hh.
  pose proof (stored_read m addr _ 0 16 Hs ltac:(lia) Ha Hh) as R. rewrite Z.add_0_r in R.
  rewrite R, drop_0, take_ge by by rewrite words_of_bytes_length.
  apply bytes_of_words_of_bytes; [by apply record_length|by apply record_u8].
Qed.

Lemma CanModifiedCheck_run m st a0 a1 a2 a3 b0 b1 b2 b3 :
  stored m FLASH_PROCHEAD_CAN [a0; a1; a2; a3] -> Forall is_u8 [a0; a1; a2; a3] ->
  stored m FLASH_PROCHEAD_CAN_r [b0; b1; b2; b3] -> Forall is_u8 [b0; b1; b2; b3] ->
  g_CanAllModified st = 1 ->
  CanModifiedCheck m st = Done tt (st <| g_CanAllModified := 1 |>
    <| g_RemoteCanId := le_value [a0; a1; a2; a3] |>
    <| g_LocalCanId_r := le_value [b0; b1; b2; b3] |>).
Proof using.
  clear laws. intros Ha Ha8 Hb Hb8 Hflag. unfold CanModifiedCheck.
  rewrite (stored_bytes _ _ _ _ _ _ Ha Ha8), (stored_bytes _ _ _ _ _ _ Hb Hb8) by done.
  rewrite !id_of_record by done. unfold record.
  rewrite bind_gets, head_flag_head, Hflag, bind_put, bind_gets.
  reflexivity.
Qed.

(** A write to a blank record leaves a stored one alone. *)
Lemma stored_other m m' a addr bs :
  length bs = 4%nat -> a mod 4 = 0 ->
  (forall b, b mod 4 = 0 -> (b < addr \/ addr + 64 <= b) -> read_word m' b = read_word m b) ->
  a + 64 <= addr \/ addr + 64 <= a -> stored m a bs -> stored m' a bs.
Proof using.
  clear laws. intros Hl Ha Hout Hd Hs i w Hw. pose proof (lookup_lt_Some _ _ _ Hw) as Hi.
  rewrite words_of_bytes_length in Hi. rewrite Hout; [by apply Hs| |lia].
  replace (a + 4 * Z.of_nat i) with (a + Z.of_nat i * 4) by lia. by rewrite Z.mod_add.
Qed.

Lemma blank_other m m' a addr :
  a mod 4 = 0 ->
  (forall b, b mod 4 = 0 -> (b < addr \/ addr + 64 <= b) -> read_word m' b = read_word m b) ->
  a + 64 <= addr \/ addr + 64 <= a -> blank_at m a 16 -> blank_at m' a 16.
Proof using.
  clear laws. intros Ha Hout Hd Hb i Hi. rewrite Hout; [by apply Hb| |lia].
  replace (a + 4 * i) with (a + i * 4) by lia. by rewrite Z.mod_add.
Qed.

(** C28: on a flash whose records are blank, the address and the two CAN
    identifiers that the host sets survive to the next power-up: [IpModifiedCheck]
    and [CanModifiedCheck] read back exactly the bytes of the three messages,
    with the fixed port, mask and gateway. *)
Theorem settings_survive (d0 d1 d2 : list Z) (m : mem) :
  length d0 = 8%nat -> length d1 = 8%nat -> length d2 = 8%nat ->
  Forall is_u8 (d0 ++ d1 ++ d2) -> (forall a, a ∈ RECORDS -> blank_at m a 16) ->
  wp (InfModify d0 FLASH_PROCHEAD ;; InfModify d1 FLASH_PROCHEAD_CAN ;;
      InfModify d2 FLASH_PROCHEAD_CAN_r) (fun _ m' =>
    IpModifiedCheck m' settings_boot =
      Done tt (settings_boot <| g_IP_ADDR := take 4 (drop 2 d0) |>
        <| g_GW_ADDR := take 3 (drop 2 d0) ++ [1] |>) /\
    CanModifiedCheck m' settings_boot =
      Done tt (settings_boot <| g_RemoteCanId := le_value (take 4 (drop 2 d1)) |>
        <| g_LocalCanId_r := le_value (take 4 (drop 2 d2)) |>)) m.
Proof using All.
  intros L0 L1 L2 H8 Hblank. rewrite !Forall_app in H8. destruct H8 as (B0 & B1 & B2).
  assert (Forall (fun a => a ∈ RECORDS) RECORDS) as HR by (by apply (bool_decide_eq_true_1 _)).
  assert (FLASH_PROCHEAD ∈ RECORDS /\ FLASH_PROCHEAD_CAN ∈ RECORDS /\ FLASH_PROCHEAD_CAN_r ∈ RECORDS)
    as (R0 & R1 & R2) by by apply (bool_decide_eq_true_1 _).
  apply wp_bind. eapply wp_mono; [by apply InfModify_run|].
  intros [] m0 [S0 [[_ O0]|[N0 _]]]; [|by destruct N0; auto].
  apply wp_bind. eapply wp_mono; [by apply InfModify_run|].
  intros [] m1 [S1 [[_ O1]|[N1 _]]].
  2: { destruct N1. eapply blank_other; [done|exact O0|by right|auto]. }
  eapply wp_mono; [by apply InfModify_run|].
  intros [] m2 [S2 [[_ O2]|[N2 _]]].
  2: { destruct N2. eapply blank_other; [done|exact O1|by right|].
       eapply blank_other; [done|exact O0|by right|auto]. }
  assert (stored m2 FLASH_PROCHEAD (payload d0 FLASH_PROCHEAD)) as S0'.
  { eapply stored_other; [by apply payload_length|done|exact O2|by left|].
    eapply stored_other; [by apply payload_length|done|exact O1|by left|done]. }
  assert (stored m2 FLASH_PROCHEAD_CAN (payload d1 FLASH_PROCHEAD_CAN)) as S1'.
  { eapply stored_other; [by apply payload_length|done|exact O2|by left|done]. }
  pose proof (payload_u8 d0 FLASH_PROCHEAD B0) as P0.
  pose proof (payload_u8 d1 FLASH_PROCHEAD_CAN B1) as P1.
  pose proof (payload_u8 d2 FLASH_PROCHEAD_CAN_r B2) as P2.
  do 8 (destruct d0 as [|? d0]; [discriminate|]). destruct d0; [|discriminate].
  do 8 (destruct d1 as [|? d1]; [discriminate|]). destruct d1; [|discriminate].
  do 8 (destruct d2 as [|? d2]; [discriminate|]). destruct d2; [|discriminate].
  split.
  - by rewrite (IpModifiedCheck_run _ _ _ _ _ _ S0').
  - by rewrite (CanModifiedCheck_run _ _ _ _ _ _ _ _ _ _ S1' P1 S2 P2).
Qed.

(** A setting written a second time costs the others: when the record of a
    message is not blank, the sector is erased first and every other record of
    the sector comes back blank, so that after the next power-up the address is
    again the default one. *)
Theorem rewriting_loses_the_others (d : list Z) (addr : Z) (m : mem) :
  length d = 8%nat -> Forall is_u8 d -> addr ∈ RECORDS -> ~ blank_at m addr 16 ->
  wp (InfModify d addr) (fun _ m' =>
    (forall a, a ∈ RECORDS -> a <> addr -> blank_at m' a 16) /\
    (addr <> FLASH_PROCHEAD ->
      wp (IpModifiedCheck m') (fun _ st => g_IP_ADDR st = [192; 168; 1; 100]) settings_boot)) m.
Proof using All.
  intros Hl H8 Haddr Hnb. eapply wp_mono; [by apply InfModify_run|].
  intros [] m' [_ [[Hb _]|[_ Hout]]]; [done|].
  assert (forall a, a ∈ RECORDS -> a <> addr -> blank_at m' a 16) as Hblank.
  { intros a Ha Hne i Hi. pose proof (is_sector _ _ _ (record_in_sector a Ha) i Hi) as Hsec.
    pose proof (is_aligned _ _ _ (record_in_sector a Ha)) as H4.
    rewrite Hout, Hsec; [done| |].
    - replace (a + 4 * i) with (a + i * 4) by lia. by rewrite Z.mod_add.
    - clear -Ha Haddr Hne Hi. unfold RECORDS in *. rewrite !elem_of_cons in Ha, Haddr.
      pose proof (not_elem_of_nil a). pose proof (not_elem_of_nil addr).
      unfold FLASH_PROCHEAD_CAN, FLASH_PROCHEAD_CAN_r, FLASH_PROCHEAD_WM, FLASH_PROCHEAD in *.
      destruct_or! Ha; destruct_or! Haddr; subst; try done; lia. }
  split; [done|]. intros Hne.
  assert (STMFLASH_Read FLASH_PROCHEAD 12 m' = replicate 12 BLANK) as R.
  { rewrite STMFLASH_Read_run by done. change (replicate 12 BLANK) with
      ((fun _ => BLANK) <$> seqZ 0 (Z.of_nat 12)).
    apply list_fmap_ext. intros i x Hx. apply lookup_seqZ in Hx. apply Hblank; [|done|lia].
    by apply (bool_decide_eq_true_1 _). }
  unfold IpModifiedCheck. rewrite R. by vm_compute.
Qed.
End roundtrip.

(** ** An instance: a flash as a function from addresses to words *)
Definition word_flash : FlashHW := {|
  mem := Z -> Z;
  read_word m a := u32 (m a);
  flash_unlock m := m;
  flash_lock m := m;
  erase_sector m s := (fun a => if STMFLASH_GetFlashSector a =? s then BLANK else m a, true);
  program_word m a w := (fun b => if b =? a then w else m b, true);
  wait_ok _ := true;
|}.

Lemma word_flash_laws : FlashLaws (hw := word_flash).
Proof.
  constructor; try done.
  - intros. by apply (in_width_mod 32).
  - intros m s. eexists. split; [reflexivity|]. intros a. unfold read_word, word_flash.
    by destruct (STMFLASH_GetFlashSector a =? s).
  - intros m a w _ Hw. eexists. split; [reflexivity|]. intros b _.
    unfold read_word, word_flash. destruct (b =? a); [|done]. by apply in_width_small.
Qed.

Definition fresh_flash : @mem word_flash := fun _ => BLANK.

Lemma settings_survive_witness :
  wp (InfModify (hw := word_flash) [0x15; 0; 10; 0; 0; 7; 0; 0] FLASH_PROCHEAD ;;
      InfModify (hw := word_flash) [0x19; 0; 1; 2; 3; 4; 0; 0] FLASH_PROCHEAD_CAN ;;
      InfModify (hw := word_flash) [0x17; 0; 5; 6; 7; 8; 0; 0] FLASH_PROCHEAD_CAN_r) (fun _ m' =>
    IpModifiedCheck (hw := word_flash) m' settings_boot =
      Done tt (settings_boot <| g_IP_ADDR := [10; 0; 0; 7] |> <| g_GW_ADDR := [10; 0; 0; 1] |>) /\
    CanModifiedCheck (hw := word_flash) m' settings_boot =
      Done tt (settings_boot <| g_RemoteCanId := 0x04030201 |> <| g_LocalCanId_r := 0x08070605 |>))
    fresh_flash.
Proof.
  apply (settings_survive (hw := word_flash) (laws := word_flash_laws)
    [0x15; 0; 10; 0; 0; 7; 0; 0] [0x19; 0; 1; 2; 3; 4; 0; 0] [0x17; 0; 5; 6; 7; 8; 0; 0]).
  - reflexivity.
  - reflexivity.
  - reflexivity.
  - by apply (bool_decide_eq_true_1 _).
  - intros a _ i _. reflexivity.
Defined.

(** The address set again over an old record. *)
Definition used_flash : @mem word_flash := fun a => if a =? FLASH_PROCHEAD_CAN then 0 else BLANK.

Lemma rewriting_loses_the_others_witness :
  wp (InfModify (hw := word_flash) [0x19; 0; 1; 2; 3; 4; 0; 0] FLASH_PROCHEAD_CAN) (fun _ m' =>
    (forall a, a ∈ RECORDS -> a <> FLASH_PROCHEAD_CAN -> blank_at (hw := word_flash) m' a 16) /\
    (FLASH_PROCHEAD_CAN <> FLASH_PROCHEAD ->
      wp (IpModifiedCheck (hw := word_flash) m') (fun _ st => g_IP_ADDR st = [192; 168; 1; 100])
        settings_boot)) used_flash.
Proof.
  apply (rewriting_loses_the_others (hw := word_flash) (laws := word_flash_laws)).
  - reflexivity.
  - by apply (bool_decide_eq_true_1 _).
  - by apply (bool_decide_eq_true_1 _).
  - intros H. specialize (H 0 ltac:(lia)). by vm_compute in H.
Defined.
