(* ===== verification/Can.v ===== *)
(** * The CAN port: src/HARDWARE/CAN/can.c

    The interrupt puts the messages for this unit into a ring of 25 slots of eight
    bytes; the task of main.c takes them out ([HostCanDataAnalysis] in
    Dispatch.v).  The cursors are defined as [uint16_t] in FiuHostDataAnalysis.c
    (line 15) and declared as [uint32_t] in can.c (lines 22 and 23): the interrupt
    modelled here is the compiled one, which reads four bytes at each address.
    OBJ/FiuNv1.0.map puts [g_DealDataCur] at 0x20000068, [g_IntrDataCur] right
    after it at 0x2000006a and nothing in the four bytes up to 0x20000070, so
    [g_DealDataCur] comes out with the other cursor as its high half
    ([deal_seen]), and [g_IntrDataCur] comes out, and is written, as it is. *)
From Stdlib Require Import ZArith Lia.
From stdpp Require Import base tactics decidable list list_numbers numbers.
From S2P Require Import Prelude Board.
Open Scope Z_scope.
Open Scope c_scope.

Definition CANBUFDATALEN : Z := 200.

Record ring := Ring {
  g_HOSTCANDATABUF : list Z;
  g_DealDataCur : Z;
  g_IntrDataCur : Z;
}.

#[export] Instance ring_eta : Eta ring := fun r =>
  Ring (g_HOSTCANDATABUF r) (g_DealDataCur r) (g_IntrDataCur r).
#[export] Instance upd_g_HOSTCANDATABUF : Upd g_HOSTCANDATABUF := ltac:(derive_upd).
#[export] Instance upd_g_DealDataCur : Upd g_DealDataCur := ltac:(derive_upd).
#[export] Instance upd_g_IntrDataCur : Upd g_IntrDataCur := ltac:(derive_upd).

#[export] Instance g_DealDataCur_laws : UpdLaws g_DealDataCur. Proof. upd_laws. Qed.

Definition ring_boot : ring := Ring (replicate 200 0) 0 0.

(** What can.c reads as [g_DealDataCur]. *)
Definition deal_seen (r : ring) : Z := g_DealDataCur r + 2 ^ 16 * g_IntrDataCur r.

(** [memcpy] into and out of the ring. *)
Definition ring_write (data : list Z) : M ring unit :=
  r ← gets id;
  if bool_decide (0 <= g_IntrDataCur r /\
    g_IntrDataCur r + Z.of_nat (length data) <= Z.of_nat (length (g_HOSTCANDATABUF r)))
  then g_HOSTCANDATABUF ::= blit (g_HOSTCANDATABUF r) (Z.to_nat (g_IntrDataCur r)) data
  else undefined OutOfBounds.

Definition ring_read : M ring (list Z) :=
  r ← gets id;
  if bool_decide (0 <= g_DealDataCur r /\ g_DealDataCur r + 8 <= Z.of_nat (length (g_HOSTCANDATABUF r)))
  then mret (take 8 (drop (Z.to_nat (g_DealDataCur r)) (g_HOSTCANDATABUF r)))
  else undefined OutOfBounds.

(** The interrupt, on a message with identifier [ExtId]. *)
Definition HAL_CAN_RxCpltCallback (g_LocalCanId_r ExtId : Z) (Data : list Z) : M ring unit :=
  if ExtId =? g_LocalCanId_r then
    r ← gets id;
    if negb ((g_IntrDataCur r + 8) mod CANBUFDATALEN =? deal_seen r) then
      ring_write Data ;;
      cur ← gets g_IntrDataCur;
      g_IntrDataCur ::= (cur + 8) mod CANBUFDATALEN
    else skip
  else skip.

(** [g_DealDataCur += 8; g_DealDataCur %= CANBUFDATALEN;] *)
Definition ring_advance : M ring unit :=
  cur ← gets g_DealDataCur;
  g_DealDataCur ::= u16 (u16 (cur + 8) mod CANBUFDATALEN).

(** [CAN1_Send_Msg]: the message is given to the controller; the callers ignore
    the result. *)
Definition CAN1_Send_Msg {S} `{!HasTrace S} (g_RemoteCanId : Z) (msg : list Z) (len : nat)
  : M S unit :=
  if (len <=? length msg)%nat then emit (EvCanTx g_RemoteCanId (take len msg))
  else undefined OutOfBounds.

(** [CAN1_Mode_Init]: the settings given to the HAL, and the result, for the HAL's
    answers [init_ok] and [filter_ok]. *)
Record can_filter := CanFilter {
  cf_IdHigh : Z; cf_IdLow : Z; cf_MaskIdHigh : Z; cf_MaskIdLow : Z;
  cf_FIFO : Z; cf_Number : Z; cf_Activation : bool; cf_BankNumber : Z;
}.

Record can_init := CanInit {
  ci_Prescaler : Z; ci_Mode : Z; ci_SJW : Z; ci_BS1 : Z; ci_BS2 : Z;
  ci_TTCM : bool; ci_ABOM : bool; ci_AWUM : bool; ci_NART : bool; ci_RFLM : bool; ci_TXFP : bool;
  ci_Filter : option can_filter;   (** set only when the first call succeeds *)
}.

Definition CAN1_Mode_Init (tsjw tbs2 tbs1 brp mode : Z) (init_ok filter_ok : bool)
  : can_init * Z :=
  let init := CanInit brp mode tsjw tbs1 tbs2 false false false true false false in
  if negb init_ok then (init None, 1)
  else
    let init := init (Some (CanFilter 0 0 0 0 0 0 true 14)) in
    if negb filter_ok then (init, 2) else (init, 0).

(** The bit rate the comment before the function gives, for a peripheral clock. *)
Definition can_bit_rate (Fpclk1 : Z) (c : can_init) : Z :=
  Fpclk1 / ((ci_BS2 c + ci_BS1 c + 1) * ci_Prescaler c).

(** * The ring as a queue *)

(** The slots between two cursors, oldest first, [n] of them. *)
Fixpoint slots (buf : list Z) (cur : Z) (n : nat) : list (list Z) :=
  match n with
  | O => []
  | S n => take 8 (drop (Z.to_nat cur) buf) :: slots buf ((cur + 8) mod CANBUFDATALEN) n
  end.

Definition pending (r : ring) : nat :=
  Z.to_nat (((g_IntrDataCur r - g_DealDataCur r) mod CANBUFDATALEN) / 8).

(** The messages waiting in the ring, oldest first. *)
Definition queue (r : ring) : list (list Z) := slots (g_HOSTCANDATABUF r) (g_DealDataCur r) (pending r).

Record ring_ok (r : ring) : Prop := {
  rok_len : length (g_HOSTCANDATABUF r) = 200%nat;
  rok_deal : 0 <= g_DealDataCur r < 200 /\ g_DealDataCur r mod 8 = 0;
  rok_intr : 0 <= g_IntrDataCur r < 200 /\ g_IntrDataCur r mod 8 = 0;
}.

Lemma cursor_next c : 0 <= c < 200 /\ c mod 8 = 0 ->
  0 <= (c + 8) mod 200 < 200 /\ ((c + 8) mod 200) mod 8 = 0.
Proof.
  intros [H1 H2]. destruct (decide (c + 8 < 200)).
  - rewrite (Z.mod_small (c + 8)) by lia. split; [lia|].
    replace (c + 8) with (c + 1 * 8) by lia. by rewrite Z.mod_add.
  - assert (c = 192) as -> by (Z.to_euclidean_division_equations; lia). done.
Qed.

Lemma slots_length buf c n : length (slots buf c n) = n.
Proof. revert c. induction n; intros; cbn; auto. Qed.

Lemma queue_length r : length (queue r) = pending r.
Proof. apply slots_length. Qed.

(** Writing a slot outside the pending ones leaves them alone. *)
Lemma slots_write buf c n i data :
  length buf = 200%nat -> length data = 8%nat ->
  0 <= c < 200 /\ c mod 8 = 0 -> 0 <= i < 200 /\ i mod 8 = 0 -> (n < 25)%nat ->
  i = (c + 8 * Z.of_nat n) mod 200 ->
  slots (blit buf (Z.to_nat i) data) c (S n) = slots buf c n ++ [data].
Proof.
  intros Hb Hd. revert c. induction n as [|n IH]; intros c Hc Hi Hn Ei;
    assert (i <= 192 /\ c <= 192) as [Hi192 Hc192] by (Z.to_euclidean_division_equations; lia).
  - cbn [slots]. rewrite Z.mul_0_r, Z.add_0_r, Z.mod_small in Ei by lia. subst i. cbn [app]. f_equal.
    unfold blit. rewrite drop_app_length' by (rewrite length_take; lia).
    by rewrite take_app_length' by lia.
  - cbn [slots app]. change CANBUFDATALEN with 200. f_equal.
    + apply list_eq. intros k. destruct (decide (k < 8)%nat) as [Hk|Hk].
      * rewrite !lookup_take_lt, !lookup_drop by lia. rewrite blit_lookup by lia.
        rewrite bool_decide_eq_false_2; [done|].
        assert (i - c <> 0 /\ (i - c) mod 8 = 0) as [Hne Hm] by
          (clear Hb Hd IH Hk; Z.to_euclidean_division_equations; lia).
        Z.to_euclidean_division_equations. lia.
      * by rewrite !lookup_take_ge by lia.
    + change (slots (blit buf (Z.to_nat i) data) ((c + 8) mod CANBUFDATALEN) (S n) =
        slots buf ((c + 8) mod 200) n ++ [data]).
      change CANBUFDATALEN with 200.
      apply IH; [by apply cursor_next|done|lia|].
      rewrite Ei. Z.to_euclidean_division_equations. lia.
Qed.

Lemma pending_spec r :
  ring_ok r -> (pending r <= 24)%nat /\
  (g_IntrDataCur r = (g_DealDataCur r + 8 * Z.of_nat (pending r)) mod 200) /\
  (g_IntrDataCur r = g_DealDataCur r <-> pending r = 0%nat) /\
  ((g_IntrDataCur r + 8) mod 200 = g_DealDataCur r <-> pending r = 24%nat).
Proof.
  intros [_ [Hd Hd8] [Hi Hi8]]. unfold pending. change CANBUFDATALEN with 200.
  set (i := g_IntrDataCur r) in *. set (d := g_DealDataCur r) in *.
  assert (exists a, d = 8 * a /\ 0 <= a < 25) as (a & -> & Ha)
    by (exists (d / 8); Z.to_euclidean_division_equations; lia).
  assert (exists b, i = 8 * b /\ 0 <= b < 25) as (b & -> & Hb)
    by (exists (i / 8); Z.to_euclidean_division_equations; lia).
  replace ((8 * b - 8 * a) mod 200) with (8 * ((b - a) mod 25))
    by (Z.to_euclidean_division_equations; lia).
  rewrite (Z.mul_comm 8 ((b - a) mod 25)), Z.div_mul by lia.
  pose proof (Z.mod_pos_bound (b - a) 25 ltac:(lia)) as Hm.
  rewrite Z2Nat.id by lia. clear Hd Hi Hd8 Hi8.
  split_and!; [lia| | |]; Z.to_euclidean_division_equations; lia.
Qed.

(** Taking one message in. *)
Lemma push_run r data :
  ring_ok r -> length data = 8%nat ->
  exists r', (ring_write data ;; cur ← gets g_IntrDataCur; g_IntrDataCur ::= (cur + 8) mod CANBUFDATALEN) r
    = Done tt r' /\ ring_ok r' /\ g_DealDataCur r' = g_DealDataCur r /\
    g_IntrDataCur r' = (g_IntrDataCur r + 8) mod 200 /\
    g_HOSTCANDATABUF r' = blit (g_HOSTCANDATABUF r) (Z.to_nat (g_IntrDataCur r)) data.
Proof.
  intros [Hlen Hd [Hi Hi8]] Hl.
  assert (g_IntrDataCur r <= 192) by (Z.to_euclidean_division_equations; lia).
  eexists. split.
  - unfold ring_write. rewrite bind_bind, bind_gets. cbn [id].
    rewrite bool_decide_eq_true_2 by lia. rewrite bind_put, bind_gets. reflexivity.
  - split_and!; try done. constructor; cbn.
    + rewrite blit_length; lia.
    + done.
    + change CANBUFDATALEN with 200. by apply cursor_next.
Qed.

Lemma ring_pop r d q :
  ring_ok r -> queue r = d :: q ->
  exists r', ring_read r = Done d r /\ ring_advance r = Done tt r' /\ ring_ok r' /\ queue r' = q /\
    g_IntrDataCur r' = g_IntrDataCur r.
Proof.
  intros Hok Hq. pose proof (pending_spec r Hok) as (Hp & Hi & _ & _).
  destruct Hok as [Hlen [Hd Hd8] Hintr].
  assert (g_DealDataCur r <= 192) by (Z.to_euclidean_division_equations; lia).
  unfold queue in Hq. destruct (pending r) as [|n] eqn:En; [discriminate|]. cbn [slots] in Hq.
  injection Hq as Hq1 Hq2. eexists. split_and!.
  - unfold ring_read. rewrite bind_gets. cbn [id]. rewrite bool_decide_eq_true_2 by lia. by rewrite Hq1.
  - unfold ring_advance. rewrite bind_gets. reflexivity.
  - assert (u16 (u16 (g_DealDataCur r + 8) mod CANBUFDATALEN) = (g_DealDataCur r + 8) mod 200) as E.
    { change CANBUFDATALEN with 200. unfold u16. rewrite (Z.mod_small (g_DealDataCur r + 8)) by lia.
      apply Z.mod_small. pose proof (Z.mod_pos_bound (g_DealDataCur r + 8) 200). lia. }
    constructor; [done| |done]. cbn. rewrite E. by apply cursor_next.
  - assert (u16 (u16 (g_DealDataCur r + 8) mod CANBUFDATALEN) = (g_DealDataCur r + 8) mod 200) as E.
    { change CANBUFDATALEN with 200. unfold u16. rewrite (Z.mod_small (g_DealDataCur r + 8)) by lia.
      apply Z.mod_small. pose proof (Z.mod_pos_bound (g_DealDataCur r + 8) 200). lia. }
    rewrite E. rewrite <- Hq2. unfold queue. cbn. change CANBUFDATALEN with 200. f_equal.
    unfold pending in *. cbn. change CANBUFDATALEN with 200 in *.
    assert (((g_IntrDataCur r - (g_DealDataCur r + 8) mod 200) mod 200) =
      (g_IntrDataCur r - g_DealDataCur r) mod 200 - 8) as ->.
    { clear Hq1 Hq2. destruct Hintr. clear E.
      assert (8 * Z.of_nat (S n) <= (g_IntrDataCur r - g_DealDataCur r) mod 200)
        by (Z.to_euclidean_division_equations; lia).
      Z.to_euclidean_division_equations; lia. }
    replace ((g_IntrDataCur r - g_DealDataCur r) mod 200 - 8) with
      ((g_IntrDataCur r - g_DealDataCur r) mod 200 + (-1) * 8) by lia.
    rewrite Z.div_add by lia. lia.
  - done.
Qed.

(** The test of the interrupt for a full ring: it compares with both cursors at once,
    so it comes out right at one place of the ring only.  [x] is the cursor of the
    task as memory holds it, 200 between the statements that advance it. *)
Lemma full_test r x :
  ring_ok r -> g_DealDataCur r = x mod 200 -> 0 <= x <= 200 ->
  ((g_IntrDataCur r + 8) mod 200 =? deal_seen (r <| g_DealDataCur := x |>)) =
  (pending r =? 24)%nat && (g_IntrDataCur r =? 0).
Proof.
  intros Hok Hx Hx0. pose proof (pending_spec r Hok) as (_ & _ & _ & Hfull).
  pose proof (rok_intr _ Hok) as [Hi _].
  pose proof (Z.mod_pos_bound (g_IntrDataCur r + 8) 200 ltac:(lia)) as Hb.
  unfold deal_seen. rewrite upd_get. change (g_IntrDataCur (r <| g_DealDataCur := x |>)) with (g_IntrDataCur r).
  change (2 ^ 16) with 65536. apply eq_true_iff_eq.
  rewrite andb_true_iff, !Z.eqb_eq, Nat.eqb_eq, <- Hfull, Hx.
  destruct (decide (g_IntrDataCur r = 0)) as [->|H0]; [|lia].
  change ((0 + 8) mod 200) with 8. split; [intros E|intros [E _]];
    (destruct (decide (x = 200)) as [->|]; [exfalso; Z.to_euclidean_division_equations; lia|]).
  - split; [|done]. rewrite Z.mod_small by lia. lia.
  - rewrite Z.mod_small in E by lia. lia.
Qed.

(** A message stored: the cursor of the interrupt moves by a slot. *)
Lemma push_queue r r' data :
  ring_ok r -> ring_ok r' -> length data = 8%nat -> g_DealDataCur r' = g_DealDataCur r ->
  g_IntrDataCur r' = (g_IntrDataCur r + 8) mod 200 ->
  g_HOSTCANDATABUF r' = blit (g_HOSTCANDATABUF r) (Z.to_nat (g_IntrDataCur r)) data ->
  queue r' = if (pending r <? 24)%nat then queue r ++ [data] else [].
Proof.
  intros Hok Hok' Hl Hd' Hi' Hbuf. pose proof (pending_spec r Hok) as (Hp & Hi & _ & Hfull).
  pose proof (pending_spec r' Hok') as (Hp' & Hi2 & Hempty & _). rewrite Hd' in Hi2.
  destruct Hok as [Hlen [Hd Hd8] [Hi0 Hi8]]. destruct (Nat.ltb_spec (pending r) 24) as [Hlt|Hge].
  - assert (pending r' = S (pending r)) as Ep.
    { assert (pending r' <> 0)%nat.
      { intros H0. rewrite H0 in Hi2. rewrite Hi', Hi in Hi2. clear -Hi2 Hlt Hd Hd8.
        Z.to_euclidean_division_equations. lia. }
      rewrite Hi', Hi in Hi2. clear -Hi2 Hp Hp' Hlt Hd Hd8 H.
      Z.to_euclidean_division_equations. lia. }
    unfold queue. rewrite Ep, Hd', Hbuf. apply slots_write; [done|done|done|done|lia|done].
  - assert (pending r = 24%nat) as Ep by lia. apply Hfull in Ep.
    unfold queue. by rewrite (proj1 Hempty) by congruence.
Qed.

(** The interrupt, with the cursor of the task [x] as memory holds it. *)
Lemma interrupt_run (local ext : Z) (data : list Z) (r : ring) (x : Z) :
  ring_ok r -> length data = 8%nat -> g_DealDataCur r = x mod 200 -> 0 <= x <= 200 ->
  exists r', HAL_CAN_RxCpltCallback local ext data (r <| g_DealDataCur := x |>) =
      Done tt (r' <| g_DealDataCur := x |>) /\
    ring_ok r' /\ g_DealDataCur r' = g_DealDataCur r /\
    (if (ext =? local) && negb ((pending r =? 24)%nat && (g_IntrDataCur r =? 0))
     then g_IntrDataCur r' = (g_IntrDataCur r + 8) mod 200 /\
       queue r' = (if (pending r <? 24)%nat then queue r ++ [data] else [])
     else r' = r).
Proof.
  intros Hok Hl Hx Hx0. pose proof (full_test r x Hok Hx Hx0) as Hfull.
  unfold HAL_CAN_RxCpltCallback. destruct (ext =? local); cbn [andb]; [|by exists r].
  rewrite bind_gets. cbn [id]. change CANBUFDATALEN with 200.
  change (g_IntrDataCur (r <| g_DealDataCur := x |>)) with (g_IntrDataCur r). rewrite Hfull.
  destruct (_ && _) eqn:E; cbn [negb]; [by exists r|].
  destruct (push_run r data Hok Hl) as (r' & Hrun & Hok' & Hd' & Hi' & Hbuf).
  exists r'. split_and!; [|done|done|done|by apply push_queue].
  unfold ring_write in *. rewrite bind_bind, bind_gets in Hrun |- *. cbn [id] in *.
  change (g_IntrDataCur (r <| g_DealDataCur := x |>)) with (g_IntrDataCur r).
  change (g_HOSTCANDATABUF (r <| g_DealDataCur := x |>)) with (g_HOSTCANDATABUF r).
  destruct (bool_decide _); [|discriminate Hrun]. injection Hrun as <-. done.
Qed.

(** C24: what the compiled interrupt does to the queue of waiting messages, in every
    state of the ring.  A message for another unit changes nothing; with fewer than
    24 waiting a message is appended.  With 24 waiting it is dropped only when the
    cursor of the interrupt is at slot 0; anywhere else the test, which compares
    with both cursors at once, does not see that the ring is full: the message is
    stored over the last free slot, the cursors meet, and the ring counts as empty. *)
Theorem interrupt_enqueues (local ext : Z) (data : list Z) (r : ring) :
  ring_ok r -> length data = 8%nat ->
  wp (HAL_CAN_RxCpltCallback local ext data) (fun _ r' => ring_ok r' /\
    g_DealDataCur r' = g_DealDataCur r /\
    queue r' =
      if negb (ext =? local) then queue r
      else if (length (queue r) <? 24)%nat then queue r ++ [data]
      else if g_IntrDataCur r =? 0 then queue r else []) r.
Proof.
  intros Hok Hl. pose proof (pending_spec r Hok) as (Hp & _). pose proof (rok_deal r Hok) as [Hd _].
  destruct (interrupt_run local ext data r (g_DealDataCur r) Hok Hl) as (r' & E & Hok' & Hdeal & Hq);
    [by rewrite Z.mod_small by lia|lia|].
  rewrite upd_same in E. unfold wp. rewrite E, <- Hdeal, upd_same. split; [done|split; [done|]].
  rewrite queue_length. destruct (ext =? local); cbn [andb negb] in *; [|by rewrite Hq].
  destruct (Nat.eqb_spec (pending r) 24) as [Ep|Ep]; cbn [andb negb] in Hq.
  - rewrite Ep in *. cbn [Nat.ltb Nat.leb] in *. destruct (g_IntrDataCur r =? 0); cbn [negb] in Hq; [by rewrite Hq|].
    apply Hq.
  - destruct Hq as [_ ->]. by rewrite (proj2 (Nat.ltb_lt _ _)) by lia.
Qed.

(** With a peripheral clock of 45 MHz the arguments of [main] give 1 Mbit/s, and
    those of the comment in can.c 500 kbit/s. *)
Theorem can_bit_rates (init_ok filter_ok : bool) :
  can_bit_rate 45000000 (CAN1_Mode_Init 1 6 8 3 0 init_ok filter_ok).1 = 1000000 /\
  can_bit_rate 45000000 (CAN1_Mode_Init 1 6 8 6 1 init_ok filter_ok).1 = 500000 /\
  ((CAN1_Mode_Init 1 6 8 3 0 init_ok filter_ok).2 = 0 <-> init_ok = true /\ filter_ok = true).
Proof. destruct init_ok, filter_ok; (split; [reflexivity|]); (split; [reflexivity|]); naive_solver. Qed.

Lemma ring_boot_ok : ring_ok ring_boot.
Proof. by constructor. Qed.

(** One message into the empty ring, and one into a full ring that is taken for one
    with room. *)
Lemma interrupt_enqueues_witness :
  wp (HAL_CAN_RxCpltCallback 5 5 [1; 2; 3; 4; 5; 6; 7; 8])
    (fun _ r' => ring_ok r' /\ g_DealDataCur r' = 0 /\ queue r' = [[1; 2; 3; 4; 5; 6; 7; 8]]) ring_boot /\
  wp (HAL_CAN_RxCpltCallback 5 5 [1; 2; 3; 4; 5; 6; 7; 8])
    (fun _ r' => ring_ok r' /\ g_DealDataCur r' = 16 /\ queue r' = []) (Ring (replicate 200 9) 16 8).
Proof.
  split.
  - apply (interrupt_enqueues 5 5 [1; 2; 3; 4; 5; 6; 7; 8] ring_boot); [apply ring_boot_ok|reflexivity].
  - apply (interrupt_enqueues 5 5 [1; 2; 3; 4; 5; 6; 7; 8] (Ring (replicate 200 9) 16 8)).
    + constructor; [done|split; [cbn; lia|done]|split; [cbn; lia|done]].
    + reflexivity.
Defined.
