(* ===== verification/Timers.v ===== *)
(** * Timers: src/HARDWARE/TIMER/timer.c

    TIM2 ends a fault after a time, TIM10 drives CTRLBUS6 (PF6) as a PWM for loose
    contacts.  The timers themselves are effects: [EvTim2Start] and [EvPwmStart]
    carry the values written to the prescaler, the period and the compare
    register. *)
From Stdlib Require Import ZArith Lia.
From stdpp Require Import base tactics decidable list list_numbers numbers.
From S2P Require Import Prelude Board.
Open Scope Z_scope.
Open Scope c_scope.

Section timers.
Context {S : Type} `{!HasTrace S}.

(** [arr] is 32 bits wide, [psc] 16. *)
Definition TIM2_Init (arr psc : Z) : M S unit :=
  emit (EvTim2Start (u32 (psc - 1)) (u32 (arr - 1))).

(** Called by [HAL_TIM_PWM_Init]: PF6 becomes the timer's output. *)
Definition HAL_TIM_PWM_MspInit : M S unit :=
  gpio_init GPIOF [6] AF_PP ;;
  pin_reset (Pin GPIOF 6).

Definition TIM10_PWM_Init (arr psc ccr : Z) : M S unit :=
  HAL_TIM_PWM_MspInit ;;
  emit (EvPwmStart psc (u32 (arr - 1)) (u32 (ccr - 1))).

(** The four calls that stop both timers.  Before the first fault of a kind they are
    made on a handle that no initialisation has filled: its [Instance] is null, and
    the HAL then reads and writes near address 0.  What the hardware makes of that is
    not modelled: the calls are the same events, which change no pin and no timer. *)
Definition stop_timers : M S unit :=
  emit EvPwmStop ;; emit EvPwmDeInit ;; emit EvTim2Stop ;; emit EvTim2DeInit.

(** PF6 as a plain output again, low. *)
Definition release_PF6 : M S unit :=
  gpio_init GPIOF [6] OUTPUT_PP ;;
  pin_reset (Pin GPIOF 6).
End timers.

(** The time after which TIM2 fires, in timer clocks of frequency [f], for a
    prescaler and a period as written to its registers. *)
Definition ticks (prescaler period : Z) : Z := (prescaler + 1) * (period + 1).

(** What a history of effects leaves running: the registers of TIM2 counting with
    its interrupt, and of TIM10 driving PF6. *)
Fixpoint tim2 (t : list event) : option (Z * Z) :=
  match t with
  | [] => None
  | EvTim2Start prescaler period :: _ => Some (prescaler, period)
  | EvTim2Stop :: _ | EvTim2DeInit :: _ => None
  | _ :: t => tim2 t
  end.

Fixpoint tim10 (t : list event) : option (Z * Z * Z) :=
  match t with
  | [] => None
  | EvPwmStart prescaler period pulse :: _ => Some (prescaler, period, pulse)
  | EvPwmStop :: _ | EvPwmDeInit :: _ => None
  | _ :: t => tim10 t
  end.
