(* ===== verification/Dispatch.v ===== *)
(** * Host messages: [startFault], [HostCanDataAnalysisNoLoopBuf] and
    [HostCanDataAnalysis] of src/HARDWARE/Fiu/FiuHostDataAnalysis.c,
    [HAL_TIM_PeriodElapsedCallback] of src/HARDWARE/TIMER/timer.c

    The whole state of the unit, and what a message of eight bytes does to it:
    one definition per command, for the messages of UDP (answered in place) and
    for those of CAN (taken from the ring, answered by a CAN message). *)
From Stdlib Require Import ZArith Lia.
From stdpp Require Import base tactics decidable list list_numbers numbers.
From S2P Require Import Prelude Board Relay Io HostConfig Flash Can Timers.
Open Scope Z_scope.
Open Scope c_scope.

(** ** The unit *)
Record sys {hw : FlashHW} := Sys {
  s_host : host;         (** globals of FiuHostDataAnalysis.c *)
  s_fiu : fiu;           (** globals of FiuProcess.c, the history of effects *)
  s_flash : mem;
  s_set : settings;      (** the settings read at power-up *)
  s_ring : ring;         (** the ring of CAN messages *)
  g_Error : Z;
}.
Arguments sys : clear implicits.
Arguments Sys {hw}.

#[export] Instance sys_eta {hw} : Eta (sys hw) := fun s =>
  Sys (s_host s) (s_fiu s) (s_flash s) (s_set s) (s_ring s) (g_Error s).
#[export] Instance upd_s_host {hw} : Upd (R := sys hw) s_host := ltac:(derive_upd).
#[export] Instance upd_s_fiu {hw} : Upd (R := sys hw) s_fiu := ltac:(derive_upd).
#[export] Instance upd_s_flash {hw} : Upd (R := sys hw) s_flash := ltac:(derive_upd).
#[export] Instance upd_s_set {hw} : Upd (R := sys hw) s_set := ltac:(derive_upd).
#[export] Instance upd_s_ring {hw} : Upd (R := sys hw) s_ring := ltac:(derive_upd).
#[export] Instance upd_g_Error {hw} : Upd (R := sys hw) g_Error := ltac:(derive_upd).

#[export] Instance sys_trace {hw} : HasTrace (sys hw) := {
  events s := tr (s_fiu s);
  emit_event e s := s <| s_fiu ::= emit_event e |>;
}.
#[export] Instance sys_trace_laws {hw} : HasTraceLaws (sys hw).
Proof. by constructor. Qed.

Section dispatch.
Context {hw : FlashHW} {outside : Board}.
Notation MS := (M (sys hw)).

Definition in_host {A} (m : M host A) : MS A := zoom s_host m.
Definition in_fiu {A} (m : M fiu A) : MS A := zoom s_fiu m.
Definition in_ring {A} (m : M ring A) : MS A := zoom s_ring m.

(** [g_DataFromHost[i] = v;] *)
Definition answer (i v : Z) : MS unit := in_host (wr g_DataFromHost i v).

(** ** Starting a fault *)

(** The loose contact: a PWM of [g_Pfreq] Hz on the 100 us clock of TIM10. *)
Definition start_loose : MS unit :=
  h ← gets s_host;
  if g_Pfreq h =? 0 then undefined DivByZero
  else
    let arr := u16 (10000 / g_Pfreq h) in
    let ccr := u16 (Z.quot ((100 - g_Pduty h) * arr) 100) in
    let ccr := if ccr <? 1 then 1 else ccr in
    TIM10_PWM_Init arr (180 * 100) ccr.

Definition startFault : MS unit :=
  in_host (g_workStatus ::= 1) ;;
  stop_timers ;;
  in_fiu (FiuCom_Process 0) ;;
  h ← gets s_host;
  (if g_bLoose h =? 1 then start_loose else skip) ;;
  h ← gets s_host;
  if g_Ptime h >? 0 then TIM2_Init (u32 (g_Ptime h * 2)) (90 * 500) else skip.

(** The end of the time: the interrupt of TIM2. *)
Definition HAL_TIM_PeriodElapsedCallback : MS unit :=
  h ← gets s_host;
  (if g_bLoose h =? 1 then emit EvPwmStop ;; emit EvPwmDeInit else skip) ;;
  release_PF6 ;;
  emit EvTim2Stop ;; emit EvTim2DeInit ;;
  in_host (g_workStatus ::= 0).

(** [DataAtPxToFiuBytes17]. *)
Definition DataAtPxToFiuBytes17 : MS Z :=
  h ← gets s_host;
  in_fiu (g ← gets g_FiuByte17Data; g_FiuByte17Data ::= frame_bytes_of h g) ;;
  mret 0.

(** [P_init(); FIU_Cmd0_CurPinFlag_init();] *)
Definition clear_config : MS unit := in_host P_init ;; in_host FIU_Cmd0_CurPinFlag_init.

(** The condition of each block, read again for each. *)
Definition on_cmd (cmd : Z) (body : MS unit) : MS unit :=
  b0 ← in_host (rd g_DataFromHost 0);
  b1 ← in_host (rd g_DataFromHost 1);
  wm ← gets (fun s => g_WorkMode (s_host s));
  if (cmd =? b0) && (wm =? b1) then body else skip.

(** ** UDP *)

(** The commands 0 to 4; the result goes to byte [i]. *)
Definition udp_config (i : Z) : MS unit :=
  result ← in_host McuGetHostConfigInfo;
  e ← gets g_Error;
  ok ← gets (fun s => g_HostConfigPass (s_host s));
  if negb (e =? 0) then answer i e
  else if result =? ok then answer i result
  else in_host FIU_Cmd0_CurPinFlag_init ;; answer i result.

(** Command 5, the configuration is done. *)
Definition udp_done : MS unit :=
  b3 ← in_host (rd g_DataFromHost 3);
  b2 ← in_host (rd g_DataFromHost 2);
  in_host (g_Ptime ::= u16 (Z.lor (Z.shiftl b3 8) b2)) ;;
  e ← gets g_Error;
  t ← gets (fun s => g_Ptime (s_host s));
  if negb (e =? 0) then answer 2 e
  else if t >? 65500 then
    r ← in_host (err 1);
    answer 2 r ;; clear_config
  else
    bt ← gets (fun s => g_bTime (s_host s));
    (if bt =? 0 then in_host (g_bTime ::= 1) else skip) ;;
    result ← DataAtPxToFiuBytes17;
    ok ← gets (fun s => g_HostConfigPass (s_host s));
    if result =? ok then answer 2 result ;; in_host FIU_Cmd0_CurPinFlag_init
    else answer 2 result ;; clear_config.

(** Command 0x10, start. *)
Definition udp_start : MS unit :=
  startFault ;;
  e ← gets g_Error;
  answer 2 e.

(** The frame of command 0x11: kind 4 and the markers, the rest as it is. *)
Definition reset_frame : M fiu unit :=
  wr g_FiuByte17Data 0 0xbe ;;
  wr g_FiuByte17Data 1 0xbe ;;
  wr g_FiuByte17Data 2 4 ;;
  wr g_FiuByte17Data 15 0xed ;;
  wr g_FiuByte17Data 16 0xed.

(** Command 0x11, open the relays. *)
Definition udp_reset : MS unit :=
  stop_timers ;;
  release_PF6 ;;
  in_fiu reset_frame ;;
  h ← gets s_host;
  (if g_Ptime h >? 0 then emit EvTim2Stop else skip) ;;
  in_fiu (FiuCom_Process 0) ;;
  e ← gets g_Error;
  if negb (e =? 0) then answer 2 e
  else answer 2 0 ;; clear_config.

(** Command 0x1A, test the fuses. *)
Definition udp_fuses : MS unit :=
  e ← gets g_Error;
  if negb (e =? 0) then answer 2 e
  else
    clear_config ;;
    result ← Fuse_check;
    e ← gets g_Error;
    if negb (e =? 0) then answer 2 e
    else if result =? 0x1f then
      answer 2 0 ;; answer 3 1 ;; answer 4 1 ;; answer 5 1 ;; answer 6 1 ;; answer 7 1
    else
      r ← in_host (err 51);
      answer 2 r ;;
      answer 3 (Z.land result 1) ;;
      answer 4 (Z.shiftr (Z.land result 2) 1) ;;
      answer 5 (Z.shiftr (Z.land result 4) 2) ;;
      answer 6 (Z.shiftr (Z.land result 8) 3) ;;
      answer 7 (Z.shiftr (Z.land result 16) 4).

(** Commands 0x13, 0x15, 0x17 and 0x19: a setting. *)
Definition udp_setting (addr : Z) : MS unit :=
  e ← gets g_Error;
  if negb (e =? 0) then answer 2 e
  else
    data ← gets (fun s => g_DataFromHost (s_host s));
    zoom s_flash (InfModify data addr) ;;
    answer 2 0.

(** Command 0x13 does not look at the work mode. *)
Definition udp_workmode : MS unit :=
  b0 ← in_host (rd g_DataFromHost 0);
  if 0x13 =? b0 then udp_setting FLASH_PROCHEAD_WM else skip.

Definition udp_blocks : MS unit :=
  on_cmd 0x00 (udp_config 3) ;;
  on_cmd 0x01 (udp_config 3) ;;
  on_cmd 0x02 (udp_config 3) ;;
  on_cmd 0x03 (udp_config 3) ;;
  on_cmd 0x04 (udp_config 2) ;;
  on_cmd 0x05 udp_done ;;
  on_cmd 0x10 udp_start ;;
  on_cmd 0x11 udp_reset ;;
  on_cmd 0x1A udp_fuses ;;
  udp_workmode ;;
  on_cmd 0x15 (udp_setting FLASH_PROCHEAD) ;;
  on_cmd 0x19 (udp_setting FLASH_PROCHEAD_CAN) ;;
  on_cmd 0x17 (udp_setting FLASH_PROCHEAD_CAN_r) ;;
  on_cmd 0x1C (halt_with SystemReset).

(** The message in, the answer out: eight bytes each. *)
Definition HostCanDataAnalysisNoLoopBuf (data : list Z) : MS (list Z) :=
  (if (8 <=? length data)%nat then in_host (g_DataFromHost ::= take 8 data)
   else undefined OutOfBounds) ;;
  udp_blocks ;;
  d ← gets (fun s => g_DataFromHost (s_host s));
  mret (d ++ drop 8 data).

(** ** CAN *)

(** [CAN1_Send_Msg(g_DataFromHost,8);] *)
Definition can_reply : MS unit :=
  id ← gets (fun s => g_RemoteCanId (s_set s));
  d ← gets (fun s => g_DataFromHost (s_host s));
  CAN1_Send_Msg id d 8.

Definition can_config (i : Z) : MS unit :=
  result ← in_host McuGetHostConfigInfo;
  e ← gets g_Error;
  ok ← gets (fun s => g_HostConfigPass (s_host s));
  if negb (e =? 0) then answer i e ;; can_reply
  else if result =? ok then answer i result ;; can_reply
  else in_host FIU_Cmd0_CurPinFlag_init ;; answer i result ;; can_reply.

(** Command 5; [Some] is an early return of the function.  The time has its
    bytes the other way round than over UDP. *)
Definition can_done : MS (option Z) :=
  b2 ← in_host (rd g_DataFromHost 2);
  b3 ← in_host (rd g_DataFromHost 3);
  in_host (g_Ptime ::= u16 (Z.lor (Z.shiftl b2 8) b3)) ;;
  e ← gets g_Error;
  t ← gets (fun s => g_Ptime (s_host s));
  if negb (e =? 0) then answer 2 e ;; can_reply ;; mret None
  else if t >? 65500 then
    r ← in_host (err 1);
    answer 2 r ;; can_reply ;; in_ring ring_advance ;; clear_config ;; mret (Some 0)
  else
    in_host (g_bTime ::= 1) ;;
    result ← DataAtPxToFiuBytes17;
    ok ← gets (fun s => g_HostConfigPass (s_host s));
    if result =? ok then
      answer 2 result ;; can_reply ;; in_ring ring_advance ;;
      in_host FIU_Cmd0_CurPinFlag_init ;; mret (Some 1)
    else
      answer 2 result ;; can_reply ;; in_ring ring_advance ;; clear_config ;; mret (Some 0).

Definition can_start : MS unit :=
  startFault ;;
  e ← gets g_Error;
  answer 2 e ;; can_reply.

Definition can_reset : MS unit :=
  stop_timers ;;
  release_PF6 ;;
  in_fiu reset_frame ;;
  in_fiu (FiuCom_Process 0) ;;
  e ← gets g_Error;
  if negb (e =? 0) then answer 2 e ;; can_reply
  else answer 2 0 ;; can_reply ;; clear_config.

Definition can_fuses : MS unit :=
  e ← gets g_Error;
  if negb (e =? 0) then answer 2 e ;; can_reply
  else
    clear_config ;;
    result ← Fuse_check;
    e ← gets g_Error;
    if negb (e =? 0) then answer 2 e ;; can_reply
    else
      answer 2 0 ;;
      answer 3 (Z.land result 1) ;;
      answer 4 (Z.land (Z.shiftr result 1) 1) ;;
      answer 5 (Z.land (Z.shiftr result 2) 1) ;;
      answer 6 (Z.land (Z.shiftr result 3) 1) ;;
      answer 7 (Z.land (Z.shiftr result 4) 1) ;;
      can_reply.

(** Command 0x1D, the work status. *)
Definition can_status : MS unit :=
  e ← gets g_Error;
  if negb (e =? 0) then answer 2 e ;; can_reply
  else w ← gets (fun s => g_workStatus (s_host s)); answer 2 w ;; can_reply.

(** The blocks after command 5, and the end of the function. *)
Definition can_blocks : MS Z :=
  on_cmd 0x10 can_start ;;
  on_cmd 0x11 can_reset ;;
  on_cmd 0x1A can_fuses ;;
  on_cmd 0x1C (halt_with SystemReset) ;;
  on_cmd 0x1D can_status ;;
  in_ring ring_advance ;;
  mret 1.

Definition HostCanDataAnalysis : MS Z :=
  r ← gets s_ring;
  if negb (g_IntrDataCur r =? g_DealDataCur r) then
    d ← in_ring ring_read;
    in_host (g_DataFromHost ::= d) ;;
    on_cmd 0x00 (can_config 3) ;;
    on_cmd 0x01 (can_config 3) ;;
    on_cmd 0x02 (can_config 3) ;;
    on_cmd 0x03 (can_config 3) ;;
    on_cmd 0x04 (can_config 2) ;;
    b0 ← in_host (rd g_DataFromHost 0);
    b1 ← in_host (rd g_DataFromHost 1);
    wm ← gets (fun s => g_WorkMode (s_host s));
    early ← (if (0x5 =? b0) && (wm =? b1) then can_done else mret None);
    match early with
    | Some rt => mret rt
    | None => can_blocks
    end
  else mret 0.
End dispatch.
