(* ===== verification/DispatchSpec.v ===== *)
(** * What the messages of the host do to the unit

    From messages to the board: a configuration sent pin by pin, finished and
    started shows exactly the fault that was asked for; a reset puts the board at
    rest; times and frequencies as the timers see them. *)
From Stdlib Require Import ZArith Lia.
From stdpp Require Import base tactics decidable list list_numbers numbers.
From S2P Require Import Prelude Board Relay RelaySpec Frames Io HostConfig HostConfigSpec Flash Can Timers Dispatch.
Open Scope Z_scope.
Open Scope c_scope.

(** ** The frame made from the configuration *)

(** The seventeen bytes. *)
Definition frame_list (h : host) : list Z :=
  [0xbe; 0xbe; FIU_CurCmd h] ++ le_bytes 8 (P0 h) ++ le_bytes 2 (P1 h) ++
  [u8 (Z.shiftr (P4_0 h) 8); Z.land (P4_0 h) 0xff; 0xed; 0xed].

Lemma frame_bytes_of_list h g : length g = 17%nat -> frame_bytes_of h g = frame_list h.
Proof.
  intros Hg. do 17 (destruct g as [|? g]; [done|]). by destruct g.
Qed.

Lemma frame_list_ok h :
  is_u8 (FIU_CurCmd h) -> frame_bytes (frame_list h).
Proof.
  intros Hc. constructor; [|done|done]. unfold frame_list.
  assert (is_u8 (Z.land (P4_0 h) 0xff)) by (by apply land_in_width).
  assert (forall z, is_u8 (u8 z)) by (intros; apply (in_width_mod 8); lia).
  apply Forall_app_2; [by repeat apply Forall_cons_2|].
  apply Forall_app_2; [apply le_bytes_u8|].
  apply Forall_app_2; [apply le_bytes_u8|]. by repeat apply Forall_cons_2.
Qed.

(** Channel [c] is bit [c] of [P0], or bit [c - 64] of [P1]. *)
Lemma frame_list_selected h c :
  is_u64 (P0 h) -> 0 <= c < 72 ->
  selected (frame_list h) c =
  if c <? 64 then Z.testbit (P0 h) c else Z.testbit (P1 h) (c - 64).
Proof.
  intros H0 Hc. unfold selected. rewrite (proj2 (Z.leb_le _ _)), (proj2 (Z.ltb_lt _ _)) by lia.
  cbn [andb]. assert (0 <= c / 8 < 9) as Hq by (Z.to_euclidean_division_equations; lia).
  assert (0 <= c mod 8 < 8) as Hm by (apply Z.mod_pos_bound; lia).
  assert (nth (Z.to_nat (3 + c / 8)) (frame_list h) 0 =
    if c <? 64 then u8 (Z.shiftr (P0 h) (8 * (c / 8))) else u8 (P1 h)) as ->.
  { apply nth_lookup_Some. unfold frame_list.
    rewrite lookup_app_r by (cbn; lia). change (length [190; 190; FIU_CurCmd h]) with 3%nat.
    destruct (Z.ltb_spec c 64).
    - assert (c / 8 < 8) by (Z.to_euclidean_division_equations; lia).
      rewrite lookup_app_l by (rewrite le_bytes_length; lia).
      rewrite le_bytes_lookup by lia. do 3 f_equal. lia.
    - assert (c / 8 = 8) as -> by (Z.to_euclidean_division_equations; lia). done. }
  destruct (Z.ltb_spec c 64); unfold u8; rewrite testbit_mod_pow2, bool_decide_eq_true_2 by lia;
    cbn [andb].
  - rewrite Z.shiftr_spec by lia. f_equal. Z.to_euclidean_division_equations; lia.
  - f_equal. Z.to_euclidean_division_equations; lia.
Qed.

Lemma frame_list_bytes h :
  byte (frame_list h) 2 = FIU_CurCmd h /\ byte (frame_list h) 12 = u8 (Z.shiftr (P1 h) 8) /\
  byte (frame_list h) 13 = u8 (Z.shiftr (P4_0 h) 8) /\ byte (frame_list h) 14 = Z.land (P4_0 h) 0xff.
Proof. done. Qed.

(** ** One block for one message *)
#[export] Instance s_host_laws {hw} : UpdLaws (S := sys hw) s_host.
Proof. upd_laws. Qed.
#[export] Instance s_fiu_laws {hw} : UpdLaws (S := sys hw) s_fiu.
Proof. upd_laws. Qed.
#[export] Instance s_ring_laws {hw} : UpdLaws (S := sys hw) s_ring.
Proof. upd_laws. Qed.

Section blocks.
Context {hw : FlashHW} {outside : Board}.
Implicit Types s : sys hw.

(** The message in the buffer has command [c]. *)
Definition message (c : Z) (s : sys hw) : Prop :=
  length (g_DataFromHost (s_host s)) = 8%nat /\ msg (s_host s) 0 = c.

Lemma message_data d c s :
  g_DataFromHost (s_host s) = d -> length d = 8%nat -> nth 0 d 0 = c -> message c s.
Proof. unfold message, msg. by intros -> ? ?. Qed.

Lemma in_host_set {A} (m : M host A) s h a h' :
  m h = Done a h' -> in_host m (s <| s_host := h |>) = Done a (s <| s_host := h' |>).
Proof. unfold in_host, zoom. rewrite upd_get. by intros ->. Qed.

Lemma in_host_rd i s :
  length (g_DataFromHost (s_host s)) = 8%nat -> 0 <= i < 8 ->
  in_host (rd g_DataFromHost i) s = Done (msg (s_host s) i) s.
Proof.
  intros Hl Hi. unfold in_host.
  rewrite (zoom_Done _ _ _ _ _ (rd_Done _ _ _ _ (msg_index _ i Hl Hi))).
  by rewrite upd_same.
Qed.

Lemma on_cmd_run c (body : M (sys hw) unit) s b :
  message b s ->
  on_cmd c body s =
  if (c =? b) && (g_WorkMode (s_host s) =? msg (s_host s) 1) then body s else Done tt s.
Proof.
  intros [Hl Hb]. unfold on_cmd.
  rewrite (bind_Done _ _ _ _ _ (in_host_rd 0 s Hl ltac:(lia))).
  rewrite (bind_Done _ _ _ _ _ (in_host_rd 1 s Hl ltac:(lia))), bind_gets, Hb.
  by destruct ((c =? b) && _).
Qed.

Lemma on_cmd_skip {A} c body (k : unit -> M (sys hw) A) s b :
  message b s -> (c =? b) = false -> (on_cmd c body ≫= k) s = k tt s.
Proof. intros Hm Hc. apply bind_Done. by rewrite (on_cmd_run _ _ _ _ Hm), Hc. Qed.

Lemma on_cmd_take {A} c body (k : unit -> M (sys hw) A) s s' :
  message c s -> g_WorkMode (s_host s) = msg (s_host s) 1 -> body s = Done tt s' ->
  (on_cmd c body ≫= k) s = k tt s'.
Proof.
  intros Hm Hw Hb. apply bind_Done. by rewrite (on_cmd_run _ _ _ _ Hm), Hw, !Z.eqb_refl.
Qed.

Lemma workmode_skip {A} (k : unit -> M (sys hw) A) s b :
  message b s -> (0x13 =? b) = false -> (udp_workmode ≫= k) s = k tt s.
Proof.
  intros [Hl Hb] Hc. apply bind_Done. unfold udp_workmode.
  rewrite (bind_Done _ _ _ _ _ (in_host_rd 0 s Hl ltac:(lia))). by rewrite Hb, Hc.
Qed.

(** The commands of UDP that end here. *)
Definition udp_table : list (Z * M (sys hw) unit) :=
  [(0x00, udp_config 3); (0x01, udp_config 3); (0x02, udp_config 3); (0x03, udp_config 3);
   (0x04, udp_config 2); (0x05, udp_done); (0x10, udp_start); (0x11, udp_reset);
   (0x1A, udp_fuses); (0x15, udp_setting FLASH_PROCHEAD);
   (0x19, udp_setting FLASH_PROCHEAD_CAN); (0x17, udp_setting FLASH_PROCHEAD_CAN_r)].

(** Only the block of the command runs. *)
Lemma udp_blocks_run c body s s' :
  (c, body) ∈ udp_table -> message c s -> g_WorkMode (s_host s) = msg (s_host s) 1 ->
  body s = Done tt s' -> message c s' -> udp_blocks s = Done tt s'.
Proof.
  intros Hin Hm Hw Hbody Hm'. unfold udp_table in Hin. rewrite !elem_of_cons in Hin.
  destruct_or! Hin; [injection Hin as -> ->..|by apply not_elem_of_nil in Hin];
    unfold udp_blocks;
    repeat first [rewrite (on_cmd_skip _ _ _ s _ Hm) by reflexivity
                 |rewrite (workmode_skip _ s _ Hm) by reflexivity];
    erewrite on_cmd_take by eassumption;
    repeat first [rewrite (on_cmd_skip _ _ _ s' _ Hm') by reflexivity
                 |rewrite (workmode_skip _ s' _ Hm') by reflexivity];
    by rewrite (on_cmd_run _ _ _ _ Hm').
Qed.

Lemma udp_blocks_undefined c body s e :
  (c, body) ∈ udp_table -> message c s -> g_WorkMode (s_host s) = msg (s_host s) 1 ->
  body s = Undefined e -> udp_blocks s = Undefined e.
Proof.
  intros Hin Hm Hw Hbody. unfold udp_table in Hin. rewrite !elem_of_cons in Hin.
  destruct_or! Hin; [injection Hin as -> ->..|by apply not_elem_of_nil in Hin];
    unfold udp_blocks;
    repeat first [rewrite (on_cmd_skip _ _ _ s _ Hm) by reflexivity
                 |rewrite (workmode_skip _ s _ Hm) by reflexivity];
    apply bind_Undefined; by rewrite (on_cmd_run _ _ _ _ Hm), Hw, !Z.eqb_refl.
Qed.

(** The state with a message of eight bytes received. *)
Definition receive (m : list Z) s : sys hw := s <| s_host := received m (s_host s) |>.

Lemma received_run m s :
  length m = 8%nat ->
  (if (8 <=? length m)%nat then in_host (g_DataFromHost ::= take 8 m) else undefined OutOfBounds) s =
  Done tt (receive m s).
Proof.
  intros Hl. rewrite (proj2 (Nat.leb_le _ _)) by lia.
  unfold in_host. erewrite zoom_Done by reflexivity. unfold receive, received.
  by rewrite take_ge by lia.
Qed.

Lemma udp_message_undefined c m body s e :
  (c, body) ∈ udp_table -> length m = 8%nat -> nth 0 m 0 = c ->
  nth 1 m 0 = g_WorkMode (s_host s) ->
  body (receive m s) = Undefined e -> HostCanDataAnalysisNoLoopBuf m s = Undefined e.
Proof.
  intros Hin Hlen Hc Hw Hbody. unfold HostCanDataAnalysisNoLoopBuf.
  rewrite (bind_Done _ _ _ _ _ (received_run m s Hlen)). apply bind_Undefined.
  by apply (udp_blocks_undefined c body).
Qed.

Lemma udp_message_run c m body d s s' :
  g_DataFromHost (s_host s') = d -> (c, body) ∈ udp_table -> length m = 8%nat -> nth 0 m 0 = c ->
  nth 1 m 0 = g_WorkMode (s_host s) ->
  body (receive m s) = Done tt s' -> message c s' ->
  HostCanDataAnalysisNoLoopBuf m s = Done d s'.
Proof.
  intros <- Hin Hlen Hc Hw Hbody Hm'. unfold HostCanDataAnalysisNoLoopBuf.
  rewrite (bind_Done _ _ _ _ _ (received_run m s Hlen)), (bind_Done _ _ _ tt s').
  - rewrite bind_gets, (drop_ge m) by lia. by rewrite app_nil_r.
  - apply (udp_blocks_run c body); [done| |done|done|done]. split; done.
Qed.
End blocks.

(** ** A configuration over UDP *)
Lemma configured_data t pins h d :
  configured t pins h -> length d = 8%nat -> Forall is_u8 d ->
  configured t pins (h <| g_DataFromHost := d |>).
Proof. intros [[] ? ? ? ? ?] ??. constructor; [by constructor|assumption..]. Qed.

Section session.
Context {hw : FlashHW} {outside : Board}.
Implicit Types s : sys hw.

(** The unit between two messages, the pins [pins] of type [t] configured. *)
Record session (t : Z) (pins : list Z) (wm : Z) s : Prop := {
  se_conf : configured t pins (s_host s);
  se_res : P4_0 (s_host s) = 0;
  se_fiu : fiu_ok (s_fiu s);
  se_error : g_Error s = 0;
  se_mode : g_WorkMode (s_host s) = wm;
}.

(** Writes of the answer. *)
Lemma answer_run i v s :
  length (g_DataFromHost (s_host s)) = 8%nat -> 0 <= i < 8 ->
  answer i v s = Done tt (s <| s_host :=
    (s_host s) <| g_DataFromHost := <[Z.to_nat i := v]> (g_DataFromHost (s_host s)) |> |>).
Proof.
  intros Hl Hi. unfold answer, in_host. erewrite zoom_Done by (apply wr_Done; lia).
  reflexivity.
Qed.

(** What a configuration leaves of a loose contact. *)
Definition same_loose s s' : Prop :=
  g_bLoose (s_host s') = g_bLoose (s_host s) /\ g_Pfreq (s_host s') = g_Pfreq (s_host s).

Definition config_message (wm p t : Z) : list Z := [0; wm; p; t; 0; 0; 0; 0].
Definition done_message (wm time : Z) : list Z :=
  [5; wm; time mod 256; time / 256; 0; 0; 0; 0].
Definition start_message (wm : Z) : list Z := [0x10; wm; 0; 0; 0; 0; 0; 0].
Definition reset_message (wm : Z) : list Z := [0x11; wm; 0; 0; 0; 0; 0; 0].

Lemma config_message_u8 wm p t :
  0 <= wm <= 16 -> 0 <= p < 64 -> 0 <= t <= 4 -> Forall is_u8 (config_message wm p t).
Proof. intros. repeat apply Forall_cons_2; try apply Forall_nil_2; unfold in_width; lia. Qed.

Lemma config_message_run t pins wm p s :
  session t pins wm s -> 0 <= wm <= 16 -> 0 <= t <= 4 -> 0 <= p < 64 -> p ∉ pins ->
  exists s', HostCanDataAnalysisNoLoopBuf (config_message wm p t) s =
      Done [0; wm; p; 0; 0; 0; 0; 0] s' /\
    session t (p :: pins) wm s' /\ same_loose s s'.
Proof.
  intros [Hconf Hres Hfiu He Hw] Hwm Ht Hp Hin.
  set (m := config_message wm p t). pose proof (config_message_u8 wm p t Hwm Hp Ht) as Hm8.
  assert (asks (received m (s_host s)) t p) as Hasks by (split_and!; try done; change (wm <= 16); lia).
  pose proof (configure_step t pins p _ (configured_data _ _ _ m Hconf eq_refl Hm8) Hasks Ht Hp)
    as Hstep.
  rewrite bool_decide_eq_false_2 in Hstep by done.
  destruct (proj1 (wp_Done _ _ _) Hstep) as (r & h' & E & -> & Hconf' & (Hd & Hl & Hwm' & _) & Hres' & Hfreq').
  change (g_DataFromHost (received m (s_host s))) with m in Hd.
  set (h'' := h' <| g_DataFromHost := [0; wm; p; 0; 0; 0; 0; 0] |>).
  exists (s <| s_host := h'' |>). split; [|split; [|by split]].
  - apply (udp_message_run 0 m (udp_config 3)); [done|by apply (list_elem_of_lookup_2 _ 0)|done|done|done| |done].
    unfold udp_config, in_host. rewrite (bind_Done _ _ _ _ _ (zoom_Done s_host _ (receive m s) _ _ E)).
    unfold receive. rewrite upd_upd, !bind_gets.
    change (g_Error _) with (g_Error s). change (s_host _) with h'.
    rewrite He, (hok_pass _ (cf_ok _ _ _ Hconf')). cbn [Z.eqb negb].
    rewrite answer_run; [|by change (s_host _) with h'; rewrite Hd|lia]. rewrite upd_upd.
    change (s_host _) with h'. by rewrite Hd.
  - constructor; try done.
    + apply configured_data; [done|done|].
      inversion_clear Hm8 as [|?? H1 H2]. inversion_clear H2 as [|?? H3 H4].
      inversion_clear H4 as [|?? H5 H6]. by repeat apply Forall_cons_2.
    + by etrans; [|exact Hres].
    + by etrans; [|exact Hw].
Qed.

(** The unit between two messages. *)
Record unit_ok (wm : Z) s : Prop := {
  uo_host : host_ok (s_host s);
  uo_fiu : fiu_ok (s_fiu s);
  uo_error : g_Error s = 0;
  uo_mode : g_WorkMode (s_host s) = wm;
}.

Lemma session_ok t pins wm s : session t pins wm s -> unit_ok wm s.
Proof. intros []. constructor; try done. by eapply cf_ok. Qed.

(** The unit with the frame [f] and the time [time], between "done" and "start". *)
Record ready (f : list Z) (time wm : Z) s : Prop := {
  rd_ok : unit_ok wm s;
  rd_frame : g_FiuByte17Data (s_fiu s) = f;
  rd_time : g_Ptime (s_host s) = time;
}.

Lemma two_bytes time : 0 <= time < 2 ^ 16 ->
  u16 (Z.lor (Z.shiftl (time / 256) 8) (time mod 256)) = time.
Proof using.
  clear. intros Ht. unfold u16.
  assert (Z.lor (Z.shiftl (time / 256) 8) (time mod 256) = time) as ->;
    [|by apply Z.mod_small].
  apply bits_ext. intros k Hk. rewrite Z.lor_spec, Z.shiftl_spec by lia.
  change 256 with (2 ^ 8). rewrite testbit_mod_pow2, <- Z.shiftr_div_pow2 by lia.
  case_bool_decide; cbn [andb].
  - by rewrite (Z.testbit_neg_r _ (k - 8)) by lia.
  - rewrite Z.shiftr_spec, orb_false_r by lia. f_equal. lia.
Qed.

Lemma done_message_u8 wm time :
  0 <= wm <= 16 -> 0 <= time <= 65500 -> Forall is_u8 (done_message wm time).
Proof.
  intros. repeat apply Forall_cons_2; try apply Forall_nil_2; unfold in_width;
    Z.to_euclidean_division_equations; lia.
Qed.

(** The state in which command 5 makes the frame. *)
Definition timed (m : list Z) (time : Z) (h : host) : host :=
  received m h <| g_Ptime := time |> <| g_bTime := if g_bTime h =? 0 then 1 else g_bTime h |>.

Lemma DataAtPx_run s :
  fiu_ok (s_fiu s) ->
  DataAtPxToFiuBytes17 s =
  Done 0 (s <| s_fiu := (s_fiu s) <| g_FiuByte17Data := frame_list (s_host s) |> |>).
Proof.
  intros Hfiu. unfold DataAtPxToFiuBytes17, in_fiu. rewrite bind_gets.
  erewrite bind_Done; [|apply zoom_Done; rewrite bind_gets; reflexivity].
  by rewrite frame_bytes_of_list by apply Hfiu.
Qed.

Lemma done_message_run wm time s :
  unit_ok wm s -> 0 <= wm <= 16 -> 0 <= time <= 65500 ->
  exists s', HostCanDataAnalysisNoLoopBuf (done_message wm time) s =
      Done [5; wm; 0; time / 256; 0; 0; 0; 0] s' /\
    ready (frame_list (s_host s)) time wm s' /\ same_loose s s'.
Proof.
  intros [Hh Hf He Hw] Hwm Htime. set (m := done_message wm time).
  pose proof (done_message_u8 wm time Hwm Htime) as Hm8.
  set (h1 := timed m time (s_host s)).
  set (s1 := s <| s_host := h1 |>
               <| s_fiu := (s_fiu s) <| g_FiuByte17Data := frame_list h1 |> |>).
  assert (frame_list h1 = frame_list (s_host s)) as Hframe by (unfold frame_list; reflexivity).
  set (h2 := h1 <| g_DataFromHost := [5; wm; 0; time / 256; 0; 0; 0; 0] |>).
  assert (host_ok h2) as Hok2.
  { destruct Hh. constructor; try done.
    - change (g_DataFromHost h2) with (<[2%nat := 0]> m).
      apply Forall_insert; [exact Hm8|unfold in_width; lia].
    - change (g_Ptime h2) with time. unfold in_width. lia. }
  destruct (proj1 (wp_Done _ _ _) (FIU_Cmd0_CurPinFlag_init_ok h2 Hok2))
    as ([] & h3 & E3 & Hok3 & Hfresh & (Hd & Hl & Hwm3 & _) & [_ _ _ _ Htime3 Hfreq3 _ _ _]).
  exists (s1 <| s_host := h3 |>). split_and!.
  - apply (udp_message_run 5 m udp_done); [exact Hd|by apply (list_elem_of_lookup_2 _ 5)|done|done|done| |by apply (message_data (g_DataFromHost h2))].
    unfold udp_done.
    rewrite (bind_Done _ _ _ _ _ (in_host_rd 3 (receive m s) eq_refl ltac:(lia))).
    rewrite (bind_Done _ _ _ _ _ (in_host_rd 2 (receive m s) eq_refl ltac:(lia))).
    change (msg (s_host (receive m s)) 3) with (time / 256).
    change (msg (s_host (receive m s)) 2) with (time mod 256). rewrite two_bytes by lia.
    erewrite bind_Done by (unfold in_host; apply zoom_Done; reflexivity).
    rewrite !bind_gets. change (g_Error _) with (g_Error s). rewrite He.
    change (g_Ptime (s_host _)) with time. rewrite Z.gtb_ltb, (proj2 (Z.ltb_ge 65500 time)) by lia.
    cbn [Z.eqb negb]. rewrite bind_gets.
    change (g_bTime _) with (g_bTime (s_host s)).
    rewrite (bind_Done _ _ _ tt (s <| s_host := h1 |>)).
    2: { unfold h1, timed. destruct (g_bTime (s_host s) =? 0) eqn:E; [reflexivity|].
         unfold receive, skip. by do 2 f_equal. }
    etrans; [apply bind_Done, DataAtPx_run, Hf|]. rewrite bind_gets.
    change (g_HostConfigPass _) with (g_HostConfigPass (s_host s)). rewrite (hok_pass _ Hh).
    cbn [Z.eqb].
    match goal with |- (_ ≫= _) ?st = _ => change st with s1 end.
    rewrite (bind_Done _ _ _ _ _ (answer_run 2 0 s1 eq_refl ltac:(lia))).
    change (s_host s1) with h1. change (h1 <| g_DataFromHost := _ |>) with h2.
    exact (in_host_set _ s1 h2 tt h3 E3).
  - constructor; [constructor|..]; try done.
    + by destruct Hf.
    + by etrans; [|exact Hw].
  - by split.
Qed.
End session.

(** ** Starting a fault *)
Section start.
Context {hw : FlashHW} {outside : Board}.
Implicit Types s : sys hw.

Lemma in_fiu_run {A} (m : M fiu A) s a f :
  m (s_fiu s) = Done a f -> in_fiu m s = Done a (s <| s_fiu := f |>).
Proof. unfold in_fiu, zoom. by intros ->. Qed.

(** The relay driver once both timers are stopped. *)
Definition stopped (f : fiu) : fiu :=
  f <| tr ::= app [EvTim2DeInit; EvTim2Stop; EvPwmDeInit; EvPwmStop] |>.

Lemma stopped_ok f : fiu_ok f -> fiu_ok (stopped f).
Proof. intros []. by constructor. Qed.

Lemma stop_timers_run s : stop_timers s = Done tt (s <| s_fiu := stopped (s_fiu s) |>).
Proof. done. Qed.

Definition started (f : fiu) s : sys hw :=
  s <| s_host := (s_host s) <| g_workStatus := 1 |> |> <| s_fiu := f |>.

(** [startFault] after the call of the relay driver. *)
Definition start_timers : M (sys hw) unit :=
  h ← gets s_host;
  (if g_bLoose h =? 1 then start_loose else skip) ;;
  h ← gets s_host;
  if g_Ptime h >? 0 then TIM2_Init (u32 (g_Ptime h * 2)) (90 * 500) else skip.

Lemma startFault_run s f :
  FiuCom_Process 0 (stopped (s_fiu s)) = Done tt f ->
  startFault s = start_timers (started f s).
Proof.
  intros E. unfold startFault.
  rewrite (bind_Done _ _ s tt (s <| s_host := (s_host s) <| g_workStatus := 1 |> |>)) by done.
  rewrite (bind_Done _ _ _ _ _ (stop_timers_run _)).
  etrans; [apply bind_Done, in_fiu_run; exact E|]. by rewrite upd_upd.
Qed.

Lemma TIM2_Init_run time s :
  0 < time < 2 ^ 16 ->
  TIM2_Init (u32 (time * 2)) (90 * 500) s =
  Done tt (s <| s_fiu ::= emit_event (EvTim2Start 44999 (2 * time - 1)) |>).
Proof.
  intros Ht. unfold TIM2_Init, u32, emit, modify.
  rewrite (Z.mod_small (time * 2)), (Z.mod_small (time * 2 - 1)) by lia.
  change ((90 * 500 - 1) mod 2 ^ 32) with 44999. by rewrite (Z.mul_comm time).
Qed.

(** TIM2 is set for [time] ms, or stopped for 0. *)
Definition times (time : Z) (t : list event) : Prop :=
  tim2 t = if time =? 0 then None else Some (44999, 2 * time - 1).

Lemma tim2_quiet es t : Forall quiet es -> tim2 (es ++ t) = tim2 t.
Proof. induction 1 as [|[] es He _ IH]; try done. Qed.

Lemma tim10_quiet es t : Forall quiet es -> tim10 (es ++ t) = tim10 t.
Proof. induction 1 as [|[] es He _ IH]; try done. Qed.

Lemma start_plain_run s f :
  fiu_ok (s_fiu s) -> host_ok (s_host s) -> g_bLoose (s_host s) <> 1 ->
  FiuCom_Process 0 (stopped (s_fiu s)) = Done tt f ->
  exists es, let f' := f <| tr ::= app es |> in
    startFault s = Done tt (started f' s) /\ times (g_Ptime (s_host s)) (tr f') /\
    tim10 (tr f') = None /\
    Forall (fun e => match e with EvPin _ _ => False | _ => True end) es.
Proof.
  intros Hf Hh Hl E.
  destruct (FiuCom_Process_extends _ _ _ (stopped_ok _ Hf) E) as (es & Ht & Hq).
  rewrite (startFault_run _ _ E). unfold start_timers. rewrite bind_gets.
  change (g_bLoose (s_host (started f s))) with (g_bLoose (s_host s)).
  rewrite (proj2 (Z.eqb_neq _ _)) by done. rewrite (bind_Done skip _ _ tt (started f s)), bind_gets by done.
  change (g_Ptime (s_host (started f s))) with (g_Ptime (s_host s)).
  destruct (hok_time _ Hh) as [Ht0 Ht1]. unfold times.
  destruct (Z.gtb_spec (g_Ptime (s_host s)) 0) as [Hpos|Hpos].
  - exists [EvTim2Start 44999 (2 * g_Ptime (s_host s) - 1)]. split_and!.
    + by apply TIM2_Init_run.
    + by rewrite (proj2 (Z.eqb_neq _ _)) by lia.
    + change (tim10 (tr f) = None). by rewrite Ht, tim10_quiet.
    + by repeat constructor.
  - exists []. rewrite (proj2 (Z.eqb_eq (g_Ptime (s_host s)) 0)) by lia. split_and!.
    + unfold skip. do 2 f_equal. by destruct f.
    + change (tim2 (tr f) = None). by rewrite Ht, tim2_quiet.
    + change (tim10 (tr f) = None). by rewrite Ht, tim10_quiet.
    + done.
Qed.

(** Effects that write no pin do not change what the board shows. *)
Lemma energised_no_pin es f r :
  writes_in [] es -> energised (f <| tr ::= app es |>) r = energised f r.
Proof.
  intros W. apply energised_register, register_writes_in.
  eapply writes_in_mono; [|exact W]. intros p Hp. by apply not_elem_of_nil in Hp.
Qed.

Lemma bus_no_pin es f n :
  writes_in [] es -> bus_level (f <| tr ::= app es |>) n = bus_level f n.
Proof.
  intros W. apply bus_level_writes_in. eapply writes_in_mono; [|exact W].
  intros p Hp. by apply not_elem_of_nil in Hp.
Qed.

Lemma resistance_no_pin es f :
  writes_in [] es -> resistance (f <| tr ::= app es |>) = resistance f.
Proof.
  intros W. apply resistance_writes_in. eapply writes_in_mono; [|exact W].
  intros p Hp. by apply not_elem_of_nil in Hp.
Qed.

Lemma shows_no_pin es f fr :
  writes_in [] es -> shows fr f -> shows fr (f <| tr ::= app es |>).
Proof.
  intros W [HR HL Hv]. constructor; intros.
  - by rewrite energised_no_pin, HR.
  - by rewrite bus_no_pin, HL.
  - by rewrite resistance_no_pin.
Qed.

(** A loose contact with no frequency. *)
Lemma start_loose_undefined s f :
  fiu_ok (s_fiu s) -> g_bLoose (s_host s) = 1 -> g_Pfreq (s_host s) = 0 ->
  FiuCom_Process 0 (stopped (s_fiu s)) = Done tt f -> startFault s = Undefined DivByZero.
Proof.
  intros Hf Hl Hq E. rewrite (startFault_run _ _ E). unfold start_timers. rewrite bind_gets.
  change (g_bLoose (s_host (started f s))) with (g_bLoose (s_host s)). rewrite Hl. cbn [Z.eqb Pos.eqb].
  apply bind_Undefined. unfold start_loose. rewrite bind_gets.
  change (g_Pfreq (s_host (started f s))) with (g_Pfreq (s_host s)). by rewrite Hq.
Qed.

(** The PWM of a loose contact: [f] Hz, low for [d] percent of the time. *)
Definition pwm_arr (f : Z) : Z := 10000 / f.
Definition pwm_ccr (f d : Z) : Z := Z.max 1 ((100 - d) * pwm_arr f / 100).

Lemma pwm_bounds f d :
  1 <= f <= 99 -> 0 <= d <= 100 ->
  101 <= pwm_arr f <= 10000 /\ 1 <= pwm_ccr f d <= pwm_arr f.
Proof using.
  clear. intros Hf Hd. unfold pwm_ccr, pwm_arr. split.
  - split; [|apply Z.div_le_upper_bound; nia]. apply Z.div_le_lower_bound; lia.
  - assert (101 <= 10000 / f) by (apply Z.div_le_lower_bound; lia).
    assert ((100 - d) * (10000 / f) / 100 <= 10000 / f) by (apply Z.div_le_upper_bound; nia).
    lia.
Qed.

Lemma start_loose_run s :
  1 <= g_Pfreq (s_host s) <= 99 -> 0 <= g_Pduty (s_host s) <= 100 ->
  let arr := pwm_arr (g_Pfreq (s_host s)) in
  let ccr := pwm_ccr (g_Pfreq (s_host s)) (g_Pduty (s_host s)) in
  start_loose s = Done tt (s <| s_fiu := (s_fiu s) <| tr ::= app
    [EvPwmStart 18000 (arr - 1) (ccr - 1); EvPin (Pin GPIOF 6) false; EvMode GPIOF [6] AF_PP] |> |>).
Proof.
  intros Hq Hd. destruct (pwm_bounds _ _ Hq Hd) as [Ha Hc]. intros arr ccr.
  unfold start_loose. rewrite bind_gets, (proj2 (Z.eqb_neq _ 0)) by lia.
  fold (pwm_arr (g_Pfreq (s_host s))). fold arr. unfold u16.
  rewrite (Z.mod_small arr) by (unfold arr; lia). unfold pwm_ccr in *. fold arr in Hc, Ha |- *.
  rewrite Z.quot_div_nonneg by nia.
  assert (0 <= (100 - g_Pduty (s_host s)) * arr / 100) by (apply Z.div_pos; nia).
  assert ((100 - g_Pduty (s_host s)) * arr / 100 <= arr) by (apply Z.div_le_upper_bound; nia).
  rewrite Z.mod_small by lia.
  assert ((if (100 - g_Pduty (s_host s)) * arr / 100 <? 1 then 1
    else (100 - g_Pduty (s_host s)) * arr / 100) = ccr) as ->.
  { unfold ccr, pwm_ccr. fold arr.
    destruct (Z.ltb_spec ((100 - g_Pduty (s_host s)) * arr / 100) 1); lia. }
  unfold TIM10_PWM_Init, u32. rewrite (Z.mod_small (arr - 1)) by lia.
  rewrite (Z.mod_small (ccr - 1)) by (unfold ccr, pwm_ccr; fold arr; lia). done.
Qed.

(** The start message, in a unit with the error number [e]. *)
Lemma start_message_any f wm s :
  host_ok (s_host s) -> fiu_ok (s_fiu s) -> g_WorkMode (s_host s) = wm ->
  g_FiuByte17Data (s_fiu s) = f -> frame_bytes f -> 0 <= byte f 2 < 4 ->
  (byte f 2 = 2 -> byte f 12 < 6 \/ byte f 12 = 7) -> 0 <= wm <= 16 ->
  g_bLoose (s_host s) <> 1 ->
  exists s', HostCanDataAnalysisNoLoopBuf (start_message wm) s =
      Done [0x10; wm; g_Error s; 0; 0; 0; 0; 0] s' /\
    shows f (s_fiu s') /\ fiu_ok (s_fiu s') /\
    s_host s' = (s_host s) <| g_DataFromHost := [0x10; wm; g_Error s; 0; 0; 0; 0; 0] |>
      <| g_workStatus := 1 |> /\ g_Error s' = g_Error s /\
    times (g_Ptime (s_host s)) (tr (s_fiu s')) /\ tim10 (tr (s_fiu s')) = None.
Proof.
  intros Hh Hf Hw Hfr Hfb Hk2 Hk Hwm Hl. set (m := start_message wm).
  assert (Forall is_u8 m) as Hm8
    by (repeat apply Forall_cons_2; try apply Forall_nil_2; unfold in_width; lia).
  pose proof (frame_shows 0 (stopped (s_fiu s)) f (stopped_ok _ Hf) Hfr Hfb Hk2 Hk) as Hshow.
  destruct (proj1 (wp_Done _ _ _) Hshow) as ([] & f1 & E & Hs & Hf1).
  destruct (start_plain_run (receive m s) f1 Hf (received_ok m _ eq_refl Hm8 Hh) Hl E)
    as (es & E2 & Htime & Hpwm & Hnp).
  set (f2 := f1 <| tr ::= app es |>) in *.
  set (d := [0x10; wm; g_Error s; 0; 0; 0; 0; 0]).
  set (s1 := started f2 (receive m s)).
  exists (s1 <| s_host := (s_host s1) <| g_DataFromHost := d |> |>). split_and!.
  - apply (udp_message_run 16 m udp_start);
      [done|by apply (list_elem_of_lookup_2 _ 6)|done|done|by rewrite Hw| |by apply (message_data d)].
    unfold udp_start. rewrite (bind_Done _ _ _ _ _ E2), bind_gets.
    change (g_Error _) with (g_Error s). etrans; [by apply answer_run|]. done.
  - apply shows_no_pin; [|done]. eapply Forall_impl; [|exact Hnp]. by intros [].
  - by destruct Hf1.
  - done.
  - done.
  - exact Htime.
  - exact Hpwm.
Qed.

Lemma start_message_run f time wm s :
  ready f time wm s -> frame_bytes f -> 0 <= byte f 2 < 4 ->
  (byte f 2 = 2 -> byte f 12 < 6 \/ byte f 12 = 7) -> 0 <= wm <= 16 ->
  g_bLoose (s_host s) <> 1 ->
  exists s', HostCanDataAnalysisNoLoopBuf (start_message wm) s = Done (start_message wm) s' /\
    shows f (s_fiu s') /\ unit_ok wm s' /\ g_workStatus (s_host s') = 1 /\
    times time (tr (s_fiu s')) /\ tim10 (tr (s_fiu s')) = None.
Proof.
  intros [[Hh Hf He Hw] Hfr Ht] Hfb Hk2 Hk Hwm Hl.
  destruct (start_message_any f wm s) as (s' & E & Hs & Hf' & Hh' & He' & Htm & Hp); [done..|].
  rewrite He in E, Hh', He'. exists s'. rewrite Ht in Htm. split_and!; [done|done| |by rewrite Hh'|done|done].
  constructor; [|done|done|by rewrite Hh'; apply Hw]. rewrite Hh'. destruct Hh. constructor; try done.
  repeat apply Forall_cons_2; try apply Forall_nil_2; unfold in_width; lia.
Qed.
End start.

(** ** A whole fault *)
Section fault.
Context {hw : FlashHW} {outside : Board}.
Implicit Types s : sys hw.

(** Messages one after the other, and their answers. *)
Fixpoint converse (ms : list (list Z)) : M (sys hw) (list (list Z)) :=
  match ms with
  | [] => mret []
  | m :: ms => r ← HostCanDataAnalysisNoLoopBuf m; rs ← converse ms; mret (r :: rs)
  end.

(** A compound fault of type [t] on the channels [pins] for [time] ms, and its
    answers. *)
Definition fault_messages (wm t time : Z) (pins : list Z) : list (list Z) :=
  ((fun p => config_message wm p t) <$> pins) ++ [done_message wm time; start_message wm].
Definition fault_answers (wm time : Z) (pins : list Z) : list (list Z) :=
  ((fun p => [0; wm; p; 0; 0; 0; 0; 0]) <$> pins) ++
  [[5; wm; 0; time / 256; 0; 0; 0; 0]; start_message wm].

(** The board shows a compound fault of type [t] on [pins]. *)
Record shows_fault (t : Z) (pins : list Z) (f : fiu) : Prop := {
  sf_relays : forall r, 0 <= r < 216 ->
    energised f r = bool_decide (r / 3 ∈ pins) && wants 0 (t + 1) (r mod 3);
  sf_bus : forall n, 1 <= n <= 17 ->
    bus_level f n = bool_decide (n ∈ hv_high (hv_code 0 (t + 1)));
  sf_resistance : resistance f = 0;
}.

Lemma converse_app ms1 ms2 s rs1 s1 rs2 s2 :
  converse ms1 s = Done rs1 s1 -> converse ms2 s1 = Done rs2 s2 ->
  converse (ms1 ++ ms2) s = Done (rs1 ++ rs2) s2.
Proof.
  revert s rs1. induction ms1 as [|m ms1 IH]; intros s rs1.
  - by intros [= <- <-].
  - cbn [converse app]. unfold mbind at 1 3, M_bind at 1 3.
    destruct (HostCanDataAnalysisNoLoopBuf m s) as [r s'|f|h s']; try done.
    unfold mbind at 1, M_bind at 1.
    destruct (converse ms1 s') as [rs s''|f|h s''] eqn:E1; try done.
    intros [= <- ->] E2. by rewrite (bind_Done _ _ _ _ _ (IH s' rs E1 E2)).
Qed.

Lemma converse_undefined ms m s rs s' e :
  converse ms s = Done rs s' -> HostCanDataAnalysisNoLoopBuf m s' = Undefined e ->
  converse (ms ++ [m]) s = Undefined e.
Proof.
  revert s rs. induction ms as [|m1 ms IH]; intros s rs.
  - intros [= _ ->] E. by apply bind_Undefined.
  - cbn [converse app]. unfold mbind at 1, M_bind at 1.
    destruct (HostCanDataAnalysisNoLoopBuf m1 s) as [r s1|f|h s1] eqn:E1; try done.
    unfold mbind at 1, M_bind at 1.
    destruct (converse ms s1) as [rs' s2|f|h s2] eqn:E2; try done.
    intros [= _ ->] E. rewrite (bind_Done _ _ _ _ _ E1). apply bind_Undefined.
    by eapply IH.
Qed.

Lemma converse_one m s r s' :
  HostCanDataAnalysisNoLoopBuf m s = Done r s' -> converse [m] s = Done [r] s'.
Proof. intros E. cbn [converse]. by rewrite (bind_Done _ _ _ _ _ E). Qed.

(** The messages of the pins. *)
Lemma converse_pins t wm todo : forall pins s,
  session t pins wm s -> 0 <= wm <= 16 -> 0 <= t <= 4 ->
  Forall (fun p => 0 <= p < 64) todo -> NoDup (todo ++ pins) ->
  exists s', converse ((fun p => config_message wm p t) <$> todo) s =
      Done ((fun p => [0; wm; p; 0; 0; 0; 0; 0]) <$> todo) s' /\
    session t (rev todo ++ pins) wm s' /\ same_loose s s'.
Proof.
  induction todo as [|p todo IH]; intros pins s Hse Hwm Ht Hp Hnd; [by exists s|].
  inversion_clear Hp as [|?? Hp1 Hp2]. cbn [app] in Hnd.
  apply list.NoDup_cons in Hnd as [Hin Hnd].
  destruct (config_message_run t pins wm p s) as (s1 & E1 & Hse1 & Hl1 & Hq1); [done..| |].
  { intros H. apply Hin, elem_of_app. by right. }
  destruct (IH (p :: pins) s1) as (s2 & E2 & Hse2 & Hl2 & Hq2); [done..| |].
  { apply list.NoDup_app. apply list.NoDup_app in Hnd as (H1 & H2 & H3). split_and!; [done| |].
    - intros x Hx [->|Hx']%elem_of_cons; [|by eapply H2].
      apply Hin, elem_of_app. by left.
    - apply list.NoDup_cons. split; [|done]. intros H. apply Hin, elem_of_app. by right. }
  exists s2. split_and!.
  - by apply (converse_app [_] _ _ [_] s1); [apply converse_one|].
  - cbn [rev]. by rewrite <- app_assoc.
  - split; congruence.
Qed.

(** The frame of a configuration. *)
Lemma configured_frame t pins h :
  configured t pins h -> P4_0 h = 0 -> pins <> [] -> 0 <= t <= 4 ->
  Forall (fun p => 0 <= p < 64) pins ->
  frame_bytes (frame_list h) /\ byte (frame_list h) 2 = 0 /\
  byte (frame_list h) 12 = t + 1 /\
  (forall c, 0 <= c < 72 -> selected (frame_list h) c = bool_decide (c ∈ pins)).
Proof using.
  clear. intros [Hok Hcmd _ _ HP0 HP1] Hres Hne Ht Hpins.
  rewrite bool_decide_eq_false_2 in Hcmd, HP1 by done.
  destruct (frame_list_bytes h) as (B2 & B12 & _ & _). split_and!.
  - apply frame_list_ok. by rewrite Hcmd.
  - by rewrite B2.
  - rewrite B12, HP1, Z.shiftr_shiftl_l by lia. cbn [Z.sub Z.add Z.opp Pos.sub Z.pos_sub].
    rewrite Z.shiftl_0_r. apply Z.mod_small. lia.
  - intros c Hc. rewrite frame_list_selected by (done || apply hok_P0, Hok).
    destruct (Z.ltb_spec c 64); [by apply HP0; lia|].
    rewrite HP1, Z.shiftl_spec, Z.testbit_neg_r by lia.
    symmetry. apply bool_decide_eq_false_2. intros Hc'.
    rewrite Forall_forall in Hpins. apply list_elem_of_In, Hpins in Hc'. lia.
Qed.

Lemma any_selected_in f c : selected f c = true -> 0 <= c < 72 -> any_selected f 72 = true.
Proof using.
  clear. intros Hs Hc. unfold any_selected. apply existsb_exists. exists c. split; [|done].
  apply list_elem_of_In, elem_of_seqZ. lia.
Qed.

Lemma shows_compound t pins h f :
  configured t pins h -> P4_0 h = 0 -> pins <> [] -> 0 <= t <= 4 ->
  Forall (fun p => 0 <= p < 64) pins ->
  shows (frame_list h) f -> shows_fault t pins f.
Proof.
  intros Hc Hres Hne Ht Hpins [HR HL Hv].
  destruct (configured_frame t pins h Hc Hres Hne Ht Hpins) as (Hfb & B2 & B12 & Hsel).
  destruct pins as [|p pins]; [done|]. inversion_clear Hpins as [|?? Hp _].
  assert (any_selected (frame_list h) 72 = true) as Hany.
  { apply (any_selected_in _ p); [|lia]. rewrite Hsel by lia.
    by rewrite bool_decide_eq_true_2 by constructor. }
  constructor.
  - intros r Hr. rewrite HR, B2, B12, Hsel by (lia || (Z.to_euclidean_division_equations; lia)).
    done.
  - intros n Hn. rewrite HL, Hany, B2, B12 by done. done.
  - rewrite Hv, Hany, B2. done.
Qed.
End fault.

Section reset.
Context {hw : FlashHW} {outside : Board}.
Implicit Types s : sys hw.

(** What the reset does before it calls the relay driver. *)
Definition reset_prefix (time : Z) (f : fiu) : fiu :=
  f <| tr ::= app ((if 0 <? time then [EvTim2Stop] else []) ++
                   [EvPin (Pin GPIOF 6) false; EvMode GPIOF [6] OUTPUT_PP;
                    EvTim2DeInit; EvTim2Stop; EvPwmDeInit; EvPwmStop]) |>
    <| g_FiuByte17Data ::= fun g =>
         <[16%nat := 0xed]> (<[15%nat := 0xed]> (<[2%nat := 4]>
           (<[1%nat := 0xbe]> (<[0%nat := 0xbe]> g)))) |>.

Lemma reset_prefix_ok time f : fiu_ok f -> fiu_ok (reset_prefix time f).
Proof. intros []. constructor; try done. cbn. by rewrite !length_insert. Qed.

Lemma reset_frame_run f :
  length (g_FiuByte17Data f) = 17%nat ->
  reset_frame f = Done tt (f <| g_FiuByte17Data ::= fun g =>
         <[16%nat := 0xed]> (<[15%nat := 0xed]> (<[2%nat := 4]>
           (<[1%nat := 0xbe]> (<[0%nat := 0xbe]> g)))) |>).
Proof.
  intros Hl. unfold reset_frame.
  do 4 (rewrite bind_wr by (cbn; rewrite ?length_insert, Hl; lia)).
  rewrite wr_Done by (cbn; rewrite ?length_insert, Hl; lia). done.
Qed.

Lemma reset_prefix_marked time f :
  length (g_FiuByte17Data f) = 17%nat ->
  marked (g_FiuByte17Data (reset_prefix time f)) = true /\
  byte (g_FiuByte17Data (reset_prefix time f)) 2 = 4.
Proof.
  intros Hl. cbn. destruct (g_FiuByte17Data f) as [|b0 g]; [done|].
  do 16 (destruct g as [|? g]; [done|]). by destruct g.
Qed.

(** The relay driver's part of a reset. *)
Lemma reset_driver time f :
  fiu_ok f ->
  exists f', FiuCom_Process 0 (reset_prefix time f) = Done tt f' /\ at_rest f' /\ fiu_ok f' /\
    tim2 (tr f') = None /\ tim10 (tr f') = None.
Proof.
  intros Hf. destruct (reset_prefix_marked time f (ok_frame _ Hf)) as [Hm Hk].
  pose proof (reset_prefix_ok time f Hf) as Hf0.
  destruct (proj1 (wp_Done _ _ _) (reset_run 0 _ Hf0 Hm Hk)) as ([] & f' & E & Hr & Hf').
  exists f'. split_and!; try done.
  all: destruct (FiuCom_Process_extends _ _ _ Hf0 E) as (es & -> & Hq).
  - rewrite tim2_quiet by done. unfold reset_prefix. by destruct (0 <? time).
  - rewrite tim10_quiet by done. unfold reset_prefix. by destruct (0 <? time).
Qed.

(** [P_init(); FIU_Cmd0_CurPinFlag_init();] *)
Lemma clear_config_run s h :
  host_ok h -> exists h', clear_config (s <| s_host := h |>) = Done tt (s <| s_host := h' |>) /\
    host_ok h' /\ cleared h' /\ fresh h' /\ same_rest h h'.
Proof.
  intros Hok.
  destruct (proj1 (wp_Done _ _ _) (P_init_ok h Hok)) as ([] & h2 & E2 & Hok2 & Hcl & Hs2 & _).
  destruct (proj1 (wp_Done _ _ _) (FIU_Cmd0_CurPinFlag_init_ok h2 Hok2))
    as ([] & h3 & E3 & Hok3 & Hfresh & Hs3 & Hsc).
  exists h3. split_and!; [|done| |done|].
  - unfold clear_config. rewrite (bind_Done _ _ _ _ _ (in_host_set _ s h tt h2 E2)).
    exact (in_host_set _ s h2 tt h3 E3).
  - destruct Hcl, Hsc. constructor; congruence.
  - unfold same_rest in *. naive_solver congruence.
Qed.

Lemma answer_received i v m s h :
  s_host s = received m h -> length m = 8%nat -> 0 <= i < 8 ->
  answer i v s = Done tt (s <| s_host := received (<[Z.to_nat i := v]> m) h |>).
Proof.
  intros Es Hl Hi. rewrite answer_run by (rewrite ?Es; done). rewrite Es. reflexivity.
Qed.

(** What a reset answered with [d] leaves of the configuration, with the error [e]
    set: without an error nothing, with one everything. *)
Definition reset_config (e : Z) (d : list Z) (h h' : host) : Prop :=
  host_ok h' /\ g_DataFromHost h' = d /\ g_WorkMode h' = g_WorkMode h /\ g_bLoose h' = g_bLoose h /\
  if e =? 0 then cleared h' /\ fresh h' else h' = received d h.

Lemma reset_clears e d s h :
  host_ok (received d h) ->
  exists h', (if e =? 0 then clear_config else skip) (s <| s_host := received d h |>) =
    Done tt (s <| s_host := h' |>) /\ reset_config e d h h'.
Proof.
  intros Hok. unfold reset_config. destruct (e =? 0); [|by exists (received d h)].
  destruct (clear_config_run s _ Hok) as (h' & E & Hok' & Hcl & Hfr & Hd & Hl & Hw & _).
  exists h'. by split_and!.
Qed.

Lemma udp_reset_run m s :
  host_ok (s_host s) -> fiu_ok (s_fiu s) -> is_u8 (g_Error s) ->
  length m = 8%nat -> Forall is_u8 m -> nth 0 m 0 = 0x11 -> nth 1 m 0 = g_WorkMode (s_host s) ->
  let d := <[2%nat := g_Error s]> m in
  exists s', HostCanDataAnalysisNoLoopBuf m s = Done d s' /\
    at_rest (s_fiu s') /\ fiu_ok (s_fiu s') /\
    tim2 (tr (s_fiu s')) = None /\ tim10 (tr (s_fiu s')) = None /\
    reset_config (g_Error s) d (s_host s) (s_host s') /\ g_Error s' = g_Error s.
Proof.
  intros Hh Hf He Hlen Hm8 Hm0 Hm1 d. assert (length d = 8%nat) as Hdl by (by unfold d; rewrite length_insert).
  destruct (reset_driver (g_Ptime (s_host s)) (s_fiu s) Hf) as (f1 & E & Hrest & Hf1 & T2 & T10).
  destruct (reset_clears (g_Error s) d (s <| s_fiu := f1 |>) (s_host s)) as (h' & Ec & Hcfg).
  { apply received_ok; [done|by apply Forall_insert|done]. }
  exists (s <| s_fiu := f1 |> <| s_host := h' |>). split; [|by split_and!].
  eapply (udp_message_run 17 m udp_reset); [apply Hcfg|by apply (list_elem_of_lookup_2 _ 7)|done..| |].
  2: { apply (message_data d); [apply Hcfg|done|]. rewrite <- Hm0. unfold d. by destruct m as [|? [|? [|? ?]]]. }
  unfold udp_reset.
  rewrite (bind_Done _ _ _ tt ((receive m s) <| s_fiu := stopped (s_fiu s) |>)) by done.
  rewrite (bind_Done release_PF6 _ _ tt ((receive m s) <| s_fiu := (stopped (s_fiu s)) <| tr ::= app
    [EvPin (Pin GPIOF 6) false; EvMode GPIOF [6] OUTPUT_PP] |> |>)) by done.
  etrans; [apply bind_Done, in_fiu_run, reset_frame_run, Hf|]. rewrite bind_gets, upd_upd.
  rewrite (bind_Done _ _ _ tt ((receive m s) <| s_fiu := reset_prefix (g_Ptime (s_host s)) (s_fiu s) |>)).
  2: { change (g_Ptime (s_host _)) with (g_Ptime (s_host s)). rewrite Z.gtb_ltb. unfold reset_prefix.
       by destruct (0 <? g_Ptime (s_host s)). }
  etrans; [apply bind_Done, in_fiu_run, E|]. rewrite bind_gets, upd_upd.
  change (g_Error ((receive m s) <| s_fiu := f1 |>)) with (g_Error s).
  assert (forall v, v = g_Error s -> answer 2 v ((receive m s) <| s_fiu := f1 |>) =
    Done tt ((s <| s_fiu := f1 |>) <| s_host := received d (s_host s) |>)) as Ha.
  { intros v ->. by rewrite (answer_received 2 _ m _ (s_host s)). }
  destruct (Z.eqb_spec (g_Error s) 0) as [E0|_]; cbn [negb].
  - etrans; [by apply bind_Done, Ha|]. exact Ec.
  - etrans; [by apply Ha|]. exact Ec.
Qed.
End reset.
