(* ===== verification/Sessions.v ===== *)
(** * What the host can rely on

    Whole exchanges between the host and the unit: a fault configured, timed and
    started; a reset; a loose contact; messages for another work mode; the same
    commands over CAN. *)
From Stdlib Require Import ZArith Lia.
From stdpp Require Import base tactics decidable list list_numbers numbers.
From S2P Require Import Prelude Board Relay RelaySpec Frames Io HostConfig HostConfigSpec Flash FlashSpec Can Timers Dispatch DispatchSpec.
Open Scope Z_scope.
Open Scope c_scope.

(** The messages up to "done". *)
Definition fault_setup (wm t time : Z) (pins : list Z) : list (list Z) :=
  ((fun p => config_message wm p t) <$> pins) ++ [done_message wm time].
Definition fault_setup_answers (wm time : Z) (pins : list Z) : list (list Z) :=
  ((fun p => [0; wm; p; 0; 0; 0; 0; 0]) <$> pins) ++ [[5; wm; 0; time / 256; 0; 0; 0; 0]].

Lemma fault_messages_start wm t time pins :
  fault_messages wm t time pins = fault_setup wm t time pins ++ [start_message wm].
Proof. unfold fault_messages, fault_setup. by rewrite <- app_assoc. Qed.

Lemma fault_answers_start wm time pins :
  fault_answers wm time pins = fault_setup_answers wm time pins ++ [start_message wm].
Proof. unfold fault_answers, fault_setup_answers. by rewrite <- app_assoc. Qed.

(** The unit once a fault is set up: the frame is that of a configuration [h] of
    the fault. *)
Lemma prepared {hw : FlashHW} {outside : Board} wm t time pins (s : sys hw) :
  session t [] wm s -> 0 <= wm <= 16 -> 0 <= t <= 4 -> 0 <= time <= 65500 ->
  pins <> [] -> NoDup pins -> Forall (fun p => 0 <= p < 64) pins ->
  exists s' h, converse (fault_setup wm t time pins) s =
      Done (fault_setup_answers wm time pins) s' /\
    ready (frame_list h) time wm s' /\
    (forall f, shows (frame_list h) f -> shows_fault t pins f) /\
    frame_bytes (frame_list h) /\ byte (frame_list h) 2 = 0 /\ byte (frame_list h) 12 = t + 1 /\
    same_loose s s'.
Proof.
  intros Hse Hwm Ht Htime Hne Hnd Hp.
  destruct (converse_pins t wm pins [] s) as (s1 & E1 & Hse1 & Hl1 & Hq1);
    [done..|by rewrite app_nil_r|].
  rewrite app_nil_r in Hse1.
  destruct (done_message_run wm time s1) as (s2 & E2 & Hr & Hl2 & Hq2);
    [by eapply session_ok|done..|].
  assert (rev pins <> []) as Hne'
    by (intros E; apply Hne; rewrite <- (rev_involutive pins); by rewrite E).
  assert (Forall (fun p => 0 <= p < 64) (rev pins)) as Hp' by by apply Forall_rev.
  destruct (configured_frame t (rev pins) (s_host s1)) as (Hfb & B2 & B12 & _);
    [apply Hse1|apply Hse1|done..|].
  exists s2, (s_host s1). split_and!; try done.
  - by eapply converse_app, converse_one.
  - intros f Hs. apply (shows_compound t (rev pins)) in Hs; [|apply Hse1|apply Hse1|done..].
    destruct Hs as [HR HL Hv]. constructor; try done. intros r Hr'. rewrite HR by done.
    f_equal. apply bool_decide_ext. by rewrite !list_elem_of_In, <- in_rev.
  - split; congruence.
Qed.

Lemma fault_run {hw : FlashHW} {outside : Board}
    (wm t time : Z) (pins : list Z) (s : sys hw) :
  session t [] wm s -> g_bLoose (s_host s) <> 1 ->
  0 <= wm <= 16 -> 0 <= t <= 4 -> 0 <= time <= 65500 ->
  pins <> [] -> NoDup pins -> Forall (fun p => 0 <= p < 64) pins ->
  wp (converse (fault_messages wm t time pins)) (fun rs s' =>
    rs = fault_answers wm time pins /\ shows_fault t pins (s_fiu s') /\
    unit_ok wm s' /\ g_workStatus (s_host s') = 1 /\ times time (tr (s_fiu s'))) s.
Proof.
  intros Hse Hloose Hwm Ht Htime Hne Hnd Hp. apply wp_Done.
  destruct (prepared wm t time pins s) as (s2 & h & E & Hr & Hsh & Hfb & B2 & B12 & Hl & _); [done..|].
  destruct (start_message_run (frame_list h) time wm s2)
    as (s3 & E3 & Hs & Hok & Hst & Htm & _); [done..|lia|lia|done|by rewrite Hl|].
  exists (fault_answers wm time pins), s3. split_and!; try done; [|by apply Hsh].
  rewrite fault_messages_start, fault_answers_start. by eapply converse_app, converse_one.
Qed.

(** C3: a compound fault asked for over UDP is the fault that the board shows. From
    a unit with nothing configured, the messages for the channels [pins] (below 64,
    no two equal) of type [t] without load, then "done" with a time, then "start",
    are each answered with success and leave closed exactly the relays of those
    channels, high exactly the bus lines of the type in their output registers (after
    a loose contact line 6 stays with TIM10, see [frame_shows_fault]), and TIM2 set to
    the time. *)
Theorem fault_is_shown {hw : FlashHW} {outside : Board}
    (wm t time : Z) (pins : list Z) (s : sys hw) :
  session t [] wm s -> g_bLoose (s_host s) <> 1 ->
  0 <= wm <= 16 -> 0 <= t <= 4 -> 0 <= time <= 65500 ->
  pins <> [] -> NoDup pins -> Forall (fun p => 0 <= p < 64) pins ->
  wp (converse (fault_messages wm t time pins)) (fun rs s' =>
    rs = fault_answers wm time pins /\ shows_fault t pins (s_fiu s') /\
    unit_ok wm s' /\ g_workStatus (s_host s') = 1 /\ times time (tr (s_fiu s'))) s.
Proof. exact (fault_run wm t time pins s). Qed.

(** ** The unit at power-up *)
Definition quiet_board : Board := fun _ _ => false.
Definition unit_boot : sys word_flash :=
  Sys host_ready (boot_with (replicate 17 0)) fresh_flash settings_boot ring_boot 0.

Lemma unit_boot_ok : unit_ok 0 unit_boot.
Proof. constructor; [apply host_ready_ok|by apply boot_with_ok|done|done]. Qed.

Lemma unit_boot_session t : session t [] 0 unit_boot.
Proof.
  constructor; [|done|by apply boot_with_ok|done|done].
  by apply (configured_ready t (replicate 8 0)); [|apply (bool_decide_eq_true_1 _)].
Qed.

Lemma fault_is_shown_witness :
  wp (converse (outside := quiet_board) (fault_messages 0 1 500 [3; 40])) (fun rs s' =>
    rs = fault_answers 0 500 [3; 40] /\ shows_fault 1 [3; 40] (s_fiu s') /\
    unit_ok 0 s' /\ g_workStatus (s_host s') = 1 /\ times 500 (tr (s_fiu s'))) unit_boot.
Proof.
  apply (fault_is_shown (outside := quiet_board) 0 1 500 [3; 40] unit_boot).
  - apply unit_boot_session.
  - discriminate.
  - lia.
  - lia.
  - lia.
  - discriminate.
  - by apply (bool_decide_eq_true_1 _).
  - by apply (bool_decide_eq_true_1 _).
Defined.

(** ** Reset *)

(** C19: the reset message, in any state of the unit, the alarm included, leaves the
    board at rest and both timers stopped, and is answered with the error number in
    byte 2, 0 for success.  If no error is set the configuration is empty after it;
    otherwise it is kept as it was.  The "loose contact" flag survives either way. *)
Theorem reset_opens_everything {hw : FlashHW} {outside : Board} (m : list Z) (s : sys hw) :
  host_ok (s_host s) -> fiu_ok (s_fiu s) -> is_u8 (g_Error s) ->
  length m = 8%nat -> Forall is_u8 m -> take 2 m = [0x11; g_WorkMode (s_host s)] ->
  let d := <[2%nat := g_Error s]> m in
  wp (HostCanDataAnalysisNoLoopBuf m) (fun r s' =>
    r = d /\ at_rest (s_fiu s') /\ fiu_ok (s_fiu s') /\
    tim2 (tr (s_fiu s')) = None /\ tim10 (tr (s_fiu s')) = None /\
    reset_config (g_Error s) d (s_host s) (s_host s') /\ g_Error s' = g_Error s) s.
Proof.
  intros Hh Hf He Hlen H8 Htake d. apply wp_Done.
  destruct m as [|m0 [|m1 m]]; try done. injection Htake as -> ->.
  destruct (udp_reset_run (0x11 :: g_WorkMode (s_host s) :: m) s) as (s' & E & H); [done..|].
  exists d, s'. split; [exact E|]. split; [done|exact H].
Qed.

(** The unit in the alarm state. *)
Definition unit_alarmed : sys word_flash := unit_boot <| g_Error := 1 |>.

Lemma reset_opens_everything_witness :
  let d := <[2%nat := g_Error unit_alarmed]> (reset_message 0) in
  d = [0x11; 0; 1; 0; 0; 0; 0; 0] /\
  wp (HostCanDataAnalysisNoLoopBuf (outside := quiet_board) (reset_message 0)) (fun r s' =>
    r = d /\ at_rest (s_fiu s') /\ fiu_ok (s_fiu s') /\
    tim2 (tr (s_fiu s')) = None /\ tim10 (tr (s_fiu s')) = None /\
    reset_config (g_Error unit_alarmed) d (s_host unit_alarmed) (s_host s') /\
    g_Error s' = g_Error unit_alarmed) unit_alarmed.
Proof.
  intros d. split; [reflexivity|].
  apply (reset_opens_everything (outside := quiet_board) (reset_message 0) unit_alarmed).
  - apply (uo_host _ _ unit_boot_ok).
  - apply (uo_fiu _ _ unit_boot_ok).
  - by vm_compute.
  - reflexivity.
  - by apply (bool_decide_eq_true_1 _).
  - reflexivity.
Defined.

(** ** Loose contacts *)

(** C38: the "loose contact" flag is never cleared: once a loose contact has been
    configured, and its frequency wiped by a reset, the next fault, a plain one set
    up correctly, divides by zero when it starts. *)
Theorem stale_loose_traps {hw : FlashHW} {outside : Board}
    (wm t time : Z) (pins : list Z) (s : sys hw) :
  session t [] wm s -> g_bLoose (s_host s) = 1 -> g_Pfreq (s_host s) = 0 ->
  0 <= wm <= 16 -> 0 <= t <= 4 -> 0 <= time <= 65500 ->
  pins <> [] -> NoDup pins -> Forall (fun p => 0 <= p < 64) pins ->
  converse (fault_messages wm t time pins) s = Undefined DivByZero.
Proof.
  intros Hse Hloose Hfreq Hwm Ht Htime Hne Hnd Hp.
  destruct (prepared wm t time pins s)
    as (s2 & h & E & [[Hh Hf He Hw] Hfr Hti] & Hsh & Hfb & B2 & B12 & Hl & Hq); [done..|].
  rewrite fault_messages_start. eapply converse_undefined; [exact E|].
  apply (udp_message_undefined 16 _ udp_start);
    [by apply (list_elem_of_lookup_2 _ 6)|done|done|by rewrite Hw|].
  pose proof (frame_shows 0 (stopped (s_fiu s2)) (frame_list h) (stopped_ok _ Hf) Hfr Hfb
    ltac:(rewrite B2; lia) ltac:(rewrite B2; done)) as Hshow.
  destruct (proj1 (wp_Done _ _ _) Hshow) as ([] & f1 & E1 & _).
  apply bind_Undefined, (start_loose_undefined _ f1); [done|..|exact E1].
  - by etrans; [exact Hl|].
  - by etrans; [exact Hq|].
Qed.

Definition unit_stale : sys word_flash :=
  unit_boot <| s_host := host_ready <| g_bLoose := 1 |> |>.

Lemma unit_stale_session t : session t [] 0 unit_stale.
Proof.
  destruct (unit_boot_session t) as [[Hok Hcmd Htype Hflags HP0 HP1] Hres Hfiu He Hw].
  constructor; [|done..]. constructor; [|done..]. destruct Hok. by constructor.
Qed.

Lemma stale_loose_traps_witness :
  converse (outside := quiet_board) (fault_messages 0 2 0 [7]) unit_stale = Undefined DivByZero.
Proof.
  apply (stale_loose_traps (outside := quiet_board) 0 2 0 [7] unit_stale).
  - apply unit_stale_session.
  - reflexivity.
  - reflexivity.
  - lia.
  - lia.
  - lia.
  - discriminate.
  - by apply (bool_decide_eq_true_1 _).
  - by apply (bool_decide_eq_true_1 _).
Defined.

(** Starting a loose contact of [f] Hz and [d] percent makes PF6 the output of
    TIM10, whose period is 10000/f ticks of its prescaler and whose compare value
    is the part of the period left by the duty, at least one tick and at most the
    period; the time limit is set as for any fault. *)
Theorem loose_contact_pwm {hw : FlashHW} (s : sys hw) (f1 : fiu) :
  fiu_ok (s_fiu s) -> host_ok (s_host s) -> g_bLoose (s_host s) = 1 ->
  1 <= g_Pfreq (s_host s) <= 99 -> 0 <= g_Pduty (s_host s) <= 100 ->
  FiuCom_Process 0 (stopped (s_fiu s)) = Done tt f1 ->
  wp startFault (fun _ s' => exists ccr,
    let arr := 10000 / g_Pfreq (s_host s) in
    1 <= ccr <= arr /\ (ccr = (100 - g_Pduty (s_host s)) * arr / 100 \/ ccr = 1) /\
    tim10 (tr (s_fiu s')) = Some (18000, arr - 1, ccr - 1) /\
    pin_mode (tr (s_fiu s')) CTRLBUS6 = Some AF_PP /\
    times (g_Ptime (s_host s)) (tr (s_fiu s'))) s.
Proof.
  intros Hf Hh Hl Hq Hd E. unfold wp. rewrite (startFault_run _ _ E). unfold start_timers.
  destruct (FiuCom_Process_extends _ _ _ (stopped_ok _ Hf) E) as (es & Ht & Hes).
  rewrite bind_gets. change (g_bLoose (s_host (started f1 s))) with (g_bLoose (s_host s)).
  rewrite Hl. cbn [Z.eqb Pos.eqb].
  rewrite (bind_Done _ _ _ _ _ (start_loose_run (started f1 s) Hq Hd)), bind_gets.
  change (g_Pfreq (s_host (started f1 s))) with (g_Pfreq (s_host s)).
  change (g_Pduty (s_host (started f1 s))) with (g_Pduty (s_host s)).
  destruct (pwm_bounds _ _ Hq Hd) as [Ha Hc].
  change (g_Ptime (s_host _)) with (g_Ptime (s_host s)).
  destruct (hok_time _ Hh) as [Ht0 Ht1]. unfold times.
  destruct (Z.gtb_spec (g_Ptime (s_host s)) 0) as [Hpos|Hpos].
  - rewrite TIM2_Init_run by done.
    exists (pwm_ccr (g_Pfreq (s_host s)) (g_Pduty (s_host s))).
    rewrite (proj2 (Z.eqb_neq _ _)) by lia. 
    split_and!; try done; unfold pwm_ccr, pwm_arr in *; lia.
  - exists (pwm_ccr (g_Pfreq (s_host s)) (g_Pduty (s_host s))).
    rewrite (proj2 (Z.eqb_eq (g_Ptime _) 0)) by lia.
    assert (tim2 (tr f1) = None) by (by rewrite Ht, tim2_quiet).
    split_and!; try done; unfold pwm_ccr, pwm_arr in *; lia.
Qed.

(** A loose contact of 10 Hz and 30 percent. *)
Definition unit_loose : sys word_flash :=
  Sys (host_ready <| g_bLoose := 1 |> <| g_Pfreq := 10 |> <| g_Pduty := 30 |>)
    (boot_with frame_short) fresh_flash settings_boot ring_boot 0.

Lemma unit_loose_runs : exists f1, FiuCom_Process 0 (stopped (s_fiu unit_loose)) = Done tt f1.
Proof.
  assert (wp (FiuCom_Process 0) (fun _ s' => shows frame_short s' /\ fiu_ok s')
    (stopped (s_fiu unit_loose))) as H.
  { apply (frame_shows 0 _ frame_short).
    - by apply stopped_ok, boot_with_ok.
    - reflexivity.
    - by apply frame_bytes_intro.
    - by split.
    - discriminate. }
  destruct (proj1 (wp_Done _ _ _) H) as ([] & f1 & E & _). exact (ex_intro _ f1 E).
Qed.

Lemma unit_loose_ok : host_ok (s_host unit_loose).
Proof. destruct host_ready_ok. by constructor. Qed.

Lemma loose_freq : 1 <= g_Pfreq (s_host unit_loose) <= 99.
Proof. by split. Qed.
Lemma loose_duty : 0 <= g_Pduty (s_host unit_loose) <= 100.
Proof. by split. Qed.

Lemma loose_contact_pwm_witness :
  wp startFault (fun _ s' => exists ccr,
    let arr := 10000 / g_Pfreq (s_host unit_loose) in
    1 <= ccr <= arr /\ (ccr = (100 - g_Pduty (s_host unit_loose)) * arr / 100 \/ ccr = 1) /\
    tim10 (tr (s_fiu s')) = Some (18000, arr - 1, ccr - 1) /\
    pin_mode (tr (s_fiu s')) CTRLBUS6 = Some AF_PP /\
    times (g_Ptime (s_host unit_loose)) (tr (s_fiu s'))) unit_loose.
Proof.
  destruct unit_loose_runs as [f1 E].
  exact (loose_contact_pwm unit_loose f1 (boot_with_ok frame_short eq_refl) unit_loose_ok eq_refl
    loose_freq loose_duty E).
Defined.

(** ** The end of the time *)
Lemma timeout_run {hw : FlashHW} (s : sys hw) : exists es,
  HAL_TIM_PeriodElapsedCallback s =
    Done tt (s <| s_fiu := (s_fiu s) <| tr ::= app es |> |>
               <| s_host := (s_host s) <| g_workStatus := 0 |> |>) /\
  writes_in [CTRLBUS6] es /\ level (es ++ tr (s_fiu s)) CTRLBUS6 = false /\
  tim2 (es ++ tr (s_fiu s)) = None /\
  (g_bLoose (s_host s) = 1 -> tim10 (es ++ tr (s_fiu s)) = None).
Proof.
  unfold HAL_TIM_PeriodElapsedCallback. rewrite bind_gets.
  destruct (Z.eqb_spec (g_bLoose (s_host s)) 1) as [El|El].
  - exists [EvTim2DeInit; EvTim2Stop; EvPin (Pin GPIOF 6) false; EvMode GPIOF [6] OUTPUT_PP;
      EvPwmDeInit; EvPwmStop]. split_and!; try done. by repeat constructor.
  - exists [EvTim2DeInit; EvTim2Stop; EvPin (Pin GPIOF 6) false; EvMode GPIOF [6] OUTPUT_PP].
    split_and!; try done. by repeat constructor.
Qed.

(** The interrupt at the end of the time of a fault takes bus line 6 low, stops
    TIM2 and the PWM of a loose contact and clears the work status; it opens no
    relay and changes no other line: the fault stays connected until the reset. *)
Theorem timeout_only_drops_line_6 {hw : FlashHW} (s : sys hw) :
  wp HAL_TIM_PeriodElapsedCallback (fun _ s' =>
    g_workStatus (s_host s') = 0 /\ tim2 (tr (s_fiu s')) = None /\
    (g_bLoose (s_host s) = 1 -> tim10 (tr (s_fiu s')) = None) /\
    bus_level (s_fiu s') 6 = false /\
    (forall n, 1 <= n <= 17 -> n <> 6 -> bus_level (s_fiu s') n = bus_level (s_fiu s) n) /\
    (forall r, energised (s_fiu s') r = energised (s_fiu s) r) /\
    resistance (s_fiu s') = resistance (s_fiu s)) s.
Proof.
  destruct (timeout_run s) as (es & E & W & Hlow & H2 & H10). unfold wp. rewrite E.
  assert (forall p, p ∈ [CTRLBUS6] -> p ∈ CTRLBUS) as Hsub.
  { intros p ->%list_elem_of_singleton. by apply (list_elem_of_lookup_2 _ 5). }
  split_and!; try done.
  - intros n Hn Hn6. unfold bus_level.
    destruct (index CTRLBUS (n - 1)) as [p|] eqn:Hp; [|done].
    eapply level_writes_in; [exact W|]. intros ->%list_elem_of_singleton.
    apply index_Some in Hp as [_ Hp].
    assert (Z.to_nat (n - 1) = 5%nat); [|lia].
    eapply (NoDup_lookup CTRLBUS); [by apply (bool_decide_eq_true_1 _)|exact Hp|done].
  - intros r. apply energised_register, register_writes_in.
    eapply writes_in_mono; [|exact W]. intros p Hp. apply elem_of_app. left. by apply Hsub.
  - apply resistance_writes_in.
    eapply writes_in_mono; [|exact W]. intros p Hp. apply elem_of_app. right. by apply Hsub.
Qed.

(** ** Messages that are not for this unit *)
Section ignored.
Context {hw : FlashHW} {outside : Board}.
Implicit Types s : sys hw.

Lemma on_cmd_other_mode {A} c body (k : unit -> M (sys hw) A) s b :
  message b s -> g_WorkMode (s_host s) <> msg (s_host s) 1 ->
  (on_cmd c body ≫= k) s = k tt s.
Proof.
  intros Hm Hw. apply bind_Done. rewrite (on_cmd_run _ _ _ _ Hm), (proj2 (Z.eqb_neq _ _) Hw).
  by rewrite andb_false_r.
Qed.

Lemma udp_blocks_other_mode s b :
  message b s -> g_WorkMode (s_host s) <> msg (s_host s) 1 -> b <> 0x13 ->
  udp_blocks s = Done tt s.
Proof.
  intros Hm Hw Hb. unfold udp_blocks.
  do 9 rewrite (on_cmd_other_mode _ _ _ s b Hm Hw).
  rewrite (workmode_skip _ s b Hm) by (apply Z.eqb_neq; congruence).
  do 3 rewrite (on_cmd_other_mode _ _ _ s b Hm Hw).
  by rewrite (on_cmd_run _ _ _ _ Hm), (proj2 (Z.eqb_neq _ _) Hw), andb_false_r.
Qed.
End ignored.

(** A message for another work mode (other than 0x13, which has none) comes back
    unchanged and changes nothing but the message buffer; fewer than eight bytes are
    read past their end. *)
Theorem other_mode_ignored {hw : FlashHW} {outside : Board} (m : list Z) (s : sys hw) :
  g_WorkMode (s_host s) <> nth 1 m 0 -> nth 0 m 0 <> 0x13 ->
  HostCanDataAnalysisNoLoopBuf m s =
  if (8 <=? length m)%nat then Done m (receive (take 8 m) s) else Undefined OutOfBounds.
Proof.
  intros Hw Hb. unfold HostCanDataAnalysisNoLoopBuf.
  destruct (Nat.leb_spec 8 (length m)) as [Hl|Hl]; [|done].
  assert (length (take 8 m) = 8%nat) as Hl8 by (rewrite length_take; lia).
  rewrite (bind_Done _ _ _ tt (receive (take 8 m) s)).
  2: { unfold in_host. by erewrite zoom_Done by reflexivity. }
  assert (forall i, (i < 2)%nat -> nth i (take 8 m) 0 = nth i m 0) as Hnth.
  { intros i Hi. destruct m as [|? [|? m]]; [done|cbn in Hl; lia|]. by destruct i as [|[|i]]; [..|lia]. }
  rewrite (bind_Done _ _ _ tt (receive (take 8 m) s)).
  - rewrite bind_gets. change (g_DataFromHost _) with (take 8 m). by rewrite take_drop.
  - apply (udp_blocks_other_mode _ (nth 0 m 0)); [|  |done].
    + split; [done|]. change (nth 0 (take 8 m) 0 = nth 0 m 0). apply Hnth. lia.
    + change (g_WorkMode (s_host s) <> nth 1 (take 8 m) 0). by rewrite Hnth by lia.
Qed.

Lemma other_mode_ignored_witness :
  HostCanDataAnalysisNoLoopBuf (outside := quiet_board) (start_message 3) unit_boot =
  Done (start_message 3) (receive (start_message 3) unit_boot).
Proof.
  apply (other_mode_ignored (outside := quiet_board) (start_message 3) unit_boot).
  - discriminate.
  - discriminate.
Defined.
