(* ===== verification/CanSessions.v ===== *)
(** * The host over CAN

    [HostCanDataAnalysis], the task that empties the ring of CAN messages: each
    call takes the oldest message out and answers it by a CAN message. *)
From Stdlib Require Import ZArith Lia.
From stdpp Require Import base tactics decidable list list_numbers numbers.
From S2P Require Import Prelude Board Relay RelaySpec Frames Io HostConfig HostConfigSpec Flash FlashSpec Can Timers Dispatch DispatchSpec Sessions.
Open Scope Z_scope.
Open Scope c_scope.

Section can.
Context {hw : FlashHW} {outside : Board}.
Implicit Types s : sys hw.

Lemma in_ring_run {A} (m : M ring A) s a r :
  m (s_ring s) = Done a r -> in_ring m s = Done a (s <| s_ring := r |>).
Proof. unfold in_ring, zoom. by intros ->. Qed.

(** The commands after command 5, each answered on its own. *)
Definition can_table : list (Z * M (sys hw) unit) :=
  [(0x10, can_start); (0x11, can_reset); (0x1A, can_fuses); (0x1D, can_status)].

Lemma can_blocks_run c body s s' r' :
  (c, body) ∈ can_table -> message c s -> g_WorkMode (s_host s) = msg (s_host s) 1 ->
  body s = Done tt s' -> message c s' -> ring_advance (s_ring s') = Done tt r' ->
  can_blocks s = Done 1 (s' <| s_ring := r' |>).
Proof.
  intros Hin Hm Hw Hbody Hm' Hr. unfold can_table in Hin. rewrite !elem_of_cons in Hin.
  destruct_or! Hin; [injection Hin as -> ->..|by apply not_elem_of_nil in Hin];
    unfold can_blocks;
    repeat rewrite (on_cmd_skip _ _ _ s _ Hm) by reflexivity;
    erewrite on_cmd_take by eassumption;
    repeat rewrite (on_cmd_skip _ _ _ s' _ Hm') by reflexivity;
    by rewrite (bind_Done _ _ _ _ _ (in_ring_run _ _ _ _ Hr)).
Qed.

(** The head of the function, for a message of which no configuration block wants
    to know. *)
Lemma can_head_run m q s c :
  ring_ok (s_ring s) -> queue (s_ring s) = m :: q -> length m = 8%nat ->
  nth 0 m 0 = c -> 4 < c ->
  HostCanDataAnalysis s =
  (b0 ← in_host (rd g_DataFromHost 0);
   b1 ← in_host (rd g_DataFromHost 1);
   wm ← gets (fun s => g_WorkMode (s_host s));
   early ← (if (0x5 =? b0) && (wm =? b1) then can_done else mret None);
   match early with Some rt => mret rt | None => can_blocks end) (receive m s).
Proof.
  intros Hok Hq Hl Hc Hc4. destruct (ring_pop _ _ _ Hok Hq) as (r' & Hread & _ & _ & _ & _).
  destruct (pending_spec _ Hok) as (_ & _ & Hp & _).
  assert (g_IntrDataCur (s_ring s) <> g_DealDataCur (s_ring s)) as Hne.
  { intros E. apply Hp in E. unfold queue in Hq. by rewrite E in Hq. }
  unfold HostCanDataAnalysis. rewrite bind_gets, (proj2 (Z.eqb_neq _ _) Hne). cbn [negb].
  rewrite (bind_Done _ _ _ m s).
  2: { erewrite in_ring_run by exact Hread. by rewrite upd_same. }
  rewrite (bind_Done _ _ _ tt (receive m s)) by (unfold in_host; by erewrite zoom_Done by reflexivity).
  assert (message c (receive m s)) as Hm by done.
  do 5 rewrite (on_cmd_skip _ _ _ _ _ Hm) by (apply Z.eqb_neq; lia). done.
Qed.

Lemma can_message_run c m q body s s' :
  ring_ok (s_ring s) -> queue (s_ring s) = m :: q -> length m = 8%nat ->
  (c, body) ∈ can_table -> nth 0 m 0 = c -> nth 1 m 0 = g_WorkMode (s_host s) ->
  body (receive m s) = Done tt s' -> message c s' -> s_ring s' = s_ring s ->
  exists r', HostCanDataAnalysis s = Done 1 (s' <| s_ring := r' |>) /\ ring_ok r' /\ queue r' = q.
Proof.
  intros Hok Hq Hl Hin Hc Hw Hbody Hm' Hring.
  destruct (ring_pop _ _ _ Hok Hq) as (r' & _ & Hadv & Hok' & Hq' & _). exists r'.
  split; [|done]. assert (5 < c) as Hc4.
  { unfold can_table in Hin. rewrite !elem_of_cons in Hin.
    destruct_or! Hin; [injection Hin; lia..|by apply not_elem_of_nil in Hin]. }
  erewrite can_head_run; [|done|done|done|done|lia].
  rewrite (bind_Done _ _ _ _ _ (in_host_rd 0 (receive m s) Hl ltac:(lia))).
  rewrite (bind_Done _ _ _ _ _ (in_host_rd 1 (receive m s) Hl ltac:(lia))), bind_gets.
  change (msg (s_host (receive m s)) 0) with (nth 0 m 0). rewrite Hc.
  rewrite (proj2 (Z.eqb_neq 5 c)) by lia. cbn [andb]. rewrite bind_ret.
  eapply can_blocks_run; [done|done|exact (eq_sym Hw)|done|done|by rewrite Hring].
Qed.

(** The answer of a message. *)
Lemma can_reply_run s :
  length (g_DataFromHost (s_host s)) = 8%nat ->
  can_reply s = Done tt (s <| s_fiu ::= emit_event
    (EvCanTx (g_RemoteCanId (s_set s)) (g_DataFromHost (s_host s))) |>).
Proof.
  intros Hl. unfold can_reply, CAN1_Send_Msg. rewrite !bind_gets, Hl. cbn [Nat.leb].
  by rewrite take_ge by lia.
Qed.

Lemma can_reset_run m s f d :
  host_ok (s_host s) -> fiu_ok (s_fiu s) -> is_u8 (g_Error s) -> length m = 8%nat -> Forall is_u8 m ->
  FiuCom_Process 0 (reset_prefix 0 (s_fiu s)) = Done tt f -> d = <[2%nat := g_Error s]> m ->
  exists h', can_reset (receive m s) =
    Done tt (s <| s_fiu := f <| tr ::= cons (EvCanTx (g_RemoteCanId (s_set s)) d) |> |> <| s_host := h' |>) /\
    reset_config (g_Error s) d (s_host s) h'.
Proof.
  intros Hh Hf He Hlen H8 E Hd. assert (length d = 8%nat) as Hdl by by rewrite Hd, length_insert.
  set (f' := f <| tr ::= cons (EvCanTx (g_RemoteCanId (s_set s)) d) |>).
  destruct (reset_clears (g_Error s) d (s <| s_fiu := f' |>) (s_host s)) as (h' & Ec & Hcfg).
  { apply received_ok; [done|rewrite Hd; by apply Forall_insert|done]. }
  exists h'. split; [|exact Hcfg]. unfold can_reset.
  rewrite (bind_Done _ _ _ tt ((receive m s) <| s_fiu := stopped (s_fiu s) |>)) by done.
  rewrite (bind_Done release_PF6 _ _ tt ((receive m s) <| s_fiu := (stopped (s_fiu s)) <| tr ::= app
    [EvPin (Pin GPIOF 6) false; EvMode GPIOF [6] OUTPUT_PP] |> |>)) by done.
  etrans; [apply bind_Done, in_fiu_run, reset_frame_run, Hf|].
  etrans; [apply bind_Done, in_fiu_run, E|]. rewrite bind_gets, !upd_upd.
  change (g_Error ((receive m s) <| s_fiu := f |>)) with (g_Error s).
  assert (forall v (k : M (sys hw) unit), v = g_Error s -> (answer 2 v ;; k) ((receive m s) <| s_fiu := f |>) =
    k ((s <| s_fiu := f |>) <| s_host := received d (s_host s) |>)) as Ha.
  { intros v k ->. etrans; [by apply bind_Done, (answer_received 2 _ m _ (s_host s))|]. by rewrite Hd. }
  assert (can_reply ((s <| s_fiu := f |>) <| s_host := received d (s_host s) |>) =
    Done tt (s <| s_fiu := f' |> <| s_host := received d (s_host s) |>)) as Hr by by rewrite can_reply_run.
  destruct (Z.eqb_spec (g_Error s) 0) as [E0|_]; cbn [negb].
  - etrans; [by apply Ha|]. rewrite (bind_Done _ _ _ _ _ Hr). exact Ec.
  - etrans; [by apply Ha|]. rewrite Hr. exact Ec.
Qed.
End can.

(** C20: a reset over CAN, in any state of the unit, the alarm included, takes its
    message out of the ring, leaves the board at rest and both timers stopped, and
    sends the message back to the host's identifier with the error number in byte 2.
    If no error is set the configuration is empty after it; otherwise it is kept. *)
Theorem can_reset_opens_everything {hw : FlashHW} {outside : Board}
    (m : list Z) (q : list (list Z)) (s : sys hw) :
  host_ok (s_host s) -> fiu_ok (s_fiu s) -> is_u8 (g_Error s) ->
  ring_ok (s_ring s) -> queue (s_ring s) = m :: q ->
  length m = 8%nat -> Forall is_u8 m -> take 2 m = [0x11; g_WorkMode (s_host s)] ->
  let d := <[2%nat := g_Error s]> m in
  wp HostCanDataAnalysis (fun r s' =>
    r = 1 /\ ring_ok (s_ring s') /\ queue (s_ring s') = q /\
    at_rest (s_fiu s') /\ fiu_ok (s_fiu s') /\
    head (tr (s_fiu s')) = Some (EvCanTx (g_RemoteCanId (s_set s)) d) /\
    tim2 (tr (s_fiu s')) = None /\ tim10 (tr (s_fiu s')) = None /\
    reset_config (g_Error s) d (s_host s) (s_host s') /\ g_Error s' = g_Error s) s.
Proof.
  intros Hh Hf He Hrok Hq Hlen H8 Htake d. apply wp_Done.
  destruct m as [|m0 [|m1 m]]; try done. injection Htake as -> ->.
  set (msg := 0x11 :: _ :: m) in *.
  destruct (reset_driver 0 (s_fiu s) Hf) as (f & E & Hrest & Hf1 & T2 & T10).
  destruct (can_reset_run msg s f d Hh Hf He Hlen H8 E eq_refl) as (h & Er & Hcfg).
  set (f' := f <| tr ::= cons (EvCanTx (g_RemoteCanId (s_set s)) d) |>) in *.
  set (s' := s <| s_fiu := f' |> <| s_host := h |>) in *.
  destruct (can_message_run 0x11 msg q can_reset s s') as (r' & Er' & Hr1 & Hr2); try done.
  - by apply (list_elem_of_lookup_2 _ 1).
  - apply (message_data d); [apply Hcfg|by unfold d; rewrite length_insert|done].
  - exists 1, (s' <| s_ring := r' |>). split; [exact Er'|]. split_and!; try done.
    + destruct Hrest as [HR HL Hv].
      assert (writes_in [] [EvCanTx (g_RemoteCanId (s_set s)) d]) as W by by repeat constructor.
      constructor.
      * intros r Hr. etrans; [exact (energised_no_pin _ f r W)|by apply HR].
      * intros n Hn. etrans; [exact (bus_no_pin _ f n W)|by apply HL].
      * etrans; [exact (resistance_no_pin _ f W)|exact Hv].
    + by destruct Hf1.
Qed.

(** A reset waiting in the ring. *)
Definition unit_can : sys word_flash :=
  unit_boot <| s_ring := Ring (reset_message 0 ++ replicate 192 0) 0 8 |>.

Lemma unit_can_ring : ring_ok (s_ring unit_can).
Proof. constructor; [done|split; [cbn; lia|done]|split; [cbn; lia|done]]. Qed.

Lemma unit_can_ok : unit_ok 0 unit_can.
Proof. destruct unit_boot_ok. by constructor. Qed.

(** ... and the alarm raised. *)
Definition unit_can_alarmed : sys word_flash := unit_can <| g_Error := 1 |>.

Lemma can_reset_opens_everything_witness :
  let d := <[2%nat := g_Error unit_can_alarmed]> (reset_message 0) in
  d = [0x11; 0; 1; 0; 0; 0; 0; 0] /\
  wp (HostCanDataAnalysis (outside := quiet_board)) (fun r s' =>
    r = 1 /\ ring_ok (s_ring s') /\ queue (s_ring s') = [] /\
    at_rest (s_fiu s') /\ fiu_ok (s_fiu s') /\
    head (tr (s_fiu s')) = Some (EvCanTx (g_RemoteCanId (s_set unit_can_alarmed)) d) /\
    tim2 (tr (s_fiu s')) = None /\ tim10 (tr (s_fiu s')) = None /\
    reset_config (g_Error unit_can_alarmed) d (s_host unit_can_alarmed) (s_host s') /\
    g_Error s' = g_Error unit_can_alarmed) unit_can_alarmed.
Proof.
  intros d. split; [reflexivity|].
  apply (can_reset_opens_everything (outside := quiet_board) (reset_message 0) [] unit_can_alarmed).
  - apply (uo_host _ _ unit_can_ok).
  - apply (uo_fiu _ _ unit_can_ok).
  - by vm_compute.
  - apply unit_can_ring.
  - reflexivity.
  - reflexivity.
  - by apply (bool_decide_eq_true_1 _).
  - reflexivity.
Defined.

(** ** Command 5 over CAN *)
Section done.
Context {hw : FlashHW} {outside : Board}.
Implicit Types s : sys hw.

Definition can_done_message (wm time : Z) : list Z := [5; wm; time / 256; time mod 256; 0; 0; 0; 0].

(** The configuration with the time and the answer. *)
Definition can_timed (wm time : Z) (h : host) : host :=
  received [5; wm; 0; time mod 256; 0; 0; 0; 0] h <| g_Ptime := time |> <| g_bTime := 1 |>.

Lemma can_timed_ok wm time h :
  host_ok h -> 0 <= wm <= 16 -> 0 <= time <= 65500 -> host_ok (can_timed wm time h).
Proof using.
  clear. intros [] Hwm Ht. constructor; try done; [|unfold in_width; cbn; lia].
  repeat apply Forall_cons_2; try apply Forall_nil_2; unfold in_width;
    Z.to_euclidean_division_equations; lia.
Qed.

Lemma can_done_run wm time q s :
  unit_ok wm s -> ring_ok (s_ring s) -> queue (s_ring s) = can_done_message wm time :: q ->
  0 <= wm <= 16 -> 0 <= time <= 65500 ->
  exists s', HostCanDataAnalysis s = Done 1 s' /\ ring_ok (s_ring s') /\ queue (s_ring s') = q /\
    ready (frame_list (s_host s)) time wm s' /\
    tr (s_fiu s') = EvCanTx (g_RemoteCanId (s_set s)) [5; wm; 0; time mod 256; 0; 0; 0; 0]
      :: tr (s_fiu s).
Proof.
  intros [Hh Hf He Hw] Hrok Hq Hwm Ht. set (m := can_done_message wm time) in *.
  destruct (ring_pop _ _ _ Hrok Hq) as (r' & _ & Hadv & Hrok' & Hq' & _).
  set (h1 := can_timed wm time (s_host s)).
  pose proof (can_timed_ok wm time _ Hh Hwm Ht : host_ok h1) as Hok1.
  destruct (proj1 (wp_Done _ _ _) (FIU_Cmd0_CurPinFlag_init_ok h1 Hok1))
    as ([] & h2 & E2 & Hok2 & _ & (Hd & _ & Hwm2 & _) & [_ _ _ _ Htime2 _ _ _ _]).
  set (h0 := received m (s_host s) <| g_Ptime := time |> <| g_bTime := 1 |>).
  assert (frame_list h0 = frame_list (s_host s)) as Hframe by (unfold frame_list; reflexivity).
  set (f1 := (s_fiu s) <| g_FiuByte17Data := frame_list h0 |>).
  set (f2 := f1 <| tr ::= cons (EvCanTx (g_RemoteCanId (s_set s)) [5; wm; 0; time mod 256; 0; 0; 0; 0]) |>).
  set (s1 := s <| s_host := h0 |> <| s_fiu := f1 |>).
  set (s2 := s <| s_host := h1 |> <| s_fiu := f2 |> <| s_ring := r' |>).
  exists (s2 <| s_host := h2 |>). split_and!; try done.
  - erewrite can_head_run; [|done|done|done|done|cbn; lia].
    rewrite (bind_Done _ _ _ _ _ (in_host_rd 0 (receive m s) eq_refl ltac:(lia))).
    rewrite (bind_Done _ _ _ _ _ (in_host_rd 1 (receive m s) eq_refl ltac:(lia))), bind_gets.
    change (msg (s_host (receive m s)) 0) with 5. change (msg (s_host (receive m s)) 1) with wm.
    change (g_WorkMode (s_host (receive m s))) with (g_WorkMode (s_host s)).
    rewrite Hw, !Z.eqb_refl. cbn [andb].
    rewrite (bind_Done _ _ _ (Some 1) (s2 <| s_host := h2 |>)); [done|].
    unfold can_done.
    rewrite (bind_Done _ _ _ _ _ (in_host_rd 2 (receive m s) eq_refl ltac:(lia))).
    rewrite (bind_Done _ _ _ _ _ (in_host_rd 3 (receive m s) eq_refl ltac:(lia))).
    change (msg (s_host (receive m s)) 2) with (time / 256).
    change (msg (s_host (receive m s)) 3) with (time mod 256). rewrite two_bytes by lia.
    erewrite bind_Done by (unfold in_host; apply zoom_Done; reflexivity). rewrite !bind_gets.
    change (g_Error _) with (g_Error s). rewrite He.
    change (g_Ptime (s_host _)) with time. rewrite Z.gtb_ltb, (proj2 (Z.ltb_ge 65500 time)) by lia.
    cbn [Z.eqb negb].
    rewrite (bind_Done _ _ _ tt (s <| s_host := h0 |>)) by done.
    etrans; [apply bind_Done, DataAtPx_run, Hf|]. rewrite bind_gets.
    change (g_HostConfigPass _) with (g_HostConfigPass (s_host s)). rewrite (hok_pass _ Hh).
    cbn [Z.eqb].
    match goal with |- (_ ≫= _) ?st = _ => change st with s1 end.
    assert (answer 2 0 s1 = Done tt (s1 <| s_host := h1 |>)) as Ea by by apply answer_run.
    rewrite (bind_Done _ _ _ _ _ Ea).
    assert (length (g_DataFromHost (s_host (s1 <| s_host := h1 |>))) = 8%nat) as Hl1 by done.
    rewrite (bind_Done _ _ _ _ _ (can_reply_run (s1 <| s_host := h1 |>) Hl1)).
    etrans; [apply bind_Done, in_ring_run; exact Hadv|].
    match goal with |- (_ ≫= _) ?st = _ => change st with (s2 <| s_host := h1 |>) end.
    by rewrite (bind_Done _ _ _ _ _ (in_host_set _ s2 h1 tt h2 E2)).
  - constructor; [constructor|..]; try done.
    + by destruct Hf.
    + by etrans; [|exact Hw].
Qed.
End done.

(** C39: the two ports read the time of "done" in opposite byte orders: the same
    message sets a time of 256 b3 + b2 ms over UDP and of 256 b2 + b3 ms over CAN. *)
Theorem done_time_byte_order {hw : FlashHW} {outside : Board}
    (wm b2 b3 : Z) (q : list (list Z)) (s : sys hw) :
  let m := [5; wm; b2; b3; 0; 0; 0; 0] in
  unit_ok wm s -> ring_ok (s_ring s) -> queue (s_ring s) = m :: q ->
  0 <= wm <= 16 -> is_u8 b2 -> is_u8 b3 -> 256 * b3 + b2 <= 65500 -> 256 * b2 + b3 <= 65500 ->
  wp (HostCanDataAnalysisNoLoopBuf m) (fun _ s' =>
    ready (frame_list (s_host s)) (256 * b3 + b2) wm s') s /\
  wp HostCanDataAnalysis (fun _ s' => queue (s_ring s') = q /\
    ready (frame_list (s_host s)) (256 * b2 + b3) wm s') s.
Proof.
  intros m Hok Hr Hq Hwm [H2 H2'] [H3 H3'] Hu Hc. split; apply wp_Done.
  - destruct (done_message_run wm (256 * b3 + b2) s) as (s' & E & H & _); [done|done|lia|].
    unfold done_message in E.
    replace ((256 * b3 + b2) mod 256) with b2 in E by (Z.to_euclidean_division_equations; lia).
    replace ((256 * b3 + b2) / 256) with b3 in E by (Z.to_euclidean_division_equations; lia).
    exact (ex_intro _ _ (ex_intro _ s' (conj E H))).
  - destruct (can_done_run wm (256 * b2 + b3) q s) as (s' & E & _ & Hq' & H & _); [done|done| |done|lia|].
    { unfold can_done_message.
      replace ((256 * b2 + b3) mod 256) with b3 by (Z.to_euclidean_division_equations; lia).
      by replace ((256 * b2 + b3) / 256) with b2 by (Z.to_euclidean_division_equations; lia). }
    exact (ex_intro _ _ (ex_intro _ s' (conj E (conj Hq' H)))).
Qed.

(** A "done" with the bytes 1 and 2 waiting in the ring. *)
Definition unit_can_done : sys word_flash :=
  unit_boot <| s_ring := Ring ([5; 0; 1; 2; 0; 0; 0; 0] ++ replicate 192 0) 0 8 |>.

Lemma done_time_byte_order_witness :
  wp (HostCanDataAnalysisNoLoopBuf (outside := quiet_board) [5; 0; 1; 2; 0; 0; 0; 0]) (fun _ s' =>
    ready (frame_list (s_host unit_can_done)) (256 * 2 + 1) 0 s') unit_can_done /\
  wp (HostCanDataAnalysis (outside := quiet_board)) (fun _ s' => queue (s_ring s') = [] /\
    ready (frame_list (s_host unit_can_done)) (256 * 1 + 2) 0 s') unit_can_done.
Proof.
  apply (done_time_byte_order (outside := quiet_board) 0 1 2 [] unit_can_done).
  - destruct unit_boot_ok. by constructor.
  - constructor; [done|split; [cbn; lia|done]|split; [cbn; lia|done]].
  - reflexivity.
  - lia.
  - by split.
  - by split.
  - lia.
  - lia.
Defined.
