(* ===== verification/FuseSessions.v ===== *)
(** * The fuse test as the host sees it, over UDP and over CAN *)
From Stdlib Require Import ZArith Lia.
From stdpp Require Import base tactics decidable list list_numbers numbers.
From S2P Require Import Prelude Board Relay RelaySpec Frames Io IoSpec HostConfig HostConfigSpec Flash FlashSpec Can Timers Dispatch DispatchSpec Sessions CanSessions.
Open Scope Z_scope.
Open Scope c_scope.

Section fuse.
Context {hw : FlashHW} {outside : Board}.
Context (intact : Z -> bool).
Context (wiring : forall t k test data,
  index FUSETEST k = Some test -> index FUSEDATA k = Some data ->
  pin_in t data = level t test && intact k).
Implicit Types s : sys hw.

(** 1 for a blown fuse. *)
Definition lamp (k : Z) : Z := Z.b2z (negb (intact k)).

Definition fuse_message (wm : Z) : list Z := [0x1A; wm; 0; 0; 0; 0; 0; 0].

Definition udp_fuse_answer (wm : Z) : list Z :=
  0x1A :: wm :: (if blown intact =? 0x1f then 0 else 0xb4) :: (lamp <$> seqZ 0 5).
Definition can_fuse_answer (wm : Z) : list Z := 0x1A :: wm :: 0 :: (lamp <$> seqZ 0 5).

Lemma blown_bits :
  [Z.land (blown intact) 1; Z.shiftr (Z.land (blown intact) 2) 1;
   Z.shiftr (Z.land (blown intact) 4) 2; Z.shiftr (Z.land (blown intact) 8) 3;
   Z.shiftr (Z.land (blown intact) 16) 4] = lamp <$> seqZ 0 5 /\
  [Z.land (blown intact) 1; Z.land (Z.shiftr (blown intact) 1) 1;
   Z.land (Z.shiftr (blown intact) 2) 1; Z.land (Z.shiftr (blown intact) 3) 1;
   Z.land (Z.shiftr (blown intact) 4) 1] = lamp <$> seqZ 0 5 /\
  (blown intact = 0x1f -> lamp <$> seqZ 0 5 = [1; 1; 1; 1; 1]).
Proof using.
  clear wiring. unfold blown, lamp. change (seqZ 0 5) with [0; 1; 2; 3; 4]. cbn [foldr fmap list_fmap].
  destruct (intact 0), (intact 1), (intact 2), (intact 3), (intact 4); by split_and!.
Qed.

(** The first five writes of the answer. *)
Lemma answers_run b0 b1 v2 v3 v4 v5 v6 {A} (k : unit -> M (sys hw) A) s :
  length (g_DataFromHost (s_host s)) = 8%nat -> take 2 (g_DataFromHost (s_host s)) = [b0; b1] ->
  exists b7, (answer 2 v2 ;; answer 3 v3 ;; answer 4 v4 ;; answer 5 v5 ;; (answer 6 v6 ≫= k)) s =
  k tt (s <| s_host := (s_host s) <| g_DataFromHost := [b0; b1; v2; v3; v4; v5; v6; b7] |> |>).
Proof using.
  clear. intros Hl H2. destruct (g_DataFromHost (s_host s)) as [|d0 d] eqn:E; [done|].
  do 7 (destruct d as [|? d]; [done|]). destruct d; [|done]. injection H2 as -> ->. eexists.
  etrans; [apply bind_Done, answer_run; [by rewrite E|lia]|]. rewrite E.
  do 4 (etrans; [apply bind_Done, answer_run; [done|lia]|]). rewrite !upd_upd. reflexivity.
Qed.

Lemma emit_all_sys es s : emit_all es s = s <| s_fiu := emit_all es (s_fiu s) |>.
Proof using.
  clear. revert s. induction es as [|e es IH]; intros s; [by destruct s|].
  change (emit_all (e :: es) s) with (emit_all es (emit_event e s)). rewrite IH. done.
Qed.

(** The test itself, the same for both ports, and the state it answers in. *)
Lemma fuse_prefix wm s :
  unit_ok wm s -> 0 <= wm <= 16 ->
  exists h, clear_config (receive (fuse_message wm) s) = Done tt (s <| s_host := h |>) /\
    Fuse_check (s <| s_host := h |>) =
      Done (blown intact) (s <| s_host := h |> <| s_fiu := emit_all fuse_effects (s_fiu s) |>) /\
    host_ok h /\ g_DataFromHost h = fuse_message wm /\ cleared h /\ g_WorkMode h = wm.
Proof using All.
  intros [Hh Hf He Hw] Hwm.
  destruct (clear_config_run s (received (fuse_message wm) (s_host s)))
    as (h & E & Hok & Hcl & _ & Hd & _ & Hm & _).
  { apply received_ok; [done| |done]. repeat apply Forall_cons_2; try apply Forall_nil_2;
      unfold in_width; lia. }
  exists h. split; [exact E|]. split; [|split_and!; [done..|by etrans; [exact Hm|]]].
  rewrite (Fuse_check_run intact wiring), emit_all_sys.
  change (s_fiu (s <| s_host := h |>)) with (s_fiu s). reflexivity.
Qed.

Lemma udp_fuses_run wm s :
  unit_ok wm s -> 0 <= wm <= 16 ->
  exists s', HostCanDataAnalysisNoLoopBuf (fuse_message wm) s = Done (udp_fuse_answer wm) s' /\
    cleared (s_host s').
Proof using All.
  intros Hok Hwm. destruct (fuse_prefix wm s Hok Hwm) as (h & E1 & E2 & Hh & Hd & Hcl & Hm).
  destruct Hok as [_ _ He Hw].
  set (s1 := s <| s_host := h |> <| s_fiu := emit_all fuse_effects (s_fiu s) |>) in *.
  set (h' := h <| g_DataFromHost := udp_fuse_answer wm |>).
  exists (s1 <| s_host := h' |>). split; [|by destruct Hcl].
  apply (udp_message_run 0x1A (fuse_message wm) udp_fuses); try done.
  - by apply (list_elem_of_lookup_2 _ 8).
  - unfold udp_fuses. rewrite bind_gets. change (g_Error (receive _ s)) with (g_Error s).
    rewrite He. cbn [Z.eqb negb]. rewrite (bind_Done _ _ _ _ _ E1), (bind_Done _ _ _ _ _ E2), bind_gets.
    change (g_Error s1) with (g_Error s). rewrite He. cbn [Z.eqb negb].
    assert (length (g_DataFromHost (s_host s1)) = 8%nat) as Hl by (change (s_host s1) with h; by rewrite Hd).
    assert (take 2 (g_DataFromHost (s_host s1)) = [0x1A; wm]) as Ht
      by (change (s_host s1) with h; by rewrite Hd).
    destruct blown_bits as (B1 & _ & B3). unfold h', udp_fuse_answer.
    destruct (Z.eqb_spec (blown intact) 0x1f) as [Eb|Eb].
    + rewrite (B3 Eb).
      destruct (answers_run _ _ 0 1 1 1 1 (fun _ => answer 7 1) s1 Hl Ht) as [b7 Ea].
      etrans; [exact Ea|]. etrans; [apply answer_run; [done|lia]|]. by rewrite upd_upd.
    + rewrite (bind_Done _ _ _ 0xb4 s1).
      2: { unfold in_host. erewrite zoom_Done by (by apply err_run; [|lia]). by rewrite upd_same. }
      rewrite <- B1.
      destruct (answers_run _ _ 0xb4 (Z.land (blown intact) 1) (Z.shiftr (Z.land (blown intact) 2) 1)
        (Z.shiftr (Z.land (blown intact) 4) 2) (Z.shiftr (Z.land (blown intact) 8) 3)
        (fun _ => answer 7 (Z.shiftr (Z.land (blown intact) 16) 4)) s1 Hl Ht) as [b7 Ea].
      etrans; [exact Ea|]. etrans; [apply answer_run; [done|lia]|]. by rewrite upd_upd.
Qed.

Lemma can_fuses_run wm q s :
  unit_ok wm s -> 0 <= wm <= 16 -> ring_ok (s_ring s) -> queue (s_ring s) = fuse_message wm :: q ->
  exists s', HostCanDataAnalysis s = Done 1 s' /\ queue (s_ring s') = q /\ cleared (s_host s') /\
    head (tr (s_fiu s')) = Some (EvCanTx (g_RemoteCanId (s_set s)) (can_fuse_answer wm)).
Proof using All.
  intros Hok Hwm Hr Hq. destruct (fuse_prefix wm s Hok Hwm) as (h & E1 & E2 & Hh & Hd & Hcl & Hm).
  destruct Hok as [_ _ He Hw].
  set (s1 := s <| s_host := h |> <| s_fiu := emit_all fuse_effects (s_fiu s) |>) in *.
  set (h' := h <| g_DataFromHost := can_fuse_answer wm |>).
  set (s2 := s1 <| s_host := h' |> <| s_fiu ::= emit_event
    (EvCanTx (g_RemoteCanId (s_set s)) (can_fuse_answer wm)) |>).
  destruct (can_message_run 0x1A (fuse_message wm) q can_fuses s s2) as (r' & E & _ & Hq'); try done.
  - by apply (list_elem_of_lookup_2 _ 2).
  - unfold can_fuses. rewrite bind_gets. change (g_Error (receive _ s)) with (g_Error s).
    rewrite He. cbn [Z.eqb negb]. rewrite (bind_Done _ _ _ _ _ E1), (bind_Done _ _ _ _ _ E2), bind_gets.
    change (g_Error s1) with (g_Error s). rewrite He. cbn [Z.eqb negb].
    assert (length (g_DataFromHost (s_host s1)) = 8%nat) as Hl by (change (s_host s1) with h; by rewrite Hd).
    assert (take 2 (g_DataFromHost (s_host s1)) = [0x1A; wm]) as Ht
      by (change (s_host s1) with h; by rewrite Hd).
    destruct blown_bits as (_ & B2 & _). unfold s2, h', can_fuse_answer. rewrite <- B2.
    destruct (answers_run _ _ 0 (Z.land (blown intact) 1) (Z.land (Z.shiftr (blown intact) 1) 1)
      (Z.land (Z.shiftr (blown intact) 2) 1) (Z.land (Z.shiftr (blown intact) 3) 1)
      (fun _ => answer 7 (Z.land (Z.shiftr (blown intact) 4) 1) ;; can_reply) s1 Hl Ht) as [b7 Ea].
    etrans; [exact Ea|]. etrans; [apply bind_Done, answer_run; [done|lia]|]. rewrite upd_upd.
    etrans; [by apply can_reply_run|]. reflexivity.
  - exists (s2 <| s_ring := r' |>). split_and!; try done. by destruct Hcl.
Qed.
End fuse.

(** The fuse command answers the state of the five fuses as bytes 3 to 7 on both
    ports, but not the same verdict in byte 2: over CAN it is always success, over
    UDP it is success exactly when all five fuses are blown, and the error 0xb4
    otherwise, also when every fuse is intact. *)
Theorem fuse_answers {hw : FlashHW} {outside : Board} (intact : Z -> bool) (wm : Z)
    (q : list (list Z)) (s : sys hw) :
  (forall t k test data, index FUSETEST k = Some test -> index FUSEDATA k = Some data ->
    pin_in t data = level t test && intact k) ->
  unit_ok wm s -> 0 <= wm <= 16 -> ring_ok (s_ring s) -> queue (s_ring s) = fuse_message wm :: q ->
  wp (HostCanDataAnalysisNoLoopBuf (fuse_message wm)) (fun r s' =>
    r = udp_fuse_answer intact wm /\ cleared (s_host s')) s /\
  wp HostCanDataAnalysis (fun r s' =>
    r = 1 /\ queue (s_ring s') = q /\ cleared (s_host s') /\
    head (tr (s_fiu s')) = Some (EvCanTx (g_RemoteCanId (s_set s)) (can_fuse_answer intact wm))) s.
Proof.
  intros Hw Hok Hwm Hr Hq. split; apply wp_Done.
  - destruct (udp_fuses_run intact Hw wm s Hok Hwm) as (s' & E & H).
    exact (ex_intro _ _ (ex_intro _ s' (conj E (conj eq_refl H)))).
  - destruct (can_fuses_run intact Hw wm q s Hok Hwm Hr Hq) as (s' & E & H).
    exact (ex_intro _ _ (ex_intro _ s' (conj E (conj eq_refl H)))).
Qed.

Definition unit_fuse : sys word_flash :=
  unit_boot <| s_ring := Ring (fuse_message 0 ++ replicate 192 0) 0 8 |>.

Lemma fuse_answers_witness :
  wp (HostCanDataAnalysisNoLoopBuf (outside := fuse_board) (fuse_message 0)) (fun r s' =>
    r = [0x1A; 0; 0xb4; 0; 1; 0; 0; 0] /\ cleared (s_host s')) unit_fuse /\
  wp (HostCanDataAnalysis (outside := fuse_board)) (fun r s' =>
    r = 1 /\ queue (s_ring s') = [] /\ cleared (s_host s') /\
    head (tr (s_fiu s')) = Some (EvCanTx 0x1FFFFFFF [0x1A; 0; 0; 0; 1; 0; 0; 0])) unit_fuse.
Proof.
  apply (fuse_answers (outside := fuse_board) (fun k => negb (k =? 1)) 0 [] unit_fuse).
  - apply wired_fuses.
  - destruct unit_boot_ok. by constructor.
  - lia.
  - constructor; [done|split; [cbn; lia|done]|split; [cbn; lia|done]].
  - reflexivity.
Defined.
