(* ===== verification/Malloc.v ===== *)
(** * Memory pools: src/MALLOC/malloc.c

    Three pools of 64-byte blocks, each with a table that holds, for every block,
    0 when it is free and the length of its allocation otherwise; a search from
    the top of the pool, and a release that clears as many entries as the table
    says. The address of the first pool is chosen by the linker: [mem1base]. *)
From Stdlib Require Import ZArith Lia.
From stdpp Require Import base tactics decidable list list_numbers numbers functions.
From S2P Require Import Prelude Flash.
Open Scope Z_scope.
Open Scope c_scope.

Definition SRAMIN : Z := 0.
Definition SRAMEX : Z := 1.
Definition SRAMCCM : Z := 2.

Definition MEM1_MAX_SIZE : Z := 100 * 1024.
Definition MEM2_MAX_SIZE : Z := 28912 * 1024.
Definition MEM3_MAX_SIZE : Z := 60 * 1024.

Definition memtblsize : list Z := [MEM1_MAX_SIZE / 64; MEM2_MAX_SIZE / 64; MEM3_MAX_SIZE / 64].
Definition memblksize : list Z := [64; 64; 64].
Definition memsize : list Z := [MEM1_MAX_SIZE; MEM2_MAX_SIZE; MEM3_MAX_SIZE].

(** A conversion to [int]. *)
Definition s32 (z : Z) : Z := (z + 2 ^ 31) mod 2 ^ 32 - 2 ^ 31.

(** [mallco_dev], and the memory the pools lie in. *)
Record dev := Dev {
  memmap : list (list Z);
  memrdy : list Z;
  ram : Z -> Z;
}.
#[export] Instance dev_eta : Eta dev := fun d => Dev (memmap d) (memrdy d) (ram d).
#[export] Instance upd_memmap : Upd memmap := ltac:(derive_upd).
#[export] Instance upd_memrdy : Upd memrdy := ltac:(derive_upd).
#[export] Instance upd_ram : Upd ram := ltac:(derive_upd).

(** The value 0xFFFFFFFF of [my_mem_malloc]. *)
Definition NOMEM : Z := 0xFFFFFFFF.

(** [mymemcpy] and [mymemset]: a byte at a time, in increasing order. *)
Definition mymemcpy (des src n : Z) : M dev unit :=
  for_each (zseq 0 n) (fun i =>
    m ← gets ram; ram ::= <[u32 (des + i) := m (u32 (src + i))]> m).

Fixpoint mymemset (s : list Z) (c : Z) (count : nat) : option (list Z) :=
  match count, s with
  | O, _ => Some s
  | S _, [] => None
  | S count, _ :: s => cons c <$> mymemset s c count
  end.

(** A word of the table of a pool. *)
Definition rd_map (memx i : Z) : M dev Z :=
  tbl ← rd memmap memx; from_array (index tbl i).

Definition wr_map (memx i v : Z) : M dev unit :=
  tbl ← rd memmap memx;
  if bool_decide (0 <= i < Z.of_nat (length tbl))
  then wr memmap memx (<[Z.to_nat i := v]> tbl)
  else undefined OutOfBounds.

Definition my_mem_init (memx : Z) : M dev unit :=
  tbl ← rd memmap memx;
  size ← from_array (index memtblsize memx);
  bytes ← from_array (mymemset (bytes_of_words tbl) 0 (Z.to_nat (u32 (size * 4))));
  wr memmap memx (words_of_bytes (length tbl) bytes) ;;
  wr memrdy memx 1.

Definition my_mem_perused (memx : Z) : M dev Z :=
  size ← from_array (index memtblsize memx);
  used ← for_fold (zseq 0 size) 0 (fun used i =>
    v ← rd_map memx i; mret (if negb (v =? 0) then u32 (used + 1) else used));
  mret (u16 (u32 (used * 1000) / size)).

(** The search of [my_mem_malloc] below [n]: [cmemb] blocks are free from [n] on. *)
Fixpoint my_mem_search (memx blksize nmemb : Z) (n : nat) (cmemb : Z) : M dev Z :=
  match n with
  | O => mret NOMEM
  | S n =>
      let offset := Z.of_nat n in
      v ← rd_map memx offset;
      let cmemb := if v =? 0 then u32 (cmemb + 1) else 0 in
      if cmemb =? nmemb then
        for_each (zseq 0 nmemb) (fun i => wr_map memx (u32 (offset + i)) nmemb) ;;
        mret (u32 (offset * blksize))
      else my_mem_search memx blksize nmemb n cmemb
  end.

Definition my_mem_malloc (memx size : Z) : M dev Z :=
  rdy ← rd memrdy memx;
  (if rdy =? 0 then my_mem_init memx else skip) ;;
  if size =? 0 then mret NOMEM else
  blksize ← from_array (index memblksize memx);
  let nmemb := size / blksize + (if size mod blksize =? 0 then 0 else 1) in
  tblsize ← from_array (index memtblsize memx);
  my_mem_search memx blksize nmemb (Z.to_nat tblsize) 0.

Definition my_mem_free (memx offset : Z) : M dev Z :=
  rdy ← rd memrdy memx;
  if rdy =? 0 then my_mem_init memx ;; mret 1 else
  size ← from_array (index memsize memx);
  if offset <? size then
    blksize ← from_array (index memblksize memx);
    let idx := s32 (offset / blksize) in
    nmemb ← rd_map memx idx;
    for_each (zseq 0 (s32 nmemb)) (fun i => wr_map memx (s32 (idx + i)) 0) ;;
    mret 0
  else mret 2.

Section pools.
(** Where the linker places the first pool. *)
Context (mem1base : Z).

Definition membase : list Z := [mem1base; 0xC01F4000; 0x10000000].

(** A null pointer is 0. *)
Definition myfree (memx ptr : Z) : M dev unit :=
  if ptr =? 0 then skip else
  base ← from_array (index membase memx);
  my_mem_free memx (u32 (ptr - base)) ;; skip.

Definition mymalloc (memx size : Z) : M dev Z :=
  offset ← my_mem_malloc memx size;
  if offset =? NOMEM then mret 0 else
  base ← from_array (index membase memx);
  mret (u32 (base + offset)).

Definition myrealloc (memx ptr size : Z) : M dev Z :=
  offset ← my_mem_malloc memx size;
  if offset =? NOMEM then mret 0 else
  base ← from_array (index membase memx);
  mymemcpy (u32 (base + offset)) ptr size ;;
  myfree memx ptr ;;
  mret (u32 (base + offset)).
End pools.

(** The state of the pools at power-up: the tables hold anything. *)
Definition dev_ok (d : dev) : Prop :=
  length (memmap d) = 3%nat /\ length (memrdy d) = 3%nat /\
  forall memx tbl size, index (memmap d) memx = Some tbl -> index memtblsize memx = Some size ->
    Z.of_nat (length tbl) = size.
