(* ===== verification/MallocSpec.v ===== *)
(** * The pools refine a heap of disjoint blocks

    The abstract heap of a pool is the map from the first block of each live
    allocation to its length in blocks. [rep] relates it to the table of
    malloc.c; the operations of malloc.c then act on the map. *)
From Stdlib Require Import ZArith Lia.
From stdpp Require Import base tactics decidable list list_numbers numbers gmap functions.
From S2P Require Import Prelude Flash FlashSpec Malloc.
Open Scope Z_scope.
Open Scope c_scope.

#[export] Instance memmap_laws : UpdLaws memmap. Proof. upd_laws. Qed.
#[export] Instance memrdy_laws : UpdLaws memrdy. Proof. upd_laws. Qed.
#[export] Instance ram_laws : UpdLaws ram. Proof. upd_laws. Qed.

(** ** Tables *)

(** The state in which the table of a pool is [tbl]. *)
Definition set_tbl (memx : Z) (tbl : list Z) (d : dev) : dev :=
  d <| memmap := <[Z.to_nat memx := tbl]> (memmap d) |>.

Abbreviation has_tbl d memx tbl := (index (memmap d) memx = Some tbl).

Lemma has_tbl_set d memx t tbl : has_tbl d memx t -> has_tbl (set_tbl memx tbl d) memx tbl.
Proof.
  intros [Hm Hl]%index_Some. apply index_Some. split; [done|]. unfold set_tbl. rewrite upd_get.
  apply list_lookup_insert_eq. by eapply lookup_lt_Some.
Qed.

Lemma set_set_tbl memx t u d : set_tbl memx t (set_tbl memx u d) = set_tbl memx t d.
Proof. unfold set_tbl. by rewrite upd_get, upd_upd, list_insert_insert_eq. Qed.

Lemma set_tbl_same memx t d : has_tbl d memx t -> set_tbl memx t d = d.
Proof.
  intros [_ Hl]%index_Some. unfold set_tbl. rewrite list_insert_id by done. apply upd_same.
Qed.

Lemma rd_map_run d memx tbl i v :
  has_tbl d memx tbl -> index tbl i = Some v -> rd_map memx i d = Done v d.
Proof. intros Ht Hv. unfold rd_map. rewrite (bind_rd _ _ _ _ _ Ht), Hv. done. Qed.

Lemma wr_map_run d memx tbl i v :
  has_tbl d memx tbl -> 0 <= i < Z.of_nat (length tbl) ->
  wr_map memx i v d = Done tt (set_tbl memx (<[Z.to_nat i := v]> tbl) d).
Proof.
  intros Ht Hi. unfold wr_map. rewrite (bind_rd _ _ _ _ _ Ht).
  rewrite bool_decide_eq_true_2 by done. apply wr_Done.
  apply index_Some in Ht as [? ?%lookup_lt_Some]. lia.
Qed.

Lemma wr_map_oob d memx tbl i v :
  has_tbl d memx tbl -> ~ (0 <= i < Z.of_nat (length tbl)) ->
  wr_map memx i v d = Undefined OutOfBounds.
Proof.
  intros Ht Hi. unfold wr_map. rewrite (bind_rd _ _ _ _ _ Ht).
  by rewrite bool_decide_eq_false_2 by done.
Qed.

(** [tbl] with [n] entries from [k] on set to [v]. *)
Definition fill (tbl : list Z) (k n : nat) (v : Z) : list Z := blit tbl k (replicate n v).

Lemma fill_length tbl k n v :
  (k + n <= length tbl)%nat -> length (fill tbl k n v) = length tbl.
Proof. intros. apply blit_length. by rewrite length_replicate. Qed.

Lemma fill_lookup tbl k n v i :
  (k + n <= length tbl)%nat ->
  fill tbl k n v !! i = if bool_decide (k <= i < k + n)%nat then Some v else tbl !! i.
Proof.
  intros. unfold fill. rewrite blit_lookup by (by rewrite length_replicate).
  rewrite length_replicate. case_bool_decide; [|done]. by apply lookup_replicate_2; lia.
Qed.

Lemma fill_S tbl k n v :
  (k + S n <= length tbl)%nat -> <[(k + n)%nat := v]> (fill tbl k n v) = fill tbl k (S n) v.
Proof.
  intros Hl. apply list_eq. intros i. rewrite fill_lookup by done.
  destruct (decide (i = k + n)%nat) as [->|Hi].
  - rewrite list_lookup_insert_eq by (rewrite fill_length; lia).
    by rewrite bool_decide_eq_true_2 by lia.
  - rewrite list_lookup_insert_ne, fill_lookup by lia. by repeat case_bool_decide; try lia.
Qed.

(** The loops that fill a part of the table. *)
Lemma fill_map_run d memx tbl k (f : Z -> Z) v n :
  has_tbl d memx tbl -> (k + n <= length tbl)%nat ->
  (forall i, 0 <= i < Z.of_nat n -> f i = Z.of_nat k + i) ->
  for_each (zseq 0 (Z.of_nat n)) (fun i => wr_map memx (f i) v) d =
  Done tt (set_tbl memx (fill tbl k n v) d).
Proof.
  intros Ht Hn Hf. induction n as [|n IH].
  { simpl. unfold skip, mret, M_ret. f_equal. unfold fill, blit. simpl.
    rewrite Nat.add_0_r, take_drop. by rewrite set_tbl_same. }
  unfold zseq. replace (Z.of_nat (S n)) with (Z.of_nat n + 1) by lia.
  rewrite seqZ_app, for_each_app by lia.
  assert (H1 : for_each (seqZ 0 (Z.of_nat n)) (fun i => wr_map memx (f i) v) d =
    Done tt (set_tbl memx (fill tbl k n v) d)).
  { apply IH; [lia|]. intros. apply Hf. lia. }
  rewrite (bind_Done _ _ _ _ _ H1). rewrite (seqZ_cons (0 + Z.of_nat n)) by lia. simpl.
  rewrite Hf by lia. erewrite bind_Done; [done|].
  rewrite (wr_map_run _ _ (fill tbl k n v)); [|by eapply has_tbl_set|rewrite fill_length; lia].
  rewrite set_set_tbl, <- fill_S by lia. do 3 f_equal. lia.
Qed.

(** ** The abstract heap *)
Abbreviation heap := (gmap nat nat).

(** [n] blocks from [k] on that no allocation touches. *)
Definition unused (B : heap) (k n : nat) : Prop :=
  forall k' n', B !! k' = Some n' -> (k + n <= k')%nat \/ (k' + n' <= k)%nat.

(** Blocks needed for [size] bytes. *)
Definition blocks (size : Z) : Z := (size + 63) / 64.

Inductive op :=
  | Malloc (size : Z)
  | Release (offset : Z).

(** What the heap of [N] blocks promises: an allocation takes the highest place
    that fits, and is refused only when there is none; a release removes the
    allocation it is given the first block of, and nothing else. *)
Inductive heap_step (N : nat) (B : heap) : op -> Z -> heap -> Prop :=
  | step_nothing : heap_step N B (Malloc 0) NOMEM B
  | step_full size :
      0 < size ->
      (forall k, (k + Z.to_nat (blocks size) <= N)%nat -> ~ unused B k (Z.to_nat (blocks size))) ->
      heap_step N B (Malloc size) NOMEM B
  | step_malloc size k :
      0 < size ->
      (k + Z.to_nat (blocks size) <= N)%nat -> unused B k (Z.to_nat (blocks size)) ->
      (forall j, (k < j)%nat -> (j + Z.to_nat (blocks size) <= N)%nat ->
        ~ unused B j (Z.to_nat (blocks size))) ->
      heap_step N B (Malloc size) (64 * Z.of_nat k) (<[k := Z.to_nat (blocks size)]> B)
  | step_release k n offset :
      B !! k = Some n -> offset / 64 = Z.of_nat k ->
      heap_step N B (Release offset) 0 (delete k B)
  | step_idle offset :
      0 <= offset < 64 * Z.of_nat N -> unused B (Z.to_nat (offset / 64)) 1 ->
      heap_step N B (Release offset) 0 B
  | step_outside offset :
      64 * Z.of_nat N <= offset -> heap_step N B (Release offset) 2 B.

(** A client releases the first block of an allocation, or no allocation at all. *)
Definition legal (B : heap) (o : op) : Prop :=
  match o with
  | Malloc size => is_u32 size
  | Release offset =>
      is_u32 offset /\
      (is_Some (B !! Z.to_nat (offset / 64)) \/ unused B (Z.to_nat (offset / 64)) 1)
  end.

Inductive heap_run (N : nat) : heap -> list op -> list Z -> heap -> Prop :=
  | run_nil B : heap_run N B [] [] B
  | run_cons B o r B' os rs B'' :
      heap_step N B o r B' -> heap_run N B' os rs B'' -> heap_run N B (o :: os) (r :: rs) B''.

(** A client that stays legal whatever the heap answers. *)
Fixpoint legal_run (N : nat) (B : heap) (os : list op) : Prop :=
  match os with
  | [] => True
  | o :: os => legal B o /\ forall r B', heap_step N B o r B' -> legal_run N B' os
  end.

(** The table [tbl] holds the heap [B]. *)
Record rep (B : heap) (tbl : list Z) : Prop := {
  rep_block k n : B !! k = Some n ->
    (0 < n)%nat /\ forall i, (k <= i < k + n)%nat -> tbl !! i = Some (Z.of_nat n);
  rep_used i v : tbl !! i = Some v -> v <> 0 ->
    exists k n, B !! k = Some n /\ (k <= i < k + n)%nat;
  rep_disjoint k n : B !! k = Some n -> unused (delete k B) k n;
}.

(** [n] free entries from [k] on. *)
Definition room (tbl : list Z) (k n : nat) : Prop :=
  forall i, (k <= i < k + n)%nat -> tbl !! i = Some 0.

Lemma rep_bound B tbl k n : rep B tbl -> B !! k = Some n -> (k + n <= length tbl)%nat.
Proof.
  intros H HB. destruct (rep_block _ _ H _ _ HB) as [Hn Ht].
  assert (tbl !! (k + n - 1)%nat = Some (Z.of_nat n)) as ?%lookup_lt_Some by (apply Ht; lia). lia.
Qed.

Lemma room_unused B tbl k n :
  rep B tbl -> (0 < n)%nat ->
  room tbl k n <-> unused B k n /\ (k + n <= length tbl)%nat.
Proof.
  intros H Hn. split.
  - intros Hr. split.
    + intros k' n' HB. destruct (rep_block _ _ H _ _ HB) as [Hn' Ht].
      destruct (decide (k + n <= k')%nat); [by left|]. destruct (decide (k' + n' <= k)%nat); [by right|].
      assert (E1 : tbl !! Nat.max k k' = Some 0) by (apply Hr; lia).
      rewrite Ht in E1 by lia. injection E1. lia.
    + assert (tbl !! (k + n - 1)%nat = Some 0) as ?%lookup_lt_Some by (apply Hr; lia). lia.
  - intros [Hu Hl] i Hi. destruct (lookup_lt_is_Some_2 tbl i) as [v Hv]; [lia|].
    destruct (decide (v = 0)) as [->|Hv0]; [done|].
    destruct (rep_used _ _ H _ _ Hv Hv0) as (k' & n' & HB & Hi').
    destruct (Hu _ _ HB); lia.
Qed.

Lemma rep_malloc B tbl k n :
  rep B tbl -> (0 < n)%nat -> room tbl k n ->
  rep (<[k := n]> B) (fill tbl k n (Z.of_nat n)).
Proof.
  intros H Hn Hr. pose proof (proj1 (room_unused _ _ _ _ H Hn) Hr) as [Hu Hl].
  assert (HBk : B !! k = None).
  { destruct (B !! k) as [n'|] eqn:E; [|done]. destruct (rep_block _ _ H _ _ E).
    destruct (Hu _ _ E); lia. }
  split.
  - intros k' n' [[<- <-]|[Hk HB]]%lookup_insert_Some.
    + split; [done|]. intros i Hi. rewrite fill_lookup by done. by rewrite bool_decide_eq_true_2.
    + destruct (rep_block _ _ H _ _ HB) as [Hn' Ht]. split; [done|]. intros i Hi.
      rewrite fill_lookup by done. destruct (Hu _ _ HB); rewrite bool_decide_eq_false_2 by lia; auto.
  - intros i v. rewrite fill_lookup by done. case_bool_decide as Hi.
    + intros _ _. exists k, n. by rewrite lookup_insert_eq.
    + intros Hv Hv0. destruct (rep_used _ _ H _ _ Hv Hv0) as (k' & n' & HB & ?).
      exists k', n'. rewrite lookup_insert_ne by congruence. done.
  - intros k' n' [[<- <-]|[Hk HB]]%lookup_insert_Some; intros k2 n2 [Hne HB2]%lookup_delete_Some.
    + rewrite lookup_insert_ne in HB2 by done. by apply Hu.
    + apply lookup_insert_Some in HB2 as [[<- <-]|[_ HB2]].
      * destruct (Hu _ _ HB); lia.
      * apply (rep_disjoint _ _ H _ _ HB). by rewrite lookup_delete_ne.
Qed.

Lemma rep_release B tbl k n :
  rep B tbl -> B !! k = Some n -> rep (delete k B) (fill tbl k n 0).
Proof.
  intros H HB. pose proof (rep_bound _ _ _ _ H HB) as Hl.
  pose proof (rep_disjoint _ _ H _ _ HB) as Hu. split.
  - intros k' n' HB'. pose proof (Hu _ _ HB') as Hd. apply lookup_delete_Some in HB' as [Hk HB'].
    destruct (rep_block _ _ H _ _ HB') as [Hn' Ht]. split; [done|]. intros i Hi.
    rewrite fill_lookup, bool_decide_eq_false_2 by lia. auto.
  - intros i v. rewrite fill_lookup by done. case_bool_decide as Hi; [intros [= <-]; done|].
    intros Hv Hv0. destruct (rep_used _ _ H _ _ Hv Hv0) as (k' & n' & HB' & ?).
    exists k', n'. rewrite lookup_delete_ne; [done|]. intros <-. rewrite HB in HB'.
    injection HB' as ->. lia.
  - intros k' n' [Hk HB']%lookup_delete_Some k2 n2 HB2.
    apply (rep_disjoint _ _ H _ _ HB'). rewrite delete_delete in HB2.
    by apply lookup_delete_Some in HB2 as [_ ?].
Qed.

Lemma rep_empty n : rep ∅ (replicate n 0).
Proof.
  split.
  - intros k m. by rewrite lookup_empty.
  - intros i v [-> _]%lookup_replicate. done.
  - intros k m. by rewrite lookup_empty.
Qed.

(** ** The operations *)
Lemma s32_small z : - 2 ^ 31 <= z < 2 ^ 31 -> s32 z = z.
Proof. intros. unfold s32. rewrite Z.mod_small by lia. lia. Qed.

Lemma u32_small z : in_width 32 z -> u32 z = z.
Proof. apply in_width_small. Qed.

(** The three pools. *)
Lemma pool_sizes memx N :
  index memtblsize memx = Some N ->
  index memblksize memx = Some 64 /\ index memsize memx = Some (64 * N) /\ 0 < N <= 2 ^ 20.
Proof.
  intros H%index_Some. destruct H as [H0 H].
  pose proof (lookup_lt_Some _ _ _ H) as Hl. simpl in Hl.
  assert (memx = 0 \/ memx = 1 \/ memx = 2) as [-> | [-> | ->]] by lia;
    injection H as <-; vm_compute; repeat split; done || lia.
Qed.

Lemma blocks_code size : 0 <= size -> size / 64 + (if size mod 64 =? 0 then 0 else 1) = blocks size.
Proof. intros. unfold blocks. case_match; Z.to_euclidean_division_equations; lia. Qed.

(** What the search looks for: the highest place below [n]. *)
Definition found (tbl : list Z) (nm n : nat) (r : Z) (t' : list Z) : Prop :=
  (exists k, (k < n)%nat /\ room tbl k nm /\ (forall j, (k < j < n)%nat -> ~ room tbl j nm) /\
    r = 64 * Z.of_nat k /\ t' = fill tbl k nm (Z.of_nat nm)) \/
  ((forall j, (j < n)%nat -> ~ room tbl j nm) /\ r = NOMEM /\ t' = tbl).

Lemma found_below tbl nm n r t' :
  ~ room tbl n nm -> found tbl nm n r t' -> found tbl nm (S n) r t'.
Proof.
  intros Hn [(k & Hk & Hr & Hj & H)|[Hj H]].
  - left. exists k. split_and!; [lia|done| |apply H..]. intros j ?.
    destruct (decide (j = n)) as [->|]; [done|]. apply Hj. lia.
  - right. split; [|done]. intros j ?. destruct (decide (j = n)) as [->|]; [done|]. apply Hj. lia.
Qed.

Lemma search_run memx d tbl nm n c :
  has_tbl d memx tbl -> Z.of_nat (length tbl) <= 2 ^ 20 ->
  (n <= length tbl)%nat -> (c < nm)%nat -> Z.of_nat nm <= 2 ^ 26 ->
  room tbl n c -> tbl !! (n + c)%nat <> Some 0 ->
  exists r t', my_mem_search memx 64 (Z.of_nat nm) n (Z.of_nat c) d = Done r (set_tbl memx t' d) /\
    found tbl nm n r t'.
Proof.
  intros Ht HN. revert c. induction n as [|n IH]; intros c Hn Hc Hnm Hroom Hmax; simpl.
  { exists NOMEM, tbl. rewrite set_tbl_same by done. split; [done|]. right. split; [lia|done]. }
  destruct (lookup_lt_is_Some_2 tbl n) as [v Hv]; [lia|].
  rewrite (bind_Done _ _ _ _ _ (rd_map_run _ _ _ (Z.of_nat n) v Ht ltac:(by rewrite index_of_nat))).
  destruct (Z.eqb_spec v 0) as [->|Hv0].
  - assert (Hroom' : room tbl n (S c)).
    { intros i Hi. destruct (decide (i = n)) as [->|]; [done|]. apply Hroom. lia. }
    rewrite u32_small by (unfold in_width; lia).
    replace (Z.of_nat c + 1) with (Z.of_nat (S c)) by lia.
    destruct (Z.eqb_spec (Z.of_nat (S c)) (Z.of_nat nm)) as [E|E].
    + apply Nat2Z.inj in E as <-.
      assert (n + S c <= length tbl)%nat.
      { assert (tbl !! (n + c)%nat = Some 0) as ?%lookup_lt_Some by (apply Hroom'; lia). lia. }
      erewrite bind_Done.
      2:{ apply (fill_map_run _ _ tbl n); [done|done|]. intros i Hi.
          apply u32_small. unfold in_width. lia. }
      do 2 eexists. split; [reflexivity|]. left. exists n. split_and!; [lia|done|lia| |done].
      rewrite u32_small by (unfold in_width; lia). lia.
    + destruct (IH (S c)) as (r & t' & -> & Hf); [lia..|done| |].
      { by replace (n + S c)%nat with (S n + c)%nat by lia. }
      exists r, t'. split; [done|]. apply found_below; [|done].
      intros Hr. apply Hmax. apply Hr. lia.
  - rewrite (proj2 (Z.eqb_neq 0 (Z.of_nat nm))) by lia.
    destruct (IH 0%nat) as (r & t' & Hrun & Hf); [lia..| | |].
    { intros i. lia. }
    { rewrite Nat.add_0_r, Hv. congruence. }
    change (Z.of_nat 0) with 0 in Hrun. rewrite Hrun.
    exists r, t'. split; [done|]. apply found_below; [|done].
    intros Hr. specialize (Hr n ltac:(lia)). congruence.
Qed.

(** The pool [memx] of [d] is ready and holds [B]; [N] is its number of blocks. *)
Record pool (memx : Z) (N : nat) (B : heap) (d : dev) : Prop := {
  pool_size : index memtblsize memx = Some (Z.of_nat N);
  pool_ready : index (memrdy d) memx = Some 1;
  pool_table : exists tbl, has_tbl d memx tbl /\ length tbl = N /\ rep B tbl;
}.

(** [d'] differs from [d] in the table of the pool [memx] only. *)
Definition only_table (memx : Z) (d d' : dev) : Prop := exists tbl, d' = set_tbl memx tbl d.

Lemma pool_set memx N B B' d tbl tbl' :
  pool memx N B d -> has_tbl d memx tbl -> length tbl = N -> length tbl' = length tbl ->
  rep B' tbl' -> pool memx N B' (set_tbl memx tbl' d).
Proof.
  intros [Hs Hr _] Ht Hl Hl' Hrep. split; [done|by unfold set_tbl|].
  exists tbl'. split_and!; [by eapply has_tbl_set|congruence|done].
Qed.

Lemma malloc_step memx N B d size :
  pool memx N B d -> is_u32 size ->
  exists r d' B', my_mem_malloc memx size d = Done r d' /\ only_table memx d d' /\
    heap_step N B (Malloc size) r B' /\ pool memx N B' d'.
Proof.
  intros HP Hsize. pose proof (pool_sizes _ _ (pool_size _ _ _ _ HP)) as (Hb & _ & HN).
  destruct (pool_table _ _ _ _ HP) as (tbl & Ht & Hl & Hrep). unfold my_mem_malloc.
  rewrite (bind_rd _ _ _ _ _ (pool_ready _ _ _ _ HP)). simpl.
  unfold skip at 1. rewrite bind_ret. destruct (Z.eqb_spec size 0) as [->|H0].
  { exists NOMEM, d, B. split_and!; [done| |constructor|done].
    exists tbl. by rewrite set_tbl_same. }
  rewrite Hb, (pool_size _ _ _ _ HP). simpl. rewrite !bind_ret, Nat2Z.id.
  unfold in_width in Hsize. rewrite blocks_code by lia.
  assert (0 < blocks size <= 2 ^ 26) by (unfold blocks; Z.to_euclidean_division_equations; lia).
  set (nm := Z.to_nat (blocks size)). replace (blocks size) with (Z.of_nat nm) by lia.
  destruct (search_run memx d tbl nm N 0) as (r & t' & Hrun & Hf); [done|lia..| | |].
  { intros i. lia. }
  { rewrite lookup_ge_None_2 by lia. done. }
  change (Z.of_nat 0) with 0 in Hrun. rewrite Hrun.
  assert (Hiff := fun k => room_unused _ _ k nm Hrep ltac:(lia)). rewrite Hl in Hiff.
  destruct Hf as [(k & Hk & Hroom & Hj & -> & ->)|(Hj & -> & ->)].
  - pose proof (proj1 (Hiff k) Hroom) as [Hu Hkn].
    exists (64 * Z.of_nat k), (set_tbl memx (fill tbl k nm (Z.of_nat nm)) d), (<[k := nm]> B).
    split_and!; [done|by eexists| |].
    + apply step_malloc; [lia|done|done|]. intros j ? ? Hju.
      apply (Hj j); [lia|]. by apply Hiff.
    + eapply pool_set; [done..| |].
      * apply fill_length. lia.
      * apply rep_malloc; [done|lia|done].
  - exists NOMEM, (set_tbl memx tbl d), B. rewrite set_tbl_same by done.
    split_and!; [done|exists tbl; by rewrite set_tbl_same| |done].
    apply step_full; [lia|]. intros k Hk Hu. apply (Hj k); [lia|]. by apply Hiff.
Qed.

Lemma release_step memx N B d offset :
  pool memx N B d -> legal B (Release offset) ->
  exists r d' B', my_mem_free memx offset d = Done r d' /\ only_table memx d d' /\
    heap_step N B (Release offset) r B' /\ pool memx N B' d'.
Proof.
  intros HP [Hoff Hlive]. pose proof (pool_sizes _ _ (pool_size _ _ _ _ HP)) as (Hb & Hs & HN).
  destruct (pool_table _ _ _ _ HP) as (tbl & Ht & Hl & Hrep). unfold my_mem_free.
  rewrite (bind_rd _ _ _ _ _ (pool_ready _ _ _ _ HP)). simpl.
  rewrite Hs. simpl. rewrite bind_ret. unfold in_width in Hoff.
  assert (Hsame : only_table memx d d) by (exists tbl; by rewrite set_tbl_same).
  destruct (Z.ltb_spec offset (64 * Z.of_nat N)) as [Hin|Hout].
  2:{ exists 2, d, B. split_and!; [done|done|by constructor|done]. }
  rewrite Hb. simpl. rewrite bind_ret.
  assert (Hk : 0 <= offset / 64 < Z.of_nat N) by (Z.to_euclidean_division_equations; lia).
  set (k := Z.to_nat (offset / 64)) in *. replace (offset / 64) with (Z.of_nat k) by lia.
  rewrite s32_small by lia. destruct Hlive as [[n HB]|Hu].
  - destruct (rep_block _ _ Hrep _ _ HB) as [Hn Hent]. pose proof (rep_bound _ _ _ _ Hrep HB).
    erewrite bind_Done.
    2:{ apply (rd_map_run _ _ tbl); [done|]. rewrite index_of_nat. apply Hent. lia. }
    rewrite s32_small by lia. erewrite bind_Done.
    2:{ apply (fill_map_run _ _ tbl k); [done|lia|]. intros i Hi. apply s32_small. lia. }
    do 3 eexists. split_and!; [reflexivity|by eexists|eapply step_release; [done|lia]|].
    eapply pool_set; [done..|apply fill_length; lia|by apply rep_release].
  - assert (Hz : tbl !! k = Some 0).
    { destruct (lookup_lt_is_Some_2 tbl k) as [v Hv]; [lia|].
      destruct (decide (v = 0)) as [->|Hv0]; [done|].
      destruct (rep_used _ _ Hrep _ _ Hv Hv0) as (k' & n' & HB & ?). destruct (Hu _ _ HB); lia. }
    erewrite bind_Done.
    2:{ apply (rd_map_run _ _ tbl); [done|]. by rewrite index_of_nat. }
    exists 0, d, B. split_and!; [done|done|apply step_idle; [lia|done]|done].
Qed.

(** ** Power-up and whole sessions *)
Lemma mymemset_all s c : mymemset s c (length s) = Some (replicate (length s) c).
Proof. induction s as [|x s IH]; [done|]. simpl. by rewrite IH. Qed.

Lemma words_of_zeros n : words_of_bytes n (replicate (4 * n) 0) = replicate n 0.
Proof.
  induction n as [|n IH]; [done|].
  replace (4 * S n)%nat with (4 + 4 * n)%nat by lia. rewrite replicate_add.
  cbn [words_of_bytes replicate]. rewrite take_app_length' by done.
  rewrite drop_app_length' by done. by rewrite IH.
Qed.

Lemma init_run d memx N :
  dev_ok d -> index memtblsize memx = Some (Z.of_nat N) ->
  my_mem_init memx d = Done tt (set_tbl memx (replicate N 0) d
    <| memrdy := <[Z.to_nat memx := 1]> (memrdy d) |>).
Proof.
  intros (Hm & Hr & Hok) HN. pose proof (pool_sizes _ _ HN) as (_ & _ & Hrange).
  pose proof HN as [H0 Hlt%lookup_lt_Some]%index_Some. simpl in Hlt.
  destruct (index_is_Some (memmap d) memx) as [tbl Ht]; [lia|].
  pose proof (Hok _ _ _ Ht HN). unfold my_mem_init.
  rewrite (bind_rd _ _ _ _ _ Ht), HN. simpl. rewrite bind_ret.
  rewrite u32_small by (unfold in_width; lia).
  replace (Z.to_nat (Z.of_nat N * 4)) with (length (bytes_of_words tbl))
    by (rewrite bytes_of_words_length; lia).
  rewrite mymemset_all, bytes_of_words_length. simpl from_array. rewrite bind_ret.
  rewrite words_of_zeros, bind_wr by lia. replace (length tbl) with N by lia.
  rewrite wr_Done; [done|]. unfold set_tbl. simpl. lia.
Qed.

Lemma init_pool d memx N :
  dev_ok d -> index memtblsize memx = Some (Z.of_nat N) ->
  exists d', my_mem_init memx d = Done tt d' /\ pool memx N ∅ d'.
Proof.
  intros Hok HN. rewrite (init_run d memx N) by done. eexists. split; [reflexivity|].
  destruct Hok as (Hm & Hr & _). pose proof HN as [H0 Hlt%lookup_lt_Some]%index_Some. simpl in Hlt.
  split; [done| |].
  - apply index_Some. split; [done|]. apply list_lookup_insert_eq. lia.
  - exists (replicate N 0). split_and!; [|by rewrite length_replicate|apply rep_empty].
    apply index_Some. split; [done|]. apply list_lookup_insert_eq. simpl. lia.
Qed.

(** The other pools stay what they are. *)
Lemma init_keeps d memx N :
  dev_ok d -> index memtblsize memx = Some (Z.of_nat N) ->
  exists d', my_mem_init memx d = Done tt d' /\ dev_ok d' /\ pool memx N ∅ d' /\
    forall m N' B, m <> memx -> pool m N' B d -> pool m N' B d'.
Proof.
  intros Hok HN. destruct (init_pool d memx N Hok HN) as (d' & E & HP). exists d'.
  rewrite (init_run d memx N Hok HN) in E. injection E as <-.
  pose proof HN as [H0 Hlt%lookup_lt_Some]%index_Some. simpl in Hlt.
  assert (forall {A} (l : list A) m v, m <> memx -> index (<[Z.to_nat memx := v]> l) m = index l m) as Hoth.
  { intros A l m v Hm. unfold index. case_bool_decide; [|done].
    apply list_lookup_insert_ne. lia. }
  destruct Hok as (Hm & Hr & Hsz). split_and!.
  - by rewrite (init_run d memx N).
  - split_and!; [by etrans; [apply length_insert|]..|].
    intros m tbl size Ht Hs. destruct (decide (m = memx)) as [->|Hne].
    + destruct (pool_table _ _ _ _ HP) as (t & Ht' & Hl & _). rewrite Ht' in Ht. injection Ht as <-.
      rewrite HN in Hs. injection Hs as <-. lia.
    + eapply Hsz; [|done]. etrans; [symmetry; by apply (Hoth _ (memmap d) m (replicate N 0))|exact Ht].
  - exact HP.
  - intros m N' B Hne [Hs Hrd (t & Ht & Hl & Hrep)]. split; [done| |exists t].
    + etrans; [by apply (Hoth _ (memrdy d))|done].
    + split_and!; [|done..]. etrans; [by apply (Hoth _ (memmap d) m)|done].
Qed.

Definition do_op (memx : Z) (o : op) : M dev Z :=
  match o with
  | Malloc size => my_mem_malloc memx size
  | Release offset => my_mem_free memx offset
  end.

Fixpoint run_ops (memx : Z) (os : list op) : M dev (list Z) :=
  match os with
  | [] => mret []
  | o :: os => r ← do_op memx o; rs ← run_ops memx os; mret (r :: rs)
  end.

Lemma op_step memx N B d o :
  pool memx N B d -> legal B o ->
  exists r d' B', do_op memx o d = Done r d' /\ only_table memx d d' /\
    heap_step N B o r B' /\ pool memx N B' d'.
Proof. destruct o; simpl; [apply malloc_step|apply release_step]. Qed.

Lemma ops_run memx N B d os :
  pool memx N B d -> legal_run N B os ->
  exists rs d' B', run_ops memx os d = Done rs d' /\ heap_run N B os rs B' /\ pool memx N B' d'.
Proof.
  revert B d. induction os as [|o os IH]; intros B d HP Hleg; simpl in *.
  { exists [], d, B. split_and!; [done|constructor|done]. }
  destruct Hleg as [Hl Hlegs].
  destruct (op_step _ _ _ _ _ HP Hl) as (r & d1 & B1 & Hr & _ & Hstep & HP1).
  destruct (IH B1 d1 HP1 (Hlegs _ _ Hstep)) as (rs & d2 & B2 & Hrs & Hrun & HP2).
  rewrite (bind_Done _ _ _ _ _ Hr), (bind_Done _ _ _ _ _ Hrs).
  exists (r :: rs), d2, B2. split_and!; [done|by econstructor|done].
Qed.

(** C12: a pool of malloc.c behaves as a heap of disjoint blocks: from [my_mem_init]
    on, whatever a client allocates and releases (as long as it releases only the
    first block of what it was given, or nothing), every call returns, and its
    answers are those of the abstract heap: an allocation of [size] bytes takes the
    highest run of blocks that is long enough and that no live allocation touches,
    it is refused only when there is none, and a release gives back exactly the
    blocks of the allocation. *)
Theorem pool_refines_heap d memx N os :
  dev_ok d -> index memtblsize memx = Some (Z.of_nat N) -> legal_run N ∅ os ->
  exists rs B d', (my_mem_init memx ;; run_ops memx os) d = Done rs d' /\
    heap_run N ∅ os rs B /\ pool memx N B d'.
Proof.
  intros Hok HN Hleg. destruct (init_pool _ _ _ Hok HN) as (d1 & Hinit & HP).
  rewrite (bind_Done _ _ _ _ _ Hinit).
  destruct (ops_run _ _ _ _ _ HP Hleg) as (rs & d2 & B & ? & ? & ?).
  by exists rs, B, d2.
Qed.

(** ** Moving an allocation *)
Lemma mymemcpy_run d des src n :
  0 <= des -> des + Z.of_nat n <= 2 ^ 32 -> 0 <= src -> src + Z.of_nat n <= 2 ^ 32 ->
  exists m, mymemcpy des src (Z.of_nat n) d = Done tt (d <| ram := m |>) /\
    (forall a, ~ (des <= a < des + Z.of_nat n) -> m a = ram d a) /\
    (forall i, 0 <= i < Z.of_nat n -> ~ (des <= src + i < des + i) -> m (des + i) = ram d (src + i)).
Proof.
  intros Hd Hdn Hs Hsn. induction n as [|n IH].
  { exists (ram d). rewrite upd_same. split_and!; [done|done|lia]. }
  destruct IH as (m & Hm & Hout & Hin); [lia..|]. unfold mymemcpy, zseq in *.
  replace (Z.of_nat (S n)) with (Z.of_nat n + 1) by lia.
  rewrite seqZ_app, for_each_app by lia. rewrite (bind_Done _ _ _ _ _ Hm).
  rewrite (seqZ_cons (0 + Z.of_nat n)) by lia. simpl.
  rewrite !u32_small by (unfold in_width; lia).
  eexists. split; [reflexivity|]. split.
  - intros a Ha. rewrite fn_lookup_insert_ne by lia. apply Hout. lia.
  - intros i Hi Hov. destruct (decide (i = Z.of_nat n)) as [->|].
    + rewrite fn_lookup_insert. by apply Hout.
    + rewrite fn_lookup_insert_ne by lia. apply Hin; [lia|done].
Qed.

(** The linker leaves room for the first pool, twice its size below the end of
    the address space (the microcontroller has RAM only far below). *)
Definition placed (mem1base : Z) : Prop :=
  0 < mem1base /\ mem1base + 2 * MEM1_MAX_SIZE <= 2 ^ 32.

Lemma pool_base mem1base memx N :
  placed mem1base -> index memtblsize memx = Some N ->
  exists base, index (membase mem1base) memx = Some base /\ 0 < base /\ base + 2 * (64 * N) <= 2 ^ 32.
Proof.
  intros [Hb Hb'] H%index_Some. destruct H as [H0 H].
  pose proof (lookup_lt_Some _ _ _ H) as Hl. simpl in Hl. unfold MEM1_MAX_SIZE in *.
  assert (memx = 0 \/ memx = 1 \/ memx = 2) as [-> | [-> | ->]] by lia; injection H as <-;
    eexists; (split; [reflexivity|]); unfold MEM1_MAX_SIZE, MEM2_MAX_SIZE, MEM3_MAX_SIZE;
    Z.to_euclidean_division_equations; lia.
Qed.

Lemma only_table_ram memx d d' : only_table memx d d' -> ram d' = ram d.
Proof. by intros [tbl ->]. Qed.

Lemma pool_ram memx N B d m : pool memx N B d -> pool memx N B (d <| ram := m |>).
Proof. by intros [? ? ?]. Qed.

Lemma malloc_result N B size r B' :
  heap_step N B (Malloc size) r B' ->
  (r = NOMEM /\ B' = B) \/
  exists k, r = 64 * Z.of_nat k /\ B' = <[k := Z.to_nat (blocks size)]> B /\ 0 < size /\
    (k + Z.to_nat (blocks size) <= N)%nat /\ unused B k (Z.to_nat (blocks size)).
Proof. inversion 1; subst; [by left..|]. right. naive_solver. Qed.

Lemma blocks_enough size : 0 < size -> 0 < blocks size /\ size <= 64 * blocks size.
Proof. intros. unfold blocks. Z.to_euclidean_division_equations. lia. Qed.

Lemma release_live memx N B d k n :
  pool memx N B d -> B !! k = Some n ->
  exists d', my_mem_free memx (64 * Z.of_nat k) d = Done 0 d' /\ only_table memx d d' /\
    pool memx N (delete k B) d'.
Proof.
  intros HP HB. pose proof (pool_sizes _ _ (pool_size _ _ _ _ HP)) as (_ & _ & HN).
  destruct (pool_table _ _ _ _ HP) as (tbl & _ & Hl & Hrep).
  pose proof (rep_bound _ _ _ _ Hrep HB). destruct (rep_block _ _ Hrep _ _ HB) as [Hn _].
  assert (Hdiv : 64 * Z.of_nat k / 64 = Z.of_nat k) by (rewrite Z.mul_comm; by apply Z.div_mul).
  destruct (release_step memx N B d (64 * Z.of_nat k)) as (r & d' & B' & Hr & Hot & Hstep & HP').
  { done. }
  { split; [unfold in_width; lia|]. left. rewrite Hdiv, Nat2Z.id. by eexists. }
  exists d'. inversion Hstep as [| | |k' n' off HB' Hk|off Hin Hu|off Hout]; subst.
  - rewrite Hdiv in Hk. apply Nat2Z.inj in Hk as <-. done.
  - rewrite Hdiv, Nat2Z.id in Hu. destruct (Hu _ _ HB); lia.
  - lia.
Qed.

(** [myrealloc] of a live allocation either fails and leaves the allocation
    and the memory alone, or moves it: the new block is the one an allocation of
    [size] bytes gets next to all live ones, the old block is released, the bytes
    of the old allocation (as many as fit in [size]) are those of the new one, and
    no byte outside the new block changes, although the copy reads [size] bytes
    even when the old allocation is shorter. *)
Theorem myrealloc_moves mem1base memx N B d base k n ptr size :
  placed mem1base -> index (membase mem1base) memx = Some base ->
  pool memx N B d -> B !! k = Some n -> ptr = base + 64 * Z.of_nat k -> is_u32 size ->
  exists r d', myrealloc mem1base memx ptr size d = Done r d' /\
    ((r = 0 /\ heap_step N B (Malloc size) NOMEM B /\ pool memx N B d' /\ ram d' = ram d) \/
     exists k', r = base + 64 * Z.of_nat k' /\
       heap_step N B (Malloc size) (64 * Z.of_nat k') (<[k' := Z.to_nat (blocks size)]> B) /\
       pool memx N (delete k (<[k' := Z.to_nat (blocks size)]> B)) d' /\
       (forall i, 0 <= i < Z.min size (64 * Z.of_nat n) -> ram d' (r + i) = ram d (ptr + i)) /\
       (forall a, ~ (r <= a < r + size) -> ram d' a = ram d a)).
Proof.
  intros Hpl Hbase HP HB -> Hsize.
  destruct (pool_base _ _ _ Hpl (pool_size _ _ _ _ HP)) as (base' & Hbase' & Hb0 & Hb1).
  rewrite Hbase in Hbase'. injection Hbase' as <-.
  pose proof (pool_sizes _ _ (pool_size _ _ _ _ HP)) as (_ & _ & HN).
  destruct (malloc_step _ _ _ _ size HP Hsize) as (r & d1 & B1 & Hr & Hot & Hstep & HP1).
  unfold myrealloc. rewrite (bind_Done _ _ _ _ _ Hr). pose proof Hstep as Hres.
  apply malloc_result in Hres as [[-> ->]|(k' & -> & -> & Hs0 & Hk' & Hu)].
  { simpl. exists 0, d1. split; [done|]. left. split_and!; [done..|by eapply only_table_ram]. }
  destruct (blocks_enough size Hs0) as [Hnb Hsb].
  destruct (pool_table _ _ _ _ HP) as (tbl & _ & Hl & Hrep).
  pose proof (rep_bound _ _ _ _ Hrep HB). destruct (rep_block _ _ Hrep _ _ HB) as [Hn _].
  rewrite (proj2 (Z.eqb_neq (64 * Z.of_nat k') NOMEM)) by (unfold NOMEM; lia).
  rewrite Hbase. simpl. rewrite bind_ret, u32_small by (unfold in_width; lia).
  destruct (mymemcpy_run d1 (base + 64 * Z.of_nat k') (base + 64 * Z.of_nat k) (Z.to_nat size))
    as (m & Hm & Hout & Hin); [lia..|].
  rewrite Z2Nat.id in Hm, Hout, Hin by lia. rewrite (bind_Done _ _ _ _ _ Hm).
  assert (Hkk : k <> k') by (intros ->; destruct (Hu _ _ HB); lia).
  destruct (release_live memx N _ (d1 <| ram := m |>) k n (pool_ram _ _ _ _ m HP1))
    as (d2 & Hfree & Hot2 & HP2); [by rewrite lookup_insert_ne|].
  rewrite (bind_Done _ _ _ tt d2).
  2:{ unfold myfree. rewrite (proj2 (Z.eqb_neq (base + 64 * Z.of_nat k) 0)) by lia.
      rewrite Hbase. simpl. rewrite bind_ret. replace (base + 64 * Z.of_nat k - base)
        with (64 * Z.of_nat k) by lia.
      rewrite u32_small by (unfold in_width; lia). by rewrite (bind_Done _ _ _ _ _ Hfree). }
  exists (base + 64 * Z.of_nat k'), d2. split; [done|]. right. exists k'.
  rewrite (only_table_ram _ _ _ Hot2). simpl. rewrite <- (only_table_ram _ _ _ Hot).
  split_and!; [done..| |done].
  intros i Hi. apply Hin; [lia|]. destruct (Hu _ _ HB); lia.
Qed.

(** ** A release that is not legal *)

(** The release of an address inside the allocation at the top of a pool (not
    in its first block) clears entries past the end of the table: the count read
    from the table is that of the whole allocation. *)
Theorem release_inside_overflows memx N B d k n offset :
  pool memx N B d -> B !! k = Some n -> (k + n)%nat = N ->
  64 * (Z.of_nat k + 1) <= offset < 64 * Z.of_nat N ->
  my_mem_free memx offset d = Undefined OutOfBounds.
Proof.
  intros HP HB HkN Hoff. pose proof (pool_sizes _ _ (pool_size _ _ _ _ HP)) as (Hb & Hs & HN).
  destruct (pool_table _ _ _ _ HP) as (tbl & Ht & Hl & Hrep).
  destruct (rep_block _ _ Hrep _ _ HB) as [Hn Hent].
  unfold my_mem_free. rewrite (bind_rd _ _ _ _ _ (pool_ready _ _ _ _ HP)). simpl.
  rewrite Hs. simpl. rewrite bind_ret, (proj2 (Z.ltb_lt offset _)), Hb by lia. simpl. rewrite bind_ret.
  assert (Hi : Z.of_nat k + 1 <= offset / 64 < Z.of_nat N) by (Z.to_euclidean_division_equations; lia).
  set (i := Z.to_nat (offset / 64)). replace (offset / 64) with (Z.of_nat i) by lia.
  rewrite s32_small by lia. erewrite bind_Done.
  2:{ apply (rd_map_run _ _ tbl); [done|]. rewrite index_of_nat. apply Hent. lia. }
  rewrite s32_small by lia. apply bind_Undefined.
  unfold zseq. replace (Z.of_nat n) with (Z.of_nat (N - i) + Z.of_nat (n - (N - i))) by lia.
  rewrite seqZ_app, for_each_app by lia. erewrite bind_Done.
  2:{ apply (fill_map_run _ _ tbl i); [done|lia|]. intros j ?. apply s32_small. lia. }
  rewrite seqZ_cons by lia. simpl. apply bind_Undefined.
  rewrite s32_small by lia. eapply wr_map_oob; [by eapply has_tbl_set|].
  rewrite fill_length by lia. lia.
Qed.

(** ** Examples: the pool in CCM, whose 960 blocks hold garbage at power-up *)
Definition ccm_boot : dev :=
  Dev [replicate 1600 7; replicate (Z.to_nat 462592) 7; replicate 960 7] [0; 0; 0] (fun _ => 0).
Definition ccm_dev : dev :=
  Dev [replicate 1600 7; []; fill (replicate 960 0) 958 2 2] [0; 0; 1] (fun a => a mod 256).

Lemma ccm_pool : pool 2 960 {[958%nat := 2%nat]} ccm_dev.
Proof.
  split; [reflexivity|reflexivity|]. eexists. split_and!; [reflexivity|reflexivity|].
  apply (rep_malloc ∅ _ 958 2); [apply rep_empty|lia|].
  intros i Hi. apply lookup_replicate_2. lia.
Qed.

(** The answer of the heap to an allocation is determined. *)
Lemma malloc_det N B size r B' k :
  heap_step N B (Malloc size) r B' -> 0 < size ->
  (k + Z.to_nat (blocks size) = N)%nat -> unused B k (Z.to_nat (blocks size)) ->
  r = 64 * Z.of_nat k /\ B' = <[k := Z.to_nat (blocks size)]> B.
Proof.
  intros H Hs Hk Hu. inversion H as [|sz Hs' Hno|sz j Hs' Hj Huj Hmax| | |]; subst.
  - lia.
  - exfalso. by apply (Hno k).
  - destruct (decide (j = k)) as [->|]; [done|]. exfalso. apply (Hmax k); [lia..|done].
Qed.

Lemma unused_empty k n : unused ∅ k n.
Proof. intros k' n'. by rewrite lookup_empty. Qed.

Lemma dev_ok_tables a b c r m :
  Z.of_nat (length a) = 1600 -> Z.of_nat (length b) = 462592 -> Z.of_nat (length c) = 960 ->
  length r = 3%nat -> dev_ok (Dev [a; b; c] r m).
Proof.
  intros Ha Hb Hc Hr. split_and!; [done|done|].
  intros memx tbl size [H0 Ht]%index_Some [_ Hs]%index_Some.
  pose proof (lookup_lt_Some _ _ _ Hs) as Hl. simpl in Hl.
  assert (memx = 0 \/ memx = 1 \/ memx = 2) as [-> | [-> | ->]] by lia;
    injection Ht as <-; injection Hs as <-; done.
Qed.

Lemma ccm_boot_ok : dev_ok ccm_boot.
Proof.
  apply dev_ok_tables; [reflexivity| |reflexivity|reflexivity].
  rewrite length_replicate. by apply Z2Nat.id.
Qed.

Definition client : list op := [Malloc 100; Release (64 * 958); Malloc 61440].

Lemma client_legal : legal_run 960 ∅ client.
Proof.
  split; [done|]. intros r B H.
  destruct (malloc_det _ _ _ _ _ 958 H) as [-> ->]; [done|done|apply unused_empty|].
  split.
  - split; [done|]. left. by eexists.
  - intros r' B' _. split; [done|]. done.
Qed.

Lemma pool_refines_heap_witness :
  exists rs B d', (my_mem_init SRAMCCM ;; run_ops SRAMCCM client) ccm_boot = Done rs d' /\
    heap_run 960 ∅ client rs B /\ pool SRAMCCM 960 B d'.
Proof.
  exact (pool_refines_heap ccm_boot SRAMCCM 960 client ccm_boot_ok eq_refl client_legal).
Defined.

Lemma ram_placed : placed 0x20000000.
Proof. done. Qed.

Lemma myrealloc_moves_witness :
  exists r d', myrealloc 0x20000000 SRAMCCM (0x10000000 + 64 * 958) 200 ccm_dev = Done r d' /\
    ((r = 0 /\ heap_step 960 {[958%nat := 2%nat]} (Malloc 200) NOMEM {[958%nat := 2%nat]} /\
      pool SRAMCCM 960 {[958%nat := 2%nat]} d' /\ ram d' = ram ccm_dev) \/
     exists k', r = 0x10000000 + 64 * Z.of_nat k' /\
       heap_step 960 {[958%nat := 2%nat]} (Malloc 200) (64 * Z.of_nat k')
         (<[k' := Z.to_nat (blocks 200)]> {[958%nat := 2%nat]}) /\
       pool SRAMCCM 960 (delete 958%nat (<[k' := Z.to_nat (blocks 200)]> {[958%nat := 2%nat]})) d' /\
       (forall i, 0 <= i < Z.min 200 (64 * Z.of_nat 2) ->
         ram d' (r + i) = ram ccm_dev (0x10000000 + 64 * 958 + i)) /\
       (forall a, ~ (r <= a < r + 200) -> ram d' a = ram ccm_dev a)).
Proof.
  apply (myrealloc_moves 0x20000000 SRAMCCM 960 {[958%nat := 2%nat]} ccm_dev 0x10000000 958 2
    (0x10000000 + 64 * 958) 200).
  - exact ram_placed.
  - reflexivity.
  - exact ccm_pool.
  - reflexivity.
  - lia.
  - unfold in_width. lia.
Defined.

(** The first allocation of 100 bytes is the blocks 958 and 959. *)
Lemma release_inside_overflows_witness :
  my_mem_free SRAMCCM (64 * 959) ccm_dev = Undefined OutOfBounds.
Proof.
  apply (release_inside_overflows SRAMCCM 960 {[958%nat := 2%nat]} ccm_dev 958 2 (64 * 959)).
  - exact ccm_pool.
  - reflexivity.
  - reflexivity.
  - lia.
Defined.

(** The same pool, run: the second allocation lies below the first, and the first
    place is taken again once it is free. *)
Example ccm_session :
  (rs ← run_ops 2 [Malloc 100; Malloc 64; Release (64 * 958); Malloc 65; Malloc 0; Release 61440];
   mret rs) (Dev [[]; []; replicate 960 0] [0; 0; 1] (fun _ => 0)) =
  Done [64 * 958; 64 * 957; 0; 64 * 958; NOMEM; 2]
    (Dev [[]; []; fill (fill (replicate 960 0) 957 1 1) 958 2 2] [0; 0; 1] (fun _ => 0)).
Proof. vm_compute. reflexivity. Qed.
