(* ===== verification/I2c.v ===== *)
(** * The bit-banged I2C bus and the port expander: src/HARDWARE/IIC/myiic.c,
    myiic.h and src/HARDWARE/PCF8574/pcf8574.c

    Every write of the two pins and of the direction of SDA is a step of the bus;
    the device at the other end is a parameter that sees the edges the I2C
    specification speaks of and pulls SDA low or lets it go. *)
From Stdlib Require Import ZArith Lia.
From stdpp Require Import base tactics decidable list list_numbers numbers.
From S2P Require Import Prelude.
Open Scope Z_scope.
Open Scope c_scope.

(** ** The device on the bus *)
Inductive edge :=
  | Start             (** SDA falls while SCL is high *)
  | Stop              (** SDA rises while SCL is high *)
  | Rise (b : bool)   (** SCL rises while SDA has the level [b] *)
  | Fall.             (** SCL falls *)

Class I2CDevice := {
  dev : Type;
  dev_step : dev -> edge -> dev;
  dev_sda : dev -> bool;       (** false: the device pulls SDA low *)
}.

(** ** The bus *)
Record bus `{!I2CDevice} := Bus {
  scl : bool;        (** PH4, an output *)
  sda : bool;        (** the output register of PH5 *)
  sda_out : bool;    (** PH5 is an output (push-pull), not an input *)
  device : dev;
  elapsed : Z;       (** time spent in [delay_us] and [delay_ms], in microseconds *)
}.
Arguments bus : clear implicits.
Arguments bus {_}.
Arguments Bus {_}.

Section i2c.
Context `{!I2CDevice}.
Notation B := (M bus).

#[local] Instance bus_eta : Eta bus := fun b => Bus (scl b) (sda b) (sda_out b) (device b) (elapsed b).
#[export] Instance upd_scl : Upd scl := ltac:(derive_upd).
#[export] Instance upd_sda : Upd sda := ltac:(derive_upd).
#[export] Instance upd_sda_out : Upd sda_out := ltac:(derive_upd).
#[export] Instance upd_device : Upd device := ltac:(derive_upd).
#[export] Instance upd_elapsed : Upd elapsed := ltac:(derive_upd).

(** The level of the SDA line, with its pull-up: low when anybody pulls it low. *)
Definition line (b : bus) : bool := (if sda_out b then sda b else true) && dev_sda (device b).

(** What the device sees when the pins change from [b] to [b']. *)
Definition edge_of (b b' : bus) : option edge :=
  match scl b, scl b' with
  | false, true => Some (Rise (line b'))
  | true, false => Some Fall
  | true, true =>
      match line b, line b' with
      | true, false => Some Start
      | false, true => Some Stop
      | _, _ => None
      end
  | false, false => None
  end.

(** A change of the pins, seen by the device. *)
Definition pins (f : bus -> bus) : B unit := modify (fun b =>
  let b' := f b in
  match edge_of b b' with
  | Some e => b' <| device := dev_step (device b') e |>
  | None => b'
  end).

Definition IIC_SCL (v : bool) : B unit := pins (fun b => b <| scl := v |>).
Definition IIC_SDA (v : bool) : B unit := pins (fun b => b <| sda := v |>).
Definition SDA_IN : B unit := pins (fun b => b <| sda_out := false |>).
Definition SDA_OUT : B unit := pins (fun b => b <| sda_out := true |>).
Definition READ_SDA : B bool := gets line.
Definition i2c_delay_us (n : Z) : B unit := modify (fun b => b <| elapsed := elapsed b + n |>).
Definition i2c_delay_ms (n : Z) : B unit := i2c_delay_us (1000 * n).

(** ** myiic.c *)

(** The pins become outputs, with the levels their registers had. *)
Definition IIC_Init : B unit := SDA_OUT ;; IIC_SDA true ;; IIC_SCL true.

Definition IIC_Start : B unit :=
  SDA_OUT ;;
  IIC_SDA true ;;
  IIC_SCL true ;;
  i2c_delay_us 4 ;;
  IIC_SDA false ;;
  i2c_delay_us 4 ;;
  IIC_SCL false.

Definition IIC_Stop : B unit :=
  SDA_OUT ;;
  IIC_SCL false ;;
  IIC_SDA false ;;
  i2c_delay_us 4 ;;
  IIC_SCL true ;;
  IIC_SDA true ;;
  i2c_delay_us 4.

(** [while(READ_SDA) { ucErrTime++; if(ucErrTime>250) {...} }]: with [fuel] above
    250 the loop always ends; [ucErrTime] is an unsigned char. *)
Fixpoint IIC_Poll (fuel : nat) (ucErrTime : Z) : B Z :=
  match fuel with
  | O => halt_with Spin
  | S fuel =>
      v ← READ_SDA;
      if (v : bool) then
        let ucErrTime := u8 (ucErrTime + 1) in
        if ucErrTime >? 250 then IIC_Stop ;; mret 1 else IIC_Poll fuel ucErrTime
      else IIC_SCL false ;; mret 0
  end.

Definition IIC_Wait_Ack : B Z :=
  SDA_IN ;;
  IIC_SDA true ;; i2c_delay_us 1 ;;
  IIC_SCL true ;; i2c_delay_us 1 ;;
  IIC_Poll 251 0.

Definition IIC_Ack : B unit :=
  IIC_SCL false ;;
  SDA_OUT ;;
  IIC_SDA false ;;
  i2c_delay_us 2 ;;
  IIC_SCL true ;;
  i2c_delay_us 2 ;;
  IIC_SCL false.

Definition IIC_NAck : B unit :=
  IIC_SCL false ;;
  SDA_OUT ;;
  IIC_SDA true ;;
  i2c_delay_us 2 ;;
  IIC_SCL true ;;
  i2c_delay_us 2 ;;
  IIC_SCL false.

(** One turn of the loop of [IIC_Send_Byte]. *)
Definition send_bit (txd : Z) : B Z :=
  IIC_SDA (negb (Z.shiftr (Z.land txd 0x80) 7 =? 0)) ;;
  i2c_delay_us 2 ;;
  IIC_SCL true ;;
  i2c_delay_us 2 ;;
  IIC_SCL false ;;
  i2c_delay_us 2 ;;
  mret (u8 (Z.shiftl txd 1)).

Definition IIC_Send_Byte (txd : Z) : B unit :=
  SDA_OUT ;;
  IIC_SCL false ;;
  for_fold (zseq 0 8) txd (fun txd _ => send_bit txd) ;;
  skip.

(** One turn of the loop of [IIC_Read_Byte]. *)
Definition read_bit (receive : Z) : B Z :=
  IIC_SCL false ;;
  i2c_delay_us 2 ;;
  IIC_SCL true ;;
  v ← READ_SDA;
  let receive := u8 (Z.shiftl receive 1) in
  let receive := if v : bool then u8 (receive + 1) else receive in
  i2c_delay_us 1 ;;
  mret receive.

Definition IIC_Read_Byte (ack : Z) : B Z :=
  SDA_IN ;;
  receive ← for_fold (zseq 0 8) 0 (fun receive _ => read_bit receive);
  (if ack =? 0 then IIC_NAck else IIC_Ack) ;;
  mret receive.

(** ** pcf8574.c *)
Definition PCF8574_ADDR : Z := 0x40.
Definition TEMP1_IO : Z := 0.
Definition TEMP2_IO : Z := 1.
Definition ERRORLED_IO : Z := 2.
Definition RUNLED_IO : Z := 3.
Definition SOFTRSTLED_IO : Z := 4.

Definition PCF8574_WriteOneByte (DataToWrite : Z) : B unit :=
  IIC_Start ;;
  IIC_Send_Byte (Z.lor PCF8574_ADDR 0x00) ;;
  IIC_Wait_Ack ;;
  IIC_Send_Byte DataToWrite ;;
  IIC_Wait_Ack ;;
  IIC_Stop ;;
  i2c_delay_ms 10.

Definition PCF8574_ReadOneByte : B Z :=
  IIC_Start ;;
  IIC_Send_Byte (Z.lor PCF8574_ADDR 0x01) ;;
  IIC_Wait_Ack ;;
  temp ← IIC_Read_Byte 0;
  IIC_Stop ;;
  mret temp.

Definition PCF8574_Init : B Z :=
  IIC_Init ;;
  IIC_Start ;;
  IIC_Send_Byte PCF8574_ADDR ;;
  temp ← IIC_Wait_Ack;
  IIC_Stop ;;
  PCF8574_WriteOneByte 0xFF ;;
  mret temp.

Definition PCF8574_WriteBit (bit sta : Z) : B unit :=
  data ← PCF8574_ReadOneByte;
  PCF8574_WriteOneByte
    (if sta =? 0 then u8 (Z.land data (Z.lnot (Z.shiftl 1 bit)))
     else u8 (Z.lor data (Z.shiftl 1 bit))).

Definition PCF8574_ReadBit (bit : Z) : B Z :=
  data ← PCF8574_ReadOneByte;
  mret (if negb (Z.land data (Z.shiftl 1 bit) =? 0) then 1 else 0).
End i2c.
