(* ===== verification/I2cSpec.v ===== *)
(** * What the port expander sees, and what its driver promises

    A transaction of the driver is a wave: the edges the device sees, each with
    the level the device leaves on SDA after it. [PCF8574Laws] states what the
    data sheet of the expander says of the three transactions of the driver. *)
From Stdlib Require Import ZArith Lia.
From stdpp Require Import base tactics decidable list list_numbers numbers.
From S2P Require Import Prelude I2c.
Open Scope Z_scope.
Open Scope c_scope.

(** ** Waves *)
Abbreviation wave := (list (edge * bool)).

(** The bits of a byte, the most significant first. *)
Definition byte_bits (x : Z) : list bool := (fun i => Z.testbit x (7 - i)) <$> seqZ 0 8.

(** The master sends bits; after the last one the device leaves SDA at [last]. *)
Fixpoint bits_wave (bs : list bool) (last : bool) : wave :=
  match bs with
  | [] => []
  | [b] => [(Rise b, true); (Fall, last)]
  | b :: bs => (Rise b, true) :: (Fall, true) :: bits_wave bs last
  end.

(** The device sends bits, one after each falling edge. *)
Definition out_wave (bs : list bool) : wave := bs ≫= fun b => [(Fall, b); (Rise b, b)].

Definition start_wave : wave := [(Start, true); (Fall, true)].
Definition ack_wave : wave := [(Rise false, false)].
Definition stop_wave : wave := [(Rise false, true); (Stop, true)].

(** [PCF8574_WriteOneByte], [PCF8574_ReadOneByte], and the presence test of
    [PCF8574_Init]. *)
Definition write_wave (x : Z) : wave :=
  start_wave ++ bits_wave (byte_bits 0x40) false ++ ack_wave ++ [(Fall, true)] ++
  bits_wave (byte_bits x) false ++ ack_wave ++ [(Fall, true)] ++ stop_wave.
Definition read_wave (p : Z) : wave :=
  start_wave ++ bits_wave (byte_bits 0x41) false ++ ack_wave ++ out_wave (byte_bits p) ++
  [(Fall, true)] ++ [(Rise true, true); (Fall, true)] ++ stop_wave.
Definition probe_wave : wave :=
  start_wave ++ bits_wave (byte_bits 0x40) false ++ ack_wave ++ [(Fall, true)] ++ stop_wave.

Section waves.
Context `{!I2CDevice}.

(** The device answers the wave as written. *)
Fixpoint plays (d : dev) (w : wave) : Prop :=
  match w with
  | [] => True
  | (e, v) :: w => dev_sda (dev_step d e) = v /\ plays (dev_step d e) w
  end.

Fixpoint feed (d : dev) (w : wave) : dev :=
  match w with
  | [] => d
  | (e, _) :: w => feed (dev_step d e) w
  end.

Lemma plays_app d w1 w2 : plays d (w1 ++ w2) <-> plays d w1 /\ plays (feed d w1) w2.
Proof. revert d. induction w1 as [|[e v] w1 IH]; intros d; simpl; [tauto|]. rewrite IH. tauto. Qed.

Lemma feed_app d w1 w2 : feed d (w1 ++ w2) = feed (feed d w1) w2.
Proof. revert d. induction w1 as [|[e v] w1 IH]; intros d; simpl; [done|]. by rewrite IH. Qed.

(** The expander: [latch] is the byte last written to it, [inputs] the level the
    outside holds its pins at; a pin reads high when both are. *)
Class PCF8574Laws := {
  ready : dev -> Prop;          (** between transactions *)
  latch : dev -> Z;
  inputs : dev -> Z;
  latch_u8 d : ready d -> is_u8 (latch d);
  ready_sda d : ready d -> dev_sda d = true;
  on_write d x : ready d -> is_u8 x ->
    plays d (write_wave x) /\ ready (feed d (write_wave x)) /\
    latch (feed d (write_wave x)) = x /\ inputs (feed d (write_wave x)) = inputs d;
  on_read d : ready d ->
    let w := read_wave (Z.land (latch d) (inputs d)) in
    plays d w /\ ready (feed d w) /\ latch (feed d w) = latch d /\ inputs (feed d w) = inputs d;
  on_probe d : ready d ->
    plays d probe_wave /\ ready (feed d probe_wave) /\
    latch (feed d probe_wave) = latch d /\ inputs (feed d probe_wave) = inputs d;
}.

(** ** The driver on a device that plays along *)

(** The bus between transactions. *)
Definition idle (d : dev) (t : Z) : bus := Bus true true true d t.

(** Evaluation of the bus on an explicit state, up to the answers of the device. *)
Ltac bus_eval :=
  cbv beta iota zeta delta [mbind M_bind mret M_ret IIC_SCL IIC_SDA SDA_IN SDA_OUT i2c_delay_us
    i2c_delay_ms READ_SDA gets modify pins edge_of line andb negb skip fst snd
    scl sda sda_out device elapsed upd upd_scl upd_sda upd_sda_out upd_device upd_elapsed].

Lemma start_run d t :
  dev_sda d = true -> plays d start_wave ->
  IIC_Start (idle d t) = Done tt (Bus false false true (feed d start_wave) (t + 4 + 4)).
Proof.
  intros Hd (H1 & H2 & _). unfold IIC_Start, idle. bus_eval.
  repeat (rewrite Hd; bus_eval). reflexivity.
Qed.

Lemma stop_run s o d t :
  plays d stop_wave ->
  IIC_Stop (Bus false s o d t) = Done tt (idle (feed d stop_wave) (t + 4 + 4)).
Proof.
  intros (H1 & H2 & _). unfold IIC_Stop, idle. bus_eval.
  repeat (rewrite H1; bus_eval). reflexivity.
Qed.

Lemma poll_low n e (b : bus) :
  line b = false -> IIC_Poll (S n) e b = (IIC_SCL false ;; mret 0) b.
Proof. intros Hb. cbn [IIC_Poll]. unfold READ_SDA. by rewrite bind_gets, Hb. Qed.

Lemma ack_run s o d t next :
  dev_sda d = false -> plays d (ack_wave ++ [(Fall, next)]) ->
  IIC_Wait_Ack (Bus false s o d t) =
  Done 0 (Bus false true false (feed d (ack_wave ++ [(Fall, next)])) (t + 1 + 1)).
Proof.
  intros Hd (H1 & H2 & _). unfold IIC_Wait_Ack. bus_eval. rewrite Hd.
  rewrite poll_low by exact H1. bus_eval. reflexivity.
Qed.

Lemma nack_run s d t :
  plays d [(Fall, true); (Rise true, true); (Fall, true)] ->
  IIC_NAck (Bus true s false d t) = Done tt
    (Bus false true true (feed d [(Fall, true); (Rise true, true); (Fall, true)]) (t + 2 + 2)).
Proof.
  intros (H1 & H2 & H3 & _). unfold IIC_NAck. bus_eval.
  repeat (rewrite H1; bus_eval). reflexivity.
Qed.

(** Sending: the bits of [txd] from bit 7 down. *)
Fixpoint top_bits (n : nat) (txd : Z) : list bool :=
  match n with
  | O => []
  | S n => Z.testbit txd 7 :: top_bits n (u8 (Z.shiftl txd 1))
  end.

Lemma top_bit txd : negb (Z.shiftr (Z.land txd 0x80) 7 =? 0) = Z.testbit txd 7.
Proof.
  replace (Z.shiftr (Z.land txd 0x80) 7) with (Z.b2z (Z.testbit txd 7)).
  - by destruct (Z.testbit txd 7).
  - apply bits_ext. intros k Hk. rewrite Z.shiftr_spec, Z.land_spec by lia.
    change 0x80 with (2 ^ 7). rewrite Z.pow2_bits_eqb by lia.
    destruct (decide (k = 0)) as [->|].
    + rewrite Z.b2z_bit0. by rewrite andb_true_r.
    + rewrite (proj2 (Z.eqb_neq 7 (k + 7))), andb_false_r by lia.
      destruct (Z.testbit txd 7); [|by rewrite Z.bits_0].
      change (Z.b2z true) with (2 ^ 0). rewrite Z.pow2_bits_eqb by lia. lia.
Qed.

Lemma shift_again x i :
  0 <= i -> u8 (Z.shiftl (u8 (Z.shiftl x i)) 1) = u8 (Z.shiftl x (i + 1)).
Proof.
  intros Hi. apply bits_ext. intros k Hk. unfold u8. rewrite !testbit_mod_pow2 by lia.
  case_bool_decide; [cbn [andb]|done]. rewrite !Z.shiftl_spec by lia. destruct (decide (1 <= k)).
  - rewrite testbit_mod_pow2, bool_decide_eq_true_2, Z.shiftl_spec by lia. cbn [andb]. f_equal. lia.
  - rewrite !(Z.testbit_neg_r _ (k - _)) by lia. done.
Qed.

Lemma top_bits_shifted n x i :
  0 <= i -> Z.of_nat n + i <= 8 ->
  top_bits n (u8 (Z.shiftl x i)) = (fun j => Z.testbit x (7 - j)) <$> seqZ i (Z.of_nat n).
Proof.
  revert i. induction n as [|n IH]; intros i Hi Hn; [done|].
  rewrite seqZ_cons by lia. cbn [top_bits]. rewrite fmap_cons. f_equal.
  - unfold u8. rewrite testbit_mod_pow2, bool_decide_eq_true_2, Z.shiftl_spec by lia. done.
  - rewrite shift_again by done. replace (Z.pred (Z.of_nat (S n))) with (Z.of_nat n) by lia.
    replace (Z.succ i) with (i + 1) by lia. apply IH; lia.
Qed.

Lemma top_bits_byte x : is_u8 x -> top_bits 8 x = byte_bits x.
Proof.
  intros Hx. etrans; [|exact (top_bits_shifted 8 x 0 ltac:(lia) ltac:(lia))]. f_equal.
  rewrite Z.shiftl_0_r. symmetry. by apply in_width_small.
Qed.

Lemma send_bit_run s d t txd last :
  dev_sda d = true -> plays d [(Rise (Z.testbit txd 7), true); (Fall, last)] ->
  send_bit txd (Bus false s true d t) = Done (u8 (Z.shiftl txd 1))
    (Bus false (Z.testbit txd 7) true
      (feed d [(Rise (Z.testbit txd 7), true); (Fall, last)]) (t + 2 + 2 + 2)).
Proof.
  intros Hd _. unfold send_bit. rewrite top_bit. set (v := Z.testbit txd 7). bus_eval.
  rewrite Hd. destruct v; reflexivity.
Qed.

Lemma send_bits_run (l : list Z) s d t txd last :
  l <> [] -> dev_sda d = true -> plays d (bits_wave (top_bits (length l) txd) last) ->
  exists s' txd', for_fold l txd (fun txd _ => send_bit txd) (Bus false s true d t) =
    Done txd' (Bus false s' true (feed d (bits_wave (top_bits (length l) txd) last))
      (t + 6 * Z.of_nat (length l))).
Proof.
  intros Hl. revert s d t txd. induction l as [|x l IH]; intros s d t txd Hd Hw; [done|].
  cbn [for_fold]. destruct l as [|y l].
  - cbn [length top_bits bits_wave for_fold] in *.
    rewrite (bind_Done _ _ _ _ _ (send_bit_run s d t txd last Hd Hw)).
    do 2 eexists. replace (t + 6 * Z.of_nat 1) with (t + 2 + 2 + 2) by lia. reflexivity.
  - destruct Hw as (H1 & H2 & Hw).
    rewrite (bind_Done _ _ _ _ _ (send_bit_run s d t txd true Hd (conj H1 (conj H2 I)))).
    destruct (IH ltac:(done) (Z.testbit txd 7) _ (t + 2 + 2 + 2) (u8 (Z.shiftl txd 1)) H2 Hw)
      as (s' & txd' & E). exists s', txd'. etrans; [exact E|].
    replace (t + 6 * Z.of_nat (length (x :: y :: l)))
      with (t + 2 + 2 + 2 + 6 * Z.of_nat (length (y :: l))) by (cbn [length]; lia). reflexivity.
Qed.

Lemma send_run s o d t x last :
  is_u8 x -> dev_sda d = true -> plays d (bits_wave (byte_bits x) last) ->
  exists s', IIC_Send_Byte x (Bus false s o d t) = Done tt
    (Bus false s' true (feed d (bits_wave (byte_bits x) last)) (t + 48)).
Proof.
  intros Hx Hd Hw. rewrite <- top_bits_byte in Hw |- * by done.
  destruct (send_bits_run (zseq 0 8) s d t x last) as (s' & txd' & E); [done..|].
  exists s'. unfold IIC_Send_Byte.
  change (SDA_OUT (Bus false s o d t)) with (Done tt (Bus false s true d t)).
  etrans; [exact (bind_Done SDA_OUT _ (Bus false s o d t) tt (Bus false s true d t) eq_refl)|].
  etrans; [exact (bind_Done (IIC_SCL false) _ (Bus false s true d t) tt (Bus false s true d t) eq_refl)|].
  by rewrite (bind_Done _ _ _ _ _ E).
Qed.

(** Receiving. *)
Definition push (receive : Z) (v : bool) : Z :=
  let receive := u8 (Z.shiftl receive 1) in if v then u8 (receive + 1) else receive.

Lemma push_byte p : is_u8 p -> fold_left push (byte_bits p) 0 = p.
Proof.
  intros Hp. assert (Hall : forallb (fun p => fold_left push (byte_bits p) 0 =? p) (seqZ 0 256) = true)
    by (vm_compute; reflexivity).
  rewrite forallb_forall in Hall. apply Z.eqb_eq, Hall. apply list_elem_of_In, elem_of_seqZ.
  unfold in_width in Hp. lia.
Qed.

Lemma read_low s d t r :
  plays d [(Rise (dev_sda d), dev_sda d)] ->
  read_bit r (Bus false s false d t) =
  Done (push r (dev_sda d)) (Bus true s false (feed d [(Rise (dev_sda d), dev_sda d)]) (t + 2 + 1)).
Proof.
  intros [Hv _]. unfold read_bit, push. bus_eval. rewrite Hv. by destruct (dev_sda d).
Qed.

Lemma read_high s d t r b :
  plays d (out_wave [b]) ->
  read_bit r (Bus true s false d t) =
  Done (push r b) (Bus true s false (feed d (out_wave [b])) (t + 2 + 1)).
Proof.
  intros (H1 & H2 & _). unfold read_bit, push. bus_eval. rewrite H1, H2. by destruct b.
Qed.

Lemma read_bits_run (l : list Z) bs s d t r :
  length bs = length l -> plays d (out_wave bs) ->
  for_fold l r (fun r _ => read_bit r) (Bus true s false d t) =
  Done (fold_left push bs r) (Bus true s false (feed d (out_wave bs)) (t + 3 * Z.of_nat (length l))).
Proof.
  revert l d t r. induction bs as [|b bs IH]; intros [|x l] d t r Hl Hw; try discriminate.
  { simpl. by rewrite Z.add_0_r. }
  change (out_wave (b :: bs)) with (out_wave [b] ++ out_wave bs) in *.
  apply plays_app in Hw as [H1 H2]. cbn [for_fold fold_left].
  rewrite (bind_Done _ _ _ _ _ (read_high s d t r b H1)), feed_app.
  etrans; [apply (IH l _ _ _ ltac:(by injection Hl) H2)|].
  replace (t + 3 * Z.of_nat (length (x :: l))) with (t + 2 + 1 + 3 * Z.of_nat (length l))
    by (cbn [length]; lia). done.
Qed.

Definition nack_wave : wave := [(Fall, true); (Rise true, true); (Fall, true)].

Lemma read_loop_run (l : list Z) bs s d t b :
  length bs = length l -> dev_sda d = b -> plays d ([(Rise b, b)] ++ out_wave bs) ->
  for_fold (0 :: l) 0 (fun r _ => read_bit r) (Bus false s false d t) =
  Done (fold_left push (b :: bs) 0)
    (Bus true s false (feed d ([(Rise b, b)] ++ out_wave bs)) (t + 2 + 1 + 3 * Z.of_nat (length l))).
Proof.
  intros Hl <- [H1 H2]%plays_app. rewrite feed_app. cbn [for_fold fold_left].
  etrans; [exact (bind_Done _ _ _ _ _ (read_low s d t 0 H1))|].
  exact (read_bits_run l bs s _ _ _ Hl H2).
Qed.

Lemma eight_turns : zseq 0 8 = 0 :: seqZ 1 7.
Proof. reflexivity. Qed.

Lemma read_byte_run s o d t b bs :
  length bs = 7%nat -> dev_sda d = b -> plays d (([(Rise b, b)] ++ out_wave bs) ++ nack_wave) ->
  IIC_Read_Byte 0 (Bus false s o d t) =
  Done (fold_left push (b :: bs) 0)
    (Bus false true true (feed d (([(Rise b, b)] ++ out_wave bs) ++ nack_wave)) (t + 28)).
Proof.
  intros Hl Hb [H1 H2]%plays_app. unfold IIC_Read_Byte. rewrite eight_turns.
  etrans; [exact (bind_Done SDA_IN _ (Bus false s o d t) tt (Bus false s false d t) eq_refl)|].
  etrans; [exact (bind_Done _ _ _ _ _ (read_loop_run (seqZ 1 7) bs s d t b Hl Hb H1))|].
  change (Z.of_nat (length (seqZ 1 7))) with 7.
  rewrite (feed_app d ([(Rise b, b)] ++ out_wave bs) nack_wave). revert H2.
  generalize (feed d ([(Rise b, b)] ++ out_wave bs)) as d1. intros d1 H2.
  generalize (fold_left push (b :: bs) 0) as r. intros r.
  replace (t + 28) with (t + 2 + 1 + 3 * 7 + 2 + 2) by lia. change (0 =? 0) with true.
  rewrite (bind_Done _ _ _ _ _ (nack_run s d1 (t + 2 + 1 + 3 * 7) H2)). reflexivity.
Qed.

(** A byte sent and acknowledged. *)
Lemma plays_last d w e v : plays d (w ++ [(e, v)]) -> dev_sda (feed d (w ++ [(e, v)])) = v.
Proof. rewrite plays_app, feed_app. by intros (_ & ? & _). Qed.

Lemma bits_wave_last bs last :
  bs <> [] -> exists w e, bits_wave bs last = w ++ [(e, last)].
Proof.
  induction bs as [|b bs IH]; intros Hb; [done|]. destruct bs as [|b' bs].
  - by exists [(Rise b, true)], Fall.
  - destruct (IH ltac:(done)) as (w & e & E). exists ((Rise b, true) :: (Fall, true) :: w), e.
    simpl app. by rewrite <- E.
Qed.

Definition byte_wave (x : Z) (next : bool) : wave :=
  bits_wave (byte_bits x) false ++ ack_wave ++ [(Fall, next)].

Lemma bits_last d bs last :
  bs <> [] -> plays d (bits_wave bs last) -> dev_sda (feed d (bits_wave bs last)) = last.
Proof. intros Hb. destruct (bits_wave_last bs last Hb) as (w & e & ->). apply plays_last. Qed.

Lemma byte_run s o d t x next :
  is_u8 x -> dev_sda d = true -> plays d (byte_wave x next) ->
  exists b, IIC_Send_Byte x (Bus false s o d t) = Done tt b /\
    IIC_Wait_Ack b = Done 0 (Bus false true false (feed d (byte_wave x next)) (t + 50)) /\
    dev_sda (feed d (byte_wave x next)) = next.
Proof.
  unfold byte_wave. intros Hx Hd Hw. apply plays_app in Hw as [H1 H2]. rewrite feed_app.
  destruct (send_run s o d t x false Hx Hd H1) as [s' E].
  apply bits_last in H1; [|done]. revert E H1 H2.
  generalize (feed d (bits_wave (byte_bits x) false)) as d1. intros d1 E H1 H2.
  exists (Bus false s' true d1 (t + 48)). split; [exact E|]. split.
  - etrans; [exact (ack_run s' true d1 (t + 48) next H1 H2)|].
    replace (t + 50) with (t + 48 + 1 + 1) by lia. reflexivity.
  - exact (plays_last d1 ack_wave Fall next H2).
Qed.

(** ** The transactions *)
Context {laws : PCF8574Laws}.

Lemma write_wave_split x :
  write_wave x = start_wave ++ byte_wave 0x40 true ++ byte_wave x true ++ stop_wave.
Proof. unfold write_wave, byte_wave. by rewrite <- !app_assoc. Qed.

Lemma write_run d t x :
  ready d -> is_u8 x ->
  exists t', PCF8574_WriteOneByte x (idle d t) = Done tt (idle (feed d (write_wave x)) t') /\
    t + 10000 <= t'.
Proof.
  intros Hr Hx. destruct (on_write d x Hr Hx) as [Hw _]. rewrite write_wave_split in *.
  rewrite !(feed_app d), !feed_app. apply plays_app in Hw as [H1 [H2 [H3 H4]%plays_app]%plays_app].
  destruct (byte_run false true _ (t + 4 + 4) 0x40 true ltac:(done) (plays_last d [_] _ _ H1) H2)
    as (b1 & E1 & E2 & Hd1).
  destruct (byte_run true false _ (t + 4 + 4 + 50) x true Hx Hd1 H3) as (b2 & E3 & E4 & Hd2).
  unfold PCF8574_WriteOneByte. change (Z.lor PCF8574_ADDR 0) with 0x40.
  rewrite (bind_Done _ _ _ _ _ (start_run d t (ready_sda _ Hr) H1)).
  rewrite (bind_Done _ _ _ _ _ E1), (bind_Done _ _ _ _ _ E2), (bind_Done _ _ _ _ _ E3),
    (bind_Done _ _ _ _ _ E4).
  rewrite (bind_Done _ _ _ _ _ (stop_run true false _ _ H4)).
  exists (t + 4 + 4 + 50 + 50 + 4 + 4 + 1000 * 10). split; [reflexivity|lia].
Qed.

Lemma out_wave_last bs w e v :
  out_wave bs ++ (e, v) :: w = out_wave bs ++ [(e, v)] ++ w.
Proof. done. Qed.

Lemma byte_bits_cons p : exists b bs, byte_bits p = b :: bs /\ length bs = 7%nat.
Proof. eexists _, _. split; reflexivity. Qed.

Lemma read_wave_split p b bs :
  byte_bits p = b :: bs ->
  read_wave p = start_wave ++ byte_wave 0x41 b ++
    (([(Rise b, b)] ++ out_wave bs) ++ nack_wave) ++ stop_wave.
Proof.
  intros E. unfold read_wave. rewrite E. unfold byte_wave.
  change (out_wave (b :: bs)) with ([(Fall, b)] ++ [(Rise b, b)] ++ out_wave bs).
  change nack_wave with ([(Fall, true)] ++ [(Rise true, true); (Fall, true)]).
  by rewrite <- !app_assoc.
Qed.

(** The level of the pins of the expander. *)
Definition port (d : dev) : Z := Z.land (latch d) (inputs d).

Lemma port_u8 d : ready d -> is_u8 (port d).
Proof.
  intros Hr. pose proof (latch_u8 d Hr). unfold port. apply testbits_in_width; [lia|].
  intros k Hk. by rewrite Z.land_spec, (in_width_testbit 8 (latch d)).
Qed.

Lemma read_run d t :
  ready d ->
  exists t', PCF8574_ReadOneByte (idle d t) =
    Done (port d) (idle (feed d (read_wave (port d))) t').
Proof.
  intros Hr. destruct (on_read d Hr) as [Hw _]. fold (port d) in Hw.
  destruct (byte_bits_cons (port d)) as (b & bs & E & Hl).
  rewrite (read_wave_split _ _ _ E) in *. rewrite (feed_app d), !(feed_app (feed _ _)).
  apply plays_app in Hw as [H1 [H2 [H3 H4]%plays_app]%plays_app].
  destruct (byte_run false true _ (t + 4 + 4) 0x41 b ltac:(done) (plays_last d [_] _ _ H1) H2)
    as (b1 & E1 & E2 & Hd1).
  unfold PCF8574_ReadOneByte. change (Z.lor PCF8574_ADDR 1) with 0x41.
  rewrite (bind_Done _ _ _ _ _ (start_run d t (ready_sda _ Hr) H1)).
  rewrite (bind_Done _ _ _ _ _ E1), (bind_Done _ _ _ _ _ E2).
  rewrite (bind_Done _ _ _ _ _ (read_byte_run true false _ (t + 4 + 4 + 50) b bs Hl Hd1 H3)).
  rewrite (bind_Done _ _ _ _ _ (stop_run true true _ _ H4)).
  rewrite <- E, push_byte by by apply port_u8. eexists. rewrite !feed_app. reflexivity.
Qed.

(** What a bit of the byte written by [PCF8574_WriteBit] is. *)
Lemma write_data_testbit p bit sta k :
  is_u8 p -> 0 <= bit < 8 -> 0 <= k < 8 ->
  Z.testbit (if sta =? 0 then u8 (Z.land p (Z.lnot (Z.shiftl 1 bit)))
             else u8 (Z.lor p (Z.shiftl 1 bit))) k =
  if bool_decide (k = bit) then negb (sta =? 0) else Z.testbit p k.
Proof.
  intros Hp Hb Hk. destruct (sta =? 0).
  - fold (clrbit p bit). rewrite clrbit_testbit by done. case_bool_decide; simpl; by destruct (Z.testbit p k).
  - fold (setbit p bit). rewrite setbit_testbit by done. case_bool_decide; simpl; by destruct (Z.testbit p k).
Qed.

Lemma write_data_u8 p bit sta :
  is_u8 (if sta =? 0 then u8 (Z.land p (Z.lnot (Z.shiftl 1 bit)))
         else u8 (Z.lor p (Z.shiftl 1 bit))).
Proof. destruct (sta =? 0); apply (in_width_mod 8); lia. Qed.

Lemma read_ready d : ready d ->
  ready (feed d (read_wave (port d))) /\ latch (feed d (read_wave (port d))) = latch d /\
  inputs (feed d (read_wave (port d))) = inputs d.
Proof. intros Hr. apply (on_read d Hr). Qed.

Lemma write_bit_run d t bit sta :
  ready d -> 0 <= bit < 8 ->
  exists d' t', PCF8574_WriteBit bit sta (idle d t) = Done tt (idle d' t') /\
    ready d' /\ inputs d' = inputs d /\
    (forall k, 0 <= k < 8 -> Z.testbit (latch d') k =
      if bool_decide (k = bit) then negb (sta =? 0) else Z.testbit (port d) k).
Proof.
  intros Hr Hb. destruct (read_run d t Hr) as [t1 E1].
  destruct (read_ready d Hr) as (Hr1 & Hl1 & Hi1).
  set (data := if sta =? 0 then u8 (Z.land (port d) (Z.lnot (Z.shiftl 1 bit)))
               else u8 (Z.lor (port d) (Z.shiftl 1 bit))).
  assert (Hdata : is_u8 data) by apply write_data_u8.
  destruct (write_run _ t1 data Hr1 Hdata) as (t2 & E2 & _).
  destruct (on_write _ data Hr1 Hdata) as (_ & Hr2 & Hl2 & Hi2).
  unfold PCF8574_WriteBit. rewrite (bind_Done _ _ _ _ _ E1). fold data. rewrite E2.
  eexists _, t2. split; [reflexivity|]. split_and!; [done|congruence|].
  intros k Hk. rewrite Hl2. apply write_data_testbit; [by apply port_u8|done..].
Qed.

Lemma land_one_bit p bit : 0 <= bit -> negb (Z.land p (Z.shiftl 1 bit) =? 0) = Z.testbit p bit.
Proof.
  intros Hb. assert (E : Z.land p (Z.shiftl 1 bit) = if Z.testbit p bit then 2 ^ bit else 0).
  { apply bits_ext. intros k Hk. rewrite Z.land_spec, testbit_one_shl by done.
    case_bool_decide as E; [subst|].
    - rewrite andb_true_r. destruct (Z.testbit p bit); [by rewrite Z.pow2_bits_true|by rewrite Z.bits_0].
    - rewrite andb_false_r. destruct (Z.testbit p bit); [by rewrite Z.pow2_bits_false|by rewrite Z.bits_0]. }
  rewrite E. destruct (Z.testbit p bit); [|done].
  rewrite (proj2 (Z.eqb_neq _ 0)); [done|]. pose proof (Z.pow_pos_nonneg 2 bit). lia.
Qed.

Lemma read_bit_at d t bit :
  ready d -> 0 <= bit < 8 ->
  exists d' t', PCF8574_ReadBit bit (idle d t) =
      Done (if Z.testbit (port d) bit then 1 else 0) (idle d' t') /\
    ready d' /\ latch d' = latch d /\ inputs d' = inputs d.
Proof.
  intros Hr Hb. destruct (read_run d t Hr) as [t1 E1]. destruct (read_ready d Hr) as (Hr1 & Hl1 & Hi1).
  unfold PCF8574_ReadBit. rewrite (bind_Done _ _ _ _ _ E1), land_one_bit by lia.
  eexists _, t1. split; [reflexivity|]. done.
Qed.

(** C18: [PCF8574_WriteBit], down to the edges on the I2C bus, against any expander
    that behaves as its data sheet says: from an idle bus it returns with the bus
    idle again, the pin [bit] of the expander is driven to [sta] (any value other
    than 0 is high), and every other pin keeps being driven to the level it had,
    so that [PCF8574_ReadBit] of the pin then returns what was written. *)
Theorem PCF8574_WriteBit_correct d t bit sta :
  ready d -> 0 <= bit < 8 ->
  exists d' t', PCF8574_WriteBit bit sta (idle d t) = Done tt (idle d' t') /\
    ready d' /\ inputs d' = inputs d /\
    (forall k, 0 <= k < 8 -> Z.testbit (port d') k =
      Z.testbit (inputs d) k &&
      if bool_decide (k = bit) then negb (sta =? 0) else Z.testbit (latch d) k) /\
    exists d'' t'', PCF8574_ReadBit bit (idle d' t') =
      Done (if Z.testbit (inputs d) bit && negb (sta =? 0) then 1 else 0) (idle d'' t'').
Proof.
  intros Hr Hb. destruct (write_bit_run d t bit sta Hr Hb) as (d' & t' & E & Hr' & Hi' & Hl').
  exists d', t'. split; [exact E|]. split_and!; [done|done| |].
  - intros k Hk. unfold port. rewrite Z.land_spec, Hi', Hl' by done. unfold port.
    rewrite Z.land_spec. case_bool_decide; destruct (Z.testbit (inputs d) k); simpl;
      by rewrite ?andb_true_r, ?andb_false_r.
  - destruct (read_bit_at d' t' bit Hr' Hb) as (d2 & t2 & E2 & _). exists d2, t2. rewrite E2.
    unfold port. rewrite Z.land_spec, Hi', Hl', bool_decide_eq_true_2 by done.
    by rewrite andb_comm.
Qed.

(** A write of one pin makes every pin that reads low at that moment low for
    good: it is latched low with the byte that is written back, and from then on
    [PCF8574_ReadBit] returns 0 for it, whatever the outside does to the pin,
    until another write of that pin. The temperature inputs share the expander
    with the lamps, so an over-temperature that lasts only while a lamp is
    switched is never forgotten. *)
Theorem input_low_sticks d t bit sta k :
  ready d -> 0 <= bit < 8 -> 0 <= k < 8 -> k <> bit -> Z.testbit (port d) k = false ->
  exists d' t', PCF8574_WriteBit bit sta (idle d t) = Done tt (idle d' t') /\
    forall d2 t2, ready d2 -> latch d2 = latch d' ->
      exists d3 t3, PCF8574_ReadBit k (idle d2 t2) = Done 0 (idle d3 t3) /\
        ready d3 /\ latch d3 = latch d'.
Proof.
  intros Hr Hb Hk Hne Hlow. destruct (write_bit_run d t bit sta Hr Hb) as (d' & t' & E & _ & _ & Hl').
  exists d', t'. split; [exact E|]. intros d2 t2 Hr2 Hl2.
  destruct (read_bit_at d2 t2 k Hr2 Hk) as (d3 & t3 & E3 & Hr3 & Hl3 & _).
  assert (Hp : Z.testbit (port d2) k = false).
  { unfold port. by rewrite Z.land_spec, Hl2, Hl', bool_decide_eq_false_2, Hlow by done. }
  rewrite Hp in E3. exists d3, t3. split_and!; [exact E3|done|congruence].
Qed.

(** ** Power-up: both output registers are low, SDA is still an input *)
Definition bus_reset (d : dev) (t : Z) : bus := Bus false false false d t.

Lemma init_pins_run d t :
  IIC_Init (bus_reset d t) = Done tt (idle (dev_step d (Rise (dev_sda d))) t).
Proof. unfold IIC_Init, bus_reset, idle. bus_eval. reflexivity. Qed.

Lemma probe_wave_split : probe_wave = start_wave ++ byte_wave 0x40 true ++ stop_wave.
Proof. unfold probe_wave, byte_wave. by rewrite <- !app_assoc. Qed.

Lemma expander_init_run d t :
  ready (dev_step d (Rise (dev_sda d))) ->
  exists d' t', PCF8574_Init (bus_reset d t) = Done 0 (idle d' t') /\ ready d' /\
    latch d' = 0xFF /\ inputs d' = inputs (dev_step d (Rise (dev_sda d))).
Proof.
  intros Hr. unfold PCF8574_Init. rewrite (bind_Done _ _ _ _ _ (init_pins_run d t)).
  revert Hr. generalize (dev_step d (Rise (dev_sda d))) as d0. intros d0 Hr.
  destruct (on_probe d0 Hr) as (Hw & Hr1 & _ & Hi1). rewrite probe_wave_split in *.
  apply plays_app in Hw as [H1 [H2 H3]%plays_app]. rewrite !feed_app in Hr1, Hi1.
  destruct (byte_run false true _ (t + 4 + 4) 0x40 true ltac:(done) (plays_last d0 [_] _ _ H1) H2)
    as (b1 & E1 & E2 & _).
  rewrite (bind_Done _ _ _ _ _ (start_run d0 t (ready_sda _ Hr) H1)).
  change PCF8574_ADDR with 0x40. rewrite (bind_Done _ _ _ _ _ E1), (bind_Done _ _ _ _ _ E2).
  rewrite (bind_Done _ _ _ _ _ (stop_run true false _ _ H3)).
  destruct (write_run _ (t + 4 + 4 + 50 + 4 + 4) 0xFF Hr1 ltac:(done)) as (t' & E3 & _).
  destruct (on_write _ 0xFF Hr1 ltac:(done)) as (_ & Hr2 & Hl2 & Hi2).
  rewrite (bind_Done _ _ _ _ _ E3). eexists _, t'. split; [reflexivity|].
  split; [exact Hr2|]. split; [exact Hl2|]. etrans; [exact Hi2|exact Hi1].
Qed.
End waves.

(** ** No expander *)
Section silent.
Context `{!I2CDevice}.

(** Nothing on the bus pulls SDA low. *)
Definition silent : Prop := forall d, dev_sda d = true.

Definition returns {A} (m : M bus A) : Prop := forall b, exists a b', m b = Done a b'.

Lemma returns_bind {A C} (m : M bus A) (k : A -> M bus C) :
  returns m -> (forall a, returns (k a)) -> returns (m ≫= k).
Proof.
  intros Hm Hk b. destruct (Hm b) as (a & b1 & E). rewrite (bind_Done _ _ _ _ _ E). apply Hk.
Qed.

Lemma returns_modify f : returns (modify f).
Proof. intros b. by eexists _, _. Qed.

Lemma returns_ret {A} (a : A) : returns (mret a).
Proof. intros b. by eexists _, _. Qed.

Lemma returns_loop {A} (l : list Z) (acc : A) body :
  (forall a x, returns (body a x)) -> returns (for_fold l acc body).
Proof.
  intros Hb. revert acc. induction l as [|x l IH]; intros acc; cbn [for_fold].
  - apply returns_ret.
  - apply returns_bind; auto.
Qed.

Lemma returns_pins f : returns (pins f).
Proof. apply returns_modify. Qed.

(** Code without branches on the bus. *)
Ltac head t := lazymatch t with ?f _ => head f | _ => t end.
Ltac returns :=
  lazymatch goal with
  | |- returns (mbind _ _) => apply returns_bind; [returns|intro; returns]
  | |- returns (mret _) => apply returns_ret
  | |- returns skip => apply returns_ret
  | |- returns IIC_Wait_Ack => assumption
  | |- returns (modify _) => apply returns_modify
  | |- returns (pins _) => apply returns_pins
  | |- returns (for_fold _ _ _) => apply returns_loop; intros; returns
  | |- returns ?m => let h := head m in unfold h; returns
  end.

Lemma IIC_Init_returns : returns IIC_Init.
Proof. returns. Qed.
Lemma IIC_Start_returns : returns IIC_Start.
Proof. returns. Qed.
Lemma IIC_Stop_returns : returns IIC_Stop.
Proof. returns. Qed.
Lemma IIC_NAck_returns : returns IIC_NAck.
Proof. returns. Qed.
Lemma IIC_Send_Byte_returns x : returns (IIC_Send_Byte x).
Proof. returns. Qed.

Hypothesis Hsilent : silent.

Lemma line_in (b : bus) : sda_out b = false -> line b = true.
Proof. intros Ho. unfold line. by rewrite Ho, Hsilent. Qed.

Lemma pins_out f (b b' : bus) : pins f b = Done tt b' -> sda_out b' = sda_out (f b).
Proof. unfold pins, modify. intros [= <-]. by destruct (edge_of b (f b)). Qed.

Lemma poll_silent n e (b : bus) :
  sda_out b = false -> 0 <= e -> Z.of_nat n + e = 250 ->
  IIC_Poll (S n) e b = (IIC_Stop ;; mret 1) b.
Proof.
  intros Ho. revert e. induction n as [|n IH]; intros e He Hn;
    cbn [IIC_Poll]; unfold READ_SDA; rewrite bind_gets, line_in by done;
    unfold u8; rewrite Z.mod_small by lia.
  - by rewrite (proj2 (Z.gtb_lt (e + 1) 250)) by lia.
  - rewrite Z.gtb_ltb, (proj2 (Z.ltb_ge 250 (e + 1))) by lia. apply IH; lia.
Qed.

(** A change of the pins keeps what it does not set. *)
Lemma pins_run f (b : bus) : exists b', pins f b = Done tt b' /\ sda_out b' = sda_out (f b).
Proof. unfold pins, modify. eexists. split; [reflexivity|]. by destruct (edge_of b (f b)). Qed.

Lemma delay_run n (b : bus) : i2c_delay_us n b = Done tt (b <| elapsed := elapsed b + n |>).
Proof. done. Qed.

Lemma wait_silent (b : bus) : exists b', IIC_Wait_Ack b = Done 1 b'.
Proof.
  unfold IIC_Wait_Ack, SDA_IN, IIC_SDA, IIC_SCL.
  destruct (pins_run (fun b => b <| sda_out := false |>) b) as (b1 & E1 & O1).
  rewrite (bind_Done _ _ _ _ _ E1).
  destruct (pins_run (fun b => b <| sda := true |>) b1) as (b2 & E2 & O2).
  rewrite (bind_Done _ _ _ _ _ E2), (bind_Done _ _ _ _ _ (delay_run 1 b2)).
  set (b3 := b2 <| elapsed := elapsed b2 + 1 |>).
  destruct (pins_run (fun b => b <| scl := true |>) b3) as (b4 & E4 & O4).
  rewrite (bind_Done _ _ _ _ _ E4), (bind_Done _ _ _ _ _ (delay_run 1 b4)).
  rewrite (poll_silent 250 0); [|simpl in *; congruence|lia..].
  destruct (IIC_Stop_returns (b4 <| elapsed := elapsed b4 + 1 |>)) as ([] & b5 & E5).
  rewrite (bind_Done _ _ _ _ _ E5). by eexists.
Qed.

Lemma read_bit_silent r (b : bus) :
  sda_out b = false -> exists b', read_bit r b = Done (push r true) b' /\ sda_out b' = false.
Proof.
  intros Ho. unfold read_bit, IIC_SCL.
  destruct (pins_run (fun b => b <| scl := false |>) b) as (b1 & E1 & O1).
  rewrite (bind_Done _ _ _ _ _ E1), (bind_Done _ _ _ _ _ (delay_run 2 b1)).
  set (b2 := b1 <| elapsed := elapsed b1 + 2 |>).
  destruct (pins_run (fun b => b <| scl := true |>) b2) as (b3 & E3 & O3).
  rewrite (bind_Done _ _ _ _ _ E3). unfold READ_SDA.
  assert (H3 : sda_out b3 = false) by (simpl in *; congruence).
  rewrite bind_gets, line_in by done. eexists. split; [reflexivity|]. done.
Qed.

Lemma read_bits_silent (l : list Z) r (b : bus) :
  sda_out b = false ->
  exists b', for_fold l r (fun r _ => read_bit r) b =
    Done (fold_left push (replicate (length l) true) r) b'.
Proof.
  revert r b. induction l as [|x l IH]; intros r b Ho; [by eexists|]. cbn [for_fold].
  destruct (read_bit_silent r b Ho) as (b1 & E1 & O1). rewrite (bind_Done _ _ _ _ _ E1).
  destruct (IH (push r true) b1 O1) as (b2 & E2). exists b2. exact E2.
Qed.

Lemma read_byte_silent (b : bus) : exists b', IIC_Read_Byte 0 b = Done 255 b'.
Proof.
  unfold IIC_Read_Byte, SDA_IN.
  destruct (pins_run (fun b => b <| sda_out := false |>) b) as (b1 & E1 & O1).
  rewrite (bind_Done _ _ _ _ _ E1).
  destruct (read_bits_silent (zseq 0 8) 0 b1 O1) as (b2 & E2). rewrite (bind_Done _ _ _ _ _ E2).
  destruct (IIC_NAck_returns b2) as ([] & b3 & E3). change (0 =? 0) with true.
  rewrite (bind_Done _ _ _ _ _ E3). by eexists.
Qed.

Lemma wait_returns : returns IIC_Wait_Ack.
Proof. intros b. destruct (wait_silent b) as [b' E]. by eexists _, _. Qed.

Lemma read_one_silent (b : bus) : exists b', PCF8574_ReadOneByte b = Done 255 b'.
Proof.
  unfold PCF8574_ReadOneByte. destruct (IIC_Start_returns b) as ([] & b1 & E1).
  rewrite (bind_Done _ _ _ _ _ E1).
  destruct (IIC_Send_Byte_returns (Z.lor PCF8574_ADDR 1) b1) as ([] & b2 & E2).
  rewrite (bind_Done _ _ _ _ _ E2).
  destruct (wait_silent b2) as [b3 E3]. rewrite (bind_Done _ _ _ _ _ E3).
  destruct (read_byte_silent b3) as [b4 E4]. rewrite (bind_Done _ _ _ _ _ E4).
  destruct (IIC_Stop_returns b4) as ([] & b5 & E5). rewrite (bind_Done _ _ _ _ _ E5). by eexists.
Qed.

Lemma write_one_silent x : returns (PCF8574_WriteOneByte x).
Proof.
  pose proof wait_returns as Hack. returns.
Qed.

Lemma read_bit_is_high bit (b : bus) :
  0 <= bit < 8 -> exists b', PCF8574_ReadBit bit b = Done 1 b'.
Proof.
  intros Hb. destruct (read_one_silent b) as [b' E]. exists b'.
  unfold PCF8574_ReadBit. rewrite (bind_Done _ _ _ _ _ E), land_one_bit by lia.
  change 255 with (Z.ones 8). by rewrite Z.ones_spec_low by lia.
Qed.
End silent.

(** With no expander on the bus (nothing ever pulls SDA low), [PCF8574_Init]
    gives up after its 251 polls and returns 1, and every [PCF8574_ReadBit]
    returns 1: the temperature inputs, whose alarm level is 0, then read "cool"
    for ever, and [main] does not look at the result of [PCF8574_Init]. *)
Theorem missing_expander_reads_cool `{!I2CDevice} (b : bus) :
  silent ->
  (exists b', PCF8574_Init b = Done 1 b') /\
  (exists b', PCF8574_ReadBit TEMP1_IO b = Done 1 b') /\
  (exists b', PCF8574_ReadBit TEMP2_IO b = Done 1 b').
Proof.
  intros Hs. split_and!; [|by apply read_bit_is_high..].
  unfold PCF8574_Init. destruct (IIC_Init_returns b) as ([] & b1 & E1). rewrite (bind_Done _ _ _ _ _ E1).
  destruct (IIC_Start_returns b1) as ([] & b2 & E2). rewrite (bind_Done _ _ _ _ _ E2).
  destruct (IIC_Send_Byte_returns PCF8574_ADDR b2) as ([] & b3 & E3). rewrite (bind_Done _ _ _ _ _ E3).
  destruct (wait_silent Hs b3) as [b4 E4]. rewrite (bind_Done _ _ _ _ _ E4).
  destruct (IIC_Stop_returns b4) as ([] & b5 & E5). rewrite (bind_Done _ _ _ _ _ E5).
  destruct (write_one_silent Hs 0xFF b5) as ([] & b6 & E6). rewrite (bind_Done _ _ _ _ _ E6).
  by eexists.
Qed.

(** ** An expander that obeys the laws *)
Inductive phase :=
  | Off                                (** waits for a start *)
  | Addressed (bits : list bool)       (** bits of the address received, newest first *)
  | Acks (next : phase)                (** about to pull SDA low: the byte is complete *)
  | Acking (next : phase)              (** pulls SDA low *)
  | Loads (bits : list bool)           (** bits of the data received *)
  | Sends (bits : list bool).          (** bits still to be sent, the current one first *)

Record pcf := Pcf { p_phase : phase; p_latch : Z; p_inputs : Z }.

Definition bits_value (bits : list bool) : Z :=
  foldr (fun b v => Z.b2z b + 2 * v) 0 bits.

Definition pcf_step (p : pcf) (e : edge) : pcf :=
  let set ph := Pcf ph (p_latch p) (p_inputs p) in
  match e, p_phase p with
  | Start, _ => set (Addressed [])
  | Stop, _ => set Off
  | Rise b, Addressed bits =>
      let bits := b :: bits in
      if bool_decide (length bits = 8%nat) then
        if bits_value bits =? 0x40 then set (Acks (Loads []))
        else if bits_value bits =? 0x41 then
          set (Acks (Sends (byte_bits (Z.land (p_latch p) (p_inputs p)))))
        else set Off
      else set (Addressed bits)
  | Rise b, Loads bits =>
      let bits := b :: bits in
      if bool_decide (length bits = 8%nat)
      then Pcf (Acks (Loads [])) (bits_value bits) (p_inputs p)
      else set (Loads bits)
  | Fall, Acks next => set (Acking next)
  | Fall, Acking next => set next
  | Fall, Sends (_ :: bits) => set (Sends bits)
  | _, ph => set ph
  end.

Definition pcf_sda (p : pcf) : bool :=
  match p_phase p with
  | Acking _ => false
  | Sends (b :: _) => b
  | _ => true
  end.

#[export] Instance pcf_device : I2CDevice := {| dev := pcf; dev_step := pcf_step; dev_sda := pcf_sda |}.

Definition pcf_ready (p : pcf) : Prop := p_phase p = Off /\ is_u8 (p_latch p).

Lemma bits_value_byte x : is_u8 x -> bits_value (reverse (byte_bits x)) = x.
Proof.
  intros Hx. assert (Hall : forallb (fun x => bits_value (reverse (byte_bits x)) =? x) (seqZ 0 256) = true)
    by (vm_compute; reflexivity).
  rewrite forallb_forall in Hall. apply Z.eqb_eq, Hall. apply list_elem_of_In, elem_of_seqZ.
  unfold in_width in Hx. lia.
Qed.

Lemma pcf_writes l i b7 b6 b5 b4 b3 b2 b1 b0 :
  let w := start_wave ++ bits_wave (byte_bits 0x40) false ++ ack_wave ++ [(Fall, true)] ++
    bits_wave [b7; b6; b5; b4; b3; b2; b1; b0] false ++ ack_wave ++ [(Fall, true)] ++ stop_wave in
  plays (Pcf Off l i) w /\ feed (Pcf Off l i) w = Pcf Off (bits_value [b0; b1; b2; b3; b4; b5; b6; b7]) i.
Proof. vm_compute. repeat split. Qed.

Lemma pcf_read_head l i :
  let w := start_wave ++ bits_wave (byte_bits 0x41) false ++ ack_wave in
  plays (Pcf Off l i) w /\ feed (Pcf Off l i) w = Pcf (Acking (Sends (byte_bits (Z.land l i)))) l i.
Proof. vm_compute. repeat split. Qed.

Lemma pcf_read_tail l i b7 b6 b5 b4 b3 b2 b1 b0 :
  let p := Pcf (Acking (Sends [b7; b6; b5; b4; b3; b2; b1; b0])) l i in
  let w := out_wave [b7; b6; b5; b4; b3; b2; b1; b0] ++
    [(Fall, true)] ++ [(Rise true, true); (Fall, true)] ++ stop_wave in
  plays p w /\ feed p w = Pcf Off l i.
Proof. vm_compute. repeat split. Qed.

Lemma eight_bits x : exists b7 b6 b5 b4 b3 b2 b1 b0, byte_bits x = [b7; b6; b5; b4; b3; b2; b1; b0].
Proof. by do 8 eexists. Qed.

Lemma pcf_probes l i :
  plays (Pcf Off l i) probe_wave /\ feed (Pcf Off l i) probe_wave = Pcf Off l i.
Proof. vm_compute. repeat split. Qed.

Lemma pcf_on_write (p : pcf) x : pcf_ready p -> is_u8 x ->
  plays p (write_wave x) /\ feed p (write_wave x) = Pcf Off x (p_inputs p).
Proof.
  destruct p as [ph l i]. intros [Hp _] Hx. simpl in Hp. subst ph.
  pose proof (bits_value_byte x Hx) as Hv. unfold write_wave.
  destruct (eight_bits x) as (b7 & b6 & b5 & b4 & b3 & b2 & b1 & b0 & E). rewrite E in *.
  destruct (pcf_writes l i b7 b6 b5 b4 b3 b2 b1 b0) as [H1 H2]. split; [exact H1|].
  etrans; [exact H2|]. by rewrite <- Hv.
Qed.

Lemma pcf_on_read (p : pcf) : pcf_ready p ->
  plays p (read_wave (Z.land (p_latch p) (p_inputs p))) /\
  feed p (read_wave (Z.land (p_latch p) (p_inputs p))) = p.
Proof.
  destruct p as [ph l i]. intros [Hp _]. cbn [p_phase] in Hp. subst ph. cbn [p_latch p_inputs].
  destruct (pcf_read_head l i) as [H1 H2].
  destruct (eight_bits (Z.land l i)) as (b7 & b6 & b5 & b4 & b3 & b2 & b1 & b0 & E).
  destruct (pcf_read_tail l i b7 b6 b5 b4 b3 b2 b1 b0) as [H3 H4]. rewrite <- E in *.
  replace (read_wave (Z.land l i)) with
    ((start_wave ++ bits_wave (byte_bits 0x41) false ++ ack_wave) ++ out_wave (byte_bits (Z.land l i)) ++
     [(Fall, true)] ++ [(Rise true, true); (Fall, true)] ++ stop_wave)
    by (unfold read_wave; by rewrite <- !app_assoc).
  split; [apply plays_app; split; [exact H1|]|rewrite feed_app]; rewrite H2; [exact H3|exact H4].
Qed.

#[export, program] Instance pcf_laws : PCF8574Laws := {|
  ready := pcf_ready; latch := p_latch; inputs := p_inputs |}.
Next Obligation. by intros d []. Qed.
Next Obligation. intros [ph l i] [Hp _]. simpl in *. by subst. Qed.
Next Obligation.
  intros d x Hr Hx. destruct (pcf_on_write d x Hr Hx) as [H1 H2]. rewrite H2.
  split; [exact H1|]. by destruct d.
Qed.
Next Obligation.
  intros d Hr w. destruct (pcf_on_read d Hr) as [H1 H2]. fold w in H1, H2. rewrite H2.
  split; [exact H1|]. done.
Qed.
Next Obligation.
  intros [ph l i] [Hp Hl]. cbn [p_phase] in Hp. subst ph. destruct (pcf_probes l i) as [H1 H2]. rewrite H2.
  split; [exact H1|]. done.
Qed.

(** The over-temperature input 1 is at its alarm level. *)
Definition hot : @dev pcf_device := Pcf Off 0xFF 0xFE.

Lemma hot_ready : ready hot.
Proof. split; [reflexivity|]. unfold in_width. simpl. lia. Qed.

Lemma PCF8574_WriteBit_correct_witness :
  exists d' t', PCF8574_WriteBit RUNLED_IO 1 (idle hot 0) = Done tt (idle d' t') /\
    ready d' /\ inputs d' = inputs hot /\
    (forall k, 0 <= k < 8 -> Z.testbit (port d') k =
      Z.testbit (inputs hot) k &&
      if bool_decide (k = RUNLED_IO) then negb (1 =? 0) else Z.testbit (latch hot) k) /\
    exists d'' t'', PCF8574_ReadBit RUNLED_IO (idle d' t') =
      Done (if Z.testbit (inputs hot) RUNLED_IO && negb (1 =? 0) then 1 else 0) (idle d'' t'').
Proof.
  apply (PCF8574_WriteBit_correct hot 0 RUNLED_IO 1 hot_ready). unfold RUNLED_IO. lia.
Defined.

Lemma input_low_sticks_witness :
  Z.testbit (port hot) TEMP1_IO = false /\
  exists d' t', PCF8574_WriteBit RUNLED_IO 1 (idle hot 0) = Done tt (idle d' t') /\
    forall d2 t2, ready d2 -> latch d2 = latch d' ->
      exists d3 t3, PCF8574_ReadBit TEMP1_IO (idle d2 t2) = Done 0 (idle d3 t3) /\
        ready d3 /\ latch d3 = latch d'.
Proof.
  split; [reflexivity|].
  apply (input_low_sticks hot 0 RUNLED_IO 1 TEMP1_IO hot_ready);
    unfold RUNLED_IO, TEMP1_IO; [lia|lia|lia|reflexivity].
Defined.

(** An empty bus. *)
Definition nothing : I2CDevice := {| dev := unit; dev_step _ _ := tt; dev_sda _ := true |}.

Lemma missing_expander_reads_cool_witness :
  (exists b', PCF8574_Init (H := nothing) (@bus_reset nothing tt 0) = Done 1 b') /\
  (exists b', PCF8574_ReadBit (H := nothing) TEMP1_IO (@bus_reset nothing tt 0) = Done 1 b') /\
  (exists b', PCF8574_ReadBit (H := nothing) TEMP2_IO (@bus_reset nothing tt 0) = Done 1 b').
Proof.
  apply (@missing_expander_reads_cool nothing (@bus_reset nothing tt 0)). intros d. reflexivity.
Defined.

(** The driver run against the expander. *)
Example hot_reads_low :
  match PCF8574_ReadBit TEMP1_IO (idle hot 0), PCF8574_ReadBit TEMP2_IO (idle hot 0) with
  | Done a _, Done b _ => (a, b) = (0, 1)
  | _, _ => False
  end.
Proof. vm_compute. reflexivity. Qed.
