(* ===== verification/Udp.v ===== *)
(** * Datagrams: src/LWIP/udpecho/udpecho.c and src/LWIP/udpecho/mulcast.c

    What the two receive callbacks do with a datagram, local buffers included: a
    buffer on the stack is a list of its size, and an access outside it is
    undefined. lwIP is not part of the model: the callback is given the bytes of
    the packet buffer, and [udp_sendto] is an event. *)
From Stdlib Require Import ZArith Lia String.
From stdpp Require Import base tactics decidable list list_numbers numbers.
From S2P Require Import Prelude Board Relay Io HostConfig Flash Can Timers Dispatch.
Open Scope Z_scope.
Open Scope c_scope.

Definition COMM_LEN : Z := 128.

Definition COMM_CMD_TEST : Z := 0.
Definition COMM_CMD_RELAY_FIU_ACT : Z := 6.
Definition COMM_CMD_IP : Z := 0xc8.
Definition COMM_CMD_UID : Z := 0xc9.
Definition COMM_CMD_SFRST : Z := 0xca.

(** ** Local arrays *)
Section locals.
Context {S : Type}.

Definition load {A} (l : list A) (i : Z) : M S A := from_array (index l i).

Definition store {A} (l : list A) (i : Z) (v : A) : M S (list A) :=
  if bool_decide (0 <= i < Z.of_nat (length l)) then mret (<[Z.to_nat i := v]> l)
  else undefined OutOfBounds.

(** [memcpy (&l[off], src, length src)] *)
Definition copy_in {A} (l : list A) (off : Z) (src : list A) : M S (list A) :=
  if bool_decide (0 <= off /\ off + Z.of_nat (length src) <= Z.of_nat (length l))
  then mret (blit l (Z.to_nat off) src) else undefined OutOfBounds.

(** [for (i = a; i < a+n; i++) if (l[i] != v) recv_err = ERR_KLDATA;] *)
Definition expect (l : list Z) (a n v : Z) (ok : bool) : M S bool :=
  for_fold (zseq a n) ok (fun ok i => b ← load l i; mret (if b =? v then ok else false)).

(** [for (i = a; i < a+n; i++) tmp_crc += l[i];] *)
Definition sum (l : list Z) (a n crc : Z) : M S Z :=
  for_fold (zseq a n) crc (fun crc i => b ← load l i; mret (u8 (crc + b))).

(** The body of the commands TEST and IP: each byte is incremented and summed. *)
Definition increment (l : list Z) (a n crc : Z) : M S (list Z * Z) :=
  for_fold (zseq a n) (l, crc) (fun '(l, crc) i =>
    b ← load l i; l ← store l i (u8 (b + 1)); b ← load l i; mret (l, u8 (crc + b))).

(** [for (i = 0; i < FLASH_PROCHEAD_SIZE; i = i+2) { tmp_flash[i] = 0xaa; ... }] *)
Definition mark_head (l : list Z) : M S (list Z) :=
  for_fold ((fun i => 2 * i) <$> zseq 0 24) l (fun l i =>
    l ← store l i 0xaa; store l (i + 1) 0x55).

(** [tmp_flash[64..69] = tmp_buf[10..15]; tmp_flash[72..79] = tmp_buf[16..23];] *)
Definition copy_settings (tmp_flash tmp_buf : list Z) : M S (list Z) :=
  for_fold (zip (zseq 64 6 ++ zseq 72 8) (zseq 10 14)) tmp_flash (fun l '(i, j) =>
    b ← load tmp_buf j; store l i b).
End locals.

Section udp.
Context {hw : FlashHW} {outside : Board}.
Notation MS := (M (sys hw)).

(** [&data[i*8]] for each of the [len/8] messages; the answers are written in place. *)
Definition FiuRelayPinActive (data : list Z) (off len : Z) : MS (list Z) :=
  for_fold (zseq 0 (len / 8)) data (fun data i =>
    let at_ := Z.to_nat (off + i * 8) in
    r ← HostCanDataAnalysisNoLoopBuf (take 8 (drop at_ data));
    copy_in data (off + i * 8) r).

(** The flash part of COMM_CMD_IP. *)
Definition store_settings (tmp_buf : list Z) : MS unit :=
  m ← gets s_flash;
  tmp_flash ← mark_head (bytes_of_words (STMFLASH_Read FLASH_PROCHEAD (Z.to_nat (FLASH_PROC_SIZE / 4)) m));
  tmp_flash ← copy_settings tmp_flash tmp_buf;
  zoom s_flash (STMFLASH_Write FLASH_PROCHEAD (words_of_bytes 16 tmp_flash)).

(** The [switch]: [tmp_buf] and the payload afterwards. *)
Definition udp_command (mcuUID : list Z) (host_cmd host_len : Z) (tmp_buf payload : list Z)
  : MS (list Z * list Z) :=
  if host_cmd =? COMM_CMD_TEST then
    '(tmp_buf, tmp_crc) ← increment tmp_buf 10 host_len 0;
    tmp_buf ← store tmp_buf (10 + host_len) tmp_crc;
    payload ← copy_in payload 0 (take (Z.to_nat (27 + host_len)) tmp_buf);
    mret (tmp_buf, payload)
  else if host_cmd =? COMM_CMD_UID then
    tmp_buf ← copy_in tmp_buf 10 (mcuUID ≫= le_bytes 4);
    tmp_crc ← sum tmp_buf 10 host_len 0;
    tmp_buf ← store tmp_buf (10 + host_len) tmp_crc;
    undefined NullDeref    (* [buf->p->payload]; nothing ever sets [buf] *)
  else if host_cmd =? COMM_CMD_SFRST then halt_with SystemReset
  else if host_cmd =? COMM_CMD_RELAY_FIU_ACT then
    tmp_buf ← FiuRelayPinActive tmp_buf 10 host_len;
    mret (tmp_buf, payload)
  else if host_cmd =? COMM_CMD_IP then
    store_settings tmp_buf ;;
    '(tmp_buf, tmp_crc) ← increment tmp_buf 10 host_len 0;
    tmp_buf ← store tmp_buf (10 + host_len) tmp_crc;
    payload ← copy_in payload 0 (take (Z.to_nat (27 + host_len)) tmp_buf);
    mret (tmp_buf, payload)
  else mret (tmp_buf, payload).

(** [udp_echoserver_receive_callback], on a packet buffer with the bytes [payload]. *)
Definition udp_echoserver_receive_callback (mcuUID payload : list Z) : MS unit :=
  tmp_buf ← copy_in (replicate (Z.to_nat COMM_LEN) 0) 0 payload;
  ok ← expect tmp_buf 0 8 0xbe true;
  '(host_cmd, host_len) ← (if ok : bool then
     host_cmd ← load tmp_buf 8;
     host_len ← load tmp_buf 9;
     _ ← sum tmp_buf 10 host_len 0;
     mret (host_cmd, host_len)
   else mret (0xff, 0));
  ok ← (if ok : bool then expect tmp_buf (11 + host_len) 8 0xff ok else mret ok);
  ok ← (if ok : bool then expect tmp_buf (19 + host_len) 8 0xed ok else mret ok);
  if ok : bool then
    '(tmp_buf, payload) ← udp_command mcuUID host_cmd host_len tmp_buf payload;
    payload ← copy_in payload 0 (take (length payload) tmp_buf);
    emit (EvUdpTx payload)
  else skip.

(** ** Multicast *)

(** A byte of the uninitialised [tmp_buf]. *)
Definition load_set (l : list (option Z)) (i : Z) : MS Z :=
  v ← load l i;
  match v with Some b => mret b | None => undefined UninitRead end.

Definition expect_set (l : list (option Z)) (a n v : Z) (ok : bool) : MS bool :=
  for_fold (zseq a n) ok (fun ok i => b ← load_set l i; mret (if b =? v then ok else false)).

(** [udp_server_rev], on a datagram in one packet buffer: the settings are stored
    when it carries the identity of this unit. The array [tmp_buf] starts
    uninitialised, unlike that of the other callback. *)
Definition udp_server_rev (mcuUID payload : list Z) : MS unit :=
  if Z.of_nat (length payload) >=? COMM_LEN then
    emit (EvPrint "mulcast recv err : comm packet len > %d")
  else
  tmp_buf ← copy_in (replicate (Z.to_nat COMM_LEN) None) 0 (Some <$> payload);
  ok ← expect_set tmp_buf 0 8 0xbe true;
  '(ok, host_len) ← (if ok : bool then
     host_len ← load_set tmp_buf 9;
     tmp_crc ← for_fold (zseq 10 host_len) 0 (fun crc i => b ← load_set tmp_buf i; mret (u8 (crc + b)));
     c ← load_set tmp_buf (10 + host_len);
     mret (tmp_crc =? c, host_len)
   else mret (ok, 0));
  ok ← (if ok : bool then expect_set tmp_buf (11 + host_len) 8 0xff ok else mret ok);
  ok ← (if ok : bool then expect_set tmp_buf (31 + host_len) 8 0xed ok else mret ok);
  if ok : bool then
    uid ← for_fold (zseq 33 12) [] (fun uid i => b ← load_set tmp_buf i; mret (uid ++ [b]));
    emit (EvPrint "uid = %x - %x - %x") ;;
    if bool_decide (uid = mcuUID ≫= le_bytes 4) then
      settings ← for_fold (zseq 10 14) [] (fun l i => b ← load_set tmp_buf i; mret (l ++ [b]));
      store_settings (replicate 10 0 ++ settings)
    else skip
  else skip.
End udp.
