(* ===== verification/UdpSpec.v ===== *)
(** * From a datagram to the relays

    A well-formed datagram runs its commands one after another and is answered
    with their answers; what the length byte and the address commands do to the
    buffers on the stack. *)
From Stdlib Require Import ZArith Lia String.
From stdpp Require Import base tactics decidable list list_numbers numbers.
From S2P Require Import Prelude Board Relay RelaySpec Frames Io HostConfig HostConfigSpec Flash FlashSpec Can Timers Dispatch DispatchSpec Sessions Udp.
Open Scope Z_scope.
Open Scope c_scope.

(** ** The answer of a message has eight bytes *)
Section eight.
Context {hw : FlashHW} {outside : Board}.

(** The buffer of the message keeps its size. *)
Definition host8 (h : host) : Prop := length (g_DataFromHost h) = 8%nat.
Definition sys8 (s : sys hw) : Prop := host8 (s_host s).

Lemma keeps_wr_data i v : keeps host8 (wr g_DataFromHost i v).
Proof.
  intros h a h' Hh. unfold wr. rewrite bind_gets. case_bool_decide; [|done].
  intros [= _ <-]. unfold host8. simpl. by rewrite length_insert.
Qed.
End eight.

Ltac keeps_leaf :=
  idtac; lazymatch goal with
  | |- keeps host8 (wr g_DataFromHost _ _) => apply keeps_wr_data
  | |- keeps host8 (put _ _) => apply keeps_modify; intros ? H; exact H
  | |- keeps sys8 (emit _) => apply keeps_modify; intros ? H; exact H
  | |- keeps sys8 (zoom s_host _) =>
      apply (keeps_zoom sys8 host8 s_host); [intros ? H; exact H|intros ? ? _ H; exact H|]
  | |- keeps sys8 (zoom _ _) =>
      eapply (keeps_zoom sys8 (fun _ => True)); [done|intros ? ? H _; exact H|apply keeps_true]
  end.
Ltac keeps := keeps_with keeps_leaf.

Section eight_messages.
Context {hw : FlashHW} {outside : Board}.

Lemma udp_blocks_keeps : keeps sys8 udp_blocks.
Proof. keeps. Qed.

Lemma message_eight m (s : sys hw) r s' :
  HostCanDataAnalysisNoLoopBuf m s = Done r s' -> length m = 8%nat -> length r = 8%nat.
Proof.
  intros E Hm. unfold HostCanDataAnalysisNoLoopBuf in E. rewrite Hm in E. simpl in E.
  change (in_host (g_DataFromHost ::= take 8 m) s) with
    (Done tt (s <| s_host := (s_host s) <| g_DataFromHost := take 8 m |> |>)) in E.
  unfold mbind at 1, M_bind at 1 in E. simpl in E.
  set (s1 := s <| s_host := (s_host s) <| g_DataFromHost := take 8 m |> |>) in E.
  assert (H1 : sys8 s1).
  { unfold sys8, host8. simpl. rewrite length_take. lia. }
  unfold mbind at 1, M_bind at 1 in E. destruct (udp_blocks s1) as [[] s2|f|h s2] eqn:E2; try done.
  apply udp_blocks_keeps in E2; [|done]. injection E as <- _.
  unfold sys8, host8 in E2. rewrite length_app, length_drop, Hm, E2. done.
Qed.
End eight_messages.

(** ** Local arrays *)
Section locals_run.
Context {St : Type}.
Implicit Types s : St.

Lemma load_run {A} (l : list A) i a s : index l i = Some a -> load l i s = Done a s.
Proof. unfold load. by intros ->. Qed.

Lemma load_oob {A} (l : list A) i s : ~ (0 <= i < Z.of_nat (length l)) -> load l i s = Undefined OutOfBounds.
Proof. intros H. unfold load. by rewrite (proj2 (index_None l i) H). Qed.

Lemma store_oob {A} (l : list A) i v s :
  ~ (0 <= i < Z.of_nat (length l)) -> store l i v s = Undefined OutOfBounds.
Proof. intros H. unfold store. by rewrite bool_decide_eq_false_2. Qed.

Lemma copy_in_run {A} (l src : list A) off s :
  0 <= off -> off + Z.of_nat (length src) <= Z.of_nat (length l) ->
  copy_in l off src s = Done (blit l (Z.to_nat off) src) s.
Proof. intros. unfold copy_in. by rewrite bool_decide_eq_true_2. Qed.

(** The bytes a loop looks at. *)
Definition slice {A} (l : list A) (a n : Z) : list A := take (Z.to_nat n) (drop (Z.to_nat a) l).

Lemma slice_cons {A} (l : list A) a n x :
  0 <= a -> 0 < n -> index l a = Some x -> slice l a n = x :: slice l (a + 1) (n - 1).
Proof.
  intros Ha Hn [_ Hx]%index_Some. unfold slice. rewrite (drop_S _ x) by done.
  replace (Z.to_nat n) with (S (Z.to_nat (n - 1))) by lia. cbn [take].
  by replace (Z.to_nat (a + 1)) with (S (Z.to_nat a)) by lia.
Qed.

(** Loops that only read. *)
Lemma scan_run {A B} (f : B -> A -> B) (l : list A) a n acc s :
  0 <= a -> 0 <= n -> a + n <= Z.of_nat (length l) ->
  for_fold (zseq a n) acc (fun acc i => b ← load l i; mret (f acc b)) s =
  Done (fold_left f (slice l a n) acc) s.
Proof.
  intros Ha Hn. revert a acc Ha. pattern n. revert n Hn. apply natlike_ind; [done|].
  intros n Hn IH a acc Ha Hl. unfold zseq. rewrite seqZ_cons by lia. cbn [for_fold].
  destruct (index_is_Some l a) as [x Hx]; [lia|].
  rewrite bind_bind, (bind_Done _ _ _ _ _ (load_run _ _ _ _ Hx)), bind_ret.
  rewrite (slice_cons l a (Z.succ n) x) by (done || lia). cbn [fold_left].
  replace (Z.pred (Z.succ n)) with n by lia. replace (Z.succ n - 1) with n by lia.
  replace (Z.succ a) with (a + 1) by lia. apply IH; lia.
Qed.

Lemma scan_oob {A B} (f : B -> A -> B) (l : list A) a n acc s :
  0 <= a -> 0 < n -> Z.of_nat (length l) < a + n ->
  for_fold (zseq a n) acc (fun acc i => b ← load l i; mret (f acc b)) s = Undefined OutOfBounds.
Proof.
  intros Ha Hn Hl. unfold zseq. destruct (decide (Z.of_nat (length l) <= a)).
  { rewrite seqZ_cons by lia. cbn [for_fold]. apply bind_Undefined, bind_Undefined, load_oob. lia. }
  set (k := Z.of_nat (length l) - a).
  replace n with (k + (n - k)) by lia. rewrite seqZ_app, for_fold_app by lia.
  rewrite (bind_Done _ _ _ _ _ (scan_run f l a k acc s ltac:(lia) ltac:(lia) ltac:(lia))).
  rewrite seqZ_cons by lia. cbn [for_fold]. apply bind_Undefined, bind_Undefined, load_oob. lia.
Qed.

Definition all_are (v : Z) (l : list Z) : bool := forallb (fun b => b =? v) l.

Lemma all_are_fold v l ok :
  fold_left (fun (ok : bool) b => if b =? v then ok else false) l ok = ok && all_are v l.
Proof.
  revert ok. induction l as [|b l IH]; intros ok; simpl; [by rewrite andb_true_r|].
  rewrite IH. destruct (b =? v), ok; done.
Qed.

Lemma expect_run l a n v ok s :
  0 <= a -> 0 <= n -> a + n <= Z.of_nat (length l) ->
  expect l a n v ok s = Done (ok && all_are v (slice l a n)) s.
Proof. intros. unfold expect. rewrite scan_run by done. by rewrite all_are_fold. Qed.

Lemma expect_oob l a n v ok s :
  0 <= a -> 0 < n -> Z.of_nat (length l) < a + n ->
  expect l a n v ok s = Undefined OutOfBounds.
Proof. intros. unfold expect. by apply scan_oob. Qed.

Lemma sum_run l a n crc s :
  0 <= a -> 0 <= n -> a + n <= Z.of_nat (length l) -> exists c, sum l a n crc s = Done c s.
Proof. intros. unfold sum. rewrite scan_run by done. by eexists. Qed.

Lemma sum_oob l a n crc s :
  0 <= a -> 0 < n -> Z.of_nat (length l) < a + n ->
  sum l a n crc s = Undefined OutOfBounds.
Proof. intros. unfold sum. by apply scan_oob. Qed.
End locals_run.

(** ** Datagrams *)
Definition packet (cmd : Z) (data : list Z) (crc : Z) : list Z :=
  replicate 8 0xbe ++ [cmd; Z.of_nat (length data)] ++ data ++ [crc] ++
  replicate 8 0xff ++ replicate 8 0xed.

Lemma packet_length cmd data crc : length (packet cmd data crc) = (27 + length data)%nat.
Proof. unfold packet. rewrite !length_app, !length_replicate. simpl. lia. Qed.

(** [tmp_buf] after the copy. *)
Definition padded (payload : list Z) : list Z :=
  payload ++ replicate (128 - length payload) 0.

Lemma padded_length p : (length p <= 128)%nat -> length (padded p) = 128%nat.
Proof. intros. unfold padded. rewrite length_app, length_replicate. lia. Qed.

Lemma padded_blit p : blit (replicate 128 0) 0 p = padded p.
Proof. unfold blit, padded. cbn [take app]. by rewrite Nat.add_0_l, drop_replicate. Qed.

Lemma slice_app {A} (x y z : list A) :
  slice (x ++ y ++ z) (Z.of_nat (length x)) (Z.of_nat (length y)) = y.
Proof. unfold slice. rewrite !Nat2Z.id, drop_app_length. by apply take_app_length. Qed.

Lemma slice_at {A} (l x y z : list A) a n :
  l = x ++ y ++ z -> a = Z.of_nat (length x) -> n = Z.of_nat (length y) -> slice l a n = y.
Proof. intros -> -> ->. apply slice_app. Qed.

Lemma index_at {A} (l x z : list A) v a :
  l = x ++ v :: z -> a = Z.of_nat (length x) -> index l a = Some v.
Proof. intros -> ->. rewrite index_of_nat. by apply list_lookup_middle. Qed.

Section callback.
Context {hw : FlashHW} {outside : Board}.
Implicit Types s : sys hw.

Lemma all_replicate v n : all_are v (replicate n v) = true.
Proof. unfold all_are. induction n; simpl; [done|]. by rewrite Z.eqb_refl. Qed.

(** The part of the callback behind the checks. *)
Definition respond (mcuUID : list Z) (host_cmd host_len : Z) (tmp_buf payload : list Z) : M (sys hw) unit :=
  '(tmp_buf, payload) ← udp_command mcuUID host_cmd host_len tmp_buf payload;
  payload ← copy_in payload 0 (take (length payload) tmp_buf);
  emit (EvUdpTx payload).

Lemma callback_accepts uid cmd data crc extra s :
  let payload := packet cmd data crc ++ extra in
  (length payload <= 128)%nat ->
  udp_echoserver_receive_callback uid payload s =
  respond uid cmd (Z.of_nat (length data)) (padded payload) payload s.
Proof.
  intros payload Hlen. pose proof (padded_length _ Hlen) as Hbuf.
  assert (Hd : (length data <= 101)%nat).
  { unfold payload in Hlen. rewrite length_app, packet_length in Hlen. lia. }
  set (n := length data). set (buf := padded payload) in *.
  set (rest := extra ++ replicate (128 - length payload) 0).
  assert (Hb : buf = replicate 8 0xbe ++ [cmd; Z.of_nat n] ++ data ++ [crc] ++
    replicate 8 0xff ++ replicate 8 0xed ++ rest).
  { unfold buf, padded, rest. generalize (replicate (128 - length payload) 0). intros z.
    unfold payload, packet. by rewrite <- !app_assoc. }
  unfold udp_echoserver_receive_callback.
  etrans; [apply bind_Done, copy_in_run; [lia|rewrite length_replicate; unfold COMM_LEN; lia]|].
  change (Z.to_nat 0) with 0%nat. change (Z.to_nat COMM_LEN) with 128%nat.
  rewrite padded_blit. fold buf.
  rewrite (bind_Done _ _ _ _ _ (expect_run buf 0 8 0xbe true s ltac:(lia) ltac:(lia) ltac:(lia))).
  rewrite (slice_at buf [] (replicate 8 0xbe) _ 0 8 Hb) by done.
  rewrite all_replicate. cbn [andb].
  rewrite !bind_bind, (bind_Done _ _ _ _ _ (load_run buf 8 cmd s
    (index_at _ (replicate 8 0xbe) _ _ _ Hb eq_refl))).
  rewrite !bind_bind, (bind_Done _ _ _ _ _ (load_run buf 9 (Z.of_nat n) s
    (index_at _ (replicate 8 0xbe ++ [cmd]) _ _ _ Hb eq_refl))).
  destruct (sum_run buf 10 (Z.of_nat n) 0 s) as [c Hc]; [lia..|].
  rewrite !bind_bind, (bind_Done _ _ _ _ _ Hc), bind_ret.
  rewrite (bind_Done _ _ _ _ _ (expect_run buf (11 + Z.of_nat n) 8 0xff true s
    ltac:(lia) ltac:(lia) ltac:(lia))).
  rewrite (slice_at buf (replicate 8 0xbe ++ [cmd; Z.of_nat n] ++ data ++ [crc])
    (replicate 8 0xff) (replicate 8 0xed ++ rest) (11 + Z.of_nat n) 8);
    [|rewrite Hb; by rewrite <- !app_assoc|rewrite !length_app; simpl; lia|done].
  rewrite all_replicate. cbn [andb].
  rewrite (bind_Done _ _ _ _ _ (expect_run buf (19 + Z.of_nat n) 8 0xed true s
    ltac:(lia) ltac:(lia) ltac:(lia))).
  rewrite (slice_at buf (replicate 8 0xbe ++ [cmd; Z.of_nat n] ++ data ++ [crc] ++ replicate 8 0xff)
    (replicate 8 0xed) rest (19 + Z.of_nat n) 8);
    [|rewrite Hb; by rewrite <- !app_assoc|rewrite !length_app; simpl; lia|done].
  rewrite all_replicate. reflexivity.
Qed.

(** ** The commands, one after another *)
Lemma relay_run ms : forall (pre post : list Z) k rs s s',
  Forall (fun m => length m = 8%nat) ms -> converse ms s = Done rs s' ->
  Z.of_nat (length pre) = 10 + k * 8 ->
  for_fold (seqZ k (Z.of_nat (length ms))) (pre ++ concat ms ++ post) (fun data i =>
    let at_ := Z.to_nat (10 + i * 8) in
    r ← HostCanDataAnalysisNoLoopBuf (take 8 (drop at_ data));
    copy_in data (10 + i * 8) r) s =
  Done (pre ++ concat rs ++ post) s' /\ Forall (fun r => length r = 8%nat) rs /\
  length rs = length ms.
Proof.
  induction ms as [|m ms IH]; intros pre post k rs s s' Hms Hrun Hpre.
  { injection Hrun as <- <-. done. }
  apply Forall_cons_1 in Hms as [Hm Hms]. cbn [converse] in Hrun.
  unfold mbind at 1, M_bind at 1 in Hrun.
  destruct (HostCanDataAnalysisNoLoopBuf m s) as [r s1|f|h s1] eqn:E; try done.
  unfold mbind at 1, M_bind at 1 in Hrun.
  destruct (converse ms s1) as [rs1 s2|f|h s2] eqn:E2; try done. injection Hrun as <- <-.
  pose proof (message_eight _ _ _ _ E Hm) as Hr.
  cbn [length]. rewrite seqZ_cons by lia. cbn [for_fold concat]. rewrite bind_bind.
  replace (Z.to_nat (10 + k * 8)) with (length pre) by lia.
  rewrite drop_app_length, <- app_assoc, (take_app_length' m) by done.
  rewrite (bind_Done _ _ _ _ _ E).
  rewrite (bind_Done _ _ _ (pre ++ r ++ concat ms ++ post) s1).
  2:{ rewrite copy_in_run by (rewrite ?length_app; lia). f_equal.
      replace (Z.to_nat (10 + k * 8)) with (length pre) by lia.
      unfold blit. rewrite take_app_length. f_equal. f_equal.
      rewrite <- drop_drop, drop_app_length, Hr, <- Hm. apply drop_app_length. }
  replace (Z.pred (Z.of_nat (S (length ms)))) with (Z.of_nat (length ms)) by lia.
  destruct (IH (pre ++ r) post (Z.succ k) rs1 s1 s2 Hms E2) as (H1 & H2 & H3).
  { rewrite length_app. lia. }
  rewrite <- !app_assoc in H1. split; [rewrite <- (app_assoc r); exact H1|]. split; [by constructor|]. simpl. by rewrite H3.
Qed.

Lemma concat_length (ls : list (list Z)) :
  Forall (fun m => length m = 8%nat) ls -> length (concat ls) = (8 * length ls)%nat.
Proof. induction 1 as [|m ls Hm _ IH]; [done|]. cbn [concat length]. rewrite length_app. lia. Qed.

Lemma packet_padded cmd data crc extra :
  (replicate 8 0xbe ++ [cmd; Z.of_nat (length data)]) ++ data ++
    [crc] ++ replicate 8 0xff ++ replicate 8 0xed ++ extra ++
    replicate (128 - length (packet cmd data crc ++ extra)) 0 =
  padded (packet cmd data crc ++ extra).
Proof.
  unfold padded. generalize (replicate (128 - length (packet cmd data crc ++ extra)) 0). intros z.
  unfold packet. by rewrite <- !app_assoc.
Qed.

Lemma datagram_run uid ms rs crc extra s s' :
  Forall (fun m => length m = 8%nat) ms -> converse ms s = Done rs s' ->
  (length (packet 6 (concat ms) crc ++ extra) <= 128)%nat ->
  udp_echoserver_receive_callback uid (packet 6 (concat ms) crc ++ extra) s =
  Done tt (emit_event (EvUdpTx (packet 6 (concat rs) crc ++ extra)) s').
Proof.
  intros Hms Hrun Hlen. rewrite (callback_accepts uid 6 (concat ms) crc extra s Hlen).
  destruct (relay_run ms (replicate 8 0xbe ++ [6; Z.of_nat (length (concat ms))])
    ([crc] ++ replicate 8 0xff ++ replicate 8 0xed ++ extra ++
     replicate (128 - length (packet 6 (concat ms) crc ++ extra)) 0) 0 rs s s' Hms Hrun eq_refl)
    as (Hfold & Hrs & Hl).
  assert (Hsame : length (concat rs) = length (concat ms)) by (rewrite !concat_length by done; lia).
  assert (Hpk : length (packet 6 (concat rs) crc ++ extra) = length (packet 6 (concat ms) crc ++ extra))
    by (rewrite !length_app, !packet_length; lia).
  unfold respond, udp_command. change (6 =? COMM_CMD_TEST) with false.
  change (6 =? COMM_CMD_UID) with false. change (6 =? COMM_CMD_SFRST) with false.
  change (6 =? COMM_CMD_RELAY_FIU_ACT) with true. cbv iota.
  rewrite bind_bind, (bind_Done _ _ _ (padded (packet 6 (concat rs) crc ++ extra)) s').
  2:{ unfold FiuRelayPinActive, zseq. rewrite concat_length by done.
      replace (Z.of_nat (8 * length ms) / 8) with (Z.of_nat (length ms))
        by (rewrite Nat2Z.inj_mul, Z.mul_comm; symmetry; by apply Z.div_mul).
      rewrite packet_padded in Hfold. etrans; [exact Hfold|]. f_equal.
      rewrite <- Hpk at 1. rewrite <- Hsame. apply packet_padded. }
  clear Hfold. rewrite bind_ret. revert Hlen Hpk.
  generalize (packet 6 (concat ms) crc ++ extra). intros p Hlen Hpk.
  set (x := packet 6 (concat rs) crc ++ extra) in *.
  assert (Hx : take (length p) (padded x) = x).
  { unfold padded. rewrite <- Hpk. apply take_app_length. }
  rewrite Hx. rewrite (bind_Done _ _ _ x s'); [done|].
  rewrite copy_in_run by (rewrite ?Hpk; lia). f_equal. unfold blit. cbn [Z.to_nat take app].
  rewrite drop_ge by lia. apply app_nil_r.
Qed.

(** C11: a datagram that carries messages of eight bytes (command 6, at most the
    128 bytes of the local buffer) runs them one after another, exactly as when
    they come one by one, and is answered by one datagram of the same length in
    which each message is replaced by its answer; the rest, the checksum
    included, is sent back as it came. *)
Theorem datagram_runs_messages uid ms rs crc extra s s' :
  Forall (fun m => length m = 8%nat) ms -> converse ms s = Done rs s' ->
  (length (packet 6 (concat ms) crc ++ extra) <= 128)%nat ->
  udp_echoserver_receive_callback uid (packet 6 (concat ms) crc ++ extra) s =
  Done tt (emit_event (EvUdpTx (packet 6 (concat rs) crc ++ extra)) s').
Proof. exact (datagram_run uid ms rs crc extra s s'). Qed.

(** ** Datagrams that are not packets *)
Lemma all_are_replicate v l : all_are v l = true -> l = replicate (length l) v.
Proof.
  unfold all_are. induction l as [|b l IH]; simpl; [done|].
  intros [->%Z.eqb_eq H]%andb_true_iff. by rewrite <- (IH H).
Qed.

Lemma slice_length {A} (l : list A) a n :
  0 <= a -> 0 <= n -> a + n <= Z.of_nat (length l) -> length (slice l a n) = Z.to_nat n.
Proof. intros. unfold slice. rewrite length_take, length_drop. lia. Qed.

Lemma slice_split {A} (l : list A) a n :
  0 <= a -> 0 <= n -> drop (Z.to_nat a) l = slice l a n ++ drop (Z.to_nat (a + n)) l.
Proof.
  intros. unfold slice. rewrite <- (take_drop (Z.to_nat n) (drop (Z.to_nat a) l)) at 1.
  rewrite drop_drop. by replace (Z.to_nat (a + n)) with (Z.to_nat a + Z.to_nat n)%nat by lia.
Qed.

Lemma slice_one {A} (l : list A) a v : index l a = Some v -> slice l a 1 = [v].
Proof.
  intros H. pose proof H as [Ha _]%index_Some. rewrite (slice_cons l a 1 v) by (done || lia).
  unfold slice. by rewrite Z.sub_diag.
Qed.

(** A buffer that passes the checks holds a packet. *)
Lemma checked_packet buf cmd n :
  length buf = 128%nat -> 0 <= n <= 101 ->
  all_are 0xbe (slice buf 0 8) = true -> index buf 8 = Some cmd -> index buf 9 = Some n ->
  all_are 0xff (slice buf (11 + n) 8) = true -> all_are 0xed (slice buf (19 + n) 8) = true ->
  exists data crc, n = Z.of_nat (length data) /\
    buf = packet cmd data crc ++ drop (Z.to_nat (27 + n)) buf.
Proof.
  intros Hl Hn H1 H8 H9 H2 H3.
  destruct (index_is_Some buf (10 + n)) as [crc Hcrc]; [lia|].
  exists (slice buf 10 n), crc. assert (Hd : n = Z.of_nat (length (slice buf 10 n)))
    by (rewrite slice_length by lia; lia). split; [done|].
  apply all_are_replicate in H1, H2, H3. rewrite slice_length in H1, H2, H3 by lia.
  unfold packet. rewrite <- Hd. change 8%nat with (Z.to_nat 8). rewrite <- H1, <- H2, <- H3.
  rewrite <- !app_assoc. change buf with (drop (Z.to_nat 0) buf) at 1.
  rewrite (slice_split buf 0 8), (slice_split buf (0 + 8) 1), (slice_split buf (0 + 8 + 1) 1),
    (slice_split buf (0 + 8 + 1 + 1) n), (slice_split buf (0 + 8 + 1 + 1 + n) 1),
    (slice_split buf (0 + 8 + 1 + 1 + n + 1) 8), (slice_split buf (0 + 8 + 1 + 1 + n + 1 + 8) 8) by lia.
  change (0 + 8) with 8. change (8 + 1) with 9. change (9 + 1) with 10.
  rewrite (slice_one _ _ _ H8), (slice_one _ _ _ H9), (slice_one _ _ _ Hcrc).
  replace (10 + n + 1) with (11 + n) by lia. replace (11 + n + 8) with (19 + n) by lia.
  replace (19 + n + 8) with (27 + n) by lia. done.
Qed.

Lemma padded_lookup_0 p i : (length p <= i < 128)%nat -> padded p !! i = Some 0.
Proof.
  intros Hi. unfold padded. rewrite lookup_app_r by lia. apply lookup_replicate_2. lia.
Qed.

(** The zeros behind the datagram are not part of a packet. *)
Lemma padded_packet p cmd data crc rest :
  (length p <= 128)%nat -> padded p = packet cmd data crc ++ rest ->
  exists extra, p = packet cmd data crc ++ extra.
Proof.
  intros Hp E. set (n := length data).
  assert (Hpk : length (packet cmd data crc) = (27 + n)%nat) by apply packet_length.
  pose proof (padded_length p Hp) as Hb. rewrite E, length_app, Hpk in Hb.
  destruct (decide (27 + n <= length p)%nat) as [Hle|Hgt].
  - exists (drop (27 + n) p). rewrite <- (take_drop (27 + n) p) at 1. f_equal.
    assert (Ht : take (27 + n) (padded p) = take (27 + n) p) by (apply take_app_le; lia).
    rewrite <- Ht, E. by apply take_app_length'.
  - exfalso. assert (H0 : padded p !! (26 + n)%nat = Some 0) by (apply padded_lookup_0; lia).
    rewrite E in H0. unfold packet in H0. rewrite <- !app_assoc in H0.
    repeat (rewrite lookup_app_r in H0 by (rewrite ?length_replicate; simpl; lia)).
    rewrite lookup_app_l in H0 by (rewrite ?length_replicate; simpl; lia).
    apply lookup_replicate in H0 as [? _]. done.
Qed.

(** A datagram of at most 128 bytes whose length byte is at most 101 and that
    is not a packet (the eight bytes 0xbe, a command, the length, that many bytes,
    a checksum nobody checks, the bytes 0xff and the bytes 0xed, then anything)
    changes nothing and is not answered. *)
Theorem datagram_refused uid p s :
  (length p <= 128)%nat -> Forall is_u8 p -> nth 9 p 0 <= 101 ->
  (forall cmd data crc extra, p <> packet cmd data crc ++ extra) ->
  udp_echoserver_receive_callback uid p s = Done tt s.
Proof.
  intros Hp Hu Hn9 Hno. pose proof (padded_length p Hp) as Hl. set (buf := padded p) in *.
  unfold udp_echoserver_receive_callback.
  etrans; [apply bind_Done, copy_in_run; [lia|rewrite length_replicate; unfold COMM_LEN; lia]|].
  change (Z.to_nat 0) with 0%nat. change (Z.to_nat COMM_LEN) with 128%nat.
  rewrite padded_blit. fold buf.
  rewrite (bind_Done _ _ _ _ _ (expect_run buf 0 8 0xbe true s ltac:(lia) ltac:(lia) ltac:(lia))).
  cbn [andb]. destruct (all_are 0xbe (slice buf 0 8)) eqn:H1; [|reflexivity].
  destruct (index_is_Some buf 8) as [cmd H8]; [lia|].
  destruct (index_is_Some buf 9) as [n H9]; [lia|].
  assert (Hn : 0 <= n <= 101).
  { apply index_Some in H9 as [_ H9]. unfold buf, padded in H9.
    apply lookup_app_Some in H9 as [H9|[_ H9]].
    - pose proof (proj1 (Forall_lookup _ _) Hu _ _ H9) as [? _].
      rewrite (nth_lookup_Some _ _ _ _ H9) in Hn9. done.
    - apply lookup_replicate in H9 as [-> _]. lia. }
  rewrite !bind_bind, (bind_Done _ _ _ _ _ (load_run _ _ _ _ H8)).
  rewrite !bind_bind, (bind_Done _ _ _ _ _ (load_run _ _ _ _ H9)).
  destruct (sum_run buf 10 n 0 s) as [c Hc]; [lia..|].
  rewrite !bind_bind, (bind_Done _ _ _ _ _ Hc), bind_ret.
  rewrite (bind_Done _ _ _ _ _ (expect_run buf (11 + n) 8 0xff true s
    ltac:(lia) ltac:(lia) ltac:(lia))).
  cbn [andb]. destruct (all_are 0xff (slice buf (11 + n) 8)) eqn:H2; [|reflexivity].
  rewrite (bind_Done _ _ _ _ _ (expect_run buf (19 + n) 8 0xed true s
    ltac:(lia) ltac:(lia) ltac:(lia))).
  cbn [andb]. destruct (all_are 0xed (slice buf (19 + n) 8)) eqn:H3; [|reflexivity].
  exfalso. destruct (checked_packet buf cmd n Hl Hn H1 H8 H9 H2 H3) as (data & crc & _ & E).
  destruct (padded_packet p _ _ _ _ Hp E) as [extra ->]. by eapply Hno.
Qed.

(** ** What overruns the buffers *)

(** C40: a datagram longer than the local buffer is copied past its end, and one
    that starts as a packet (ten bytes are enough) with a length byte of 110 or
    more makes the checks read past its end: nothing looks at the length of the
    datagram or at the length byte before they are used. *)
Theorem datagram_overruns uid p s :
  (length p > 128)%nat \/
  ((length p <= 128)%nat /\ (exists cmd n rest, p = replicate 8 0xbe ++ [cmd; n] ++ rest /\ 110 <= n)) ->
  udp_echoserver_receive_callback uid p s = Undefined OutOfBounds.
Proof.
  unfold udp_echoserver_receive_callback. intros [Hp|(Hp & cmd & n & rest & E & Hn)].
  { apply bind_Undefined. unfold copy_in. rewrite bool_decide_eq_false_2; [done|].
    rewrite length_replicate. unfold COMM_LEN. lia. }
  pose proof (padded_length p Hp) as Hl. set (buf := padded p) in *.
  etrans; [apply bind_Done, copy_in_run; [lia|rewrite length_replicate; unfold COMM_LEN; lia]|].
  change (Z.to_nat 0) with 0%nat. change (Z.to_nat COMM_LEN) with 128%nat.
  rewrite padded_blit. fold buf.
  assert (Hb : buf = replicate 8 0xbe ++ [cmd; n] ++ rest ++ replicate (128 - length p) 0).
  { unfold buf, padded. generalize (replicate (128 - length p) 0). intros z. rewrite E.
    by rewrite <- !app_assoc. }
  rewrite (bind_Done _ _ _ _ _ (expect_run buf 0 8 0xbe true s ltac:(lia) ltac:(lia) ltac:(lia))).
  rewrite (slice_at buf [] (replicate 8 0xbe) _ 0 8 Hb) by done.
  rewrite all_replicate. cbn [andb].
  rewrite !bind_bind, (bind_Done _ _ _ _ _ (load_run buf 8 cmd s
    (index_at _ (replicate 8 0xbe) _ _ _ Hb eq_refl))).
  rewrite !bind_bind, (bind_Done _ _ _ _ _ (load_run buf 9 n s
    (index_at _ (replicate 8 0xbe ++ [cmd]) _ _ _ Hb eq_refl))).
  destruct (decide (n <= 118)).
  - destruct (sum_run buf 10 n 0 s) as [c Hc]; [lia..|].
    rewrite !bind_bind, (bind_Done _ _ _ _ _ Hc), bind_ret.
    apply bind_Undefined, expect_oob; lia.
  - rewrite !bind_bind. apply bind_Undefined, sum_oob; lia.
Qed.

(** The loop that marks the head stays inside the buffer. *)
Lemma mark_head_run {St} (l : list Z) (s : St) :
  length l = 64%nat -> exists l', mark_head l s = Done l' s /\ length l' = 64%nat.
Proof.
  unfold mark_head. intros Hl.
  assert (H : Forall (fun i => 0 <= i < 48) ((fun i => 2 * i) <$> zseq 0 24))
    by (apply (bool_decide_eq_true_1 _); vm_compute; reflexivity).
  revert l Hl. induction H as [|i js Hi _ IH]; intros l Hl; [by exists l|]. cbn [for_fold].
  assert (Hst : forall (m : list Z) j v, length m = 64%nat -> 0 <= j < 64 ->
    store m j v s = Done (<[Z.to_nat j := v]> m) s).
  { intros m j v Hm Hj. unfold store. rewrite bool_decide_eq_true_2 by lia. done. }
  rewrite bind_bind, (bind_Done _ _ _ _ _ (Hst l i 0xaa Hl ltac:(lia))).
  rewrite (bind_Done _ _ _ _ _ (Hst _ (i + 1) 0x55 ltac:(by rewrite length_insert) ltac:(lia))).
  apply IH. by rewrite !length_insert.
Qed.

Lemma store_settings_overflows (buf : list Z) s :
  (11 <= length buf)%nat -> store_settings buf s = Undefined OutOfBounds.
Proof.
  intros Hb. unfold store_settings. rewrite bind_gets.
  set (bs := bytes_of_words _). assert (Hbs : length bs = 64%nat).
  { unfold bs. rewrite bytes_of_words_length, STMFLASH_Read_run by (vm_compute; done || split; done).
    reflexivity. }
  destruct (mark_head_run bs s Hbs) as (l & El & Hl). rewrite (bind_Done _ _ _ _ _ El).
  apply bind_Undefined. unfold copy_settings.
  change (zip (zseq 64 6 ++ zseq 72 8) (zseq 10 14)) with
    ((64, 10) :: zip (zseq 65 5 ++ zseq 72 8) (zseq 11 13)). cbn [for_fold].
  destruct (index_is_Some buf 10) as [b Hbi]; [lia|].
  rewrite bind_bind, (bind_Done _ _ _ _ _ (load_run _ _ _ _ Hbi)).
  apply bind_Undefined, store_oob. lia.
Qed.

(** The command that sets the address (0xc8) overruns the 64-byte buffer the
    head of the flash is read into, whatever the datagram and the flash hold: the
    address goes to the bytes 64 and up. *)
Theorem address_command_overflows uid data crc extra s :
  (length (packet COMM_CMD_IP data crc ++ extra) <= 128)%nat ->
  udp_echoserver_receive_callback uid (packet COMM_CMD_IP data crc ++ extra) s =
  Undefined OutOfBounds.
Proof.
  intros Hlen. rewrite (callback_accepts uid COMM_CMD_IP data crc extra s Hlen).
  unfold respond, udp_command. change (COMM_CMD_IP =? COMM_CMD_TEST) with false.
  change (COMM_CMD_IP =? COMM_CMD_UID) with false. change (COMM_CMD_IP =? COMM_CMD_SFRST) with false.
  change (COMM_CMD_IP =? COMM_CMD_RELAY_FIU_ACT) with false.
  change (COMM_CMD_IP =? COMM_CMD_IP) with true. cbv iota.
  apply bind_Undefined, bind_Undefined, store_settings_overflows.
  rewrite padded_length by done. lia.
Qed.
End callback.

(** ** Examples *)

(** The messages of a fault on the channels 3 and 40, in one datagram. *)
Definition fault_datagram : list Z := packet 6 (concat (fault_messages 0 1 500 [3; 40])) 0.

Definition is_done {S A} (o : outcome S A) : bool := match o with Done _ _ => true | _ => false end.

Lemma is_done_spec {S A} (o : outcome S A) : is_done o = true -> exists a s, o = Done a s.
Proof. destruct o; try done. by eexists _, _. Qed.

Lemma datagram_runs_messages_witness :
  exists rs s', converse (outside := quiet_board) (fault_messages 0 1 500 [3; 40]) unit_boot = Done rs s' /\
    udp_echoserver_receive_callback (outside := quiet_board) [] fault_datagram unit_boot =
    Done tt (emit_event (EvUdpTx (packet 6 (concat rs) 0 ++ [])) s').
Proof.
  destruct (is_done_spec (converse (outside := quiet_board) (fault_messages 0 1 500 [3; 40]) unit_boot))
    as (rs & s' & E); [vm_compute; reflexivity|].
  exists rs, s'. split; [exact E|].
  replace fault_datagram with (fault_datagram ++ []) by apply app_nil_r.
  apply (datagram_runs_messages (outside := quiet_board) [] (fault_messages 0 1 500 [3; 40]) rs 0 []).
  - repeat constructor.
  - exact E.
  - apply Nat.leb_le. vm_compute. reflexivity.
Defined.

Lemma datagram_refused_witness :
  udp_echoserver_receive_callback (outside := quiet_board) [] [1; 2; 3] unit_boot = Done tt unit_boot.
Proof.
  apply (datagram_refused (outside := quiet_board) [] [1; 2; 3] unit_boot).
  - simpl. lia.
  - by apply (bool_decide_eq_true_1 _).
  - simpl. lia.
  - intros cmd data crc extra E. discriminate E.
Defined.

Lemma datagram_overruns_witness :
  udp_echoserver_receive_callback (outside := quiet_board) [] (replicate 8 0xbe ++ [0; 200]) unit_boot =
  Undefined OutOfBounds.
Proof.
  apply (datagram_overruns (outside := quiet_board) [] (replicate 8 0xbe ++ [0; 200]) unit_boot).
  right. split; [simpl; lia|]. exists 0, 200, []. split; [reflexivity|lia].
Defined.

Lemma address_command_overflows_witness :
  udp_echoserver_receive_callback (outside := quiet_board) [] (packet COMM_CMD_IP (replicate 14 1) 0 ++ []) unit_boot =
  Undefined OutOfBounds.
Proof.
  apply (address_command_overflows (outside := quiet_board) [] (replicate 14 1) 0 [] unit_boot).
  apply Nat.leb_le. vm_compute. reflexivity.
Defined.
