(* ===== verification/Net.v ===== *)
(** * Network set-up: src/LWIP/lwip_app/lwip_comm/lwip_comm.c, the memory part of
    src/HARDWARE/LAN8720/lan8720.c and [McuInfoInit] of src/LWIP/udpecho/mulcast.c

    The buffers of the stack and of the Ethernet driver come from the pools of
    malloc.c; the description of the unit is filled in for the multicast packet.
    [memp_get_memorysize] adds up the sizes of lwIP's structures: it is the
    number [mempsize]. *)
From Stdlib Require Import ZArith Lia String Ascii.
From stdpp Require Import base tactics decidable list list_numbers numbers.
From S2P Require Import Prelude Flash Malloc Board Relay HostConfig Can Timers Dispatch Udp.
Open Scope Z_scope.
Open Scope c_scope.

(** ** The globals *)
Record mcuinfo := McuInfo {
  devType : Z; port_ : Z;
  devName : list Z; devSN : list Z; mcuType : list Z;
  mcuUID : list Z;
  mcuSV : list Z; mcuIP : list Z; mcuNetMask : list Z; mcuGW : list Z; mcuMAC : list Z;
  mcuHV : list Z; reserve : list Z;
}.
#[export] Instance mcuinfo_eta : Eta mcuinfo := fun m =>
  McuInfo (devType m) (port_ m) (devName m) (devSN m) (mcuType m) (mcuUID m) (mcuSV m) (mcuIP m)
    (mcuNetMask m) (mcuGW m) (mcuMAC m) (mcuHV m) (reserve m).
#[export] Instance upd_devType : Upd devType := ltac:(derive_upd).
#[export] Instance upd_port : Upd port_ := ltac:(derive_upd).
#[export] Instance upd_devName : Upd devName := ltac:(derive_upd).
#[export] Instance upd_devSN : Upd devSN := ltac:(derive_upd).
#[export] Instance upd_mcuType : Upd mcuType := ltac:(derive_upd).
#[export] Instance upd_mcuUID : Upd mcuUID := ltac:(derive_upd).
#[export] Instance upd_mcuSV : Upd mcuSV := ltac:(derive_upd).
#[export] Instance upd_mcuIP : Upd mcuIP := ltac:(derive_upd).
#[export] Instance upd_mcuNetMask : Upd mcuNetMask := ltac:(derive_upd).
#[export] Instance upd_mcuGW : Upd mcuGW := ltac:(derive_upd).
#[export] Instance upd_mcuMAC : Upd mcuMAC := ltac:(derive_upd).
#[export] Instance upd_mcuHV : Upd mcuHV := ltac:(derive_upd).

(** [struct mcuinfo] is packed and the processor little-endian. *)
Definition mcuinfo_bytes (m : mcuinfo) : list Z :=
  le_bytes 2 (devType m) ++ le_bytes 2 (port_ m) ++ devName m ++ devSN m ++ mcuType m ++
  (mcuUID m ≫= le_bytes 4) ++ mcuSV m ++ mcuIP m ++ mcuNetMask m ++ mcuGW m ++ mcuMAC m ++
  mcuHV m ++ reserve m.

Definition mcuinfo_boot : mcuinfo :=
  McuInfo 0 0 (replicate 32 0) (replicate 16 0) (replicate 16 0) (replicate 3 0) (replicate 3 0)
    (replicate 4 0) (replicate 4 0) (replicate 4 0) (replicate 6 0) (replicate 2 0) (replicate 1 0).

Record lwip_dev := LwipDev {
  l_mac : list Z; l_ip : list Z; l_netmask : list Z; l_gateway : list Z; dhcpstatus : Z;
}.

Record net := Net {
  n_pools : dev;
  g_MCUinfo : mcuinfo;
  lwipdev : lwip_dev;
  memp_memory : Z; ram_heap : Z; TCPIP_THREAD_TASK_STK : Z; LWIP_DHCP_TASK_STK : Z;
  DMARxDscrTab : Z; DMATxDscrTab : Z; Rx_Buff : Z; Tx_Buff : Z;
}.
#[export] Instance net_eta : Eta net := fun n =>
  Net (n_pools n) (g_MCUinfo n) (lwipdev n) (memp_memory n) (ram_heap n) (TCPIP_THREAD_TASK_STK n)
    (LWIP_DHCP_TASK_STK n) (DMARxDscrTab n) (DMATxDscrTab n) (Rx_Buff n) (Tx_Buff n).
#[export] Instance upd_n_pools : Upd n_pools := ltac:(derive_upd).
#[export] Instance upd_g_MCUinfo : Upd g_MCUinfo := ltac:(derive_upd).
#[export] Instance upd_lwipdev : Upd lwipdev := ltac:(derive_upd).
#[export] Instance upd_memp_memory : Upd memp_memory := ltac:(derive_upd).
#[export] Instance upd_ram_heap : Upd ram_heap := ltac:(derive_upd).
#[export] Instance upd_TCPIP_THREAD_TASK_STK : Upd TCPIP_THREAD_TASK_STK := ltac:(derive_upd).
#[export] Instance upd_LWIP_DHCP_TASK_STK : Upd LWIP_DHCP_TASK_STK := ltac:(derive_upd).
#[export] Instance upd_DMARxDscrTab : Upd DMARxDscrTab := ltac:(derive_upd).
#[export] Instance upd_DMATxDscrTab : Upd DMATxDscrTab := ltac:(derive_upd).
#[export] Instance upd_Rx_Buff : Upd Rx_Buff := ltac:(derive_upd).
#[export] Instance upd_Tx_Buff : Upd Tx_Buff := ltac:(derive_upd).

Definition net_boot (pools : dev) : net :=
  Net pools mcuinfo_boot (LwipDev (replicate 6 0) (replicate 4 0) (replicate 4 0) (replicate 4 0) 0)
    0 0 0 0 0 0 0 0.

Section net.
Context (mem1base mempsize : Z).

(** [ptr = mymalloc(SRAMIN,size);] and [myfree(SRAMIN,ptr);] *)
Definition take_mem (ptr : net -> Z) `{!Upd ptr} (size : Z) : M net unit :=
  p ← zoom n_pools (mymalloc mem1base SRAMIN size); ptr ::= p.
Definition give_mem (ptr : net -> Z) : M net unit :=
  p ← gets ptr; zoom n_pools (myfree mem1base SRAMIN p).

(** ** lwip_comm.c *)
Definition MEM_SIZE : Z := 16000.
Definition TCPIP_THREAD_STACKSIZE : Z := 2048.
Definition LWIP_DHCP_STK_SIZE : Z := 128.
Definition LWIP_MEM_ALIGN_SIZE (size : Z) : Z := Z.land (size + 4 - 1) (Z.lnot (4 - 1)).
Definition ramheapsize : Z :=
  u32 (LWIP_MEM_ALIGN_SIZE MEM_SIZE + 2 * LWIP_MEM_ALIGN_SIZE (4 * 3) + 4).

Definition lwip_comm_mem_free : M net unit :=
  give_mem memp_memory ;;
  give_mem ram_heap ;;
  give_mem TCPIP_THREAD_TASK_STK ;;
  give_mem LWIP_DHCP_TASK_STK.

Definition lwip_comm_mem_malloc : M net Z :=
  take_mem memp_memory mempsize ;;
  take_mem ram_heap ramheapsize ;;
  take_mem TCPIP_THREAD_TASK_STK (TCPIP_THREAD_STACKSIZE * 4) ;;
  take_mem LWIP_DHCP_TASK_STK (LWIP_DHCP_STK_SIZE * 4) ;;
  n ← gets id;
  if (memp_memory n =? 0) || (ram_heap n =? 0) || (TCPIP_THREAD_TASK_STK n =? 0) ||
     (LWIP_DHCP_TASK_STK n =? 0)
  then lwip_comm_mem_free ;; mret 1
  else mret 0.

(** The settings in use and the identity of the processor, into the globals. *)
Definition lwip_comm_default_ip_set (uid : list Z) (s : settings) : M net unit :=
  let sn0 := nth 0 uid 0 in
  let mac := [2; 0; Z.land (Z.shiftr sn0 24) 0xFF; Z.land (Z.shiftr sn0 16) 0xFF;
    u8 (Z.land (Z.shiftr sn0 8) 0xFFF); Z.land sn0 0xFF] in
  i ← gets g_MCUinfo;
  g_MCUinfo ::= i <| mcuUID := uid |> <| mcuMAC := mac |> <| mcuIP := g_IP_ADDR s |>
    <| mcuNetMask := g_NETMASK_ADDR s |> <| mcuGW := g_GW_ADDR s |> ;;
  lwipdev ::= LwipDev mac (g_IP_ADDR s) (g_NETMASK_ADDR s) (g_GW_ADDR s) 0.

(** ** lan8720.c *)
Definition ETH_RXBUFNB : Z := 10.
Definition ETH_TXBUFNB : Z := 5.
Definition ETH_MAX_PACKET_SIZE : Z := 1524.
Definition sizeof_ETH_DMADescTypeDef : Z := 32.

Definition ETH_Mem_Free : M net unit :=
  give_mem DMARxDscrTab ;;
  give_mem DMATxDscrTab ;;
  give_mem Rx_Buff ;;
  give_mem Tx_Buff.

(** [!(u32)&p]: the address of a variable is not null, whatever the variable holds. *)
Definition address_is_null (p : Z) : bool := false.

Definition any_address_null : M net bool :=
  n ← gets id;
  mret (address_is_null (DMARxDscrTab n) || address_is_null (DMATxDscrTab n) ||
        address_is_null (Rx_Buff n) || address_is_null (Tx_Buff n)).

Definition ETH_Mem_Malloc : M net Z :=
  take_mem DMARxDscrTab (ETH_RXBUFNB * sizeof_ETH_DMADescTypeDef) ;;
  take_mem DMATxDscrTab (ETH_TXBUFNB * sizeof_ETH_DMADescTypeDef) ;;
  take_mem Rx_Buff (ETH_MAX_PACKET_SIZE * ETH_RXBUFNB) ;;
  take_mem Tx_Buff (ETH_MAX_PACKET_SIZE * ETH_TXBUFNB) ;;
  bad ← any_address_null;
  if bad : bool then ETH_Mem_Free ;; mret 1 else mret 0.

Definition EthMemAlloc (uid : list Z) (s : settings) : M net Z :=
  r ← ETH_Mem_Malloc;
  if negb (r =? 0) then mret 1 else
  r ← lwip_comm_mem_malloc;
  if negb (r =? 0) then
    bad ← any_address_null;
    (if bad : bool then ETH_Mem_Free else skip) ;; mret 2
  else lwip_comm_default_ip_set uid s ;; mret 0.
End net.

(** [ETH_GetRxPktSize], of the status word of the descriptor: not owned by the
    DMA, no error, last segment. *)
Definition ETH_GetRxPktSize (Status : Z) : Z :=
  if (Z.land Status 0x80000000 =? 0) && (Z.land Status 0x8000 =? 0) &&
     negb (Z.land Status 0x100 =? 0)
  then Z.shiftr (Z.land Status 0x3FFF0000) 16 else 0.

(** ** mulcast.c *)
Definition string_bytes (s : string) : list Z := (fun a => Z.of_nat (nat_of_ascii a)) <$> list_ascii_of_string s.

(** [memset(field,0,size); strcpy(field,s);] *)
Definition set_string (size : nat) (s : string) : list Z := blit (replicate size 0) 0 (string_bytes s).

(** [for (i = a; i < a+n; i++) tmp[i] = v;] on a local array. *)
Definition fill_local {S} (l : list (option Z)) (a n v : Z) : M S (list (option Z)) :=
  for_fold (zseq a n) l (fun l i => store l i (Some v)).

Definition describe (port : Z) (m : mcuinfo) : mcuinfo :=
  m <| devType := 0x0200 |> <| port_ := port |>
    <| devName := set_string 32 "FIU" |> <| devSN := set_string 16 "SN0" |>
    <| mcuType := set_string 16 "STM32F429" |> <| mcuSV := [1; 0; 0] |> <| mcuHV := [1; 0] |>.

(** [McuInfoInit]: the packet and its length; [tmp] is an array of 128 bytes. *)
Definition McuInfoInit (port : Z) (buf : list Z) : M net (list Z * Z) :=
  tmp ← fill_local (replicate 128 None) 0 8 0xbe;
  tmp ← fill_local tmp 8 8 0xaa;
  i ← gets g_MCUinfo;
  let len := Z.of_nat (length (mcuinfo_bytes i)) in
  tmp ← store tmp 16 (Some (Z.land len 0xff));
  tmp ← store tmp 17 (Some (u8 (Z.shiftr len 8)));
  tmp ← store tmp 18 (Some 1);
  g_MCUinfo ::= describe port i ;;
  i ← gets g_MCUinfo;
  tmp ← copy_in tmp 19 (Some <$> mcuinfo_bytes i);
  let crc := foldl (fun c b => u8 (c + b)) 0 (mcuinfo_bytes i) in
  tmp ← store tmp (19 + len) (Some crc);
  tmp ← fill_local tmp (20 + len) 8 0x55;
  tmp ← fill_local tmp (28 + len) 8 0xed;
  let size := 8 + 8 + 2 + 1 + len + 1 + 8 + 8 in
  bytes ← for_fold (zseq 0 size) [] (fun l j =>
    v ← load tmp j;
    match v with Some b => mret (l ++ [b]) | None => undefined UninitRead end);
  buf ← copy_in buf 0 bytes;
  mret (buf, size).
