(* ===== verification/NetSpec.v ===== *)
(** * Memory for the network, and the packet that describes the unit *)
From Stdlib Require Import ZArith Lia String.
From stdpp Require Import base tactics decidable list list_numbers numbers gmap.
From S2P Require Import Prelude Flash Malloc MallocSpec Board Relay HostConfig Can Timers Dispatch Udp Net.
Open Scope Z_scope.
Open Scope c_scope.

#[export] Instance n_pools_laws : UpdLaws n_pools. Proof. upd_laws. Qed.

Section pointers.
Context (mem1base : Z) (Hpl : placed mem1base).

(** The block a pointer into the first pool points to. *)
Definition block_of (p : Z) : nat := Z.to_nat ((p - mem1base) / 64).

(** A pointer that is null or points to a live allocation. *)
Definition live (B : heap) (p : Z) : Prop :=
  p = 0 \/ exists k m, p = mem1base + 64 * Z.of_nat k /\ B !! k = Some m.

(** An allocation of [m] blocks: [p] points to it, or is null when there was no room. *)
Definition got (B : heap) (p : Z) (m : nat) (B' : heap) : Prop :=
  (p = 0 /\ B' = B) \/
  (exists k, p = mem1base + 64 * Z.of_nat k /\ B !! k = None /\ B' = <[k := m]> B).

Definition freed (B : heap) (p : Z) : heap := if p =? 0 then B else delete (block_of p) B.

Lemma pointer_nonzero k : (mem1base + 64 * Z.of_nat k =? 0) = false.
Proof. apply Z.eqb_neq. destruct Hpl. lia. Qed.

Lemma block_of_pointer k : block_of (mem1base + 64 * Z.of_nat k) = k.
Proof.
  unfold block_of. replace (mem1base + 64 * Z.of_nat k - mem1base) with (Z.of_nat k * 64) by lia.
  rewrite Z.div_mul by done. apply Nat2Z.id.
Qed.

Lemma freed_pointer B k : freed B (mem1base + 64 * Z.of_nat k) = delete k B.
Proof. unfold freed. by rewrite pointer_nonzero, block_of_pointer. Qed.

Lemma got_live B p m B' : got B p m B' -> live B' p.
Proof.
  intros [[-> ->]|(k & -> & _ & ->)]; [by left|]. right. exists k, m. by rewrite lookup_insert_eq.
Qed.

Lemma got_keeps B p m B' q : got B p m B' -> live B q -> live B' q.
Proof.
  intros [[-> ->]|(k & -> & Hk & ->)] Hq; [done|]. destruct Hq as [->|(j & n & -> & Hj)]; [by left|].
  right. exists j, n. rewrite lookup_insert_ne by congruence. done.
Qed.

Lemma got_freed B p m B' : got B p m B' -> freed B' p = B.
Proof.
  intros [[-> ->]|(k & -> & Hk & ->)]; [done|]. rewrite freed_pointer.
  by rewrite delete_insert_id.
Qed.

Lemma freed_comm B p q : freed (freed B p) q = freed (freed B q) p.
Proof. unfold freed. destruct (p =? 0), (q =? 0); try done. apply delete_delete. Qed.

(** What is allocated later is not an earlier allocation. *)
Lemma got_distinct B p m B' q : got B p m B' -> live B q -> q <> 0 -> q <> p.
Proof.
  intros [[-> _]|(k & -> & Hk & _)] [->|(j & n & -> & Hj)] Hq; try done.
  intros E. assert (j = k) by lia. congruence.
Qed.

Lemma freed_keeps B p q : live B p -> live B q -> (q <> 0 -> q <> p) -> live (freed B p) q.
Proof.
  intros [->|(k & m & -> & Hk)] Hq Hne; [done|]. destruct Hq as [->|(j & n & -> & Hj)]; [by left|].
  rewrite freed_pointer. right. exists j, n. split; [done|].
  rewrite lookup_delete_ne; [done|]. intros <-. apply Hne; [|done].
  apply Z.eqb_neq, pointer_nonzero.
Qed.

(** ** Taking and giving back *)
Implicit Types n : net.

Lemma pool_base_0 N B d : pool SRAMIN N B d -> index (membase mem1base) SRAMIN = Some mem1base.
Proof. done. Qed.

Lemma take_mem_run (ptr : net -> Z) `{!Upd ptr} size N B n :
  pool SRAMIN N B (n_pools n) -> is_u32 size ->
  exists p d' B', take_mem mem1base ptr size n = Done tt (n <| n_pools := d' |> <| ptr := p |>) /\
    pool SRAMIN N B' d' /\ heap_step N B (Malloc size) (if p =? 0 then NOMEM else p - mem1base) B' /\
    got B p (Z.to_nat (blocks size)) B'.
Proof.
  intros HP Hs. destruct (malloc_step _ _ _ _ size HP Hs) as (r & d' & B' & Hr & _ & Hstep & HP').
  pose proof (pool_sizes _ _ (pool_size _ _ _ _ HP)) as (_ & _ & HN).
  pose proof Hstep as [[-> ->]|(k & -> & -> & Hs0 & Hk & Hu)]%malloc_result.
  - exists 0, d', B. split; [|split; [done|split; [done|by left]]].
    unfold take_mem, mymalloc. erewrite bind_Done; [reflexivity|]. apply zoom_Done.
    by rewrite (bind_Done _ _ _ _ _ Hr).
  - exists (mem1base + 64 * Z.of_nat k), d', (<[k := Z.to_nat (blocks size)]> B).
    rewrite pointer_nonzero. replace (mem1base + 64 * Z.of_nat k - mem1base) with (64 * Z.of_nat k) by lia.
    split; [|split; [done|split; [done|]]].
    + unfold take_mem, mymalloc. erewrite bind_Done; [reflexivity|]. apply zoom_Done.
      rewrite (bind_Done _ _ _ _ _ Hr), (proj2 (Z.eqb_neq _ NOMEM)) by (unfold NOMEM; lia).
      change (index (membase mem1base) SRAMIN) with (Some mem1base). simpl. rewrite bind_ret.
      destruct Hpl. rewrite u32_small; [done|]. unfold in_width, MEM1_MAX_SIZE in *.
      assert (HN' : Some 1600 = Some (Z.of_nat N)) by exact (pool_size _ _ _ _ HP).
      injection HN' as HN'. lia.
    + right. exists k. split_and!; [done| |done].
      destruct (B !! k) as [m|] eqn:E; [|done]. exfalso.
      destruct (pool_table _ _ _ _ HP) as (tbl & _ & _ & Hrep).
      destruct (rep_block _ _ Hrep _ _ E). destruct (blocks_enough size Hs0).
      destruct (Hu _ _ E); lia.
Qed.

Lemma give_mem_run (ptr : net -> Z) N B n p :
  pool SRAMIN N B (n_pools n) -> ptr n = p -> live B p ->
  exists d', give_mem mem1base ptr n = Done tt (n <| n_pools := d' |>) /\
    pool SRAMIN N (freed B p) (n_pools (n <| n_pools := d' |>)).
Proof.
  intros HP <- [Hp|(k & m & Hp & HB)]; setoid_rewrite upd_get; unfold give_mem; rewrite bind_gets, Hp.
  - exists (n_pools n). split; [|done]. by apply zoom_Done.
  - destruct (release_live _ _ _ _ _ _ HP HB) as (d' & E & _ & HP'). exists d'.
    rewrite freed_pointer. split; [|done]. apply zoom_Done. unfold myfree.
    rewrite pointer_nonzero. change (index (membase mem1base) SRAMIN) with (Some mem1base).
    simpl. rewrite bind_ret.
    replace (mem1base + 64 * Z.of_nat k - mem1base) with (64 * Z.of_nat k) by lia.
    pose proof (pool_sizes _ _ (pool_size _ _ _ _ HP)) as (_ & _ & HN).
    destruct (pool_table _ _ _ _ HP) as (tbl & _ & Hl & Hrep).
    pose proof (rep_bound _ _ _ _ Hrep HB).
    rewrite u32_small by (unfold in_width; lia). by rewrite (bind_Done _ _ _ _ _ E).
Qed.

(** Four allocations, released in the order they were made. *)
Lemma four_freed B0 B1 B2 B3 B4 p1 p2 p3 p4 m1 m2 m3 m4 :
  got B0 p1 m1 B1 -> got B1 p2 m2 B2 -> got B2 p3 m3 B3 -> got B3 p4 m4 B4 ->
  live B4 p1 /\ live (freed B4 p1) p2 /\ live (freed (freed B4 p1) p2) p3 /\
  live (freed (freed (freed B4 p1) p2) p3) p4 /\
  freed (freed (freed (freed B4 p1) p2) p3) p4 = B0.
Proof.
  intros G1 G2 G3 G4.
  pose proof (got_live _ _ _ _ G1) as L1. pose proof (got_live _ _ _ _ G2) as L2.
  pose proof (got_live _ _ _ _ G3) as L3. pose proof (got_live _ _ _ _ G4) as L4.
  pose proof (got_keeps _ _ _ _ _ G2 L1) as L12. pose proof (got_keeps _ _ _ _ _ G3 L12) as L13.
  pose proof (got_keeps _ _ _ _ _ G4 L13) as L14. pose proof (got_keeps _ _ _ _ _ G3 L2) as L23.
  pose proof (got_keeps _ _ _ _ _ G4 L23) as L24. pose proof (got_keeps _ _ _ _ _ G4 L3) as L34.
  pose proof (got_distinct _ _ _ _ _ G2 L1) as D12. pose proof (got_distinct _ _ _ _ _ G3 L12) as D13.
  pose proof (got_distinct _ _ _ _ _ G4 L13) as D14. pose proof (got_distinct _ _ _ _ _ G3 L2) as D23.
  pose proof (got_distinct _ _ _ _ _ G4 L23) as D24. pose proof (got_distinct _ _ _ _ _ G4 L3) as D34.
  assert (H2 : live (freed B4 p1) p2) by (apply freed_keeps; [done|done|naive_solver]).
  assert (H3 : live (freed B4 p1) p3) by (apply freed_keeps; [done|done|naive_solver]).
  assert (H4 : live (freed B4 p1) p4) by (apply freed_keeps; [done|done|naive_solver]).
  assert (H3' : live (freed (freed B4 p1) p2) p3) by (apply freed_keeps; [done|done|naive_solver]).
  assert (H4' : live (freed (freed B4 p1) p2) p4) by (apply freed_keeps; [done|done|naive_solver]).
  split_and!; [done|done|done|apply freed_keeps; [done|done|naive_solver]|].
  rewrite (freed_comm _ p3 p4), (freed_comm _ p2 p4), (freed_comm _ p1 p4), (got_freed _ _ _ _ G4).
  rewrite (freed_comm _ p2 p3), (freed_comm _ p1 p3), (got_freed _ _ _ _ G3).
  rewrite (freed_comm _ p1 p2), (got_freed _ _ _ _ G2). apply (got_freed _ _ _ _ G1).
Qed.

(** Four live allocations made one after another, none of them null. *)
Definition four_blocks (B : heap) (ps : list Z) (sizes : list Z) (B' : heap) : Prop :=
  exists k1 k2 k3 k4, ps = (fun k : nat => mem1base + 64 * Z.of_nat k) <$> [k1; k2; k3; k4] /\
    NoDup [k1; k2; k3; k4] /\ Forall (fun k => B !! k = None) [k1; k2; k3; k4] /\
    B' = foldl (fun B '(k, size) => <[k := Z.to_nat (blocks size)]> B) B
      (zip [k1; k2; k3; k4] sizes).

Lemma got_block B p m B' :
  got B p m B' -> p <> 0 ->
  exists k, p = mem1base + 64 * Z.of_nat k /\ B !! k = None /\ B' = <[k := m]> B.
Proof. intros [[-> _]|H] Hp; [done|exact H]. Qed.

Lemma four_got B0 B1 B2 B3 B4 p1 p2 p3 p4 s1 s2 s3 s4 :
  got B0 p1 (Z.to_nat (blocks s1)) B1 -> got B1 p2 (Z.to_nat (blocks s2)) B2 ->
  got B2 p3 (Z.to_nat (blocks s3)) B3 -> got B3 p4 (Z.to_nat (blocks s4)) B4 ->
  p1 <> 0 -> p2 <> 0 -> p3 <> 0 -> p4 <> 0 ->
  four_blocks B0 [p1; p2; p3; p4] [s1; s2; s3; s4] B4.
Proof.
  intros G1 G2 G3 G4 N1 N2 N3 N4.
  destruct (got_block _ _ _ _ G1 N1) as (k1 & -> & H1 & ->).
  destruct (got_block _ _ _ _ G2 N2) as (k2 & -> & [H2 D21]%lookup_insert_None & ->).
  destruct (got_block _ _ _ _ G3 N3)
    as (k3 & -> & [[H3 D31]%lookup_insert_None D32]%lookup_insert_None & ->).
  destruct (got_block _ _ _ _ G4 N4) as (k4 & -> &
    [[[H4 D41]%lookup_insert_None D42]%lookup_insert_None D43]%lookup_insert_None & ->).
  exists k1, k2, k3, k4. split_and!; [done| |by repeat constructor|done].
  repeat (apply list.NoDup_cons; split; [set_solver|]). apply base.NoDup_nil_2.
Qed.

Lemma lwip_sizes : is_u32 ramheapsize /\ is_u32 (TCPIP_THREAD_STACKSIZE * 4) /\ is_u32 (LWIP_DHCP_STK_SIZE * 4).
Proof. by vm_compute. Qed.

Lemma lwip_mem_run mempsize N B n :
  pool SRAMIN N B (n_pools n) -> is_u32 mempsize ->
  exists r n', lwip_comm_mem_malloc mem1base mempsize n = Done r n' /\
    ((r = 0 /\ exists B', pool SRAMIN N B' (n_pools n') /\
        four_blocks B [memp_memory n'; ram_heap n'; TCPIP_THREAD_TASK_STK n'; LWIP_DHCP_TASK_STK n']
          [mempsize; ramheapsize; TCPIP_THREAD_STACKSIZE * 4; LWIP_DHCP_STK_SIZE * 4] B') \/
     (r = 1 /\ pool SRAMIN N B (n_pools n'))).
Proof.
  intros HP Hs. destruct lwip_sizes as (Hs2 & Hs3 & Hs4).
  destruct (take_mem_run memp_memory mempsize N B n HP Hs) as (p1 & d1 & B1 & E1 & HP1 & _ & G1).
  set (n1 := n <| n_pools := d1 |> <| memp_memory := p1 |>) in *.
  destruct (take_mem_run ram_heap _ N B1 n1 HP1 Hs2) as (p2 & d2 & B2 & E2 & HP2 & _ & G2).
  set (n2 := n1 <| n_pools := d2 |> <| ram_heap := p2 |>) in *.
  destruct (take_mem_run TCPIP_THREAD_TASK_STK _ N B2 n2 HP2 Hs3) as (p3 & d3 & B3 & E3 & HP3 & _ & G3).
  set (n3 := n2 <| n_pools := d3 |> <| TCPIP_THREAD_TASK_STK := p3 |>) in *.
  destruct (take_mem_run LWIP_DHCP_TASK_STK _ N B3 n3 HP3 Hs4) as (p4 & d4 & B4 & E4 & HP4 & _ & G4).
  set (n4 := n3 <| n_pools := d4 |> <| LWIP_DHCP_TASK_STK := p4 |>) in *.
  unfold lwip_comm_mem_malloc.
  rewrite (bind_Done _ _ _ _ _ E1), (bind_Done _ _ _ _ _ E2), (bind_Done _ _ _ _ _ E3),
    (bind_Done _ _ _ _ _ E4), bind_gets.
  change (memp_memory (id n4)) with p1. change (ram_heap (id n4)) with p2.
  change (TCPIP_THREAD_TASK_STK (id n4)) with p3. change (LWIP_DHCP_TASK_STK (id n4)) with p4.
  destruct ((p1 =? 0) || (p2 =? 0) || (p3 =? 0) || (p4 =? 0)) eqn:Hnull.
  - destruct (four_freed _ _ _ _ _ _ _ _ _ _ _ _ _ G1 G2 G3 G4) as (L1 & L2 & L3 & L4 & HF).
    destruct (give_mem_run memp_memory N B4 n4 p1 HP4 eq_refl L1) as (e1 & F1 & Q1).
    set (m1 := n4 <| n_pools := e1 |>) in *.
    destruct (give_mem_run ram_heap N _ m1 p2 Q1 eq_refl L2) as (e2 & F2 & Q2).
    set (m2 := m1 <| n_pools := e2 |>) in *.
    destruct (give_mem_run TCPIP_THREAD_TASK_STK N _ m2 p3 Q2 eq_refl L3) as (e3 & F3 & Q3).
    set (m3 := m2 <| n_pools := e3 |>) in *.
    destruct (give_mem_run LWIP_DHCP_TASK_STK N _ m3 p4 Q3 eq_refl L4) as (e4 & F4 & Q4).
    unfold lwip_comm_mem_free. rewrite !bind_bind, (bind_Done _ _ _ _ _ F1).
    rewrite !bind_bind, (bind_Done _ _ _ _ _ F2). rewrite !bind_bind, (bind_Done _ _ _ _ _ F3).
    rewrite (bind_Done _ _ _ _ _ F4).
    eexists 1, _. split; [reflexivity|]. right. split; [done|].
    rewrite <- HF. exact Q4.
  - apply orb_false_iff in Hnull as [[[H1 H2]%orb_false_iff H3]%orb_false_iff H4].
    exists 0, n4. split; [reflexivity|]. left. split; [done|]. exists B4. split; [exact HP4|].
    eapply four_got; [exact G1|exact G2|exact G3|exact G4|by apply Z.eqb_neq..].
Qed.

(** C29: [lwip_comm_mem_malloc] gets all four buffers of the stack or none: it
    returns 0 with four live allocations that share no block, or 1 with the pool
    holding exactly what it held before, the buffers it did get given back. *)
Theorem lwip_mem_all_or_nothing mempsize N B n :
  pool SRAMIN N B (n_pools n) -> is_u32 mempsize ->
  exists r n', lwip_comm_mem_malloc mem1base mempsize n = Done r n' /\
    ((r = 0 /\ exists B', pool SRAMIN N B' (n_pools n') /\
        four_blocks B [memp_memory n'; ram_heap n'; TCPIP_THREAD_TASK_STK n'; LWIP_DHCP_TASK_STK n']
          [mempsize; ramheapsize; TCPIP_THREAD_STACKSIZE * 4; LWIP_DHCP_STK_SIZE * 4] B') \/
     (r = 1 /\ pool SRAMIN N B (n_pools n'))).
Proof. exact (lwip_mem_run mempsize N B n). Qed.

Lemma eth_sizes :
  is_u32 (ETH_RXBUFNB * sizeof_ETH_DMADescTypeDef) /\ is_u32 (ETH_TXBUFNB * sizeof_ETH_DMADescTypeDef) /\
  is_u32 (ETH_MAX_PACKET_SIZE * ETH_RXBUFNB) /\ is_u32 (ETH_MAX_PACKET_SIZE * ETH_TXBUFNB).
Proof. by vm_compute. Qed.

Lemma take_any (ptr : net -> Z) `{!Upd ptr} size N B n :
  (forall n d p, n_pools (n <| n_pools := d |> <| ptr := p |>) = d) ->
  pool SRAMIN N B (n_pools n) -> is_u32 size ->
  exists n' B', take_mem mem1base ptr size n = Done tt n' /\ pool SRAMIN N B' (n_pools n').
Proof.
  intros Hptr HP Hs. destruct (take_mem_run ptr size N B n HP Hs) as (p & d & B' & E & HP' & _).
  eexists _, B'. split; [exact E|]. by rewrite Hptr.
Qed.

(** Whatever it gets, the pool stays well-formed. *)
Lemma ETH_Mem_Malloc_run N B n :
  pool SRAMIN N B (n_pools n) ->
  exists n' B', ETH_Mem_Malloc mem1base n = Done 0 n' /\ pool SRAMIN N B' (n_pools n').
Proof.
  intros HP. destruct eth_sizes as (S1 & S2 & S3 & S4). unfold ETH_Mem_Malloc.
  destruct (take_any DMARxDscrTab _ N B n ltac:(done) HP S1) as (n1 & B1 & E1 & HP1).
  destruct (take_any DMATxDscrTab _ N B1 n1 ltac:(done) HP1 S2) as (n2 & B2 & E2 & HP2).
  destruct (take_any Rx_Buff _ N B2 n2 ltac:(done) HP2 S3) as (n3 & B3 & E3 & HP3).
  destruct (take_any Tx_Buff _ N B3 n3 ltac:(done) HP3 S4) as (n4 & B4 & E4 & HP4).
  exists n4, B4. split; [|exact HP4].
  by rewrite (bind_Done _ _ _ _ _ E1), (bind_Done _ _ _ _ _ E2), (bind_Done _ _ _ _ _ E3),
    (bind_Done _ _ _ _ _ E4).
Qed.

(** The memory of the network at power-up: it always returns. *)
Lemma EthMemAlloc_run mempsize uid s N B n :
  pool SRAMIN N B (n_pools n) -> is_u32 mempsize ->
  exists r n', EthMemAlloc mem1base mempsize uid s n = Done r n'.
Proof.
  intros HP Hs. destruct (ETH_Mem_Malloc_run N B n HP) as (n1 & B1 & E1 & HP1).
  destruct (lwip_mem_run mempsize N B1 n1 HP1 Hs) as (r & n2 & E2 & Hr).
  unfold EthMemAlloc. rewrite (bind_Done _ _ _ _ _ E1). cbn [Z.eqb negb].
  rewrite (bind_Done _ _ _ _ _ E2). destruct Hr as [[-> _]|[-> _]]; cbn [Z.eqb negb].
  - by eexists _, _.
  - by eexists _, _.
Qed.

(** [ETH_Mem_Malloc] cannot report a failure: it tests the addresses of its
    four pointer variables, not the pointers, so it returns 0 and releases nothing
    even when the pool is full and all four pointers are null. *)
Theorem ETH_Mem_Malloc_never_fails N B n :
  pool SRAMIN N B (n_pools n) -> (forall k, (k < N)%nat -> ~ unused B k 1) ->
  exists n', ETH_Mem_Malloc mem1base n = Done 0 n' /\
    DMARxDscrTab n' = 0 /\ DMATxDscrTab n' = 0 /\ Rx_Buff n' = 0 /\ Tx_Buff n' = 0.
Proof.
  intros HP Hfull.
  assert (Hnone : forall (ptr : net -> Z) `{!Upd ptr} size n, pool SRAMIN N B (n_pools n) ->
    is_u32 size -> 0 < size -> exists d', take_mem mem1base ptr size n =
      Done tt (n <| n_pools := d' |> <| ptr := 0 |>) /\ pool SRAMIN N B d').
  { intros ptr ? size n0 HP0 Hs Hpos.
    destruct (take_mem_run ptr size N B n0 HP0 Hs) as (p & d' & B' & E & HP' & Hstep & [[-> ->]|G]).
    - by exists d'.
    - exfalso. destruct G as (k & -> & _ & _). rewrite pointer_nonzero in Hstep.
      replace (mem1base + 64 * Z.of_nat k - mem1base) with (64 * Z.of_nat k) in Hstep by lia.
      pose proof (pool_sizes _ _ (pool_size _ _ _ _ HP)) as (_ & _ & HN).
      destruct (malloc_result _ _ _ _ _ Hstep) as [[Hno _]|(j & Hj & _ & _ & Hin & Hu)].
      { inversion Hstep; subst; unfold NOMEM in *; lia. }
      destruct (blocks_enough size Hpos). apply (Hfull j); [lia|].
      intros k' n' HB. destruct (Hu k' n' HB); lia. }
  destruct (Hnone DMARxDscrTab _ (ETH_RXBUFNB * sizeof_ETH_DMADescTypeDef) n HP)
    as (d1 & E1 & HP1); [done|done|].
  set (n1 := n <| n_pools := d1 |> <| DMARxDscrTab := 0 |>) in *.
  destruct (Hnone DMATxDscrTab _ (ETH_TXBUFNB * sizeof_ETH_DMADescTypeDef) n1 HP1)
    as (d2 & E2 & HP2); [done|done|].
  set (n2 := n1 <| n_pools := d2 |> <| DMATxDscrTab := 0 |>) in *.
  destruct (Hnone Rx_Buff _ (ETH_MAX_PACKET_SIZE * ETH_RXBUFNB) n2 HP2)
    as (d3 & E3 & HP3); [done|done|].
  set (n3 := n2 <| n_pools := d3 |> <| Rx_Buff := 0 |>) in *.
  destruct (Hnone Tx_Buff _ (ETH_MAX_PACKET_SIZE * ETH_TXBUFNB) n3 HP3)
    as (d4 & E4 & HP4); [done|done|].
  unfold ETH_Mem_Malloc.
  rewrite (bind_Done _ _ _ _ _ E1), (bind_Done _ _ _ _ _ E2), (bind_Done _ _ _ _ _ E3),
    (bind_Done _ _ _ _ _ E4).
  eexists. split; [reflexivity|]. done.
Qed.
End pointers.

(** ** The packet that describes the unit *)

(** The fields have the sizes of the arrays of [struct mcuinfo]. *)
Record mcuinfo_ok (m : mcuinfo) : Prop := {
  ok_name : length (devName m) = 32%nat;
  ok_sn : length (devSN m) = 16%nat;
  ok_type : length (mcuType m) = 16%nat;
  ok_uid : length (mcuUID m) = 3%nat;
  ok_sv : length (mcuSV m) = 3%nat;
  ok_ip : length (mcuIP m) = 4%nat;
  ok_mask : length (mcuNetMask m) = 4%nat;
  ok_gw : length (mcuGW m) = 4%nat;
  ok_mac : length (mcuMAC m) = 6%nat;
  ok_hv : length (mcuHV m) = 2%nat;
  ok_reserve : length (reserve m) = 1%nat;
}.

Lemma mcuinfo_bytes_length m : mcuinfo_ok m -> length (mcuinfo_bytes m) = 104%nat.
Proof.
  intros []. unfold mcuinfo_bytes. rewrite !length_app.
  replace (length (mcuUID m ≫= le_bytes 4)) with 12%nat; [simpl; lia|].
  destruct (mcuUID m) as [|a [|b [|c [|]]]]; done.
Qed.

Lemma describe_ok port m : mcuinfo_ok m -> mcuinfo_ok (describe port m).
Proof. intros []. by constructor. Qed.

Section local_stores.
Context {St : Type}.
Implicit Types s : St.

Lemma store_run {A} (l : list A) i v s :
  0 <= i < Z.of_nat (length l) -> store l i v s = Done (<[Z.to_nat i := v]> l) s.
Proof. intros. unfold store. by rewrite bool_decide_eq_true_2. Qed.

Lemma bind_store {A B} (l : list A) i v (k : list A -> M St B) s :
  0 <= i < Z.of_nat (length l) -> (store l i v ≫= k) s = k (<[Z.to_nat i := v]> l) s.
Proof. intros. by rewrite (bind_Done _ _ _ _ _ (store_run l i v s H)). Qed.

Lemma fill_local_run l a n v s :
  0 <= a -> 0 <= n -> a + n <= Z.of_nat (length l) ->
  exists l', fill_local l a n v s = Done l' s /\ length l' = length l.
Proof.
  unfold fill_local. intros Ha Hn. revert l a Ha. pattern n. revert n Hn. apply natlike_ind.
  { intros l a _ _. by exists l. }
  intros n Hn IH l a Ha Hl. unfold zseq. rewrite seqZ_cons by lia. cbn [for_fold].
  rewrite (bind_Done _ _ _ _ _ (store_run l a (Some v) s ltac:(lia))).
  destruct (IH (<[Z.to_nat a := Some v]> l) (Z.succ a)) as (l' & E & Hl');
    [lia|rewrite length_insert; lia|].
  exists l'. replace (Z.pred (Z.succ n)) with n by lia. rewrite length_insert in Hl'. done.
Qed.

Lemma fill_local_oob l a n v s :
  0 <= a -> 0 < n -> Z.of_nat (length l) < a + n -> fill_local l a n v s = Undefined OutOfBounds.
Proof.
  intros Ha Hn Hl. assert (Hstop : forall (l : list (option Z)) a n, 0 < n -> Z.of_nat (length l) <= a ->
    fill_local l a n v s = Undefined OutOfBounds).
  { clear. intros l a n Hn Ha. unfold fill_local, zseq. rewrite seqZ_cons by lia. cbn [for_fold].
    apply bind_Undefined. unfold store. by rewrite bool_decide_eq_false_2 by lia. }
  destruct (decide (Z.of_nat (length l) <= a)) as [|Hin]; [by apply Hstop|].
  set (k := Z.of_nat (length l) - a).
  destruct (fill_local_run l a k v s) as (l' & E & Hl'); [lia..|].
  unfold fill_local, zseq in *. replace n with (k + (n - k)) by lia.
  rewrite seqZ_app, for_fold_app by lia. rewrite (bind_Done _ _ _ _ _ E). apply Hstop; lia.
Qed.
End local_stores.

(** [McuInfoInit] writes past the end of its 128-byte buffer: with the 104
    bytes of [struct mcuinfo] the packet has 140 bytes, so the trailer of eight
    bytes 0x55 ends at byte 131 and that of 0xed at byte 139. *)
Theorem McuInfoInit_overflows port buf n :
  mcuinfo_ok (g_MCUinfo n) -> McuInfoInit port buf n = Undefined OutOfBounds.
Proof.
  intros Hok. unfold McuInfoInit.
  destruct (fill_local_run (replicate 128 None) 0 8 0xbe n) as (t1 & E1 & L1);
    [rewrite ?length_replicate; lia..|]. rewrite length_replicate in L1.
  rewrite (bind_Done _ _ _ _ _ E1).
  destruct (fill_local_run t1 8 8 0xaa n) as (t2 & E2 & L2); [lia..|]. rewrite L1 in L2.
  rewrite (bind_Done _ _ _ _ _ E2), bind_gets.
  rewrite mcuinfo_bytes_length by done. change (Z.of_nat 104) with 104.
  rewrite !bind_store by (rewrite ?length_insert; lia).
  rewrite bind_put, bind_gets. set (n' := n <| g_MCUinfo := describe port (g_MCUinfo n) |>).
  change (g_MCUinfo n') with (describe port (g_MCUinfo n)).
  pose proof (mcuinfo_bytes_length _ (describe_ok port _ Hok)) as Lb.
  set (bytes := mcuinfo_bytes (describe port (g_MCUinfo n))) in *.
  set (t3 := <[Z.to_nat 18 := _]> _). assert (L3 : length t3 = 128%nat)
    by (unfold t3; by rewrite !length_insert).
  rewrite (bind_Done _ _ _ (blit t3 (Z.to_nat 19) (Some <$> bytes)) n').
  2:{ unfold copy_in. rewrite length_fmap, Lb, bool_decide_eq_true_2 by lia. done. }
  set (t4 := blit t3 _ _). assert (L4 : length t4 = 128%nat)
    by (unfold t4; rewrite blit_length; [done|]; rewrite length_fmap, Lb, L3; lia).
  rewrite bind_store by lia.
  apply bind_Undefined, fill_local_oob; rewrite ?length_insert; lia.
Qed.

(** ** Examples *)
Definition empty_pools : dev := Dev [replicate 1600 0; []; []] [1; 0; 0] (fun _ => 0).
Definition full_pools : dev :=
  Dev [fill (replicate 1600 0) 0 1600 (Z.of_nat 1600); []; []] [1; 0; 0] (fun _ => 0).

Lemma empty_pool : pool SRAMIN 1600 ∅ (n_pools (net_boot empty_pools)).
Proof.
  split; [reflexivity|reflexivity|]. eexists. split_and!; [reflexivity|reflexivity|]. apply rep_empty.
Qed.

Lemma full_pool : pool SRAMIN 1600 {[0%nat := 1600%nat]} (n_pools (net_boot full_pools)).
Proof.
  split; [reflexivity|reflexivity|]. eexists. split_and!; [reflexivity|reflexivity|].
  apply (rep_malloc ∅ _ 0 1600); [apply rep_empty|lia|].
  intros i Hi. apply lookup_replicate_2. lia.
Qed.

Lemma lwip_mem_all_or_nothing_witness :
  exists r n', lwip_comm_mem_malloc 0x20000000 20000 (net_boot empty_pools) = Done r n' /\
    ((r = 0 /\ exists B', pool SRAMIN 1600 B' (n_pools n') /\
        four_blocks 0x20000000 ∅
          [memp_memory n'; ram_heap n'; TCPIP_THREAD_TASK_STK n'; LWIP_DHCP_TASK_STK n']
          [20000; ramheapsize; TCPIP_THREAD_STACKSIZE * 4; LWIP_DHCP_STK_SIZE * 4] B') \/
     (r = 1 /\ pool SRAMIN 1600 ∅ (n_pools n'))).
Proof.
  apply (lwip_mem_all_or_nothing 0x20000000 ram_placed 20000 1600 ∅ (net_boot empty_pools) empty_pool).
  unfold in_width. lia.
Defined.

Lemma ETH_Mem_Malloc_never_fails_witness :
  exists n', ETH_Mem_Malloc 0x20000000 (net_boot full_pools) = Done 0 n' /\
    DMARxDscrTab n' = 0 /\ DMATxDscrTab n' = 0 /\ Rx_Buff n' = 0 /\ Tx_Buff n' = 0.
Proof.
  apply (ETH_Mem_Malloc_never_fails 0x20000000 ram_placed 1600 {[0%nat := 1600%nat]}
    (net_boot full_pools) full_pool).
  intros k Hk Hu. destruct (Hu 0%nat 1600%nat); [reflexivity|lia|lia].
Defined.

Lemma McuInfoInit_overflows_witness :
  McuInfoInit 50099 (replicate 200 0) (net_boot empty_pools) = Undefined OutOfBounds.
Proof.
  apply (McuInfoInit_overflows 50099 (replicate 200 0) (net_boot empty_pools)).
  constructor; reflexivity.
Defined.
