(* ===== verification/Main.v ===== *)
(** * Power-up and tasks: src/USER/main.c

    [main] up to the start of the kernel, the tasks one turn of their loop at a
    time, and [Error_loop]. The kernel is not part of the model: creating and
    suspending a task is a change of the list [m_tasks]. Set-up calls of the HAL that
    touch only the clocks, the serial port and the SDRAM have no state here, and the
    answers of the HAL and of lwIP are the parameters of the definitions. *)
From Stdlib Require Import ZArith Lia String.
From stdpp Require Import base tactics decidable list list_numbers numbers.
From S2P Require Import Prelude Board Relay Io HostConfig Flash Can Timers Dispatch Malloc I2c Udp Net.
Open Scope Z_scope.
Open Scope c_scope.

Definition CAN_TASK_PRIO : Z := 20.
Definition LED_TASK_PRIO : Z := 9.
Definition NETINIT_TASK_PRIO : Z := 11.
Definition START_TASK_PRIO : Z := 10.

(** LED_MCU of led.h, and the two pins main.c writes by name of the port. *)
Definition LED_MCU : pin := Pin GPIOA 3.
Definition protect_relay : pin := Pin GPIOH 3.
Definition buzzer : pin := Pin GPIOB 12.

(** ** The whole firmware *)
Record firmware {hw : FlashHW} {i2c : I2CDevice} := Firmware {
  m_sys : sys hw;              (** host messages, relays, flash, settings, CAN ring *)
  m_net : net;                 (** pools, addresses, description of the unit *)
  m_bus : bus;                 (** I2C *)
  m_can : option can_init;     (** what the CAN controller was set up with *)
  m_tasks : list (Z * bool);   (** tasks by priority; false: suspended *)
  m_echo : option Z;           (** the port of the receive callback of udpecho.c *)
  udp_server_multi_pcb : bool; (** the multicast callback is registered *)
  g_NetInitFine : Z;
  g_arMcuInfoData : list Z;
  g_arMcuInfoDataLen : Z;
}.
Arguments firmware : clear implicits.
Arguments firmware _ _.
Arguments Firmware {hw i2c}.

#[export] Instance firmware_eta {hw i2c} : Eta (firmware hw i2c) := fun d =>
  Firmware (m_sys d) (m_net d) (m_bus d) (m_can d) (m_tasks d) (m_echo d) (udp_server_multi_pcb d)
    (g_NetInitFine d) (g_arMcuInfoData d) (g_arMcuInfoDataLen d).
#[export] Instance upd_m_sys {hw i2c} : Upd (R := firmware hw i2c) m_sys := ltac:(derive_upd).
#[export] Instance upd_m_net {hw i2c} : Upd (R := firmware hw i2c) m_net := ltac:(derive_upd).
#[export] Instance upd_m_bus {hw i2c} : Upd (R := firmware hw i2c) m_bus := ltac:(derive_upd).
#[export] Instance upd_m_can {hw i2c} : Upd (R := firmware hw i2c) m_can := ltac:(derive_upd).
#[export] Instance upd_m_tasks {hw i2c} : Upd (R := firmware hw i2c) m_tasks := ltac:(derive_upd).
#[export] Instance upd_m_echo {hw i2c} : Upd (R := firmware hw i2c) m_echo := ltac:(derive_upd).
#[export] Instance upd_multi_pcb {hw i2c} : Upd (R := firmware hw i2c) udp_server_multi_pcb := ltac:(derive_upd).
#[export] Instance upd_g_NetInitFine {hw i2c} : Upd (R := firmware hw i2c) g_NetInitFine := ltac:(derive_upd).
#[export] Instance upd_g_arMcuInfoData {hw i2c} : Upd (R := firmware hw i2c) g_arMcuInfoData := ltac:(derive_upd).
#[export] Instance upd_g_arMcuInfoDataLen {hw i2c} : Upd (R := firmware hw i2c) g_arMcuInfoDataLen := ltac:(derive_upd).

#[export] Instance firmware_trace {hw i2c} : HasTrace (firmware hw i2c) := {
  events d := events (m_sys d);
  emit_event e d := d <| m_sys ::= emit_event e |>;
}.
#[export] Instance firmware_trace_laws {hw i2c} : HasTraceLaws (firmware hw i2c).
Proof. by constructor. Qed.

(** What the chip, the HAL and the linker answer at power-up. *)
Record boot_env := BootEnv {
  mem1base_of : Z;      (** where the first pool lies *)
  mempsize_of : Z;      (** the result of [memp_get_memorysize] *)
  mcu_uid : list Z;     (** the three words at 0x1FFF7A10 *)
  can_ok : bool;        (** [HAL_CAN_Init] *)
  filter_ok : bool;     (** [HAL_CAN_ConfigFilter] *)
}.

(** What the PHY, the reset register and lwIP answer to the network task. *)
Record net_env := NetEnv {
  phy_linked : bool;    (** PHY_LINKED_STATUS *)
  net_result : Z;       (** the result of [lwip_comm_init] *)
  soft_reset : bool;    (** RCC_FLAG_SFTRST *)
  udp_new_ok : bool; udp_bind_ok : bool; igmp_ok : bool; multi_new_ok : bool;
  pbuf_ok : bool;       (** [pbuf_alloc] *)
}.

Section main.
Context {hw : FlashHW} {outside : Board} {i2c : I2CDevice}.
Notation MD := (M (firmware hw i2c)).

(** ** Errors *)

(** One turn of the endless loop of [Error_loop]. *)
Definition Error_turn : MD unit :=
  emit (EvPrint "error loop - ing") ;;
  delay_ms 500 ;;
  zoom m_bus (PCF8574_WriteBit RUNLED_IO 1) ;;
  delay_ms 500 ;;
  zoom m_bus (PCF8574_WriteBit RUNLED_IO 0).

(** Up to its loop, which never ends. *)
Definition Error_loop {A} : MD A :=
  zoom m_sys (g_Error ::= 1) ;;
  pin_reset protect_relay ;;
  pin_set buzzer ;;
  zoom m_bus (PCF8574_WriteBit ERRORLED_IO 1) ;;
  zoom m_bus (PCF8574_WriteBit RUNLED_IO 0) ;;
  halt_with ErrorLoop.

(** [!PCF8574_ReadBit(TEMP1_IO) || !PCF8574_ReadBit(TEMP2_IO)] *)
Definition too_warm : MD bool :=
  t1 ← zoom m_bus (PCF8574_ReadBit TEMP1_IO);
  if t1 =? 0 then mret true else
  t2 ← zoom m_bus (PCF8574_ReadBit TEMP2_IO);
  mret (t2 =? 0).

(** ** Power-up *)
Definition OSTaskCreate (prio : Z) : MD unit :=
  ts ← gets m_tasks; m_tasks ::= (prio, true) :: ts.

(** [OSTaskSuspend(OS_PRIO_SELF)] in the task [prio]. *)
Definition OSTaskSuspend (prio : Z) : MD unit :=
  ts ← gets m_tasks; m_tasks ::= (fun '(p, r) => (p, if p =? prio then false else r)) <$> ts.

(** The devices, before any check. *)
Definition init_devices : MD unit :=
  zoom m_sys (in_host (ErrorNumInit ;; GlobalDataInit)) ;;
  zoom m_sys (in_fiu LED_Init) ;;
  zoom m_bus PCF8574_Init ;;
  zoom m_net (zoom n_pools (my_mem_init SRAMIN) ;; zoom n_pools (my_mem_init SRAMEX) ;;
    zoom n_pools (my_mem_init SRAMCCM)) ;;
  emit (EvPrint "FIU MCU").

(** The settings, the CAN controller and the memory of the network. *)
Definition init_ports (env : boot_env) : MD unit :=
  m ← gets (fun d => s_flash (m_sys d));
  zoom m_sys (zoom s_set (CanModifiedCheck m)) ;;
  m_can ::= Some (CAN1_Mode_Init 1 6 8 3 0 (can_ok env) (filter_ok env)).1 ;;
  zoom m_sys (zoom s_set (IpModifiedCheck m)) ;;
  s ← gets (fun d => s_set (m_sys d));
  rt ← zoom m_net (EthMemAlloc (mem1base_of env) (mempsize_of env) (mcu_uid env) s);
  if rt =? 0 then emit (EvPrint "Eth Mem Alloc suc .") else emit (EvPrint "Eth Mem Alloc failed .").

(** [main]: it is done when [OSStart] takes over, with the first task created. *)
Definition main (env : boot_env) : MD unit :=
  init_devices ;;
  rt ← Fuse_check;
  if negb (rt =? 0) then emit (EvPrint "Fuse_check failed = 0x%x .") ;; Error_loop else
  warm ← too_warm;
  if warm : bool then Error_loop else
  init_ports env ;;
  OSTaskCreate START_TASK_PRIO.

(** ** Tasks *)
Definition start_task : MD unit :=
  OSTaskCreate LED_TASK_PRIO ;;
  OSTaskCreate CAN_TASK_PRIO ;;
  OSTaskCreate NETINIT_TASK_PRIO ;;
  OSTaskSuspend START_TASK_PRIO.

Definition led_turn : MD unit :=
  on ← gets (fun d => level (events d) LED_MCU);
  write_pin LED_MCU (negb on) ;;
  warm ← too_warm;
  if warm : bool then Error_loop else delay_ms 500.

(** The task up to its [n]th turn. *)
Definition led_task (n : nat) : MD unit :=
  zoom m_bus (PCF8574_WriteBit RUNLED_IO 1) ;;
  for_each (seq 0 n) (fun _ => led_turn).

(** [n] turns. *)
Definition CanDataDealTask (n : nat) : MD unit :=
  for_each (seq 0 n) (fun _ => zoom m_sys HostCanDataAnalysis ;; skip).

(** *** The network task *)

(** [udpecho_init] *)
Definition udpecho_thread (env : net_env) : MD unit :=
  port ← gets (fun d => g_LocalUdpPort (s_set (m_sys d)));
  if udp_new_ok env then
    if udp_bind_ok env then m_echo ::= Some port else skip
  else skip.

Definition Multicast_Config (env : net_env) : MD unit :=
  (if igmp_ok env then skip else emit (EvPrint "igmp_joingroup failed .")) ;;
  udp_server_multi_pcb ::= multi_new_ok env ;;
  if multi_new_ok env then emit (EvPrint "mulcast pcb new suc .") else skip.

Definition multicast_send_data (env : net_env) (data : list Z) (len : Z) : MD unit :=
  pcb ← gets udp_server_multi_pcb;
  if pcb : bool then
    if pbuf_ok env then emit (EvUdpTx (take (Z.to_nat len) data)) else undefined NullDeref
  else skip.

(** After a call of [lwip_comm_init]. *)
Definition net_started (env : net_env) : MD unit :=
  if negb (net_result env =? 0) then
    emit (EvPrint "Lwip Init failed .") ;;
    if net_result env =? 3 then emit (EvPrint "!!! NO Link !!!") else skip
  else
    g_NetInitFine ::= 1 ;;
    udpecho_thread env ;;
    Multicast_Config env ;;
    port ← gets (fun d => g_LocalUdpPort (s_set (m_sys d)));
    buf ← gets g_arMcuInfoData;
    '(buf, len) ← zoom m_net (McuInfoInit port buf);
    g_arMcuInfoData ::= buf ;;
    g_arMcuInfoDataLen ::= len ;;
    emit (EvPrint "Lwip Init Suc .").

(** The signal that the unit was reset by software. *)
Definition soft_reset_signal : MD unit :=
  zoom m_bus (PCF8574_WriteBit SOFTRSTLED_IO 1) ;;
  pin_set buzzer ;;
  delay_ms 500 ;;
  zoom m_bus (PCF8574_WriteBit SOFTRSTLED_IO 1) ;;
  pin_reset buzzer ;;
  emit (EvPrint "Device SFRST done .").

(** One turn of the loop of [netinit_task]; before it, [net_started]. *)
Definition netinit_turn (env : net_env) : MD unit :=
  fine ← gets g_NetInitFine;
  (if fine =? 0 then
    if negb (phy_linked env) then emit (EvPrint "Net Link check : no link .")
    else emit (EvPrint "!!! Net Link !!!") ;; net_started env
  else
    data ← gets g_arMcuInfoData;
    len ← gets g_arMcuInfoDataLen;
    multicast_send_data env data len ;;
    emit (EvPrint "g_arMcuInfoDataLen = %d .") ;;
    if soft_reset env then soft_reset_signal else skip) ;;
  delay_ms 1000.

(** One attempt before the loop, then one turn for each of the answers [envs]. *)
Definition netinit_task (env : net_env) (envs : list net_env) : MD unit :=
  net_started env ;;
  for_each envs netinit_turn.
End main.
