(* ===== verification/MainSpec.v ===== *)
(** * From power-up to the first fault

    What [main] checks before it starts the tasks and the state it hands over, what
    the temperature watch does, and what still works after an error. *)
From Stdlib Require Import ZArith Lia String.
From stdpp Require Import base tactics decidable list list_numbers numbers.
From S2P Require Import Prelude Board Relay RelaySpec Frames Io IoSpec HostConfig HostConfigSpec Flash FlashSpec Can Timers Dispatch DispatchSpec Sessions FuseSessions Malloc MallocSpec I2c I2cSpec Udp UdpSpec Net NetSpec Main.
Open Scope Z_scope.
Open Scope c_scope.

#[export] Instance m_sys_laws {hw i2c} : UpdLaws (S := firmware hw i2c) m_sys. Proof. upd_laws. Qed.

(** ** Effects on pins the relay driver does not use *)
(** Effects, newest first. *)
Definition did (es : list event) (f : fiu) : fiu := f <| tr ::= app es |>.

(** The pins main.c writes itself, and those of the fuse test. *)
Definition MAIN_PINS : list pin := LED_MCU :: protect_relay :: buzzer :: FUSETEST.

Lemma main_pins_apart G p :
  forallb (fun q => negb (bool_decide (q ∈ MAIN_PINS))) G = true -> p ∈ G -> p ∉ MAIN_PINS.
Proof. intros H. by apply disjoint_bool. Qed.

Lemma main_writes es :
  forallb (fun e => match e with EvPin q _ => bool_decide (q ∈ MAIN_PINS) | _ => true end) es = true ->
  writes_in MAIN_PINS es.
Proof.
  rewrite forallb_forall. intros H. apply Forall_forall. intros e He.
  specialize (H e He). destruct e; try done. by apply bool_decide_eq_true_1 in H.
Qed.

(** The registers hold the same data, the lines the same levels. *)
Definition same_board (f f' : fiu) : Prop :=
  (forall n, register n f' = register n f) /\
  (forall n, bus_level f' n = bus_level f n) /\ resistance f' = resistance f.

Lemma did_view es f : writes_in MAIN_PINS es -> same_board f (did es f).
Proof.
  intros W. split_and!.
  - intros n. unfold register. destruct (CHCLK !! n) as [clk|] eqn:Hclk; [|done].
    eapply latched_writes_in; [exact W|]. apply (main_pins_apart CHCLK); [by vm_compute|].
    by eapply list_elem_of_lookup_2.
  - intros n. unfold bus_level. destruct (index CTRLBUS (n - 1)) as [p|] eqn:Hp; [|done].
    apply index_Some in Hp as [_ Hp%list_elem_of_lookup_2].
    eapply level_writes_in; [exact W|]. by apply (main_pins_apart CTRLBUS); [vm_compute|].
  - eapply sample_writes_in; [exact W|]. intros p Hp. by apply (main_pins_apart RESCTRL); [vm_compute|].
Qed.

Lemma board_same g R L v s s' :
  same_board s s' -> uDqStatus s' = uDqStatus s -> uKasuStatus s' = uKasuStatus s ->
  uFiuCom_buf s' = uFiuCom_buf s -> g_FiuByte17Data s' = g_FiuByte17Data s ->
  board g R L v s -> board g R L v s'.
Proof.
  intros (Vr & Vb & Vv) Eq Ek Eb Ef [[Hl Hu Hreg Hfr] Hb Hk HR HL Hv].
  constructor; try congruence.
  - constructor; congruence.
  - intros r Hr. rewrite <- HR by done. by apply energised_register.
  - intros n Hn. by rewrite Vb, HL.
Qed.

Lemma board_did g R L v es s : writes_in MAIN_PINS es -> board g R L v s -> board g R L v (did es s).
Proof. intros W. apply board_same; [by apply did_view|done..]. Qed.

(** Nothing but effects on those pins. *)
Definition touched (f f' : fiu) : Prop := exists es, writes_in MAIN_PINS es /\ f' = did es f.

Lemma touched_board f f' : touched f f' -> same_board f f'.
Proof. intros (es & W & ->). by apply did_view. Qed.

Lemma touched_trans f1 f2 f3 : touched f1 f2 -> touched f2 f3 -> touched f1 f3.
Proof.
  intros (e1 & W1 & ->) (e2 & W2 & ->). exists (e2 ++ e1). split; [by apply writes_in_app|].
  unfold did. by rewrite fiu_app_app.
Qed.

Lemma touched_did es f :
  forallb (fun e => match e with EvPin q _ => bool_decide (q ∈ MAIN_PINS) | _ => true end) es = true ->
  touched f (did es f).
Proof. intros W. exists es. by split; [apply main_writes|]. Qed.

(** ** The error loop and the temperature watch *)
Section watch.
Context {hw : FlashHW} {outside : Board} {i2c : I2CDevice} {laws : PCF8574Laws}.
Implicit Types u : firmware hw i2c.

(** The bus is between two transactions, the expander [d] on it. *)
Definition expander u (d : dev) : Prop := exists t, m_bus u = idle d t /\ ready d.

(** The expander reports no over-temperature. *)
Definition cool (d : dev) : bool := Z.testbit (port d) TEMP1_IO && Z.testbit (port d) TEMP2_IO.

Definition with_bus u (b : bus) : firmware hw i2c := u <| m_bus := b |>.
Definition with_fiu u (f : fiu) : firmware hw i2c := u <| m_sys := (m_sys u) <| s_fiu := f |> |>.

Lemma bus_write u d bit sta :
  expander u d -> 0 <= bit < 8 ->
  exists d' t', zoom m_bus (PCF8574_WriteBit bit sta) u = Done tt (with_bus u (idle d' t')) /\
    ready d' /\ inputs d' = inputs d /\
    (forall k, 0 <= k < 8 -> Z.testbit (latch d') k =
      if bool_decide (k = bit) then negb (sta =? 0) else Z.testbit (port d) k).
Proof.
  intros (t & Hb & Hr) Hbit. destruct (write_bit_run d t bit sta Hr Hbit) as (d' & t' & E & H).
  exists d', t'. split; [|exact H]. apply zoom_Done. by rewrite Hb.
Qed.

Lemma expander_with u d t : ready d -> expander (with_bus u (idle d t)) d.
Proof. by exists t. Qed.

Lemma too_warm_run u d :
  expander u d ->
  exists d' t', too_warm u = Done (negb (cool d)) (with_bus u (idle d' t')) /\
    ready d' /\ latch d' = latch d /\ inputs d' = inputs d.
Proof.
  intros (t & Hb & Hr). unfold too_warm, cool.
  destruct (read_bit_at d t TEMP1_IO Hr ltac:(done)) as (d1 & t1 & E1 & Hr1 & Hl1 & Hi1).
  rewrite <- Hb in E1. rewrite (bind_Done _ _ _ _ _ (zoom_Done m_bus _ u _ _ E1)).
  destruct (Z.testbit (port d) TEMP1_IO); cbn [Z.eqb andb negb].
  2: { exists d1, t1. by split_and!. }
  destruct (read_bit_at d1 t1 TEMP2_IO Hr1 ltac:(done)) as (d2 & t2 & E2 & Hr2 & Hl2 & Hi2).
  set (u1 := u <| m_bus := idle d1 t1 |>). change (idle d1 t1) with (m_bus u1) in E2.
  rewrite (bind_Done _ _ _ _ _ (zoom_Done m_bus _ u1 _ _ E2)).
  exists d2, t2. unfold port in E2 |- *. rewrite Hl1, Hi1. split_and!; [|done|congruence|congruence].
  by destruct (Z.testbit (Z.land (latch d) (inputs d)) TEMP2_IO).
Qed.

(** What [Error_loop] has done when it enters its loop: alarm raised, protection
    relay and run lamp off, buzzer and error lamp on; the relays are not touched. *)
Record alarmed u u' : Prop := {
  al_sys : m_sys u' = (m_sys u) <| g_Error := 1 |>
    <| s_fiu := did [EvPin buzzer true; EvPin protect_relay false] (s_fiu (m_sys u)) |>;
  al_lamps : exists d', expander u' d' /\
    Z.testbit (latch d') ERRORLED_IO = true /\ Z.testbit (latch d') RUNLED_IO = false;
  al_tasks : m_tasks u' = m_tasks u;
}.

Lemma Error_loop_run {A} u d :
  expander u d -> Z.testbit (inputs d) ERRORLED_IO = true ->
  exists u', @Error_loop _ _ A u = Halted ErrorLoop u' /\ alarmed u u'.
Proof.
  intros Hx Hlamp. unfold Error_loop.
  set (u1 := u <| m_sys := (m_sys u) <| g_Error := 1 |>
    <| s_fiu := did [EvPin buzzer true; EvPin protect_relay false] (s_fiu (m_sys u)) |> |>).
  destruct (bus_write u1 d ERRORLED_IO 1 Hx ltac:(done)) as (d1 & t1 & E1 & Hr1 & Hi1 & Hl1).
  destruct (bus_write (with_bus u1 (idle d1 t1)) d1 RUNLED_IO 0 (expander_with _ _ _ Hr1) ltac:(done))
    as (d2 & t2 & E2 & Hr2 & Hi2 & Hl2).
  exists (with_bus u1 (idle d2 t2)). split.
  - etrans; [by apply (bind_Done _ _ u tt (u <| m_sys := (m_sys u) <| g_Error := 1 |> |>))|].
    etrans; [by apply (bind_Done _ _ _ tt)|]. etrans; [by apply (bind_Done _ _ _ tt u1)|].
    rewrite (bind_Done _ _ _ _ _ E1), (bind_Done _ _ _ _ _ E2). done.
  - constructor; [done| |done]. exists d2. split; [by apply expander_with|].
    rewrite !Hl2 by done. split; [|done]. rewrite bool_decide_eq_false_2 by done.
    unfold port. rewrite Z.land_spec, Hi1, Hlamp, Hl1 by done. done.
Qed.

(** ** The lamp task *)
Lemma alarmed_board u u' : alarmed u u' ->
  touched (s_fiu (m_sys u)) (s_fiu (m_sys u')) /\
  level (events u') protect_relay = false /\ level (events u') buzzer = true.
Proof.
  intros [E _ _]. change (events u') with (tr (s_fiu (m_sys u'))). rewrite E. split; [|done]. by apply touched_did.
Qed.

(** A turn that finds nothing: the lamp toggles, half a second passes. *)
Definition blinked (f : fiu) : fiu :=
  did [EvDelayMs 500; EvPin LED_MCU (negb (level (tr f) LED_MCU))] f.

Lemma led_turn_run u d :
  expander u d -> Z.testbit (inputs d) ERRORLED_IO = true ->
  if cool d then exists d' t', led_turn u =
      Done tt (with_bus (with_fiu u (blinked (s_fiu (m_sys u)))) (idle d' t')) /\
    ready d' /\ latch d' = latch d /\ inputs d' = inputs d
  else exists u', led_turn u = Halted ErrorLoop u' /\
    touched (s_fiu (m_sys u)) (s_fiu (m_sys u')) /\ g_Error (m_sys u') = 1 /\
    s_host (m_sys u') = s_host (m_sys u) /\
    level (events u') protect_relay = false /\ level (events u') buzzer = true.
Proof.
  intros Hx Hlamp. set (b := negb (level (events u) LED_MCU)).
  set (u1 := with_fiu u (did [EvPin LED_MCU b] (s_fiu (m_sys u)))).
  destruct (too_warm_run u1 d Hx) as (d1 & t1 & E1 & Hr1 & Hl1 & Hi1).
  unfold led_turn. rewrite bind_gets. fold b.
  rewrite (bind_Done _ _ _ tt u1) by done. rewrite (bind_Done _ _ _ _ _ E1).
  destruct (cool d); cbn [negb].
  - exists d1, t1. by split_and!.
  - destruct (@Error_loop_run unit (with_bus u1 (idle d1 t1)) d1 (expander_with _ _ _ Hr1))
      as (u2 & E2 & Ha); [congruence|].
    exists u2. split; [exact E2|]. pose proof (alarmed_board _ _ Ha) as (Hs & Hp & Hz).
    pose proof (al_sys _ _ Ha) as Hsys. split_and!; [|by rewrite Hsys..|done|done].
    eapply touched_trans; [|exact Hs]. by apply touched_did.
Qed.

Lemma led_turns_run n : forall k u d,
  expander u d -> Z.testbit (inputs d) ERRORLED_IO = true -> cool d = true ->
  exists u', for_each (seq k n) (fun _ => led_turn) u = Done tt u' /\
    touched (s_fiu (m_sys u)) (s_fiu (m_sys u')) /\ (exists d', expander u' d') /\
    g_Error (m_sys u') = g_Error (m_sys u) /\ s_host (m_sys u') = s_host (m_sys u) /\
    level (events u') LED_MCU = xorb (Nat.odd n) (level (events u) LED_MCU).
Proof.
  induction n as [|n IH]; intros k u d Hx Hlamp Hc.
  { exists u. split_and!; try done; [|by exists d].
    exists []. split; [constructor|]. unfold did. by destruct (s_fiu (m_sys u)). }
  pose proof (led_turn_run u d Hx Hlamp) as Ht. rewrite Hc in Ht.
  destruct Ht as (d1 & t1 & E1 & Hr1 & Hl1 & Hi1). cbn [seq for_each].
  rewrite (bind_Done _ _ _ _ _ E1). set (u1 := with_bus _ _).
  destruct (IH (S k) u1 d1) as (u' & E & Hs & Hx' & He & Hh & Hlev).
  - by apply expander_with.
  - congruence.
  - unfold cool, port. by rewrite Hl1, Hi1.
  - exists u'. split_and!; try done.
    + eapply touched_trans; [|exact Hs]. by apply touched_did.
    + change (level (events u1) LED_MCU) with (negb (level (events u) LED_MCU)) in Hlev.
      rewrite Hlev, Nat.odd_succ, <- Nat.negb_odd. generalize (level (events u) LED_MCU) as b.
      by destruct (Nat.odd n), b.
Qed.
(** Lighting the lamp of the unit does not change what the temperature pins say. *)
Lemma lamp_keeps_cool d d1 :
  inputs d1 = inputs d ->
  (forall i, 0 <= i < 8 -> Z.testbit (latch d1) i =
    if bool_decide (i = RUNLED_IO) then negb (1 =? 0) else Z.testbit (port d) i) ->
  cool d1 = cool d.
Proof.
  intros Hi1 Hl1. unfold cool, port. rewrite !Z.land_spec, !Hl1, Hi1 by done.
  rewrite !bool_decide_eq_false_2 by done. unfold port. rewrite !Z.land_spec.
  by destruct (Z.testbit (latch d) TEMP1_IO), (Z.testbit (inputs d) TEMP1_IO),
    (Z.testbit (latch d) TEMP2_IO), (Z.testbit (inputs d) TEMP2_IO).
Qed.

(** The task, any number of turns. *)
Lemma led_task_run u d n :
  expander u d -> Z.testbit (inputs d) ERRORLED_IO = true ->
  if cool d then exists u', led_task n u = Done tt u' /\
    touched (s_fiu (m_sys u)) (s_fiu (m_sys u')) /\ (exists d', expander u' d') /\
    g_Error (m_sys u') = g_Error (m_sys u) /\ s_host (m_sys u') = s_host (m_sys u) /\
    level (events u') LED_MCU = xorb (Nat.odd n) (level (events u) LED_MCU)
  else n <> 0%nat -> exists u', led_task n u = Halted ErrorLoop u' /\
    touched (s_fiu (m_sys u)) (s_fiu (m_sys u')) /\ g_Error (m_sys u') = 1 /\
    s_host (m_sys u') = s_host (m_sys u) /\
    level (events u') protect_relay = false /\ level (events u') buzzer = true.
Proof.
  intros Hx Hlamp. destruct (bus_write u d RUNLED_IO 1 Hx ltac:(done)) as (d1 & t1 & E1 & Hr1 & Hi1 & Hl1).
  pose proof (lamp_keeps_cool d d1 Hi1 Hl1) as Hc.
  unfold led_task. rewrite (bind_Done _ _ _ _ _ E1). set (u1 := with_bus u (idle d1 t1)).
  pose proof (expander_with u d1 t1 Hr1 : expander u1 d1) as Hx1. rewrite <- Hi1 in Hlamp.
  rewrite <- Hc. destruct (cool d1) eqn:E.
  - exact (led_turns_run n 0 u1 d1 Hx1 Hlamp E).
  - intros Hn. destruct n as [|n]; [done|]. pose proof (led_turn_run u1 d1 Hx1 Hlamp) as Ht.
    rewrite E in Ht. destruct Ht as (u' & E' & H). exists u'. split; [|exact H].
    cbn [seq for_each]. by rewrite (bind_Halted _ _ _ _ _ E').
Qed.

(** Between two turns the other tasks run, whatever they do away from this bus, and the
    outside moves the inputs of the expander; it does not pull the pin of the error
    lamp. *)
Definition outside_moves (u u' : firmware hw i2c) : Prop :=
  exists d t d' t', m_bus u = idle d t /\ m_bus u' = idle d' t' /\
    ready d' /\ latch d' = latch d /\ Z.testbit (inputs d') ERRORLED_IO = true.

(** The lamp task, started in [u], is between two turns in [u'].  The network task
    writes pins of the expander too, after a software reset (main.c, line 263); nothing
    keeps it out of a transaction of this task, which is not modelled. *)
Inductive watching (u : firmware hw i2c) : firmware hw i2c -> Prop :=
  | watch_start u1 : led_task 0 u = Done tt u1 -> watching u u1
  | watch_outside u1 u2 : watching u u1 -> outside_moves u1 u2 -> watching u u2
  | watch_write u1 u2 bit sta : watching u u1 -> 0 <= bit < 8 ->
      zoom m_bus (PCF8574_WriteBit bit sta) u1 = Done tt u2 -> watching u u2
  | watch_turn u1 u2 : watching u u1 -> led_turn u1 = Done tt u2 -> watching u u2.

(** The task is its start and the turns, one after the other. *)
Lemma bind_Done_inv {S A B} (m : M S A) (k : A -> M S B) s b s' :
  (m ≫= k) s = Done b s' -> exists a s1, m s = Done a s1 /\ k a s1 = Done b s'.
Proof. unfold mbind, M_bind. destruct (m s) as [a s1|f|h s1]; [|done..]. by exists a, s1. Qed.

Lemma bind_skip {S} (m : M S unit) s : (m ;; skip) s = m s.
Proof. unfold mbind, M_bind. by destruct (m s) as [[] s1|f|h s1]. Qed.

Lemma led_task_start u : led_task 0 u = zoom m_bus (PCF8574_WriteBit RUNLED_IO 1) u.
Proof. exact (bind_skip _ u). Qed.

Lemma for_each_turns {S} (m turn : M S unit) n s :
  (m ;; for_each (seq 0 (Datatypes.S n)) (fun _ => turn)) s = ((m ;; for_each (seq 0 n) (fun _ => turn)) ;; turn) s.
Proof.
  rewrite bind_bind. unfold mbind, M_bind. destruct (m s) as [[] s1|f|h s1]; [|done..].
  rewrite seq_S, for_each_app. unfold mbind, M_bind.
  destruct (for_each _ _ s1) as [[] s2|f|h s2]; [|done..]. cbn. unfold mbind, M_bind.
  by destruct (turn s2) as [[] s3|f|h s3].
Qed.

Lemma led_task_S n u : led_task (S n) u = (led_task n ;; led_turn) u.
Proof. unfold led_task. apply (for_each_turns (zoom m_bus (PCF8574_WriteBit RUNLED_IO 1)) led_turn n u). Qed.

Lemma led_task_watching n u u' : led_task n u = Done tt u' -> watching u u'.
Proof.
  revert u'. induction n as [|n IH]; intros u' E; [by apply watch_start|].
  rewrite led_task_S in E. apply bind_Done_inv in E as ([] & u1 & E1 & E2).
  exact (watch_turn u u1 u' (IH u1 E1) E2).
Qed.

Lemma watching_expander u d u' :
  expander u d -> Z.testbit (inputs d) ERRORLED_IO = true -> watching u u' ->
  exists d', expander u' d' /\ Z.testbit (inputs d') ERRORLED_IO = true.
Proof.
  intros Hx Hlamp. induction 1 as [u1 E|u1 u2 _ IH (d1 & t1 & d2 & t2 & _ & Hb & Hr & _ & Hl)
    |u1 u2 bit sta _ (d1 & Hx1 & Hl1) Hbit E|u1 u2 _ (d1 & Hx1 & Hl1) E].
  - destruct (bus_write u d RUNLED_IO 1 Hx ltac:(done)) as (d1 & t1 & E1 & Hr1 & Hi1 & _).
    rewrite led_task_start, E1 in E. injection E as <-. exists d1. split; [by apply expander_with|congruence].
  - exists d2. split; [by exists t2|done].
  - destruct (bus_write u1 d1 bit sta Hx1 Hbit) as (d2 & t2 & E2 & Hr2 & Hi2 & _).
    rewrite E in E2. injection E2 as ->. exists d2. split; [by apply expander_with|congruence].
  - pose proof (led_turn_run u1 d1 Hx1 Hl1) as Ht. destruct (cool d1).
    + destruct Ht as (d2 & t2 & E2 & Hr2 & _ & Hi2). rewrite E in E2. injection E2 as ->.
      exists d2. split; [by apply expander_with|congruence].
    + destruct Ht as (u3 & E2 & _). by rewrite E in E2.
Qed.

(** C10: the lamp task looks at the temperatures in every turn.  It starts on an idle
    bus with the expander on it and is turns one after the other; between them the
    other tasks do what they do and the inputs of the expander move.  Whatever turns
    have passed, the next one follows the pins as they are then: if no temperature pin
    reads low it toggles the lamp of the processor board, and touches neither the
    fault the board shows nor the state of the messages; if one reads low it ends in
    [Error_loop], with the error number set, the protection relay off and the buzzer
    on; the relays of the fault keep their state. *)
Theorem led_task_watches u d u1 :
  expander u d -> Z.testbit (inputs d) ERRORLED_IO = true -> watching u u1 ->
  (forall n, led_task (S n) u = (led_task n ;; led_turn) u) /\
  exists d1, expander u1 d1 /\
  if cool d1 then exists u2, led_turn u1 = Done tt u2 /\
    same_board (s_fiu (m_sys u1)) (s_fiu (m_sys u2)) /\
    g_Error (m_sys u2) = g_Error (m_sys u1) /\ s_host (m_sys u2) = s_host (m_sys u1) /\
    level (events u2) LED_MCU = negb (level (events u1) LED_MCU)
  else exists u2, led_turn u1 = Halted ErrorLoop u2 /\
    same_board (s_fiu (m_sys u1)) (s_fiu (m_sys u2)) /\ g_Error (m_sys u2) = 1 /\
    s_host (m_sys u2) = s_host (m_sys u1) /\
    level (events u2) protect_relay = false /\ level (events u2) buzzer = true.
Proof.
  intros Hx Hlamp Hw. destruct (watching_expander u d u1 Hx Hlamp Hw) as (d1 & Hx1 & Hl1).
  split; [intros n; apply led_task_S|].
  exists d1. split; [done|]. pose proof (led_turn_run u1 d1 Hx1 Hl1) as H. destruct (cool d1).
  - destruct H as (d2 & t2 & E & _). eexists. split; [exact E|].
    split_and!; [by apply touched_board, touched_did|done..].
  - destruct H as (u2 & E & Ht & H). exists u2. split; [exact E|]. split; [by apply touched_board|exact H].
Qed.

(** A unit that is not too warm gets through its first turn. *)
Lemma first_turn u d :
  expander u d -> Z.testbit (inputs d) ERRORLED_IO = true -> cool d = true ->
  exists u1 d1 t1, watching u u1 /\ m_bus u1 = idle d1 t1 /\ ready d1.
Proof.
  intros Hx Hlamp Hc.
  destruct (bus_write u d RUNLED_IO 1 Hx ltac:(done)) as (d1 & t1 & E1 & Hr1 & Hi1 & Hl1).
  pose proof (led_turn_run _ d1 (expander_with u d1 t1 Hr1)) as Ht.
  rewrite (lamp_keeps_cool d d1 Hi1 Hl1), Hc, Hi1 in Ht. destruct (Ht Hlamp) as (d2 & t2 & E2 & Hr2 & _).
  eexists _, d2, t2. split; [|split; [|exact Hr2]].
  - eapply watch_turn; [apply watch_start; by rewrite led_task_start|exact E2].
  - reflexivity.
Qed.

Lemma inputs_move u u1 d1 t1 d2 :
  watching u u1 -> m_bus u1 = idle d1 t1 -> ready d2 -> latch d2 = latch d1 ->
  Z.testbit (inputs d2) ERRORLED_IO = true -> watching u (with_bus u1 (idle d2 t1)).
Proof.
  intros Hw Hb Hr Hl Hi. eapply watch_outside; [exact Hw|].
  exists d1, t1, d2, t1. by split_and!.
Qed.

Lemma expander_is u d t d2 : expander (with_bus u (idle d t)) d2 -> d2 = d.
Proof. intros (t2 & Hb & _). unfold with_bus in Hb. cbn in Hb. by injection Hb as ->. Qed.

Lemma low_is_warm d : Z.testbit (inputs d) TEMP1_IO = false -> cool d = false.
Proof. intros H. unfold cool, port. by rewrite !Z.land_spec, H, andb_false_r. Qed.

(** ** After the alarm *)

(** The alarm does not reach the relay driver. After the lamp task has found an
    over-temperature and raised the alarm, the other tasks go on: a start message
    is answered with the error number, and still closes the relays of the fault
    that was set up before, with its timer. *)
Theorem alarm_does_not_stop_start u d n f time wm :
  expander u d -> Z.testbit (inputs d) ERRORLED_IO = true -> cool d = false -> n <> 0%nat ->
  DispatchSpec.ready f time wm (m_sys u) -> frame_bytes f -> 0 <= byte f 2 < 4 ->
  (byte f 2 = 2 -> byte f 12 < 6 \/ byte f 12 = 7) -> 0 <= wm <= 16 ->
  g_bLoose (s_host (m_sys u)) <> 1 ->
  exists u' s', led_task n u = Halted ErrorLoop u' /\
    HostCanDataAnalysisNoLoopBuf (start_message wm) (m_sys u') = Done [0x10; wm; 1; 0; 0; 0; 0; 0] s' /\
    shows f (s_fiu s') /\ times time (tr (s_fiu s')).
Proof.
  intros Hx Hlamp Hc Hn [[Hh Hf He Hw] Hfr Ht] Hfb Hk2 Hk Hwm Hl.
  pose proof (led_task_run u d n Hx Hlamp) as H. rewrite Hc in H.
  destruct (H Hn) as (u' & E & (es & _ & Hes) & He' & Hh' & _).
  destruct (start_message_any f wm (m_sys u')) as (s' & E' & Hs & _ & _ & _ & Htm & _); try done.
  - by rewrite Hh'.
  - rewrite Hes. by destruct Hf.
  - by rewrite Hh'.
  - by rewrite Hes.
  - by rewrite Hh'.
  - rewrite He' in E'. rewrite Hh', Ht in Htm. by exists u', s'.
Qed.
End watch.

(** ** Power-up *)
Section power_up.
Context {hw : FlashHW} {outside : Board} {i2c : I2CDevice} {laws : PCF8574Laws}.

(** The globals before [main], the pins as the reset leaves them: a flash with
    anything in it, pools not ready, an expander [d]. *)
Definition power_up (flash : @mem hw) (pools : Malloc.dev) (d : dev) : firmware hw i2c :=
  Firmware (Sys host_boot fiu_boot flash settings_boot ring_boot 0) (net_boot pools) (bus_reset d 0)
    None [] None false 0 (replicate 200 0) 0.

(** The edge the expander sees when the pins become outputs. *)
Definition woken (d : dev) : dev := dev_step d (Rise (dev_sda d)).

Record initialised flash d (u : firmware hw i2c) : Prop := {
  in_sys : exists f, m_sys u = Sys host_ready f flash settings_boot ring_boot 0 /\
    board (replicate 17 0) (fun _ => false) [] 0 f /\
    level (tr f) protect_relay = true /\ level (tr f) buzzer = false;
  in_bus : exists d', expander u d' /\ latch d' = 0xFF /\ inputs d' = inputs (woken d);
  in_pool : pool SRAMIN 1600 ∅ (n_pools (m_net u));
  in_tasks : m_tasks u = [];
}.

Lemma pools_init n :
  dev_ok (n_pools n) ->
  exists d, (zoom n_pools (my_mem_init SRAMIN) ;; zoom n_pools (my_mem_init SRAMEX) ;;
    zoom n_pools (my_mem_init SRAMCCM)) n = Done tt (n <| n_pools := d |>) /\ pool SRAMIN 1600 ∅ d.
Proof.
  intros Hok.
  assert (exists N, index memtblsize SRAMEX = Some (Z.of_nat N)) as [N HN]
    by (exists (Z.to_nat 462592); by rewrite Z2Nat.id).
  destruct (init_keeps (n_pools n) SRAMIN 1600 Hok eq_refl) as (d1 & E1 & Hok1 & HP1 & _).
  destruct (init_keeps d1 SRAMEX N Hok1 HN) as (d2 & E2 & Hok2 & _ & HP2).
  destruct (init_keeps d2 SRAMCCM 960 Hok2 ltac:(by vm_compute)) as (d3 & E3 & _ & _ & HP3).
  exists d3. split; [|apply HP3; [done|]; by apply HP2].
  rewrite (bind_Done _ _ _ _ _ (zoom_Done n_pools _ n _ _ E1)).
  set (n1 := n <| n_pools := d1 |>). change d1 with (n_pools n1) in E2.
  rewrite (bind_Done _ _ _ _ _ (zoom_Done n_pools _ n1 _ _ E2)).
  set (n2 := n1 <| n_pools := d2 |>). change d2 with (n_pools n2) in E3.
  by rewrite (zoom_Done n_pools _ n2 _ _ E3).
Qed.

Lemma init_devices_run flash pools d :
  dev_ok pools -> ready (woken d) ->
  exists u, init_devices (power_up flash pools d) = Done tt u /\ initialised flash d u.
Proof.
  intros Hpools Hready.
  destruct (proj1 (wp_Done _ _ _) LED_Init_starts_at_rest) as ([] & f & Ef & Hb & _ & Hp & Hz & _).
  destruct (expander_init_run d 0 Hready) as (d' & t' & Ed & Hr & Hl & Hi).
  destruct (pools_init (net_boot pools) Hpools) as (pl & En & HP).
  set (f' := did [EvPrint "FIU MCU"] f).
  exists (Firmware (Sys host_ready f' flash settings_boot ring_boot 0)
    ((net_boot pools) <| n_pools := pl |>) (idle d' t') None [] None false 0 (replicate 200 0) 0).
  split.
  - unfold init_devices, power_up.
    erewrite bind_Done by (apply zoom_Done; unfold in_host; apply zoom_Done; exact host_ready_init).
    erewrite bind_Done by (apply zoom_Done; unfold in_fiu; apply zoom_Done; exact Ef).
    erewrite bind_Done by (apply zoom_Done; exact Ed).
    erewrite bind_Done by (apply zoom_Done; exact En). done.
  - constructor; [|by exists d'; split_and!; [by exists t'|..]|exact HP|done].
    exists f'. split_and!; [done| |done|done]. by apply board_did; [apply main_writes|].
Qed.

Lemma emit_all_firmware es (u : firmware hw i2c) :
  emit_all es u = with_fiu u (did (rev es) (s_fiu (m_sys u))).
Proof.
  revert u. induction es as [|e es IH]; intros u; [by destruct u as [[? [] ] ]|].
  change (emit_all (e :: es) u) with (emit_all es (emit_event e u)). rewrite IH.
  unfold did. cbn [rev]. rewrite <- fiu_app_app. done.
Qed.

(** ** The settings, the CAN controller and the network *)
Lemma IpModifiedCheck_returns (m : @mem hw) st : exists st', IpModifiedCheck m st = Done tt st'.
Proof.
  unfold IpModifiedCheck, mbind, M_bind, gets, put, modify, skip, mret, M_ret.
  destruct (g_IpAllModified _ =? 1); by eexists.
Qed.

Lemma CanModifiedCheck_returns (m : @mem hw) st : exists st', CanModifiedCheck m st = Done tt st'.
Proof.
  unfold CanModifiedCheck, mbind, M_bind, gets, put, modify, skip, mret, M_ret.
  repeat case_match; simplify_eq; by eexists.
Qed.

(** The settings read back from the flash. *)
Definition loaded (flash : @mem hw) (st : settings) : Prop :=
  (CanModifiedCheck flash ;; IpModifiedCheck flash) settings_boot = Done tt st.

(** What [main] hands over to the kernel. *)
Record running flash (u : firmware hw i2c) : Prop := {
  run_session t : session t [] 0 (m_sys u);
  run_loose : g_bLoose (s_host (m_sys u)) = 0;
  run_flash : s_flash (m_sys u) = flash;
  run_set : loaded flash (s_set (m_sys u));
  run_ring : s_ring (m_sys u) = ring_boot;
  run_rest : at_rest (s_fiu (m_sys u));
  run_pins : level (events u) protect_relay = true /\ level (events u) buzzer = false;
  run_bus : exists d', expander u d' /\ latch d' = 0xFF;
  run_tasks : m_tasks u = [(START_TASK_PRIO, true)];
}.

(** What an unsafe unit is left in: no task, no relay, the alarm on. *)
Record refused flash (u : firmware hw i2c) : Prop := {
  ref_rest : at_rest (s_fiu (m_sys u));
  ref_error : g_Error (m_sys u) = 1;
  ref_pins : level (events u) protect_relay = false /\ level (events u) buzzer = true;
  ref_flash : s_flash (m_sys u) = flash;
  ref_lamps : exists d', expander u d' /\
    Z.testbit (latch d') ERRORLED_IO = true /\ Z.testbit (latch d') RUNLED_IO = false;
  ref_tasks : m_tasks u = [];
}.

Lemma init_ports_run env B (u : firmware hw i2c) :
  placed (mem1base_of env) -> is_u32 (mempsize_of env) ->
  pool SRAMIN 1600 B (n_pools (m_net u)) -> s_set (m_sys u) = settings_boot ->
  exists st text c n, loaded (s_flash (m_sys u)) st /\
    init_ports env u = Done tt (u <| m_sys := (m_sys u) <| s_set := st |>
      <| s_fiu := did [EvPrint text] (s_fiu (m_sys u)) |> |> <| m_net := n |> <| m_can := c |>).
Proof.
  intros Hpl Hm HP Hset. set (m := s_flash (m_sys u)).
  destruct (CanModifiedCheck_returns m settings_boot) as [st1 E1].
  destruct (IpModifiedCheck_returns m st1) as [st2 E2].
  destruct (EthMemAlloc_run (mem1base_of env) Hpl (mempsize_of env) (mcu_uid env) st2 _ _ _ HP Hm)
    as (r & n & E3).
  exists st2, (if r =? 0 then "Eth Mem Alloc suc ."%string else "Eth Mem Alloc failed ."%string).
  exists (Some (CAN1_Mode_Init 1 6 8 3 0 (can_ok env) (filter_ok env)).1), n.
  split; [by unfold loaded; rewrite (bind_Done _ _ _ _ _ E1)|].
  destruct u as [[h f fl st rg e] nt b c ts ec mp nf data len]. cbn in Hset, m, HP. subst st.
  unfold init_ports. rewrite bind_gets. cbn [m_sys s_flash]. fold m.
  erewrite bind_Done by (apply zoom_Done, zoom_Done; exact E1).
  rewrite bind_put. erewrite bind_Done by (apply zoom_Done, zoom_Done; exact E2).
  rewrite bind_gets. erewrite bind_Done by (apply zoom_Done; exact E3).
  by destruct (r =? 0).
Qed.

(** ** [main] *)

(** A unit that still has everything open. *)
Definition dormant flash (u : firmware hw i2c) : Prop :=
  (exists f, m_sys u = Sys host_ready f flash settings_boot ring_boot 0 /\
    board (replicate 17 0) (fun _ => false) [] 0 f /\
    level (tr f) protect_relay = true /\ level (tr f) buzzer = false) /\ m_tasks u = [].

Lemma refuse_run {A} flash d (u : firmware hw i2c) :
  dormant flash u -> expander u d -> Z.testbit (inputs d) ERRORLED_IO = true ->
  exists u', @Error_loop _ _ A u = Halted ErrorLoop u' /\ refused flash u'.
Proof.
  intros [(f & Hs & Hb & _) Ht] Hx Hlamp.
  destruct (@Error_loop_run _ _ _ A u d Hx Hlamp) as (u' & E & Ha). exists u'. split; [exact E|].
  pose proof (alarmed_board _ _ Ha) as (_ & Hp & Hz). destruct Ha as [Hsys Hl Htasks].
  rewrite Hs in Hsys. constructor; [|by rewrite Hsys|done|by rewrite Hsys|done|congruence].
  rewrite Hsys. eapply board_at_rest. by apply board_did; [apply main_writes|].
Qed.

Lemma dormant_with flash (u : firmware hw i2c) es :
  forallb (fun e => match e with
    | EvPin q _ => bool_decide (q ∈ FUSETEST) | _ => true end) es = true ->
  dormant flash u -> dormant flash (with_fiu u (did es (s_fiu (m_sys u)))).
Proof.
  intros W [(f & Hs & Hb & Hp & Hz) Ht]. split; [|done].
  assert (writes_in FUSETEST es) as Wf.
  { apply Forall_forall. intros e He. rewrite forallb_forall in W. specialize (W e He).
    destruct e; try done. by apply bool_decide_eq_true_1 in W. }
  exists (did es f). unfold with_fiu. rewrite Hs. split_and!; [done| | |].
  - apply board_did; [|done]. eapply writes_in_mono; [|exact Wf]. intros p Hp'.
    change MAIN_PINS with ([LED_MCU; protect_relay; buzzer] ++ FUSETEST).
    apply elem_of_app. by right.
  - rewrite <- Hp. apply (level_writes_in FUSETEST); [done|]. by apply (bool_decide_eq_false_1 _).
  - rewrite <- Hz. apply (level_writes_in FUSETEST); [done|]. by apply (bool_decide_eq_false_1 _).
Qed.

Lemma cool_inputs d d' : latch d = 0xFF -> inputs d = inputs d' ->
  cool d = Z.testbit (inputs d') TEMP1_IO && Z.testbit (inputs d') TEMP2_IO.
Proof. intros Hl Hi. unfold cool, port. by rewrite !Z.land_spec, Hl, Hi. Qed.

Lemma host_ready_session f flash st rg t : fiu_ok f ->
  session (hw := hw) t [] 0 (Sys host_ready f flash st rg 0).
Proof.
  intros Hf. constructor; [|done|done|done|done].
  by apply (configured_ready t (replicate 8 0)); [|apply (bool_decide_eq_true_1 _)].
Qed.

Lemma main_run (intact : Z -> bool) flash pools d env :
  (forall t k test data, index FUSETEST k = Some test -> index FUSEDATA k = Some data ->
    pin_in t data = level t test && intact k) ->
  ready (woken d) -> Z.testbit (inputs (woken d)) ERRORLED_IO = true ->
  dev_ok pools -> placed (mem1base_of env) -> is_u32 (mempsize_of env) ->
  if (blown intact =? 0) && Z.testbit (inputs (woken d)) TEMP1_IO &&
     Z.testbit (inputs (woken d)) TEMP2_IO
  then exists u, main env (power_up flash pools d) = Done tt u /\ running flash u
  else exists u, main env (power_up flash pools d) = Halted ErrorLoop u /\ refused flash u.
Proof.
  intros wiring Hready Hlamp Hpools Hpl Hm.
  destruct (init_devices_run flash pools d Hpools Hready) as (u1 & E1 & [Hs (d1 & Hx & Hl & Hi) HP Ht]).
  pose proof (conj Hs Ht : dormant flash u1) as D1. clear Hs Ht.
  unfold main. rewrite (bind_Done _ _ _ _ _ E1), (bind_Done _ _ _ _ _ (Fuse_check_run intact wiring u1)).
  rewrite emit_all_firmware. set (u2 := with_fiu u1 _).
  assert (dormant flash u2) as D2 by by apply dormant_with.
  assert (expander u2 d1) as Hx2 by exact Hx.
  destruct (Z.eqb_spec (blown intact) 0) as [Hok|Hblown]; cbn [negb andb].
  2: { set (u3 := with_fiu u2 (did [EvPrint "Fuse_check failed = 0x%x ."] (s_fiu (m_sys u2)))).
    destruct (@refuse_run unit flash d1 u3) as (u' & E & Hr).
    - by apply dormant_with.
    - exact Hx.
    - by rewrite Hi.
    - exists u'. split; [|exact Hr]. by etrans; [apply (bind_Done _ _ u2 tt u3)|]. }
  destruct (too_warm_run u2 d1 Hx2) as (d2 & t2 & E2 & Hr2 & Hl2 & Hi2).
  rewrite (bind_Done _ _ _ _ _ E2), (cool_inputs d1 (woken d)) by done.
  set (u3 := with_bus u2 (idle d2 t2)).
  pose proof (D2 : dormant flash u3) as D3. pose proof D3 as [(f & Hs3 & Hb3 & Hp3 & Hz3) Ht3].
  assert (expander u3 d2) as Hx3 by by apply expander_with.
  destruct (_ && _) eqn:Hcool; cbn [negb].
  2: { destruct (@refuse_run unit flash d2 u3 D3 Hx3) as (u' & E & Hr); [congruence|].
    exists u'. by split. }
  destruct (init_ports_run env ∅ u3 Hpl Hm HP) as (st & text & c & n & Hst & E3); [by rewrite Hs3|].
  rewrite (bind_Done _ _ _ _ _ E3). eexists. split; [reflexivity|]. rewrite Hs3 in Hst |- *.
  constructor.
  - intros t. apply host_ready_session. apply (board_ok (replicate 17 0) (fun _ => false) [] 0); [done|].
    apply (board_did _ _ _ _ _ f); [by apply main_writes|exact Hb3].
  - reflexivity.
  - reflexivity.
  - exact Hst.
  - reflexivity.
  - eapply board_at_rest. apply (board_did _ _ _ _ _ f); [by apply main_writes|exact Hb3].
  - split; [exact Hp3|exact Hz3].
  - exists d2. split; [exact Hx3|congruence].
  - by rewrite <- Ht3.
Qed.

(** C2: [main], from the globals of the program image, any flash and any memory. When
    a fuse is blown or a temperature input is low it never starts a task: it ends in
    [Error_loop] with every relay of the board open, the protection relay off, the
    buzzer on and the error number set. Otherwise it hands over to the kernel with
    the first task created, nothing configured, the board at rest behind a closed
    protection relay, and the settings of the flash in use. *)
Theorem main_guards (intact : Z -> bool) flash pools d env :
  (forall t k test data, index FUSETEST k = Some test -> index FUSEDATA k = Some data ->
    pin_in t data = level t test && intact k) ->
  ready (woken d) -> Z.testbit (inputs (woken d)) ERRORLED_IO = true ->
  dev_ok pools -> placed (mem1base_of env) -> is_u32 (mempsize_of env) ->
  if (blown intact =? 0) && Z.testbit (inputs (woken d)) TEMP1_IO &&
     Z.testbit (inputs (woken d)) TEMP2_IO
  then exists u, main env (power_up flash pools d) = Done tt u /\ running flash u
  else exists u, main env (power_up flash pools d) = Halted ErrorLoop u /\ refused flash u.
Proof. exact (main_run intact flash pools d env). Qed.

(** C1: from power-up to the first fault. On a unit with whole fuses and no
    over-temperature, [main] hands over a state in which one datagram with the
    messages for the channels [pins] (at most ten, below 64, no two equal) of a
    compound fault, "done" and "start" makes the board show exactly that fault with
    its timer set, and is answered by the same packet with every message marked as
    a success. *)
Theorem first_fault (intact : Z -> bool) flash pools d env uid t time pins crc :
  (forall t k test data, index FUSETEST k = Some test -> index FUSEDATA k = Some data ->
    pin_in t data = level t test && intact k) ->
  ready (woken d) -> Z.testbit (inputs (woken d)) ERRORLED_IO = true ->
  dev_ok pools -> placed (mem1base_of env) -> is_u32 (mempsize_of env) ->
  blown intact = 0 -> Z.testbit (inputs (woken d)) TEMP1_IO = true ->
  Z.testbit (inputs (woken d)) TEMP2_IO = true ->
  0 <= t <= 4 -> 0 <= time <= 65500 ->
  pins <> [] -> (length pins <= 10)%nat -> NoDup pins -> Forall (fun p => 0 <= p < 64) pins ->
  exists u s', main env (power_up flash pools d) = Done tt u /\ at_rest (s_fiu (m_sys u)) /\
    udp_echoserver_receive_callback uid (packet 6 (concat (fault_messages 0 t time pins)) crc)
      (m_sys u) =
    Done tt (emit_event (EvUdpTx (packet 6 (concat (fault_answers 0 time pins)) crc)) s') /\
    shows_fault t pins (s_fiu s') /\ times time (tr (s_fiu s')).
Proof.
  intros wiring Hready Hlamp Hpools Hpl Hm Hok H1 H2 Ht Htime Hne Hlen Hnd Hp.
  pose proof (main_run intact flash pools d env wiring Hready Hlamp Hpools Hpl Hm) as H.
  rewrite Hok, H1, H2 in H. destruct H as (u & E & Hrun).
  destruct (proj1 (wp_Done _ _ _) (fault_run 0 t time pins (m_sys u) (run_session _ _ Hrun t)
    ltac:(by rewrite (run_loose _ _ Hrun)) ltac:(lia) Ht Htime Hne Hnd Hp))
    as (rs & s' & Ec & -> & Hsh & _ & _ & Htm).
  exists u, s'. split; [exact E|]. split; [by apply (run_rest _ _ Hrun)|]. split; [|exact (conj Hsh Htm)].
  assert (Forall (fun m => length m = 8%nat) (fault_messages 0 t time pins)) as H8.
  { apply Forall_app. split; [|by repeat constructor]. apply Forall_fmap.
    by apply Forall_true. }
  pose proof (datagram_run uid _ _ crc [] (m_sys u) s' H8 Ec) as Hd. rewrite !app_nil_r in Hd.
  apply Hd. rewrite packet_length, concat_length by done. unfold fault_messages.
  rewrite length_app, length_fmap. simpl. lia.
Qed.
End power_up.

(** ** Witnesses *)
Definition env_ok : boot_env := BootEnv 0x20000000 20000 [1; 2; 3] true true.
Definition cold : @dev pcf_device := Pcf Off 0xFF 0xFF.

Lemma woken_ready (i : Z) : ready (woken (Pcf Off 0xFF i : @dev pcf_device)).
Proof. split; [reflexivity|]. unfold in_width. simpl. lia. Qed.

Lemma main_guards_witness :
  exists u, main (outside := wired (fun _ => true)) env_ok (power_up fresh_flash ccm_boot hot) =
      Halted ErrorLoop u /\ refused fresh_flash u.
Proof.
  pose proof (main_guards (outside := wired (fun _ => true)) (fun _ => true) fresh_flash ccm_boot hot env_ok
    (wired_fuses _) (woken_ready 0xFE) eq_refl ccm_boot_ok ram_placed ltac:(by apply (bool_decide_eq_true_1 _)))
    as H.
  assert ((blown (fun _ => true) =? 0) && Z.testbit (inputs (woken hot)) TEMP1_IO &&
    Z.testbit (inputs (woken hot)) TEMP2_IO = false) as C by reflexivity.
  rewrite C in H. exact H.
Defined.

Lemma first_fault_witness :
  exists u s', main (outside := wired (fun _ => true)) env_ok (power_up fresh_flash ccm_boot cold) =
      Done tt u /\ at_rest (s_fiu (m_sys u)) /\
    udp_echoserver_receive_callback (outside := wired (fun _ => true)) []
      (packet 6 (concat (fault_messages 0 1 500 [3; 40])) 0) (m_sys u) =
    Done tt (emit_event (EvUdpTx (packet 6 (concat (fault_answers 0 500 [3; 40])) 0)) s') /\
    shows_fault 1 [3; 40] (s_fiu s') /\ times 500 (tr (s_fiu s')).
Proof.
  apply (first_fault (outside := wired (fun _ => true)) (fun _ => true) fresh_flash ccm_boot cold env_ok
    [] 1 500 [3; 40] 0 (wired_fuses _) (woken_ready 0xFF) eq_refl ccm_boot_ok ram_placed).
  - by apply (bool_decide_eq_true_1 _).
  - reflexivity.
  - reflexivity.
  - reflexivity.
  - lia.
  - lia.
  - discriminate.
  - simpl. lia.
  - by apply (bool_decide_eq_true_1 _).
  - by apply (bool_decide_eq_true_1 _).
Defined.

(** A running unit whose first temperature input is at its alarm level, a fault set
    up. *)
Definition unit_hot : firmware word_flash pcf_device :=
  Firmware (unit_boot <| s_fiu := boot_with frame_short |>) (net_boot ccm_boot) (idle hot 0)
    None [] None false 0 (replicate 200 0) 0.

Lemma hot_expander : expander unit_hot hot.
Proof. exists 0. split; [reflexivity|apply hot_ready]. Qed.

(** The same unit, not yet hot. *)
Definition cooler : @dev pcf_device := Pcf Off 0xFF 0xFF.

Lemma cooler_ready : ready cooler.
Proof. split; [reflexivity|]. unfold in_width. simpl. lia. Qed.

Definition unit_cool : firmware word_flash pcf_device := with_bus unit_hot (idle cooler 0).

Lemma cool_expander : expander unit_cool cooler.
Proof. exists 0. split; [reflexivity|apply cooler_ready]. Qed.

(** A turn of the cool unit, then the first input goes low. *)
Lemma cool_turn :
  exists u1 d1 t1, watching unit_cool u1 /\ m_bus u1 = idle d1 t1 /\ ready d1 /\
    watching unit_cool (with_bus u1 (idle (Pcf Off (latch d1) 0xFE) t1)).
Proof.
  destruct (first_turn unit_cool cooler cool_expander eq_refl eq_refl)
    as (u1 & d1 & t1 & Hw & Hb & Hr). exists u1, d1, t1.
  split; [exact Hw|]. split; [exact Hb|]. split; [exact Hr|].
  apply (inputs_move unit_cool u1 d1 t1 (Pcf Off (latch d1) 0xFE) Hw Hb); [|reflexivity..].
  split; [reflexivity|]. exact (latch_u8 d1 Hr).
Qed.

Lemma led_task_watches_witness :
  exists u1 u2, watching unit_cool u1 /\ led_turn u1 = Halted ErrorLoop u2 /\
    g_Error (m_sys u2) = 1 /\ level (events u2) protect_relay = false.
Proof.
  destruct cool_turn as (u1 & d1 & t1 & _ & _ & _ & Hw).
  destruct (led_task_watches unit_cool cooler _ cool_expander eq_refl Hw) as (_ & d2 & Hx2 & H).
  assert (cool d2 = false) as Hc by by rewrite (expander_is _ _ _ _ Hx2); apply low_is_warm.
  rewrite Hc in H.
  destruct H as (u2 & E & _ & He & _ & Hp & _).
  eexists _, u2.
  split; [exact Hw|split; [exact E|split; [exact He|exact Hp]]].
Defined.

Lemma alarm_does_not_stop_start_witness :
  exists u' s', led_task 3 unit_hot = Halted ErrorLoop u' /\
    HostCanDataAnalysisNoLoopBuf (outside := quiet_board) (start_message 0) (m_sys u') =
      Done [0x10; 0; 1; 0; 0; 0; 0; 0] s' /\
    shows frame_short (s_fiu s') /\ times 0 (tr (s_fiu s')).
Proof.
  apply (alarm_does_not_stop_start (outside := quiet_board) unit_hot hot 3 frame_short 0 0 hot_expander eq_refl).
  - reflexivity.
  - discriminate.
  - constructor; [|reflexivity|reflexivity]. destruct unit_boot_ok. constructor; [done| |done|done].
    by apply boot_with_ok.
  - by apply frame_bytes_intro.
  - by vm_compute.
  - by vm_compute.
  - lia.
  - discriminate.
Defined.
