(* ===== verification/CanRace.v ===== *)
(** * The ring of CAN messages under interrupts

    [HAL_CAN_RxCpltCallback] of src/HARDWARE/CAN/can.c runs between any two steps of
    [HostCanDataAnalysis] of src/HARDWARE/Fiu/FiuHostDataAnalysis.c: the test of the
    cursors (line 620), the eight bytes of the [memcpy] (line 623), the commands, and
    the two statements that advance the cursor (lines 870 and 871). No lock protects
    the ring: it works because each side writes its own cursor only, and the slot
    being read is not free - until a message is stored with 24 waiting, which the
    test of the interrupt lets through ([Can.full_test]).  The interrupt may come at
    any moment; what it does then is what [HAL_CAN_RxCpltCallback] does, and the ghost
    [rc_over] remembers that it overran. *)
From Stdlib Require Import ZArith Lia.
From stdpp Require Import base tactics decidable list list_numbers numbers relations.
From S2P Require Import Prelude Board Relay RelaySpec Frames Io HostConfig HostConfigSpec Flash FlashSpec Can Timers Dispatch DispatchSpec Sessions CanSessions.
Open Scope Z_scope.
Open Scope c_scope.

(** Where the task is. *)
Inductive place :=
  | Idle
  | Copy (got : list Z)   (** inside the [memcpy], these bytes copied *)
  | Handle (m : list Z)   (** running the commands of the message [m] *)
  | Wrap.                 (** between [g_DealDataCur += 8] and the [%=] *)

#[export] Instance place_eq_dec : EqDecision place.
Proof. solve_decision. Defined.

Record race := Race {
  rc_ring : ring;
  rc_at : place;
  rc_in : list (list Z);    (** messages the interrupt stored, oldest first *)
  rc_out : list (list Z);   (** messages the task has finished *)
  rc_over : bool;           (** a message was stored with 24 waiting *)
}.

Definition race_boot : race := Race ring_boot Idle [] [] false.

(** The ring once the cursor is wrapped. *)
Definition wrapped (r : ring) : ring := r <| g_DealDataCur := g_DealDataCur r mod 200 |>.

(** [g_DealDataCur += 8;] and [g_DealDataCur %= CANBUFDATALEN;] *)
Definition deal_add : M ring unit := cur ← gets g_DealDataCur; g_DealDataCur ::= u16 (cur + 8).
Definition deal_mod : M ring unit :=
  cur ← gets g_DealDataCur; g_DealDataCur ::= u16 (cur mod CANBUFDATALEN).

(** The steps of the task. *)
Inductive task_step : race -> race -> Prop :=
  | step_check r i o ov :
      g_IntrDataCur r <> g_DealDataCur r ->
      task_step (Race r Idle i o ov) (Race r (Copy []) i o ov)
  | step_copy r got b i o ov :
      (length got < 8)%nat ->
      index (g_HOSTCANDATABUF r) (g_DealDataCur r + Z.of_nat (length got)) = Some b ->
      task_step (Race r (Copy got) i o ov) (Race r (Copy (got ++ [b])) i o ov)
  | step_copied r got i o ov :
      length got = 8%nat ->
      task_step (Race r (Copy got) i o ov) (Race r (Handle got) i o ov)
  | step_add r r' m i o ov :
      deal_add r = Done tt r' ->
      task_step (Race r (Handle m) i o ov) (Race r' Wrap i (o ++ [m]) ov)
  | step_mod r r' i o ov :
      deal_mod r = Done tt r' ->
      task_step (Race r Wrap i o ov) (Race r' Idle i o ov).

(** The interrupt stored its message: its cursor moved. *)
Definition stored (r r' : ring) : bool := negb (g_IntrDataCur r' =? g_IntrDataCur r).

(** A message of eight bytes arrives, at any moment and for any unit. *)
Inductive step (local : Z) : race -> race -> Prop :=
  | step_task s s' : task_step s s' -> step local s s'
  | step_interrupt r r' p i o ov ext data :
      length data = 8%nat ->
      HAL_CAN_RxCpltCallback local ext data r = Done tt r' ->
      step local (Race r p i o ov) (Race r' p
        (if stored r r' then i ++ [data] else i) o
        (ov || stored r r' && (pending (wrapped r) =? 24)%nat)).

(** ** The invariant *)

(** What holds as long as no message was stored with 24 waiting. *)
Definition in_order (s : race) : Prop :=
  rc_in s = rc_out s ++ queue (wrapped (rc_ring s)) /\
  match rc_at s with
  | Copy got => exists m q, queue (rc_ring s) = m :: q /\ got = take (length got) m
  | Handle m => exists q, queue (rc_ring s) = m :: q
  | _ => True
  end.

Record race_ok (s : race) : Prop := {
  ra_ring : ring_ok (wrapped (rc_ring s));
  ra_deal : if decide (rc_at s = Wrap)
    then 8 <= g_DealDataCur (rc_ring s) <= 200 else 0 <= g_DealDataCur (rc_ring s) < 200;
  ra_got : match rc_at s with Copy got => (length got <= 8)%nat | _ => True end;
  ra_order : rc_over s = false -> in_order s;
}.

Lemma wrapped_id r : 0 <= g_DealDataCur r < 200 -> wrapped r = r.
Proof. intros H. unfold wrapped. rewrite Z.mod_small by lia. apply upd_same. Qed.

Lemma race_boot_ok : race_ok race_boot.
Proof. repeat (constructor; try done). Qed.

(** ** What each step keeps *)
Lemma queue_some r : ring_ok r -> g_IntrDataCur r <> g_DealDataCur r -> exists m q, queue r = m :: q.
Proof.
  intros Hok Hne. pose proof (pending_spec r Hok) as (_ & _ & Hz & _). unfold queue.
  destruct (pending r) as [|n]; [by destruct Hne; apply Hz|]. by eexists _, _.
Qed.

Lemma queue_head r m q :
  queue r = m :: q -> m = take 8 (drop (Z.to_nat (g_DealDataCur r)) (g_HOSTCANDATABUF r)).
Proof. unfold queue. destruct (pending r); [done|]. by intros [= <- _]. Qed.

Lemma copy_next r got b m q :
  0 <= g_DealDataCur r -> queue r = m :: q -> got = take (length got) m -> (length got < 8)%nat ->
  index (g_HOSTCANDATABUF r) (g_DealDataCur r + Z.of_nat (length got)) = Some b ->
  got ++ [b] = take (length (got ++ [b])) m.
Proof.
  intros Hd Hq Hg Hl [_ Hb]%index_Some. rewrite length_app, Nat.add_1_r.
  rewrite (take_S_r _ _ b); [by rewrite <- Hg|]. rewrite (queue_head _ _ _ Hq).
  rewrite lookup_take_lt, lookup_drop by lia. rewrite <- Hb. f_equal. lia.
Qed.

(** The two statements, seen through [wrapped], are [ring_advance]. *)
Lemma add_ring r r' :
  ring_ok r -> deal_add r = Done tt r' ->
  ring_ok (wrapped r') /\ 8 <= g_DealDataCur r' <= 200 /\ ring_advance r = Done tt (wrapped r').
Proof.
  intros [Hlen [Hd Hd8] Hi] E. unfold deal_add in E. rewrite bind_gets in E. injection E as <-.
  assert (g_DealDataCur r <= 192) by (Z.to_euclidean_division_equations; lia).
  unfold ring_advance. rewrite bind_gets. unfold wrapped. rewrite upd_get, upd_upd.
  unfold u16. change CANBUFDATALEN with 200. rewrite (Z.mod_small (g_DealDataCur r + 8)) by lia.
  pose proof (Z.mod_pos_bound (g_DealDataCur r + 8) 200 ltac:(lia)).
  rewrite (Z.mod_small ((_ + 8) mod 200)) by lia. split_and!; [|lia..|done].
  constructor; [done| |done]. by apply cursor_next.
Qed.

Lemma add_run r m q r' :
  ring_ok r -> queue r = m :: q -> deal_add r = Done tt r' -> queue (wrapped r') = q.
Proof.
  intros Hok Hq E. destruct (ring_pop r m q Hok Hq) as (r2 & _ & E2 & _ & Hq2 & _).
  destruct (add_ring r r' Hok E) as (_ & _ & E3). rewrite E2 in E3. by injection E3 as <-.
Qed.

Lemma mod_run r r' :
  8 <= g_DealDataCur r <= 200 -> deal_mod r = Done tt r' ->
  wrapped r' = wrapped r /\ 0 <= g_DealDataCur r' < 200.
Proof.
  intros Hd E. unfold deal_mod in E. rewrite bind_gets in E. injection E as <-.
  unfold u16. change CANBUFDATALEN with 200.
  pose proof (Z.mod_pos_bound (g_DealDataCur r) 200 ltac:(lia)).
  rewrite (Z.mod_small (_ mod _)) by lia. unfold wrapped. rewrite upd_get, upd_upd.
  by rewrite Z.mod_mod by lia.
Qed.

(** The interrupt, whatever the task is doing. *)
Lemma interrupt_at local r ext data :
  ring_ok (wrapped r) -> 0 <= g_DealDataCur r <= 200 -> length data = 8%nat ->
  exists r', HAL_CAN_RxCpltCallback local ext data r = Done tt r' /\
    ring_ok (wrapped r') /\ g_DealDataCur r' = g_DealDataCur r /\
    (if stored r r' then queue (wrapped r') =
        (if (pending (wrapped r) <? 24)%nat then queue (wrapped r) ++ [data] else [])
     else r' = r).
Proof.
  intros Hok Hd Hl.
  destruct (interrupt_run local ext data (wrapped r) (g_DealDataCur r) Hok Hl)
    as (r2 & E2 & Hok2 & Hdeal2 & Hq2); [done|done|].
  assert ((wrapped r) <| g_DealDataCur := g_DealDataCur r |> = r) as Er
    by (unfold wrapped; rewrite upd_upd; apply upd_same).
  rewrite Er in E2. eexists. split; [exact E2|].
  assert (wrapped (r2 <| g_DealDataCur := g_DealDataCur r |>) = r2) as ->.
  { unfold wrapped. rewrite upd_get, upd_upd.
    assert (g_DealDataCur r mod 200 = g_DealDataCur r2) as -> by (symmetry; exact Hdeal2).
    apply upd_same. }
  split_and!; [done|apply upd_get|]. unfold stored.
  change (g_IntrDataCur (r2 <| g_DealDataCur := g_DealDataCur r |>)) with (g_IntrDataCur r2).
  change (g_IntrDataCur (wrapped r)) with (g_IntrDataCur r) in Hq2.
  pose proof (rok_intr _ Hok) as [Hi _]. change (g_IntrDataCur (wrapped r)) with (g_IntrDataCur r) in Hi.
  destruct (_ && _) in Hq2.
  - destruct Hq2 as [Hi2 Hq2]. rewrite (proj2 (Z.eqb_neq _ _)); [exact Hq2|].
    rewrite Hi2. Z.to_euclidean_division_equations. lia.
  - subst r2. change (g_IntrDataCur (wrapped r)) with (g_IntrDataCur r). by rewrite Z.eqb_refl.
Qed.

(** A message that arrives goes behind the ones that wait: the head stays. *)
Lemma order_arrives r r' p i o data :
  (p <> Wrap -> wrapped r = r /\ wrapped r' = r') ->
  queue (wrapped r') = queue (wrapped r) ++ [data] ->
  in_order (Race r p i o false) -> in_order (Race r' p (i ++ [data]) o false).
Proof.
  intros Hid Hq [Hfifo Hhead]. cbn in Hfifo, Hhead. split; cbn; [by rewrite Hq, app_assoc, Hfifo|].
  destruct p as [|got|m|]; [done| | |done]; destruct (Hid ltac:(done)) as [Hr Hr'];
    rewrite Hr, Hr' in Hq; rewrite Hq.
  - destruct Hhead as (m & q & -> & Hgot). by exists m, (q ++ [data]).
  - destruct Hhead as (q & ->). by exists (q ++ [data]).
Qed.

Lemma deal_range s : race_ok s -> 0 <= g_DealDataCur (rc_ring s) <= 200.
Proof. intros [_ Hd _ _]. destruct (decide _); lia. Qed.

Lemma interrupt_ok local r r' p i o ov ext data :
  race_ok (Race r p i o ov) -> length data = 8%nat ->
  HAL_CAN_RxCpltCallback local ext data r = Done tt r' ->
  race_ok (Race r' p (if stored r r' then i ++ [data] else i) o
    (ov || stored r r' && (pending (wrapped r) =? 24)%nat)).
Proof.
  intros Hs Hl E. pose proof (deal_range _ Hs) as Hr. destruct Hs as [Hok Hd Hgot Hord].
  cbn in Hok, Hd, Hgot, Hord, Hr.
  destruct (interrupt_at local r ext data Hok Hr Hl) as (r2 & E2 & Hok2 & Hdeal & Hq).
  rewrite E in E2. injection E2 as <-. constructor; cbn [rc_ring rc_at rc_over].
  - done.
  - by rewrite Hdeal.
  - done.
  - intros [-> Hno]%orb_false_iff. specialize (Hord eq_refl). destruct (stored r r'); [|by subst r'].
    cbn [andb] in Hno |- *. rewrite Hno. apply Nat.eqb_neq in Hno. pose proof (pending_spec _ Hok) as (Hp & _).
    rewrite (proj2 (Nat.ltb_lt _ _)) in Hq by lia. apply (order_arrives r); [|done|done].
    intros Hp2. rewrite decide_False in Hd by done. by rewrite !wrapped_id by lia.
Qed.

Lemma task_ok s s' : race_ok s -> task_step s s' -> race_ok s'.
Proof.
  intros [Hok Hd Hgot Hord] St.
  destruct St as [r i o ov Hne|r got b i o ov Hl Hb|r got i o ov Hl|r r' m i o ov E|r r' i o ov E];
    cbn in Hok, Hd, Hgot, Hord.
  - rewrite wrapped_id in Hok by done. constructor; cbn; [by rewrite wrapped_id|done|lia|].
    intros Hov. destruct (Hord Hov) as [Hfifo _]. destruct (queue_some r Hok Hne) as (m & q & Hq).
    split; [done|]. cbn. by exists m, q.
  - constructor; cbn; [done|done|rewrite length_app; cbn; lia|].
    intros Hov. destruct (Hord Hov) as [Hfifo (m & q & Hq & Hg)]. split; [done|]. cbn.
    exists m, q. split; [done|]. apply (copy_next r got b m q); [apply Hd|done..].
  - constructor; cbn; [done..|]. intros Hov. destruct (Hord Hov) as [Hfifo (m & q & Hq & Hg)].
    split; [done|]. cbn in *. exists q. rewrite Hq. f_equal.
    rewrite Hg, Hl, (queue_head _ _ _ Hq). by rewrite take_take.
  - rewrite wrapped_id in Hok by done. destruct (add_ring r r' Hok E) as (Hok' & Hd' & _).
    constructor; cbn; [done..|]. intros Hov. destruct (Hord Hov) as [Hfifo (q & Hq)]. split; [|done].
    cbn in *. rewrite wrapped_id in Hfifo by done.
    by rewrite Hfifo, Hq, (add_run r m q r' Hok Hq E), <- app_assoc.
  - destruct (mod_run r r' Hd E) as [Hw Hd']. constructor; cbn [rc_ring rc_at rc_over]; [by rewrite Hw|done|done|].
    intros Hov. destruct (Hord Hov) as [Hfifo _]. split; [|done]. cbn in *. by rewrite Hw.
Qed.

Lemma step_ok local s s' : race_ok s -> step local s s' -> race_ok s'.
Proof. intros Hs St. destruct St; [by eapply task_ok|by eapply interrupt_ok]. Qed.

Lemma reach_ok local s : rtc (step local) race_boot s -> race_ok s.
Proof.
  intros H. assert (forall a b, rtc (step local) a b -> race_ok a -> race_ok b) as Hr.
  { induction 1; eauto using step_ok. }
  apply (Hr _ _ H), race_boot_ok.
Qed.

(** ** The task always gets through *)








(** ** The function and the steps *)
Section takes.
Context {hw : FlashHW} {outside : Board}.

(** The two statements together are [ring_advance]. *)
Lemma advance_steps : ring_advance = (deal_add ;; deal_mod).
Proof. reflexivity. Qed.

(** Up to and after those statements the ring is not touched. *)
Definition ring_is (r : ring) (s : sys hw) : Prop := s_ring s = r.

Ltac ring_leaf :=
  idtac; lazymatch goal with
  | |- keeps (ring_is _) (emit _) => apply keeps_modify; intros ? H; exact H
  | |- keeps (ring_is ?r) (zoom s_ring ring_read) =>
      apply (keeps_zoom (ring_is r) (fun t => t = r) s_ring); [done|intros ? ? _ ->; done|]
  | |- keeps (ring_is _) (zoom _ _) =>
      eapply (keeps_zoom (ring_is _) (fun _ => True)); [done|intros ? ? H _; exact H|apply keeps_true]
  end.

(** [advances r m Q]: started with the ring [r], the code leaves the ring of [Q]. *)
Definition advances {A} (r : ring) (m : M (sys hw) A) (Q : A -> ring -> Prop) : Prop :=
  forall s a s', s_ring s = r -> m s = Done a s' -> Q a (s_ring s').

Lemma advances_bind {A B} r (m : M (sys hw) A) (k : A -> M (sys hw) B) Q :
  keeps (ring_is r) m -> (forall a, advances r (k a) Q) -> advances r (m ≫= k) Q.
Proof.
  intros Hm Hk s b s'' Hs. unfold mbind, M_bind. destruct (m s) as [a s'|f|h s'] eqn:E; try done.
  intros E2. apply (Hk a s' b s''); [|exact E2]. by apply (Hm s a s').
Qed.

Lemma advances_now {A} r r' (m : M (sys hw) A) (Q : A -> ring -> Prop) :
  ring_advance r = Done tt r' -> advances r' m Q -> advances r (in_ring ring_advance ;; m) Q.
Proof.
  intros E Hm s a s' Hs. unfold in_ring, zoom, mbind, M_bind. rewrite Hs, E. apply Hm. done.
Qed.

Lemma advances_ret {A} r (a : A) Q : Q a r -> advances r (mret a) Q.
Proof. intros HQ s b s' Hs [= <- <-]. by rewrite Hs. Qed.

Ltac advance E :=
  lazymatch goal with
  | |- advances _ (in_ring ring_advance ;; _) _ => eapply advances_now; [exact E|advance E]
  | |- advances _ (mbind _ _) _ => apply advances_bind; [solve [keeps_with ring_leaf]|intro; advance E]
  | |- advances _ (if ?b then _ else _) _ => destruct b; advance E
  | |- advances _ (mret _) _ => apply advances_ret; reflexivity
  end.

Lemma can_done_advances r r' :
  ring_advance r = Done tt r' ->
  advances r can_done (fun early t => t = match early with Some _ => r' | None => r end).
Proof. intros E. unfold can_done. advance E. Qed.

Lemma can_blocks_advances r r' :
  ring_advance r = Done tt r' -> advances r can_blocks (fun _ t => t = r').
Proof. intros E. unfold can_blocks. advance E. Qed.

Lemma takes_one (s s' : sys hw) rt :
  HostCanDataAnalysis s = Done rt s' ->
  if g_IntrDataCur (s_ring s) =? g_DealDataCur (s_ring s) then rt = 0 /\ s' = s
  else ring_advance (s_ring s) = Done tt (s_ring s').
Proof.
  unfold HostCanDataAnalysis. rewrite bind_gets. destruct (_ =? _); cbn [negb]; [by intros [= <- <-]|].
  assert (exists r', ring_advance (s_ring s) = Done tt r') as [r' E] by (eexists; reflexivity).
  intros Hrun. rewrite E. f_equal. symmetry. revert Hrun.
  match goal with |- ?m s = _ -> _ => cut (advances (s_ring s) m (fun _ t => t = r')) end.
  { intros Ha Hrun. exact (Ha s rt s' eq_refl Hrun). }
  repeat (apply advances_bind; [solve [keeps_with ring_leaf]|intro]).
  intros s0 b s2 Hs. unfold mbind at 1, M_bind at 1. destruct (_ && _).
  - destruct (can_done s0) as [early s1|f|h s1] eqn:E1; [|done..].
    apply (can_done_advances _ _ E) in E1; [|done]. destruct early as [t|].
    + by intros [= <- <-].
    + by apply (can_blocks_advances _ _ E).
  - cbn. by apply (can_blocks_advances _ _ E).
Qed.
End takes.

(** ** The properties *)

(** C25: the receive interrupt may fall anywhere between the steps of the task, also
    inside the copy and between [+=] and [%=], with any message and however full the
    ring is.  It always returns, within the buffer, and the cursors stay on slots of
    the ring.  As long as it never stored a message with 24 waiting, no message is
    handled out of order, torn or twice: what was stored is what was handled followed
    by what waits, and the message in hand is the oldest that waits, copied as it was
    stored.  ([interrupt_enqueues] says when it stores with 24 waiting.) *)
Theorem fifo_under_interrupts (local : Z) (s : race) :
  rtc (step local) race_boot s ->
  let r := wrapped (rc_ring s) in
  ring_ok r /\ 0 <= g_DealDataCur (rc_ring s) <= 200 /\
  (forall ext data, length data = 8%nat -> exists r', HAL_CAN_RxCpltCallback local ext data (rc_ring s) = Done tt r') /\
  (rc_over s = false ->
    rc_in s = rc_out s ++ queue r /\ (length (queue r) <= 24)%nat /\
    match rc_at s with
    | Handle m => head (queue r) = Some m
    | Copy got => exists m, head (queue r) = Some m /\ got = take (length got) m
    | _ => True
    end).
Proof.
  intros Hr r. pose proof (reach_ok local s Hr) as Hs. pose proof (deal_range s Hs) as Hd.
  destruct Hs as [Hok Hat _ Hord]. subst r. split_and!; [done|lia..| |].
  - intros ext data Hl. destruct (interrupt_at local (rc_ring s) ext data Hok Hd Hl) as (r' & E & _). by exists r'.
  - intros Hov. destruct (Hord Hov) as [Hfifo Hhead].
    split_and!; [done|rewrite queue_length; apply (pending_spec _ Hok)|].
    destruct (rc_at s) as [|got|m|]; [done| | |done]; cbn in Hat; rewrite wrapped_id by done.
    + destruct Hhead as (m & q & -> & Hg). by exists m.
    + by destruct Hhead as (q & ->).
Qed.


(** [HostCanDataAnalysis] is one pass of those steps, whatever the command and on
    every path, early returns and errors included: with an empty ring it does
    nothing, otherwise it takes exactly one message out and leaves the rest of the
    ring and the cursor of the interrupt alone. *)
Theorem HostCanDataAnalysis_takes_one {hw : FlashHW} {outside : Board} (s s' : sys hw) (rt : Z) :
  HostCanDataAnalysis s = Done rt s' ->
  if g_IntrDataCur (s_ring s) =? g_DealDataCur (s_ring s) then rt = 0 /\ s' = s
  else (deal_add ;; deal_mod) (s_ring s) = Done tt (s_ring s').
Proof. apply takes_one. Qed.

(** A message that comes while the one before it is being copied. *)
Definition race_example : race :=
  Race (Ring (blit (blit (replicate 200 0) 0 [1; 2; 3; 4; 5; 6; 7; 8]) 8 [9; 10; 11; 12; 13; 14; 15; 16]) 0 16)
    (Copy [1]) [[1; 2; 3; 4; 5; 6; 7; 8]; [9; 10; 11; 12; 13; 14; 15; 16]] [] false.

Lemma race_example_reached : rtc (step 5) race_boot race_example.
Proof.
  eapply rtc_l; [refine (step_interrupt _ _ _ _ _ _ _ 5 [1; 2; 3; 4; 5; 6; 7; 8] _ _); reflexivity|].
  eapply rtc_l; [refine (step_task _ _ _ (step_check _ _ _ _ _)); done|].
  eapply rtc_l; [refine (step_task _ _ _ (step_copy _ _ _ _ _ _ _ _)); [cbn; lia|reflexivity]|].
  eapply rtc_l; [refine (step_interrupt _ _ _ _ _ _ _ 5 [9; 10; 11; 12; 13; 14; 15; 16] _ _); reflexivity|].
  vm_compute. constructor.
Qed.

Lemma fifo_under_interrupts_witness :
  ring_ok (wrapped (rc_ring race_example)) /\
  rc_in race_example = queue (wrapped (rc_ring race_example)).
Proof.
  destruct (fifo_under_interrupts 5 race_example race_example_reached) as (H & _ & _ & E).
  split; [exact H|exact (proj1 (E eq_refl))].
Defined.


Lemma HostCanDataAnalysis_takes_one_witness :
  exists s', HostCanDataAnalysis (outside := quiet_board) unit_can_done = Done 1 s' /\
    (deal_add ;; deal_mod) (s_ring unit_can_done) = Done tt (s_ring s') /\ g_DealDataCur (s_ring s') = 8.
Proof.
  destruct (can_done_run (outside := quiet_board) 0 258 [] unit_can_done) as (s' & E & _).
  - destruct unit_boot_ok. by constructor.
  - constructor; [done|split; [cbn; lia|done]|split; [cbn; lia|done]].
  - reflexivity.
  - lia.
  - lia.
  - exists s'. pose proof (HostCanDataAnalysis_takes_one (outside := quiet_board) unit_can_done s' 1 E) as T.
    change ((deal_add ;; deal_mod) (s_ring unit_can_done) = Done tt (s_ring s')) in T.
    split; [exact E|split; [exact T|]]. injection T as T. by rewrite <- T.
Defined.
