(* ===== verification/Delay.v ===== *)
(** * Busy waiting: src/SYSTEM/delay/delay.c

    [delay_init], [delay_us] and [delay_ms] over the SysTick timer, with the calls of
    the kernel they make. The other files see a delay as an event of the history
    ([Board.delay_ms]); this one shows what stands behind it: that the loop ends,
    and how long it takes. The counter of the SysTick is a sequence of readings. *)
From Stdlib Require Import ZArith Lia.
From stdpp Require Import base tactics decidable list list_numbers numbers.
From S2P Require Import Prelude.
Open Scope Z_scope.
Open Scope c_scope.

(** The globals of delay.c, the register LOAD, what of the kernel is used, and how
    often the register VAL was read. *)
Record clock := Clock {
  fac_us : Z;
  fac_ms : Z;
  LOAD : Z;
  OSRunning : bool;
  OSIntNesting : Z;
  OSLockNesting : Z;
  OSTCBDly : list Z;   (** ticks the running task was put to sleep for, latest first *)
  scheds : nat;        (** calls of the scheduler *)
  reads : nat;
}.

#[export] Instance clock_eta : Eta clock := fun c =>
  Clock (fac_us c) (fac_ms c) (LOAD c) (OSRunning c) (OSIntNesting c) (OSLockNesting c) (OSTCBDly c)
    (scheds c) (reads c).
#[export] Instance upd_fac_us : Upd fac_us := ltac:(derive_upd).
#[export] Instance upd_fac_ms : Upd fac_ms := ltac:(derive_upd).
#[export] Instance upd_LOAD : Upd LOAD := ltac:(derive_upd).
#[export] Instance upd_OSLockNesting : Upd OSLockNesting := ltac:(derive_upd).
#[export] Instance upd_OSTCBDly : Upd OSTCBDly := ltac:(derive_upd).
#[export] Instance upd_scheds : Upd scheds := ltac:(derive_upd).
#[export] Instance upd_reads : Upd reads := ltac:(derive_upd).

Definition OS_TICKS_PER_SEC : Z := 1000.

(** LOAD has 24 bits. *)
Definition delay_init (SYSCLK : Z) : M clock unit :=
  fac_us ::= SYSCLK ;;
  let reload := u32 (u32 SYSCLK * (1000000 / OS_TICKS_PER_SEC)) in
  fac_ms ::= u16 (1000 / OS_TICKS_PER_SEC) ;;
  LOAD ::= reload mod 2 ^ 24.

(** The calls of the kernel: they do nothing before it runs or in an interrupt.  The
    scheduler, which may run a more urgent task here, is [Kernel.OS_Sched]; of it the
    clock sees that it is called. *)
Definition OS_Sched : M clock unit := n ← gets scheds; scheds ::= S n.

Definition OSSchedLock : M clock unit :=
  c ← gets id;
  if OSRunning c && (OSIntNesting c =? 0) && (OSLockNesting c <? 255)
  then OSLockNesting ::= OSLockNesting c + 1 else skip.

Definition OSSchedUnlock : M clock unit :=
  c ← gets id;
  if OSRunning c && (OSIntNesting c =? 0) && (0 <? OSLockNesting c)
  then
    OSLockNesting ::= OSLockNesting c - 1 ;;
    if OSLockNesting c - 1 =? 0 then OS_Sched else skip
  else skip.

Definition OSTimeDly (ticks : Z) : M clock unit :=
  c ← gets id;
  if 0 <? OSIntNesting c then skip
  else if 0 <? OSLockNesting c then skip
  else if 0 <? ticks then OSTCBDly ::= ticks :: OSTCBDly c ;; OS_Sched
  else skip.

Section delays.
(** [VAL k] is what the [k]-th reading of SysTick->VAL gives. *)
Context (VAL : nat -> Z).

Definition read_VAL : M clock Z :=
  k ← gets reads;
  reads ::= S k ;;
  mret (VAL k).

(** [tcnt += told-tnow] or [tcnt += reload-tnow+told] *)
Definition count (reload told tnow tcnt : Z) : Z :=
  if tnow <? told then u32 (tcnt + u32 (told - tnow)) else u32 (tcnt + u32 (reload - tnow + told)).

(** The loop [while(1)]. *)
Fixpoint delay_loop (fuel : nat) (reload ticks told tcnt : Z) : M clock unit :=
  match fuel with
  | O => halt_with Spin
  | S fuel =>
    tnow ← read_VAL;
    if negb (tnow =? told) then
      let tcnt := count reload told tnow tcnt in
      if ticks <=? tcnt then skip else delay_loop fuel reload ticks tnow tcnt
    else delay_loop fuel reload ticks told tcnt
  end.

Definition delay_us (fuel : nat) (nus : Z) : M clock unit :=
  reload ← gets LOAD;
  fac ← gets fac_us;
  let ticks := u32 (nus * fac) in
  OSSchedLock ;;
  told ← read_VAL;
  delay_loop fuel reload ticks told 0 ;;
  OSSchedUnlock.

Definition delay_ms (fuel : nat) (nms : Z) : M clock unit :=
  c ← gets id;
  nms ← (if OSRunning c && (OSIntNesting c =? 0) then
      if fac_ms c =? 0 then undefined DivByZero
      else
        (if fac_ms c <=? nms then OSTimeDly (nms / fac_ms c) else skip) ;;
        mret (nms mod fac_ms c)
    else mret nms);
  delay_us fuel (u32 (nms * 1000)).
End delays.

(** ** The timer: it counts down from LOAD to 0 and starts again, so a period has
    [LOAD + 1] cycles. [at_ k] is the cycle of the [k]-th reading; between two
    readings less than a period passes. *)
Class SysTick (L : Z) (VAL : nat -> Z) (at_ : nat -> Z) : Prop := {
  st_load : 0 < L < 2 ^ 24;
  st_start : 0 <= at_ 0%nat;
  st_next k : at_ k < at_ (S k) <= at_ k + L;
  st_val k : VAL k = L - at_ k mod (L + 1);
}.

Section waits.
Context (L : Z) (VAL : nat -> Z) (at_ : nat -> Z) `{!SysTick L VAL at_}.

Lemma at_mono k n : at_ k + Z.of_nat n <= at_ (k + n)%nat.
Proof.
  induction n as [|n IH]; [rewrite Nat.add_0_r; lia|].
  rewrite Nat.add_succ_r. pose proof (st_next (k + n)%nat). lia.
Qed.

Lemma at_later k n : (k <= n)%nat -> at_ k + Z.of_nat (n - k) <= at_ n.
Proof. intros H. pose proof (at_mono k (n - k)) as Hm. by replace (k + (n - k))%nat with n in Hm by lia. Qed.

Lemma at_pos k : 0 <= at_ k.
Proof. pose proof (at_mono 0 k). pose proof st_start. cbn in *. lia. Qed.

(** Cycles the loop has counted between two readings: each time the timer starts
    again it counts one too few. *)
Definition counted (a b : Z) : Z := (b - a) - (b / (L + 1) - a / (L + 1)).

Lemma counted_step k tcnt :
  0 <= tcnt -> tcnt + L < 2 ^ 32 ->
  VAL (S k) <> VAL k /\
  count L (VAL k) (VAL (S k)) tcnt = tcnt + counted (at_ k) (at_ (S k)) /\
  0 <= counted (at_ k) (at_ (S k)) <= L.
Proof.
  intros Ht Hmax. pose proof (st_next k) as Hn. pose proof st_load as HL. pose proof (at_pos k) as H0.
  rewrite (st_val k), (st_val (S k)). unfold count, counted. set (a := at_ k) in *. set (b := at_ (S k)) in *.
  remember (L + 1) as P eqn:EP. pose proof (Z.div_mod a P ltac:(lia)) as Ea. pose proof (Z.div_mod b P ltac:(lia)) as Eb.
  pose proof (Z.mod_pos_bound a P ltac:(lia)) as Ba. pose proof (Z.mod_pos_bound b P ltac:(lia)) as Bb.
  set (qa := a / P) in *. set (qb := b / P) in *. set (ra := a mod P) in *. set (rb := b mod P) in *.
  change (2 ^ 24) with 16777216 in HL. change (2 ^ 32) with 4294967296 in Hmax.
  unfold u32. change (2 ^ 32) with 4294967296.
  assert (qb = qa /\ rb = ra + (b - a) \/ qb = qa + 1 /\ rb = ra + (b - a) - P) as [[Eq Er]|[Eq Er]].
  { clearbody qa qb ra rb. clear -EP Ea Eb Ba Bb Hn HL. assert (0 <= qb - qa) by nia.
    assert (qb - qa < 2) by nia. assert (qb = qa \/ qb = qa + 1) as [->| ->] by lia; lia. }
  - destruct (Z.ltb_spec (L - rb) (L - ra)); [|lia].
    rewrite (Z.mod_small (L - ra - (L - rb))) by lia. rewrite Z.mod_small by lia. lia.
  - destruct (Z.ltb_spec (L - rb) (L - ra)); [lia|].
    rewrite (Z.mod_small (L - (L - rb) + (L - ra))) by lia. rewrite Z.mod_small by lia. lia.
Qed.
Lemma counted_trans a b c : counted a b + counted b c = counted a c.
Proof. unfold counted. lia. Qed.

(** At most one cycle in [L] is not counted. *)
Lemma counted_most a b : 0 <= a <= b -> (b - a) * L < (counted a b + 1) * (L + 1).
Proof.
  pose proof st_load as HL. intros Hab. unfold counted. remember (L + 1) as P eqn:EP.
  pose proof (Z.div_mod a P ltac:(lia)) as Ea. pose proof (Z.div_mod b P ltac:(lia)) as Eb.
  pose proof (Z.mod_pos_bound a P ltac:(lia)) as Ba. pose proof (Z.mod_pos_bound b P ltac:(lia)) as Bb.
  set (qa := a / P) in *. set (qb := b / P) in *. clearbody qa qb.
  assert (P * (qb - qa) <= b - a + L) by lia. nia.
Qed.

Lemma counted_pos a b : 0 <= a <= b -> 0 <= counted a b.
Proof.
  pose proof st_load as HL. intros Hab. unfold counted. remember (L + 1) as P eqn:EP.
  pose proof (Z.div_mod a P ltac:(lia)) as Ea. pose proof (Z.div_mod b P ltac:(lia)) as Eb.
  pose proof (Z.mod_pos_bound a P ltac:(lia)) as Ba. pose proof (Z.mod_pos_bound b P ltac:(lia)) as Bb.
  set (qa := a / P) in *. set (qb := b / P) in *. clearbody qa qb.
  destruct (decide (qb - qa <= b - a)); [lia|]. nia.
Qed.

(** The loop, from the reading [k] of a wait that began with the reading [k0]. *)
Lemma delay_loop_run fuel ticks k0 : forall k,
  (k0 <= k)%nat -> 0 <= ticks -> ticks + L <= 2 ^ 32 ->
  k = k0 \/ counted (at_ k0) (at_ k) < ticks ->
  2 * ticks + 3 <= Z.of_nat (k - k0 + fuel) ->
  exists n, (k < n)%nat /\
    (forall s, reads s = S k ->
      delay_loop VAL fuel L ticks (VAL k) (counted (at_ k0) (at_ k)) s = Done tt (s <| reads := S n |>)) /\
    ticks <= counted (at_ k0) (at_ n) /\
    (n = S k0 \/ counted (at_ k0) (at_ (pred n)) < ticks).
Proof using All.
  induction fuel as [|fuel IH]; intros k Hk Ht Hmax Hc Hf; pose proof st_load as HL;
    pose proof (at_pos k0) as Hp; pose proof (at_later k0 k Hk) as Hm.
  { pose proof (counted_most (at_ k0) (at_ k)) as Hl. destruct Hc as [->|Hc]; [lia|]. exfalso. nia. }
  assert (0 <= counted (at_ k0) (at_ k) /\ counted (at_ k0) (at_ k) + L < 2 ^ 32) as [H0 H1].
  { destruct Hc as [->|Hc]; [unfold counted; lia|].
    split; [|lia]. apply counted_pos. lia. }
  destruct (counted_step k _ H0 H1) as (Hne & Ec & Hcs).
  assert (forall s, reads s = S k ->
    delay_loop VAL (S fuel) L ticks (VAL k) (counted (at_ k0) (at_ k)) s =
    (let c := counted (at_ k0) (at_ (S k)) in
     if ticks <=? c then skip else delay_loop VAL fuel L ticks (VAL (S k)) c) (s <| reads := S (S k) |>)) as Estep.
  { intros s Hr. cbn [delay_loop]. unfold read_VAL.
    rewrite bind_bind, bind_gets, Hr, bind_bind, bind_put, bind_ret.
    by rewrite (proj2 (Z.eqb_neq _ _) Hne), Ec, counted_trans. }
  destruct (Z.leb_spec ticks (counted (at_ k0) (at_ (S k)))) as [Hle|Hgt].
  - exists (S k). split_and!; [lia| |done|destruct Hc as [->|Hc]; [by left|by right]].
    intros s Hr. rewrite (Estep s Hr). cbv zeta. by rewrite (proj2 (Z.leb_le _ _) Hle).
  - destruct (IH (S k)) as (n & Hn & E & Hn1 & Hn2); [lia|done|done|by right|lia|].
    exists n. split_and!; [lia| |done|done]. intros s Hr. rewrite (Estep s Hr). cbv zeta. rewrite (proj2 (Z.leb_gt _ _) Hgt).
    exact (E (s <| reads := S (S k) |>) eq_refl).
Qed.

(** The scheduler is called once when the lock is let go for good. *)
Definition unlocked (s : clock) : nat :=
  if OSRunning s && (OSIntNesting s =? 0) && (OSLockNesting s =? 0) then S (scheds s) else scheds s.

Lemma lock_unlock s (m : M clock unit) n :
  0 <= OSLockNesting s < 255 ->
  (forall l, m (s <| OSLockNesting := l |>) = Done tt (s <| OSLockNesting := l |> <| reads := n |>)) ->
  (OSSchedLock ;; m ;; OSSchedUnlock) s = Done tt (s <| scheds := unlocked s |> <| reads := n |>).
Proof.
  intros Hl Hm. unfold OSSchedLock. rewrite bind_bind, bind_gets. cbn [id].
  rewrite (proj2 (Z.ltb_lt _ _) (proj2 Hl)), andb_true_r.
  destruct (OSRunning s && (OSIntNesting s =? 0)) eqn:E.
  - rewrite bind_put. rewrite (bind_Done _ _ _ _ _ (Hm _)). unfold OSSchedUnlock. rewrite bind_gets. cbn [id].
    cbn. rewrite E, (proj2 (Z.ltb_lt 0 (OSLockNesting s + 1))) by lia.
    unfold unlocked. rewrite E. cbn [andb]. rewrite bind_put. replace (OSLockNesting s + 1 - 1) with (OSLockNesting s) by lia.
    destruct (OSLockNesting s =? 0); by destruct s.
  - unfold skip. rewrite bind_ret. pose proof (Hm (OSLockNesting s)) as E2.
    assert (s <| OSLockNesting := OSLockNesting s |> = s) as Es by by destruct s. rewrite Es in E2.
    rewrite (bind_Done _ _ _ _ _ E2). unfold OSSchedUnlock. rewrite bind_gets. cbn [id]. cbn.
    rewrite E. unfold unlocked. rewrite E. by destruct s.
Qed.

Lemma delay_us_run fuel nus s ticks :
  LOAD s = L -> 0 <= OSLockNesting s < 255 -> ticks = u32 (nus * fac_us s) ->
  ticks + L <= 2 ^ 32 -> 2 * ticks + 3 <= Z.of_nat fuel ->
  exists n, (reads s < n)%nat /\ delay_us VAL fuel nus s = Done tt (s <| scheds := unlocked s |> <| reads := S n |>) /\
    ticks <= at_ n - at_ (reads s) /\
    (n = S (reads s) \/ (at_ (pred n) - at_ (reads s)) * L < ticks * (L + 1)).
Proof using All.
  intros HL Hlock Eticks Hmax Hf. pose proof st_load as HL0. set (k := reads s) in *.
  assert (0 <= ticks) by (rewrite Eticks; unfold u32; by apply Z.mod_pos_bound).
  destruct (delay_loop_run fuel ticks k k) as (n & Hn & E & Hn1 & Hn2); [done|done|done|by left|lia|].
  exists n. pose proof (at_pos k) as H0.
  pose proof (at_later k n ltac:(lia)) as Hl. pose proof (at_later k (pred n) ltac:(lia)) as Hl'.
  split_and!; [done| | |].
  - unfold delay_us. rewrite !bind_gets, HL, <- Eticks.
    etrans; [|apply (lock_unlock s (told ← read_VAL VAL; delay_loop VAL fuel L ticks told 0) (S n) Hlock)].
    + unfold mbind, M_bind. destruct (OSSchedLock s) as [? s1| |]; [|done..]. by destruct (read_VAL VAL s1).
    + intros l. unfold read_VAL. rewrite bind_bind, bind_gets, bind_bind, bind_put, bind_ret.
      change (reads (s <| OSLockNesting := l |>)) with k.
      unfold counted in E. rewrite !Z.sub_diag in E.
      exact (E (s <| OSLockNesting := l |> <| reads := S k |>) eq_refl).
  - pose proof (Z.div_le_mono (at_ k) (at_ n) (L + 1) ltac:(lia) ltac:(lia)).
    unfold counted in Hn1. lia.
  - destruct Hn2 as [->|Hn2]; [by left|right].
    pose proof (counted_most (at_ k) (at_ (pred n)) ltac:(lia)). nia.
Qed.
End waits.

(** With no time to wait it waits for the counter to move once. *)
Lemma delay_us_0 L VAL at_ `{!SysTick L VAL at_} fuel s :
  LOAD s = L -> 0 <= OSLockNesting s < 255 -> (3 <= fuel)%nat ->
  delay_us VAL fuel 0 s = Done tt (s <| scheds := unlocked s |> <| reads := S (S (reads s)) |>).
Proof.
  intros HL Hl Hf. pose proof (st_load (L := L)) as HL0.
  destruct (delay_us_run L VAL at_ fuel 0 s 0) as (n & Hn & E & _ & [->|Hlt]); [done|done|done|lia|lia|done|].
  pose proof (at_later L VAL at_ (reads s) (pred n) ltac:(lia)). nia.
Qed.

(** ** [delay_ms] *)
Section delay_ms.
Context (L : Z) (VAL : nat -> Z) (at_ : nat -> Z) `{!SysTick L VAL at_}.

(** Before the kernel runs, or in an interrupt, it is a [delay_us]; the number of
    microseconds fits, the number of cycles need not. *)
Lemma delay_ms_busy fuel nms s :
  is_u16 nms -> OSRunning s && (OSIntNesting s =? 0) = false ->
  delay_ms VAL fuel nms s = delay_us VAL fuel (nms * 1000) s.
Proof.
  intros [H0 H1] E. unfold delay_ms. rewrite bind_gets. cbn [id]. rewrite E, bind_ret.
  unfold u32. by rewrite Z.mod_small by lia.
Qed.
End delay_ms.

(** The unit: 180 MHz, a tick of the kernel every millisecond. *)
Definition clock_boot : clock := Clock 0 0 0 false 0 0 [] 0 0.
Definition clock_180 : clock := clock_boot <| fac_us := 180 |> <| fac_ms := 1 |> <| LOAD := 180000 |>.

Lemma delay_init_run : delay_init 180 clock_boot = Done tt clock_180.
Proof. reflexivity. Qed.

(** ** The properties *)

(** C35: [delay_us] ends, and is right: it reads the counter until at least [nus]
    microseconds have passed since its first reading, never fewer, and at the reading
    before the last it was at most one part in LOAD beyond that; it leaves the lock of
    the scheduler as it found it, and calls the scheduler once if that frees it. Holds as long as the
    number of cycles leaves room for one period in 32 bits, and the counter is read
    at least once in every period. *)
Theorem delay_us_waits (L : Z) (VAL at_ : nat -> Z) `{!SysTick L VAL at_} (fuel : nat) (nus : Z) (s : clock) :
  LOAD s = L -> 0 <= OSLockNesting s < 255 -> 0 <= nus -> 0 <= fac_us s ->
  nus * fac_us s + L <= 2 ^ 32 -> 2 * (nus * fac_us s) + 3 <= Z.of_nat fuel ->
  wp (delay_us VAL fuel nus) (fun _ s' => exists n, s' = s <| scheds := unlocked s |> <| reads := S n |> /\ (reads s < n)%nat /\
    nus * fac_us s <= at_ n - at_ (reads s) /\
    (n = S (reads s) \/ (at_ (pred n) - at_ (reads s)) * L < nus * fac_us s * (L + 1))) s.
Proof.
  intros HL Hl Hn Hf Hm Hfuel.
  pose proof (st_load (L := L)) as [HL0 _].
  destruct (delay_us_run L VAL at_ fuel nus s (nus * fac_us s)) as (n & H1 & E & H2 & H3); [done|done| |done|done|].
  { unfold u32. rewrite Z.mod_small; [done|]. split; [nia|lia]. }
  apply wp_Done. exists tt, (s <| scheds := unlocked s |> <| reads := S n |>). split; [exact E|]. by exists n.
Qed.

(** The 32 bits of the cycle counter are too few for the 65535 ms [delay_ms]
    announces: before the kernel runs, or in an interrupt, and with 180 cycles to a
    microsecond, a delay of [nms] from 23861 to 47721 milliseconds ends as soon as
    [nms * 180000 - 2^32] cycles have passed. *)
Theorem delay_ms_overflows (L : Z) (VAL at_ : nat -> Z) `{!SysTick L VAL at_} (fuel : nat) (nms : Z) (s : clock) :
  LOAD s = L -> fac_us s = 180 -> OSRunning s && (OSIntNesting s =? 0) = false ->
  0 <= OSLockNesting s < 255 -> 23861 <= nms <= 47721 ->
  nms * 180000 + L <= 2 * 2 ^ 32 -> 2 * (nms * 180000 - 2 ^ 32) + 3 <= Z.of_nat fuel ->
  wp (delay_ms VAL fuel nms) (fun _ s' => exists n, s' = s <| scheds := unlocked s |> <| reads := S n |> /\
    (n = S (reads s) \/ (at_ (pred n) - at_ (reads s)) * L < (nms * 180000 - 2 ^ 32) * (L + 1))) s.
Proof.
  intros HL Hfac Hrun Hl Hn Hm Hfuel.
  destruct (delay_us_run L VAL at_ fuel (nms * 1000) s (nms * 180000 - 2 ^ 32)) as (n & H1 & E & H2 & H3); [done|done| |lia|done|].
  { rewrite Hfac. unfold u32. rewrite <- (Z.mod_add _ (-1)), Z.mod_small by lia. lia. }
  apply wp_Done. exists tt, (s <| scheds := unlocked s |> <| reads := S n |>). rewrite delay_ms_busy by (done || (split; lia)).
  split; [exact E|]. by exists n.
Qed.

(** While the kernel runs, a task is put to sleep for [nms] ticks — [OSTimeDly]
    ends at the [nms]-th tick from now, so a [delay_ms(1)] may last no time at all —
    and afterwards only waits for the counter to move. With the scheduler locked it
    does not sleep. *)
Theorem delay_ms_sleeps (L : Z) (VAL at_ : nat -> Z) `{!SysTick L VAL at_} (fuel : nat) (nms : Z) (s : clock) :
  LOAD s = L -> fac_ms s = 1 -> OSRunning s = true -> OSIntNesting s = 0 ->
  0 <= OSLockNesting s < 255 -> is_u16 nms -> (3 <= fuel)%nat ->
  wp (delay_ms VAL fuel nms) (fun _ s' => reads s' = S (S (reads s)) /\
    OSTCBDly s' = if (0 <? OSLockNesting s) || (nms =? 0) then OSTCBDly s else nms :: OSTCBDly s) s.
Proof.
  intros HL Hfac Hrun Hint Hl [Hn _] Hfuel. pose proof (st_load (L := L)) as HL0.
  unfold delay_ms. apply wp_bind, wp_gets. cbn [id]. rewrite Hrun, Hint, Hfac. cbn [andb Z.eqb].
  set (s1 := if (0 <? OSLockNesting s) || (nms =? 0) then s else s <| OSTCBDly := nms :: OSTCBDly s |> <| scheds := S (scheds s) |>).
  assert ((if 1 <=? nms then OSTimeDly (nms / 1) else skip) s = Done tt s1) as E1.
  { subst s1. destruct (Z.leb_spec 1 nms).
    - unfold OSTimeDly. rewrite bind_gets. cbn [id]. rewrite Hint, Z.div_1_r. cbn [Z.ltb Z.compare].
      rewrite (proj2 (Z.eqb_neq nms 0)), (proj2 (Z.ltb_lt 0 nms)), orb_false_r by lia.
      by destruct (0 <? OSLockNesting s).
    - assert (nms = 0) as -> by lia. by rewrite orb_true_r. }
  assert (LOAD s1 = L /\ OSLockNesting s1 = OSLockNesting s /\ reads s1 = reads s) as (HL1 & Hl1 & Hr1)
    by (subst s1; by destruct (_ || _)).
  assert (wp (delay_us VAL fuel 0) (fun _ s' => s' = s1 <| scheds := unlocked s1 |> <| reads := S (S (reads s)) |>) s1) as Hd.
  { apply wp_Done. exists tt, (s1 <| scheds := unlocked s1 |> <| reads := S (S (reads s)) |>). rewrite <- Hr1. split; [|done].
    by apply (delay_us_0 L VAL at_); [|rewrite Hl1|]. }
  apply wp_bind, wp_bind, wp_Done. exists tt, s1. split; [exact E1|].
  apply wp_ret. rewrite Z.mod_1_r. eapply wp_mono; [exact Hd|]. intros _ s' ->. split; [done|].
  subst s1. by destruct (_ || _).
Qed.

(** A counter read every ten cycles. *)
Definition every_ten (k : nat) : Z := 10 * Z.of_nat k.
Definition val_ten (k : nat) : Z := 180000 - every_ten k mod 180001.

Lemma every_ten_ticks : SysTick 180000 val_ten every_ten.
Proof. constructor; unfold every_ten; try lia. done. Qed.

(** A bit of the I2C bus. *)
Lemma delay_us_waits_witness :
  wp (delay_us val_ten (Z.to_nat 1443) 4) (fun _ s' => exists n, s' = clock_180 <| scheds := unlocked clock_180 |> <| reads := S n |> /\
    (0 < n)%nat /\ 720 <= every_ten n - every_ten 0 /\
    (n = 1%nat \/ (every_ten (pred n) - every_ten 0) * 180000 < 720 * 180001)) clock_180.
Proof.
  apply (delay_us_waits 180000 val_ten every_ten (SysTick0 := every_ten_ticks) (Z.to_nat 1443) 4 clock_180);
    [reflexivity|cbn; lia|lia|cbn; lia|cbn; lia|cbn; lia].
Defined.

Lemma delay_ms_overflows_witness :
  wp (delay_ms val_ten (Z.to_nat 25411) 23861) (fun _ s' => exists n, s' = clock_180 <| scheds := unlocked clock_180 |> <| reads := S n |> /\
    (n = 1%nat \/ (every_ten (pred n) - every_ten 0) * 180000 < (23861 * 180000 - 2 ^ 32) * 180001)) clock_180.
Proof.
  apply (delay_ms_overflows 180000 val_ten every_ten (SysTick0 := every_ten_ticks) (Z.to_nat 25411) 23861 clock_180);
    [reflexivity|reflexivity|reflexivity|cbn; lia|lia|lia|rewrite Z2Nat.id; lia].
Defined.

Definition clock_running : clock := Clock 180 1 180000 true 0 0 [] 0 0.

Lemma delay_ms_sleeps_witness :
  wp (delay_ms val_ten 3 40) (fun _ s' => reads s' = 2%nat /\ OSTCBDly s' = [40]) clock_running.
Proof.
  apply (delay_ms_sleeps 180000 val_ten every_ten (SysTick0 := every_ten_ticks) 3 40 clock_running);
    [reflexivity|reflexivity|reflexivity|reflexivity|cbn; lia|split; lia|lia].
Defined.
