(* ===== verification/Kernel.v ===== *)
(** * The kernel: tasks that wait

    What the drivers of the network rely on from uC/OS-II: the priority maps, the
    wait lists of events, the scheduler and the tick, of
    src/UCOSII/uCOS-II/Source/os_core.c. Sixty-four priorities ([OS_LOWEST_PRIO] is 63),
    a smaller number being more urgent. The queues are in OsQueue.v. *)
From Stdlib Require Import ZArith Lia.
From stdpp Require Import base tactics decidable list list_numbers numbers gmap.
From S2P Require Import Prelude.
Open Scope Z_scope.
Open Scope c_scope.

(** ** Priority maps *)
Definition OSUnMapTbl : list Z := [
  0; 0; 1; 0; 2; 0; 1; 0; 3; 0; 1; 0; 2; 0; 1; 0;
  4; 0; 1; 0; 2; 0; 1; 0; 3; 0; 1; 0; 2; 0; 1; 0;
  5; 0; 1; 0; 2; 0; 1; 0; 3; 0; 1; 0; 2; 0; 1; 0;
  4; 0; 1; 0; 2; 0; 1; 0; 3; 0; 1; 0; 2; 0; 1; 0;
  6; 0; 1; 0; 2; 0; 1; 0; 3; 0; 1; 0; 2; 0; 1; 0;
  4; 0; 1; 0; 2; 0; 1; 0; 3; 0; 1; 0; 2; 0; 1; 0;
  5; 0; 1; 0; 2; 0; 1; 0; 3; 0; 1; 0; 2; 0; 1; 0;
  4; 0; 1; 0; 2; 0; 1; 0; 3; 0; 1; 0; 2; 0; 1; 0;
  7; 0; 1; 0; 2; 0; 1; 0; 3; 0; 1; 0; 2; 0; 1; 0;
  4; 0; 1; 0; 2; 0; 1; 0; 3; 0; 1; 0; 2; 0; 1; 0;
  5; 0; 1; 0; 2; 0; 1; 0; 3; 0; 1; 0; 2; 0; 1; 0;
  4; 0; 1; 0; 2; 0; 1; 0; 3; 0; 1; 0; 2; 0; 1; 0;
  6; 0; 1; 0; 2; 0; 1; 0; 3; 0; 1; 0; 2; 0; 1; 0;
  4; 0; 1; 0; 2; 0; 1; 0; 3; 0; 1; 0; 2; 0; 1; 0;
  5; 0; 1; 0; 2; 0; 1; 0; 3; 0; 1; 0; 2; 0; 1; 0;
  4; 0; 1; 0; 2; 0; 1; 0; 3; 0; 1; 0; 2; 0; 1; 0].

(** [OSEventGrp] and [OSEventTbl], or [OSRdyGrp] and [OSRdyTbl]. *)
Record pmap := PMap { Grp : Z; Tbl : list Z }.

Definition pmap_empty : pmap := PMap 0 (replicate 8 0).

(** What [OS_TCBInit] computes from a priority. *)
Definition OSTCBY (prio : Z) : Z := Z.shiftr prio 3.
Definition OSTCBX (prio : Z) : Z := Z.land prio 0x07.
Definition OSTCBBitY (prio : Z) : Z := u8 (Z.shiftl 1 (OSTCBY prio)).
Definition OSTCBBitX (prio : Z) : Z := u8 (Z.shiftl 1 (OSTCBX prio)).

(** [Tbl[OSTCBY] |= OSTCBBitX; Grp |= OSTCBBitY;] *)
Definition pmap_add (prio : Z) (m : pmap) : pmap :=
  let y := Z.to_nat (OSTCBY prio) in
  PMap (Z.lor (Grp m) (OSTCBBitY prio)) (alter (fun b => Z.lor b (OSTCBBitX prio)) y (Tbl m)).

(** [Tbl[OSTCBY] &= ~OSTCBBitX; if (Tbl[OSTCBY] == 0) Grp &= ~OSTCBBitY;] *)
Definition pmap_del (prio : Z) (m : pmap) : pmap :=
  let y := Z.to_nat (OSTCBY prio) in
  let tbl := alter (fun b => Z.land b (u8 (Z.lnot (OSTCBBitX prio)))) y (Tbl m) in
  PMap (if decide (tbl !! y = Some 0) then Z.land (Grp m) (u8 (Z.lnot (OSTCBBitY prio))) else Grp m) tbl.

(** [y = OSUnMapTbl[Grp]; prio = (y << 3) + OSUnMapTbl[Tbl[y]];] *)
Definition pmap_first (m : pmap) : option Z :=
  y ← index OSUnMapTbl (Grp m);
  row ← index (Tbl m) y;
  x ← index OSUnMapTbl row;
  Some (u8 (Z.shiftl y 3 + x)).

(** *** The map as a set *)
Definition in_map (m : pmap) (p : Z) : bool :=
  match Tbl m !! Z.to_nat (p / 8) with Some row => Z.testbit row (p mod 8) | None => false end.

(** [m] stands for the set [X] of priorities. *)
Record pmap_set (m : pmap) (X : gset Z) : Prop := {
  ps_len : length (Tbl m) = 8%nat;
  ps_rows : Forall is_u8 (Tbl m);
  ps_grp : is_u8 (Grp m);
  ps_group y : 0 <= y < 8 -> Z.testbit (Grp m) y = bool_decide (Tbl m !! Z.to_nat y <> Some 0);
  ps_members p : p ∈ X <-> 0 <= p < 64 /\ in_map m p = true;
}.

(** The table gives the lowest bit that is set. *)
Definition lowest_bit (v x : Z) : bool :=
  (0 <=? x) && (x <? 8) && Z.testbit v x && forallb (fun i => negb (Z.testbit v i)) (seqZ 0 x).

Lemma OSUnMapTbl_lowest v : 0 < v < 256 -> exists x, index OSUnMapTbl v = Some x /\
  0 <= x < 8 /\ Z.testbit v x = true /\ forall i, 0 <= i < x -> Z.testbit v i = false.
Proof.
  intros Hv.
  assert (forallb (fun v => from_option (lowest_bit v) false (index OSUnMapTbl v)) (seqZ 1 255) = true)
    as Hall by (vm_compute; reflexivity).
  rewrite forallb_forall in Hall. specialize (Hall v). rewrite <- list_elem_of_In, elem_of_seqZ in Hall.
  specialize (Hall ltac:(lia)). destruct (index OSUnMapTbl v) as [x|]; [|done]. exists x.
  cbn [from_option] in Hall. unfold lowest_bit in Hall. rewrite !andb_true_iff, forallb_forall in Hall.
  destruct Hall as (((Hx0 & Hx8) & Hb) & Hmin). split_and!; [done|lia|lia|done|].
  intros i Hi. apply negb_true_iff, Hmin, list_elem_of_In, elem_of_seqZ. lia.
Qed.

(** *** Bits of a priority *)
Lemma prio_bits p : 0 <= p < 64 ->
  OSTCBY p = p / 8 /\ OSTCBX p = p mod 8 /\ OSTCBBitY p = 2 ^ (p / 8) /\ OSTCBBitX p = 2 ^ (p mod 8).
Proof.
  intros Hp. unfold OSTCBBitY, OSTCBBitX, OSTCBY, OSTCBX.
  rewrite Z.shiftr_div_pow2 by lia. change (2 ^ 3) with 8. change 7 with (Z.ones 3).
  rewrite Z.land_ones by lia. change (2 ^ 3) with 8. rewrite !Z.shiftl_1_l.
  assert (forall e, 0 <= e < 8 -> u8 (2 ^ e) = 2 ^ e) as Hu.
  { intros e He. unfold u8. apply Z.mod_small. split; [lia|]. apply Z.pow_lt_mono_r; lia. }
  split_and!; [done|done|apply Hu|apply Hu]; Z.to_euclidean_division_equations; lia.
Qed.

Lemma bit_pow2 e i : 0 <= e -> Z.testbit (2 ^ e) i = (i =? e).
Proof. intros He. destruct (Z.eqb_spec i e) as [->|]; [by apply Z.pow2_bits_true|by apply Z.pow2_bits_false]. Qed.

(** [~] of a byte with one bit. *)
Lemma bit_clear b e i : 0 <= e < 8 -> 0 <= i < 8 ->
  Z.testbit (Z.land b (u8 (Z.lnot (2 ^ e)))) i = Z.testbit b i && negb (i =? e).
Proof.
  intros He Hi. rewrite Z.land_spec. f_equal. unfold u8. rewrite Z.mod_pow2_bits_low by lia.
  by rewrite Z.lnot_spec, bit_pow2 by lia.
Qed.

Lemma bit_set b e i : 0 <= e -> Z.testbit (Z.lor b (2 ^ e)) i = Z.testbit b i || (i =? e).
Proof. intros He. by rewrite Z.lor_spec, bit_pow2. Qed.

Lemma u8_lor_pow2 b e : is_u8 b -> 0 <= e < 8 -> is_u8 (Z.lor b (2 ^ e)).
Proof.
  intros Hb He. apply lor_in_width; [done|]. unfold in_width. split; [lia|]. apply Z.pow_lt_mono_r; lia.
Qed.

Lemma u8_land b c : is_u8 b -> is_u8 (Z.land b c).
Proof.
  intros Hb. apply testbits_in_width; [lia|]. intros k Hk. by rewrite Z.land_spec, (in_width_testbit 8 b).
Qed.

(** A byte is zero when its bits are. *)
Lemma u8_zero b : is_u8 b -> b = 0 <-> forall i, 0 <= i < 8 -> Z.testbit b i = false.
Proof.
  intros Hb. split; [intros -> i _; apply Z.bits_0|]. intros H. apply Z.bits_inj_0. intros i.
  destruct (decide (i < 0)); [by apply Z.testbit_neg_r|].
  destruct (decide (i < 8)); [apply H; lia|apply (in_width_testbit 8); [done|lia]].
Qed.

Lemma u8_nonzero b : is_u8 b -> b <> 0 -> exists i, 0 <= i < 8 /\ Z.testbit b i = true.
Proof.
  intros Hb Hne. pose proof Hb as [H0 _]. exists (Z.log2 b). split.
  - split; [apply Z.log2_nonneg|]. apply Z.log2_lt_pow2; [lia|apply Hb].
  - apply Z.bit_log2. lia.
Qed.

(** *** The operations on sets *)
Lemma row_of m X y : pmap_set m X -> 0 <= y < 8 -> exists row, Tbl m !! Z.to_nat y = Some row /\ is_u8 row.
Proof.
  intros [Hl Hr _ _ _] Hy. destruct (lookup_lt_is_Some_2 (Tbl m) (Z.to_nat y)) as [row E]; [lia|].
  exists row. split; [done|]. rewrite Forall_forall in Hr. apply Hr. by apply list_elem_of_lookup_2 in E.
Qed.

Lemma prio_parts p : 0 <= p < 64 -> 0 <= p / 8 < 8 /\ 0 <= p mod 8 < 8.
Proof. intros Hp. Z.to_euclidean_division_equations; lia. Qed.

Lemma prio_eq p q : q / 8 = p / 8 -> (q mod 8 =? p mod 8) = (q =? p).
Proof. intros H. apply eq_true_iff_eq. rewrite !Z.eqb_eq. Z.to_euclidean_division_equations; lia. Qed.

Lemma in_map_alter f p q g row :
  0 <= p < 64 -> 0 <= q < 64 ->
  in_map (PMap g (alter f (Z.to_nat (p / 8)) row)) q =
  if decide (q / 8 = p / 8) then from_option (fun r => Z.testbit (f r) (q mod 8)) false (row !! Z.to_nat (p / 8))
  else in_map (PMap g row) q.
Proof.
  intros Hp Hq. pose proof (prio_parts p Hp). pose proof (prio_parts q Hq). unfold in_map. cbn [Tbl].
  case_decide as E.
  - rewrite E, list_lookup_alter_eq. by destruct (row !! _).
  - by rewrite list_lookup_alter_ne by lia.
Qed.

Lemma lookup_row f m X p y : pmap_set m X -> 0 <= p < 64 -> 0 <= y < 8 ->
  exists row, Tbl m !! Z.to_nat y = Some row /\ is_u8 row /\
    alter f (Z.to_nat (p / 8)) (Tbl m) !! Z.to_nat y = Some (if decide (y = p / 8) then f row else row).
Proof.
  intros Hm Hp Hy. destruct (row_of m X y Hm Hy) as (row & E & Hr). exists row. split_and!; [done|done|].
  pose proof (prio_parts p Hp). case_decide as Ey.
  - by rewrite <- Ey, list_lookup_alter_eq, E.
  - rewrite list_lookup_alter_ne by lia. done.
Qed.

Lemma u8_pow2 e : 0 <= e < 8 -> is_u8 (2 ^ e).
Proof. intros He. split; [lia|]. apply Z.pow_lt_mono_r; lia. Qed.

Lemma pmap_add_set p m X : 0 <= p < 64 -> pmap_set m X -> pmap_set (pmap_add p m) ({[p]} ∪ X).
Proof.
  intros Hp Hm. destruct (prio_parts p Hp) as [Hy Hx]. unfold pmap_add.
  destruct (prio_bits p Hp) as (-> & _ & -> & ->).
  set (f := fun b => Z.lor b (2 ^ (p mod 8))). constructor; cbn [Tbl Grp].
  - rewrite length_alter. apply Hm.
  - apply Forall_alter; [apply Hm|]. intros b _ Hb. by apply lor_in_width, u8_pow2.
  - apply lor_in_width, u8_pow2; [apply Hm|done].
  - intros y Hy'. destruct (lookup_row f m X p y Hm Hp Hy') as (row & E & Hr & ->).
    rewrite bit_set, (ps_group _ _ Hm y Hy'), E by lia.
    destruct (Z.eqb_spec y (p / 8)) as [->|Hne]; [|by rewrite decide_False, orb_false_r].
    rewrite decide_True, orb_true_r by done. symmetry. apply bool_decide_eq_true_2. intros [= H0].
    assert (Z.testbit (f row) (p mod 8) = true) as Hb by (subst f; cbn; rewrite bit_set, Z.eqb_refl, orb_true_r by lia; done).
    by rewrite H0, Z.bits_0 in Hb.
  - intros q. rewrite elem_of_union, elem_of_singleton, (ps_members _ _ Hm q).
    destruct (decide (0 <= q < 64)) as [Hq|Hq]; [|naive_solver].
    rewrite in_map_alter by done. unfold in_map.
    destruct (row_of m X (p / 8) Hm Hy) as (row & E & _). case_decide as Eq.
    + rewrite Eq, E. cbn [from_option]. subst f. cbn beta. rewrite bit_set, (prio_eq p q Eq), orb_true_iff, Z.eqb_eq by lia.
      naive_solver.
    + split; [intros [->|?]; [done|done]|by right].
Qed.

Lemma pmap_del_set p m X : 0 <= p < 64 -> pmap_set m X -> pmap_set (pmap_del p m) (X ∖ {[p]}).
Proof.
  intros Hp Hm. destruct (prio_parts p Hp) as [Hy Hx]. unfold pmap_del.
  destruct (prio_bits p Hp) as (-> & _ & -> & ->).
  set (f := fun b => Z.land b (u8 (Z.lnot (2 ^ (p mod 8))))).
  destruct (lookup_row f m X p (p / 8) Hm Hp Hy) as (row & E & Hr & E'). rewrite decide_True in E' by done.
  constructor; cbn [Tbl Grp].
  - rewrite length_alter. apply Hm.
  - apply Forall_alter; [apply Hm|]. intros b _ Hb. by apply u8_land.
  - case_decide; [apply u8_land|]; apply Hm.
  - intros y Hy'. destruct (lookup_row f m X p y Hm Hp Hy') as (row2 & E2 & Hr2 & ->).
    rewrite E'. pose proof (ps_group _ _ Hm y Hy') as Hg. rewrite E2 in Hg.
    destruct (decide (y = p / 8)) as [->|Hne].
    + rewrite E in E2. injection E2 as <-. destruct (decide (f row = 0)) as [H0|H0].
      * rewrite decide_True, bit_clear, Z.eqb_refl, andb_false_r by (done || by rewrite H0).
        by rewrite bool_decide_eq_false_2 by (rewrite H0; naive_solver).
      * rewrite decide_False by naive_solver. rewrite Hg. rewrite (bool_decide_eq_true_2 (Some (f row) <> _)) by naive_solver.
        apply bool_decide_eq_true_2. intros [= ->]. apply H0. subst f. cbn beta. by rewrite Z.land_0_l.
    + destruct (decide (Some (f row) = Some 0)); [|exact Hg]. rewrite bit_clear, (proj2 (Z.eqb_neq y (p / 8)) Hne), andb_true_r by done. exact Hg.
  - intros q. rewrite elem_of_difference, elem_of_singleton, (ps_members _ _ Hm q).
    destruct (decide (0 <= q < 64)) as [Hq|Hq]; [|naive_solver].
    rewrite in_map_alter by done. unfold in_map. case_decide as Eq.
    + rewrite Eq, E. cbn [from_option]. subst f. cbn beta. destruct (prio_parts q Hq).
      rewrite bit_clear, (prio_eq p q Eq), andb_true_iff, negb_true_iff, Z.eqb_neq by done. naive_solver.
    + split; [intros [? _]; done|]. intros ?. split; [done|]. by intros ->.
Qed.

Lemma member_row m X q : pmap_set m X -> q ∈ X ->
  Z.testbit (Grp m) (q / 8) = true /\
  exists row, Tbl m !! Z.to_nat (q / 8) = Some row /\ is_u8 row /\ Z.testbit row (q mod 8) = true.
Proof.
  intros Hm Hq. apply (ps_members _ _ Hm) in Hq as [Hq Hin]. destruct (prio_parts q Hq) as [Hy Hx].
  destruct (row_of m X (q / 8) Hm Hy) as (row & E & Hr). unfold in_map in Hin. rewrite E in Hin.
  split; [|by exists row]. rewrite (ps_group _ _ Hm _ Hy), E. apply bool_decide_eq_true_2.
  intros [= ->]. by rewrite Z.bits_0 in Hin.
Qed.

Lemma pmap_grp_empty m X : pmap_set m X -> Grp m = 0 <-> X = ∅.
Proof.
  intros Hm. split.
  - intros H0. apply set_eq. intros q. split; [|by rewrite elem_of_empty].
    intros Hq. destruct (member_row m X q Hm Hq) as [Hb _]. by rewrite H0, Z.bits_0 in Hb.
  - intros ->. apply (u8_zero _ (ps_grp _ _ Hm)). intros y Hy. rewrite (ps_group _ _ Hm y Hy).
    apply bool_decide_eq_false_2. intros Hne. destruct (row_of m ∅ y Hm Hy) as (row & E & Hr).
    destruct (u8_nonzero row Hr) as (x & Hx & Hb); [intros ->; by apply Hne|].
    assert (8 * y + x ∈ (∅ : gset Z)) as Hin; [|by apply elem_of_empty in Hin].
    apply (ps_members _ _ Hm). split; [lia|]. unfold in_map.
    replace ((8 * y + x) / 8) with y by (Z.to_euclidean_division_equations; lia).
    replace ((8 * y + x) mod 8) with x by (Z.to_euclidean_division_equations; lia). by rewrite E.
Qed.

(** The most urgent of a set that is not empty. *)
Lemma pmap_first_min m X : pmap_set m X -> X <> ∅ ->
  exists p, pmap_first m = Some p /\ p ∈ X /\ 0 <= p < 64 /\ forall q, q ∈ X -> p <= q.
Proof.
  intros Hm Hne. rewrite <- (pmap_grp_empty m X Hm) in Hne. destruct (ps_grp _ _ Hm) as [Hg0 Hg8].
  destruct (OSUnMapTbl_lowest (Grp m)) as (y & Ey & Hy & Hby & Hminy); [change (2 ^ 8) with 256 in *; lia|].
  destruct (row_of m X y Hm Hy) as (row & E & Hr). rewrite (ps_group _ _ Hm y Hy), E in Hby.
  apply bool_decide_eq_true_1 in Hby. assert (row <> 0) as Hrow by naive_solver. pose proof Hr as [Hr0 Hr8].
  destruct (OSUnMapTbl_lowest row) as (x & Ex & Hx & Hbx & Hminx); [change (2 ^ 8) with 256 in *; lia|].
  assert (0 <= 8 * y + x < 64) as Hp by lia. exists (8 * y + x). split_and!; [|apply (ps_members _ _ Hm)|lia|lia|].
  - unfold pmap_first. rewrite Ey. cbn [mbind option_bind].
    rewrite (proj2 (index_Some (Tbl m) y row)) by (split; [lia|done]). cbn [mbind option_bind].
    rewrite Ex. cbn [mbind option_bind]. f_equal. rewrite Z.shiftl_mul_pow2 by lia. unfold u8.
    change (2 ^ 3) with 8. change (2 ^ 8) with 256. rewrite Z.mod_small by lia. lia.
  - split; [done|]. unfold in_map. replace ((8 * y + x) / 8) with y by (Z.to_euclidean_division_equations; lia).
    replace ((8 * y + x) mod 8) with x by (Z.to_euclidean_division_equations; lia). by rewrite E.
  - intros q Hq. destruct (member_row m X q Hm Hq) as (Hgq & row2 & E2 & _ & Hb2).
    apply (ps_members _ _ Hm) in Hq as [Hq _]. destruct (prio_parts q Hq) as [Hqy Hqx].
    destruct (decide (q / 8 < y)) as [Hlt|Hge]; [by rewrite Hminy in Hgq by lia|].
    destruct (decide (q / 8 = y)) as [Hey|Hney]; [|Z.to_euclidean_division_equations; lia].
    rewrite Hey, E in E2. injection E2 as <-.
    destruct (decide (q mod 8 < x)) as [Hlt|]; [by rewrite Hminx in Hb2 by lia|].
    Z.to_euclidean_division_equations; lia.
Qed.

Lemma pmap_empty_set : pmap_set pmap_empty ∅.
Proof.
  constructor; [done| |done| |].
  - by apply (bool_decide_eq_true_1 _).
  - intros y Hy. cbn [Tbl Grp pmap_empty]. rewrite Z.bits_0. symmetry. apply bool_decide_eq_false_2.
    intros Hn. apply Hn. apply lookup_replicate. split; [done|lia].
  - intros p. split; [intros H; by apply elem_of_empty in H|]. intros [Hp Hin]. exfalso. unfold in_map in Hin.
    cbn [Tbl pmap_empty] in Hin. destruct (prio_parts p Hp).
    rewrite lookup_replicate_2 in Hin by lia. by rewrite Z.bits_0 in Hin.
Qed.

(** ** Tasks *)
Definition OS_STAT_RDY : Z := 0x00.
Definition OS_STAT_SEM : Z := 0x01.
Definition OS_STAT_Q : Z := 0x04.
Definition OS_STAT_SUSPEND : Z := 0x08.
Definition OS_STAT_PEND_ANY : Z := 0x37.
Definition OS_STAT_PEND_OK : Z := 0.
Definition OS_STAT_PEND_TO : Z := 1.
Definition OS_STAT_PEND_ABORT : Z := 2.

(** What of a task control block the waiting uses; its priority is its key.  The
    pointer [OSTCBEventMultiPtr] is left out: only [OSEventPendMulti], which nothing
    calls, makes it other than null. *)
Record tcb := Tcb { OSTCBMsg : Z; OSTCBDly : Z; OSTCBStat : Z; OSTCBStatPend : Z }.

#[export] Instance tcb_eta : Eta tcb := fun t => Tcb (OSTCBMsg t) (OSTCBDly t) (OSTCBStat t) (OSTCBStatPend t).
#[export] Instance upd_OSTCBMsg : Upd OSTCBMsg := ltac:(derive_upd).
#[export] Instance upd_OSTCBDly : Upd OSTCBDly := ltac:(derive_upd).
#[export] Instance upd_OSTCBStat : Upd OSTCBStat := ltac:(derive_upd).
#[export] Instance upd_OSTCBStatPend : Upd OSTCBStatPend := ltac:(derive_upd).

Record kernel := Kernel {
  OSTCBPrioTbl : gmap Z tcb;
  OSTCBList : list Z;      (** the tasks but the idle task *)
  OSRdy : pmap;            (** [OSRdyGrp], [OSRdyTbl] *)
  OSPrioCur : Z;
  OSPrioHighRdy : Z;
  OSIntNesting : Z;
  OSLockNesting : Z;
  OSTime : Z;
}.

#[export] Instance kernel_eta : Eta kernel := fun k =>
  Kernel (OSTCBPrioTbl k) (OSTCBList k) (OSRdy k) (OSPrioCur k) (OSPrioHighRdy k) (OSIntNesting k)
    (OSLockNesting k) (OSTime k).
#[export] Instance upd_OSTCBPrioTbl : Upd OSTCBPrioTbl := ltac:(derive_upd).
#[export] Instance upd_OSRdy : Upd OSRdy := ltac:(derive_upd).
#[export] Instance upd_OSPrioCur : Upd OSPrioCur := ltac:(derive_upd).
#[export] Instance upd_OSPrioHighRdy : Upd OSPrioHighRdy := ltac:(derive_upd).
#[export] Instance upd_OSTime : Upd OSTime := ltac:(derive_upd).

(** An event control block: a queue or a semaphore. *)
Record os_event := Event {
  OSEventType : Z;
  OSEventCnt : Z;
  OSEventWait : pmap;      (** [OSEventGrp], [OSEventTbl] *)
}.

#[export] Instance os_event_eta : Eta os_event := fun e => Event (OSEventType e) (OSEventCnt e) (OSEventWait e).
#[export] Instance upd_OSEventType : Upd OSEventType := ltac:(derive_upd).
#[export] Instance upd_OSEventCnt : Upd OSEventCnt := ltac:(derive_upd).
#[export] Instance upd_OSEventWait : Upd OSEventWait := ltac:(derive_upd).

(** The kernel and one event. *)
Record os := Os { os_k : kernel; os_e : os_event }.

#[export] Instance os_eta : Eta os := fun s => Os (os_k s) (os_e s).
#[export] Instance upd_os_k : Upd os_k := ltac:(derive_upd).
#[export] Instance upd_os_e : Upd os_e := ltac:(derive_upd).

Definition in_k {A} (m : M kernel A) : M os A := zoom os_k m.
Definition in_e {A} (m : M os_event A) : M os A := zoom os_e m.

(** [OSTCBPrioTbl[prio]], and a change of it. *)
Definition tcb_at (prio : Z) : M kernel tcb :=
  t ← gets (fun k => OSTCBPrioTbl k !! prio);
  match t with Some t => mret t | None => undefined NullDeref end.

Definition tcb_set (prio : Z) (t : tcb) : M kernel unit :=
  modify (fun k => k <| OSTCBPrioTbl := <[prio := t]> (OSTCBPrioTbl k) |>).

Definition make_ready (prio : Z) : M kernel unit :=
  modify (fun k => k <| OSRdy := pmap_add prio (OSRdy k) |>).

(** [OS_Sched]; the context switch makes the chosen task the current one. *)
Definition OS_SchedNew : M kernel unit :=
  rdy ← gets OSRdy;
  p ← from_array (pmap_first rdy);
  OSPrioHighRdy ::= p.

Definition OS_Sched : M kernel unit :=
  k ← gets id;
  if (OSIntNesting k =? 0) && (OSLockNesting k =? 0) then
    OS_SchedNew ;;
    k ← gets id;
    if negb (OSPrioHighRdy k =? OSPrioCur k) then
      tcb_at (OSPrioHighRdy k) ;;
      OSPrioCur ::= OSPrioHighRdy k
    else skip
  else skip.

Definition OS_EventTaskRemove (prio : Z) : M os unit :=
  in_e (modify (fun e => e <| OSEventWait := pmap_del prio (OSEventWait e) |>)).

(** No task waits for several events, so the branch on [OSTCBEventMultiPtr] at its end
    (os_core.c, lines 1103 to 1110) is not taken, and not modelled. *)
Definition OS_EventTaskRdy (pmsg msk pend_stat : Z) : M os Z :=
  w ← gets (fun s => OSEventWait (os_e s));
  prio ← from_array (pmap_first w);
  ptcb ← in_k (tcb_at prio);
  let stat := Z.land (OSTCBStat ptcb) (u8 (Z.lnot msk)) in
  in_k (tcb_set prio (Tcb pmsg 0 stat pend_stat)) ;;
  (if Z.land stat OS_STAT_SUSPEND =? OS_STAT_RDY then in_k (make_ready prio) else skip) ;;
  OS_EventTaskRemove prio ;;
  mret prio.

Definition OS_EventTaskWait : M os unit :=
  cur ← gets (fun s => OSPrioCur (os_k s));
  in_e (modify (fun e => e <| OSEventWait := pmap_add cur (OSEventWait e) |>)) ;;
  in_k (modify (fun k => k <| OSRdy := pmap_del cur (OSRdy k) |>)).

(** The part of [OSTimeTick] for one task, and the whole, with the kernel running and
    no debugger stepping it. *)
Definition tick_task (prio : Z) : M kernel unit :=
  ptcb ← tcb_at prio;
  if negb (OSTCBDly ptcb =? 0) then
    let dly := OSTCBDly ptcb - 1 in
    let ptcb := ptcb <| OSTCBDly := dly |> in
    if dly =? 0 then
      let ptcb :=
        if negb (Z.land (OSTCBStat ptcb) OS_STAT_PEND_ANY =? OS_STAT_RDY)
        then ptcb <| OSTCBStat := Z.land (OSTCBStat ptcb) (u8 (Z.lnot OS_STAT_PEND_ANY)) |>
                  <| OSTCBStatPend := OS_STAT_PEND_TO |>
        else ptcb <| OSTCBStatPend := OS_STAT_PEND_OK |> in
      tcb_set prio ptcb ;;
      if Z.land (OSTCBStat ptcb) OS_STAT_SUSPEND =? OS_STAT_RDY then make_ready prio else skip
    else tcb_set prio ptcb
  else skip.

Definition OSTimeTick : M kernel unit :=
  t ← gets OSTime;
  OSTime ::= u32 (t + 1) ;;
  l ← gets OSTCBList;
  for_each l tick_task.

(** ** What they do *)

(** The ready tasks are the set [R]; interrupts are done and the scheduler is not locked. *)
Record kernel_ok (R : gset Z) (k : kernel) : Prop := {
  ko_ready : pmap_set (OSRdy k) R;
  ko_tasks p : p ∈ R -> is_Some (OSTCBPrioTbl k !! p);
  ko_int : OSIntNesting k = 0;
  ko_lock : OSLockNesting k = 0;
}.

(** [p] is the most urgent of [X]. *)
Definition most_urgent (X : gset Z) (p : Z) : Prop := p ∈ X /\ forall q, q ∈ X -> p <= q.

Lemma most_urgent_unique X p q : most_urgent X p -> most_urgent X q -> p = q.
Proof. intros [Hp Hpm] [Hq Hqm]. specialize (Hpm q Hq). specialize (Hqm p Hp). lia. Qed.

Lemma most_urgent_first m X p : pmap_set m X -> most_urgent X p -> pmap_first m = Some p /\ 0 <= p < 64.
Proof.
  intros Hm Hp. destruct (pmap_first_min m X Hm) as (q & E & Hq & Hr & Hmin).
  { intros ->. by destruct Hp as [H%elem_of_empty _]. }
  by rewrite (most_urgent_unique X p q Hp) by done.
Qed.

Lemma most_urgent_exists m X : pmap_set m X -> X <> ∅ -> exists p, most_urgent X p.
Proof. intros Hm Hne. destruct (pmap_first_min m X Hm Hne) as (p & _ & Hp & _ & Hmin). by exists p. Qed.

Definition scheduled (p : Z) (k : kernel) : kernel := k <| OSPrioHighRdy := p |> <| OSPrioCur := p |>.

Lemma OS_Sched_run R k p :
  kernel_ok R k -> most_urgent R p -> OS_Sched k = Done tt (scheduled p k).
Proof.
  intros [Hr Ht Hi Hl] Hp. unfold OS_Sched. rewrite bind_gets. cbn [id]. rewrite Hi, Hl. cbn [andb Z.eqb].
  unfold OS_SchedNew. rewrite bind_bind, bind_gets, (proj1 (most_urgent_first _ _ _ Hr Hp)).
  cbn [from_array]. rewrite bind_bind, bind_ret, bind_put, bind_gets. cbn [id].
  destruct (Ht p) as [t E]; [apply Hp|].
  change (OSPrioHighRdy (k <| OSPrioHighRdy := p |>)) with p.
  change (OSPrioCur (k <| OSPrioHighRdy := p |>)) with (OSPrioCur k).
  destruct (Z.eqb_spec p (OSPrioCur k)) as [Ep|Ep]; cbn [negb].
  - unfold scheduled, skip. rewrite Ep. by destruct k.
  - unfold tcb_at. rewrite bind_bind, bind_gets.
    change (OSTCBPrioTbl (k <| OSPrioHighRdy := p |>)) with (OSTCBPrioTbl k). by rewrite E, bind_ret.
Qed.

Lemma tcb_at_run k p t : OSTCBPrioTbl k !! p = Some t -> tcb_at p k = Done t k.
Proof. intros E. unfold tcb_at. by rewrite bind_gets, E. Qed.

(** The task [p] is given [t] as its control block, and, unless it is suspended, made
    ready; and it waits no more. *)
Definition woken (p : Z) (t : tcb) (s : os) : os :=
  Os ((os_k s) <| OSTCBPrioTbl := <[p := t]> (OSTCBPrioTbl (os_k s)) |>
        <| OSRdy := (if Z.land (OSTCBStat t) OS_STAT_SUSPEND =? OS_STAT_RDY
                     then pmap_add p (OSRdy (os_k s)) else OSRdy (os_k s)) |>)
     ((os_e s) <| OSEventWait := pmap_del p (OSEventWait (os_e s)) |>).

Lemma OS_EventTaskRdy_run W s p t msg msk pend :
  pmap_set (OSEventWait (os_e s)) W -> most_urgent W p -> OSTCBPrioTbl (os_k s) !! p = Some t ->
  OS_EventTaskRdy msg msk pend s =
    Done p (woken p (Tcb msg 0 (Z.land (OSTCBStat t) (u8 (Z.lnot msk))) pend) s).
Proof.
  intros Hw Hp Ht. unfold OS_EventTaskRdy. rewrite bind_gets, (proj1 (most_urgent_first _ _ _ Hw Hp)).
  cbn [from_array]. rewrite bind_ret. unfold in_k, in_e, OS_EventTaskRemove.
  rewrite (bind_Done _ _ _ t s) by (unfold zoom; rewrite (tcb_at_run _ _ t) by done; by destruct s).
  unfold woken. cbn [OSTCBStat]. destruct (_ =? _); by destruct s.
Qed.

Definition asleep (s : os) : os :=
  let cur := OSPrioCur (os_k s) in
  Os ((os_k s) <| OSRdy := pmap_del cur (OSRdy (os_k s)) |>)
     ((os_e s) <| OSEventWait := pmap_add cur (OSEventWait (os_e s)) |>).

Lemma OS_EventTaskWait_run s : OS_EventTaskWait s = Done tt (asleep s).
Proof. by destruct s as [[] []]. Qed.

Lemma woken_ok W R s p t :
  pmap_set (OSEventWait (os_e s)) W -> kernel_ok R (os_k s) -> 0 <= p < 64 ->
  Z.land (OSTCBStat t) OS_STAT_SUSPEND = OS_STAT_RDY ->
  pmap_set (OSEventWait (os_e (woken p t s))) (W ∖ {[p]}) /\ kernel_ok ({[p]} ∪ R) (os_k (woken p t s)).
Proof.
  intros Hw [Hr Ht Hi Hl] Hp Hs. split; [by apply pmap_del_set|]. unfold woken. rewrite Hs. cbn [Z.eqb OS_STAT_RDY].
  constructor; cbn; [by apply pmap_add_set| |done|done].
  intros q [->%elem_of_singleton|Hq]%elem_of_union; [by rewrite lookup_insert_eq|].
  destruct (decide (p = q)) as [->|Hne]; [by rewrite lookup_insert_eq|]. rewrite lookup_insert_ne by done. by apply Ht.
Qed.

Lemma asleep_ok W R s :
  pmap_set (OSEventWait (os_e s)) W -> kernel_ok R (os_k s) -> 0 <= OSPrioCur (os_k s) < 64 ->
  pmap_set (OSEventWait (os_e (asleep s))) ({[OSPrioCur (os_k s)]} ∪ W) /\
  kernel_ok (R ∖ {[OSPrioCur (os_k s)]}) (os_k (asleep s)).
Proof.
  intros Hw [Hr Ht Hi Hl] Hp. split; [by apply pmap_add_set|].
  constructor; cbn; [by apply pmap_del_set| |done|done]. intros q Hq. apply Ht. set_solver.
Qed.
