(* ===== verification/OsQueue.v ===== *)
(** * Message queues and semaphores of the kernel

    src/UCOSII/uCOS-II/Source/os_q.c and os_sem.c over the wait lists of Kernel.v. A
    call that blocks is two functions: what the task does until it gives up the
    processor, and what it does when it runs again. *)
From Stdlib Require Import ZArith Lia.
From stdpp Require Import base tactics decidable list list_numbers numbers gmap.
From S2P Require Import Prelude Kernel.
Open Scope Z_scope.
Open Scope c_scope.

Definition OS_ERR_NONE : Z := 0.
Definition OS_ERR_EVENT_TYPE : Z := 1.
Definition OS_ERR_PEND_ISR : Z := 2.
Definition OS_ERR_TIMEOUT : Z := 10.
Definition OS_ERR_PEND_LOCKED : Z := 13.
Definition OS_ERR_PEND_ABORT : Z := 14.
Definition OS_ERR_Q_FULL : Z := 30.
Definition OS_ERR_Q_EMPTY : Z := 31.
Definition OS_ERR_SEM_OVF : Z := 51.
Definition OS_EVENT_TYPE_Q : Z := 2.
Definition OS_EVENT_TYPE_SEM : Z := 3.

(** ** The queue control block; [OSQIn] and [OSQOut] are indices into the storage
    [OSQStart], and [OSQEnd] is the index [OSQSize]. *)
Record os_q := OSQ {
  OSQStart : list Z;
  OSQSize : Z;
  OSQIn : Z;
  OSQOut : Z;
  OSQEntries : Z;
}.

#[export] Instance os_q_eta : Eta os_q := fun q => OSQ (OSQStart q) (OSQSize q) (OSQIn q) (OSQOut q) (OSQEntries q).
#[export] Instance upd_OSQStart : Upd OSQStart := ltac:(derive_upd).
#[export] Instance upd_OSQIn : Upd OSQIn := ltac:(derive_upd).
#[export] Instance upd_OSQOut : Upd OSQOut := ltac:(derive_upd).
#[export] Instance upd_OSQEntries : Upd OSQEntries := ltac:(derive_upd).

Record queue_os := QueueOs { q_os : os; q_cb : os_q }.

#[export] Instance queue_os_eta : Eta queue_os := fun s => QueueOs (q_os s) (q_cb s).
#[export] Instance upd_q_os : Upd q_os := ltac:(derive_upd).
#[export] Instance upd_q_cb : Upd q_cb := ltac:(derive_upd).

Notation MQ := (M queue_os).
Definition in_os {A} (m : M os A) : MQ A := zoom q_os m.
Definition in_q {A} (m : M os_q A) : MQ A := zoom q_cb m.

(** [pmsg = *pq->OSQOut++; pq->OSQEntries--; if (OSQOut == OSQEnd) OSQOut = OSQStart;] *)
Definition q_get : M os_q Z :=
  q ← gets id;
  pmsg ← from_array (index (OSQStart q) (OSQOut q));
  OSQEntries ::= u16 (OSQEntries q - 1) ;;
  OSQOut ::= (if OSQOut q + 1 =? OSQSize q then 0 else OSQOut q + 1) ;;
  mret pmsg.

(** [*pq->OSQIn++ = pmsg; pq->OSQEntries++; if (OSQIn == OSQEnd) OSQIn = OSQStart;] *)
Definition q_put (pmsg : Z) : M os_q unit :=
  q ← gets id;
  wr OSQStart (OSQIn q) pmsg ;;
  OSQEntries ::= u16 (OSQEntries q + 1) ;;
  OSQIn ::= (if OSQIn q + 1 =? OSQSize q then 0 else OSQIn q + 1).

(** [if (OSQOut == OSQStart) OSQOut = OSQEnd; OSQOut--; *OSQOut = pmsg; OSQEntries++;] *)
Definition q_put_front (pmsg : Z) : M os_q unit :=
  q ← gets id;
  let out := (if OSQOut q =? 0 then OSQSize q else OSQOut q) - 1 in
  OSQOut ::= out ;;
  wr OSQStart out pmsg ;;
  OSQEntries ::= u16 (OSQEntries q + 1).

Definition is_type (t : Z) : MQ bool := e ← gets (fun s => os_e (q_os s)); mret (OSEventType e =? t).
Definition someone_waits : MQ bool := e ← gets (fun s => os_e (q_os s)); mret (negb (Grp (OSEventWait e) =? 0)).

(** The two ends of posting, which differ only in where the message goes. *)
Definition post_with (put : Z -> M os_q unit) (pmsg : Z) : MQ Z :=
  ok ← is_type OS_EVENT_TYPE_Q;
  if negb ok then mret OS_ERR_EVENT_TYPE
  else
    waits ← someone_waits;
    if waits : bool then
      in_os (OS_EventTaskRdy pmsg OS_STAT_Q OS_STAT_PEND_OK) ;;
      in_os (in_k OS_Sched) ;;
      mret OS_ERR_NONE
    else
      q ← gets q_cb;
      if OSQSize q <=? OSQEntries q then mret OS_ERR_Q_FULL
      else in_q (put pmsg) ;; mret OS_ERR_NONE.

Definition OSQPost : Z -> MQ Z := post_with q_put.
Definition OSQPostFront : Z -> MQ Z := post_with q_put_front.

(** The message (or null) and the error. *)
Definition OSQAccept : MQ (Z * Z) :=
  ok ← is_type OS_EVENT_TYPE_Q;
  if negb ok then mret (0, OS_ERR_EVENT_TYPE)
  else
    q ← gets q_cb;
    if 0 <? OSQEntries q then pmsg ← in_q q_get; mret (pmsg, OS_ERR_NONE)
    else mret (0, OS_ERR_Q_EMPTY).

Definition OSQFlush : MQ Z :=
  in_q (OSQIn ::= 0) ;;
  in_q (OSQOut ::= 0) ;;
  in_q (OSQEntries ::= 0) ;;
  mret OS_ERR_NONE.

(** [OSQQuery]: error, next message, number of messages, size. *)
Definition OSQQuery : MQ (Z * option (Z * Z * Z)) :=
  ok ← is_type OS_EVENT_TYPE_Q;
  if negb ok then mret (OS_ERR_EVENT_TYPE, None)
  else
    q ← gets q_cb;
    pmsg ← (if 0 <? OSQEntries q then in_q (from_array (index (OSQStart q) (OSQOut q))) else mret 0);
    mret (OS_ERR_NONE, Some (pmsg, OSQEntries q, OSQSize q)).

(** ** Waiting *)

(** [OSTCBStat |= stat; OSTCBStatPend = OK; OSTCBDly = timeout; OS_EventTaskWait; OS_Sched] *)
Definition pend_block (stat timeout : Z) : M os unit :=
  cur ← gets (fun s => OSPrioCur (os_k s));
  t ← in_k (tcb_at cur);
  in_k (tcb_set cur (Tcb (OSTCBMsg t) timeout (Z.lor (OSTCBStat t) stat) OS_STAT_PEND_OK)) ;;
  OS_EventTaskWait ;;
  in_k OS_Sched.

(** The [switch (OSTCBCur->OSTCBStatPend)] and what follows. *)
Definition pend_wake : M os (Z * Z) :=
  cur ← gets (fun s => OSPrioCur (os_k s));
  t ← in_k (tcb_at cur);
  r ← (if OSTCBStatPend t =? OS_STAT_PEND_OK then mret (OSTCBMsg t, OS_ERR_NONE)
       else if OSTCBStatPend t =? OS_STAT_PEND_ABORT then mret (0, OS_ERR_PEND_ABORT)
       else OS_EventTaskRemove cur ;; mret (0, OS_ERR_TIMEOUT));
  in_k (tcb_set cur (Tcb 0 (OSTCBDly t) OS_STAT_RDY OS_STAT_PEND_OK)) ;;
  mret r.

(** [OSQPend] up to the point where it returns or another task runs ([None]). *)
Definition OSQPend (timeout : Z) : MQ (option (Z * Z)) :=
  ok ← is_type OS_EVENT_TYPE_Q;
  k ← gets (fun s => os_k (q_os s));
  if negb ok then mret (Some (0, OS_ERR_EVENT_TYPE))
  else if 0 <? OSIntNesting k then mret (Some (0, OS_ERR_PEND_ISR))
  else if 0 <? OSLockNesting k then mret (Some (0, OS_ERR_PEND_LOCKED))
  else
    q ← gets q_cb;
    if 0 <? OSQEntries q then pmsg ← in_q q_get; mret (Some (pmsg, OS_ERR_NONE))
    else in_os (pend_block OS_STAT_Q timeout) ;; mret None.

(** The same task, when it runs again. *)
Definition OSQPend_resumed : MQ (Z * Z) := in_os pend_wake.

(** [OSQCreate], with the numbers of free event and queue control blocks: the queue
    over [start], if there is one, and the numbers left. *)
Definition OSQCreate (OSIntNesting events queues : Z) (start : list Z) (size : Z)
  : option (os_event * os_q) * (Z * Z) :=
  if 0 <? OSIntNesting then (None, (events, queues))
  else if events =? 0 then (None, (events, queues))
  else if queues =? 0 then (None, (events, queues))
  else (Some (Event OS_EVENT_TYPE_Q 0 pmap_empty, OSQ start size 0 0 0), (events - 1, queues - 1)).

(** ** Semaphores *)
Definition sem_type_ok : M os bool := e ← gets os_e; mret (OSEventType e =? OS_EVENT_TYPE_SEM).

(** [None]: another task runs. *)
Definition OSSemPend (timeout : Z) : M os (option Z) :=
  ok ← sem_type_ok;
  s ← gets id;
  if negb ok then mret (Some OS_ERR_EVENT_TYPE)
  else if 0 <? OSIntNesting (os_k s) then mret (Some OS_ERR_PEND_ISR)
  else if 0 <? OSLockNesting (os_k s) then mret (Some OS_ERR_PEND_LOCKED)
  else if 0 <? OSEventCnt (os_e s) then
    in_e (OSEventCnt ::= OSEventCnt (os_e s) - 1) ;; mret (Some OS_ERR_NONE)
  else pend_block OS_STAT_SEM timeout ;; mret None.

Definition OSSemPend_resumed : M os Z :=
  cur ← gets (fun s => OSPrioCur (os_k s));
  t ← in_k (tcb_at cur);
  r ← (if OSTCBStatPend t =? OS_STAT_PEND_OK then mret OS_ERR_NONE
       else if OSTCBStatPend t =? OS_STAT_PEND_ABORT then mret OS_ERR_PEND_ABORT
       else OS_EventTaskRemove cur ;; mret OS_ERR_TIMEOUT);
  in_k (tcb_set cur (Tcb (OSTCBMsg t) (OSTCBDly t) OS_STAT_RDY OS_STAT_PEND_OK)) ;;
  mret r.

Definition OSSemPost : M os Z :=
  ok ← sem_type_ok;
  e ← gets os_e;
  if negb ok then mret OS_ERR_EVENT_TYPE
  else if negb (Grp (OSEventWait e) =? 0) then
    OS_EventTaskRdy 0 OS_STAT_SEM OS_STAT_PEND_OK ;;
    in_k OS_Sched ;;
    mret OS_ERR_NONE
  else if OSEventCnt e <? 65535 then
    in_e (OSEventCnt ::= OSEventCnt e + 1) ;; mret OS_ERR_NONE
  else mret OS_ERR_SEM_OVF.
