(* ===== verification/OsQueueSpec.v ===== *)
(** * What the queues of the kernel promise

    The ring of pointers is a bounded queue; a message posted while tasks wait goes to
    the most urgent of them; a wait with a time limit ends. *)
From Stdlib Require Import ZArith Lia.
From stdpp Require Import base tactics decidable list list_numbers numbers gmap.
From S2P Require Import Prelude Kernel OsQueue.
Open Scope Z_scope.
Open Scope c_scope.

(** ** The ring *)
Record q_ok (q : os_q) : Prop := {
  qo_size : 0 < OSQSize q < 2 ^ 16 /\ OSQSize q <= Z.of_nat (length (OSQStart q));
  qo_out : 0 <= OSQOut q < OSQSize q;
  qo_entries : 0 <= OSQEntries q <= OSQSize q;
  qo_in : OSQIn q = (OSQOut q + OSQEntries q) mod OSQSize q;
}.

Definition cell (q : os_q) (i : Z) : Z := default 0 (index (OSQStart q) (i mod OSQSize q)).

(** The messages, oldest first. *)
Definition messages (q : os_q) : list Z := (fun i => cell q (OSQOut q + i)) <$> seqZ 0 (OSQEntries q).

Lemma messages_length q : q_ok q -> Z.of_nat (length (messages q)) = OSQEntries q.
Proof. intros [_ _ He _]. unfold messages. rewrite length_fmap, length_seqZ. lia. Qed.

Lemma messages_nil q : q_ok q -> messages q = [] <-> OSQEntries q = 0.
Proof.
  intros Hq. pose proof (messages_length q Hq) as Hl. split.
  - intros E. by rewrite E in Hl.
  - intros E. destruct (messages q); [done|cbn in Hl; lia].
Qed.

(** A pointer moved on. *)
Lemma next_pointer i n : 0 <= i < n -> (if i + 1 =? n then 0 else i + 1) = (i + 1) mod n.
Proof.
  intros Hi. destruct (Z.eqb_spec (i + 1) n) as [->|Hne]; [by rewrite Z.mod_same by lia|].
  by rewrite Z.mod_small by lia.
Qed.

Lemma cell_read q i : q_ok q -> 0 <= i < OSQSize q -> index (OSQStart q) i = Some (cell q i).
Proof.
  intros [Hs _ _ _] Hi. unfold cell. rewrite Z.mod_small by lia.
  by destruct (index_is_Some (OSQStart q) i) as [a ->]; [lia|].
Qed.

Lemma q_get_run q m l :
  q_ok q -> messages q = m :: l ->
  exists q', q_get q = Done m q' /\ q_ok q' /\ messages q' = l /\ OSQSize q' = OSQSize q.
Proof.
  intros Hq E. pose proof (messages_length q Hq) as Hl. rewrite E in Hl. cbn [length] in Hl.
  pose proof Hq as [Hs Ho He Hi]. unfold q_get.
  unfold messages in E. rewrite seqZ_cons in E by lia. rewrite fmap_cons in E. injection E as Em El.
  rewrite Z.add_0_r in Em. eexists. split_and!.
  - rewrite bind_gets. cbn [id]. rewrite (cell_read q _ Hq Ho), Em. cbn [from_array].
    rewrite bind_ret, bind_put. unfold u16. rewrite Z.mod_small by lia. rewrite bind_put, next_pointer by lia. reflexivity.
  - constructor; cbn; [done|apply Z.mod_pos_bound; lia|lia|]. rewrite Hi, Zplus_mod_idemp_l. f_equal. lia.
  - rewrite <- El. unfold messages. cbn. rewrite <- (fmap_add_seqZ 1 0), <- list_fmap_compose.
    replace (Z.pred (OSQEntries q)) with (OSQEntries q - 1) by lia.
    apply list_fmap_ext. intros k i _. cbn. unfold cell. cbn. by rewrite Zplus_mod_idemp_l, Z.add_assoc.
  - done.
Qed.

Lemma cell_write q i v j :
  q_ok q -> 0 <= i < OSQSize q ->
  cell (q <| OSQStart := <[Z.to_nat i := v]> (OSQStart q) |>) j = if j mod OSQSize q =? i then v else cell q j.
Proof.
  intros [Hs _ _ _] Hi. unfold cell. cbn. pose proof (Z.mod_pos_bound j (OSQSize q) ltac:(lia)) as Hj.
  unfold index. rewrite !bool_decide_eq_true_2 by lia. destruct (Z.eqb_spec (j mod OSQSize q) i) as [->|Hne].
  - by rewrite list_lookup_insert_eq by lia.
  - by rewrite list_lookup_insert_ne by lia.
Qed.

(** The other messages lie elsewhere. *)
Lemma ring_apart n o i j : 0 < n -> 0 <= i < j -> j < n -> (o + i) mod n <> (o + j) mod n.
Proof.
  intros Hn Hi Hj E. assert ((o + j - (o + i)) mod n = 0) as E2 by (rewrite Zminus_mod, E, Z.sub_diag; apply Zmod_0_l).
  replace (o + j - (o + i)) with (j - i) in E2 by lia. rewrite Z.mod_small in E2 by lia. lia.
Qed.

Lemma q_put_run q m :
  q_ok q -> OSQEntries q < OSQSize q ->
  exists q', q_put m q = Done tt q' /\ q_ok q' /\ messages q' = messages q ++ [m] /\ OSQSize q' = OSQSize q.
Proof.
  intros Hq Hlt. pose proof Hq as [Hs Ho He Hi].
  assert (0 <= OSQIn q < OSQSize q) as Hin by (rewrite Hi; apply Z.mod_pos_bound; lia).
  eexists. split_and!.
  - unfold q_put. rewrite bind_gets. cbn [id]. rewrite (bind_Done _ _ q tt (q <| OSQStart := <[Z.to_nat (OSQIn q) := m]> (OSQStart q) |>)) by (apply wr_Done; lia).
    rewrite bind_put. unfold u16. rewrite Z.mod_small by lia. rewrite next_pointer by lia. reflexivity.
  - constructor; cbn; [rewrite length_insert; done|done|lia|].
    rewrite Hi, Zplus_mod_idemp_l. f_equal. lia.
  - unfold messages. cbn. rewrite seqZ_app, fmap_app by lia. f_equal.
    + apply list_fmap_ext. intros k i Hk. apply lookup_seqZ in Hk as [-> Hk]. cbn.
      etrans; [exact (cell_write q _ m _ Hq Hin)|]. rewrite (proj2 (Z.eqb_neq _ _)); [done|].
      rewrite Hi, Z.add_0_l. by apply ring_apart; lia.
    + rewrite Z.add_0_l, seqZ_cons, seqZ_nil by lia. cbn. f_equal.
      etrans; [exact (cell_write q _ m _ Hq Hin)|]. by rewrite Hi, Z.eqb_refl.
  - done.
Qed.

Lemma q_put_front_run q m :
  q_ok q -> OSQEntries q < OSQSize q ->
  exists q', q_put_front m q = Done tt q' /\ q_ok q' /\ messages q' = m :: messages q /\ OSQSize q' = OSQSize q.
Proof.
  intros Hq Hlt. pose proof Hq as [Hs Ho He Hi].
  set (out := (if OSQOut q =? 0 then OSQSize q else OSQOut q) - 1).
  assert (0 <= out < OSQSize q) as Hout by (subst out; destruct (Z.eqb_spec (OSQOut q) 0); lia).
  assert (OSQOut q = (out + 1) mod OSQSize q) as Eout.
  { subst out. destruct (Z.eqb_spec (OSQOut q) 0) as [->|].
    - rewrite Z.sub_add, Z.mod_same by lia. done.
    - rewrite Z.sub_add, Z.mod_small by lia. done. }
  eexists. split_and!.
  - unfold q_put_front. rewrite bind_gets. cbn [id]. fold out. rewrite bind_put.
    set (q1 := q <| OSQOut := out |>).
    rewrite (bind_Done _ _ q1 tt (q1 <| OSQStart := <[Z.to_nat out := m]> (OSQStart q1) |>)) by (apply wr_Done; cbn; lia).
    unfold u16. rewrite Z.mod_small by lia. reflexivity.
  - constructor; cbn; [rewrite length_insert; done|done|lia|].
    rewrite Hi, Eout, Zplus_mod_idemp_l. f_equal. lia.
  - unfold messages. cbn. rewrite seqZ_cons by lia. rewrite fmap_cons. f_equal.
    + cbn. etrans; [exact (cell_write q _ m _ Hq Hout)|]. by rewrite Z.add_0_r, Z.mod_small, Z.eqb_refl by lia.
    + replace (Z.pred (OSQEntries q + 1)) with (OSQEntries q) by lia. change (Z.succ 0) with (1 + 0).
      rewrite <- fmap_add_seqZ, <- list_fmap_compose.
      apply list_fmap_ext. intros k i Hk. apply lookup_seqZ in Hk as [-> Hk]. cbn.
      etrans; [exact (cell_write q _ m _ Hq Hout)|]. rewrite (proj2 (Z.eqb_neq _ _)).
      * unfold cell. rewrite Eout, Zplus_mod_idemp_l, !Z.add_assoc. done.
      * rewrite <- (Z.mod_small out (OSQSize q)) at 2 by lia. rewrite <- (Z.add_0_r out) at 2.
        apply not_eq_sym, ring_apart; lia.
  - done.
Qed.

(** ** The queue and its tasks *)

(** [W] waits for the queue, [R] is ready, the most urgent of [R] runs, and nobody
    waits while a message is there. *)
Record queue_inv (W R : gset Z) (s : queue_os) : Prop := {
  qi_type : OSEventType (os_e (q_os s)) = OS_EVENT_TYPE_Q;
  qi_wait : pmap_set (OSEventWait (os_e (q_os s))) W;
  qi_kernel : kernel_ok R (os_k (q_os s));
  qi_ring : q_ok (q_cb s);
  qi_empty : W <> ∅ -> messages (q_cb s) = [];
  qi_tasks p : p ∈ W ∪ R -> exists t, OSTCBPrioTbl (os_k (q_os s)) !! p = Some t /\
    Z.land (OSTCBStat t) OS_STAT_SUSPEND = OS_STAT_RDY;
  qi_runs : most_urgent R (OSPrioCur (os_k (q_os s)));
}.

Definition task (s : queue_os) (p : Z) : option tcb := OSTCBPrioTbl (os_k (q_os s)) !! p.
Definition running (s : queue_os) : Z := OSPrioCur (os_k (q_os s)).

Lemma not_suspended_clear a c : Z.land a OS_STAT_SUSPEND = OS_STAT_RDY -> Z.land (Z.land a c) OS_STAT_SUSPEND = OS_STAT_RDY.
Proof. intros H. by rewrite <- Z.land_assoc, (Z.land_comm c), Z.land_assoc, H, Z.land_0_l. Qed.

Lemma not_suspended_set a c :
  Z.land c OS_STAT_SUSPEND = 0 -> Z.land a OS_STAT_SUSPEND = OS_STAT_RDY ->
  Z.land (Z.lor a c) OS_STAT_SUSPEND = OS_STAT_RDY.
Proof. intros Hc H. by rewrite Z.land_lor_distr_l, H, Hc. Qed.

(** A priority map has priorities below 64. *)
Lemma pmap_range m X p : pmap_set m X -> p ∈ X -> 0 <= p < 64.
Proof. intros Hm Hp. by apply (ps_members _ _ Hm) in Hp as [Hp _]. Qed.

(** Scheduling restores "the most urgent runs". *)
Lemma sched_run R k p :
  kernel_ok R k -> most_urgent R p ->
  OS_Sched k = Done tt (scheduled p k) /\ kernel_ok R (scheduled p k).
Proof. intros Hk Hp. split; [by eapply OS_Sched_run|]. destruct Hk. by constructor. Qed.

Lemma is_type_run t s : is_type t s = Done (OSEventType (os_e (q_os s)) =? t) s.
Proof. done. Qed.

Lemma someone_waits_run W R s : queue_inv W R s -> someone_waits s = Done (bool_decide (W <> ∅)) s.
Proof.
  intros Hi. unfold someone_waits. rewrite bind_gets. unfold mret, M_ret. f_equal.
  apply eq_true_iff_eq. rewrite negb_true_iff, Z.eqb_neq, bool_decide_eq_true.
  by rewrite (pmap_grp_empty _ _ (qi_wait _ _ _ Hi)).
Qed.

Lemma in_kernel_run {A} (m : M kernel A) s a k :
  m (os_k (q_os s)) = Done a k -> in_os (in_k m) s = Done a (QueueOs (Os k (os_e (q_os s))) (q_cb s)).
Proof. intros E. unfold in_os, in_k, zoom. by rewrite E. Qed.

Lemma in_os_run {A} (m : M os A) s a o :
  m (q_os s) = Done a o -> in_os m s = Done a (QueueOs o (q_cb s)).
Proof. intros E. unfold in_os, zoom. by rewrite E. Qed.

Lemma in_q_run {A} (m : M os_q A) s a q :
  m (q_cb s) = Done a q -> in_q m s = Done a (QueueOs (q_os s) q).
Proof. intros E. unfold in_q, zoom. by rewrite E. Qed.

(** A message for a task that waits. *)
Lemma deliver_run put m W R s p t :
  queue_inv W R s -> most_urgent W p -> task s p = Some t ->
  exists s' c, post_with put m s = Done OS_ERR_NONE s' /\ queue_inv (W ∖ {[p]}) ({[p]} ∪ R) s' /\
    q_cb s' = q_cb s /\ most_urgent ({[p]} ∪ R) c /\ running s' = c /\
    task s' p = Some (Tcb m 0 (Z.land (OSTCBStat t) (u8 (Z.lnot OS_STAT_Q))) OS_STAT_PEND_OK) /\
    (forall q, q <> p -> task s' q = task s q).
Proof.
  intros Hi Hp Ht. pose proof Hi as [Hty Hw Hk Hr He Htasks Hruns].
  assert (W <> ∅) as HW by (intros ->; by destruct Hp as [H%elem_of_empty _]).
  pose proof (pmap_range _ _ _ Hw (proj1 Hp)) as Hp64.
  set (t' := Tcb m 0 (Z.land (OSTCBStat t) (u8 (Z.lnot OS_STAT_Q))) OS_STAT_PEND_OK).
  assert (Z.land (OSTCBStat t') OS_STAT_SUSPEND = OS_STAT_RDY) as Hs'.
  { destruct (Htasks p) as (t0 & E0 & Hs); [apply elem_of_union_l, Hp|].
    unfold task in Ht. rewrite Ht in E0. injection E0 as <-. by apply not_suspended_clear. }
  destruct (woken_ok W R (q_os s) p t' Hw Hk Hp64 Hs') as [Hw' Hk'].
  destruct (most_urgent_exists _ _ (ko_ready _ _ Hk')) as [c Hc]; [set_solver|].
  destruct (sched_run _ _ c Hk' Hc) as [Esched Hk2].
  exists (QueueOs (Os (scheduled c (os_k (woken p t' (q_os s)))) (os_e (woken p t' (q_os s)))) (q_cb s)), c.
  split_and!; try done.
  - unfold post_with. rewrite (bind_Done _ _ _ _ _ (is_type_run _ s)), Hty. cbn [negb Z.eqb OS_EVENT_TYPE_Q Pos.eqb].
    rewrite (bind_Done _ _ _ _ _ (someone_waits_run W R s Hi)), bool_decide_eq_true_2 by done.
    rewrite (bind_Done _ _ _ _ _ (in_os_run _ s _ _ (OS_EventTaskRdy_run W (q_os s) p t _ _ _ Hw Hp Ht))).
    by rewrite (bind_Done _ _ _ _ _ (in_kernel_run _ (QueueOs _ _) _ _ Esched)).
  - constructor; try done.
    + intros _. by apply He.
    + intros q Hq. cbn. destruct (decide (p = q)) as [<-|Hne].
      * exists t'. by rewrite lookup_insert_eq.
      * rewrite lookup_insert_ne by done. apply Htasks. set_solver.
  - unfold task. cbn. by rewrite lookup_insert_eq.
  - intros q Hq. unfold task. cbn. by rewrite lookup_insert_ne by done.
Qed.

(** A message nobody waits for. *)
Lemma append_run put m new W R s :
  (forall q, q_ok q -> OSQEntries q < OSQSize q -> exists q', put m q = Done tt q' /\ q_ok q' /\
    messages q' = new (messages q) /\ OSQSize q' = OSQSize q) ->
  queue_inv W R s -> W = ∅ ->
  if bool_decide (Z.of_nat (length (messages (q_cb s))) < OSQSize (q_cb s))
  then exists q', post_with put m s = Done OS_ERR_NONE (QueueOs (q_os s) q') /\ q_ok q' /\
    messages q' = new (messages (q_cb s)) /\ OSQSize q' = OSQSize (q_cb s)
  else post_with put m s = Done OS_ERR_Q_FULL s.
Proof.
  intros Hput Hi HW. pose proof (qi_ring _ _ _ Hi) as Hq. rewrite (messages_length _ Hq).
  assert (post_with put m s = (if OSQSize (q_cb s) <=? OSQEntries (q_cb s) then mret OS_ERR_Q_FULL
    else in_q (put m) ;; mret OS_ERR_NONE) s) as E.
  { unfold post_with. rewrite (bind_Done _ _ _ _ _ (is_type_run _ s)), (qi_type _ _ _ Hi).
    cbn [negb Z.eqb OS_EVENT_TYPE_Q Pos.eqb].
    by rewrite (bind_Done _ _ _ _ _ (someone_waits_run W R s Hi)), bool_decide_eq_false_2 by naive_solver. }
  rewrite E. case_bool_decide as Hlt.
  - rewrite (proj2 (Z.leb_gt _ _) Hlt). destruct (Hput (q_cb s) Hq Hlt) as (q' & Ep & H).
    exists q'. split; [|done]. by rewrite (bind_Done _ _ _ _ _ (in_q_run _ s _ _ Ep)).
  - by rewrite (proj2 (Z.leb_le _ _)) by lia.
Qed.

Lemma same_kernel_inv W R s q :
  queue_inv W R s -> q_ok q -> (W <> ∅ -> messages q = []) -> queue_inv W R (QueueOs (q_os s) q).
Proof. intros [] Hq He. by constructor. Qed.

(** The current task goes to sleep on the queue. *)
Lemma block_run timeout W R s c :
  queue_inv W R s -> messages (q_cb s) = [] -> running s ∉ W -> most_urgent (R ∖ {[running s]}) c ->
  exists s' t, OSQPend timeout s = Done None s' /\ queue_inv ({[running s]} ∪ W) (R ∖ {[running s]}) s' /\
    q_cb s' = q_cb s /\ running s' = c /\ task s (running s) = Some t /\
    task s' (running s) = Some (Tcb (OSTCBMsg t) timeout (Z.lor (OSTCBStat t) OS_STAT_Q) OS_STAT_PEND_OK) /\
    (forall q, q <> running s -> task s' q = task s q).
Proof.
  intros Hi Hm Hcur Hc. pose proof Hi as [Hty Hw Hk Hr He Htasks Hruns]. unfold running in *.
  set (cur := OSPrioCur (os_k (q_os s))) in *.
  destruct (Htasks cur) as (t & Et & Hs); [apply elem_of_union_r, Hruns|].
  pose proof (pmap_range _ _ _ (ko_ready _ _ Hk) (proj1 Hruns)) as Hcur64.
  set (t' := Tcb (OSTCBMsg t) timeout (Z.lor (OSTCBStat t) OS_STAT_Q) OS_STAT_PEND_OK).
  set (o1 := Os ((os_k (q_os s)) <| OSTCBPrioTbl := <[cur := t']> (OSTCBPrioTbl (os_k (q_os s))) |>) (os_e (q_os s))).
  assert (kernel_ok R (os_k o1)) as Hk1.
  { destruct Hk as [H1 H2 H3 H4]. constructor; [done| |done|done]. intros q Hq. cbn.
    destruct (decide (cur = q)) as [<-|Hne]; [by rewrite lookup_insert_eq|rewrite lookup_insert_ne by done; by apply H2]. }
  destruct (asleep_ok W R o1 Hw Hk1 Hcur64) as [Hw2 Hk2].
  destruct (sched_run _ _ c Hk2 Hc) as [Esched Hk3].
  exists (QueueOs (Os (scheduled c (os_k (asleep o1))) (os_e (asleep o1))) (q_cb s)), t.
  split_and!; try done.
  - unfold OSQPend. rewrite (bind_Done _ _ _ _ _ (is_type_run _ s)), bind_gets, Hty.
    cbn [negb Z.eqb OS_EVENT_TYPE_Q Pos.eqb]. rewrite (ko_int _ _ Hk), (ko_lock _ _ Hk). cbn [Z.ltb Z.compare].
    rewrite bind_gets, (proj1 (messages_nil _ Hr) Hm). cbn [Z.ltb Z.compare].
    rewrite (bind_Done _ _ _ tt (QueueOs (Os (scheduled c (os_k (asleep o1))) (os_e (asleep o1))) (q_cb s))); [done|].
    apply in_os_run. unfold pend_block. rewrite bind_gets. fold cur.
    rewrite (bind_Done _ _ _ t (q_os s)) by (unfold in_k, zoom; rewrite (tcb_at_run _ _ t) by done; by destruct (q_os s)).
    rewrite (bind_Done _ _ _ tt o1) by done. rewrite (bind_Done _ _ _ _ _ (OS_EventTaskWait_run o1)).
    unfold in_k, zoom. by rewrite Esched.
  - constructor; try done.
    intros q Hq. cbn. destruct (decide (cur = q)) as [<-|Hne].
    + exists t'. rewrite lookup_insert_eq. split; [done|]. by apply not_suspended_set.
    + rewrite lookup_insert_ne by done. apply Htasks. set_solver.
  - unfold task. cbn. by rewrite lookup_insert_eq.
  - intros q Hq. unfold task. cbn. by rewrite lookup_insert_ne by done.
Qed.

(** A task that runs again with a message, or because its time is over. *)
Lemma resume_run W R s msg dly stat :
  queue_inv W R s -> task s (running s) = Some (Tcb msg dly stat OS_STAT_PEND_OK) ->
  exists s', OSQPend_resumed s = Done (msg, OS_ERR_NONE) s' /\ queue_inv W R s' /\ q_cb s' = q_cb s /\
    running s' = running s.
Proof.
  intros Hi Ht. pose proof Hi as [Hty Hw [H1 H2 H3 H4] Hr He Htasks Hruns]. unfold running, task in *.
  set (cur := OSPrioCur (os_k (q_os s))) in *.
  set (k' := (os_k (q_os s)) <| OSTCBPrioTbl := <[cur := Tcb 0 dly OS_STAT_RDY OS_STAT_PEND_OK]> (OSTCBPrioTbl (os_k (q_os s))) |>).
  exists (QueueOs (Os k' (os_e (q_os s))) (q_cb s)). split_and!; try done.
  - unfold OSQPend_resumed. apply in_os_run. unfold pend_wake. rewrite bind_gets. fold cur.
    rewrite (bind_Done _ _ _ (Tcb msg dly stat OS_STAT_PEND_OK) (q_os s))
      by (unfold in_k, zoom; rewrite (tcb_at_run _ _ _ Ht); by destruct (q_os s)).
    done.
  - constructor; try done.
    + constructor; [done| |done|done]. intros q Hq. cbn.
      destruct (decide (cur = q)) as [<-|Hne]; [by rewrite lookup_insert_eq|rewrite lookup_insert_ne by done; by apply H2].
    + intros q Hq. cbn. destruct (decide (cur = q)) as [<-|Hne].
      * eexists. rewrite lookup_insert_eq. split; [done|]. done.
      * rewrite lookup_insert_ne by done. by apply Htasks.
Qed.

Lemma timed_out_run W R s msg dly stat :
  queue_inv W R s -> task s (running s) = Some (Tcb msg dly stat OS_STAT_PEND_TO) ->
  exists s', OSQPend_resumed s = Done (0, OS_ERR_TIMEOUT) s' /\ queue_inv (W ∖ {[running s]}) R s' /\
    q_cb s' = q_cb s /\ running s' = running s.
Proof.
  intros Hi Ht. pose proof Hi as [Hty Hw [H1 H2 H3 H4] Hr He Htasks Hruns]. unfold running, task in *.
  pose proof (pmap_range _ _ _ H1 (proj1 Hruns)) as Hcur64.
  set (cur := OSPrioCur (os_k (q_os s))) in *.
  set (k' := (os_k (q_os s)) <| OSTCBPrioTbl := <[cur := Tcb 0 dly OS_STAT_RDY OS_STAT_PEND_OK]> (OSTCBPrioTbl (os_k (q_os s))) |>).
  set (e' := (os_e (q_os s)) <| OSEventWait := pmap_del cur (OSEventWait (os_e (q_os s))) |>).
  exists (QueueOs (Os k' e') (q_cb s)). split_and!; try done.
  - unfold OSQPend_resumed. apply in_os_run. unfold pend_wake. rewrite bind_gets. fold cur.
    rewrite (bind_Done _ _ _ (Tcb msg dly stat OS_STAT_PEND_TO) (q_os s))
      by (unfold in_k, zoom; rewrite (tcb_at_run _ _ _ Ht); by destruct (q_os s)).
    done.
  - constructor; try done.
    + by apply pmap_del_set.
    + constructor; [done| |done|done]. intros q Hq. cbn.
      destruct (decide (cur = q)) as [<-|Hne]; [by rewrite lookup_insert_eq|rewrite lookup_insert_ne by done; by apply H2].
    + intros Hne. apply He. set_solver.
    + intros q Hq. cbn. destruct (decide (cur = q)) as [<-|Hne].
      * eexists. rewrite lookup_insert_eq. split; [done|]. done.
      * rewrite lookup_insert_ne by done. apply Htasks. set_solver.
Qed.

(** ** The tick *)

(** What a tick does to a control block, and whether it makes the task ready. *)
Definition ticked (t : tcb) : tcb * bool :=
  if OSTCBDly t =? 0 then (t, false)
  else if OSTCBDly t =? 1 then
    let t' := (if negb (Z.land (OSTCBStat t) OS_STAT_PEND_ANY =? OS_STAT_RDY)
      then Tcb (OSTCBMsg t) 0 (Z.land (OSTCBStat t) (u8 (Z.lnot OS_STAT_PEND_ANY))) OS_STAT_PEND_TO
      else Tcb (OSTCBMsg t) 0 (OSTCBStat t) OS_STAT_PEND_OK) in
    (t', Z.land (OSTCBStat t') OS_STAT_SUSPEND =? OS_STAT_RDY)
  else (t <| OSTCBDly := OSTCBDly t - 1 |>, false).

Definition after_tick (p : Z) (t : tcb) (k : kernel) : kernel :=
  let k' := k <| OSTCBPrioTbl := <[p := (ticked t).1]> (OSTCBPrioTbl k) |> in
  if (ticked t).2 then k' <| OSRdy := pmap_add p (OSRdy k) |> else k'.

Lemma tick_task_run k p t : OSTCBPrioTbl k !! p = Some t -> tick_task p k = Done tt (after_tick p t k).
Proof.
  intros Ht. unfold tick_task. rewrite (bind_Done _ _ _ _ _ (tcb_at_run _ _ _ Ht)).
  unfold after_tick, ticked. destruct (Z.eqb_spec (OSTCBDly t) 0) as [E|E]; cbn [negb].
  { cbn. rewrite insert_id by done. by destruct k. }
  destruct (Z.eqb_spec (OSTCBDly t - 1) 0) as [E1|E1].
  - rewrite (proj2 (Z.eqb_eq (OSTCBDly t) 1)) by lia. rewrite E1.
    destruct t as [msg dly stat pend]; cbn [OSTCBStat OSTCBMsg OSTCBDly fst snd upd upd_OSTCBDly eta tcb_eta].
    destruct (negb _); cbn [OSTCBStat fst snd]; by destruct (_ =? _).
  - by rewrite (proj2 (Z.eqb_neq (OSTCBDly t) 1)) by lia.
Qed.

Lemma after_tick_ok R p t k :
  kernel_ok R k -> 0 <= p < 64 ->
  kernel_ok (if (ticked t).2 then {[p]} ∪ R else R) (after_tick p t k).
Proof.
  intros [H1 H2 H3 H4] Hp. unfold after_tick. destruct (ticked t).2; constructor; cbn; try done.
  - by apply pmap_add_set.
  - intros q Hq. destruct (decide (p = q)) as [<-|Hne]; [by rewrite lookup_insert_eq|].
    rewrite lookup_insert_ne by done. apply H2. set_solver.
  - intros q Hq. destruct (decide (p = q)) as [<-|Hne]; [by rewrite lookup_insert_eq|].
    rewrite lookup_insert_ne by done. by apply H2.
Qed.

Lemma after_tick_tasks p t k q :
  OSTCBPrioTbl (after_tick p t k) !! q = if decide (p = q) then Some (ticked t).1 else OSTCBPrioTbl k !! q.
Proof.
  unfold after_tick. destruct (ticked t).2; cbn; case_decide as E; subst;
    by rewrite ?lookup_insert_eq, ?lookup_insert_ne.
Qed.

(** The loop over the tasks [l]: each is ticked once, the others are left alone. *)
Lemma tick_list_run l : forall R k,
  NoDup l -> (forall q, q ∈ l -> 0 <= q < 64 /\ is_Some (OSTCBPrioTbl k !! q)) -> kernel_ok R k ->
  exists R' k', for_each l tick_task k = Done tt k' /\ kernel_ok R' k' /\
    OSTCBList k' = OSTCBList k /\ OSPrioCur k' = OSPrioCur k /\
    (forall q, OSTCBPrioTbl k' !! q =
      if decide (q ∈ l) then fst ∘ ticked <$> OSTCBPrioTbl k !! q else OSTCBPrioTbl k !! q) /\
    (forall q, q ∈ R' <-> q ∈ R \/ q ∈ l /\ exists t, OSTCBPrioTbl k !! q = Some t /\ (ticked t).2 = true).
Proof.
  induction l as [|p l IH]; intros R k Hnd Hl Hk.
  { exists R, k. split_and!; [done|done|done|done| |].
    - intros q. by rewrite decide_False by apply not_elem_of_nil.
    - intros q. split; [by left|]. intros [Hq|[Hq _]]; [done|]. by apply not_elem_of_nil in Hq. }
  apply NoDup_cons in Hnd as [Hp Hnd]. destruct (Hl p) as [Hp64 [t Ht]]; [by left|].
  destruct (IH (if (ticked t).2 then {[p]} ∪ R else R) (after_tick p t k)) as (R' & k' & E & Hk' & EL & EC & Etasks & Eready);
    [done| |by apply after_tick_ok|].
  { intros q Hq. destruct (Hl q) as [Hq64 Hsome]; [by right|]. split; [done|].
    rewrite after_tick_tasks. case_decide; [by eexists|done]. }
  exists R', k'. split_and!; [|done| | | |].
  - cbn [for_each]. by rewrite (bind_Done _ _ _ _ _ (tick_task_run k p t Ht)).
  - rewrite EL. unfold after_tick. by destruct (ticked t).2.
  - rewrite EC. unfold after_tick. by destruct (ticked t).2.
  - intros q. rewrite Etasks, after_tick_tasks. destruct (decide (p = q)) as [<-|Hne].
    + rewrite (decide_False (P := p ∈ l)) by done. rewrite decide_True by by left. by rewrite Ht.
    + destruct (decide (q ∈ l)) as [Hq|Hq]; [by rewrite decide_True by by right|].
      by rewrite decide_False by (rewrite elem_of_cons; naive_solver).
  - intros q. rewrite Eready, elem_of_cons. setoid_rewrite after_tick_tasks.
    destruct (decide (p = q)) as [<-|Hne].
    + split.
      * intros [Hq|[Hq _]]; [|done]. destruct (ticked t).2 eqn:E2; [|by left].
        right. split; [by left|]. by exists t.
      * intros [Hq|[_ (t' & Et' & Hr)]]; left; [destruct (ticked t).2; set_solver|].
        rewrite Ht in Et'. injection Et' as <-. rewrite Hr. set_solver.
    + assert (q ∈ (if (ticked t).2 then {[p]} ∪ R else R) <-> q ∈ R) as -> by (destruct (ticked t).2; set_solver).
      naive_solver.
Qed.

Fixpoint ticks (n : nat) : M kernel unit :=
  match n with O => skip | S n => OSTimeTick ;; ticks n end.

(** A kernel whose list of tasks is in order. *)
Record tasks_ok (k : kernel) : Prop := {
  to_nodup : NoDup (OSTCBList k);
  to_range q : q ∈ OSTCBList k -> 0 <= q < 64 /\ is_Some (OSTCBPrioTbl k !! q);
}.

Lemma OSTimeTick_run R k :
  tasks_ok k -> kernel_ok R k ->
  exists R' k', OSTimeTick k = Done tt k' /\ kernel_ok R' k' /\ tasks_ok k' /\
    OSTCBList k' = OSTCBList k /\ OSPrioCur k' = OSPrioCur k /\
    (forall q, q ∈ OSTCBList k -> OSTCBPrioTbl k' !! q = fst ∘ ticked <$> OSTCBPrioTbl k !! q) /\
    (forall q, q ∈ R' <-> q ∈ R \/ q ∈ OSTCBList k /\
      exists t, OSTCBPrioTbl k !! q = Some t /\ (ticked t).2 = true).
Proof.
  intros [Hnd Hl] Hk. set (k0 := k <| OSTime := u32 (OSTime k + 1) |>).
  destruct (tick_list_run (OSTCBList k) R k0) as (R' & k' & E & Hk' & EL & EC & Et & Er); [done|done| |].
  { destruct Hk as [H1 H2 H3 H4]. by constructor. }
  exists R', k'. split_and!; [|done| |done|done| |done].
  - unfold OSTimeTick. by rewrite bind_gets, bind_put, bind_gets.
  - constructor; rewrite EL; [done|]. intros q Hq. split; [by apply Hl|]. rewrite Et, decide_True by done.
    destruct (Hl q Hq) as [_ [t Ht]]. exists (ticked t).1. change (OSTCBPrioTbl k0) with (OSTCBPrioTbl k). by rewrite Ht.
  - intros q Hq. by rewrite Et, decide_True by done.
Qed.

(** A wait of [n] ticks, [j] of them past. *)
Lemma ticks_run n : forall j R k p msg stat,
  tasks_ok k -> kernel_ok R k -> p ∈ OSTCBList k -> (j < n)%nat ->
  OSTCBPrioTbl k !! p = Some (Tcb msg (Z.of_nat n) stat OS_STAT_PEND_OK) ->
  exists R' k', ticks j k = Done tt k' /\ kernel_ok R' k' /\ tasks_ok k' /\ OSTCBList k' = OSTCBList k /\
    OSTCBPrioTbl k' !! p = Some (Tcb msg (Z.of_nat (n - j)) stat OS_STAT_PEND_OK) /\ (p ∈ R' <-> p ∈ R).
Proof.
  intros j. revert n. induction j as [|j IH]; intros n R k p msg stat Hto Hk Hp Hj Ht.
  { exists R, k. split_and!; [done|done|done|done|by rewrite Nat.sub_0_r|done]. }
  destruct (OSTimeTick_run R k Hto Hk) as (R1 & k1 & E1 & Hk1 & Hto1 & EL1 & _ & Et1 & Er1).
  assert (ticked (Tcb msg (Z.of_nat n) stat OS_STAT_PEND_OK) = (Tcb msg (Z.of_nat (n - 1)) stat OS_STAT_PEND_OK, false)) as Htick.
  { unfold ticked. cbn [OSTCBDly]. rewrite !(proj2 (Z.eqb_neq _ _)) by lia.
    by replace (Z.of_nat (n - 1)) with (Z.of_nat n - 1) by lia. }
  destruct (IH (n - 1)%nat R1 k1 p msg stat) as (R2 & k2 & E2 & Hk2 & Hto2 & EL2 & Et2 & Er2);
    [done|done|by rewrite EL1|lia| |].
  { rewrite (Et1 p Hp), Ht. exact (f_equal (Some ∘ fst) Htick). }
  exists R2, k2. split_and!; [|done|done|by rewrite EL2| |].
  - cbn [ticks]. by rewrite (bind_Done _ _ _ _ _ E1).
  - by replace (n - S j)%nat with (n - 1 - j)%nat by lia.
  - rewrite Er2, Er1. split; [|by left]. intros [?|[_ (t & Et & Hr)]]; [done|].
    rewrite Ht in Et. injection Et as <-. by rewrite Htick in Hr.
Qed.

Lemma last_tick_run R k p msg stat :
  tasks_ok k -> kernel_ok R k -> p ∈ OSTCBList k ->
  OSTCBPrioTbl k !! p = Some (Tcb msg 1 stat OS_STAT_PEND_OK) ->
  Z.land stat OS_STAT_PEND_ANY <> OS_STAT_RDY -> Z.land stat OS_STAT_SUSPEND = OS_STAT_RDY ->
  exists R' k', OSTimeTick k = Done tt k' /\ kernel_ok R' k' /\ p ∈ R' /\
    OSTCBPrioTbl k' !! p = Some (Tcb msg 0 (Z.land stat (u8 (Z.lnot OS_STAT_PEND_ANY))) OS_STAT_PEND_TO).
Proof.
  intros Hto Hk Hp Ht Hpend Hsusp.
  destruct (OSTimeTick_run R k Hto Hk) as (R1 & k1 & E1 & Hk1 & _ & _ & _ & Et1 & Er1).
  exists R1, k1. split_and!; [done|done| |].
  - apply Er1. right. split; [done|]. eexists. split; [exact Ht|]. unfold ticked. cbn.
    rewrite (proj2 (Z.eqb_neq _ _) Hpend). cbn. apply Z.eqb_eq. by apply not_suspended_clear.
  - rewrite (Et1 p Hp), Ht. cbn. unfold ticked. cbn. by rewrite (proj2 (Z.eqb_neq _ _) Hpend).
Qed.

(** ** The properties *)

(** C34: the priority maps are sets of tasks: setting and clearing the bits of a
    priority adds and removes it, and the two reads of [OSUnMapTbl] find the most
    urgent member. *)
Theorem priority_map (m : pmap) (X : gset Z) (p : Z) :
  pmap_set m X -> 0 <= p < 64 ->
  pmap_set (pmap_add p m) ({[p]} ∪ X) /\ pmap_set (pmap_del p m) (X ∖ {[p]}) /\
  (Grp m = 0 <-> X = ∅) /\ (X <> ∅ -> exists q, pmap_first m = Some q /\ most_urgent X q).
Proof.
  intros Hm Hp. split_and!; [by apply pmap_add_set|by apply pmap_del_set|by apply pmap_grp_empty|].
  intros Hne. destruct (pmap_first_min m X Hm Hne) as (q & E & Hq & _ & Hmin). by exists q.
Qed.

(** C31: [OSQPost] implements a bounded queue with waiting tasks. If somebody waits, the
    message goes to the most urgent one, which becomes ready, and then the most urgent
    ready task runs; otherwise it goes behind the others, or is refused when the queue
    is full. The invariant, nobody waits while a message is there, is kept. *)
Theorem OSQPost_refines (m : Z) (W R : gset Z) (s : queue_os) :
  queue_inv W R s ->
  wp (OSQPost m) (fun r s' =>
    (W = ∅ /\ Z.of_nat (length (messages (q_cb s))) < OSQSize (q_cb s) /\ r = OS_ERR_NONE /\
      queue_inv ∅ R s' /\ messages (q_cb s') = messages (q_cb s) ++ [m] /\ q_os s' = q_os s) \/
    (W = ∅ /\ Z.of_nat (length (messages (q_cb s))) = OSQSize (q_cb s) /\ r = OS_ERR_Q_FULL /\ s' = s) \/
    (exists p t, most_urgent W p /\ r = OS_ERR_NONE /\ queue_inv (W ∖ {[p]}) ({[p]} ∪ R) s' /\
      messages (q_cb s') = [] /\ task s' p = Some t /\ OSTCBMsg t = m /\ OSTCBStatPend t = OS_STAT_PEND_OK /\
      forall q, q <> p -> task s' q = task s q)) s.
Proof.
  intros Hi. apply wp_Done. destruct (decide (W = ∅)) as [->|HW].
  - pose proof (append_run q_put m (fun l => l ++ [m]) ∅ R s (fun q => q_put_run q m) Hi eq_refl) as Hs.
    pose proof (qi_ring _ _ _ Hi) as Hq. pose proof (messages_length _ Hq) as Hl. pose proof (qo_entries _ Hq) as He.
    case_bool_decide as Hlt.
    + destruct Hs as (q' & E & Hq' & Hm & _). exists OS_ERR_NONE, (QueueOs (q_os s) q'). split; [exact E|]. left.
      split_and!; [done|done|done| |done|done]. by apply same_kernel_inv.
    + exists OS_ERR_Q_FULL, s. split; [exact Hs|]. right. left. split_and!; [done|lia|done|done].
  - destruct (most_urgent_exists _ _ (qi_wait _ _ _ Hi) HW) as [p Hp].
    destruct (qi_tasks _ _ _ Hi p) as (t & Ht & _); [apply elem_of_union_l, Hp|].
    destruct (deliver_run q_put m W R s p t Hi Hp Ht) as (s' & c & E & Hi' & Eq & _ & _ & Et & Eo).
    exists OS_ERR_NONE, s'. split; [exact E|]. right. right. exists p. eexists.
    split_and!; [exact Hp|done|exact Hi'| |exact Et|done|done|done].
    rewrite Eq. by apply (qi_empty _ _ _ Hi).
Qed.

(** C32: a message crosses: a task that pends on the empty queue gives the processor to
    the most urgent task left; when that task posts, the first one — the most urgent
    of those that wait — runs again at once, and its [OSQPend] returns the message. *)
Theorem pend_post_roundtrip (timeout m c : Z) (W R : gset Z) (s : queue_os) :
  queue_inv W R s -> messages (q_cb s) = [] -> running s ∉ W ->
  most_urgent ({[running s]} ∪ W) (running s) -> most_urgent (R ∖ {[running s]}) c ->
  exists s1 s2 s3,
    OSQPend timeout s = Done None s1 /\ running s1 = c /\
    OSQPost m s1 = Done OS_ERR_NONE s2 /\ running s2 = running s /\
    OSQPend_resumed s2 = Done (m, OS_ERR_NONE) s3 /\ queue_inv W R s3 /\ messages (q_cb s3) = [] /\
    running s3 = running s.
Proof.
  intros Hi Hm Hcur Hp Hc.
  destruct (block_run timeout W R s c Hi Hm Hcur Hc) as (s1 & t & E1 & Hi1 & Eq1 & Ec1 & _ & Et1 & _).
  destruct (deliver_run q_put m _ _ s1 (running s) _ Hi1 Hp Et1) as (s2 & c2 & E2 & Hi2 & Eq2 & Hc2 & Ec2 & Et2 & _).
  assert (({[running s]} ∪ W) ∖ {[running s]} = W) as EW by set_solver.
  assert ({[running s]} ∪ R ∖ {[running s]} = R) as ER.
  { pose proof (proj1 (qi_runs _ _ _ Hi)) as H. apply set_eq. intros q. destruct (decide (q = running s)) as [->|]; set_solver. }
  rewrite EW, ER in Hi2. rewrite ER in Hc2.
  assert (c2 = running s) as -> by (eapply most_urgent_unique; [exact Hc2|apply (qi_runs _ _ _ Hi)]).
  rewrite <- Ec2 in Et2. destruct (resume_run W R s2 m _ _ Hi2 Et2) as (s3 & E3 & Hi3 & Eq3 & Ec3).
  exists s1, s2, s3. split_and!; [done|done|exact E2|done|done|done|by rewrite Eq3, Eq2, Eq1|by rewrite Ec3].
Qed.

(** C33: a wait with a time limit ends: as long as nothing is posted, the task is not
    ready after fewer than [n] ticks, and after [n] ticks it is, marked as timed out —
    so that its call returns [OS_ERR_TIMEOUT] ([timed_out_run]). *)
Theorem pend_times_out (n : nat) (msg stat p : Z) (R : gset Z) (k : kernel) :
  tasks_ok k -> kernel_ok R k -> p ∈ OSTCBList k -> p ∉ R -> (0 < n)%nat ->
  OSTCBPrioTbl k !! p = Some (Tcb msg (Z.of_nat n) stat OS_STAT_PEND_OK) ->
  Z.land stat OS_STAT_PEND_ANY <> OS_STAT_RDY -> Z.land stat OS_STAT_SUSPEND = OS_STAT_RDY ->
  (forall j, (j < n)%nat -> wp (ticks j) (fun _ k' => exists R', kernel_ok R' k' /\ p ∉ R') k) /\
  wp (ticks (n - 1) ;; OSTimeTick) (fun _ k' => exists R', kernel_ok R' k' /\ p ∈ R' /\
    OSTCBStatPend <$> OSTCBPrioTbl k' !! p = Some OS_STAT_PEND_TO) k.
Proof.
  intros Hto Hk Hp Hnr Hn Ht Hpend Hsusp. split.
  - intros j Hj. destruct (ticks_run n j R k p msg stat) as (R' & k' & E & Hk' & _ & _ & _ & Hr); [done..|].
    apply wp_Done. exists tt, k'. split; [done|]. exists R'. split; [done|]. by rewrite Hr.
  - destruct (ticks_run n (n - 1) R k p msg stat) as (R1 & k1 & E1 & Hk1 & Hto1 & EL1 & Et1 & Hr1); [done|done|done|lia|done|].
    replace (Z.of_nat (n - (n - 1))) with 1 in Et1 by lia.
    destruct (last_tick_run R1 k1 p msg stat) as (R2 & k2 & E2 & Hk2 & Hp2 & Et2); [done|done|by rewrite EL1|done..|].
    apply wp_Done. exists tt, k2. split; [by rewrite (bind_Done _ _ _ _ _ E1)|]. exists R2. by rewrite Et2.
Qed.

(** ** Witnesses: two tasks, of priority 5 and 10, the idle task, and a queue of four. *)
Definition ready_example : gset Z := {[5]} ∪ ({[10]} ∪ ({[63]} ∪ ∅)).
Definition kernel_example : kernel := Kernel
  (<[5 := Tcb 0 0 0 0]> (<[10 := Tcb 0 0 0 0]> (<[63 := Tcb 0 0 0 0]> ∅))) [5; 10]
  (pmap_add 5 (pmap_add 10 (pmap_add 63 pmap_empty))) 5 5 0 0 0.
Definition queue_example : queue_os :=
  QueueOs (Os kernel_example (Event OS_EVENT_TYPE_Q 0 pmap_empty)) (OSQ [0; 0; 0; 0] 4 3 3 0).

Lemma ready_cases p : p ∈ ready_example -> p = 5 \/ p = 10 \/ p = 63.
Proof. unfold ready_example. rewrite !elem_of_union, !elem_of_singleton. set_solver. Qed.

Lemma kernel_example_ok : kernel_ok ready_example kernel_example.
Proof.
  constructor; [|intros p Hp; destruct (ready_cases p Hp) as [->|[->| ->]]; by eexists|done|done].
  repeat (apply pmap_add_set; [lia|]). apply pmap_empty_set.
Qed.

Lemma queue_example_inv : queue_inv ∅ ready_example queue_example.
Proof.
  constructor; [done|apply pmap_empty_set|apply kernel_example_ok| |done| |].
  - constructor; cbn; lia || done.
  - intros p. rewrite union_empty_l_L. intros Hp. destruct (ready_cases p Hp) as [->|[->| ->]]; by eexists.
  - split; [by apply elem_of_union_l, elem_of_singleton|]. intros q Hq.
    destruct (ready_cases q Hq) as [->|[->| ->]]; cbn; lia.
Qed.

Lemma priority_map_witness :
  exists q, pmap_first (pmap_add 10 (pmap_add 63 pmap_empty)) = Some q /\
    most_urgent ({[10]} ∪ ({[63]} ∪ ∅)) q.
Proof.
  apply (priority_map (pmap_add 10 (pmap_add 63 pmap_empty)) ({[10]} ∪ ({[63]} ∪ ∅)) 5).
  - repeat (apply pmap_add_set; [lia|]). apply pmap_empty_set.
  - lia.
  - set_solver.
Defined.

Lemma OSQPost_refines_witness :
  wp (OSQPost 77) (fun r s' => r = OS_ERR_NONE /\ messages (q_cb s') = [77]) queue_example.
Proof.
  eapply wp_mono; [exact (OSQPost_refines 77 ∅ ready_example queue_example queue_example_inv)|].
  intros r s' [(_ & _ & -> & _ & -> & _)|[(_ & Hl & _)|(p & t & [Hp _] & _)]].
  - split; reflexivity.
  - vm_compute in Hl. discriminate Hl.
  - by apply elem_of_empty in Hp.
Defined.

Lemma pend_post_roundtrip_witness :
  exists s1 s2 s3,
    OSQPend 20 queue_example = Done None s1 /\ running s1 = 10 /\
    OSQPost 77 s1 = Done OS_ERR_NONE s2 /\ running s2 = 5 /\ OSQPend_resumed s2 = Done (77, OS_ERR_NONE) s3.
Proof.
  destruct (pend_post_roundtrip 20 77 10 ∅ ready_example queue_example queue_example_inv)
    as (s1 & s2 & s3 & E1 & R1 & E2 & R2 & E3 & _).
  - reflexivity.
  - apply not_elem_of_empty.
  - split; [set_solver|]. intros q Hq. assert (q = 5) as -> by set_solver. reflexivity.
  - split; [unfold ready_example; set_solver|]. intros q [Hq Hne]%elem_of_difference.
    destruct (ready_cases q Hq) as [->|[->| ->]]; [set_solver|lia|lia].
  - exists s1, s2, s3. split; [exact E1|split; [exact R1|split; [exact E2|split; [exact R2|exact E3]]]].
Defined.

(** The task of priority 5 asleep for three ticks. *)
Definition asleep_example : kernel := Kernel
  (<[5 := Tcb 0 3 OS_STAT_Q OS_STAT_PEND_OK]> (<[10 := Tcb 0 0 0 0]> (<[63 := Tcb 0 0 0 0]> ∅))) [5; 10]
  (pmap_add 10 (pmap_add 63 pmap_empty)) 10 10 0 0 0.

Lemma asleep_ready_cases p : p ∈ ({[10]} ∪ ({[63]} ∪ ∅) : gset Z) -> p = 10 \/ p = 63.
Proof. set_solver. Qed.

Lemma pend_times_out_witness :
  (forall j, (j < 3)%nat -> wp (ticks j) (fun _ k' => exists R', kernel_ok R' k' /\ 5 ∉ R') asleep_example) /\
  wp (ticks 2 ;; OSTimeTick) (fun _ k' => exists R', kernel_ok R' k' /\ 5 ∈ R' /\
    OSTCBStatPend <$> OSTCBPrioTbl k' !! 5 = Some OS_STAT_PEND_TO) asleep_example.
Proof.
  apply (pend_times_out 3 0 OS_STAT_Q 5 ({[10]} ∪ ({[63]} ∪ ∅)) asleep_example).
  - constructor; [by apply (bool_decide_eq_true_1 _)|]. intros q Hq.
    assert (q = 5 \/ q = 10) as [->| ->] by set_solver; (split; [lia|by eexists]).
  - constructor; [|intros p Hp; destruct (asleep_ready_cases p Hp) as [->| ->]; by eexists|done|done].
    repeat (apply pmap_add_set; [lia|]). apply pmap_empty_set.
  - by left.
  - intros H. destruct (asleep_ready_cases 5 H); discriminate.
  - lia.
  - reflexivity.
  - discriminate.
  - reflexivity.
Defined.
