(* ===== verification/LwipTimers.v ===== *)
(** * The timers of lwIP: src/LWIP/lwip-1.4.1/src/core/timers.c

    One-shot timers as a list of differences: the time of each is counted from the
    one before it. *)
From Stdlib Require Import ZArith Lia.
From stdpp Require Import base tactics decidable list list_numbers numbers.
From S2P Require Import Prelude.
Open Scope Z_scope.
Open Scope c_scope.

(** [struct sys_timeo]; a handler is its address. *)
Record timeo := Timeo { time : Z; h : Z; arg : Z }.

#[export] Instance timeo_eta : Eta timeo := fun t => Timeo (time t) (h t) (arg t).
#[export] Instance upd_time : Upd time := ltac:(derive_upd).

(** The loop of [sys_timeout], from the entry [t] with [rest] after it. *)
Fixpoint place_timeout (timeout t : timeo) (rest : list timeo) : list timeo :=
  let timeout := timeout <| time := u32 (time timeout - time t) |> in
  match rest with
  | [] => [t; timeout]
  | n :: rest' =>
    if time timeout <? time n
    then t :: timeout :: n <| time := u32 (time n - time timeout) |> :: rest'
    else t :: place_timeout timeout n rest'
  end.

(** [sys_timeout]; [room] is the answer of the pool. *)
Definition sys_timeout (room : bool) (msecs handler argument : Z) (next_timeout : list timeo) : list timeo :=
  if negb room then next_timeout
  else
    let timeout := Timeo msecs handler argument in
    match next_timeout with
    | [] => [timeout]
    | t :: rest =>
      if msecs <? time t then timeout :: t <| time := u32 (time t - msecs) |> :: rest
      else place_timeout timeout t rest
    end.

Fixpoint sys_untimeout (handler argument : Z) (next_timeout : list timeo) : list timeo :=
  match next_timeout with
  | [] => []
  | t :: rest =>
    if (h t =? handler) && (arg t =? argument) then
      match rest with [] => [] | n :: rest' => n <| time := u32 (time n + time t) |> :: rest' end
    else t :: sys_untimeout handler argument rest
  end.

(** One pass of [sys_timeouts_mbox_fetch] with at least one timer: how long to wait
    ([None]: not at all), and what becomes of the timers, given the result of
    [sys_arch_mbox_fetch]: the handler to call before the next pass, or a message. *)
Definition fetch_timeout (next_timeout : list timeo) : option Z :=
  match next_timeout with
  | [] => Some 0
  | t :: _ => if 0 <? time t then Some (time t) else None
  end.

Definition after_fetch (time_needed : Z) (next_timeout : list timeo) : option timeo * list timeo :=
  match next_timeout with
  | [] => (None, [])
  | t :: rest =>
    if time_needed =? 0xffffffff then (Some t, rest)
    else (None, t <| time := (if time_needed <? time t then time t - time_needed else 0) |> :: rest)
  end.

(** ** When they are due *)
Fixpoint due (base : Z) (l : list timeo) : list (Z * Z * Z) :=
  match l with [] => [] | t :: l => (base + time t, h t, arg t) :: due (base + time t) l end.

Definition timers_ok (l : list timeo) : Prop := Forall (fun t => is_u32 (time t)) l.

Ltac due_eq :=
  repeat match goal with
  | |- (_, _) = (_, _) => f_equal
  | |- _ :: _ = _ :: _ => f_equal
  | |- due _ _ = due _ _ => f_equal
  end; try reflexivity; try lia.

Lemma due_shift base d l : due (base + d) l = (fun x => (x.1.1 + d, x.1.2, x.2)) <$> due base l.
Proof.
  revert base. induction l as [|t l IH]; intros base; [done|]. cbn. f_equal; [due_eq|].
  rewrite <- IH. due_eq.
Qed.

Lemma due_after base l : timers_ok l -> Forall (fun x => base <= x.1.1) (due base l).
Proof.
  revert base. induction l as [|t l IH]; intros base Hl; [constructor|].
  apply Forall_cons_1 in Hl as [[H0 _] Hl]. constructor; [cbn; lia|].
  eapply Forall_impl; [|exact (IH (base + time t) Hl)]. cbn. intros x Hx. lia.
Qed.

Lemma place_due timeout t rest base :
  timers_ok (t :: rest) -> is_u32 (time timeout) -> time t <= time timeout ->
  exists l1 l2, due base (t :: rest) = l1 ++ l2 /\
    due base (place_timeout timeout t rest) = l1 ++ (base + time timeout, h timeout, arg timeout) :: l2 /\
    Forall (fun x => x.1.1 <= base + time timeout) l1 /\ Forall (fun x => base + time timeout < x.1.1) l2 /\
    timers_ok (place_timeout timeout t rest).
Proof.
  revert timeout t base. induction rest as [|n rest IH]; intros timeout t base Hl Hn Hle;
    apply Forall_cons_1 in Hl as [Ht Hl]; pose proof Ht as [Ht0 Ht1]; pose proof Hn as [Hn0 Hn1];
    cbn [place_timeout];
    assert (u32 (time timeout - time t) = time timeout - time t) as Eu by (unfold u32; apply Z.mod_small; lia);
    rewrite Eu.
  - exists (due base [t]), []. split_and!; [by rewrite app_nil_r| | |constructor|].
    + cbn. due_eq.
    + constructor; [cbn; lia|constructor].
    + repeat constructor; cbn; lia.
  - change (time (timeout <| time := time timeout - time t |>)) with (time timeout - time t).
    pose proof Hl as Hl'. apply Forall_cons_1 in Hl' as [[Hm0 Hm1] Hr].
    destruct (Z.ltb_spec (time timeout - time t) (time n)) as [Hlt|Hge].
    + assert (u32 (time n - (time timeout - time t)) = time n - (time timeout - time t)) as ->
        by (unfold u32; apply Z.mod_small; lia).
      exists (due base [t]), (due (base + time t) (n :: rest)). split_and!.
      * done.
      * cbn. due_eq.
      * constructor; [cbn; lia|constructor].
      * cbn. constructor; [cbn; lia|]. eapply Forall_impl; [|exact (due_after _ _ Hr)]. cbn. intros x Hx. lia.
      * repeat constructor; cbn; try lia. done.
    + destruct (IH (timeout <| time := time timeout - time t |>) n (base + time t) Hl)
        as (l1 & l2 & E1 & E2 & H1 & H2 & Hok); [split; cbn; lia|cbn; lia|].
      cbn [time upd upd_time h arg] in E2, H1, H2.
      replace (base + time t + (time timeout - time t)) with (base + time timeout) in * by lia.
      exists ((base + time t, h t, arg t) :: l1), l2. split_and!.
      * change (due base (t :: n :: rest)) with ((base + time t, h t, arg t) :: due (base + time t) (n :: rest)).
        by rewrite E1.
      * cbn [due app]. f_equal. exact E2.
      * constructor; [cbn; lia|done].
      * done.
      * by constructor.
Qed.

Lemma place_untimeout timeout t rest :
  timers_ok (t :: rest) -> is_u32 (time timeout) -> time t <= time timeout ->
  Forall (fun x => (h x =? h timeout) && (arg x =? arg timeout) = false) (t :: rest) ->
  sys_untimeout (h timeout) (arg timeout) (place_timeout timeout t rest) = t :: rest.
Proof.
  revert timeout t. induction rest as [|n rest IH]; intros timeout t Hl [Hn0 Hn1] Hle Hno;
    apply Forall_cons_1 in Hl as [[Ht0 Ht1] Hl]; apply Forall_cons_1 in Hno as [Hnot Hno];
    cbn [place_timeout];
    assert (u32 (time timeout - time t) = time timeout - time t) as Eu by (unfold u32; apply Z.mod_small; lia);
    rewrite Eu.
  - cbn [sys_untimeout]. rewrite Hnot. cbn. by rewrite !Z.eqb_refl.
  - change (time (timeout <| time := time timeout - time t |>)) with (time timeout - time t).
    pose proof Hl as Hl'. apply Forall_cons_1 in Hl' as [[Hm0 Hm1] Hr].
    destruct (Z.ltb_spec (time timeout - time t) (time n)) as [Hlt|Hge].
    + cbn [sys_untimeout]. rewrite Hnot. cbn. rewrite !Z.eqb_refl. cbn. f_equal. f_equal. destruct n as [tn hn an].
      cbn in *. f_equal. unfold u32. rewrite (Z.mod_small (tn - _)) by lia. rewrite Z.sub_add, (Z.mod_small tn) by lia. done.
    + cbn [sys_untimeout]. rewrite Hnot. f_equal.
      set (new := timeout <| time := time timeout - time t |>).
      change (sys_untimeout (h new) (arg new) (place_timeout new n rest) = n :: rest).
      apply IH; [done|split; cbn; lia|cbn; lia|done].
Qed.

(** ** The properties *)

(** C36: the list of differences is a list of due times in order: [sys_timeout] puts the
    new timer behind all that are due no later and before all that are due later, and
    no other timer moves. (Without room in the pool it does nothing.) *)
Theorem sys_timeout_due (msecs handler argument : Z) (l : list timeo) :
  timers_ok l -> is_u32 msecs ->
  exists l1 l2, due 0 l = l1 ++ l2 /\
    due 0 (sys_timeout true msecs handler argument l) = l1 ++ (msecs, handler, argument) :: l2 /\
    Forall (fun x => x.1.1 <= msecs) l1 /\ Forall (fun x => msecs < x.1.1) l2 /\
    timers_ok (sys_timeout true msecs handler argument l).
Proof.
  intros Hl Hm. pose proof Hm as [Hm0 Hm1]. destruct l as [|t rest]; cbn [sys_timeout negb].
  { exists [], []. by repeat constructor. }
  pose proof Hl as Hl'. apply Forall_cons_1 in Hl' as [[Ht0 Ht1] Hr].
  destruct (Z.ltb_spec msecs (time t)) as [Hlt|Hge].
  - assert (u32 (time t - msecs) = time t - msecs) as -> by (unfold u32; apply Z.mod_small; lia).
    exists [], (due 0 (t :: rest)). split_and!; [done| |constructor| |].
    + cbn. due_eq.
    + cbn. constructor; [cbn; lia|]. eapply Forall_impl; [|exact (due_after _ _ Hr)]. cbn. intros x Hx. lia.
    + repeat constructor; cbn; try lia. done.
  - exact (place_due (Timeo msecs handler argument) t rest 0 Hl Hm Hge).
Qed.

(** [sys_untimeout] undoes [sys_timeout], whatever timers are running, as long as
    none of them has the same handler and argument. *)
Theorem sys_untimeout_undoes (msecs handler argument : Z) (l : list timeo) :
  timers_ok l -> is_u32 msecs ->
  Forall (fun x => (h x =? handler) && (arg x =? argument) = false) l ->
  sys_untimeout handler argument (sys_timeout true msecs handler argument l) = l.
Proof.
  intros Hl Hm Hno. pose proof Hm as [Hm0 Hm1]. destruct l as [|t rest]; cbn [sys_timeout negb].
  { cbn. by rewrite !Z.eqb_refl. }
  pose proof Hl as Hl'. apply Forall_cons_1 in Hl' as [[Ht0 Ht1] Hr].
  destruct (Z.ltb_spec msecs (time t)) as [Hlt|Hge].
  - cbn. rewrite !Z.eqb_refl. cbn. f_equal. destruct t as [tt ht at_]. cbn in *. f_equal. unfold u32.
    rewrite (Z.mod_small (tt - msecs)), Z.sub_add, (Z.mod_small tt) by lia. done.
  - exact (place_untimeout (Timeo msecs handler argument) t rest Hl Hm Hge Hno).
Qed.

(** The timers of ARP (5 s) and IP reassembly (1 s), as [sys_timeouts_init] starts them. *)
Definition timers_example : list timeo := sys_timeout true 5000 2 0 (sys_timeout true 1000 1 0 []).

Lemma timers_example_ok : timers_ok timers_example.
Proof. unfold timers_ok. apply (bool_decide_eq_true_1 _). by vm_compute. Qed.

Lemma sys_timeout_due_witness :
  exists l1 l2, due 0 timers_example = l1 ++ l2 /\
    due 0 (sys_timeout true 250 3 0 timers_example) = l1 ++ (250, 3, 0) :: l2.
Proof.
  destruct (sys_timeout_due 250 3 0 timers_example timers_example_ok ltac:(split; lia)) as (l1 & l2 & H1 & H2 & _).
  exists l1, l2. split; [exact H1|exact H2].
Defined.

Lemma sys_untimeout_undoes_witness :
  sys_untimeout 3 0 (sys_timeout true 2500 3 0 timers_example) = timers_example.
Proof.
  apply (sys_untimeout_undoes 2500 3 0 timers_example); [apply timers_example_ok|split; lia|].
  repeat constructor.
Defined.
