(* ===== verification/SysArch.v ===== *)
(** * The port of lwIP to the kernel: src/LWIP/arch/sys_arch.c

    Mailboxes and the time of lwIP over the queues of the kernel. The port is written
    against what it needs of a queue, the class [MessageQueue]; OsQueue.v is the
    instance it runs on. *)
From Stdlib Require Import ZArith Lia.
From stdpp Require Import base tactics decidable list list_numbers numbers gmap.
From S2P Require Import Prelude Kernel OsQueue OsQueueSpec LwipTimers.
Open Scope Z_scope.
Open Scope c_scope.

(** ** What the port needs of the kernel *)
Class MessageQueue (St : Type) : Type := {
  mq_post : Z -> M St Z;                      (** [OSQPost] *)
  mq_pend : Z -> M St (option (Z * Z));       (** [OSQPend]; [None]: the task sleeps *)
  mq_resumed : M St (Z * Z);                  (** the rest of [OSQPend] *)
  mq_query : M St (Z * option (Z * Z * Z));   (** [OSQQuery] *)
  mq_now : M St Z;                            (** [OSTimeGet] *)
}.

(** A bounded queue nobody waits for; reading it takes no time. *)
Class MessageQueueLaws (St : Type) `{!MessageQueue St} : Type := {
  mq_ok : St -> Prop;
  mq_messages : St -> list Z;
  mq_size : St -> Z;
  mq_time : St -> Z;
  mq_bounded s : mq_ok s -> Z.of_nat (length (mq_messages s)) <= mq_size s;
  mq_time_u32 s : mq_ok s -> is_u32 (mq_time s);
  mq_now_run s : mq_now s = Done (mq_time s) s;
  mq_post_room m s : mq_ok s -> Z.of_nat (length (mq_messages s)) < mq_size s ->
    exists s', mq_post m s = Done OS_ERR_NONE s' /\ mq_ok s' /\ mq_messages s' = mq_messages s ++ [m] /\
      mq_size s' = mq_size s;
  mq_post_full m s : mq_ok s -> Z.of_nat (length (mq_messages s)) = mq_size s ->
    mq_post m s = Done OS_ERR_Q_FULL s;
  mq_pend_head t m l s : mq_ok s -> mq_messages s = m :: l ->
    exists s', mq_pend t s = Done (Some (m, OS_ERR_NONE)) s' /\ mq_ok s' /\ mq_messages s' = l /\
      mq_size s' = mq_size s /\ mq_time s' = mq_time s;
  mq_query_run s : mq_ok s -> exists m,
    mq_query s = Done (OS_ERR_NONE, Some (m, Z.of_nat (length (mq_messages s)), mq_size s)) s;
}.

#[export] Instance os_message_queue : MessageQueue queue_os := {
  mq_post := OSQPost;
  mq_pend := OSQPend;
  mq_resumed := OSQPend_resumed;
  mq_query := OSQQuery;
  mq_now := gets (fun s => OSTime (os_k (q_os s)));
}.

Definition os_queue_ok (s : queue_os) : Prop :=
  (exists R, queue_inv ∅ R s) /\ is_u32 (OSTime (os_k (q_os s))).

Lemma take_head_run t m l R s :
  queue_inv ∅ R s -> messages (q_cb s) = m :: l ->
  exists q', OSQPend t s = Done (Some (m, OS_ERR_NONE)) (QueueOs (q_os s) q') /\ q_ok q' /\ messages q' = l /\
    OSQSize q' = OSQSize (q_cb s).
Proof.
  intros Hi Hm. pose proof Hi as [Hty _ Hk Hr _ _ _]. pose proof (messages_length _ Hr) as Hl.
  rewrite Hm in Hl. cbn [length] in Hl. destruct (q_get_run _ _ _ Hr Hm) as (q' & E & Hq' & Hm' & Hs').
  exists q'. split; [|done]. unfold OSQPend. rewrite (bind_Done _ _ _ _ _ (is_type_run _ s)), bind_gets, Hty.
  cbn [negb Z.eqb OS_EVENT_TYPE_Q Pos.eqb]. rewrite (ko_int _ _ Hk), (ko_lock _ _ Hk). cbn [Z.ltb Z.compare].
  rewrite bind_gets, (proj2 (Z.ltb_lt 0 (OSQEntries (q_cb s)))) by lia.
  by rewrite (bind_Done _ _ _ _ _ (in_q_run _ s _ _ E)).
Qed.

#[export] Instance os_message_queue_laws : MessageQueueLaws queue_os.
Proof.
  refine (Build_MessageQueueLaws queue_os _ os_queue_ok (fun s => messages (q_cb s))
    (fun s => OSQSize (q_cb s)) (fun s => OSTime (os_k (q_os s))) _ _ _ _ _ _ _).
  - intros s [[R Hi] _]. pose proof (qi_ring _ _ _ Hi) as Hq. rewrite (messages_length _ Hq). apply (qo_entries _ Hq).
  - by intros s [_ Ht].
  - done.
  - intros m s [[R Hi] Ht] Hl.
    pose proof (append_run q_put m (fun l => l ++ [m]) ∅ R s (fun q => q_put_run q m) Hi eq_refl) as Hs.
    rewrite bool_decide_eq_true_2 in Hs by done. destruct Hs as (q' & E & Hq' & Hm & Hsize).
    exists (QueueOs (q_os s) q'). split_and!; [exact E| |done|done]. split; [|done]. exists R. by apply same_kernel_inv.
  - intros m s [[R Hi] Ht] Hl.
    pose proof (append_run q_put m (fun l => l ++ [m]) ∅ R s (fun q => q_put_run q m) Hi eq_refl) as Hs.
    rewrite bool_decide_eq_false_2 in Hs by lia. exact Hs.
  - intros t m l s [[R Hi] Ht] Hm. destruct (take_head_run t m l R s Hi Hm) as (q' & E & Hq' & Hm' & Hsize).
    exists (QueueOs (q_os s) q'). split_and!; [exact E| |done|done|done]. split; [|done]. exists R. by apply same_kernel_inv.
  - intros s [[R Hi] Ht]. pose proof (qi_ring _ _ _ Hi) as Hq. cbn [mq_query os_message_queue]. unfold OSQQuery.
    rewrite (bind_Done _ _ _ _ _ (is_type_run _ s)), (qi_type _ _ _ Hi). cbn [negb Z.eqb OS_EVENT_TYPE_Q Pos.eqb].
    rewrite bind_gets, (messages_length _ Hq). destruct (0 <? _); [|by eexists].
    rewrite (cell_read (q_cb s) _ Hq (qo_out _ Hq)). cbn [from_array]. eexists. by destruct s.
Defined.

(** ** The port *)
Definition ERR_OK : Z := 0.
Definition ERR_MEM : Z := -1.
Definition SYS_ARCH_TIMEOUT : Z := 0xFFFFFFFF.
Definition OS_TICKS_PER_SEC : Z := 1000.
Definition MAX_QUEUE_ENTRIES : Z := 20.

(** Milliseconds as ticks, as [OSQPend] and [OSSemPend] get them. *)
Definition ucos_timeout (timeout : Z) : Z :=
  if negb (timeout =? 0) then
    let t := u32 (timeout * OS_TICKS_PER_SEC) / 1000 in
    u16 (if t <? 1 then 1 else t)
  else 0.

(** [timeout_new*1000/OS_TICKS_PER_SEC + 1] *)
Definition ms_of_ticks (t : Z) : Z := u32 (u32 (t * 1000) / OS_TICKS_PER_SEC + 1).

(** The time waited: [>] in [sys_arch_mbox_fetch], [>=] in [sys_arch_sem_wait]. *)
Definition mbox_waited (t0 t1 : Z) : Z :=
  ms_of_ticks (if t0 <? t1 then t1 - t0 else u32 (0xffffffff - t0 + t1)).
Definition sem_waited (t0 t1 : Z) : Z :=
  ms_of_ticks (if t0 <=? t1 then t1 - t0 else u32 (0xffffffff - t0 + t1)).

Section port.
Context {St : Type} `{!MessageQueue St}.
(** The address of the constant that stands for a null message. *)
Context (pvNullPointer : Z).

Definition message_of (msg : Z) : Z := if msg =? 0 then pvNullPointer else msg.
Definition message_back (temp : Z) : Z := if temp =? pvNullPointer then 0 else temp.

Definition sys_mbox_trypost (msg : Z) : M St Z :=
  err ← mq_post (message_of msg);
  if negb (err =? OS_ERR_NONE) then mret ERR_MEM else mret ERR_OK.

(** [while(OSQPost(mbox->pQ,msg)!=OS_ERR_NONE);] *)
Fixpoint post_loop (fuel : nat) (msg : Z) : M St unit :=
  match fuel with
  | O => halt_with Spin
  | S fuel => err ← mq_post msg; if negb (err =? OS_ERR_NONE) then post_loop fuel msg else skip
  end.

Definition sys_mbox_post (fuel : nat) (msg : Z) : M St unit := post_loop fuel (message_of msg).

(** The end of [sys_arch_mbox_fetch]: the message stored in [*msg], and the result. *)
Definition fetch_end (t0 : Z) (r : Z * Z) : M St (Z * Z) :=
  let '(temp, ucErr) := r in
  if ucErr =? OS_ERR_TIMEOUT then mret (message_back temp, SYS_ARCH_TIMEOUT)
  else t1 ← mq_now; mret (message_back temp, mbox_waited t0 t1).

(** [sys_arch_mbox_fetch] up to where it returns, or the task sleeps: then the time
    it had read is given to the rest. *)
Definition sys_arch_mbox_fetch (timeout : Z) : M St ((Z * Z) + Z) :=
  t0 ← mq_now;
  r ← mq_pend (ucos_timeout timeout);
  match r with
  | Some r => r ← fetch_end t0 r; mret (inl r)
  | None => mret (inr t0)
  end.

Definition sys_arch_mbox_fetch_resumed (t0 : Z) : M St (Z * Z) :=
  r ← mq_resumed; fetch_end t0 r.

Definition sys_arch_mbox_tryfetch : M St ((Z * Z) + Z) := sys_arch_mbox_fetch 1.

(** The answer of [OSQQuery] is read into a structure of zeros. *)
Definition sys_mbox_valid : M St Z :=
  q ← mq_query;
  let '(ucErr, q_data) := q in
  let '(_, OSNMsgs, OSQSize) := default (0, 0, 0) q_data in
  mret (if (ucErr <? 2) && (OSNMsgs <? OSQSize) then 1 else 0).

Definition sys_now : M St Z := t ← mq_now; mret (ms_of_ticks t).
End port.

(** Semaphores are used directly. *)
Definition sem_wait_end (t0 ucErr : Z) : M os Z :=
  if ucErr =? OS_ERR_TIMEOUT then mret SYS_ARCH_TIMEOUT
  else t1 ← gets (fun s => OSTime (os_k s)); mret (sem_waited t0 t1).

Definition sys_arch_sem_wait (timeout : Z) : M os (Z + Z) :=
  t0 ← gets (fun s => OSTime (os_k s));
  r ← OSSemPend (ucos_timeout timeout);
  match r with
  | Some err => r ← sem_wait_end t0 err; mret (inl r)
  | None => mret (inr t0)
  end.

Definition sys_arch_sem_wait_resumed (t0 : Z) : M os Z := err ← OSSemPend_resumed; sem_wait_end t0 err.

Definition sys_sem_signal : M os unit := OSSemPost ;; skip.

(** ** What it does *)
Section port_spec.
Context {St : Type} `{!MessageQueue St, !MessageQueueLaws St} (pvNullPointer : Z).
Implicit Types s : St.

(** The messages of a mailbox as lwIP sees them. *)
Definition mails s : list Z := message_back pvNullPointer <$> mq_messages s.

Lemma message_back_of msg : pvNullPointer <> 0 -> msg <> pvNullPointer ->
  message_back pvNullPointer (message_of pvNullPointer msg) = msg.
Proof.
  intros Hp Hm. unfold message_back, message_of. destruct (Z.eqb_spec msg 0) as [->|].
  - by rewrite Z.eqb_refl.
  - by rewrite (proj2 (Z.eqb_neq _ _)).
Qed.

(** In the tick in which it began, a wait is taken for 4294967 ms. *)
Lemma waited_nothing t : is_u32 t -> mbox_waited t t = 4294967 /\ sem_waited t t = 1.
Proof.
  intros [H0 H1]. unfold mbox_waited, sem_waited. rewrite Z.ltb_irrefl, Z.leb_refl, Z.sub_diag. split; [|done].
  by replace (u32 (0xffffffff - t + t)) with 0xffffffff by (rewrite Z.sub_add; done).
Qed.

(** Reading a message that waits. *)
Lemma fetch_waiting timeout m l s :
  mq_ok s -> mq_messages s = m :: l ->
  exists s', sys_arch_mbox_fetch pvNullPointer timeout s = Done (inl (message_back pvNullPointer m, 4294967)) s' /\
    mq_ok s' /\ mq_messages s' = l /\ mq_size s' = mq_size s.
Proof.
  intros Hok Hm. destruct (mq_pend_head (ucos_timeout timeout) m l s Hok Hm) as (s' & E & Hok' & Hm' & Hs' & Ht').
  exists s'. split; [|done]. unfold sys_arch_mbox_fetch. rewrite (bind_Done _ _ _ _ _ (mq_now_run s)).
  rewrite (bind_Done _ _ _ _ _ E). unfold fetch_end. cbn [Z.eqb OS_ERR_NONE OS_ERR_TIMEOUT].
  rewrite bind_bind, (bind_Done _ _ _ _ _ (mq_now_run s')), bind_ret, Ht'.
  by rewrite (proj1 (waited_nothing (mq_time s) (mq_time_u32 s Hok))).
Qed.

Lemma trypost_run msg s :
  mq_ok s ->
  if bool_decide (Z.of_nat (length (mq_messages s)) < mq_size s)
  then exists s', sys_mbox_trypost pvNullPointer msg s = Done ERR_OK s' /\ mq_ok s' /\
    mq_messages s' = mq_messages s ++ [message_of pvNullPointer msg] /\ mq_size s' = mq_size s
  else sys_mbox_trypost pvNullPointer msg s = Done ERR_MEM s.
Proof.
  intros Hok. pose proof (mq_bounded s Hok) as Hb. unfold sys_mbox_trypost. case_bool_decide as Hl.
  - destruct (mq_post_room (message_of pvNullPointer msg) s Hok Hl) as (s' & E & H).
    exists s'. split; [|done]. by rewrite (bind_Done _ _ _ _ _ E).
  - by rewrite (bind_Done _ _ _ _ _ (mq_post_full (message_of pvNullPointer msg) s Hok ltac:(lia))).
Qed.

Lemma post_loop_full fuel msg s :
  mq_ok s -> Z.of_nat (length (mq_messages s)) = mq_size s -> post_loop fuel msg s = Halted Spin s.
Proof.
  intros Hok Hl. induction fuel as [|fuel IH]; [done|]. cbn [post_loop].
  by rewrite (bind_Done _ _ _ _ _ (mq_post_full msg s Hok Hl)).
Qed.

Lemma valid_run s :
  mq_ok s -> sys_mbox_valid s = Done (if Z.of_nat (length (mq_messages s)) <? mq_size s then 1 else 0) s.
Proof.
  intros Hok. destruct (mq_query_run s Hok) as [m E]. unfold sys_mbox_valid. by rewrite (bind_Done _ _ _ _ _ E).
Qed.
End port_spec.

(** ** The properties, for any queue that keeps the laws *)

(** C37: a mailbox is a bounded first-in first-out queue, null messages included:
    [sys_mbox_trypost] puts the message behind the others or says [ERR_MEM], and
    [sys_arch_mbox_fetch] returns the oldest one as it was posted. *)
Theorem mailbox_fifo {St} `{!MessageQueue St, !MessageQueueLaws St} (pvNullPointer msg timeout : Z) (s : St) :
  mq_ok s -> pvNullPointer <> 0 -> msg <> pvNullPointer ->
  wp (sys_mbox_trypost pvNullPointer msg) (fun r s' => mq_ok s' /\
    if bool_decide (Z.of_nat (length (mails pvNullPointer s)) < mq_size s)
    then r = ERR_OK /\ mails pvNullPointer s' = mails pvNullPointer s ++ [msg]
    else r = ERR_MEM /\ s' = s) s /\
  (forall m l, mails pvNullPointer s = m :: l ->
    wp (sys_arch_mbox_fetch pvNullPointer timeout) (fun r s' => mq_ok s' /\
      (exists t, r = inl (m, t)) /\ mails pvNullPointer s' = l) s).
Proof.
  intros Hok Hp Hm. split.
  - pose proof (trypost_run pvNullPointer msg s Hok) as H.
    assert (length (mails pvNullPointer s) = length (mq_messages s)) as EL by apply length_fmap. rewrite EL.
    apply wp_Done. case_bool_decide as Hl.
    + destruct H as (s' & E & Hok' & Hm' & _). exists ERR_OK, s'. split_and!; [exact E|done|done|].
      unfold mails. rewrite Hm', fmap_app. cbn. by rewrite message_back_of.
    + by exists ERR_MEM, s.
  - intros m l Hml. apply wp_Done. unfold mails in Hml. apply fmap_cons_inv in Hml as (x & l' & -> & -> & Hx).
    destruct (fetch_waiting pvNullPointer timeout x l' s Hok Hx) as (s' & E & Hok' & Hm' & _).
    eexists _, s'. split; [exact E|]. split_and!; [done|by eexists|]. unfold mails. by rewrite Hm'.
Qed.

(** The time [sys_arch_mbox_fetch] reports is wrong whenever the message is there in
    the tick of the call: 4294967 ms instead of one. In [sys_timeouts_mbox_fetch] the
    next timer then has no time left, so it fires before the next message is even
    looked at, and every later timer is early by as much. *)
Theorem waiting_message_fires_timer {St} `{!MessageQueue St, !MessageQueueLaws St}
    (pvNullPointer : Z) (t : timeo) (rest : list timeo) (s : St) :
  mq_ok s -> mq_messages s <> [] -> 0 < time t <= 4294967 ->
  wp (sys_arch_mbox_fetch pvNullPointer (time t)) (fun r s' => exists m time_needed, r = inl (m, time_needed) /\
    exists l, after_fetch time_needed (t :: rest) = (None, l) /\ fetch_timeout l = None /\
      due 0 l = (fun x => (x.1.1 - time t, x.1.2, x.2)) <$> due 0 (t :: rest)) s.
Proof.
  intros Hok Hne Ht. destruct (mq_messages s) as [|m l] eqn:Em; [done|].
  destruct (fetch_waiting pvNullPointer (time t) m l s Hok Em) as (s' & E & _).
  apply wp_Done. eexists _, s'. split; [exact E|]. eexists _, _. split; [done|].
  exists (t <| time := 0 |> :: rest). split_and!.
  - cbn. by rewrite (proj2 (Z.ltb_ge _ _)) by lia.
  - done.
  - cbn. f_equal; [by rewrite Z.sub_diag|]. pose proof (due_shift 0 (time t) rest) as Ed.
    cbn in Ed. rewrite Ed, <- list_fmap_compose, Z.add_0_l. etrans; [symmetry; apply list_fmap_id|].
    apply list_fmap_ext. intros i [[x y] z] _. cbn. do 2 f_equal. lia.
Qed.

(** A full mailbox: [sys_mbox_post] tries for ever without giving up the processor,
    and [sys_mbox_valid] takes it for one that does not exist. *)
Theorem full_mailbox {St} `{!MessageQueue St, !MessageQueueLaws St} (pvNullPointer msg : Z) (fuel : nat) (s : St) :
  mq_ok s -> Z.of_nat (length (mq_messages s)) = mq_size s ->
  sys_mbox_post pvNullPointer fuel msg s = Halted Spin s /\ sys_mbox_valid s = Done 0 s.
Proof.
  intros Hok Hl. split; [by apply post_loop_full|]. rewrite (valid_run s Hok).
  by rewrite (proj2 (Z.ltb_ge _ _)) by lia.
Qed.

(** The time limit is cut to 16 bits: 65536 ms, and every multiple, waits for ever. *)
Lemma long_timeouts_wait_forever k : 0 <= k <= 65 -> ucos_timeout (65536 * k) = 0.
Proof.
  intros Hk. unfold ucos_timeout, OS_TICKS_PER_SEC, u32, u16. destruct (Z.eqb_spec (65536 * k) 0) as [|Hne]; [done|].
  cbn [negb]. rewrite (Z.mod_small (65536 * k * 1000)) by lia. rewrite Z.div_mul by lia.
  destruct (Z.ltb_spec (65536 * k) 1); [lia|]. rewrite Z.mul_comm. by apply Z.mod_mul.
Qed.

(** A semaphore that is there is taken, and the time reported is right. *)
Lemma sem_wait_available timeout s :
  OSEventType (os_e s) = OS_EVENT_TYPE_SEM -> 0 < OSEventCnt (os_e s) ->
  OSIntNesting (os_k s) = 0 -> OSLockNesting (os_k s) = 0 -> is_u32 (OSTime (os_k s)) ->
  sys_arch_sem_wait timeout s =
    Done (inl 1) (s <| os_e := (os_e s) <| OSEventCnt := OSEventCnt (os_e s) - 1 |> |>).
Proof.
  intros Hty Hc Hi Hl Ht. unfold sys_arch_sem_wait. rewrite bind_gets. unfold OSSemPend.
  rewrite bind_bind, (bind_Done _ _ _ (OSEventType (os_e s) =? OS_EVENT_TYPE_SEM) s), bind_bind, bind_gets by done.
  cbn [id]. rewrite Hty, Hi, Hl, (proj2 (Z.ltb_lt 0 (OSEventCnt (os_e s)))) by done.
  cbn [negb Z.eqb OS_EVENT_TYPE_SEM Pos.eqb Z.ltb Z.compare]. rewrite bind_bind.
  change (in_e (OSEventCnt ::= OSEventCnt (os_e s) - 1) s) with
    (Done tt (s <| os_e := (os_e s) <| OSEventCnt := OSEventCnt (os_e s) - 1 |> |>)).
  rewrite (bind_Done _ _ _ tt (s <| os_e := (os_e s) <| OSEventCnt := OSEventCnt (os_e s) - 1 |> |>)) by done.
  rewrite bind_ret. unfold sem_wait_end. cbn [Z.eqb OS_ERR_NONE OS_ERR_TIMEOUT]. rewrite bind_bind, bind_gets.
  change (OSTime (os_k (s <| os_e := (os_e s) <| OSEventCnt := OSEventCnt (os_e s) - 1 |> |>))) with (OSTime (os_k s)).
  by rewrite bind_ret, (proj2 (waited_nothing _ Ht)).
Qed.

(** ** Witnesses: the port on the queue of the kernel *)
Definition mailbox_example : queue_os :=
  QueueOs (Os kernel_example (Event OS_EVENT_TYPE_Q 0 pmap_empty)) (OSQ [11; 12; 0; 10] 4 2 3 3).
Definition full_example : queue_os :=
  QueueOs (Os kernel_example (Event OS_EVENT_TYPE_Q 0 pmap_empty)) (OSQ [11; 12; 13; 10] 4 3 3 4).

Lemma example_ok q : q_ok q -> os_queue_ok (QueueOs (Os kernel_example (Event OS_EVENT_TYPE_Q 0 pmap_empty)) q).
Proof.
  intros Hq. split; [|split; cbn; lia]. exists ready_example.
  destruct queue_example_inv as [H1 H2 H3 _ _ H6 H7]. by constructor.
Qed.

Lemma mailbox_example_ok : mq_ok mailbox_example.
Proof. apply example_ok. constructor; cbn; lia || done. Qed.

Lemma mailbox_fifo_witness :
  wp (sys_mbox_trypost 0x8001234 0) (fun r s' => r = ERR_OK /\ mails 0x8001234 s' = [10; 11; 12; 0]) mailbox_example /\
  wp (sys_arch_mbox_fetch 0x8001234 0) (fun r s' => mails 0x8001234 s' = [11; 12]) mailbox_example.
Proof.
  destruct (mailbox_fifo 0x8001234 0 0 mailbox_example mailbox_example_ok ltac:(lia) ltac:(lia)) as [H1 H2]. split.
  - eapply wp_mono; [exact H1|]. intros r s' [_ H]. exact H.
  - eapply wp_mono; [exact (H2 10 [11; 12] eq_refl)|]. intros r s' (_ & _ & H). exact H.
Defined.

(** The timers of IP reassembly and ARP, and messages that wait. *)
Lemma waiting_message_fires_timer_witness :
  wp (sys_arch_mbox_fetch 0x8001234 1000) (fun r s' => exists m time_needed, r = inl (m, time_needed) /\
    exists l, after_fetch time_needed timers_example = (None, l) /\ fetch_timeout l = None /\
      due 0 l = [(0, 1, 0); (4000, 2, 0)]) mailbox_example.
Proof.
  apply (waiting_message_fires_timer 0x8001234 (Timeo 1000 1 0) [Timeo 4000 2 0] mailbox_example);
    [apply mailbox_example_ok|discriminate|cbn; lia].
Defined.

Lemma full_mailbox_witness :
  sys_mbox_post 0x8001234 1000 7 full_example = Halted Spin full_example /\
  sys_mbox_valid full_example = Done 0 full_example.
Proof.
  apply (full_mailbox 0x8001234 7 1000 full_example); [|reflexivity].
  apply example_ok. constructor; cbn; lia || done.
Defined.
