(* ===== verification/Usart.v ===== *)
(** * The serial line: src/SYSTEM/usart/usart.c

    The interrupt collects a line that ends with 0x0D 0x0A. [USART_RX_STA] holds the
    number of bytes in its low 14 bits, bit 14 for "0x0D seen" and bit 15 for "a line
    is there"; the last stays until somebody clears the word. *)
From Stdlib Require Import ZArith Lia.
From stdpp Require Import base tactics decidable list list_numbers numbers.
From S2P Require Import Prelude.
Open Scope Z_scope.
Open Scope c_scope.

Definition USART_REC_LEN : Z := 200.

Record usart := Usart { USART_RX_BUF : list Z; USART_RX_STA : Z }.

#[export] Instance usart_eta : Eta usart := fun u => Usart (USART_RX_BUF u) (USART_RX_STA u).
#[export] Instance upd_USART_RX_BUF : Upd USART_RX_BUF := ltac:(derive_upd).
#[export] Instance upd_USART_RX_STA : Upd USART_RX_STA := ltac:(derive_upd).

Definition usart_boot : usart := Usart (replicate 200 0) 0.

(** [HAL_UART_RxCpltCallback] of the port [USART1], with the byte [aRxBuffer[0]]. *)
Definition HAL_UART_RxCpltCallback (is_usart1 : bool) (b : Z) : M usart unit :=
  if is_usart1 then
    sta ← gets USART_RX_STA;
    if Z.land sta 0x8000 =? 0 then
      if negb (Z.land sta 0x4000 =? 0) then
        if negb (b =? 0x0a) then USART_RX_STA ::= 0 else USART_RX_STA ::= Z.lor sta 0x8000
      else if b =? 0x0d then USART_RX_STA ::= Z.lor sta 0x4000
      else
        wr USART_RX_BUF (Z.land sta 0x3FFF) b ;;
        USART_RX_STA ::= u16 (sta + 1) ;;
        sta ← gets USART_RX_STA;
        if USART_REC_LEN - 1 <? sta then USART_RX_STA ::= 0 else skip
    else skip
  else skip.

(** Bytes that come one after another. *)
Definition receive_bytes (bs : list Z) : M usart unit := for_each bs (HAL_UART_RxCpltCallback true).

(** ** The receiver as a state machine *)
Inductive line :=
  | Collecting (got : list Z)
  | Returned (got : list Z)     (** after 0x0D *)
  | Complete (got : list Z).

Definition line_step (b : Z) (l : line) : line :=
  match l with
  | Collecting got =>
    if b =? 0x0d then Returned got
    else if (199 <=? length got)%nat then Collecting [] else Collecting (got ++ [b])
  | Returned got => if b =? 0x0a then Complete got else Collecting []
  | Complete got => Complete got
  end.

Definition got_of (l : line) : list Z := match l with Collecting g | Returned g | Complete g => g end.
Definition flags_of (l : line) : Z :=
  match l with Collecting _ => 0 | Returned _ => 0x4000 | Complete _ => 0xC000 end.

(** The words of the interrupt stand for a state of the machine. *)
Record stands_for (u : usart) (l : line) : Prop := {
  sf_buf : length (USART_RX_BUF u) = 200%nat;
  sf_len : (length (got_of l) <= 199)%nat;
  sf_got : take (length (got_of l)) (USART_RX_BUF u) = got_of l;
  sf_sta : USART_RX_STA u = flags_of l + Z.of_nat (length (got_of l));
}.

(** The flags and the count do not meet. *)
Lemma sta_bits n : 0 <= n < 200 ->
  Z.land n 0x8000 = 0 /\ Z.land n 0x4000 = 0 /\ Z.land n 0x3FFF = n /\ Z.lor n 0x4000 = 0x4000 + n /\
  Z.land (0x4000 + n) 0x8000 = 0 /\ Z.land (0x4000 + n) 0x4000 = 0x4000 /\
  Z.lor (0x4000 + n) 0x8000 = 0xC000 + n /\ Z.land (0xC000 + n) 0x8000 = 0x8000.
Proof.
  intros Hn.
  assert (Forall (fun n => Z.land n 0x8000 = 0 /\ Z.land n 0x4000 = 0 /\ Z.land n 0x3FFF = n /\
    Z.lor n 0x4000 = 0x4000 + n /\ Z.land (0x4000 + n) 0x8000 = 0 /\ Z.land (0x4000 + n) 0x4000 = 0x4000 /\
    Z.lor (0x4000 + n) 0x8000 = 0xC000 + n /\ Z.land (0xC000 + n) 0x8000 = 0x8000) (seqZ 0 200)) as Hall
    by (apply (bool_decide_eq_true_1 _); vm_compute; reflexivity).
  rewrite Forall_forall in Hall. apply Hall, list_elem_of_In, elem_of_seqZ. lia.
Qed.

Lemma callback_run b u l :
  stands_for u l ->
  exists u', HAL_UART_RxCpltCallback true b u = Done tt u' /\ stands_for u' (line_step b l).
Proof.
  intros [Hb Hl Hg Hs]. destruct (sta_bits (Z.of_nat (length (got_of l)))) as (B1 & B2 & B3 & B4 & B5 & B6 & B7 & B8); [lia|].
  unfold HAL_UART_RxCpltCallback. rewrite bind_gets, Hs.
  destruct l as [g|g|g]; cbn [got_of flags_of] in *; rewrite ?Z.add_0_l.
  - rewrite B1, B2. cbn [Z.eqb negb line_step]. destruct (Z.eqb_spec b 0x0d).
    { eexists. split; [reflexivity|]. constructor; cbn; [done|done|done|by rewrite B4]. }
    rewrite B3. rewrite (bind_Done _ _ u tt (u <| USART_RX_BUF := <[Z.to_nat (Z.of_nat (length g)) := b]> (USART_RX_BUF u) |>))
      by (apply wr_Done; lia).
    rewrite bind_put, bind_gets. cbn [USART_RX_STA upd upd_USART_RX_STA]. unfold u16.
    rewrite Z.mod_small by lia. unfold USART_REC_LEN. destruct (Nat.leb_spec 199 (length g)).
    + rewrite (proj2 (Z.ltb_lt _ _)) by lia. eexists. split; [reflexivity|].
      constructor; cbn; [by rewrite length_insert|lia|by rewrite take_0|done].
    + rewrite (proj2 (Z.ltb_ge _ _)) by lia. eexists. split; [reflexivity|].
      constructor; cbn; [by rewrite length_insert|rewrite length_app; cbn; lia| |rewrite length_app; cbn; lia].
      rewrite Nat2Z.id, length_app, Nat.add_1_r.
      rewrite (take_S_r _ _ b) by (rewrite list_lookup_insert_eq by lia; done).
      by rewrite take_insert_ge, Hg by lia.
  - rewrite B5, B6. cbn [Z.eqb negb line_step]. destruct (Z.eqb_spec b 0x0a); cbn [negb].
    + eexists. split; [reflexivity|]. constructor; cbn; [done|done|done|by rewrite B7].
    + eexists. split; [reflexivity|]. constructor; cbn; [done|lia|by rewrite take_0|done].
  - rewrite B8. cbn [Z.eqb]. by exists u.
Qed.

(** From any state the interrupt follows the machine, and never writes outside the
    buffer. *)
Lemma receive_refines bs : forall u l,
  stands_for u l ->
  exists u', receive_bytes bs u = Done tt u' /\ stands_for u' (fold_left (fun l b => line_step b l) bs l).
Proof.
  induction bs as [|b bs IH]; intros u l Hu; [by exists u|].
  destruct (callback_run b u l Hu) as (u1 & E1 & H1). destruct (IH u1 _ H1) as (u2 & E2 & H2).
  exists u2. split; [|done]. unfold receive_bytes. cbn [for_each]. by rewrite (bind_Done _ _ _ _ _ E1).
Qed.

Lemma usart_boot_stands : stands_for usart_boot (Collecting []).
Proof. constructor; [done|cbn; lia|done|done]. Qed.

Lemma collect bs : forall got,
  Forall (fun b => b <> 0x0d) bs -> (length got + length bs <= 199)%nat ->
  fold_left (fun l b => line_step b l) bs (Collecting got) = Collecting (got ++ bs).
Proof.
  induction bs as [|b bs IH]; intros got Hb Hl; [by rewrite app_nil_r|].
  apply Forall_cons_1 in Hb as [Hb Hbs]. cbn [fold_left line_step length] in *.
  rewrite (proj2 (Z.eqb_neq _ _) Hb), (proj2 (Nat.leb_gt _ _)) by lia.
  rewrite IH by (done || rewrite length_app; cbn; lia). by rewrite <- app_assoc.
Qed.

Lemma complete_stays bs got : fold_left (fun l b => line_step b l) bs (Complete got) = Complete got.
Proof. induction bs as [|b bs IH]; [done|exact IH]. Qed.

(** A line of up to 199 bytes without 0x0D, ended by 0x0D 0x0A, is in the buffer with
    its length in the status word, and whatever comes after it changes nothing until
    the word is cleared; on any bytes at all the interrupt stays inside its buffer. *)
Theorem line_received (bs rest : list Z) :
  wp (receive_bytes rest) (fun _ u => exists l, stands_for u l) usart_boot /\
  (Forall (fun b => b <> 0x0d) bs -> (length bs <= 199)%nat ->
    wp (receive_bytes (bs ++ [0x0d; 0x0a] ++ rest)) (fun _ u =>
      take (length bs) (USART_RX_BUF u) = bs /\
      USART_RX_STA u = 0xC000 + Z.of_nat (length bs)) usart_boot).
Proof.
  split.
  - destruct (receive_refines rest usart_boot _ usart_boot_stands) as (u & E & H).
    apply wp_Done. exists tt, u. split; [done|]. by eexists.
  - intros Hb Hl. destruct (receive_refines (bs ++ [0x0d; 0x0a] ++ rest) usart_boot _ usart_boot_stands) as (u & E & H).
    apply wp_Done. exists tt, u. split; [done|]. rewrite !fold_left_app, (collect bs []) in H by done.
    cbn [fold_left line_step Z.eqb Pos.eqb] in H. rewrite app_nil_l, complete_stays in H.
    destruct H as [_ _ Hg Hs]. split; [exact Hg|exact Hs].
Qed.

Lemma line_received_witness :
  wp (receive_bytes ([0x41; 0x42] ++ [0x0d; 0x0a] ++ [0x43])) (fun _ u =>
    take 2 (USART_RX_BUF u) = [0x41; 0x42] /\ USART_RX_STA u = 0xC002) usart_boot.
Proof.
  apply (proj2 (line_received [0x41; 0x42] [0x43])); [|cbn; lia].
  repeat constructor; discriminate.
Defined.
