(* ===== verification/Pbuf.v ===== *)
(** * Packet buffers of lwIP

    src/LWIP/lwip-1.4.1/src/core/pbuf.c over the pools of
    src/LWIP/lwip-1.4.1/src/core/memp.c: chains of buffers in one store, shared by
    reference counts. A pointer is an address, 0 when it is null; the payload
    pointer is an offset into the memory behind the structure. The loops along a
    chain have as fuel the number of buffers in the store, which a chain without a
    cycle cannot exceed. Each received Ethernet frame and each datagram lies in
    such a chain. *)
From Stdlib Require Import ZArith Lia.
From stdpp Require Import base tactics decidable list list_numbers numbers gmap functions.
From S2P Require Import Prelude Udp Net.
Open Scope Z_scope.
Open Scope c_scope.

Definition PBUF_RAM : Z := 0.
Definition PBUF_ROM : Z := 1.
Definition PBUF_REF : Z := 2.
Definition PBUF_POOL : Z := 3.
Definition PBUF_FLAG_IS_CUSTOM : Z := 2.
Definition PBUF_POOL_BUFSIZE_ALIGNED : Z := 512.

Inductive pbuf_layer := PBUF_TRANSPORT | PBUF_IP | PBUF_LINK | PBUF_RAW.

Inductive memp_t := MEMP_PBUF_POOL | MEMP_PBUF | MEMP_TCPIP_MSG_INPKT.

#[export] Instance memp_t_eq_dec : EqDecision memp_t.
Proof. solve_decision. Defined.

(** [struct pbuf] and the memory behind it. *)
Record pbuf := Pbuf {
  pb_next : Z;
  pb_payload : Z;
  pb_tot_len : Z;
  pb_len : Z;
  pb_type : Z;
  pb_flags : Z;
  pb_ref : Z;
  pb_data : list Z;
}.

#[export] Instance pbuf_eta : Eta pbuf := fun b =>
  Pbuf (pb_next b) (pb_payload b) (pb_tot_len b) (pb_len b) (pb_type b) (pb_flags b) (pb_ref b) (pb_data b).
#[export] Instance upd_pb_next : Upd pb_next := ltac:(derive_upd).
#[export] Instance upd_pb_payload : Upd pb_payload := ltac:(derive_upd).
#[export] Instance upd_pb_tot_len : Upd pb_tot_len := ltac:(derive_upd).
#[export] Instance upd_pb_len : Upd pb_len := ltac:(derive_upd).
#[export] Instance upd_pb_flags : Upd pb_flags := ltac:(derive_upd).
#[export] Instance upd_pb_ref : Upd pb_ref := ltac:(derive_upd).
#[export] Instance upd_pb_data : Upd pb_data := ltac:(derive_upd).

(** The store, the free lists [memp_tab], the blocks given to [mem_free], and the
    buffers given to a [custom_free_function]. *)
Record pbufs := Pbufs {
  pb_mem : gmap Z pbuf;
  memp_tab : memp_t -> list Z;
  mem_freed : list Z;
  custom_freed : list Z;
}.

#[export] Instance pbufs_eta : Eta pbufs := fun s => Pbufs (pb_mem s) (memp_tab s) (mem_freed s) (custom_freed s).
#[export] Instance upd_pb_mem : Upd pb_mem := ltac:(derive_upd).
#[export] Instance upd_memp_tab : Upd memp_tab := ltac:(derive_upd).
#[export] Instance upd_mem_freed : Upd mem_freed := ltac:(derive_upd).
#[export] Instance upd_custom_freed : Upd custom_freed := ltac:(derive_upd).

Notation MP := (M pbufs).

(** ** The pools *)

(** The pools of memp_std.h, as number and size of their elements: they depend on the
    sizes of lwIP's structures.  [memp_get_memorysize] computes in 32 bits; the tables
    [memp_sizes] and [memp_num] that [memp_init] reads have 16. *)
Definition memp_get_memorysize (pools : list (nat * Z)) : Z :=
  u32 (foldl (fun length pool => length + Z.of_nat pool.1 * LWIP_MEM_ALIGN_SIZE pool.2) (4 - 1) pools).

Definition memp_sizes (pool : nat * Z) : Z := u16 (LWIP_MEM_ALIGN_SIZE pool.2).
Definition memp_num (pool : nat * Z) : nat := Z.to_nat (u16 (Z.of_nat pool.1)).

(** The elements of a pool from [memp] on: its free list and the next address. *)
Fixpoint memp_carve (num : nat) (size memp : Z) (tab : list Z) : list Z * Z :=
  match num with
  | O => (tab, memp)
  | S num => memp_carve num size (memp + size) (memp :: tab)
  end.

Fixpoint memp_init_loop (pools : list (nat * Z)) (memp : Z) : list (list Z) :=
  match pools with
  | [] => []
  | pool :: pools =>
      let '(tab, memp) := memp_carve (memp_num pool) (memp_sizes pool) memp [] in
      tab :: memp_init_loop pools memp
  end.

(** [LWIP_MEM_ALIGN] of an address is [LWIP_MEM_ALIGN_SIZE] of a size. *)
Definition memp_init (memp_memory : Z) (pools : list (nat * Z)) : list (list Z) :=
  memp_init_loop pools (LWIP_MEM_ALIGN_SIZE memp_memory).

Definition memp_malloc (type : memp_t) : MP Z :=
  t ← gets memp_tab;
  match t type with
  | [] => mret 0
  | memp :: rest => memp_tab ::= <[type := rest]> t ;; mret memp
  end.

Definition memp_free (type : memp_t) (mem : Z) : MP unit :=
  if mem =? 0 then skip else
  t ← gets memp_tab;
  memp_tab ::= <[type := mem :: t type]> t.

(** ** Access to a buffer *)
Definition pb_get (p : Z) : MP pbuf :=
  b ← gets (fun s => pb_mem s !! p);
  match b with Some b => mret b | None => undefined NullDeref end.

Definition pb_set (p : Z) (b : pbuf) : MP unit :=
  modify (fun s => s <| pb_mem := <[p := b]> (pb_mem s) |>).

(** [memcpy((u8_t* )p->payload + off, bytes, length bytes)], and the other way. *)
Definition pb_write (p off : Z) (bytes : list Z) : MP unit :=
  b ← pb_get p;
  d ← copy_in (pb_data b) (pb_payload b + off) bytes;
  pb_set p (b <| pb_data := d |>).

(** [n] elements of an array from [off] on. *)
Definition copy_out {S A} (l : list A) (off n : Z) : M S (list A) :=
  if bool_decide (0 <= off /\ 0 <= n /\ off + n <= Z.of_nat (length l))
  then mret (take (Z.to_nat n) (drop (Z.to_nat off) l)) else undefined OutOfBounds.

Definition pb_read (p off n : Z) : MP (list Z) :=
  b ← pb_get p; copy_out (pb_data b) (pb_payload b + off) n.

(** The steps a walk along a chain can take. *)
Definition walk_fuel : MP nat := gets (fun s => S (size (pb_mem s))).

(** ** Reference counts *)

(** The end of the buffer [p]: back to where its flags and its type say it came from. *)
Definition pbuf_release (flags type p : Z) : MP unit :=
  if negb (Z.land flags PBUF_FLAG_IS_CUSTOM =? 0) then l ← gets custom_freed; custom_freed ::= p :: l
  else if type =? PBUF_POOL then memp_free MEMP_PBUF_POOL p
  else if (type =? PBUF_ROM) || (type =? PBUF_REF) then memp_free MEMP_PBUF p
  else l ← gets mem_freed; mem_freed ::= p :: l.

Fixpoint pbuf_free_loop (fuel : nat) (p count : Z) : MP Z :=
  if p =? 0 then mret count else
  match fuel with
  | O => halt_with Spin
  | S fuel =>
      b ← pb_get p;
      let ref := u16 (pb_ref b - 1) in
      pb_set p (b <| pb_ref := ref |>) ;;
      if ref =? 0 then
        pbuf_release (pb_flags b) (pb_type b) p ;;
        pbuf_free_loop fuel (pb_next b) (u8 (count + 1))
      else mret count
  end.

Definition pbuf_free (p : Z) : MP Z :=
  if p =? 0 then mret 0 else n ← walk_fuel; pbuf_free_loop n p 0.

Definition pbuf_ref (p : Z) : MP unit :=
  if p =? 0 then skip else
  b ← pb_get p;
  pb_set p (b <| pb_ref := u16 (pb_ref b + 1) |>).

(** ** Allocation from the pool: [pbuf_alloc] for [PBUF_POOL] *)
Definition header_offset (layer : pbuf_layer) : Z :=
  match layer with
  | PBUF_TRANSPORT => 14 + 20 + 20
  | PBUF_IP => 14 + 20
  | PBUF_LINK => 14
  | PBUF_RAW => 0
  end.

(** [while (rem_len > 0)]: [r] is the last buffer of the chain that starts at [p]. *)
Fixpoint pbuf_alloc_tail (fuel : nat) (p r rem_len : Z) : MP Z :=
  if rem_len >? 0 then
    match fuel with
    | O => halt_with Spin
    | S fuel =>
        q ← memp_malloc MEMP_PBUF_POOL;
        if q =? 0 then pbuf_free p ;; mret 0 else
        b ← pb_get q;
        let len := Z.min (u16 rem_len) PBUF_POOL_BUFSIZE_ALIGNED in
        pb_set q (Pbuf 0 0 (u16 rem_len) len PBUF_POOL 0 1 (pb_data b)) ;;
        rb ← pb_get r;
        pb_set r (rb <| pb_next := q |>) ;;
        pbuf_alloc_tail fuel p q (rem_len - len)
    end
  else mret p.

Definition pbuf_alloc_pool (layer : pbuf_layer) (length : Z) : MP Z :=
  let offset := LWIP_MEM_ALIGN_SIZE (header_offset layer) in
  p ← memp_malloc MEMP_PBUF_POOL;
  if p =? 0 then mret 0 else
  b ← pb_get p;
  let len := Z.min length (PBUF_POOL_BUFSIZE_ALIGNED - offset) in
  pb_set p (Pbuf 0 offset length len PBUF_POOL (pb_flags b) 1 (pb_data b)) ;;
  r ← pbuf_alloc_tail (Z.to_nat length) p p (length - len);
  if r =? 0 then mret 0 else
  b ← pb_get r;
  pb_set r (b <| pb_ref := 1 |> <| pb_flags := 0 |>) ;;
  mret r.

(** ** Chains *)

(** [for (p = h; p->next != NULL; p = p->next) p->tot_len += t->tot_len;]: the last one. *)
Fixpoint pbuf_cat_loop (fuel : nat) (p t : Z) : MP Z :=
  match fuel with
  | O => halt_with Spin
  | S fuel =>
      b ← pb_get p;
      if pb_next b =? 0 then mret p else
      tb ← pb_get t;
      pb_set p (b <| pb_tot_len := u16 (pb_tot_len b + pb_tot_len tb) |>) ;;
      pbuf_cat_loop fuel (pb_next b) t
  end.

Definition pbuf_cat (h t : Z) : MP unit :=
  if (h =? 0) || (t =? 0) then skip else
  n ← walk_fuel;
  p ← pbuf_cat_loop n h t;
  b ← pb_get p;
  tb ← pb_get t;
  pb_set p (b <| pb_tot_len := u16 (pb_tot_len b + pb_tot_len tb) |> <| pb_next := t |>).

Definition pbuf_chain (h t : Z) : MP unit := pbuf_cat h t ;; pbuf_ref t.

Definition pbuf_dechain (p : Z) : MP Z :=
  b ← pb_get p;
  let q := pb_next b in
  if q =? 0 then mret 0 else
  qb ← pb_get q;
  pb_set q (qb <| pb_tot_len := u16 (pb_tot_len b - pb_len b) |>) ;;
  b ← pb_get p;
  pb_set p (b <| pb_next := 0 |> <| pb_tot_len := pb_len b |>) ;;
  tail_gone ← pbuf_free q;
  mret (if tail_gone >? 0 then 0 else q).

Fixpoint pbuf_clen_loop (fuel : nat) (p len : Z) : MP Z :=
  if p =? 0 then mret len else
  match fuel with
  | O => halt_with Spin
  | S fuel => b ← pb_get p; pbuf_clen_loop fuel (pb_next b) (u8 (len + 1))
  end.

Definition pbuf_clen (p : Z) : MP Z := n ← walk_fuel; pbuf_clen_loop n p 0.

(** ** Length and headers *)

(** [while (rem_len > q->len)]: the new last buffer and its length. *)
Fixpoint pbuf_realloc_loop (fuel : nat) (q rem_len grow : Z) : MP (Z * Z) :=
  b ← pb_get q;
  if rem_len >? pb_len b then
    match fuel with
    | O => halt_with Spin
    | S fuel =>
        pb_set q (b <| pb_tot_len := u16 (pb_tot_len b + u16 grow) |>) ;;
        pbuf_realloc_loop fuel (pb_next b) (u16 (rem_len - pb_len b)) grow
    end
  else mret (q, rem_len).

(** [mem_trim] leaves a buffer of type [PBUF_RAM] where it is, with the bytes that are
    asked for. *)
Definition pbuf_realloc (p new_len : Z) : MP unit :=
  b ← pb_get p;
  if pb_tot_len b <=? new_len then skip else
  n ← walk_fuel;
  w ← pbuf_realloc_loop n p new_len (new_len - pb_tot_len b);
  let '(q, rem_len) := w in
  b ← pb_get q;
  (if (pb_type b =? PBUF_RAM) && negb (rem_len =? pb_len b) then
     pb_set q (b <| pb_data := take (Z.to_nat (pb_payload b + rem_len)) (pb_data b) |>)
   else skip) ;;
  b ← pb_get q;
  pb_set q (b <| pb_len := rem_len |> <| pb_tot_len := rem_len |>) ;;
  (if negb (pb_next b =? 0) then _ ← pbuf_free (pb_next b); skip else skip) ;;
  b ← pb_get q;
  pb_set q (b <| pb_next := 0 |>).

(** The payload of a buffer moved by [inc] bytes, to the front when positive. *)
Definition move_payload (inc : Z) (b : pbuf) : pbuf :=
  b <| pb_payload := pb_payload b - inc |> <| pb_len := u16 (pb_len b + inc) |> <| pb_tot_len := u16 (pb_tot_len b + inc) |>.

(** The argument is an [s16_t]; the program passes lengths of headers. *)
Definition pbuf_header (p header_size_increment : Z) : MP Z :=
  if (header_size_increment =? 0) || (p =? 0) then mret 0 else
  b ← pb_get p;
  if (header_size_increment <? 0) && (pb_len b <? - header_size_increment) then mret 1 else
  if (pb_type b =? PBUF_RAM) || (pb_type b =? PBUF_POOL) then
    if pb_payload b - header_size_increment <? 0 then mret 1
    else pb_set p (move_payload header_size_increment b) ;; mret 0
  else if (pb_type b =? PBUF_REF) || (pb_type b =? PBUF_ROM) then
    if header_size_increment <? 0
    then pb_set p (move_payload header_size_increment b) ;; mret 0
    else mret 1
  else mret 1.

(** ** Contents *)
Definition ERR_ARG : Z := -14.

(** [for(p = buf; total_copy_len != 0; p = p->next)], [data] being what is left to copy. *)
Fixpoint pbuf_take_loop (fuel : nat) (p : Z) (data : list Z) : MP unit :=
  match data with
  | [] => skip
  | _ =>
      match fuel with
      | O => halt_with Spin
      | S fuel =>
          b ← pb_get p;
          let n := Z.min (Z.of_nat (length data)) (pb_len b) in
          pb_write p 0 (take (Z.to_nat n) data) ;;
          pbuf_take_loop fuel (pb_next b) (drop (Z.to_nat n) data)
      end
  end.

(** [dataptr] is a buffer with the bytes [data], and [len] their number. *)
Definition pbuf_take (buf : Z) (data : list Z) : MP Z :=
  if buf =? 0 then mret 0 else
  b ← pb_get buf;
  if pb_tot_len b <? Z.of_nat (length data) then mret ERR_ARG else
  n ← walk_fuel;
  pbuf_take_loop n buf data ;;
  mret 0.

(** [for(p = buf; len != 0 && p != NULL; p = p->next)]: the bytes copied. *)
Fixpoint pbuf_copy_loop (fuel : nat) (p len offset : Z) (got : list Z) : MP (list Z) :=
  if (len =? 0) || (p =? 0) then mret got else
  match fuel with
  | O => halt_with Spin
  | S fuel =>
      b ← pb_get p;
      if negb (offset =? 0) && (pb_len b <=? offset) then
        pbuf_copy_loop fuel (pb_next b) len (offset - pb_len b) got
      else
        let n := Z.min (u16 (pb_len b - offset)) len in
        bytes ← pb_read p offset n;
        pbuf_copy_loop fuel (pb_next b) (len - n) 0 (got ++ bytes)
  end.

(** What is written to [dataptr]; the result of the function is their number. *)
Definition pbuf_copy_partial (buf len offset : Z) : MP (list Z) :=
  if buf =? 0 then mret [] else n ← walk_fuel; pbuf_copy_loop n buf len offset [].
