(* ===== verification/MempSpec.v ===== *)
(** * The pools of lwIP

    What src/LWIP/lwip-1.4.1/src/core/memp.c makes of the memory that lwip_comm.c
    gives it, for any sizes of lwIP's structures the tables of memp.c can hold. *)
From Stdlib Require Import ZArith Lia.
From stdpp Require Import base tactics decidable list list_numbers numbers gmap functions.
From S2P Require Import Prelude Udp Net Pbuf.
Open Scope Z_scope.
Open Scope c_scope.

(** ** [memp_init] *)
Lemma align_bounds n : n <= LWIP_MEM_ALIGN_SIZE n <= n + 3 /\ LWIP_MEM_ALIGN_SIZE n mod 4 = 0.
Proof.
  assert (LWIP_MEM_ALIGN_SIZE n = (n + 3) / 4 * 4) as ->.
  { unfold LWIP_MEM_ALIGN_SIZE. change (4 - 1) with (Z.ones 2). rewrite <- Z.ldiff_land, Z.ldiff_ones_r by lia.
    rewrite Z.shiftl_mul_pow2, Z.shiftr_div_pow2 by lia. change (2 ^ 2) with 4. by replace (n + 4 - 1) with (n + 3) by lia. }
  rewrite Z.mod_mul by lia. split; [|done]. Z.to_euclidean_division_equations; lia.
Qed.

Lemma memp_carve_ok num size : forall memp tab,
  memp_carve num size memp tab =
    (rev ((fun k => memp + Z.of_nat k * size) <$> seq 0 num) ++ tab, memp + Z.of_nat num * size).
Proof.
  induction num as [|num IH]; intros memp tab; cbn [memp_carve]; [by rewrite Z.add_0_r|].
  rewrite IH. f_equal; [|lia]. cbn [seq fmap list_fmap rev]. rewrite <- app_assoc. f_equal.
  - f_equal. rewrite <- seq_shift. rewrite <- list_fmap_compose. apply list_fmap_ext. intros i k _. cbn. lia.
  - cbn. f_equal. lia.
Qed.

(** Bytes of the pools. *)
Definition pools_size (pools : list (nat * Z)) : Z :=
  foldr (fun pool n => Z.of_nat pool.1 * LWIP_MEM_ALIGN_SIZE pool.2 + n) 0 pools.

(** The numbers and the aligned sizes fit the 16 bits of the tables. *)
Definition sized (pools : list (nat * Z)) : Prop :=
  forall i num size, pools !! i = Some (num, size) -> Z.of_nat num < 2 ^ 16 /\ 0 <= size <= 2 ^ 16 - 4.

Lemma memp_get_memorysize_eq pools :
  0 <= pools_size pools < 2 ^ 32 - 3 -> memp_get_memorysize pools = 3 + pools_size pools.
Proof.
  intros Hp. unfold memp_get_memorysize. change (4 - 1) with 3.
  assert (forall n, foldl (fun length pool => length + Z.of_nat pool.1 * LWIP_MEM_ALIGN_SIZE pool.2) n pools =
    n + pools_size pools) as ->.
  { clear Hp. induction pools as [|[num size] pools IH]; intros n; cbn [foldl pools_size foldr]; [lia|].
    rewrite IH. fold (pools_size pools). cbn [fst snd]. lia. }
  unfold u32. apply Z.mod_small. lia.
Qed.

Lemma memp_tables num size :
  Z.of_nat num < 2 ^ 16 /\ 0 <= size <= 2 ^ 16 - 4 ->
  memp_num (num, size) = num /\ memp_sizes (num, size) = LWIP_MEM_ALIGN_SIZE size.
Proof.
  intros [Hn Hs]. unfold memp_num, memp_sizes, u16. cbn [fst snd]. rewrite !Z.mod_small; [lia| |lia].
  pose proof (align_bounds size) as [Hz Hz4]. change (2 ^ 16) with 65536 in *.
  destruct (decide (LWIP_MEM_ALIGN_SIZE size < 65536)); [lia|].
  assert (LWIP_MEM_ALIGN_SIZE size <= 65535) by lia. lia.
Qed.

Lemma memp_init_loop_lookup pools : forall memp i num size tab,
  sized pools -> pools !! i = Some (num, size) -> memp_init_loop pools memp !! i = Some tab ->
  tab = rev ((fun k => memp + pools_size (take i pools) + Z.of_nat k * LWIP_MEM_ALIGN_SIZE size) <$> seq 0 num).
Proof.
  induction pools as [|[num0 size0] pools IH]; intros memp i num size tab Hs; [done|].
  destruct (memp_tables num0 size0 (Hs 0%nat _ _ eq_refl)) as [En Es].
  cbn [memp_init_loop]. rewrite En, Es, memp_carve_ok, app_nil_r.
  destruct i as [|i]; cbn [lookup list_lookup].
  - intros [= -> ->] [= <-]. cbn. by rewrite Z.add_0_r.
  - intros Hp Ht. rewrite (IH _ _ _ _ _ (fun i => Hs (S i)) Hp Ht). f_equal. apply list_fmap_ext. intros j k _.
    cbn [take pools_size foldr fst snd]. fold (pools_size (take i pools)). lia.
Qed.

Lemma pools_size_app p1 p2 : pools_size (p1 ++ p2) = pools_size p1 + pools_size p2.
Proof. induction p1 as [|[num size] p1 IH]; [done|]. cbn [app pools_size foldr]. fold (pools_size (p1 ++ p2)). rewrite IH. fold (pools_size p1). lia. Qed.

Lemma pools_size_nonneg pools : sized pools -> 0 <= pools_size pools.
Proof.
  induction pools as [|[num size] pools IH]; intros H; [done|]. cbn [pools_size foldr fst snd]. fold (pools_size pools).
  pose proof (align_bounds size). pose proof (H 0%nat num size eq_refl). specialize (IH (fun i => H (S i))). nia.
Qed.

(** The pools follow one another. *)
Lemma pools_size_take pools i j num size :
  sized pools -> pools !! i = Some (num, size) -> (i < j)%nat ->
  pools_size (take i pools) + Z.of_nat num * LWIP_MEM_ALIGN_SIZE size <= pools_size (take j pools).
Proof.
  intros Hs Hp Hij. replace j with (S i + (j - S i))%nat by lia. rewrite <- take_take_drop, pools_size_app.
  rewrite (take_S_r _ _ _ Hp), pools_size_app. cbn.
  assert (0 <= pools_size (take (j - S i) (drop (S i) pools))); [|lia].
  apply pools_size_nonneg. intros k n z Hk. apply lookup_take_Some in Hk as [Hk _]. rewrite lookup_drop in Hk. by eapply Hs.
Qed.

Lemma memp_init_lookup memory pools i num size tab k a :
  sized pools -> pools !! i = Some (num, size) -> memp_init memory pools !! i = Some tab -> tab !! k = Some a ->
  length tab = num /\ (k < num)%nat /\
  a = LWIP_MEM_ALIGN_SIZE memory + pools_size (take i pools) + Z.of_nat (num - 1 - k) * LWIP_MEM_ALIGN_SIZE size.
Proof.
  intros Hs Hp Ht Ha. pose proof (memp_init_loop_lookup _ _ _ _ _ _ Hs Hp Ht) as ->. rewrite rev_alt in Ha |- *.
  change (rev_append ?l []) with (reverse l) in Ha |- *. rewrite length_reverse, length_fmap, length_seq. split; [done|].
  pose proof (lookup_lt_Some _ _ _ Ha) as Hk. rewrite length_reverse, length_fmap, length_seq in Hk. split; [done|].
  rewrite reverse_lookup, length_fmap, length_seq, list_lookup_fmap, lookup_seq_lt in Ha by (rewrite ?length_fmap, ?length_seq; lia).
  cbn in Ha. injection Ha as <-. do 3 f_equal. lia.
Qed.

Lemma pools_size_mod pools : (4 | pools_size pools).
Proof.
  induction pools as [|[num size] pools IH]; [by exists 0|]. cbn [pools_size foldr fst snd]. fold (pools_size pools).
  apply Z.divide_add_r; [|done]. apply Z.divide_mul_r, Z.mod_divide; [done|apply align_bounds].
Qed.

Lemma memp_init_before memory pools i j num size num' size' tab tab' k k' a a' :
  sized pools -> (i < j)%nat ->
  pools !! i = Some (num, size) -> memp_init memory pools !! i = Some tab -> tab !! k = Some a ->
  pools !! j = Some (num', size') -> memp_init memory pools !! j = Some tab' -> tab' !! k' = Some a' ->
  a + size <= a'.
Proof.
  intros Hs Hij Hp Ht Ha Hp' Ht' Ha'.
  destruct (memp_init_lookup _ _ _ _ _ _ _ _ Hs Hp Ht Ha) as (_ & Hk & ->).
  destruct (memp_init_lookup _ _ _ _ _ _ _ _ Hs Hp' Ht' Ha') as (_ & _ & ->).
  pose proof (pools_size_take pools i j num size Hs Hp Hij). pose proof (align_bounds size). pose proof (align_bounds size').
  pose proof (Hs _ _ _ Hp). pose proof (Hs _ _ _ Hp').
  assert (0 <= Z.of_nat (num' - 1 - k') * LWIP_MEM_ALIGN_SIZE size') by nia.
  assert (Z.of_nat (num - 1 - k) * LWIP_MEM_ALIGN_SIZE size + LWIP_MEM_ALIGN_SIZE size <= Z.of_nat num * LWIP_MEM_ALIGN_SIZE size) by nia. lia.
Qed.

(** C30: as long as the numbers and the aligned sizes of the elements fit the 16 bits
    of the tables in memp.c and the sum fits 32, [memp_init] carves the memory of
    [memp_get_memorysize] bytes that lwip_comm.c asks for into the pools: each pool has
    its number of elements, every element is aligned and lies in the memory, and no two
    elements, of the same pool or of different ones, overlap.  (A size of more than
    65532 bytes is cut to 16 bits, and the elements overlap: [memp_init_truncates].) *)
Theorem memp_init_carves memory pools i num size tab k a :
  sized pools -> pools_size pools < 2 ^ 32 - 3 ->
  pools !! i = Some (num, size) -> memp_init memory pools !! i = Some tab -> tab !! k = Some a ->
  length tab = num /\ a mod 4 = 0 /\ memory <= a /\ a + size <= memory + memp_get_memorysize pools /\
  forall i' num' size' tab' k' a',
    pools !! i' = Some (num', size') -> memp_init memory pools !! i' = Some tab' -> tab' !! k' = Some a' ->
    (i, k) = (i', k') \/ a + size <= a' \/ a' + size' <= a.
Proof.
  intros Hs Htot Hp Ht Ha. destruct (memp_init_lookup _ _ _ _ _ _ _ _ Hs Hp Ht Ha) as (Hl & Hk & Ea).
  pose proof (align_bounds memory) as [Hm Hm4]. pose proof (align_bounds size) as [Hz Hz4]. pose proof (Hs _ _ _ Hp).
  assert (0 <= pools_size (take i pools)) as Hn.
  { apply pools_size_nonneg. intros j n z [Hj _]%lookup_take_Some. by eapply Hs. }
  assert (0 <= Z.of_nat (num - 1 - k) * LWIP_MEM_ALIGN_SIZE size /\
    Z.of_nat (num - 1 - k) * LWIP_MEM_ALIGN_SIZE size + LWIP_MEM_ALIGN_SIZE size <= Z.of_nat num * LWIP_MEM_ALIGN_SIZE size) as [] by (split; nia).
  split_and!; [done| | | |].
  - rewrite Ea. apply Z.mod_divide; [done|]. repeat apply Z.divide_add_r; [by apply Z.mod_divide|apply pools_size_mod|].
    by apply Z.divide_mul_r, Z.mod_divide.
  - lia.
  - rewrite memp_get_memorysize_eq by (split; [by apply pools_size_nonneg|done]). pose proof (pools_size_take pools i (length pools) num size Hs Hp (lookup_lt_Some _ _ _ Hp)) as Hle.
    rewrite (take_ge pools (length pools)) in Hle by lia. lia.
  - intros i' num' size' tab' k' a' Hp' Ht' Ha'. destruct (lt_eq_lt_dec i i') as [[Hi| ->]|Hi].
    + right. left. exact (memp_init_before _ _ _ _ _ _ _ _ _ _ _ _ _ _ Hs Hi Hp Ht Ha Hp' Ht' Ha').
    + rewrite Hp in Hp'. injection Hp' as <- <-. destruct (memp_init_lookup _ _ _ _ _ _ _ _ Hs Hp Ht' Ha') as (_ & Hk' & Ea').
      destruct (decide (k = k')) as [->|]; [by left|right]. rewrite Ea, Ea'. nia.
    + right. right. exact (memp_init_before _ _ _ _ _ _ _ _ _ _ _ _ _ _ Hs Hi Hp' Ht' Ha' Hp Ht Ha).
Qed.

Lemma memp_init_carves_witness :
  memp_init 1001 [(2%nat, 10); (3%nat, 7)] = [[1016; 1004]; [1044; 1036; 1028]] /\
  1036 mod 4 = 0 /\ 1036 + 7 <= 1001 + memp_get_memorysize [(2%nat, 10); (3%nat, 7)].
Proof.
  split; [reflexivity|].
  destruct (memp_init_carves 1001 [(2%nat, 10); (3%nat, 7)] 1 3 7 [1044; 1036; 1028] 1 1036) as (_ & H1 & _ & H2 & _);
    [|reflexivity..|by split].
  intros [|[|i]] num size; cbn; [intros [= <- <-]; lia..|done].
Defined.

(** Two elements of 65536 bytes in the same place, in a memory for both. *)
Lemma memp_init_truncates :
  memp_init 1000 [(2%nat, 65535)] = [[1000; 1000]] /\ memp_get_memorysize [(2%nat, 65535)] = 3 + 2 * 65536.
Proof. by vm_compute. Qed.
