(* ===== verification/PbufSpec.v ===== *)
(** * What packet buffers promise

    The reference counts are right and nothing leaks; a chain is allocated whole or
    not at all; what is put into a chain is what is read from it. *)
From Stdlib Require Import ZArith Lia.
From stdpp Require Import base tactics decidable list list_numbers numbers gmap functions.
From S2P Require Import Prelude Udp Net Pbuf.
Open Scope Z_scope.
Open Scope c_scope.

(** ** The pool *)
Definition pool (s : pbufs) : list Z := memp_tab s MEMP_PBUF_POOL.

(** The buffers in use. *)
Definition live (s : pbufs) : gmap Z pbuf := filter (fun kv => kv.1 ∉ pool s) (pb_mem s).

Lemma live_Some s a b : live s !! a = Some b <-> pb_mem s !! a = Some b /\ a ∉ pool s.
Proof. unfold live. by rewrite map_lookup_filter_Some. Qed.

(** How many buffers of [L] point to [a]. *)
Definition preds (L : gmap Z pbuf) (a : Z) : Z :=
  Z.of_nat (size (filter (fun kv => pb_next kv.2 = a) L)).

Lemma preds_insert_new (L : gmap Z pbuf) q b a :
  L !! q = None -> preds (<[q := b]> L) a = preds L a + (if decide (pb_next b = a) then 1 else 0).
Proof.
  intros Hq. unfold preds. rewrite map_filter_insert. cbn [snd]. case_decide as E.
  - rewrite map_size_insert_None by (apply map_lookup_filter_None; by left). lia.
  - rewrite map_filter_delete, delete_id by (apply map_lookup_filter_None; by left). lia.
Qed.

Lemma preds_delete (L : gmap Z pbuf) q b a :
  L !! q = Some b -> preds L a = preds (delete q L) a + (if decide (pb_next b = a) then 1 else 0).
Proof. intros Hq. rewrite <- (preds_insert_new (delete q L) q b a) by apply lookup_delete_eq. by rewrite insert_delete_id. Qed.

Lemma preds_insert (L : gmap Z pbuf) q b b' a :
  L !! q = Some b ->
  preds (<[q := b']> L) a + (if decide (pb_next b = a) then 1 else 0) =
  preds L a + (if decide (pb_next b' = a) then 1 else 0).
Proof.
  intros Hq. rewrite (preds_delete L q b a Hq). rewrite <- (insert_delete_eq L q b').
  rewrite preds_insert_new by apply lookup_delete_eq. lia.
Qed.

Lemma preds_nonneg L a : 0 <= preds L a.
Proof. unfold preds. lia. Qed.

(** The buffers in use, [own a] pointers from outside referring to [a]: the counts
    are the pointers, and no pointer leads out of [L]. *)
Record counts (own : Z -> Z) (L : gmap Z pbuf) : Prop := {
  co_null : L !! 0 = None;
  co_live a b : L !! a = Some b ->
    pb_ref b = own a + preds L a /\ 0 < pb_ref b < 2 ^ 16 /\
    (pb_next b = 0 \/ is_Some (L !! pb_next b)) /\ pb_type b = PBUF_POOL;
  co_own a : 0 <= own a /\ (own a <> 0 -> is_Some (L !! a));
}.

(** A buffer of the pool: its memory, and no custom release. *)
Definition plain (b : pbuf) : Prop :=
  Z.of_nat (length (pb_data b)) = PBUF_POOL_BUFSIZE_ALIGNED /\ Z.land (pb_flags b) PBUF_FLAG_IS_CUSTOM = 0.

(** The pool and the buffers in use. *)
Record pool_ok (own : Z -> Z) (s : pbufs) : Prop := {
  po_nodup : NoDup (pool s);
  po_free a : a ∈ pool s -> is_Some (pb_mem s !! a);
  po_null : pb_mem s !! 0 = None;
  po_data a b : pb_mem s !! a = Some b -> plain b;
  po_counts : counts own (live s);
}.

Lemma counts_ext own own' L : (forall a, own a = own' a) -> counts own L -> counts own' L.
Proof.
  intros E [H1 H2 H3]. constructor; [done| |].
  - intros a b Hb. rewrite <- E. by apply H2.
  - intros a. rewrite <- E. by apply H3.
Qed.

Lemma pool_ok_ext own own' s : (forall a, own a = own' a) -> pool_ok own s -> pool_ok own' s.
Proof. intros E []. constructor; [done..|]. by eapply counts_ext. Qed.

Lemma pool_nonnull own s a : pool_ok own s -> a ∈ pool s -> a <> 0.
Proof. intros H Ha ->. destruct (po_free _ _ H 0 Ha) as [b Hb]. by rewrite (po_null _ _ H) in Hb. Qed.

Lemma counts_nonnull own L a b : counts own L -> L !! a = Some b -> a <> 0.
Proof. intros H Hb ->. by rewrite (co_null _ _ H) in Hb. Qed.

Lemma live_nonnull own s a b : pool_ok own s -> live s !! a = Some b -> a <> 0.
Proof. intros H. apply (counts_nonnull own), H. Qed.

(** A buffer changed, with the same successor. *)
Lemma preds_same_next L p b b' a : L !! p = Some b -> pb_next b' = pb_next b -> preds (<[p := b']> L) a = preds L a.
Proof. intros Hb En. pose proof (preds_insert L p b b' a Hb) as E. rewrite En in E. lia. Qed.

Lemma insert_is_Some (L : gmap Z pbuf) p b a : is_Some (L !! a) \/ a = p -> is_Some (<[p := b]> L !! a).
Proof.
  destruct (decide (p = a)) as [<-|Hne]; [by rewrite lookup_insert_eq|].
  rewrite lookup_insert_ne by done. naive_solver.
Qed.

(** ** What keeps the counts right *)

(** Another content, or one reference fewer, of which there is another. *)
Lemma counts_update own L p b b' d :
  counts own L -> L !! p = Some b -> pb_next b' = pb_next b -> pb_type b' = pb_type b ->
  pb_ref b' = pb_ref b - d -> d <= own p -> 0 < pb_ref b - d < 2 ^ 16 -> counts (<[p := own p - d]> own) (<[p := b']> L).
Proof.
  intros [H1 H2 H3] Hb En Et Er Hd Hlt. constructor.
  - rewrite lookup_insert_ne; [done|]. intros ->. by rewrite H1 in Hb.
  - intros a c. rewrite (preds_same_next L p b b' a Hb En). destruct (decide (p = a)) as [<-|Ha].
    + rewrite lookup_insert_eq, fn_lookup_insert. intros [= <-]. rewrite En, Et, Er.
      destruct (H2 p b Hb) as (? & ? & Hn & ?). split_and!; [lia|lia|lia| |done].
      destruct Hn as [|Hn]; [by left|right]. apply insert_is_Some. by left.
    + rewrite lookup_insert_ne, fn_lookup_insert_ne by done. intros Hc.
      destruct (H2 a c Hc) as (? & ? & Hn & ?). split_and!; [done|lia|lia| |done].
      destruct Hn as [|Hn]; [by left|right]. apply insert_is_Some. by left.
  - intros a. destruct (decide (p = a)) as [<-|Ha].
    + rewrite fn_lookup_insert. split; [lia|]. intros _. by rewrite lookup_insert_eq.
    + rewrite fn_lookup_insert_ne by done. destruct (H3 a). split; [done|]. intros. apply insert_is_Some. auto.
Qed.

(** The last reference is dropped: the pointer to the successor is now held by
    whoever frees the buffer. *)
Definition inherited (own : Z -> Z) (p q : Z) : Z -> Z :=
  if decide (q = 0) then <[p := 0]> own else <[q := own q + 1]> (<[p := 0]> own).

Lemma inherited_at own p q a :
  p <> q -> inherited own p q a =
  if decide (a = p) then 0 else own a + (if decide (q = a /\ a <> 0) then 1 else 0).
Proof.
  intros Hpq. unfold inherited. destruct (decide (q = 0)) as [->|E0].
  - destruct (decide (a = p)) as [->|?]; [by rewrite fn_lookup_insert|].
    rewrite fn_lookup_insert_ne by done. rewrite decide_False by naive_solver. lia.
  - destruct (decide (a = p)) as [->|?].
    + by rewrite fn_lookup_insert_ne, fn_lookup_insert by done.
    + destruct (decide (q = a)) as [->|?].
      * rewrite fn_lookup_insert. by rewrite decide_True.
      * rewrite !fn_lookup_insert_ne by done. rewrite decide_False by naive_solver. lia.
Qed.

(** A buffer with one reference, from outside, has no predecessor. *)
Lemma last_reference own L p b :
  counts own L -> L !! p = Some b -> 0 < own p -> pb_ref b = 1 ->
  own p = 1 /\ preds L p = 0 /\ pb_next b <> p /\ forall a c, L !! a = Some c -> pb_next c <> p.
Proof.
  intros Hc Hb Ho Hr. destruct (co_live _ _ Hc p b Hb) as (E & _). pose proof (preds_nonneg L p).
  assert (forall a c, L !! a = Some c -> pb_next c <> p) as Hno.
  { intros a c Ha En. pose proof (preds_delete L a c p Ha) as Ep. rewrite decide_True in Ep by done.
    pose proof (preds_nonneg (delete a L) p). lia. }
  split_and!; [lia|lia|by eapply Hno|done].
Qed.

Lemma counts_release own L p b :
  counts own L -> L !! p = Some b -> 0 < own p -> pb_ref b = 1 ->
  counts (inherited own p (pb_next b)) (delete p L).
Proof.
  intros Hc Hb Hown Hr. destruct (last_reference own L p b Hc Hb Hown Hr) as (Ho1 & _ & Hself & Hno).
  pose proof Hc as [H1 H2 H3]. destruct (H2 p b Hb) as (_ & _ & Hn & _).
  constructor.
  - rewrite lookup_delete_ne; [done|by eapply counts_nonnull].
  - intros a c [Hne Hc']%lookup_delete_Some. destruct (H2 a c Hc') as (Ha & ? & Hna & ?).
    pose proof (counts_nonnull own L a c Hc Hc') as Ha0. pose proof (preds_delete L p b a Hb) as Epr.
    rewrite inherited_at, decide_False by done. split_and!; [|lia|lia| |done].
    + destruct (decide (pb_next b = a)); [rewrite decide_True by done; lia|rewrite decide_False by naive_solver; lia].
    + destruct Hna as [->|Hs]; [by left|right]. rewrite lookup_delete_ne; [done|]. intros E. by eapply Hno.
  - intros a. rewrite inherited_at by done. destruct (decide (a = p)) as [->|Hne]; [done|].
    destruct (H3 a) as [H30 H3s]. split; [case_decide; lia|]. rewrite lookup_delete_ne by done.
    case_decide as E; [|intros; apply H3s; lia].
    intros _. destruct E as [E E0]. destruct Hn as [Hn|Hn]; [congruence|by rewrite <- E].
Qed.

(** A new buffer, owned from outside. *)
Lemma counts_new own L p b :
  counts own L -> L !! p = None -> p <> 0 ->
  pb_ref b = 1 -> pb_next b = 0 -> pb_type b = PBUF_POOL ->
  counts (<[p := 1]> own) (<[p := b]> L) /\ own p = 0 /\ preds L p = 0.
Proof.
  intros Hc Hp Hp0 Er En Et. pose proof Hc as [H1 H2 H3].
  assert (own p = 0) as Ho.
  { destruct (H3 p) as [_ Hs]. destruct (decide (own p = 0)) as [|Hne]; [done|].
    destruct (Hs Hne) as [? El]. by rewrite Hp in El. }
  assert (preds L p = 0) as Hpr.
  { unfold preds. change 0 with (Z.of_nat 0). f_equal. apply map_size_empty_iff, map_empty. intros a.
    apply map_lookup_filter_None. right. intros c Hc' Hn. cbn in Hn.
    destruct (H2 a c Hc') as (_ & _ & [Hz|Hs] & _); [congruence|]. rewrite Hn, Hp in Hs. by destruct Hs. }
  split_and!; [|done|done].
  assert (forall a, a <> 0 -> preds (<[p := b]> L) a = preds L a) as Epr.
  { intros a Ha. rewrite (preds_insert_new L p b a Hp), En, decide_False by done. lia. }
  constructor.
  - by rewrite lookup_insert_ne.
  - intros a c. destruct (decide (p = a)) as [<-|Ha].
    + rewrite lookup_insert_eq, fn_lookup_insert, Epr, Hpr by done. intros [= <-].
      split_and!; [done|lia|lia|by left|done].
    + rewrite lookup_insert_ne, fn_lookup_insert_ne by done. intros Hc'.
      pose proof (counts_nonnull own L a c Hc Hc'). rewrite Epr by done.
      destruct (H2 a c Hc') as (? & ? & Hn & ?). split_and!; [done|lia|lia| |done].
      destruct Hn as [|Hn]; [by left|right]. apply insert_is_Some. by left.
  - intros a. destruct (decide (p = a)) as [<-|Ha].
    + rewrite fn_lookup_insert, lookup_insert_eq. by split.
    + rewrite fn_lookup_insert_ne by done. destruct (H3 a). split; [done|]. intros. apply insert_is_Some. auto.
Qed.

(** A pointer from outside is stored in a buffer without a successor. *)
Lemma counts_link own L r rb q n :
  counts own L -> L !! r = Some rb -> pb_next rb = 0 -> is_Some (L !! q) -> own q = n + 1 -> 0 <= n ->
  counts (<[q := n]> own) (<[r := rb <| pb_next := q |>]> L).
Proof.
  intros Hc Hr Hrn Hq Ho Hn. pose proof Hc as [H1 H2 H3].
  pose proof (counts_nonnull own L r rb Hc Hr) as Hr0.
  set (rb' := rb <| pb_next := q |>).
  assert (forall a, a <> 0 -> preds (<[r := rb']> L) a = preds L a + (if decide (q = a) then 1 else 0)) as Epr.
  { intros a Ha. pose proof (preds_insert L r rb rb' a Hr) as E. rewrite Hrn, (decide_False (P := 0 = a)) in E by done. cbn in E. lia. }
  assert (forall a c, L !! a = Some c ->
    pb_ref c = <[q := n]> own a + preds (<[r := rb']> L) a) as Hcount.
  { intros a c Ha. rewrite Epr by by eapply counts_nonnull. destruct (H2 a c Ha) as (E & _).
    destruct (decide (q = a)) as [<-|]; [rewrite fn_lookup_insert; lia|rewrite fn_lookup_insert_ne by done; lia]. }
  constructor.
  - by rewrite lookup_insert_ne.
  - intros a c. destruct (decide (r = a)) as [<-|Ha].
    + rewrite lookup_insert_eq. intros [= <-]. destruct (H2 r rb Hr) as (_ & ? & _ & ?).
      split_and!; [exact (Hcount r rb Hr)|subst rb'; cbn; lia|subst rb'; cbn; lia| |done].
      right. apply insert_is_Some. by left.
    + rewrite lookup_insert_ne by done. intros Hc'. destruct (H2 a c Hc') as (_ & ? & Hna & ?).
      split_and!; [by apply Hcount|lia|lia| |done]. destruct Hna as [|Hna]; [by left|right]. apply insert_is_Some. by left.
  - intros a. destruct (H3 a) as [? Hs].
    destruct (decide (q = a)) as [<-|]; [rewrite fn_lookup_insert|rewrite fn_lookup_insert_ne by done];
      (split; [done|]); intros; apply insert_is_Some; left; auto.
Qed.

(** ** Stores that differ at one buffer *)
Definition with_pb (p : Z) (b : pbuf) (s : pbufs) : pbufs := s <| pb_mem := <[p := b]> (pb_mem s) |>.
Definition with_pool (l : list Z) (s : pbufs) : pbufs := s <| memp_tab := <[MEMP_PBUF_POOL := l]> (memp_tab s) |>.

Lemma pb_get_run s p b : pb_mem s !! p = Some b -> pb_get p s = Done b s.
Proof. intros E. unfold pb_get. by rewrite bind_gets, E. Qed.

Lemma pb_set_run s p b : pb_set p b s = Done tt (with_pb p b s).
Proof. done. Qed.

Lemma pool_with_pool l s : pool (with_pool l s) = l.
Proof. unfold pool, with_pool. cbn. by rewrite fn_lookup_insert. Qed.

Lemma live_with_pb s p b : p ∉ pool s -> live (with_pb p b s) = <[p := b]> (live s).
Proof.
  intros Hp. apply map_eq. intros a. apply option_eq. intros b'. rewrite live_Some. cbn.
  destruct (decide (p = a)) as [<-|Hne].
  - rewrite !lookup_insert_eq. naive_solver.
  - rewrite !lookup_insert_ne by done. by rewrite live_Some.
Qed.

(** A buffer goes back. *)
Lemma live_release s p :
  live (with_pool (p :: pool s) s) = delete p (live s).
Proof.
  apply map_eq. intros a. apply option_eq. intros b.
  rewrite live_Some, pool_with_pool, lookup_delete_Some, live_Some. cbn.
  rewrite not_elem_of_cons. naive_solver.
Qed.

Lemma live_released s p b :
  p ∉ pool s -> live (with_pool (p :: pool s) (with_pb p b s)) = delete p (live s).
Proof.
  intros Hp. etrans; [exact (live_release (with_pb p b s) p)|].
  rewrite live_with_pb by done. apply delete_insert_eq.
Qed.

(** A buffer is taken. *)
Lemma live_take s p rest b :
  NoDup (pool s) -> pool s = p :: rest -> pb_mem s !! p = Some b ->
  live (with_pool rest s) = <[p := b]> (live s).
Proof.
  intros Hnd E Hb. rewrite E in Hnd. apply list.NoDup_cons in Hnd as [Hp _].
  apply map_eq. intros a. apply option_eq. intros b'. rewrite live_Some, pool_with_pool. cbn.
  destruct (decide (p = a)) as [<-|Hne].
  - rewrite lookup_insert_eq. naive_solver.
  - rewrite lookup_insert_ne by done. rewrite live_Some, E, not_elem_of_cons. naive_solver.
Qed.

Lemma live_pool_disjoint s a b : live s !! a = Some b -> a ∉ pool s.
Proof. by intros [_ H]%live_Some. Qed.

(** ** The pool as a whole *)
Lemma with_pb_ok own own' s p b b' :
  pool_ok own s -> live s !! p = Some b -> (plain b -> plain b') ->
  counts own' (<[p := b']> (live s)) -> pool_ok own' (with_pb p b' s).
Proof.
  intros [H1 H2 H3 H4 H5] Hb Hd Hc. pose proof Hb as [Hm Hp]%live_Some. constructor; try done.
  - intros a Ha. apply insert_is_Some. left. by apply H2.
  - cbn. rewrite lookup_insert_ne; [done|]. intros ->. by rewrite H3 in Hm.
  - intros a c. cbn. destruct (decide (p = a)) as [<-|Hne].
    + rewrite lookup_insert_eq. intros [= <-]. apply Hd, (H4 p b Hm).
    + rewrite lookup_insert_ne by done. apply H4.
  - by rewrite live_with_pb.
Qed.

Lemma pool_ok_same own s p b b' :
  pool_ok own s -> live s !! p = Some b ->
  pb_next b' = pb_next b -> pb_ref b' = pb_ref b -> pb_type b' = pb_type b ->
  (plain b -> plain b') -> pool_ok own (with_pb p b' s).
Proof.
  intros Hok Hb En Er Et Ed. apply (with_pb_ok own own s p b b'); [done..|].
  destruct (co_live _ _ (po_counts _ _ Hok) p b Hb) as (_ & ? & _). pose proof (co_own _ _ (po_counts _ _ Hok) p).
  eapply counts_ext; [|apply (counts_update own (live s) p b b' 0); [apply Hok|done..|lia|lia|lia]].
  intros a. destruct (decide (p = a)) as [<-|]; [rewrite fn_lookup_insert; lia|by rewrite fn_lookup_insert_ne].
Qed.

Lemma pool_ok_drop own s p b :
  pool_ok own s -> live s !! p = Some b -> 0 < own p -> pb_ref b <> 1 ->
  pool_ok (<[p := own p - 1]> own) (with_pb p (b <| pb_ref := pb_ref b - 1 |>) s).
Proof.
  intros Hok Hb Hown Hne. apply (with_pb_ok own _ s p b); [done..|].
  destruct (co_live _ _ (po_counts _ _ Hok) p b Hb) as (_ & ? & _).
  apply (counts_update own (live s) p b _ 1); [apply Hok|done|done|done|done|lia|lia].
Qed.

Lemma pool_ok_release own s p b b' :
  pool_ok own s -> live s !! p = Some b -> 0 < own p -> pb_ref b = 1 ->
  (plain b -> plain b') ->
  pool_ok (inherited own p (pb_next b)) (with_pool (p :: pool s) (with_pb p b' s)).
Proof.
  intros [H1 H2 H3 H4 H5] Hb Hown Hr Hd. pose proof Hb as [Hm Hp]%live_Some.
  constructor; rewrite ?pool_with_pool.
  - by apply list.NoDup_cons.
  - intros a Ha. apply insert_is_Some. apply elem_of_cons in Ha as [->|Ha]; [by right|left; by apply H2].
  - cbn. rewrite lookup_insert_ne; [done|]. intros ->. by rewrite H3 in Hm.
  - intros a c. cbn. destruct (decide (p = a)) as [<-|?].
    + rewrite lookup_insert_eq. intros [= <-]. apply Hd, (H4 p b Hm).
    + rewrite lookup_insert_ne by done. apply H4.
  - rewrite live_released by done. by apply counts_release.
Qed.

(** A buffer taken from the pool. *)
Lemma pool_ok_take own s p rest b nb :
  pool_ok own s -> pool s = p :: rest -> pb_mem s !! p = Some b ->
  pb_ref nb = 1 -> pb_next nb = 0 -> pb_type nb = PBUF_POOL -> (plain b -> plain nb) ->
  pool_ok (<[p := 1]> own) (with_pb p nb (with_pool rest s)) /\
  live (with_pb p nb (with_pool rest s)) = <[p := nb]> (live s) /\ live s !! p = None /\ own p = 0.
Proof.
  intros Hok E Hb Er En Et Ed. pose proof Hok as [H1 H2 H3 H4 H5].
  assert (p ∉ rest /\ NoDup rest) as [Hpr Hnd] by (rewrite E in H1; by apply list.NoDup_cons in H1).
  assert (live s !! p = None) as Hl.
  { destruct (live s !! p) eqn:El; [|done]. apply live_pool_disjoint in El. rewrite E in El. by destruct El; left. }
  assert (p <> 0) as Hp0 by (eapply pool_nonnull; [exact Hok|rewrite E; by left]).
  destruct (counts_new own (live s) p nb H5 Hl Hp0 Er En Et) as (Hc & Ho & _).
  assert (live (with_pb p nb (with_pool rest s)) = <[p := nb]> (live s)) as El.
  { rewrite live_with_pb by by rewrite pool_with_pool. by rewrite (live_take s p rest b), insert_insert_eq. }
  split_and!; [|done|done|done].
  assert (pool (with_pb p nb (with_pool rest s)) = rest) as Ep
    by exact (pool_with_pool rest s).
  constructor; rewrite ?Ep, ?El; [done| | |..].
  - intros a Ha. apply insert_is_Some. left. apply H2. rewrite E. by right.
  - cbn. by rewrite lookup_insert_ne.
  - intros a c. cbn. destruct (decide (p = a)) as [<-|?].
    + rewrite lookup_insert_eq. intros [= <-]. apply Ed, (H4 p b Hb).
    + rewrite lookup_insert_ne by done. apply H4.
  - done.
Qed.

(** ** [pbuf_free] *)

(** Only counts and free lists differ. *)
Definition same_content (s s' : pbufs) : Prop :=
  forall a, (fun b => b <| pb_ref := 0 |>) <$> pb_mem s' !! a = (fun b => b <| pb_ref := 0 |>) <$> pb_mem s !! a.

Lemma same_content_trans s1 s2 s3 : same_content s1 s2 -> same_content s2 s3 -> same_content s1 s3.
Proof. intros H1 H2 a. by rewrite H2. Qed.

Lemma same_content_ref s p b r : pb_mem s !! p = Some b -> same_content s (with_pb p (b <| pb_ref := r |>) s).
Proof.
  intros Hb a. cbn. destruct (decide (p = a)) as [<-|Hne]; [by rewrite lookup_insert_eq, Hb|by rewrite lookup_insert_ne].
Qed.

Lemma memp_free_run s p : p <> 0 -> memp_free MEMP_PBUF_POOL p s = Done tt (with_pool (p :: pool s) s).
Proof. intros Hp. unfold memp_free. by rewrite (proj2 (Z.eqb_neq p 0)). Qed.

(** One turn of the loop. *)
Lemma free_turn fuel own s p b count :
  pool_ok own s -> live s !! p = Some b ->
  pbuf_free_loop (S fuel) p count s =
    if pb_ref b =? 1
    then pbuf_free_loop fuel (pb_next b) (u8 (count + 1))
      (with_pool (p :: pool s) (with_pb p (b <| pb_ref := 0 |>) s))
    else Done count (with_pb p (b <| pb_ref := pb_ref b - 1 |>) s).
Proof.
  intros Hok Hb. pose proof Hb as [Hm Hp]%live_Some.
  destruct (co_live _ _ (po_counts _ _ Hok) p b Hb) as (_ & Hr & _ & Ht).
  assert (p <> 0) as Hp0 by by eapply live_nonnull.
  cbn [pbuf_free_loop]. rewrite (proj2 (Z.eqb_neq p 0)) by done.
  rewrite (bind_Done _ _ _ _ _ (pb_get_run s p b Hm)).
  unfold u16. rewrite Z.mod_small by lia. rewrite (bind_Done _ _ _ _ _ (pb_set_run s p _)).
  destruct (Z.eqb_spec (pb_ref b) 1) as [E|E].
  - rewrite E. change (1 - 1) with 0. unfold pbuf_release. rewrite (proj2 (po_data _ _ Hok p b Hm)), Ht. cbn [negb]. cbn [Z.eqb PBUF_POOL Pos.eqb].
    by rewrite (bind_Done _ _ _ _ _ (memp_free_run _ p Hp0)).
  - by rewrite (proj2 (Z.eqb_neq (pb_ref b - 1) 0)) by lia.
Qed.

Definition dropped (own : Z -> Z) (p : Z) : Z -> Z := if decide (p = 0) then own else <[p := own p - 1]> own.

Lemma dropped_inherited own p q a :
  p <> 0 -> p <> q -> own p = 1 -> dropped (inherited own p q) q a = dropped own p a.
Proof.
  intros Hp Hpq Ho. unfold dropped, inherited. rewrite (decide_False (P := p = 0)) by done. rewrite Ho.
  change (1 - 1) with 0. destruct (decide (q = 0)) as [|Hq]; [done|]. rewrite fn_lookup_insert.
  destruct (decide (a = q)) as [->|Hne].
  - rewrite fn_lookup_insert, fn_lookup_insert_ne by done. lia.
  - by rewrite !(fn_lookup_insert_ne _ q) by done.
Qed.

Lemma free_loop_ok fuel : forall own s p count,
  pool_ok own s -> (p = 0 \/ 0 < own p) -> (size (live s) < fuel)%nat ->
  exists l s', pbuf_free_loop fuel p count s = Done (foldl (fun c _ => u8 (c + 1)) count l) s' /\
    pool_ok (dropped own p) s' /\ pool s' = rev l ++ pool s /\ same_content s s'.
Proof.
  induction fuel as [|fuel IH]; intros own s p count Hok Hp Hf; [lia|].
  destruct (decide (p = 0)) as [->|Hp0].
  { exists [], s. split_and!; [done| |done|done]. unfold dropped. by rewrite decide_True. }
  assert (0 < own p) as Hown by (destruct Hp; [done|lia]).
  destruct (co_own _ _ (po_counts _ _ Hok) p) as [_ [b Hb]]; [lia|]. rewrite (free_turn fuel own s p b count Hok Hb).
  pose proof Hb as [Hm _]%live_Some. destruct (co_live _ _ (po_counts _ _ Hok) p b Hb) as (Hr & _).
  destruct (Z.eqb_spec (pb_ref b) 1) as [E|E].
  - set (b' := b <| pb_ref := 0 |>). pose proof (pool_ok_release own s p b b' Hok Hb Hown E (fun H => H)) as Hok'.
    set (s1 := with_pool (p :: pool s) (with_pb p b' s)) in *.
    pose proof (preds_nonneg (live s) p). assert (own p = 1) as Ho by lia.
    assert (p <> pb_next b) as Hself
      by (apply not_eq_sym; by apply (last_reference own (live s) p b (po_counts _ _ Hok))).
    destruct (IH (inherited own p (pb_next b)) s1 (pb_next b) (u8 (count + 1)) Hok') as (l & s' & Er & Hok2 & Hl & Hs).
    + unfold inherited. destruct (decide (pb_next b = 0)) as [|Hq]; [by left|right].
      rewrite fn_lookup_insert. pose proof (co_own _ _ (po_counts _ _ Hok) (pb_next b)). lia.
    + subst s1. rewrite live_released by (eapply live_pool_disjoint; exact Hb).
      rewrite map_size_delete, Hb. cbn. assert (size (live s) <> 0)%nat; [|lia].
      intros E0%map_size_empty_inv. by rewrite E0, lookup_empty in Hb.
    + exists (p :: l), s'. split_and!; [exact Er| | |].
      * eapply pool_ok_ext; [|exact Hok2]. intros a. by apply dropped_inherited.
      * rewrite Hl. subst s1. rewrite pool_with_pool. cbn [rev]. by rewrite <- app_assoc.
      * eapply same_content_trans; [|exact Hs]. exact (same_content_ref s p b 0 Hm).
  - exists [], (with_pb p (b <| pb_ref := pb_ref b - 1 |>) s). split_and!; [done| |done|by apply same_content_ref].
    unfold dropped. rewrite decide_False by done. by apply pool_ok_drop.
Qed.

Lemma live_size s : (size (live s) <= size (pb_mem s))%nat.
Proof. unfold live. apply map_subseteq_size, map_filter_subseteq. Qed.

Lemma pbuf_free_ok own s p :
  pool_ok own s -> 0 < own p ->
  exists l s', pbuf_free p s = Done (foldl (fun c _ => u8 (c + 1)) 0 l) s' /\
    pool_ok (<[p := own p - 1]> own) s' /\ pool s' = rev l ++ pool s /\ same_content s s'.
Proof.
  intros Hok Hown. assert (p <> 0) as Hp0.
  { destruct (co_own _ _ (po_counts _ _ Hok) p) as [_ [b Hb]]; [lia|]. by eapply live_nonnull. }
  destruct (free_loop_ok (S (size (pb_mem s))) own s p 0 Hok) as (l & s' & E & Hok' & H); [by right| |].
  { pose proof (live_size s). lia. }
  exists l, s'. split; [|split; [|done]].
  - unfold pbuf_free. rewrite (proj2 (Z.eqb_neq p 0)) by done. unfold walk_fuel. by rewrite bind_gets.
  - unfold dropped in Hok'. by rewrite decide_False in Hok'.
Qed.

(** ** Chains *)

(** The buffers [l] follow one another from [p]; the last one points to [q]. *)
Fixpoint seg (h : gmap Z pbuf) (p : Z) (l : list Z) (q : Z) : Prop :=
  match l with
  | [] => p = q
  | a :: l => p = a /\ exists b, h !! a = Some b /\ seg h (pb_next b) l q
  end.

Lemma seg_app h p l1 l2 q : seg h p (l1 ++ l2) q <-> exists r, seg h p l1 r /\ seg h r l2 q.
Proof.
  revert p. induction l1 as [|a l1 IH]; intros p; cbn; [naive_solver|]. setoid_rewrite IH. naive_solver.
Qed.

Lemma seg_same h h' p l q :
  (forall a, a ∈ l -> pb_next <$> h' !! a = pb_next <$> h !! a) -> seg h p l q -> seg h' p l q.
Proof.
  revert p. induction l as [|a l IH]; intros p Hh; cbn; [done|]. intros [-> (b & Hb & Hs)]. split; [done|].
  pose proof (Hh a ltac:(by left)) as E. rewrite Hb in E. cbn in E.
  destruct (h' !! a) as [b'|] eqn:E'; [|done]. injection E as E. exists b'. split; [done|]. rewrite E.
  apply IH; [|done]. intros c Hc. apply Hh. by right.
Qed.

(** The whole chain up to the first shared buffer goes back. *)
Lemma free_exact fuel : forall own s p l q count,
  pool_ok own s -> seg (pb_mem s) p l q -> NoDup l ->
  (forall a, a ∈ l -> exists b, live s !! a = Some b /\ pb_ref b = 1) ->
  (q <> 0 -> exists b, live s !! q = Some b /\ pb_ref b <> 1) ->
  (p = 0 \/ 0 < own p) -> (length l < fuel)%nat ->
  exists s', pbuf_free_loop fuel p count s = Done (foldl (fun c _ => u8 (c + 1)) count l) s' /\
    pool s' = rev l ++ pool s /\ mem_freed s' = mem_freed s /\
    (forall t, t <> MEMP_PBUF_POOL -> memp_tab s' t = memp_tab s t) /\
    forall a, pb_mem s' !! a =
      if decide (a ∈ l) then (fun b => b <| pb_ref := 0 |>) <$> pb_mem s !! a
      else if decide (a = q) then (fun b => b <| pb_ref := pb_ref b - 1 |>) <$> pb_mem s !! a
      else pb_mem s !! a.
Proof.
  induction fuel as [|fuel IH]; intros own s p l q count Hok Hseg Hnd Hl Hq Hp Hf; [lia|].
  destruct l as [|a l].
  - cbn in Hseg. subst q. destruct (decide (p = 0)) as [->|Hp0].
    + exists s. split_and!; [done..|]. intros a. rewrite decide_False by apply not_elem_of_nil.
      case_decide as E; [|done]. by rewrite E, (po_null _ _ Hok).
    + destruct (Hq Hp0) as (b & Hb & Hr). rewrite (free_turn fuel own s p b count Hok Hb).
      rewrite (proj2 (Z.eqb_neq _ _) Hr). pose proof Hb as [Hm _]%live_Some.
      eexists. split_and!; [done..|]. intros a. rewrite decide_False by apply not_elem_of_nil.
      cbn. case_decide as E; [subst; by rewrite lookup_insert_eq, Hm|by rewrite lookup_insert_ne].
  - destruct Hseg as [-> (b & Hb & Hseg)]. apply list.NoDup_cons in Hnd as [Ha Hnd].
    destruct (Hl a) as (b0 & Hb0 & Hr); [by left|]. pose proof Hb0 as [Hm Hpool]%live_Some.
    rewrite Hb in Hm. injection Hm as <-.
    rewrite (free_turn fuel own s a b count Hok Hb0), Hr. cbn [Z.eqb Pos.eqb].
    set (b' := b <| pb_ref := 0 |>).
    assert (0 < own a) as Hown.
    { destruct Hp as [Hp|Hp]; [|done].
      by rewrite Hp, (po_null _ _ Hok) in Hb. }
    pose proof (pool_ok_release own s a b b' Hok Hb0 Hown Hr (fun H => H)) as Hok'.
    set (s1 := with_pool (a :: pool s) (with_pb a b' s)) in *.
    assert (forall c, c <> a -> live s1 !! c = live s !! c) as Hlive.
    { intros c Hc. subst s1. rewrite live_released by done. by rewrite lookup_delete_ne. }
    assert (q <> a) as Hqa.
    { intros ->. destruct Hq as (b2 & Hb2 & Hr2); [exact (live_nonnull own s a b Hok Hb0)|].
      rewrite Hb0 in Hb2. by injection Hb2 as <-. }
    destruct (IH (inherited own a (pb_next b)) s1 (pb_next b) l q (u8 (count + 1)) Hok') as (s' & E & Hpool' & Hmf & Htab & Hmem).
    + eapply seg_same; [|exact Hseg]. intros c Hc. cbn. rewrite lookup_insert_ne; [done|]. by intros ->.
    + done.
    + intros c Hc. rewrite Hlive; [apply Hl; by right|]. by intros ->.
    + intros Hq0. rewrite Hlive by done. by apply Hq.
    + unfold inherited. destruct (decide (pb_next b = 0)) as [|Hn]; [by left|right].
      rewrite fn_lookup_insert. pose proof (co_own _ _ (po_counts _ _ Hok) (pb_next b)). lia.
    + cbn in Hf. lia.
    + exists s'. split_and!; [exact E| |done| |].
      * rewrite Hpool'. subst s1. rewrite pool_with_pool. cbn [rev]. by rewrite <- app_assoc.
      * intros t Ht. rewrite Htab by done. subst s1. cbn. by rewrite fn_lookup_insert_ne.
      * intros c. rewrite Hmem. subst s1. cbn. destruct (decide (c = a)) as [->|Hc].
        -- rewrite decide_False, decide_False by done. rewrite (decide_True (P := a ∈ a :: l)) by by left.
           by rewrite lookup_insert_eq, Hb.
        -- rewrite lookup_insert_ne by done. destruct (decide (c ∈ l)) as [Hcl|Hcl].
           ++ by rewrite (decide_True (P := c ∈ a :: l)) by by right.
           ++ by rewrite (decide_False (P := c ∈ a :: l)) by (rewrite elem_of_cons; naive_solver).
Qed.

(** ** [pbuf_alloc] *)

(** Bytes in the buffers [l]. *)
Definition total (h : gmap Z pbuf) (l : list Z) : Z :=
  foldr (fun a n => from_option pb_len 0 (h !! a) + n) 0 l.

Lemma total_app h l1 l2 : total h (l1 ++ l2) = total h l1 + total h l2.
Proof. induction l1 as [|a l1 IH]; [done|]. cbn [app total foldr]. rewrite <- Z.add_assoc. f_equal. exact IH. Qed.

(** The invariant of a packet: [p->tot_len == p->len + (p->next? p->next->tot_len: 0)]. *)
Fixpoint tot_ok (h : gmap Z pbuf) (l : list Z) : Prop :=
  match l with
  | [] => True
  | a :: l' => pb_tot_len <$> h !! a = Some (total h l) /\ tot_ok h l'
  end.

(** A buffer whose bytes lie in its memory. *)
Definition within (b : pbuf) : Prop :=
  0 <= pb_payload b /\ 0 <= pb_len b < 2 ^ 16 /\ pb_payload b + pb_len b <= Z.of_nat (length (pb_data b)).

Definition all_within (h : gmap Z pbuf) (l : list Z) : Prop :=
  forall a, a ∈ l -> exists b, h !! a = Some b /\ within b.

Lemma total_same h h' l : (forall a, a ∈ l -> pb_len <$> h' !! a = pb_len <$> h !! a) -> total h' l = total h l.
Proof.
  induction l as [|a l IH]; intros H; [done|]. pose proof (H a ltac:(by left)) as E.
  change (from_option pb_len 0 (h' !! a) + total h' l = from_option pb_len 0 (h !! a) + total h l).
  rewrite IH by (intros; apply H; by right). f_equal.
  destruct (h' !! a), (h !! a); cbn in *; congruence.
Qed.

Lemma tot_ok_same h h' l :
  (forall a, a ∈ l -> pb_len <$> h' !! a = pb_len <$> h !! a /\ pb_tot_len <$> h' !! a = pb_tot_len <$> h !! a) ->
  tot_ok h l -> tot_ok h' l.
Proof.
  induction l as [|a l IH]; intros H; [done|]. intros [Ht Hl].
  split; [|apply IH; [intros; apply H; by right|done]].
  rewrite (total_same h h') by (intros; by apply H). rewrite <- Ht. apply H. by left.
Qed.

Lemma memp_malloc_nil s : pool s = [] -> memp_malloc MEMP_PBUF_POOL s = Done 0 s.
Proof. intros E. unfold memp_malloc. rewrite bind_gets. unfold pool in E. by rewrite E. Qed.

Lemma memp_malloc_cons s q rest : pool s = q :: rest -> memp_malloc MEMP_PBUF_POOL s = Done q (with_pool rest s).
Proof. intros E. unfold memp_malloc. rewrite bind_gets. unfold pool in E. by rewrite E. Qed.

(** A new buffer at the end of a chain. *)
Lemma pool_ok_grow own s q rest b r rb nb :
  pool_ok own s -> pool s = q :: rest -> pb_mem s !! q = Some b ->
  live s !! r = Some rb -> pb_next rb = 0 ->
  pb_ref nb = 1 -> pb_next nb = 0 -> pb_type nb = PBUF_POOL -> (plain b -> plain nb) ->
  pool_ok own (with_pb r (rb <| pb_next := q |>) (with_pb q nb (with_pool rest s))) /\ r <> q.
Proof.
  intros Hok E Hb Hr Hrn Hnr Hnn Hnt Hnd.
  destruct (pool_ok_take own s q rest b nb Hok E Hb Hnr Hnn Hnt Hnd) as (Hok1 & El & Hlq & Hoq).
  assert (r <> q) as Hrq by (intros ->; by rewrite Hlq in Hr). split; [|done].
  assert (<[q := nb]> (live s) !! r = Some rb) as Hr1 by by rewrite lookup_insert_ne.
  apply (with_pb_ok (<[q := 1]> own) own _ r rb); [exact Hok1|by rewrite El|done|]. rewrite El.
  apply (counts_ext (<[q := 0]> (<[q := 1]> own))).
  - intros a. destruct (decide (q = a)) as [<-|]; [by rewrite fn_lookup_insert|by rewrite !fn_lookup_insert_ne].
  - apply counts_link; [rewrite <- El; apply Hok1|done|done|by rewrite lookup_insert_eq|by rewrite fn_lookup_insert|done].
Qed.

(** A buffer as it comes from the pool. *)
Definition fresh (b : pbuf) : Prop := pb_ref b = 1 /\ pb_type b = PBUF_POOL /\ within b /\ 0 < pb_len b.

Definition all_fresh (h : gmap Z pbuf) (l : list Z) : Prop := forall a, a ∈ l -> exists b, h !! a = Some b /\ fresh b.

(** The other pools and the heap are not touched. *)
Definition same_pools (s s' : pbufs) : Prop :=
  mem_freed s' = mem_freed s /\ forall t, t <> MEMP_PBUF_POOL -> memp_tab s' t = memp_tab s t.

Lemma same_pools_refl s : same_pools s s.
Proof. done. Qed.

Lemma same_pools_trans s1 s2 s3 : same_pools s1 s2 -> same_pools s2 s3 -> same_pools s1 s3.
Proof. intros [H1 H2] [H3 H4]. split; [congruence|]. intros t Ht. by rewrite H4, H2. Qed.

Lemma same_pools_with_pool l s : same_pools s (with_pool l s).
Proof. split; [done|]. intros t Ht. cbn. by rewrite fn_lookup_insert_ne. Qed.

(** Buffers for [n] bytes. *)
Definition nbufs (n : Z) : nat := Z.to_nat ((n + (PBUF_POOL_BUFSIZE_ALIGNED - 1)) / PBUF_POOL_BUFSIZE_ALIGNED).

Lemma nbufs_0 : nbufs 0 = 0%nat.
Proof. done. Qed.

Lemma nbufs_S n : 0 < n -> nbufs n = S (nbufs (n - Z.min n PBUF_POOL_BUFSIZE_ALIGNED)).
Proof.
  intros Hn. unfold nbufs, PBUF_POOL_BUFSIZE_ALIGNED. rewrite <- Z2Nat.inj_succ; [f_equal|apply Z.div_pos; lia].
  destruct (decide (n <= 512)).
  - rewrite Z.min_l by lia. Z.to_euclidean_division_equations; lia.
  - rewrite Z.min_r by lia. Z.to_euclidean_division_equations; lia.
Qed.

(** What is left of a chain when the pool runs out. *)
Lemma alloc_fails own s p l :
  pool_ok own s -> seg (pb_mem s) p l 0 -> NoDup l -> 0 < own p ->
  (forall a, a ∈ l -> exists b, live s !! a = Some b /\ pb_ref b = 1) ->
  exists n s', pbuf_free p s = Done n s' /\ pool_ok (<[p := own p - 1]> own) s' /\
    pool s' = rev l ++ pool s /\ same_pools s s' /\ forall a, a ∉ l -> pb_mem s' !! a = pb_mem s !! a.
Proof.
  intros Hok Hseg Hnd Hown Hl. destruct (pbuf_free_ok own s p Hok Hown) as (fl & s' & E & Hok' & _ & _).
  assert (p <> 0) as Hp0.
  { destruct (co_own _ _ (po_counts _ _ Hok) p) as [_ [b Hb]]; [lia|].
    exact (live_nonnull own s p b Hok Hb). }
  destruct (free_exact (S (size (pb_mem s))) own s p l 0 0) as (s2 & E2 & Hp2 & Hm2 & Ht2 & Hmem2); [done|done|done|done|done|by right| |].
  { apply le_n_S. transitivity (size (list_to_set l : gset Z)); [by rewrite size_list_to_set|].
    rewrite <- (size_dom (D := gset Z) (pb_mem s)). apply subseteq_size. intros a Ha%elem_of_list_to_set.
    destruct (Hl a Ha) as (b & [Hb _]%live_Some & _). by apply elem_of_dom_2 in Hb. }
  assert (pbuf_free p s = pbuf_free_loop (S (size (pb_mem s))) p 0 s) as Ef.
  { unfold pbuf_free. rewrite (proj2 (Z.eqb_neq p 0)) by done. unfold walk_fuel. by rewrite bind_gets. }
  rewrite Ef, E2 in E. injection E as _ <-. rewrite Ef.
  eexists _, s2. split_and!; [exact E2|done|done|done|]. intros a Ha. rewrite Hmem2, decide_False by done.
  case_decide as Ea; [|done]. rewrite Ea. by rewrite (po_null _ _ Hok).
Qed.

(** The next buffer for [rem] bytes. *)
Definition next_pbuf (rem : Z) (data : list Z) : pbuf :=
  Pbuf 0 0 rem (Z.min rem PBUF_POOL_BUFSIZE_ALIGNED) PBUF_POOL 0 1 data.

Lemma plain_next rem b : plain b -> plain (next_pbuf rem (pb_data b)).
Proof. by intros [H _]. Qed.

Definition extended (r q rem : Z) (rest : list Z) (rb b : pbuf) (s : pbufs) : pbufs :=
  with_pb r (rb <| pb_next := q |>) (with_pb q (next_pbuf rem (pb_data b)) (with_pool rest s)).

Lemma alloc_turn fuel s p r rem q rest rb b :
  0 < rem < 2 ^ 16 -> pool s = q :: rest -> q <> 0 -> q <> r -> pb_mem s !! q = Some b -> pb_mem s !! r = Some rb ->
  pbuf_alloc_tail (S fuel) p r rem s =
  pbuf_alloc_tail fuel p q (rem - Z.min rem PBUF_POOL_BUFSIZE_ALIGNED) (extended r q rem rest rb b s).
Proof.
  intros Hrem E Hq0 Hqr Hb Hrb. cbn [pbuf_alloc_tail]. rewrite (proj2 (Z.gtb_lt rem 0)) by lia.
  rewrite (bind_Done _ _ _ _ _ (memp_malloc_cons s q rest E)), (proj2 (Z.eqb_neq q 0)) by done.
  rewrite (bind_Done _ _ _ b (with_pool rest s)) by by apply pb_get_run.
  unfold u16. rewrite Z.mod_small by lia. rewrite (bind_Done _ _ _ _ _ (pb_set_run _ q _)).
  set (nb := Pbuf 0 0 rem _ _ _ _ _).
  rewrite (bind_Done _ _ _ rb (with_pb q nb (with_pool rest s)))
    by (apply pb_get_run; cbn; by rewrite lookup_insert_ne).
  by rewrite (bind_Done _ _ _ _ _ (pb_set_run _ r _)).
Qed.

Lemma extended_mem r q rem rest rb b s a :
  r <> q -> pb_mem (extended r q rem rest rb b s) !! a =
    if decide (a = r) then Some (rb <| pb_next := q |>)
    else if decide (a = q) then Some (next_pbuf rem (pb_data b)) else pb_mem s !! a.
Proof.
  intros Hrq. unfold extended. cbn. destruct (decide (a = r)) as [->|]; [by rewrite lookup_insert_eq|].
  rewrite lookup_insert_ne by done. destruct (decide (a = q)) as [->|]; [by rewrite lookup_insert_eq|].
  by rewrite lookup_insert_ne.
Qed.

Lemma extended_pool r q rem rest rb b s : pool (extended r q rem rest rb b s) = rest.
Proof. exact (pool_with_pool rest s). Qed.

Lemma extended_same_pools r q rem rest rb b s : same_pools s (extended r q rem rest rb b s).
Proof. exact (same_pools_with_pool rest s). Qed.

Lemma seg_extended p l r q rem rest rb b s :
  r <> q -> q ∉ l -> NoDup (l ++ [r]) -> pb_next rb = 0 -> pb_mem s !! r = Some rb ->
  seg (pb_mem s) p (l ++ [r]) 0 -> seg (pb_mem (extended r q rem rest rb b s)) p ((l ++ [r]) ++ [q]) 0.
Proof.
  intros Hrq Hq Hnd Hrn Hrb Hseg. apply seg_app in Hseg as (x & Hs & -> & _).
  apply list.NoDup_app in Hnd as (_ & Hnd & _).
  rewrite <- app_assoc. apply seg_app. exists r. split.
  - eapply seg_same; [|exact Hs]. intros a Ha. rewrite extended_mem by done.
    rewrite !decide_False; [done| |]; intros ->; [done|]. apply (Hnd r Ha). by left.
  - cbn [seg]. split; [done|]. eexists. rewrite extended_mem, decide_True by done. split; [done|]. split; [done|].
    eexists. rewrite extended_mem, decide_False, decide_True by done. by split.
Qed.

(** The buffers before the one just added still have one reference. *)
Lemma live_extended s r q rem rest rb b l :
  r <> q -> pool s = q :: rest -> NoDup (pool s) -> pb_mem s !! r = Some rb -> q ∉ l -> r ∈ l ->
  (forall a, a ∈ l -> exists c, live s !! a = Some c /\ pb_ref c = 1) ->
  forall a, a ∈ l ++ [q] -> exists c, live (extended r q rem rest rb b s) !! a = Some c /\ pb_ref c = 1.
Proof.
  intros Hrq E Hnd Hrb Hq Hr Hl a Ha. rewrite E in Hnd. apply list.NoDup_cons in Hnd as [Hqr _].
  pose proof (extended_mem r q rem rest rb b s a Hrq) as Em.
  apply elem_of_app in Ha as [Ha|Ha%list_elem_of_singleton].
  - destruct (Hl a Ha) as (c & [Hc Hp]%live_Some & Hc1). rewrite E, not_elem_of_cons in Hp. destruct Hp as [Hne Hp].
    destruct (decide (a = r)) as [->|].
    + exists (rb <| pb_next := q |>). rewrite live_Some, extended_pool, Em. rewrite Hrb in Hc. injection Hc as <-. done.
    + exists c. rewrite live_Some, extended_pool, Em, decide_False by done. done.
  - subst a. rewrite decide_False, decide_True in Em by done. eexists. by rewrite live_Some, extended_pool, Em.
Qed.

(** [s'] is [s] with the buffers [new], which hold [rem] bytes, behind the buffer [r]. *)
Record extended_by (s s' : pbufs) (r : Z) (rb : pbuf) (new : list Z) (rem : Z) : Prop := {
  eb_pools : same_pools s s';
  eb_last : pb_mem s' !! r = Some (rb <| pb_next := hd 0 new |>);
  eb_seg : seg (pb_mem s') (hd 0 new) new 0;
  eb_fresh : all_fresh (pb_mem s') new;
  eb_tot : tot_ok (pb_mem s') new;
  eb_total : total (pb_mem s') new = rem;
  eb_others a : a ∉ r :: new -> pb_mem s' !! a = pb_mem s !! a;
}.

Lemma extended_by_nil s r rb : pb_mem s !! r = Some rb -> pb_next rb = 0 -> extended_by s s r rb [] 0.
Proof.
  intros Hrb Hrn. constructor; try done; [cbn; rewrite Hrb; f_equal; destruct rb; cbn in *; by subst|].
  intros a Ha. by apply not_elem_of_nil in Ha.
Qed.

Lemma extended_by_cons s s' r q rem rest rb b new :
  let s1 := extended r q rem rest rb b s in
  extended_by s1 s' q (next_pbuf rem (pb_data b)) new (rem - Z.min rem PBUF_POOL_BUFSIZE_ALIGNED) ->
  r <> q -> r ∉ new -> 0 < rem < 2 ^ 16 -> Z.of_nat (length (pb_data b)) = PBUF_POOL_BUFSIZE_ALIGNED ->
  extended_by s s' r rb (q :: new) rem.
Proof.
  intros s1 [Hs Hq Hseg Hfr Htot Htl Hm] Hrq Hr Hrem Hd.
  assert (total (pb_mem s') (q :: new) = rem) as Htotal.
  { change (from_option pb_len 0 (pb_mem s' !! q) + total (pb_mem s') new = rem). rewrite Hq, Htl. cbn. lia. }
  constructor.
  - eapply same_pools_trans; [apply extended_same_pools|exact Hs].
  - rewrite Hm by (rewrite not_elem_of_cons; done). subst s1. by rewrite extended_mem, decide_True.
  - split; [done|]. eexists. split; [exact Hq|done].
  - intros a [->|Ha]%elem_of_cons; [|by apply Hfr]. eexists. split; [exact Hq|].
    split_and!; [done|done|split_and!|cbn; unfold PBUF_POOL_BUFSIZE_ALIGNED; lia]; cbn; rewrite ?Hd; unfold PBUF_POOL_BUFSIZE_ALIGNED; lia.
  - split; [|done]. by rewrite Hq, Htotal.
  - done.
  - intros a Ha. rewrite !not_elem_of_cons in Ha. rewrite Hm by (rewrite not_elem_of_cons; naive_solver).
    subst s1. rewrite extended_mem, !decide_False by naive_solver. done.
Qed.

Lemma alloc_tail_ok fuel : forall own s p l r rem rb,
  pool_ok own s -> seg (pb_mem s) p (l ++ [r]) 0 -> NoDup (l ++ [r]) -> 0 < own p ->
  (forall a, a ∈ l ++ [r] -> exists b, live s !! a = Some b /\ pb_ref b = 1) ->
  0 <= rem < 2 ^ 16 -> rem <= Z.of_nat fuel -> pb_mem s !! r = Some rb -> pb_next rb = 0 ->
  if decide (nbufs rem <= length (pool s))%nat then
    exists s', pbuf_alloc_tail fuel p r rem s = Done p s' /\ pool_ok own s' /\ pool s' = drop (nbufs rem) (pool s) /\
      extended_by s s' r rb (take (nbufs rem) (pool s)) rem
  else
    exists s', pbuf_alloc_tail fuel p r rem s = Done 0 s' /\ pool_ok (<[p := own p - 1]> own) s' /\
      pool s' ≡ₚ l ++ [r] ++ pool s /\ same_pools s s' /\
      forall a, a ∉ l ++ [r] ++ pool s -> pb_mem s' !! a = pb_mem s !! a.
Proof.
  induction fuel as [|fuel IH]; intros own s p l r rem rb Hok Hseg Hnd Hown Hl Hrem Hf Hrb Hrn;
    (destruct (decide (rem = 0)) as [->|Hr0];
      [rewrite nbufs_0, decide_True by lia; exists s; split_and!; [done|done|done|by apply extended_by_nil]|]).
  { lia. }
  rewrite nbufs_S by lia. set (len := Z.min rem PBUF_POOL_BUFSIZE_ALIGNED).
  assert (0 < len <= 512 /\ len <= rem) as [Hlen Hlr] by (subst len; unfold PBUF_POOL_BUFSIZE_ALIGNED; lia).
  destruct (pool s) as [|q rest] eqn:E.
  - rewrite decide_False by (cbn; lia).
    destruct (alloc_fails own s p (l ++ [r]) Hok Hseg Hnd Hown Hl) as (n & s' & Ef & Hok' & Hp & Hs & Hm).
    exists s'. cbn [pbuf_alloc_tail]. rewrite (proj2 (Z.gtb_lt rem 0)) by lia.
    rewrite (bind_Done _ _ _ _ _ (memp_malloc_nil s E)). cbn [Z.eqb].
    rewrite (bind_Done _ _ _ _ _ Ef). split_and!; [done|done| |done|].
    + rewrite Hp, E, !app_nil_r. symmetry. apply Permutation_rev.
    + intros a Ha. apply Hm. by rewrite app_nil_r in Ha.
  - assert (q ∈ pool s) as Hq by (rewrite E; by left).
    destruct (po_free _ _ Hok q Hq) as [b Hb]. pose proof (pool_nonnull own s q Hok Hq) as Hq0.
    assert (live s !! r = Some rb) as Hrl.
    { destruct (Hl r) as (c & Hc & _); [apply elem_of_app; right; by left|]. rewrite Hc.
      apply live_Some in Hc as [Hc _]. congruence. }
    assert (q ∉ l ++ [r]) as Hql.
    { intros Hq'. destruct (Hl q Hq') as (c & Hc & _). by apply live_pool_disjoint in Hc. }
    destruct (pool_ok_grow own s q rest b r rb (next_pbuf rem (pb_data b)) Hok E Hb Hrl Hrn eq_refl eq_refl eq_refl (plain_next rem b)) as [Hok1 Hrq].
    change (with_pb r _ _) with (extended r q rem rest rb b s) in Hok1.
    rewrite (alloc_turn fuel s p r rem q rest rb b) by (done || lia). fold len.
    set (s1 := extended r q rem rest rb b s) in *.
    assert (q ∉ l) as Hql' by (intros ?; apply Hql, elem_of_app; by left).
    assert (pb_mem s1 !! q = Some (next_pbuf rem (pb_data b))) as Hq1.
    { subst s1. by rewrite extended_mem, decide_False, decide_True by done. }
    pose proof (IH own s1 p (l ++ [r]) q (rem - len) (next_pbuf rem (pb_data b)) Hok1
      (seg_extended p l r q rem rest rb b s Hrq Hql' Hnd Hrn Hrb Hseg)) as IH'.
    rewrite (extended_pool r q rem rest rb b s : pool s1 = rest) in IH'. cbn [length].
    assert (NoDup ((l ++ [r]) ++ [q])) as Hnd'.
    { apply list.NoDup_app. split_and!; [done| |apply NoDup_singleton]. by intros a Ha ->%list_elem_of_singleton. }
    specialize (IH' Hnd' Hown (live_extended s r q rem rest rb b (l ++ [r]) Hrq E (po_nodup _ _ Hok) Hrb Hql
      ltac:(apply elem_of_app; right; by left) Hl) ltac:(lia) ltac:(lia) Hq1 eq_refl).
    case_decide as Hk.
    + rewrite decide_True by lia. destruct IH' as (s' & Er & Hok' & Hp' & Hext).
      exists s'. split_and!; [exact Er|done|done|]. cbn [take].
      apply (extended_by_cons s s' r q rem rest rb b); [exact Hext|done| |lia|by apply (proj1 (po_data _ _ Hok q b Hb))].
      intros Hr%elem_of_take. destruct Hr as (i & Hr & _). apply list_elem_of_lookup_2 in Hr.
      apply live_pool_disjoint in Hrl. apply Hrl. rewrite E. by right.
    + rewrite decide_False by lia. destruct IH' as (s' & Er & Hok' & Hp' & Hs' & Hm).
      exists s'. split_and!; [exact Er|done| | |].
      * rewrite Hp'. by rewrite <- !app_assoc.
      * eapply same_pools_trans; [apply extended_same_pools|exact Hs'].
      * intros a Ha. rewrite Hm by (rewrite <- !app_assoc; exact Ha).
        assert (a <> r /\ a <> q) as [] by set_solver. subst s1. by rewrite extended_mem, !decide_False.
Qed.

(** Room for the payload in the first buffer, and the buffers for a packet. *)
Definition first_room (layer : pbuf_layer) : Z :=
  PBUF_POOL_BUFSIZE_ALIGNED - LWIP_MEM_ALIGN_SIZE (header_offset layer).

Definition needed (layer : pbuf_layer) (n : Z) : nat := S (nbufs (n - Z.min n (first_room layer))).

(** A packet of [n] bytes in the buffers [l], all in the hands of the caller, with room
    for the headers of [layer] in front. *)
Record packet (layer : pbuf_layer) (s : pbufs) (l : list Z) (n : Z) : Prop := {
  pk_front : exists b, pb_mem s !! hd 0 l = Some b /\ pb_payload b = 512 - first_room layer /\ pb_len b = Z.min n (first_room layer);
  pk_seg : seg (pb_mem s) (hd 0 l) l 0;
  pk_refs a : a ∈ l -> exists b, pb_mem s !! a = Some b /\ pb_ref b = 1 /\ within b;
  pk_tot : tot_ok (pb_mem s) l;
  pk_total : total (pb_mem s) l = n;
}.

Lemma first_room_range layer : 456 <= first_room layer <= 512 /\ LWIP_MEM_ALIGN_SIZE (header_offset layer) = 512 - first_room layer.
Proof. by destruct layer. Qed.

(** The first buffer of a packet, and the rest behind it. *)
Lemma packet_cons layer s p b new n :
  pb_mem s !! p = Some b -> pb_payload b = 512 - first_room layer -> pb_len b = Z.min n (first_room layer) -> pb_ref b = 1 -> within b -> pb_next b = hd 0 new ->
  pb_tot_len b = n -> total (pb_mem s) new = n - pb_len b ->
  seg (pb_mem s) (hd 0 new) new 0 -> all_fresh (pb_mem s) new -> tot_ok (pb_mem s) new ->
  packet layer s (p :: new) n.
Proof.
  intros Hb Hpay Hlen Hr Hw Hn Ht Htl Hseg Hfr Htot.
  assert (total (pb_mem s) (p :: new) = n) as Etot.
  { change (from_option pb_len 0 (pb_mem s !! p) + total (pb_mem s) new = n). rewrite Hb, Htl. cbn. lia. }
  constructor.
  - by exists b.
  - cbn. split; [done|]. exists b. by rewrite Hn.
  - intros a [->|Ha]%elem_of_cons; [by exists b|]. destruct (Hfr a Ha) as (c & Hc & H1 & _ & H2 & _). by exists c.
  - split; [|done]. by rewrite Hb, Etot, <- Ht.
  - done.
Qed.

Definition first_pbuf (layer : pbuf_layer) (n : Z) (b : pbuf) : pbuf :=
  Pbuf 0 (512 - first_room layer) n (Z.min n (first_room layer)) PBUF_POOL (pb_flags b) 1 (pb_data b).

(** After the first buffer is set up. *)
Lemma alloc_first s layer n p rest b :
  pool s = p :: rest -> p <> 0 -> pb_mem s !! p = Some b ->
  pbuf_alloc_pool layer n s =
  (r ← pbuf_alloc_tail (Z.to_nat n) p p (n - Z.min n (first_room layer));
   if r =? 0 then mret 0 else
   b ← pb_get r;
   pb_set r (b <| pb_ref := 1 |> <| pb_flags := 0 |>) ;;
   mret r) (with_pb p (first_pbuf layer n b) (with_pool rest s)).
Proof.
  intros E Hp Hb. unfold pbuf_alloc_pool. destruct (first_room_range layer) as [_ ->].
  change PBUF_POOL_BUFSIZE_ALIGNED with 512. replace (512 - (512 - first_room layer)) with (first_room layer) by lia.
  rewrite (bind_Done _ _ _ _ _ (memp_malloc_cons s p rest E)), (proj2 (Z.eqb_neq p 0)) by done.
  rewrite (bind_Done _ _ _ b (with_pool rest s)) by by apply pb_get_run.
  by rewrite (bind_Done _ _ _ _ _ (pb_set_run _ p _)).
Qed.

(** The last two statements of [pbuf_alloc]. *)
Lemma alloc_last own s s1 s' layer n p b new :
  pool_ok own s' -> live s' !! p = Some ((first_pbuf layer n b) <| pb_next := hd 0 new |>) -> p ∉ new -> p <> 0 ->
  extended_by s1 s' p (first_pbuf layer n b) new (n - Z.min n (first_room layer)) -> 0 <= n < 2 ^ 16 ->
  (forall a, a <> p -> pb_mem s1 !! a = pb_mem s !! a) -> same_pools s s1 ->
  Z.of_nat (length (pb_data b)) = PBUF_POOL_BUFSIZE_ALIGNED ->
  exists sf, (b ← pb_get p; pb_set p (b <| pb_ref := 1 |> <| pb_flags := 0 |>) ;; mret p) s' = Done p sf /\
    pool_ok own sf /\ pool sf = pool s' /\ packet layer sf (p :: new) n /\ same_pools s sf /\
    forall a, a ∉ p :: new -> pb_mem sf !! a = pb_mem s !! a.
Proof.
  intros Hok Hl Hp Hp0 [Hs Hb Hseg Hfr Htot Htl Hm] Hn Hm1 Hs1 Hd.
  set (b1 := (first_pbuf layer n b) <| pb_next := hd 0 new |>) in *. set (b2 := b1 <| pb_ref := 1 |> <| pb_flags := 0 |>).
  destruct (first_room_range layer) as [Hroom _].
  assert (forall a, a ∈ new -> pb_mem (with_pb p b2 s') !! a = pb_mem s' !! a) as Hsame
    by (intros a Ha; cbn; rewrite lookup_insert_ne; [done|by intros ->]).
  exists (with_pb p b2 s'). split_and!; [|by apply (pool_ok_same own s' p b1)|done| | |].
  - rewrite (bind_Done _ _ _ _ _ (pb_get_run s' p b1 Hb)). by rewrite (bind_Done _ _ _ _ _ (pb_set_run s' p _)).
  - apply (packet_cons _ _ p b2); [by apply lookup_insert_eq|done|done|done| |done|done| | | |].
    + unfold within, b2, b1, first_pbuf, PBUF_POOL_BUFSIZE_ALIGNED in *. cbn. lia.
    + rewrite (total_same (pb_mem s')) by (intros a Ha; by rewrite Hsame). exact Htl.
    + eapply seg_same; [|exact Hseg]. intros a Ha. by rewrite Hsame.
    + intros a Ha. rewrite Hsame by done. by apply Hfr.
    + eapply tot_ok_same; [|exact Htot]. intros a Ha. by rewrite Hsame.
  - eapply same_pools_trans; [exact Hs1|exact Hs].
  - intros a Ha. rewrite <- Hm1 by (rewrite not_elem_of_cons in Ha; naive_solver). rewrite <- Hm by done.
    cbn. rewrite lookup_insert_ne; [done|]. rewrite not_elem_of_cons in Ha. naive_solver.
Qed.

Lemma alloc_pool_ok own s layer n :
  pool_ok own s -> 0 <= n < 2 ^ 16 ->
  if decide (needed layer n <= length (pool s))%nat then
    exists s', pbuf_alloc_pool layer n s = Done (hd 0 (pool s)) s' /\ hd 0 (pool s) <> 0 /\
      pool_ok (<[hd 0 (pool s) := 1]> own) s' /\ pool s' = drop (needed layer n) (pool s) /\
      packet layer s' (take (needed layer n) (pool s)) n /\ same_pools s s' /\
      forall a, a ∉ take (needed layer n) (pool s) -> pb_mem s' !! a = pb_mem s !! a
  else
    exists s', pbuf_alloc_pool layer n s = Done 0 s' /\ pool_ok own s' /\ pool s' ≡ₚ pool s /\
      same_pools s s' /\ forall a, a ∉ pool s -> pb_mem s' !! a = pb_mem s !! a.
Proof.
  intros Hok Hn. destruct (first_room_range layer) as [Hroom _]. unfold needed.
  destruct (pool s) as [|p rest] eqn:E.
  { rewrite decide_False by (cbn; lia). exists s. rewrite E. split_and!; try done.
    unfold pbuf_alloc_pool. by rewrite (bind_Done _ _ _ _ _ (memp_malloc_nil s E)). }
  assert (p ∈ pool s) as Hp by (rewrite E; by left).
  destruct (po_free _ _ Hok p Hp) as [b Hb]. pose proof (pool_nonnull own s p Hok Hp) as Hp0.
  rewrite (alloc_first s layer n p rest b E Hp0 Hb).
  set (fb := first_pbuf layer n b). set (s1 := with_pb p fb (with_pool rest s)).
  destruct (pool_ok_take own s p rest b fb Hok E Hb eq_refl eq_refl eq_refl (fun H => H)) as (Hok1 & El & Hlp & Hop).
  change (with_pb p fb (with_pool rest s)) with s1 in Hok1, El.
  assert (pb_mem s1 !! p = Some fb) as Hfb by by apply lookup_insert_eq.
  assert (pool s1 = rest) as Ep by exact (pool_with_pool rest s).
  pose proof (alloc_tail_ok (Z.to_nat n) (<[p := 1]> own) s1 p [] p (n - Z.min n (first_room layer)) fb Hok1) as Ht.
  rewrite Ep in Ht. cbn [app length] in *.
  specialize (Ht ltac:(by split; [|exists fb]) (NoDup_singleton p) ltac:(by rewrite fn_lookup_insert)
    ltac:(intros a ->%list_elem_of_singleton; exists fb; by rewrite El, lookup_insert_eq) ltac:(lia) ltac:(lia) Hfb eq_refl).
  assert (p ∉ take (nbufs (n - Z.min n (first_room layer))) rest) as Hpn.
  { intros (i & Hr & _)%elem_of_take. apply list_elem_of_lookup_2 in Hr.
    pose proof (po_nodup _ _ Hok) as Hnd. rewrite E in Hnd. by apply list.NoDup_cons in Hnd as [? _]. }
  assert (forall a, a <> p -> pb_mem s1 !! a = pb_mem s !! a) as Hm1 by (intros a Ha; cbn; by rewrite lookup_insert_ne).
  case_decide as Hk.
  - rewrite decide_True by (cbn; lia). destruct Ht as (s' & Et & Hok' & Hp' & Hext).
    destruct (co_own _ _ (po_counts _ _ Hok') p) as [_ [lb Hl]]; [by rewrite fn_lookup_insert|].
    pose proof (eb_last _ _ _ _ _ _ Hext) as Hlast. pose proof Hl as [Hlm _]%live_Some.
    rewrite Hlast in Hlm. injection Hlm as <-.
    destruct (alloc_last (<[p := 1]> own) s s1 s' layer n p b _ Hok' Hl Hpn Hp0 Hext Hn Hm1) as (sf & Ef & Hokf & Hpf & Hpk & Hsf & Hmf);
      [apply same_pools_with_pool|by apply (proj1 (po_data _ _ Hok p b Hb))|].
    exists sf. rewrite (bind_Done _ _ _ _ _ Et), (proj2 (Z.eqb_neq p 0)) by done.
    split_and!; [exact Ef|done|done|by rewrite Hpf|done|done|done].
  - rewrite decide_False by (cbn; lia). destruct Ht as (s' & Et & Hok' & Hp' & Hs' & Hm').
    exists s'. split_and!.
    + by rewrite (bind_Done _ _ _ _ _ Et).
    + eapply pool_ok_ext; [|exact Hok']. intros a. destruct (decide (p = a)) as [<-|].
      * rewrite !fn_lookup_insert, Hop. done.
      * by rewrite !fn_lookup_insert_ne.
    + by rewrite Hp'.
    + eapply same_pools_trans; [apply same_pools_with_pool|exact Hs'].
    + intros a Ha. rewrite Hm', Hm1; [done| |done]. rewrite not_elem_of_cons in Ha. naive_solver.
Qed.
