(* ===== verification/PbufData.v ===== *)
(** * Contents and lives of packet buffers

    What [pbuf_take] writes is what [pbuf_copy_partial] reads, over buffers of any
    lengths; and over any sequence of allocations, releases, new references and
    concatenations the counts stay right and nothing leaks. *)
From Stdlib Require Import ZArith Lia.
From stdpp Require Import base tactics decidable list list_numbers numbers gmap functions relations.
From S2P Require Import Prelude Udp Net Pbuf PbufSpec.
Open Scope Z_scope.
Open Scope c_scope.

(** ** Contents *)
Definition contents (b : pbuf) : list Z :=
  take (Z.to_nat (pb_len b)) (drop (Z.to_nat (pb_payload b)) (pb_data b)).

(** The bytes of the buffers [l], one after the other. *)
Definition bytes (h : gmap Z pbuf) (l : list Z) : list Z := l ≫= (fun a => from_option contents [] (h !! a)).

Lemma contents_length b : within b -> Z.of_nat (length (contents b)) = pb_len b.
Proof. intros (H1 & H2 & H3). unfold contents. rewrite length_take, length_drop. lia. Qed.

Lemma bytes_cons h a l : bytes h (a :: l) = from_option contents [] (h !! a) ++ bytes h l.
Proof. done. Qed.

Lemma bytes_same h h' l : (forall a, a ∈ l -> h' !! a = h !! a) -> bytes h' l = bytes h l.
Proof.
  induction l as [|a l IH]; intros H; [done|]. rewrite !bytes_cons, IH by (intros; apply H; by right).
  by rewrite H by by left.
Qed.

Lemma bytes_length h l : all_within h l -> Z.of_nat (length (bytes h l)) = total h l.
Proof.
  induction l as [|a l IH]; intros H; [done|]. rewrite bytes_cons, length_app.
  change (total h (a :: l)) with (from_option pb_len 0 (h !! a) + total h l).
  rewrite <- IH by (intros c Hc; apply H; by right). destruct (H a) as (b & -> & Hb); [by left|].
  cbn [from_option]. pose proof (contents_length b Hb). lia.
Qed.

(** Bytes written into a buffer at [off]. *)
Definition written (off : Z) (data : list Z) (b : pbuf) : pbuf :=
  b <| pb_data := blit (pb_data b) (Z.to_nat (pb_payload b + off)) data |>.

Lemma take_drop_blit {A} (l src : list A) (start n off : nat) :
  (off + length src <= n)%nat -> (start + n <= length l)%nat ->
  take n (drop start (blit l (start + off) src)) = blit (take n (drop start l)) off src.
Proof.
  intros H1 H2. apply list_eq. intros i. destruct (decide (i < n)%nat) as [Hi|Hi].
  - rewrite lookup_take_lt, lookup_drop by done. rewrite !blit_lookup by (rewrite ?length_take, ?length_drop; lia).
    rewrite lookup_take_lt, lookup_drop by done.
    destruct (decide (off <= i < off + length src)%nat) as [Ho|Ho].
    + rewrite !bool_decide_eq_true_2 by lia. f_equal. lia.
    + by rewrite !bool_decide_eq_false_2 by lia.
  - rewrite !lookup_ge_None_2; [done| |]; rewrite ?blit_length, ?length_take, ?length_drop; rewrite ?length_take, ?length_drop; lia.
Qed.

Lemma contents_written off data b :
  within b -> 0 <= off -> off + Z.of_nat (length data) <= pb_len b ->
  contents (written off data b) = blit (contents b) (Z.to_nat off) data.
Proof.
  intros (H1 & H2 & H3) Ho Hl. unfold contents, written. cbn.
  replace (Z.to_nat (pb_payload b + off)) with (Z.to_nat (pb_payload b) + Z.to_nat off)%nat by lia.
  apply take_drop_blit; lia.
Qed.

Lemma within_written off data b :
  within b -> 0 <= off -> off + Z.of_nat (length data) <= pb_len b -> within (written off data b).
Proof.
  intros (H1 & H2 & H3) Ho Hl. unfold within, written. cbn. rewrite blit_length by lia. done.
Qed.

Lemma written_length off data b :
  within b -> 0 <= off -> off + Z.of_nat (length data) <= pb_len b ->
  length (pb_data (written off data b)) = length (pb_data b).
Proof. intros (H1 & H2 & H3) Ho Hl. unfold written. cbn. apply blit_length. lia. Qed.

Lemma pb_write_run s p b off data :
  pb_mem s !! p = Some b -> within b -> 0 <= off -> off + Z.of_nat (length data) <= pb_len b ->
  pb_write p off data s = Done tt (with_pb p (written off data b) s).
Proof.
  intros Hb (H1 & H2 & H3) Ho Hl. unfold pb_write. rewrite (bind_Done _ _ _ _ _ (pb_get_run s p b Hb)).
  unfold copy_in. by rewrite bool_decide_eq_true_2 by lia.
Qed.

Lemma pb_read_run s p b off n :
  pb_mem s !! p = Some b -> within b -> 0 <= off -> 0 <= n -> off + n <= pb_len b ->
  pb_read p off n s = Done (take (Z.to_nat n) (drop (Z.to_nat off) (contents b))) s.
Proof.
  intros Hb (H1 & H2 & H3) Ho Hn Hl. unfold pb_read. rewrite (bind_Done _ _ _ _ _ (pb_get_run s p b Hb)).
  unfold copy_out. rewrite bool_decide_eq_true_2 by lia. unfold mret, M_ret. f_equal.
  unfold contents. rewrite skipn_firstn_comm, take_take, drop_drop.
  f_equal; [lia|]. f_equal. lia.
Qed.

(** Stores that differ only in what the buffers [l] hold. *)
Record rewritten (l : list Z) (s s' : pbufs) : Prop := {
  rw_tab : memp_tab s' = memp_tab s;
  rw_freed : mem_freed s' = mem_freed s;
  rw_others a : a ∉ l -> pb_mem s' !! a = pb_mem s !! a;
  rw_fields a b : a ∈ l -> pb_mem s !! a = Some b -> exists d,
    pb_mem s' !! a = Some (b <| pb_data := d |>) /\ length d = length (pb_data b);
}.

Lemma rewritten_refl l s : rewritten l s s.
Proof.
  constructor; try done. intros a b _ Hb. exists (pb_data b). split; [|done]. by destruct b.
Qed.

Lemma rewritten_cons a l s s' b d :
  pb_mem s !! a = Some b -> a ∉ l -> length d = length (pb_data b) ->
  rewritten l (with_pb a (b <| pb_data := d |>) s) s' -> rewritten (a :: l) s s'.
Proof.
  intros Hb Ha Hd [H1 H2 H3 H4]. constructor; [done|done| |].
  - intros c Hc. rewrite not_elem_of_cons in Hc. rewrite H3 by naive_solver. cbn. rewrite lookup_insert_ne; naive_solver.
  - intros c bc Hc Hbc. destruct (decide (c = a)) as [->|Hca].
    + exists d. rewrite Hb in Hbc. injection Hbc as <-. split; [|done]. rewrite H3 by done. cbn. by rewrite lookup_insert_eq.
    + apply elem_of_cons in Hc as [|Hc]; [done|]. apply H4; [done|]. cbn. by rewrite lookup_insert_ne.
Qed.

Lemma blit_0 {A} (l src : list A) : blit l 0 src = src ++ drop (length src) l.
Proof. done. Qed.

(** The data split over a first buffer of contents [c] and the rest. *)
Lemma split_data {A} (data c rest : list A) (n : nat) :
  n = Nat.min (length data) (length c) ->
  blit c 0 (take n data) ++ drop n data ++ drop (length (drop n data)) rest =
  data ++ drop (length data) (c ++ rest).
Proof.
  intros ->. rewrite blit_0, length_take, length_drop, drop_app.
  destruct (decide (length data <= length c)%nat) as [Hle|Hgt].
  - rewrite (Nat.min_l _ _ Hle), Nat.min_id, Nat.sub_diag, take_ge, (drop_ge data) by lia.
    replace (length data - length c)%nat with 0%nat by lia. rewrite !drop_0. cbn. by rewrite <- app_assoc.
  - rewrite (Nat.min_r (length data)), Nat.min_l, !(drop_ge c) by lia.
    rewrite app_nil_r. cbn. by rewrite app_assoc, take_drop.
Qed.

Lemma take_turn fuel s p b data :
  pb_mem s !! p = Some b -> within b -> data <> [] ->
  let n := Z.min (Z.of_nat (length data)) (pb_len b) in
  pbuf_take_loop (S fuel) p data s =
  pbuf_take_loop fuel (pb_next b) (drop (Z.to_nat n) data) (with_pb p (written 0 (take (Z.to_nat n) data) b) s).
Proof.
  intros Hb Hw Hd n. pose proof Hw as (H1 & H2 & H3).
  transitivity ((pb_write p 0 (take (Z.to_nat n) data) ;; pbuf_take_loop fuel (pb_next b) (drop (Z.to_nat n) data)) s).
  - subst n. destruct data as [|x data]; [done|]. cbn [pbuf_take_loop].
    by rewrite (bind_Done _ _ _ _ _ (pb_get_run s p b Hb)).
  - rewrite (bind_Done _ (fun _ => _) _ _ _ (pb_write_run s p b 0 (take (Z.to_nat n) data) Hb Hw ltac:(lia) ltac:(rewrite length_take; lia))). done.
Qed.

Lemma take_loop_ok fuel : forall l p data s,
  seg (pb_mem s) p l 0 -> NoDup l -> all_within (pb_mem s) l -> Z.of_nat (length data) <= total (pb_mem s) l ->
  (length l < fuel)%nat ->
  exists s', pbuf_take_loop fuel p data s = Done tt s' /\ rewritten l s s' /\
    bytes (pb_mem s') l = data ++ drop (length data) (bytes (pb_mem s) l).
Proof.
  induction fuel as [|fuel IH]; intros l p data s Hseg Hnd Hw Htot Hf; [lia|].
  destruct data as [|x data0] eqn:Ed; [by exists s; split_and!; [|apply rewritten_refl|]|].
  rewrite <- Ed in *. assert (0 < length data)%nat as Hpos by (rewrite Ed; cbn; lia).
  destruct l as [|a l]; [cbn in Htot; lia|].
  destruct Hseg as [-> (b & Hb & Hseg)]. apply list.NoDup_cons in Hnd as [Ha Hnd].
  destruct (Hw a) as (b0 & Hb0 & Hwb); [by left|]. rewrite Hb in Hb0. injection Hb0 as <-.
  change (total (pb_mem s) (a :: l)) with (from_option pb_len 0 (pb_mem s !! a) + total (pb_mem s) l) in Htot.
  rewrite Hb in Htot. cbn [from_option] in Htot. pose proof (contents_length b Hwb) as Hc.
  set (n := Z.min (Z.of_nat (length data)) (pb_len b)). pose proof Hwb as (Hw1 & Hw2 & Hw3).
  assert (data <> []) as Hne by by rewrite Ed.
  assert (Z.of_nat (length (take (Z.to_nat n) data)) = n) as Hn by (rewrite length_take; lia).
  set (b1 := written 0 (take (Z.to_nat n) data) b).
  assert (forall c, c ∈ l -> pb_mem (with_pb a b1 s) !! c = pb_mem s !! c) as Hsame.
  { intros c Hcl. cbn. rewrite lookup_insert_ne; [done|by intros ->]. }
  destruct (IH l (pb_next b) (drop (Z.to_nat n) data) (with_pb a b1 s)) as (s' & E & Hr & Hbytes).
  - eapply seg_same; [|exact Hseg]. intros c Hcl. by rewrite Hsame.
  - done.
  - intros c Hcl. rewrite Hsame by done. apply Hw. by right.
  - rewrite (total_same (pb_mem s)) by (intros c Hcl; by rewrite Hsame). rewrite length_drop.
    pose proof (bytes_length (pb_mem s) l ltac:(intros c Hcl; apply Hw; by right)). lia.
  - cbn in Hf. lia.
  - exists s'. split_and!.
    + rewrite (take_turn fuel s a b data Hb) by done. exact E.
    + apply (rewritten_cons a l s s' b (pb_data b1)); [done|done|by apply written_length; [|lia|lia]|exact Hr].
    + rewrite !bytes_cons, Hbytes, (bytes_same _ _ l Hsame), (rw_others _ _ _ Hr a Ha), Hb. cbn [from_option].
      cbn [with_pb]. change (pb_mem (with_pb a b1 s) !! a) with (<[a := b1]> (pb_mem s) !! a). rewrite lookup_insert_eq. cbn [from_option].
      subst b1. rewrite contents_written by (done || lia). change (Z.to_nat 0) with 0%nat.
      apply split_data. lia.
Qed.

(** Reading: [len] bytes from [offset] on, as far as there are any. *)
Lemma copy_loop_ok fuel : forall l p len offset got s,
  seg (pb_mem s) p l 0 -> ~ 0 ∈ l -> all_within (pb_mem s) l -> 0 <= len -> 0 <= offset -> (length l < fuel)%nat ->
  pbuf_copy_loop fuel p len offset got s =
    Done (got ++ take (Z.to_nat len) (drop (Z.to_nat offset) (bytes (pb_mem s) l))) s.
Proof.
  induction fuel as [|fuel IH]; intros l p len offset got s Hseg H0 Hw Hlen Hoff Hf; [lia|].
  cbn [pbuf_copy_loop]. destruct (Z.eqb_spec len 0) as [->|Hl0]; [cbn; by rewrite app_nil_r|].
  destruct l as [|a l].
  { cbn in Hseg. subst p. cbn. by rewrite drop_nil, take_nil, app_nil_r. }
  destruct Hseg as [-> (b & Hb & Hseg)]. rewrite not_elem_of_cons in H0. destruct H0 as [Ha0 H0].
  destruct (Hw a) as (b0 & Hb0 & Hwb); [by left|]. rewrite Hb in Hb0. injection Hb0 as <-.
  assert (all_within (pb_mem s) l) as Hwl by (intros c Hc; apply Hw; by right).
  pose proof (contents_length b Hwb) as Hc. pose proof Hwb as (Hw1 & Hw2 & Hw3). cbn in Hf.
  rewrite (proj2 (Z.eqb_neq a 0)) by done. cbn [orb]. rewrite (bind_Done _ _ _ _ _ (pb_get_run s a b Hb)).
  rewrite bytes_cons, Hb. cbn [from_option]. rewrite drop_app.
  destruct (negb (offset =? 0) && (pb_len b <=? offset)) eqn:E.
  - apply andb_prop in E as [_ E%Z.leb_le]. rewrite (IH l) by (done || lia). rewrite (drop_ge (contents b)) by lia.
    cbn [app]. do 4 f_equal. lia.
  - assert (offset <= pb_len b) as Ho by (destruct (Z.eqb_spec offset 0), (Z.leb_spec (pb_len b) offset); cbn in E; lia || done).
    unfold u16. rewrite Z.mod_small by lia. set (n := Z.min (pb_len b - offset) len).
    rewrite (bind_Done _ _ _ _ _ (pb_read_run s a b offset n Hb Hwb Hoff ltac:(lia) ltac:(lia))).
    rewrite (IH l) by (done || lia). f_equal. rewrite <- app_assoc. f_equal.
    replace (Z.to_nat offset - length (contents b))%nat with 0%nat by lia. change (Z.to_nat 0) with 0%nat. rewrite drop_0.
    rewrite take_app, length_drop. f_equal.
    + destruct (decide (len <= pb_len b - offset)); [by subst n; rewrite Z.min_r by lia|].
      rewrite !take_ge; [done|rewrite length_drop; lia..].
    + f_equal. lia.
Qed.

Lemma walk_enough (s : pbufs) l : NoDup l -> all_within (pb_mem s) l -> (length l < S (size (pb_mem s)))%nat.
Proof.
  intros Hnd Hw. apply le_n_S. transitivity (size (list_to_set l : gset Z)); [by rewrite size_list_to_set|].
  rewrite <- (size_dom (D := gset Z) (pb_mem s)). apply subseteq_size. intros a Ha%elem_of_list_to_set.
  destruct (Hw a Ha) as (b & Hb & _). by apply elem_of_dom_2 in Hb.
Qed.

(** A chain [l] from [p], its total lengths right and its bytes in its memory. *)
Record chain (s : pbufs) (p : Z) (l : list Z) : Prop := {
  ch_seg : seg (pb_mem s) p l 0;
  ch_nodup : NoDup l;
  ch_null : ~ 0 ∈ l;
  ch_within : all_within (pb_mem s) l;
  ch_tot : tot_ok (pb_mem s) l;
}.

Lemma chain_first s p l : chain s p l -> p <> 0 -> exists b l', pb_mem s !! p = Some b /\ l = p :: l' /\ pb_tot_len b = total (pb_mem s) l.
Proof.
  intros [Hseg _ _ _ Htot] Hp. destruct l as [|a l]; [done|]. destruct Hseg as [-> (b & Hb & _)].
  exists b, l. split_and!; [done|done|]. destruct Htot as [Ht _]. rewrite Hb in Ht. by injection Ht.
Qed.

Lemma rewritten_chain l s s' p : chain s p l -> rewritten l s s' -> chain s' p l.
Proof.
  intros [Hseg Hnd H0 Hw Htot] [_ _ _ Hf].
  assert (forall a, a ∈ l -> exists b d, pb_mem s !! a = Some b /\ within b /\
    pb_mem s' !! a = Some (b <| pb_data := d |>) /\ length d = length (pb_data b)) as H.
  { intros a Ha. destruct (Hw a Ha) as (b & Hb & Hwb). destruct (Hf a b Ha Hb) as (d & Hd & El). by exists b, d. }
  constructor; [|done|done| |].
  - eapply seg_same; [|exact Hseg]. intros a Ha. by destruct (H a Ha) as (b & d & -> & _ & -> & _).
  - intros a Ha. destruct (H a Ha) as (b & d & _ & (H1 & H2 & H3) & -> & El). eexists. split; [done|].
    unfold within. cbn. by rewrite El.
  - eapply tot_ok_same; [|exact Htot]. intros a Ha. by destruct (H a Ha) as (b & d & -> & _ & -> & _).
Qed.

Lemma take_run s p l data :
  chain s p l -> p <> 0 ->
  if decide (Z.of_nat (length data) <= total (pb_mem s) l) then
    exists s', pbuf_take p data s = Done 0 s' /\ rewritten l s s' /\
      bytes (pb_mem s') l = data ++ drop (length data) (bytes (pb_mem s) l)
  else pbuf_take p data s = Done ERR_ARG s.
Proof.
  intros Hch Hp. destruct (chain_first s p l Hch Hp) as (b & l' & Hb & -> & Et).
  pose proof Hch as [Hseg Hnd H0 Hw _]. unfold pbuf_take. rewrite (proj2 (Z.eqb_neq p 0)) by done.
  rewrite (bind_Done _ _ _ _ _ (pb_get_run s p b Hb)). case_decide as Hd.
  - rewrite (proj2 (Z.ltb_ge _ _)) by lia. unfold walk_fuel. rewrite bind_gets.
    destruct (take_loop_ok (S (size (pb_mem s))) (p :: l') p data s Hseg Hnd Hw Hd (walk_enough s _ Hnd Hw)) as (s' & E & H).
    exists s'. by rewrite (bind_Done _ _ _ _ _ E).
  - by rewrite (proj2 (Z.ltb_lt _ _)) by lia.
Qed.

Lemma copy_run s p l len offset :
  chain s p l -> p <> 0 -> 0 <= len -> 0 <= offset ->
  pbuf_copy_partial p len offset s = Done (take (Z.to_nat len) (drop (Z.to_nat offset) (bytes (pb_mem s) l))) s.
Proof.
  intros [Hseg Hnd H0 Hw _] Hp Hl Ho. unfold pbuf_copy_partial. rewrite (proj2 (Z.eqb_neq p 0)) by done.
  unfold walk_fuel. rewrite bind_gets. by rewrite (copy_loop_ok _ l) by (done || by apply walk_enough).
Qed.

Lemma rewritten_total l s s' p : chain s p l -> rewritten l s s' -> total (pb_mem s') l = total (pb_mem s) l.
Proof.
  intros [_ _ _ Hw _] [_ _ _ Hf]. apply total_same. intros a Ha. destruct (Hw a Ha) as (b & Hb & _).
  destruct (Hf a b Ha Hb) as (d & Hd & _). by rewrite Hd, Hb.
Qed.

Lemma packet_chain own layer s s0 l n :
  pool_ok own s0 -> (forall a, a ∈ l -> a ∈ pool s0) -> NoDup l -> packet layer s l n -> chain s (hd 0 l) l.
Proof.
  intros Hok Hl Hnd [_ H1 H2 H3 _]. constructor; [done|done| | |done].
  - intros H0. by apply (pool_nonnull own s0 0 Hok); [apply Hl|].
  - intros a Ha. destruct (H2 a Ha) as (b & Hb & _ & Hw). by exists b.
Qed.

(** C15: [pbuf_take] and [pbuf_copy_partial] along a chain, whatever the lengths of its
    buffers: data that does not fit is refused and nothing is touched; data that fits
    is written and nothing else, neither the structure of the chain nor a buffer
    outside it, and every window of it is read back as it was given, followed by what
    the chain held. *)
Theorem take_then_copy s p l data len offset :
  chain s p l -> p <> 0 -> 0 <= len -> 0 <= offset ->
  if decide (Z.of_nat (length data) <= total (pb_mem s) l) then
    exists s', pbuf_take p data s = Done 0 s' /\ rewritten l s s' /\ chain s' p l /\
      pbuf_copy_partial p len offset s' = Done
        (take (Z.to_nat len) (drop (Z.to_nat offset) (data ++ drop (length data) (bytes (pb_mem s) l)))) s'
  else pbuf_take p data s = Done ERR_ARG s.
Proof.
  intros Hch Hp Hl Ho. pose proof (take_run s p l data Hch Hp) as H. case_decide; [|done].
  destruct H as (s' & E & Hr & Hb). exists s'. pose proof (rewritten_chain l s s' p Hch Hr) as Hch'.
  split_and!; [done|done|done|]. by rewrite (copy_run s' p l len offset Hch' Hp Hl Ho), Hb.
Qed.

Lemma take_app_within {A} (l1 l2 : list A) len offset :
  0 <= len -> 0 <= offset -> offset + len <= Z.of_nat (length l1) ->
  take (Z.to_nat len) (drop (Z.to_nat offset) (l1 ++ l2)) = take (Z.to_nat len) (drop (Z.to_nat offset) l1).
Proof. intros. rewrite drop_app_le by lia. rewrite take_app_le; [done|]. rewrite length_drop. lia. Qed.

