(* ===== verification/PbufInv.v ===== *)
(** * The invariant of packet buffers

    Reference counts are the pointers and chains end; each operation that allocates,
    releases, refers to, links, splits or writes buffers keeps it so. *)
From Stdlib Require Import ZArith Lia.
From stdpp Require Import base tactics decidable list list_numbers numbers gmap functions relations.
From S2P Require Import Prelude Udp Net Pbuf PbufSpec PbufData.
Open Scope Z_scope.
Open Scope c_scope.

(** ** Chains end *)
Definition acyclic (L : gmap Z pbuf) : Prop := forall a, is_Some (L !! a) -> exists l, seg L a l 0.

(** The buffers of [all], some in the pool, some in use. *)
Record pool_inv (all : gset Z) (own : Z -> Z) (s : pbufs) : Prop := {
  pi_ok : pool_ok own s;
  pi_acyclic : acyclic (live s);
  pi_all : dom (pb_mem s) = all;
}.

Lemma seg_elem h p l q a : seg h p l q -> a ∈ l -> is_Some (h !! a).
Proof.
  revert p. induction l as [|x l IH]; intros p; cbn [seg]; [by intros _ H%not_elem_of_nil|].
  intros [-> (b & Hb & Hs)] [->|Ha]%elem_of_cons; [by exists b|by eapply IH].
Qed.

Lemma seg_from h p l q a : seg h p l q -> a ∈ l -> exists l1 l2, l = l1 ++ a :: l2 /\ seg h a (a :: l2) q.
Proof.
  intros Hs (l1 & l2 & ->)%list_elem_of_split. exists l1, l2. split; [done|].
  apply seg_app in Hs as (r & _ & Hs). pose proof Hs as [<- _]. exact Hs.
Qed.

Lemma seg_det h p l1 l2 : h !! 0 = None -> seg h p l1 0 -> seg h p l2 0 -> l1 = l2.
Proof.
  intros H0. revert p l2. induction l1 as [|a l1 IH]; intros p [|c l2]; [done| | |].
  - intros -> [<- (b & Hb & _)]. by rewrite H0 in Hb.
  - intros [-> (b & Hb & _)] E. cbn in E. subst. by rewrite H0 in Hb.
  - intros [<- (b & Hb & Hs)] [<- (b2 & Hb2 & Hs2)]. rewrite Hb in Hb2. injection Hb2 as <-. f_equal. by eapply IH.
Qed.

(** A chain that ends meets no buffer twice. *)
Lemma seg_nodup h p l : h !! 0 = None -> seg h p l 0 -> NoDup l.
Proof.
  intros H0. revert p. induction l as [|a l IH]; intros p Hs; [apply NoDup_nil_2|].
  pose proof Hs as [-> (b & Hb & Hs')]. apply list.NoDup_cons. split; [|by eapply IH].
  intros Ha. destruct (seg_from h _ l 0 a Hs' Ha) as (l1 & l2 & E & Hs2).
  pose proof (seg_det h a _ _ H0 Hs Hs2) as E2. injection E2 as E2. apply (f_equal length) in E, E2.
  rewrite length_app in E. cbn in E. lia.
Qed.

Lemma seg_nonnull h p l q a : h !! 0 = None -> seg h p l q -> a ∈ l -> a <> 0.
Proof. intros H0 Hs Ha ->. destruct (seg_elem h p l q 0 Hs Ha) as [? E]. by rewrite H0 in E. Qed.

Lemma seg_size h p l : h !! 0 = None -> seg h p l 0 -> (length l <= size h)%nat.
Proof.
  intros H0 Hs. rewrite <- (size_dom (D := gset Z) h), <- (size_list_to_set (C := gset Z) l) by by eapply seg_nodup.
  apply subseteq_size. intros a Ha%elem_of_list_to_set. apply elem_of_dom. by eapply seg_elem.
Qed.

Lemma seg_live s p l q : (forall a, a ∈ l -> a ∉ pool s) -> seg (pb_mem s) p l q -> seg (live s) p l q.
Proof.
  intros Hl. apply seg_same. intros a Ha. f_equal. destruct (pb_mem s !! a) as [b|] eqn:E.
  - apply live_Some. auto.
  - destruct (live s !! a) as [b|] eqn:El; [|done]. apply live_Some in El as [El _]. by rewrite E in El.
Qed.

Lemma live_seg s p l q : seg (live s) p l q -> seg (pb_mem s) p l q /\ forall a, a ∈ l -> a ∉ pool s.
Proof.
  intros Hs. split.
  - eapply seg_same; [|exact Hs]. intros a Ha. destruct (seg_elem _ _ _ _ a Hs Ha) as [b Hb].
    rewrite Hb. by apply live_Some in Hb as [-> _].
  - intros a Ha. destruct (seg_elem _ _ _ _ a Hs Ha) as [b Hb]. by eapply live_pool_disjoint.
Qed.

(** What is still in use after a change that moves no pointer. *)
Lemma acyclic_closed own' L L' :
  L !! 0 = None -> counts own' L' ->
  (forall a b', L' !! a = Some b' -> exists b, L !! a = Some b /\ pb_next b' = pb_next b) ->
  acyclic L -> acyclic L'.
Proof.
  intros H0 Hc HL Hac a [b' Hb']. destruct (HL a b' Hb') as (b & Hb & _). destruct (Hac a) as [l Hs]; [by exists b|].
  exists l. assert (a = 0 \/ is_Some (L' !! a)) as Ha by (right; by exists b'). clear b b' Hb Hb'.
  revert a Hs Ha. induction l as [|x l IH]; intros a; [done|]. intros [<- (b & Hb & Hs)] Ha.
  destruct Ha as [->|[b' Hb']]; [by rewrite H0 in Hb|]. split; [done|]. exists b'. split; [done|].
  destruct (HL a b' Hb') as (b2 & Hb2 & En). rewrite Hb in Hb2. injection Hb2 as <-. rewrite En.
  apply IH; [done|]. rewrite <- En. by destruct (co_live _ _ Hc a b' Hb') as (_ & _ & ? & _).
Qed.

(** ** Nothing leaks *)

(** A buffer in use with no reference from outside has a predecessor, so chains
    would have any length. *)
Lemma unowned_chains own L :
  counts own L -> acyclic L -> (forall a, own a = 0) -> L <> ∅ ->
  forall n, exists a l, seg L a l 0 /\ (n < length l)%nat.
Proof.
  intros Hc Hac Hown HL. induction n as [|n (a & l & Hs & Hn)].
  - destruct (map_choose L HL) as (a & b & Hb). destruct (Hac a) as [l Hs]; [by exists b|]. exists a, l. split; [done|].
    destruct l; [|cbn; lia]. cbn in Hs. subst a. by rewrite (co_null _ _ Hc) in Hb.
  - destruct l as [|x l]; [cbn in Hn; lia|]. pose proof Hs as [-> (b & Hb & _)].
    destruct (co_live _ _ Hc x b Hb) as (E & ? & _). rewrite Hown in E.
    assert (exists c bc, L !! c = Some bc /\ pb_next bc = x) as (c & bc & Hbc & En).
    { unfold preds in E. destruct (map_choose (filter (fun kv => pb_next kv.2 = x) L)) as (c & bc & Hbc).
      - intros E0. rewrite E0, map_size_empty in E. lia.
      - apply map_lookup_filter_Some in Hbc as [Hbc En]. by exists c, bc. }
    exists c, (c :: x :: l). split; [|cbn in *; lia]. split; [done|]. exists bc. by rewrite En.
Qed.

Lemma unowned_free own L : counts own L -> acyclic L -> (forall a, own a = 0) -> L = ∅.
Proof.
  intros Hc Hac Hown. destruct (decide (L = ∅)) as [|HL]; [done|].
  destruct (unowned_chains own L Hc Hac Hown HL (size L)) as (a & l & Hs & Hn).
  pose proof (seg_size L a l (co_null _ _ Hc) Hs). lia.
Qed.

Lemma unowned_pool all own s :
  pool_inv all own s -> (forall a, own a = 0) -> pool s ≡ₚ elements all.
Proof.
  intros [Hok Hac Hall] Hown. pose proof (unowned_free own (live s) (po_counts _ _ Hok) Hac Hown) as E.
  apply NoDup_Permutation; [apply Hok|apply NoDup_elements|]. intros a. rewrite elem_of_elements, <- Hall, elem_of_dom.
  split; [apply Hok|]. intros [b Hb]. destruct (decide (a ∈ pool s)) as [|Hp]; [done|].
  assert (live s !! a = Some b) as Hl by by apply live_Some. by rewrite E in Hl.
Qed.

(** ** The operations *)

(** What the counts and the chains depend on. *)
Definition links (b : pbuf) : Z * Z * Z * Z * nat :=
  (pb_next b, pb_ref b, pb_type b, pb_flags b, length (pb_data b)).

Definition same_links (s s' : pbufs) : Prop :=
  memp_tab s' = memp_tab s /\ forall a, links <$> pb_mem s' !! a = links <$> pb_mem s !! a.

Lemma same_links_Some s s' a b' :
  same_links s s' -> pb_mem s' !! a = Some b' -> exists b, pb_mem s !! a = Some b /\ links b' = links b.
Proof.
  intros [_ H] Hb. pose proof (H a) as E. rewrite Hb in E. destruct (pb_mem s !! a) as [b|]; [|done].
  exists b. split; [done|]. cbn in E. congruence.
Qed.

Lemma live_lookup s a : live s !! a = if decide (a ∈ pool s) then None else pb_mem s !! a.
Proof.
  apply option_eq. intros b. rewrite live_Some. case_decide; naive_solver.
Qed.

Lemma same_links_live s s' a : same_links s s' -> links <$> live s' !! a = links <$> live s !! a.
Proof.
  intros [Ht H]. rewrite !live_lookup. unfold pool. rewrite Ht. by case_decide.
Qed.

Lemma preds_same L L' a : (forall c, pb_next <$> L' !! c = pb_next <$> L !! c) -> preds L' a = preds L a.
Proof.
  intros H. unfold preds.
  assert (forall K : gmap Z pbuf, size (filter (fun kv => pb_next kv.2 = a) K) =
    size (filter (fun kv => kv.2 = a) (pb_next <$> K))) as E.
  { intros K. by rewrite map_filter_fmap, map_size_fmap. }
  rewrite !E. do 3 f_equal. apply map_eq. intros c. by rewrite !lookup_fmap.
Qed.

Lemma links_next (o o' : option pbuf) : links <$> o' = links <$> o -> pb_next <$> o' = pb_next <$> o.
Proof. destruct o, o'; cbn; try done. unfold links. congruence. Qed.

Lemma counts_same own L L' : (forall a, links <$> L' !! a = links <$> L !! a) -> counts own L -> counts own L'.
Proof.
  intros H [H1 H2 H3].
  assert (forall a, is_Some (L !! a) -> is_Some (L' !! a)) as Hs.
  { intros a [b Hb]. pose proof (H a) as E. rewrite Hb in E. destruct (L' !! a) as [b'|]; [by exists b'|done]. }
  constructor.
  - pose proof (H 0) as E. rewrite H1 in E. by destruct (L' !! 0).
  - intros a b' Hb'. pose proof (H a) as E. rewrite Hb' in E. destruct (L !! a) as [b|] eqn:Hb; [|done].
    assert (pb_next b' = pb_next b /\ pb_ref b' = pb_ref b /\ pb_type b' = pb_type b) as (-> & -> & ->)
      by (unfold links in E; cbn in E; by injection E).
    rewrite (preds_same L L' a) by (intros c; apply links_next, H).
    destruct (H2 a b Hb) as (? & ? & Hn & ?). split_and!; [done|lia|lia| |done].
    destruct Hn as [|Hn]; [by left|right; by apply Hs].
  - intros a. destruct (H3 a). split; [done|]. auto.
Qed.

Lemma inv_same_links all own s s' : pool_inv all own s -> same_links s s' -> pool_inv all own s'.
Proof.
  intros [[H1 H2 H3 H4 H5] Hac Hall] Hsl.
  assert (counts own (live s')) as Hc by (eapply counts_same; [|done]; intros a; by apply same_links_live).
  pose proof Hsl as [Ht Hm]. assert (pool s' = pool s) as Ep by (unfold pool; by rewrite Ht).
  assert (forall a, is_Some (pb_mem s' !! a) <-> is_Some (pb_mem s !! a)) as Hs.
  { intros a. specialize (Hm a). destruct (pb_mem s !! a), (pb_mem s' !! a); cbn in Hm; done. }
  constructor; [constructor|..]; rewrite ?Ep; try done.
  - intros a Ha. by apply Hs, H2.
  - destruct (pb_mem s' !! 0) eqn:E; [|done]. destruct (proj1 (Hs 0)) as [? E0]; [by rewrite E|]. by rewrite H3 in E0.
  - intros a b' Hb'. destruct (same_links_Some s s' a b' Hsl Hb') as (b & Hb & El). destruct (H4 a b Hb) as [Hd Hf].
    assert (length (pb_data b') = length (pb_data b) /\ pb_flags b' = pb_flags b) as [Ed Ef] by (unfold links in El; split; congruence).
    split; [by rewrite Ed|by rewrite Ef].
  - eapply (acyclic_closed own (live s)); [apply H5|exact Hc| |exact Hac].
    intros a b' Hb'. pose proof (same_links_live s s' a Hsl) as E. rewrite Hb' in E.
    destruct (live s !! a) as [b|]; [|done]. exists b. split; [done|]. unfold links in E. cbn in E. congruence.
  - rewrite <- Hall. apply set_eq. intros a. rewrite !elem_of_dom. apply Hs.
Qed.

Lemma rewritten_links l s s' : (forall a, a ∈ l -> is_Some (pb_mem s !! a)) -> rewritten l s s' -> same_links s s'.
Proof.
  intros Hl [H1 _ H3 H4]. split; [done|]. intros a. destruct (decide (a ∈ l)) as [Ha|Ha]; [|by rewrite H3].
  destruct (Hl a Ha) as [b Hb]. destruct (H4 a b Ha Hb) as (d & -> & El). rewrite Hb. cbn. unfold links. cbn. by rewrite El.
Qed.

(** [pbuf_free] *)
Lemma inv_free all own s p :
  pool_inv all own s -> 0 < own p ->
  exists n s', pbuf_free p s = Done n s' /\ pool_inv all (<[p := own p - 1]> own) s'.
Proof.
  intros [Hok Hac Hall] Hown. destruct (pbuf_free_ok own s p Hok Hown) as (l & s' & E & Hok' & Hp & Hsc).
  eexists _, s'. split; [exact E|]. 
  assert (forall a b', pb_mem s' !! a = Some b' -> exists b, pb_mem s !! a = Some b /\ pb_next b' = pb_next b) as Hn.
  { intros a b' Hb'. pose proof (Hsc a) as Ea. rewrite Hb' in Ea. destruct (pb_mem s !! a) as [b|]; [|done].
    exists b. split; [done|]. cbn in Ea. assert (pb_next (b' <| pb_ref := 0 |>) = pb_next (b <| pb_ref := 0 |>)) by congruence. done. }
  constructor; [done| |].
  - eapply (acyclic_closed _ (live s)); [apply Hok|apply Hok'| |exact Hac].
    intros a b' [Hb' Hap]%live_Some. destruct (Hn a b' Hb') as (b & Hb & En). exists b. split; [|done].
    apply live_Some. split; [done|]. rewrite Hp in Hap. intros Ha. apply Hap, elem_of_app. by right.
  - rewrite <- Hall. apply set_eq. intros a. rewrite !elem_of_dom. specialize (Hsc a).
    destruct (pb_mem s !! a), (pb_mem s' !! a); cbn in Hsc; done.
Qed.

(** [pbuf_ref] *)
Lemma inv_ref all own s p b :
  pool_inv all own s -> live s !! p = Some b -> pb_ref b < 2 ^ 16 - 1 ->
  exists s', pbuf_ref p s = Done tt s' /\ pool_inv all (<[p := own p + 1]> own) s'.
Proof.
  intros [Hok Hac Hall] Hb Hlt. pose proof Hb as [Hm Hp]%live_Some.
  destruct (co_live _ _ (po_counts _ _ Hok) p b Hb) as (_ & Hr & _).
  set (b' := b <| pb_ref := u16 (pb_ref b + 1) |>).
  assert (pb_ref b' = pb_ref b - -1) as Er by (cbn; unfold u16; rewrite Z.mod_small; lia).
  pose proof (co_own _ _ (po_counts _ _ Hok) p) as [Ho _].
  assert (pool_ok (<[p := own p + 1]> own) (with_pb p b' s)) as Hok'.
  { apply (with_pb_ok own _ s p b); [done..|]. replace (own p + 1) with (own p - -1) by lia.
    refine (counts_update own (live s) p b b' (-1) (po_counts _ _ Hok) Hb eq_refl eq_refl Er _ _); lia. }
  exists (with_pb p b' s). split; [|constructor; [done| |]].
  - unfold pbuf_ref. rewrite (proj2 (Z.eqb_neq p 0)) by exact (live_nonnull own s p b Hok Hb).
    by rewrite (bind_Done _ _ _ _ _ (pb_get_run s p b Hm)).
  - eapply (acyclic_closed _ (live s)); [apply Hok|apply Hok'| |exact Hac].
    rewrite live_with_pb by done. intros a c [[<- <-]|[_ Hc]]%lookup_insert_Some; [by exists b|by exists c].
  - cbn. rewrite dom_insert_L, Hall. apply subseteq_union_1_L, singleton_subseteq_l. rewrite <- Hall. by apply elem_of_dom.
Qed.

(** [pbuf_alloc] *)
Lemma inv_alloc_new all own layer s s' p k n :
  pool_inv all own s -> pool_ok (<[p := 1]> own) s' -> pool s' = drop k (pool s) -> packet layer s' (take k (pool s)) n ->
  (forall a, a ∉ take k (pool s) -> pb_mem s' !! a = pb_mem s !! a) -> pool_inv all (<[p := 1]> own) s'.
Proof.
  intros [Hok Hac Hall] Hok' Hp [_ Hseg Hrefs _ _] Hm. pose proof (po_nodup _ _ Hok) as Hnd.
  rewrite <- (take_drop k (pool s)) in Hnd. apply list.NoDup_app in Hnd as (_ & Hnd & _). rewrite <- Hp in Hnd.
  assert (forall a, a ∈ take k (pool s) -> a ∈ pool s) as Htk by (intros a (i & Ha & _)%elem_of_take; by eapply list_elem_of_lookup_2).
  assert (forall a, a ∉ take k (pool s) -> live s' !! a = live s !! a) as Hl.
  { intros a Ha. rewrite !live_lookup, Hm by done.
    assert (a ∈ pool s' <-> a ∈ pool s) as Hiff.
    { rewrite <- (take_drop k (pool s)), Hp, elem_of_app. naive_solver. }
    destruct (decide (a ∈ pool s)); [by rewrite decide_True by naive_solver|by rewrite decide_False by naive_solver]. }
  constructor; [done| |].
  - intros a [b Hb]. destruct (decide (a ∈ take k (pool s))) as [Ha|Ha].
    + destruct (seg_from _ _ _ _ a (seg_live s' _ _ _ Hnd Hseg) Ha) as (_ & l2 & _ & Hs). by eexists.
    + rewrite Hl in Hb by done. destruct (Hac a) as [l Hs]; [by exists b|]. exists l. eapply seg_same; [|exact Hs].
      intros c Hc. rewrite Hl; [done|]. intros Hck%Htk. destruct (seg_elem _ _ _ _ c Hs Hc) as [bc Hbc].
      by apply (live_pool_disjoint s c bc).
  - rewrite <- Hall. apply set_eq. intros a. rewrite !elem_of_dom. destruct (decide (a ∈ take k (pool s))) as [Ha|Ha]; [|by rewrite Hm].
    destruct (Hrefs a Ha) as (b & -> & _). split; intros _; [by apply (po_free _ _ Hok), Htk|by eexists].
Qed.

Lemma inv_alloc_none all own s s' :
  pool_inv all own s -> pool_ok own s' -> pool s' ≡ₚ pool s ->
  (forall a, a ∉ pool s -> pb_mem s' !! a = pb_mem s !! a) -> pool_inv all own s'.
Proof.
  intros [Hok Hac Hall] Hok' Hp Hm.
  assert (live s' = live s) as E.
  { apply map_eq. intros a. rewrite !live_lookup. destruct (decide (a ∈ pool s)) as [Ha|Ha].
    - by rewrite decide_True by by rewrite Hp.
    - rewrite decide_False by by rewrite Hp. by apply Hm. }
  constructor; [done|by rewrite E|]. rewrite <- Hall. apply set_eq. intros a. rewrite !elem_of_dom.
  destruct (decide (a ∈ pool s)) as [Ha|Ha]; [|by rewrite Hm].
  split; intros _; [by apply Hok|apply Hok'; by rewrite Hp].
Qed.

Lemma inv_alloc all own s layer n :
  pool_inv all own s -> 0 <= n < 2 ^ 16 ->
  exists p s', pbuf_alloc_pool layer n s = Done p s' /\
    pool_inv all (if decide (p = 0) then own else <[p := 1]> own) s'.
Proof.
  intros Hi Hn. pose proof (alloc_pool_ok own s layer n (pi_ok _ _ _ Hi) Hn) as H. case_decide as Hk.
  - destruct H as (s' & E & Hp0 & Hok & Hp & Hpk & _ & Hm). eexists _, s'. split; [exact E|].
    rewrite decide_False by done. by eapply inv_alloc_new.
  - destruct H as (s' & E & Hok & Hp & _ & Hm). exists 0, s'. split; [exact E|]. rewrite decide_True by done.
    by eapply inv_alloc_none.
Qed.

(** [pbuf_take] *)
Lemma inv_take all own s p l data :
  pool_inv all own s -> chain s p l -> p <> 0 ->
  exists r s', pbuf_take p data s = Done r s' /\ pool_inv all own s'.
Proof.
  intros Hi Hch Hp. pose proof (take_run s p l data Hch Hp) as H. case_decide as Hd; [|by exists ERR_ARG, s].
  destruct H as (s' & E & Hr & _). exists 0, s'. split; [exact E|]. eapply inv_same_links; [exact Hi|].
  eapply rewritten_links; [|exact Hr]. intros a Ha. destruct (ch_within _ _ _ Hch a Ha) as (b & Hb & _). by exists b.
Qed.

(** [pbuf_cat] *)
Lemma cat_loop_ok fuel : forall h l r s t tb,
  seg (pb_mem s) h (l ++ [r]) 0 -> NoDup (l ++ [r]) -> ~ 0 ∈ l ++ [r] -> pb_mem s !! t = Some tb -> t ∉ l ->
  (length l < fuel)%nat ->
  exists s', pbuf_cat_loop fuel h t s = Done r s' /\ memp_tab s' = memp_tab s /\ mem_freed s' = mem_freed s /\
    forall a, pb_mem s' !! a =
      if decide (a ∈ l) then (fun b => b <| pb_tot_len := u16 (pb_tot_len b + pb_tot_len tb) |>) <$> pb_mem s !! a
      else pb_mem s !! a.
Proof.
  induction fuel as [|fuel IH]; intros h l r s t tb Hseg Hnd H0 Ht Htl Hf; [lia|]. cbn [pbuf_cat_loop].
  destruct l as [|x l]; cbn [app seg] in Hseg.
  - destruct Hseg as [-> (b & Hb & Hn)]. rewrite (bind_Done _ _ _ _ _ (pb_get_run s r b Hb)), Hn.
    exists s. split_and!; try done.
  - destruct Hseg as [-> (b & Hb & Hseg)]. rewrite (bind_Done _ _ _ _ _ (pb_get_run s x b Hb)).
    cbn [app] in *. apply list.NoDup_cons in Hnd as [Hx Hnd]. rewrite not_elem_of_cons in H0, Htl.
    destruct H0 as [_ H0], Htl as [Htx Htl]. 
    assert (pb_next b <> 0) as Hn0.
    { intros E0. rewrite E0 in Hseg. destruct l; destruct Hseg as [<- _]; apply H0; by left. }
    rewrite (proj2 (Z.eqb_neq _ 0) Hn0), (bind_Done _ _ _ _ _ (pb_get_run s t tb Ht)).
    rewrite (bind_Done _ _ _ _ _ (pb_set_run s x _)). set (b' := b <| pb_tot_len := _ |>).
    assert (forall a, a <> x -> pb_mem (with_pb x b' s) !! a = pb_mem s !! a) as Hm by (intros; cbn; by rewrite lookup_insert_ne).
    destruct (IH (pb_next b) l r (with_pb x b' s) t tb) as (s' & E & Ht' & Hf' & Hm').
    + eapply seg_same; [|exact Hseg]. intros a Ha. rewrite Hm; [done|]. by intros ->.
    + done.
    + done.
    + by rewrite Hm.
    + done.
    + cbn in Hf. lia.
    + exists s'. split_and!; [exact E|done|done|]. intros a. rewrite Hm'. destruct (decide (a = x)) as [->|Ha].
      * rewrite decide_False, decide_True by (first [by left|intros Hx'; apply Hx, elem_of_app; by left]).
        cbn. by rewrite lookup_insert_eq, Hb.
      * rewrite Hm by done. destruct (decide (a ∈ l)) as [Hal|Hal].
        -- by rewrite (decide_True (P := a ∈ x :: l)) by by right.
        -- by rewrite (decide_False (P := a ∈ x :: l)) by (rewrite elem_of_cons; naive_solver).
Qed.

Definition longer (n : Z) (b : pbuf) : pbuf := b <| pb_tot_len := u16 (pb_tot_len b + n) |>.

(** First the total lengths of the first chain, then the link. *)
Lemma cat_run s h l r t tb :
  pb_mem s !! 0 = None -> seg (pb_mem s) h (l ++ [r]) 0 -> pb_mem s !! t = Some tb -> t ∉ l ++ [r] ->
  exists s1 rb, pbuf_cat h t s = Done tt (with_pb r (rb <| pb_next := t |>) s1) /\
    pb_mem s1 !! r = Some rb /\ memp_tab s1 = memp_tab s /\ mem_freed s1 = mem_freed s /\
    forall a, pb_mem s1 !! a = if decide (a ∈ l ++ [r]) then longer (pb_tot_len tb) <$> pb_mem s !! a else pb_mem s !! a.
Proof.
  intros H0 Hseg Ht Htl. pose proof (seg_nodup _ _ _ H0 Hseg) as Hnd.
  assert (~ 0 ∈ l ++ [r]) as H00 by (intros Hin; by apply (seg_nonnull _ _ _ _ 0 H0 Hseg Hin)).
  assert (h <> 0) as Hh by (destruct l; destruct Hseg as [-> _]; intros E; apply H00; rewrite E; by left).
  assert (t <> 0) as Ht0 by (intros ->; by rewrite H0 in Ht).
  rewrite not_elem_of_app, list_elem_of_singleton in Htl. destruct Htl as [Htl Htr].
  assert (length l < S (size (pb_mem s)))%nat as Hf.
  { pose proof (seg_size _ _ _ H0 Hseg) as E. rewrite length_app in E. cbn in E. lia. }
  destruct (cat_loop_ok _ h l r s t tb Hseg Hnd H00 Ht Htl Hf) as (s' & E & Etab & Efr & Hm).
  assert (r ∉ l) as Hr by (apply list.NoDup_app in Hnd as (_ & Hnd & _); intros Hr; apply (Hnd r Hr); by left).
  destruct (seg_elem _ _ _ _ r Hseg) as [rb Hrb]; [apply elem_of_app; right; by left|].
  assert (pb_mem s' !! r = Some rb) as Hrb' by (by rewrite Hm, decide_False).
  exists (with_pb r (longer (pb_tot_len tb) rb) s'), (longer (pb_tot_len tb) rb). split_and!; [|by apply lookup_insert_eq|done|done|].
  - unfold pbuf_cat. rewrite (proj2 (Z.eqb_neq h 0)), (proj2 (Z.eqb_neq t 0)) by done. cbn [orb].
    unfold walk_fuel. rewrite bind_gets, (bind_Done _ _ _ _ _ E), (bind_Done _ _ _ _ _ (pb_get_run s' r rb Hrb')).
    rewrite (bind_Done _ _ _ tb s') by (apply pb_get_run; by rewrite Hm, decide_False).
    rewrite pb_set_run. f_equal. unfold with_pb. cbn. by rewrite insert_insert_eq.
  - intros a. cbn. destruct (decide (a = r)) as [->|Ha].
    + rewrite lookup_insert_eq, decide_True by (apply elem_of_app; right; by left). by rewrite Hrb.
    + rewrite lookup_insert_ne, Hm by done.
      destruct (decide (a ∈ l)) as [Hal|Hal]; [rewrite decide_True by (apply elem_of_app; by left)|
        rewrite decide_False by (rewrite elem_of_app, list_elem_of_singleton; naive_solver)]; done.
Qed.

(** A pointer stored in the last buffer of a chain. *)
Lemma inv_link all own s r rb t lt :
  pool_inv all own s -> 0 < own t -> live s !! r = Some rb -> pb_next rb = 0 ->
  seg (live s) t lt 0 -> r ∉ lt ->
  pool_inv all (<[t := own t - 1]> own) (with_pb r (rb <| pb_next := t |>) s).
Proof.
  intros [Hok Hac Hall] Hown Hr Hrn Hs Hrl. pose proof Hr as [Hm Hp]%live_Some.
  set (rb' := rb <| pb_next := t |>).
  destruct (co_own _ _ (po_counts _ _ Hok) t) as [_ Hst]. specialize (Hst ltac:(lia)).
  assert (pool_ok (<[t := own t - 1]> own) (with_pb r rb' s)) as Hok'.
  { apply (with_pb_ok own _ s r rb); [done..|]. apply counts_link; [apply Hok|done|done|done|lia|lia]. }
  constructor; [done| |].
  - rewrite live_with_pb by done. intros a Ha.
    assert (forall p l2 q, r ∉ l2 -> seg (live s) p l2 q -> seg (<[r := rb']> (live s)) p l2 q) as Hkeep.
    { intros p l2 q Hrl2. apply seg_same. intros c Hc. rewrite lookup_insert_ne; [done|by intros ->]. }
    destruct (decide (a = r)) as [->|Hne].
    + exists (r :: lt). split; [done|]. exists rb'. rewrite lookup_insert_eq. split; [done|]. by apply Hkeep.
    + rewrite lookup_insert_ne in Ha by done. destruct (Hac a Ha) as [la Hla].
      destruct (decide (r ∈ la)) as [Hra|Hra]; [|exists la; by apply Hkeep].
      destruct (seg_from _ _ _ _ r Hla Hra) as (l1 & l2 & -> & Hs2).
      apply seg_app in Hla as (x & Hl1 & Hx). pose proof Hx as [-> _].
      exists (l1 ++ r :: lt). apply seg_app. exists r. split.
      * apply Hkeep; [|done]. intros Hr1.
        assert (seg (live s) a (l1 ++ r :: l2) 0) as Hall2 by (apply seg_app; by exists r).
        apply seg_nodup in Hall2; [|apply Hok]. apply list.NoDup_app in Hall2 as (_ & Hd & _). apply (Hd r Hr1). by left.
      * split; [done|]. exists rb'. rewrite lookup_insert_eq. split; [done|]. by apply Hkeep.
  - cbn. rewrite dom_insert_L, Hall. apply subseteq_union_1_L, singleton_subseteq_l. rewrite <- Hall. by apply elem_of_dom.
Qed.

Lemma seg_last h p l : h !! 0 = None -> p <> 0 -> seg h p l 0 -> exists l' r rb, l = l' ++ [r] /\ h !! r = Some rb /\ pb_next rb = 0.
Proof.
  intros H0 Hp Hs. destruct l as [|r l' _] using rev_ind; [done|].
  apply seg_app in Hs as (x & _ & -> & b & Hb & Hn). by exists l', r, b.
Qed.

Lemma cat_links s s1 l r n :
  memp_tab s1 = memp_tab s ->
  (forall a, pb_mem s1 !! a = if decide (a ∈ l ++ [r]) then longer n <$> pb_mem s !! a else pb_mem s !! a) ->
  same_links s s1.
Proof. intros Ht Hm. split; [done|]. intros a. rewrite Hm. case_decide; [|done]. by destruct (pb_mem s !! a). Qed.

Lemma inv_cat all own s h lh t lt :
  pool_inv all own s -> 0 < own t -> h <> 0 -> seg (live s) h lh 0 -> seg (live s) t lt 0 -> lh ## lt ->
  exists s', pbuf_cat h t s = Done tt s' /\ pool_inv all (<[t := own t - 1]> own) s'.
Proof.
  intros Hi Hown Hh Hsh Hst Hd. pose proof (pi_ok _ _ _ Hi) as Hok.
  pose proof (co_null _ _ (po_counts _ _ Hok)) as H0.
  destruct (seg_last _ _ _ H0 Hh Hsh) as (l & r & rb0 & -> & Hrb0 & Hrn).
  destruct (co_own _ _ (po_counts _ _ Hok) t) as [_ [tb Htb]]; [lia|]. pose proof Htb as [Htm _]%live_Some.
  assert (t ∈ lt) as Htl.
  { destruct lt as [|x lt]; [|destruct Hst as [-> _]; by left]. cbn in Hst. subst t. by rewrite H0 in Htb. }
  destruct (cat_run s h l r t tb) as (s1 & rb & E & Hrb & Htab & _ & Hm); [apply Hok|by apply live_seg|done|by intros Hth; apply (Hd t)|].
  exists (with_pb r (rb <| pb_next := t |>) s1). split; [exact E|].
  pose proof (cat_links s s1 l r _ Htab Hm) as Hsl. pose proof (same_links_live s s1) as Hll.
  assert (r ∈ l ++ [r]) as Hr by (apply elem_of_app; right; by left).
  pose proof (Hll r Hsl) as Er. rewrite Hrb0 in Er. destruct (live s1 !! r) as [rb1|] eqn:Hrb1; [|done].
  pose proof Hrb1 as [Hrb1' _]%live_Some. rewrite Hrb in Hrb1'. injection Hrb1' as <-.
  apply (inv_link all own s1 r rb t lt); [by eapply inv_same_links|done|done| | |].
  - assert (links rb = links rb0) as El by (cbn in Er; congruence). unfold links in El. congruence.
  - eapply seg_same; [|exact Hst]. intros a _. apply links_next. by apply Hll.
  - intros Hrl. by apply (Hd r).
Qed.


Lemma bytes_contents h h' l :
  (forall a, a ∈ l -> contents <$> h' !! a = contents <$> h !! a) -> bytes h' l = bytes h l.
Proof.
  induction l as [|a l IH]; intros H; [done|]. rewrite !bytes_cons, IH by (intros; apply H; by right). f_equal.
  pose proof (H a ltac:(by left)) as E. destruct (h' !! a), (h !! a); cbn in *; congruence.
Qed.

Lemma total_nonneg h l : all_within h l -> 0 <= total h l.
Proof. intros H. rewrite <- bytes_length by done. lia. Qed.

Lemma tot_ok_app h h' l1 l2 :
  (forall a, a ∈ l1 -> pb_len <$> h' !! a = pb_len <$> h !! a /\
    pb_tot_len <$> h' !! a = (fun n => u16 (n + total h' l2)) <$> (pb_tot_len <$> h !! a)) ->
  all_within h l1 -> tot_ok h l1 -> tot_ok h' l2 -> 0 <= total h' l2 -> total h l1 + total h' l2 < 2 ^ 16 ->
  tot_ok h' (l1 ++ l2).
Proof.
  intros H. revert H. induction l1 as [|a l1 IH]; intros H Hw H1 H2 Hn Hlt; [done|]. destruct H1 as [Ha H1].
  assert (total h' (a :: l1) = total h (a :: l1)) as Et by (apply total_same; intros; by apply H).
  pose proof (total_nonneg h (a :: l1) Hw). 
  assert (all_within h l1) as Hw1 by (intros c Hc; apply Hw; by right). pose proof (total_nonneg h l1 Hw1).
  destruct (Hw a) as (b & Hb & (_ & Hlen & _)); [by left|].
  split.
  - destruct (H a) as [_ ->]; [by left|]. rewrite Ha. cbn [fmap option_fmap option_map]. f_equal.
    change (a :: l1 ++ l2) with ((a :: l1) ++ l2). rewrite total_app, Et. unfold u16. rewrite Z.mod_small; lia.
  - apply IH; try done; [intros; apply H; by right|].
    change (total h (a :: l1)) with (from_option pb_len 0 (h !! a) + total h l1) in Hlt. rewrite Hb in Hlt. cbn in Hlt. lia.
Qed.

Lemma cat_chain s h lh t lt :
  pb_mem s !! 0 = None -> chain s h lh -> chain s t lt -> h <> 0 -> t <> 0 -> lh ## lt ->
  total (pb_mem s) lh + total (pb_mem s) lt < 2 ^ 16 ->
  exists s', pbuf_cat h t s = Done tt s' /\ chain s' h (lh ++ lt) /\
    bytes (pb_mem s') (lh ++ lt) = bytes (pb_mem s) lh ++ bytes (pb_mem s) lt /\
    forall a, a ∉ lh -> pb_mem s' !! a = pb_mem s !! a.
Proof.
  intros H0 [Hsh Hndh H0h Hwh Hth] Hct Hh Ht Hd Hlt. destruct (chain_first s t lt Hct Ht) as (tb & lt' & Htb & Elt & Ett).
  destruct Hct as [Hst Hndt H0t Hwt Htt].
  destruct (seg_last _ _ _ H0 Hh Hsh) as (l & r & rb0 & -> & Hrb0 & Hrn).
  destruct (cat_run s h l r t tb H0 Hsh Htb) as (s1 & rb & E & Hrb & _ & _ & Hm); [intros Hth'; apply (Hd t Hth'); rewrite Elt; by left|].
  assert (r ∈ l ++ [r]) as Hr by (apply elem_of_app; right; by left).
  assert (r ∉ l) as Hrl by (apply list.NoDup_app in Hndh as (_ & Hd' & _); intros Hrl; apply (Hd' r Hrl); by left).
  assert (rb = longer (pb_tot_len tb) rb0) as -> by (rewrite Hm, decide_True, Hrb0 in Hrb by done; by injection Hrb).
  set (rb' := longer (pb_tot_len tb) rb0 <| pb_next := t |>) in *. set (s' := with_pb r rb' s1) in *.
  assert (pb_mem s' !! r = Some rb') as Hr' by by apply lookup_insert_eq.
  assert (forall a, a ∉ l ++ [r] -> pb_mem s' !! a = pb_mem s !! a) as Hout.
  { intros a Ha. cbn. rewrite lookup_insert_ne by (by intros ->). by rewrite Hm, decide_False. }
  assert (forall a, a ∈ l -> pb_mem s' !! a = longer (pb_tot_len tb) <$> pb_mem s !! a) as Hin.
  { intros a Ha. cbn. rewrite lookup_insert_ne by (by intros ->). rewrite Hm, decide_True; [done|]. apply elem_of_app. by left. }
  assert (forall {A} (f : pbuf -> A) (Hf : forall b, f (longer (pb_tot_len tb) b) = f b) (Hr2 : f rb' = f rb0) a, a ∈ l ++ [r] -> f <$> pb_mem s' !! a = f <$> pb_mem s !! a) as Hsame.
  { intros A f Hf Hfr a [Ha| ->%list_elem_of_singleton]%elem_of_app.
    - rewrite Hin by done. destruct (pb_mem s !! a); cbn; [by rewrite Hf|done].
    - rewrite Hr', Hrb0. cbn. by rewrite Hfr. }
  assert (forall a, a ∈ lt -> pb_mem s' !! a = pb_mem s !! a) as Hlt' by (intros a Ha; apply Hout; intros Ha'; by apply (Hd a)).
  assert (total (pb_mem s') lt = total (pb_mem s) lt) as Etl by (apply total_same; intros a Ha; by rewrite Hlt').
  exists s'. split_and!; [exact E|constructor| |exact Hout].
  - apply seg_app in Hsh as (x & Hs1 & Hs2). pose proof Hs2 as [-> _]. rewrite <- app_assoc. apply seg_app. exists r. split.
    + eapply seg_same; [|exact Hs1]. intros a Ha. rewrite Hin by done. by destruct (pb_mem s !! a).
    + cbn [app seg]. split; [done|]. exists rb'. split; [done|]. cbn [rb']. eapply seg_same; [|exact Hst]. intros a Ha. by rewrite Hlt'.
  - apply list.NoDup_app. split_and!; [done|intros a Ha Ha'; by apply (Hd a)|done].
  - rewrite elem_of_app. naive_solver.
  - intros a [Ha|Ha]%elem_of_app; [|rewrite Hlt' by done; by apply Hwt].
    destruct (Hwh a Ha) as (b & Hb & Hwb). pose proof (Hsame _ (fun b => (pb_payload b, pb_len b, pb_data b)) ltac:(done) ltac:(done) a Ha) as Ef.
    rewrite Hb in Ef. destruct (pb_mem s' !! a) as [b'|]; [|done]. exists b'. split; [done|].
    cbn in Ef. unfold within. assert (pb_payload b' = pb_payload b /\ pb_len b' = pb_len b /\ pb_data b' = pb_data b) as (-> & -> & ->) by (split_and!; congruence). done.
  - apply (tot_ok_app (pb_mem s)); [|done|done| | |by rewrite Etl].
    + intros a Ha. rewrite Etl, <- Ett. split; [by apply Hsame|]. apply elem_of_app in Ha as [Ha| ->%list_elem_of_singleton].
      * rewrite Hin by done. by destruct (pb_mem s !! a).
      * by rewrite Hr', Hrb0.
    + eapply tot_ok_same; [|exact Htt]. intros a Ha. by rewrite Hlt'.
    + rewrite Etl. by apply total_nonneg.
  - unfold bytes. rewrite bind_app. f_equal; [apply bytes_contents|apply bytes_same; exact Hlt'].
    intros a Ha. by apply Hsame.
Qed.

(** [pbuf_dechain] *)
Lemma counts_unlink own L p b q :
  counts own L -> L !! p = Some b -> pb_next b = q -> q <> 0 ->
  counts (<[q := own q + 1]> own) (<[p := b <| pb_next := 0 |>]> L).
Proof.
  intros Hc Hb Hq Hq0. pose proof Hc as [H1 H2 H3]. set (b' := b <| pb_next := 0 |>).
  destruct (H2 p b Hb) as (_ & _ & Hs & _). rewrite Hq in Hs. destruct Hs as [|Hs]; [done|].
  assert (forall a c, L !! a = Some c -> pb_ref c = <[q := own q + 1]> own a + preds (<[p := b']> L) a) as Hcount.
  { intros a c Ha. pose proof (counts_nonnull own L a c Hc Ha) as Ha0. destruct (H2 a c Ha) as (E & _).
    pose proof (preds_insert L p b b' a Hb) as Ep. rewrite Hq, (decide_False (P := pb_next b' = a)) in Ep by (intros E0; apply Ha0; by rewrite <- E0).
    destruct (decide (q = a)) as [<-|]; [rewrite fn_lookup_insert; lia|rewrite fn_lookup_insert_ne by done; lia]. }
  constructor.
  - rewrite lookup_insert_ne; [done|by eapply counts_nonnull].
  - intros a c. destruct (decide (p = a)) as [<-|Ha].
    + rewrite lookup_insert_eq. intros [= <-]. destruct (H2 p b Hb) as (_ & ? & _ & ?).
      split_and!; [exact (Hcount p b Hb)|subst b'; cbn; lia|subst b'; cbn; lia|by left|done].
    + rewrite lookup_insert_ne by done. intros Hc'. destruct (H2 a c Hc') as (_ & ? & Hna & ?).
      split_and!; [by apply Hcount|lia|lia| |done]. destruct Hna as [|Hna]; [by left|right]. apply insert_is_Some. by left.
  - intros a. destruct (H3 a) as [? Hsa]. destruct (decide (q = a)) as [<-|].
    + rewrite fn_lookup_insert. split; [lia|]. intros _. apply insert_is_Some. by left.
    + rewrite fn_lookup_insert_ne by done. split; [done|]. intros. apply insert_is_Some. auto.
Qed.

(** A chain cut behind one of its buffers. *)
Lemma inv_unlink all own s p b q :
  pool_inv all own s -> live s !! p = Some b -> pb_next b = q -> q <> 0 ->
  pool_inv all (<[q := own q + 1]> own) (with_pb p (b <| pb_next := 0 |>) s).
Proof.
  intros [Hok Hac Hall] Hb Hq Hq0. pose proof Hb as [Hm Hp]%live_Some. set (b' := b <| pb_next := 0 |>).
  assert (pool_ok (<[q := own q + 1]> own) (with_pb p b' s)) as Hok'.
  { apply (with_pb_ok own _ s p b); [done..|]. apply counts_unlink; [apply Hok|done..]. }
  constructor; [done| |].
  - rewrite live_with_pb by done. intros a Ha.
    assert (forall x l y, p ∉ l -> seg (live s) x l y -> seg (<[p := b']> (live s)) x l y) as Hkeep.
    { intros x l y Hpl. apply seg_same. intros c Hc. rewrite lookup_insert_ne; [done|by intros ->]. }
    assert (seg (<[p := b']> (live s)) p [p] 0) as Hend by (split; [done|]; exists b'; by rewrite lookup_insert_eq).
    destruct (decide (a = p)) as [->|Hne]; [by exists [p]|]. rewrite lookup_insert_ne in Ha by done.
    destruct (Hac a Ha) as [la Hla]. destruct (decide (p ∈ la)) as [Hpa|Hpa]; [|exists la; by apply Hkeep].
    destruct (seg_from _ _ _ _ p Hla Hpa) as (l1 & l2 & -> & _).
    pose proof (seg_nodup _ _ _ (co_null _ _ (po_counts _ _ Hok)) Hla) as Hnd. apply list.NoDup_app in Hnd as (_ & Hnd & _).
    apply seg_app in Hla as (x & Hl1 & [-> _]). exists (l1 ++ [p]). apply seg_app. exists p. split; [|done].
    apply Hkeep; [|done]. intros Hp1. apply (Hnd p Hp1). by left.
  - cbn. rewrite dom_insert_L, Hall. apply subseteq_union_1_L, singleton_subseteq_l. rewrite <- Hall. by apply elem_of_dom.
Qed.

Lemma inv_with_pb all own s p b b' :
  pool_inv all own s -> pb_mem s !! p = Some b -> links b' = links b -> pool_inv all own (with_pb p b' s).
Proof.
  intros Hi Hb El. eapply inv_same_links; [exact Hi|]. split; [done|]. intros a. cbn.
  destruct (decide (p = a)) as [<-|]; [|by rewrite lookup_insert_ne].
  rewrite lookup_insert_eq, Hb. cbn. by rewrite El.
Qed.

Lemma next_other all own s p b : pool_inv all own s -> live s !! p = Some b -> pb_next b <> p.
Proof.
  intros [Hok Hac _] Hb E. pose proof (co_null _ _ (po_counts _ _ Hok)) as H0. destruct (Hac p) as [l Hs]; [by exists b|].
  destruct l as [|x l]; [cbn in Hs; by rewrite Hs, H0 in Hb|]. pose proof Hs as [<- (b2 & Hb2 & Hs2)].
  rewrite Hb in Hb2. injection Hb2 as <-. rewrite E in Hs2. pose proof (seg_det _ _ _ _ H0 Hs Hs2) as El.
  apply (f_equal length) in El. cbn in El. lia.
Qed.

Lemma inv_dechain all own s p b :
  pool_inv all own s -> live s !! p = Some b ->
  exists r s', pbuf_dechain p s = Done r s' /\ pool_inv all own s'.
Proof.
  intros Hi Hb. pose proof (next_other all own s p b Hi Hb) as Hqp. pose proof Hb as [Hm _]%live_Some.
  pose proof (pi_ok _ _ _ Hi) as Hok. unfold pbuf_dechain. rewrite (bind_Done _ _ _ _ _ (pb_get_run s p b Hm)).
  destruct (Z.eqb_spec (pb_next b) 0) as [|Hq0]; [by exists 0, s|]. set (q := pb_next b) in *.
  destruct (co_live _ _ (po_counts _ _ Hok) p b Hb) as (_ & _ & [|[qb Hqb]] & _); [done|].
  change (pb_next b) with q in Hqb. pose proof Hqb as [Hqm _]%live_Some.
  rewrite (bind_Done _ _ _ _ _ (pb_get_run s q qb Hqm)), (bind_Done _ _ _ _ _ (pb_set_run s q _)).
  set (qb' := qb <| pb_tot_len := _ |>). pose proof (inv_with_pb all own s q qb qb' Hi Hqm eq_refl) as Hi1.
  assert (pb_mem (with_pb q qb' s) !! p = Some b) as Hp1 by (cbn; by rewrite lookup_insert_ne).
  rewrite (bind_Done _ _ _ _ _ (pb_get_run _ p b Hp1)), (bind_Done _ _ _ _ _ (pb_set_run _ p _)).
  assert (live (with_pb q qb' s) !! p = Some b) as Hl1.
  { apply live_Some. split; [done|]. by eapply (live_pool_disjoint s). }
  pose proof (inv_unlink all own _ p b q Hi1 Hl1 eq_refl Hq0) as Hi2.
  set (b' := b <| pb_next := 0 |>) in *. set (s2 := with_pb p b' (with_pb q qb' s)) in *.
  set (b2 := b <| pb_next := 0 |> <| pb_tot_len := pb_len b |>).
  pose proof (inv_with_pb all _ s2 p b' b2 Hi2 (lookup_insert_eq _ _ _) eq_refl) as Hi3.
  assert (with_pb p b2 s2 = with_pb p b2 (with_pb q qb' s)) as E2 by (unfold s2, with_pb; cbn; by rewrite insert_insert_eq).
  rewrite E2 in Hi3. destruct (inv_free all _ _ q Hi3) as (n & s' & E & Hi4).
  { rewrite fn_lookup_insert. pose proof (co_own _ _ (po_counts _ _ Hok) q). lia. }
  eexists _, s'. split; [by rewrite (bind_Done _ _ _ _ _ E)|].
  destruct Hi4 as [H1 H2 H3]. constructor; [|done|done]. eapply pool_ok_ext; [|exact H1].
  intros a. rewrite fn_lookup_insert. destruct (decide (q = a)) as [<-|].
  - rewrite fn_lookup_insert. lia.
  - by rewrite !fn_lookup_insert_ne.
Qed.

(** A chain untouched. *)
Lemma chain_same s s' p l : (forall a, a ∈ l -> pb_mem s' !! a = pb_mem s !! a) -> chain s p l -> chain s' p l.
Proof.
  intros H [H1 H2 H3 H4 H5]. constructor; [|done|done| |].
  - eapply seg_same; [|exact H1]. intros a Ha. by rewrite H.
  - intros a Ha. rewrite H by done. by apply H4.
  - eapply tot_ok_same; [|exact H5]. intros a Ha. by rewrite H.
Qed.
