(* ===== verification/PbufShape.v ===== *)
(** * Cutting a packet and moving its payload

    [pbuf_realloc] cuts a packet behind a byte and gives the rest back; [pbuf_header]
    hides and reveals bytes at its front. *)
From Stdlib Require Import ZArith Lia.
From stdpp Require Import base tactics decidable list list_numbers numbers gmap functions relations.
From S2P Require Import Prelude Udp Net Pbuf PbufSpec PbufData PbufInv.
Open Scope Z_scope.
Open Scope c_scope.

(** ** [pbuf_free] looks at nothing but the chain *)

(** The run after [with_pb p b], of a run that does not touch [p]. *)
Definition beside (p : Z) (b : pbuf) {A} (o : outcome pbufs A) : outcome pbufs A :=
  match o with
  | Done a s => Done a (with_pb p b s)
  | Undefined f => Undefined f
  | Halted h s => Halted h (with_pb p b s)
  end.

Lemma with_pb_comm p b q c s : p <> q -> with_pb p b (with_pb q c s) = with_pb q c (with_pb p b s).
Proof. intros H. unfold with_pb. cbn. by rewrite (insert_insert_ne (pb_mem s) p q). Qed.

Lemma memp_free_beside t q p b s : memp_free t q (with_pb p b s) = beside p b (memp_free t q s).
Proof. unfold memp_free. by destruct (q =? 0). Qed.

Lemma pbuf_release_beside flags type q p b s :
  pbuf_release flags type q (with_pb p b s) = beside p b (pbuf_release flags type q s).
Proof.
  unfold pbuf_release. destruct (negb _); [done|]. destruct (type =? PBUF_POOL); [apply memp_free_beside|].
  destruct (_ || _); [apply memp_free_beside|done].
Qed.

Lemma pbuf_release_mem flags type q s s' : pbuf_release flags type q s = Done tt s' -> pb_mem s' = pb_mem s.
Proof.
  unfold pbuf_release, memp_free. destruct (Z.land flags PBUF_FLAG_IS_CUSTOM =? 0); cbn [negb]; [|by intros [= <-]].
  destruct (type =? PBUF_POOL); [destruct (q =? 0); by intros [= <-]|].
  destruct ((type =? PBUF_ROM) || (type =? PBUF_REF)); [destruct (q =? 0); by intros [= <-]|by intros [= <-]].
Qed.

Lemma free_beside fuel : forall q l s p b count,
  seg (pb_mem s) q l 0 -> p ∉ l ->
  pbuf_free_loop fuel q count (with_pb p b s) = beside p b (pbuf_free_loop fuel q count s).
Proof.
  induction fuel as [|fuel IH]; intros q l s p b count Hs Hp; cbn [pbuf_free_loop]; [by destruct (q =? 0)|].
  destruct (Z.eqb_spec q 0) as [|Hq]; [done|]. destruct l as [|a l]; [done|].
  destruct Hs as [-> (c & Hc & Hs)]. rewrite not_elem_of_cons in Hp. destruct Hp as [Hpa Hp].
  rewrite (bind_Done _ _ _ _ _ (pb_get_run s a c Hc)).
  rewrite (bind_Done _ _ _ c (with_pb p b s)) by (apply pb_get_run; cbn; by rewrite lookup_insert_ne).
  rewrite !(bind_Done _ _ _ _ _ (pb_set_run _ a _)). set (c' := c <| pb_ref := _ |>).
  destruct (u16 (pb_ref c - 1) =? 0); [|cbn; f_equal; by apply with_pb_comm].
  rewrite <- (with_pb_comm p b a c' s) by done.
  assert (forall o : outcome pbufs unit, (forall s1, o = Done tt s1 -> pb_mem s1 = pb_mem (with_pb a c' s)) ->
    match beside p b o with Done _ s' => pbuf_free_loop fuel (pb_next c) (u8 (count + 1)) s' | Undefined f => Undefined f | Halted h s' => Halted h s' end =
    beside p b (match o with Done _ s' => pbuf_free_loop fuel (pb_next c) (u8 (count + 1)) s' | Undefined f => Undefined f | Halted h s' => Halted h s' end)) as Hk.
  { intros [[] s1|f|h s1] H; cbn [beside]; [|done..]. apply (IH _ l); [|done].
    rewrite (H s1 eq_refl). cbn. eapply seg_same; [|exact Hs]. intros d Hd.
    destruct (decide (a = d)) as [<-|]; [by rewrite lookup_insert_eq, Hc|by rewrite lookup_insert_ne]. }
  unfold mbind, M_bind. rewrite pbuf_release_beside. apply Hk.
  intros s1. apply pbuf_release_mem.
Qed.

Lemma with_pb_same p b s : pb_mem s !! p = Some b -> with_pb p b s = s.
Proof. intros H. unfold with_pb. destruct s as [h t f c]. cbn in *. by rewrite (insert_id h p b). Qed.

Lemma with_pb_twice p b c s : with_pb p b (with_pb p c s) = with_pb p b s.
Proof. unfold with_pb. cbn. by rewrite (insert_insert_eq (pb_mem s) p). Qed.

(** A buffer in use that the chain does not meet keeps what it holds. *)
Lemma free_keeps fuel q l s p n s' :
  seg (pb_mem s) q l 0 -> p ∉ l -> is_Some (pb_mem s !! p) ->
  pbuf_free_loop fuel q 0 s = Done n s' -> pb_mem s' !! p = pb_mem s !! p.
Proof.
  intros Hs Hp [b Hb] E. pose proof (free_beside fuel q l s p b 0 Hs Hp) as Eb.
  rewrite (with_pb_same p b s Hb), E in Eb. injection Eb as Eb. rewrite Eb, Hb. apply lookup_insert_eq.
Qed.

(** ** [pbuf_realloc] *)
Lemma realloc_loop_ok fuel : forall l q rem grow s,
  seg (pb_mem s) q l 0 -> NoDup l -> all_within (pb_mem s) l -> 0 <= rem < 2 ^ 16 ->
  rem < total (pb_mem s) l -> (length l <= fuel)%nat ->
  exists l1 r l2 s', pbuf_realloc_loop fuel q rem grow s = Done (r, rem - total (pb_mem s) l1) s' /\
    l = l1 ++ r :: l2 /\ (exists b, pb_mem s !! r = Some b /\ 0 <= rem - total (pb_mem s) l1 <= pb_len b) /\
    memp_tab s' = memp_tab s /\
    forall a, pb_mem s' !! a = if decide (a ∈ l1) then longer (u16 grow) <$> pb_mem s !! a else pb_mem s !! a.
Proof.
  induction fuel as [|fuel IH]; intros l q rem grow s Hs Hnd Hw Hr Ht Hf.
  { destruct l; [cbn in Ht; lia|cbn in Hf; lia]. }
  destruct l as [|a l]; [cbn in Ht; lia|]. destruct Hs as [-> (b & Hb & Hs)].
  apply list.NoDup_cons in Hnd as [Ha Hnd].
  destruct (Hw a) as (b0 & Hb0 & (_ & Hlen & _)); [by left|]. rewrite Hb in Hb0. injection Hb0 as <-.
  change (total (pb_mem s) (a :: l)) with (from_option pb_len 0 (pb_mem s !! a) + total (pb_mem s) l) in Ht.
  rewrite Hb in Ht. cbn [from_option] in Ht. cbn [pbuf_realloc_loop]. rewrite (bind_Done _ _ _ _ _ (pb_get_run s a b Hb)).
  rewrite Z.gtb_ltb. destruct (Z.ltb_spec (pb_len b) rem) as [Hlt|Hge].
  - rewrite (bind_Done _ _ _ _ _ (pb_set_run s a _)).
    assert (u16 (rem - pb_len b) = rem - pb_len b) as -> by (unfold u16; apply Z.mod_small; lia).
    set (s1 := with_pb a _ s).
    assert (forall c, c ∈ l -> pb_mem s1 !! c = pb_mem s !! c) as Hsame.
    { intros c Hc. cbn. rewrite lookup_insert_ne; [done|by intros ->]. }
    assert (forall k, (forall c, c ∈ k -> c ∈ l) -> total (pb_mem s1) k = total (pb_mem s) k) as Htot.
    { intros k Hk. apply total_same. intros c Hc. rewrite Hsame; auto. }
    destruct (IH l (pb_next b) (rem - pb_len b) grow s1) as (l1 & r & l2 & s' & E & -> & (rb & Hrb & Hrem) & Htab & Hm).
    + eapply seg_same; [|exact Hs]. intros c Hc. by rewrite Hsame.
    + done.
    + intros c Hc. rewrite Hsame by done. apply Hw. by right.
    + lia.
    + rewrite Htot by done. lia.
    + cbn in Hf. lia.
    + rewrite Htot in E, Hrem by (intros; apply elem_of_app; by left).
      rewrite Hsame in Hrb by (apply elem_of_app; right; by left).
      assert (rem - total (pb_mem s) (a :: l1) = rem - pb_len b - total (pb_mem s) l1) as Er.
      { change (total (pb_mem s) (a :: l1)) with (from_option pb_len 0 (pb_mem s !! a) + total (pb_mem s) l1). rewrite Hb. cbn. lia. }
      exists (a :: l1), r, l2, s'. rewrite Er. split_and!; [exact E|done|by exists rb|exact Htab|].
      intros c. rewrite Hm. destruct (decide (c = a)) as [->|Hc].
      * rewrite decide_False, decide_True by (first [by left|intros H; apply Ha, elem_of_app; by left]).
        cbn. by rewrite lookup_insert_eq, Hb.
      * assert (pb_mem s1 !! c = pb_mem s !! c) as -> by (cbn; by rewrite lookup_insert_ne).
        destruct (decide (c ∈ l1)); [by rewrite decide_True by by right|].
        by rewrite decide_False by (rewrite elem_of_cons; naive_solver).
  - exists [], a, l, s. change (total (pb_mem s) []) with 0. rewrite Z.sub_0_r. split_and!; [done|done|exists b; split; [done|lia]|done|].
    intros c. by rewrite decide_False by apply not_elem_of_nil.
Qed.

(** The total lengths of what is left of a chain. *)
Lemma tot_ok_cut h h' r l2 g : forall l1,
  (forall a, a ∈ l1 -> h' !! a = longer (u16 g) <$> h !! a) -> all_within h l1 ->
  tot_ok h (l1 ++ r :: l2) -> total h' [r] = total h (r :: l2) + g -> pb_tot_len <$> h' !! r = Some (total h' [r]) ->
  0 <= total h' [r] -> total h (l1 ++ r :: l2) + g < 2 ^ 16 -> tot_ok h' (l1 ++ [r]).
Proof.
  induction l1 as [|a l1 IH]; intros Hl Hw Hok Ht Er Hn Hlt; [by split|]. cbn [app] in *.
  destruct Hok as [Ha Hok]. assert (all_within h l1) as Hw1 by (intros c Hc; apply Hw; by right).
  pose proof (total_nonneg h l1 Hw1). destruct (Hw a) as (b & Hb & (_ & Hlen & _)); [by left|].
  assert (total h' (a :: l1 ++ [r]) = total h (a :: l1 ++ r :: l2) + g) as Et.
  { change (a :: l1 ++ [r]) with ((a :: l1) ++ [r]). change (a :: l1 ++ r :: l2) with ((a :: l1) ++ r :: l2).
    rewrite !total_app, Ht. rewrite (total_same h h' (a :: l1)); [lia|]. intros c Hc. rewrite Hl by done. by destruct (h !! c). }
  assert (total h (a :: l1 ++ r :: l2) = pb_len b + total h (l1 ++ r :: l2)) as Ea.
  { change (total h (a :: l1 ++ r :: l2)) with (from_option pb_len 0 (h !! a) + total h (l1 ++ r :: l2)). by rewrite Hb. }
  assert (0 <= total h (l1 ++ r :: l2) + g) as Hg by (rewrite total_app; lia).
  split.
  - rewrite Hl by by left. rewrite Hb in Ha |- *. cbn [fmap option_fmap option_map] in Ha |- *. injection Ha as Ha. f_equal. rewrite Et. change (pb_tot_len (longer (u16 g) b)) with (u16 (pb_tot_len b + u16 g)).
    unfold u16. rewrite Zplus_mod_idemp_r, Ha. apply Z.mod_small. lia.
  - apply IH; [intros; apply Hl; by right|done..|lia].
Qed.

Lemma pool_type all own s a b : pool_inv all own s -> live s !! a = Some b -> pb_type b = PBUF_POOL.
Proof. intros Hi Hb. by apply (co_live _ _ (po_counts _ _ (pi_ok _ _ _ Hi)) a b Hb). Qed.

(** The chain that starts at a buffer in use is in use. *)
Lemma chain_live all own s p l :
  pool_inv all own s -> chain s p l -> is_Some (live s !! p) -> seg (live s) p l 0.
Proof.
  intros [Hok Hac _] [Hs _ _ _ _] [b Hb]. destruct (Hac p) as [l' Hl']; [by exists b|].
  pose proof (live_seg s p l' 0 Hl') as [Hm _]. by rewrite (seg_det _ _ _ _ (po_null _ _ Hok) Hs Hm).
Qed.

Lemma seg_live_at s p l q a : seg (live s) p l q -> a ∈ l -> exists b, live s !! a = Some b /\ pb_mem s !! a = Some b.
Proof. intros Hs Ha. destruct (seg_elem _ _ _ _ a Hs Ha) as [b Hb]. exists b. split; [done|]. by apply live_Some in Hb as [? _]. Qed.

(** The rest of a cut chain is given back: the state [s2] still has the link. *)
Lemma realloc_free all own s2 r b b0 q l2 :
  pool_inv all (<[q := own q + 1]> own) (with_pb r b0 s2) -> pb_mem s2 !! r = Some b -> q <> 0 -> own q + 1 > 0 ->
  seg (pb_mem s2) q l2 0 -> r ∉ l2 ->
  exists n s4, pbuf_free q s2 = Done n (with_pb r b s4) /\ pool_inv all own s4 /\
    pbuf_free q (with_pb r b0 s2) = Done n s4 /\
    (forall a, a ∉ l2 -> pb_mem s4 !! a = pb_mem (with_pb r b0 s2) !! a) /\
    ((forall a, a ∈ l2 -> exists c, live (with_pb r b0 s2) !! a = Some c /\ pb_ref c = 1) -> pool s4 = rev l2 ++ pool s2).
Proof.
  intros Hi Hb Hq Hown Hs Hr. set (s3 := with_pb r b0 s2) in *.
  assert (seg (pb_mem s3) q l2 0) as Hs3.
  { eapply seg_same; [|exact Hs]. intros a Ha. cbn. rewrite lookup_insert_ne; [done|by intros ->]. }
  destruct (inv_free all _ s3 q Hi) as (n & s4 & E & Hi4); [rewrite fn_lookup_insert; lia|].
  exists n, s4. split_and!; [|destruct Hi4 as [H1 H2 H3]; constructor; [|done|done]|exact E| |].
  - unfold pbuf_free, walk_fuel in E |- *. rewrite (proj2 (Z.eqb_neq q 0)) in E |- * by done. rewrite bind_gets in E |- *.
    assert (size (pb_mem s3) = size (pb_mem s2)) as Esz by (cbn; rewrite map_size_insert_Some; [done|by rewrite Hb]).
    rewrite Esz in E. rewrite <- (with_pb_same r b s2 Hb), <- (with_pb_twice r b b0 s2).
    assert (with_pb r b (with_pb r b0 s2) = s2) as Es by (by rewrite with_pb_twice, with_pb_same).
    rewrite Es at 1. fold s3. by rewrite (free_beside _ q l2 s3 r b 0 Hs3 Hr), E.
  - eapply pool_ok_ext; [|exact H1]. intros a. rewrite fn_lookup_insert. destruct (decide (q = a)) as [<-|].
    + rewrite fn_lookup_insert. lia.
    + by rewrite !fn_lookup_insert_ne.
  - intros a Ha. unfold pbuf_free, walk_fuel in E. rewrite (proj2 (Z.eqb_neq q 0)), bind_gets in E by done.
    destruct (pb_mem s3 !! a) as [c|] eqn:Ec; [by rewrite <- Ec; apply (free_keeps _ q l2 s3 a n s4 Hs3 Ha ltac:(by exists c) E)|].
    destruct (pb_mem s4 !! a) as [c|] eqn:E4; [|done].
    assert (a ∈ dom (pb_mem s3)) as Hd by (rewrite (pi_all _ _ _ Hi), <- (pi_all _ _ _ Hi4); by apply elem_of_dom_2 in E4).
    apply elem_of_dom in Hd as [? Hd]. by rewrite Ec in Hd.
  - intros Hl. pose proof (po_null _ _ (pi_ok _ _ _ Hi)) as H0.
    destruct (free_exact (S (size (pb_mem s3))) _ s3 q l2 0 0 (pi_ok _ _ _ Hi) Hs3) as (s5 & E5 & Hp & _);
      [by eapply seg_nodup|done|done|right; rewrite fn_lookup_insert; lia|pose proof (seg_size _ _ _ H0 Hs3); lia|].
    unfold pbuf_free, walk_fuel in E. rewrite (proj2 (Z.eqb_neq q 0)), bind_gets, E5 in E by done. injection E as _ <-.
    exact Hp.
Qed.

Lemma realloc_chain s s' p l1 r l2 rb n :
  chain s p (l1 ++ r :: l2) -> pb_mem s !! r = Some rb -> 0 <= n < 2 ^ 16 ->
  0 <= n - total (pb_mem s) l1 <= pb_len rb ->
  (forall a, a ∈ l1 -> pb_mem s' !! a = longer (u16 (n - total (pb_mem s) (l1 ++ r :: l2))) <$> pb_mem s !! a) ->
  pb_mem s' !! r = Some (rb <| pb_len := n - total (pb_mem s) l1 |> <| pb_tot_len := n - total (pb_mem s) l1 |> <| pb_next := 0 |>) ->
  chain s' p (l1 ++ [r]) /\ bytes (pb_mem s') (l1 ++ [r]) = take (Z.to_nat n) (bytes (pb_mem s) (l1 ++ r :: l2)).
Proof.
  intros [Hs Hnd H0 Hw Ht] Hrb Hn Hrem Hl Hr. set (rem := n - total (pb_mem s) l1) in *.
  set (rb' := rb <| pb_len := rem |> <| pb_tot_len := rem |> <| pb_next := 0 |>) in *.
  assert (all_within (pb_mem s) l1) as Hw1 by (intros a Ha; apply Hw, elem_of_app; by left).
  destruct (Hw r) as (rb1 & Hrb1 & Hwr); [apply elem_of_app; right; by left|].
  rewrite Hrb in Hrb1. injection Hrb1 as <-. pose proof Hwr as (Hr1 & Hr2 & Hr3).
  assert (total (pb_mem s') [r] = rem) as Er by (cbn [total foldr]; rewrite Hr; cbn; lia).
  assert (total (pb_mem s) (r :: l2) = pb_len rb + total (pb_mem s) l2) as Erl.
  { change (total (pb_mem s) (r :: l2)) with (from_option pb_len 0 (pb_mem s !! r) + total (pb_mem s) l2). by rewrite Hrb. }
  pose proof (total_app (pb_mem s) l1 (r :: l2)) as Eall. split; [constructor|].
  - apply seg_app in Hs as (x & Hs1 & [-> _]). apply seg_app. exists r. split; [|split; [done|by exists rb']].
    eapply seg_same; [|exact Hs1]. intros a Ha. rewrite Hl by done. by destruct (pb_mem s !! a).
  - replace (l1 ++ r :: l2) with ((l1 ++ [r]) ++ l2) in Hnd by by rewrite <- app_assoc. by apply list.NoDup_app in Hnd as [? _].
  - rewrite elem_of_app, list_elem_of_singleton. intros [H| <-]; apply H0, elem_of_app; [by left|right; by left].
  - intros a [Ha| ->%list_elem_of_singleton]%elem_of_app; [|exists rb'; split; [done|unfold within; cbn; lia]].
    destruct (Hw1 a Ha) as (b & Hb & Hwb). exists (longer (u16 (n - total (pb_mem s) (l1 ++ r :: l2))) b). split; [|exact Hwb].
    by rewrite Hl, Hb.
  - apply (tot_ok_cut (pb_mem s) _ r l2 (n - total (pb_mem s) (l1 ++ r :: l2))); [done..| | | |]; rewrite ?Er; try lia. by rewrite Hr.
  - unfold bytes. rewrite !bind_app. fold (bytes (pb_mem s') l1) (bytes (pb_mem s) l1) (bytes (pb_mem s') [r]) (bytes (pb_mem s) (r :: l2)).
    pose proof (bytes_length _ _ Hw1) as Hlen.
    rewrite (bytes_contents (pb_mem s)) by (intros a Ha; rewrite Hl by done; by destruct (pb_mem s !! a)).
    rewrite take_app, (take_ge (bytes (pb_mem s) l1)) by lia. f_equal.
    rewrite !bytes_cons, Hr, Hrb. cbn [from_option]. change (bytes (pb_mem s') []) with (@nil Z). rewrite app_nil_r.
    pose proof (contents_length rb Hwr) as Hc. rewrite take_app_le by lia.
    unfold contents. cbn. rewrite take_take. f_equal. lia.
Qed.

(** What [pbuf_realloc] does before it gives the rest back. *)
Lemma realloc_before all own s p l n :
  pool_inv all own s -> chain s p l -> is_Some (live s !! p) -> 0 <= n < total (pb_mem s) l -> n < 2 ^ 16 ->
  exists l1 r l2 rb s1, l = l1 ++ r :: l2 /\ pb_mem s !! r = Some rb /\ live s1 !! r = Some rb /\
    0 <= n - total (pb_mem s) l1 <= pb_len rb /\ same_links s s1 /\
    (forall a, pb_mem s1 !! a = if decide (a ∈ l1) then longer (u16 (n - total (pb_mem s) l)) <$> pb_mem s !! a else pb_mem s !! a) /\
    let b := rb <| pb_len := n - total (pb_mem s) l1 |> <| pb_tot_len := n - total (pb_mem s) l1 |> in
    pbuf_realloc p n s =
      ((if negb (pb_next rb =? 0) then _ ← pbuf_free (pb_next rb); skip else skip) ;;
       b ← pb_get r; pb_set r (b <| pb_next := 0 |>)) (with_pb r b s1).
Proof.
  intros Hi Hch Hp Hn Hn2. pose proof (chain_live all own s p l Hi Hch Hp) as Hsl. pose proof Hch as [Hs Hnd H0 Hw _].
  assert (p <> 0) as Hp0 by (intros ->; destruct Hp as [? Hp]; by rewrite (co_null _ _ (po_counts _ _ (pi_ok _ _ _ Hi))) in Hp).
  destruct (chain_first s p l Hch Hp0) as (pb & l' & Hpb & El & Etot).
  destruct (realloc_loop_ok (S (size (pb_mem s))) l p n (n - total (pb_mem s) l) s) as (l1 & r & l2 & s1 & E & -> & (rb & Hrb & Hrem) & Htab & Hm);
    [done|done|done|lia|lia|pose proof (seg_size _ _ _ (po_null _ _ (pi_ok _ _ _ Hi)) Hs); lia|].
  assert (same_links s s1) as Hl.
  { split; [done|]. intros a. rewrite Hm. case_decide; [|done]. by destruct (pb_mem s !! a). }
  assert (pb_mem s1 !! r = Some rb) as Hrb1.
  { rewrite Hm, decide_False; [done|]. intros Hr. apply list.NoDup_app in Hnd as (_ & Hd & _). apply (Hd r Hr). by left. }
  destruct (seg_live_at s p _ 0 r Hsl) as (rb0 & Hlr & Hlr'); [apply elem_of_app; right; by left|].
  rewrite Hrb in Hlr'. injection Hlr' as <-.
  exists l1, r, l2, rb, s1. split_and!; [done|done| |lia|lia|done|done|].
  { apply live_Some. split; [done|]. apply live_pool_disjoint in Hlr. unfold pool in *. by rewrite Htab. }
  cbn zeta. unfold pbuf_realloc. rewrite (bind_Done _ _ _ _ _ (pb_get_run s p pb Hpb)), Etot.
  rewrite (proj2 (Z.leb_gt _ _)) by lia. unfold walk_fuel. rewrite bind_gets, (bind_Done _ _ _ _ _ E).
  rewrite (bind_Done _ _ _ _ _ (pb_get_run s1 r rb Hrb1)), (pool_type all own s r rb Hi Hlr). cbn [Z.eqb PBUF_POOL PBUF_RAM andb].
  rewrite (bind_Done (skip : MP unit) _ _ tt s1) by done.
  rewrite (bind_Done _ _ _ _ _ (pb_get_run s1 r rb Hrb1)), (bind_Done _ _ _ _ _ (pb_set_run s1 r _)). done.
Qed.

(** What it does after that: the new last buffer still has the link. *)
Lemma realloc_end all own s r rb b l2 :
  pool_inv all own s -> live s !! r = Some rb -> links b = links rb -> seg (pb_mem s) (pb_next rb) l2 0 -> r ∉ l2 ->
  exists s', ((if negb (pb_next rb =? 0) then _ ← pbuf_free (pb_next rb); skip else skip) ;;
      b ← pb_get r; pb_set r (b <| pb_next := 0 |>)) (with_pb r b s) = Done tt s' /\ pool_inv all own s' /\
    (forall a, a ∉ l2 -> pb_mem s' !! a = pb_mem (with_pb r (b <| pb_next := 0 |>) s) !! a) /\
    ((forall a, a ∈ l2 -> exists c, live s !! a = Some c /\ pb_ref c = 1) -> pool s' = rev l2 ++ pool s).
Proof.
  intros Hi Hlr Eb Hs Hr. pose proof Hlr as [Hrb Hrp]%live_Some. set (b0 := b <| pb_next := 0 |>).
  pose proof (inv_with_pb all own s r rb b Hi Hrb Eb) as Hi2.
  assert (live (with_pb r b s) !! r = Some b) as Hlb by (apply live_Some; split; [apply lookup_insert_eq|exact Hrp]).
  assert (pb_next b = pb_next rb) as Enb by (unfold links in Eb; by injection Eb).
  assert (seg (pb_mem (with_pb r b s)) (pb_next rb) l2 0) as Hs2.
  { eapply seg_same; [|exact Hs]. intros a Ha. cbn. rewrite lookup_insert_ne; [done|by intros ->]. }
  destruct (Z.eqb_spec (pb_next rb) 0) as [En|En]; cbn [negb].
  - exists (with_pb r b0 s). split_and!; [|eapply inv_with_pb; [exact Hi|exact Hrb|]|done|].
    + rewrite (bind_Done (skip : MP unit) _ _ tt (with_pb r b s)) by done.
      rewrite (bind_Done _ _ _ _ _ (pb_get_run _ r b (lookup_insert_eq _ _ _))), pb_set_run. by rewrite with_pb_twice.
    + unfold links in *. cbn in Eb |- *. rewrite En in *. congruence.
    + intros _. destruct l2 as [|x l2]; [done|]. destruct Hs2 as [Ex (c & Hc & _)]. rewrite En in Ex. subst x.
      by rewrite (po_null _ _ (pi_ok _ _ _ Hi2)) in Hc.
  - pose proof (inv_unlink all own _ r b (pb_next rb) Hi2 Hlb Enb En) as Hi3. fold b0 in Hi3.
    pose proof (co_own _ _ (po_counts _ _ (pi_ok _ _ _ Hi)) (pb_next rb)) as [Ho _].
    destruct (realloc_free all own (with_pb r b s) r b b0 (pb_next rb) l2 Hi3 (lookup_insert_eq _ _ _) En ltac:(lia) Hs2 Hr)
      as (k & s4 & E4 & Hi4 & _ & Hm4 & Hp4).
    rewrite with_pb_twice in Hm4, Hp4. exists s4. split_and!; [|exact Hi4|exact Hm4|].
    + rewrite (bind_Done _ _ _ tt (with_pb r b s4)) by (by rewrite (bind_Done _ _ _ _ _ E4)).
      rewrite (bind_Done _ _ _ _ _ (pb_get_run _ r b (lookup_insert_eq _ _ _))), pb_set_run. fold b0.
      rewrite with_pb_twice, with_pb_same; [done|]. rewrite Hm4 by done. apply lookup_insert_eq.
    + intros Hl2. apply Hp4. intros a Ha. destruct (Hl2 a Ha) as (c & Hc & Href). exists c. split; [|done].
      rewrite live_with_pb by done. by rewrite lookup_insert_ne by (by intros ->).
Qed.

(** The first buffer of a cut packet. *)
Definition cut_first (n : Z) (b b' : pbuf) : Prop :=
  pb_payload b' = pb_payload b /\ pb_data b' = pb_data b /\ pb_len b' = Z.min n (pb_len b).

Lemma first_len s p l b : chain s p l -> pb_mem s !! p = Some b -> p <> 0 -> pb_len b <= total (pb_mem s) l.
Proof.
  intros Hch Hb Hp. destruct (chain_first s p l Hch Hp) as (b' & l' & Hb' & -> & _).
  change (total (pb_mem s) (p :: l')) with (from_option pb_len 0 (pb_mem s !! p) + total (pb_mem s) l'). rewrite Hb. cbn.
  assert (0 <= total (pb_mem s) l'); [|lia]. apply total_nonneg. intros a Ha. apply (ch_within _ _ _ Hch). by right.
Qed.

Lemma realloc_ok all own s p l n :
  pool_inv all own s -> chain s p l -> is_Some (live s !! p) -> 0 <= n < 2 ^ 16 ->
  exists s' l1 l2, pbuf_realloc p n s = Done tt s' /\ pool_inv all own s' /\ l = l1 ++ l2 /\ chain s' p l1 /\
    bytes (pb_mem s') l1 = take (Z.to_nat n) (bytes (pb_mem s) l) /\
    (forall a, a ∉ l -> pb_mem s' !! a = pb_mem s !! a) /\
    ((forall a b, a ∈ l -> pb_mem s !! a = Some b -> pb_ref b = 1) -> pool s' = rev l2 ++ pool s) /\
    (forall b, pb_mem s !! p = Some b -> exists b', pb_mem s' !! p = Some b' /\ cut_first n b b').
Proof.
  intros Hi Hch Hp Hn. destruct (decide (total (pb_mem s) l <= n)) as [Hle|Hgt].
  { exists s, l, []. assert (p <> 0) as Hp0 by (intros ->; destruct Hp as [? Hp]; by rewrite (co_null _ _ (po_counts _ _ (pi_ok _ _ _ Hi))) in Hp).
    destruct (chain_first s p l Hch Hp0) as (pb & l' & Hpb & _ & Etot). split_and!; [|done|by rewrite app_nil_r|done| |done|done|].
    - unfold pbuf_realloc. rewrite (bind_Done _ _ _ _ _ (pb_get_run s p pb Hpb)), Etot. by rewrite (proj2 (Z.leb_le _ _)).
    - rewrite take_ge; [done|]. pose proof (bytes_length _ _ (ch_within _ _ _ Hch)). lia.
    - intros b Hb. exists b. split; [done|]. pose proof (first_len s p l b Hch Hb Hp0). unfold cut_first. split_and!; [done..|lia]. }
  destruct (realloc_before all own s p l n Hi Hch Hp ltac:(lia) ltac:(lia)) as (l1 & r & l2 & rb & s1 & -> & Hrb & Hlr & Hrem & Hl & Hm & E).
  cbn zeta in E. set (b := rb <| pb_len := _ |> <| pb_tot_len := _ |>) in *. pose proof Hch as [Hs Hnd _ _ _].
  assert (r ∉ l1 /\ r ∉ l2 /\ forall a, a ∈ l2 -> a ∉ l1) as (Hr1 & Hr2 & Hd).
  { apply list.NoDup_app in Hnd as (_ & Hd & Hnd). apply list.NoDup_cons in Hnd as [? _]. split; [|split; [done|]].
    - intros Hin. apply (Hd r Hin). by left.
    - intros a Ha Ha1. apply (Hd a Ha1). by right. }
  assert (seg (pb_mem s1) (pb_next rb) l2 0) as Hs2.
  { apply seg_app in Hs as (x & _ & [-> (rb2 & Hrb2 & Hs)]). rewrite Hrb in Hrb2. injection Hrb2 as <-.
    eapply seg_same; [|exact Hs]. intros a Ha. by rewrite Hm, decide_False by auto. }
  destruct (realloc_end all own s1 r rb b l2 (inv_same_links all own s s1 Hi Hl) Hlr eq_refl Hs2 Hr2) as (s' & E' & Hi' & Hm' & Hpool).
  rewrite <- E in E'.
  assert (forall a, a ∈ l1 -> pb_mem s' !! a = longer (u16 (n - total (pb_mem s) (l1 ++ r :: l2))) <$> pb_mem s !! a) as Hl1.
  { intros a Ha. rewrite Hm' by (intros Ha2; by apply (Hd a)). cbn. rewrite lookup_insert_ne by (by intros ->). by rewrite Hm, decide_True. }
  assert (pb_mem s' !! r = Some (b <| pb_next := 0 |>)) as Hr' by (rewrite Hm' by done; apply lookup_insert_eq).
  destruct (realloc_chain s s' p l1 r l2 rb n Hch Hrb Hn Hrem Hl1 Hr') as [Hch' Hb'].
  assert (pool s1 = pool s) as Ep by (unfold pool; by rewrite (proj1 Hl)).
  exists s', (l1 ++ [r]), l2. split_and!; [done|done|by rewrite <- app_assoc|done|done| | |].
  - intros a. rewrite elem_of_app, elem_of_cons. intros Ha. rewrite Hm' by naive_solver. cbn. rewrite lookup_insert_ne by naive_solver.
    rewrite Hm, decide_False by naive_solver. done.
  - intros Href. rewrite Hpool, Ep; [done|]. intros a Ha. assert (a ∈ l1 ++ r :: l2) as Hal by (apply elem_of_app; right; by right).
    destruct (seg_live_at s p _ 0 a (chain_live all own s p _ Hi Hch Hp) Hal) as (c & Hcl & Hc).
    exists c. split; [|by apply (Href a)]. rewrite live_lookup, Ep, decide_False by by eapply live_pool_disjoint.
    by rewrite Hm, decide_False by auto.
  - intros c Hc. destruct l1 as [|x l1].
    + destruct Hs as [-> _]. rewrite Hrb in Hc. injection Hc as <-. exists (b <| pb_next := 0 |>). split; [exact Hr'|].
      assert (n - total (pb_mem s) [] = n) as En by (change (total (pb_mem s) []) with 0; lia). rewrite En in Hrem.
      split_and!; [done|done|]. change (n - total (pb_mem s) [] = Z.min n (pb_len rb)). lia.
    + destruct Hs as [<- _]. exists (longer (u16 (n - total (pb_mem s) ((p :: l1) ++ r :: l2))) c).
      split; [by rewrite Hl1, Hc by by left|]. unfold cut_first. split_and!; [done..|].
      change (total (pb_mem s) (p :: l1)) with (from_option pb_len 0 (pb_mem s !! p) + total (pb_mem s) l1) in Hrem. rewrite Hc in Hrem.
      assert (0 <= total (pb_mem s) l1); [|cbn in Hrem |- *; lia]. apply total_nonneg. intros a Ha. apply (ch_within _ _ _ Hch).
      right. apply elem_of_app. by left.
Qed.

(** ** [pbuf_header] *)

(** Whether the payload of [b] can move by [inc]. *)
Definition movable (inc : Z) (b : pbuf) : bool := bool_decide (0 <= pb_payload b - inc /\ 0 <= pb_len b + inc).

Lemma header_run s p b inc :
  pb_mem s !! p = Some b -> p <> 0 -> pb_type b = PBUF_POOL -> within b ->
  pbuf_header p inc s =
    if inc =? 0 then Done 0 s
    else if movable inc b then Done 0 (with_pb p (move_payload inc b) s) else Done 1 s.
Proof.
  intros Hb Hp Ht (H1 & H2 & H3). unfold pbuf_header. rewrite (proj2 (Z.eqb_neq p 0)), orb_false_r by done.
  destruct (Z.eqb_spec inc 0) as [|Hi]; [done|]. rewrite (bind_Done _ _ _ _ _ (pb_get_run s p b Hb)), Ht.
  cbn [orb Z.eqb PBUF_POOL PBUF_RAM Pos.eqb]. unfold movable. rewrite (bool_decide_decide (0 <= _ /\ _)).
  destruct (Z.ltb_spec inc 0), (Z.ltb_spec (pb_len b) (- inc)), (Z.ltb_spec (pb_payload b - inc) 0); cbn [andb];
    case_decide; try lia; rewrite ?(bind_Done _ _ _ _ _ (pb_set_run s p _)); done.
Qed.

Lemma inv_header all own s p l inc :
  pool_inv all own s -> chain s p l -> is_Some (live s !! p) ->
  exists r s', pbuf_header p inc s = Done r s' /\ pool_inv all own s'.
Proof.
  intros Hi Hch [b Hb]. pose proof Hb as [Hm _]%live_Some. pose proof (live_nonnull own s p b (pi_ok _ _ _ Hi) Hb) as Hp.
  destruct (chain_first s p l Hch Hp) as (b2 & l' & _ & -> & _).
  destruct (ch_within _ _ _ Hch p) as (b1 & Hb1 & Hw); [by left|]. rewrite Hm in Hb1. injection Hb1 as <-.
  rewrite (header_run s p b inc Hm Hp (pool_type all own s p b Hi Hb) Hw).
  destruct (inc =? 0); [by exists 0, s|]. destruct (movable inc b); [|by exists 1, s].
  exists 0, (with_pb p (move_payload inc b) s). split; [done|]. by eapply inv_with_pb.
Qed.

Lemma revealed b n : 0 <= pb_len b < 2 ^ 16 -> 0 <= pb_tot_len b < 2 ^ 16 -> b = move_payload n (move_payload (- n) b).
Proof.
  intros H1 H2. destruct b as [nx pl tot len ty fl rf d]. cbn [pb_len pb_tot_len] in *.
  change (Pbuf nx pl tot len ty fl rf d = Pbuf nx (pl - - n - n) (u16 (u16 (tot + - n) + n)) (u16 (u16 (len + - n) + n)) ty fl rf d).
  assert (forall z, 0 <= z < 2 ^ 16 -> u16 (u16 (z + - n) + n) = z) as Hz.
  { intros z Hz. unfold u16. rewrite Zplus_mod_idemp_l. rewrite Z.mod_small; lia. }
  rewrite !Hz by done. f_equal. lia.
Qed.

(** A first buffer that starts [n] bytes later. *)
Lemma hidden_chain s p l b n :
  chain s p (p :: l) -> pb_mem s !! p = Some b -> 0 <= n <= pb_len b -> pb_tot_len b < 2 ^ 16 ->
  let s' := with_pb p (move_payload (- n) b) s in
  chain s' p (p :: l) /\ bytes (pb_mem s') (p :: l) = drop (Z.to_nat n) (bytes (pb_mem s) (p :: l)) /\ within (move_payload (- n) b).
Proof.
  intros [Hs Hnd H0 Hw Ht] Hb Hn Hlt s'. destruct Hs as [_ (b1 & Hb1 & Hs)]. rewrite Hb in Hb1. injection Hb1 as <-.
  apply list.NoDup_cons in Hnd as Hnd'. destruct Hnd' as [Hp _].
  destruct (Hw p) as (b1 & Hb1 & Hwb); [by left|]. rewrite Hb in Hb1. injection Hb1 as <-. pose proof Hwb as (H1 & H2 & H3).
  destruct Ht as [Ht Htl]. rewrite Hb in Ht. injection Ht as Ht.
  assert (forall a, a ∈ l -> pb_mem s' !! a = pb_mem s !! a) as Hsame by (intros a Ha; cbn; rewrite lookup_insert_ne; [done|by intros ->]).
  assert (pb_mem s' !! p = Some (move_payload (- n) b)) as Hp' by apply lookup_insert_eq.
  assert (total (pb_mem s) (p :: l) = pb_len b + total (pb_mem s) l) as Et.
  { change (total (pb_mem s) (p :: l)) with (from_option pb_len 0 (pb_mem s !! p) + total (pb_mem s) l). by rewrite Hb. }
  assert (0 <= total (pb_mem s) l) as Hnn by (apply total_nonneg; intros a Ha; apply Hw; by right).
  assert (pb_len (move_payload (- n) b) = pb_len b - n) as El by (cbn; unfold u16; rewrite Z.mod_small; lia).
  rewrite Hb in Ht. cbn [from_option] in Ht.
  assert (pb_tot_len (move_payload (- n) b) = pb_tot_len b - n) as Etot by (cbn; unfold u16; rewrite Z.mod_small; lia).
  assert (within (move_payload (- n) b)) as Hwn by (unfold within; rewrite El; cbn; lia).
  split_and!; [constructor|..]; [|done|done| | | |done].
  - split; [done|]. exists (move_payload (- n) b). split; [done|]. eapply seg_same; [|exact Hs]. intros a Ha. by rewrite Hsame.
  - intros a [->|Ha]%elem_of_cons; [by eexists|]. rewrite Hsame by done. apply Hw. by right.
  - split.
    + change (total (pb_mem s') (p :: l)) with (from_option pb_len 0 (pb_mem s' !! p) + total (pb_mem s') l).
      rewrite Hp'. cbn [fmap option_fmap option_map from_option]. rewrite El, Etot, (total_same (pb_mem s)) by (intros a Ha; by rewrite Hsame).
      f_equal. lia.
    + eapply tot_ok_same; [|exact Htl]. intros a Ha. by rewrite Hsame.
  - rewrite !bytes_cons, Hp', Hb, (bytes_same _ _ l Hsame). cbn [from_option]. pose proof (contents_length b Hwb).
    rewrite drop_app_le by lia. f_equal. unfold contents. rewrite El. cbn. rewrite skipn_firstn_comm, drop_drop. f_equal; [lia|]. f_equal. lia.
Qed.

Lemma header_roundtrip all own s p b l n :
  pool_inv all own s -> live s !! p = Some b -> chain s p l -> 0 <= n -> pb_tot_len b < 2 ^ 16 ->
  if decide (n <= pb_len b) then
    exists s', pbuf_header p (- n) s = Done 0 s' /\ pool_inv all own s' /\ chain s' p l /\
      bytes (pb_mem s') l = drop (Z.to_nat n) (bytes (pb_mem s) l) /\
      (forall a, a <> p -> pb_mem s' !! a = pb_mem s !! a) /\ pbuf_header p n s' = Done 0 s
  else pbuf_header p (- n) s = Done 1 s.
Proof.
  intros Hi Hb Hch Hn Hlt. pose proof Hb as [Hm _]%live_Some. pose proof (live_nonnull own s p b (pi_ok _ _ _ Hi) Hb) as Hp.
  destruct (chain_first s p l Hch Hp) as (b2 & l' & Hb2 & El & Htot). subst l. rewrite Hm in Hb2. injection Hb2 as <-.
  destruct (ch_within _ _ _ Hch p) as (b1 & Hb1 & Hw); [by left|]. rewrite Hm in Hb1. injection Hb1 as <-.
  pose proof Hw as (H1 & H2 & H3). pose proof (pool_type all own s p b Hi Hb) as Ht.
  rewrite (header_run s p b (- n) Hm Hp Ht Hw). case_decide as Hle.
  - destruct (Z.eqb_spec (- n) 0) as [E0|E0].
    { exists s. replace n with 0 by lia. split_and!; [done|done|done|by rewrite drop_0|done|].
      by rewrite (header_run s p b 0 Hm Hp Ht Hw). }
    unfold movable at 1. rewrite bool_decide_eq_true_2 by lia. set (b' := move_payload (- n) b).
    destruct (hidden_chain s p l' b n Hch Hm ltac:(lia) Hlt) as (Hch' & Hbytes & Hw').
    exists (with_pb p b' s). split_and!; [done|by eapply inv_with_pb|done|done| |].
    + intros a Ha. cbn. by rewrite lookup_insert_ne.
    + rewrite (header_run _ p b' n (lookup_insert_eq _ _ _) Hp Ht Hw').
      rewrite (proj2 (Z.eqb_neq n 0)) by lia. pose proof Hw' as (? & ? & ?). unfold movable. rewrite bool_decide_eq_true_2.
      2:{ pose proof Hw as (? & ? & ?). cbn in *. unfold u16 in *. lia. }
      pose proof (total_nonneg (pb_mem s) (p :: l') (ch_within _ _ _ Hch)).
      rewrite with_pb_twice. f_equal. apply with_pb_same. rewrite Hm. f_equal. apply (revealed b n); lia.
  - rewrite (proj2 (Z.eqb_neq _ _)) by lia. unfold movable. by rewrite bool_decide_eq_false_2 by lia.
Qed.
