(* ===== verification/PbufLife.v ===== *)
(** * Lives of packet buffers

    Over any sequence of allocations, releases, new references, concatenations,
    splits, cuts, moves of the payload and writes of the pool of packet buffers the
    reference counts are the pointers, chains end, and a buffer nobody refers to is
    back in the pool. *)
From Stdlib Require Import ZArith Lia.
From stdpp Require Import base tactics decidable list list_numbers numbers gmap functions relations.
From S2P Require Import Prelude Udp Net Pbuf PbufSpec PbufData PbufInv PbufShape.
Open Scope Z_scope.
Open Scope c_scope.

(** ** What the users of packet buffers do *)
Inductive pb_op :=
  | Alloc (layer : pbuf_layer) (length : Z)
  | Free (p : Z)
  | Ref (p : Z)
  | Cat (h t : Z)
  | Dechain (p : Z)
  | Take (p : Z) (data : list Z)
  | Realloc (p new_len : Z)
  | Header (p header_size_increment : Z).

Definition run (op : pb_op) : MP Z :=
  match op with
  | Alloc layer length => pbuf_alloc_pool layer length
  | Free p => n ← pbuf_free p; mret n
  | Ref p => pbuf_ref p ;; mret 0
  | Cat h t => pbuf_cat h t ;; mret 0
  | Dechain p => pbuf_dechain p
  | Take p data => pbuf_take p data
  | Realloc p new_len => pbuf_realloc p new_len ;; mret 0
  | Header p inc => pbuf_header p inc
  end.

(** Who may call what: a length of 16 bits, a reference of one's own to give up, a
    buffer in use, two chains with no buffer in common. [pbuf_chain] is [Cat] and [Ref]. *)
Definition allowed (own : Z -> Z) (s : pbufs) (op : pb_op) : Prop :=
  match op with
  | Alloc _ length => 0 <= length < 2 ^ 16
  | Free p => 0 < own p
  | Ref p => exists b, live s !! p = Some b /\ pb_ref b < 2 ^ 16 - 1
  | Cat h t => 0 < own t /\ h <> 0 /\ exists lh lt, seg (live s) h lh 0 /\ seg (live s) t lt 0 /\ lh ## lt
  | Dechain p => is_Some (live s !! p)
  | Take p data => p <> 0 /\ exists l, chain s p l
  | Realloc p n => 0 <= n < 2 ^ 16 /\ is_Some (live s !! p) /\ exists l, chain s p l
  | Header p _ => is_Some (live s !! p) /\ exists l, chain s p l
  end.

(** The references from outside afterwards. *)
Definition owners (own : Z -> Z) (op : pb_op) (r : Z) : Z -> Z :=
  match op with
  | Alloc _ _ => if decide (r = 0) then own else <[r := 1]> own
  | Free p => <[p := own p - 1]> own
  | Ref p => <[p := own p + 1]> own
  | Cat _ t => <[t := own t - 1]> own
  | Dechain _ | Take _ _ | Realloc _ _ | Header _ _ => own
  end.

Inductive pb_step : (Z -> Z) * pbufs -> (Z -> Z) * pbufs -> Prop :=
  | pb_step_intro own s op r s' :
      allowed own s op -> run op s = Done r s' -> pb_step (own, s) (owners own op r, s').

(** Before [pbuf_alloc] is first called: the elements of the pool of packet buffers,
    whatever their memory holds. *)
Record booted (tab : list Z) (s : pbufs) : Prop := {
  bo_tab : pool s = tab;
  bo_nodup : NoDup tab;
  bo_null : 0 ∉ tab;
  bo_mem a : is_Some (pb_mem s !! a) <-> a ∈ tab;
  bo_data a b : pb_mem s !! a = Some b -> plain b;
}.

Lemma inv_booted tab s : booted tab s -> pool_inv (list_to_set tab) (fun _ => 0) s.
Proof.
  intros [H1 H2 H3 H4 H5].
  assert (live s = ∅) as E.
  { apply map_empty. intros a. rewrite live_lookup. case_decide as Ha; [done|]. rewrite H1 in Ha.
    destruct (pb_mem s !! a) eqn:Eb; [|done]. destruct Ha. apply H4. by eexists. }
  constructor; [constructor| |]; rewrite ?H1, ?E.
  - done.
  - intros a. by apply H4.
  - destruct (pb_mem s !! 0) eqn:Eb; [|done]. destruct H3. apply H4. by eexists.
  - done.
  - constructor; [done|intros a b Hb; by rewrite lookup_empty in Hb|]. intros a. split; done.
  - intros a [b Hb]. by rewrite lookup_empty in Hb.
  - apply set_eq. intros a. rewrite elem_of_dom, elem_of_list_to_set. apply H4.
Qed.

Lemma inv_run all own s op :
  pool_inv all own s -> allowed own s op -> exists r s', run op s = Done r s' /\ pool_inv all (owners own op r) s'.
Proof.
  intros Hi. destruct op as [layer n|p|p|h t|p|p data|p n|p inc]; cbn [allowed run owners].
  - intros Hn. by apply inv_alloc.
  - intros Hp. destruct (inv_free all own s p Hi Hp) as (n & s' & E & H). exists n, s'. by rewrite (bind_Done _ _ _ _ _ E).
  - intros (b & Hb & Hlt). destruct (inv_ref all own s p b Hi Hb Hlt) as (s' & E & H).
    exists 0, s'. by rewrite (bind_Done _ _ _ _ _ E).
  - intros (Hown & Hh & lh & lt & Hsh & Hst & Hd). destruct (inv_cat all own s h lh t lt Hi Hown Hh Hsh Hst Hd) as (s' & E & H).
    exists 0, s'. by rewrite (bind_Done _ _ _ _ _ E).
  - intros [b Hb]. by apply (inv_dechain all own s p b).
  - intros (Hp & l & Hch). by apply (inv_take all own s p l).
  - intros (Hn & Hp & l & Hch). destruct (realloc_ok all own s p l n Hi Hch Hp Hn) as (s' & _ & _ & E & H & _).
    exists 0, s'. by rewrite (bind_Done _ _ _ _ _ E).
  - intros (Hp & l & Hch). by apply (inv_header all own s p l).
Qed.

Lemma inv_reached all x y : rtc pb_step x y -> pool_inv all x.1 x.2 -> pool_inv all y.1 y.2.
Proof.
  induction 1 as [x|x y z Hs _ IH]; [done|]. intros Hi. apply IH. destruct Hs as [own s op r s' Ha E].
  destruct (inv_run all own s op Hi Ha) as (r2 & s2 & E2 & Hi2). rewrite E in E2. by injection E2 as <- <-.
Qed.

(** C8: from the booted pool on, over any sequence of allocations, releases, new
    references, concatenations, splits, cuts, moves of the payload and writes by users
    who give up only references they hold: no operation ever faults, loops or meets a buffer with a wrong count, and
    the count of every buffer in use is the number of pointers to it, those of the users
    and those in other buffers. When the users hold no reference any more every buffer
    of the boot is back in the pool: nothing leaks. *)
Theorem pool_lives tab s0 own s :
  booted tab s0 -> rtc pb_step (fun _ => 0, s0) (own, s) ->
  (forall op, allowed own s op -> exists r s', run op s = Done r s') /\
  (forall a b, live s !! a = Some b -> pb_ref b = own a + preds (live s) a) /\
  ((forall a, own a = 0) -> pool s ≡ₚ tab).
Proof.
  intros Hb Hr. pose proof (inv_reached _ _ _ Hr (inv_booted tab s0 Hb)) as Hi. cbn in Hi. split_and!.
  - intros op Ha. destruct (inv_run _ own s op Hi Ha) as (r & s' & E & _). by exists r, s'.
  - intros a b Hl. by apply (co_live _ _ (po_counts _ _ (pi_ok _ _ _ Hi)) a b Hl).
  - intros Hown. rewrite (unowned_pool _ own s Hi Hown). apply NoDup_Permutation; [apply NoDup_elements|apply Hb|].
    intros a. by rewrite elem_of_elements, elem_of_list_to_set.
Qed.

(** A pool with the elements [tab], its memory zero. *)
Definition zero_pbuf : pbuf := Pbuf 0 0 0 0 0 0 0 (replicate 512 0).

Definition boot_pbufs (tab : list Z) : pbufs :=
  Pbufs (list_to_map ((fun a => (a, zero_pbuf)) <$> tab)) (fun t => if decide (t = MEMP_PBUF_POOL) then tab else []) [] [].

Lemma boot_lookup tab a : pb_mem (boot_pbufs tab) !! a = if decide (a ∈ tab) then Some zero_pbuf else None.
Proof.
  cbn. induction tab as [|x tab IH]; cbn; [done|]. destruct (decide (a = x)) as [->|Hne].
  - by rewrite lookup_insert_eq, decide_True by by left.
  - rewrite lookup_insert_ne, IH by done. destruct (decide (a ∈ tab)); [by rewrite decide_True by by right|].
    by rewrite decide_False by (rewrite elem_of_cons; naive_solver).
Qed.

Lemma booted_boot tab : NoDup tab -> 0 ∉ tab -> booted tab (boot_pbufs tab).
Proof.
  intros Hnd H0. constructor; try done; intros a.
  - rewrite boot_lookup. case_decide; [|split; [by intros []|done]]. split; [done|by eexists].
  - intros b. rewrite boot_lookup. case_decide; [|done]. by intros [= <-].
Qed.

Definition tab3 : list Z := [1584; 1056; 528].

Lemma booted_tab3 : booted tab3 (boot_pbufs tab3).
Proof.
  apply booted_boot; [apply (bool_decide_eq_true_1 _); vm_compute; reflexivity|].
  unfold tab3. rewrite !not_elem_of_cons. split_and!; [done..|apply not_elem_of_nil].
Qed.

(** A packet of 600 bytes: two buffers; given back, all three are there again. *)
Lemma pool_lives_witness : exists own s,
  rtc pb_step (fun _ => 0, boot_pbufs tab3) (own, s) /\ (forall a, own a = 0) /\ pool s ≡ₚ tab3.
Proof.
  set (s1 := match run (Alloc PBUF_RAW 600) (boot_pbufs tab3) with Done _ s => s | _ => boot_pbufs tab3 end).
  set (s2 := match run (Free 1584) s1 with Done _ s => s | _ => s1 end).
  set (own := owners (owners (fun _ => 0) (Alloc PBUF_RAW 600) 1584) (Free 1584) 2).
  assert (rtc pb_step (fun _ => 0, boot_pbufs tab3) (own, s2)) as Hr.
  { eapply rtc_l; [apply (pb_step_intro _ _ (Alloc PBUF_RAW 600) 1584 s1); [by split|vm_compute; reflexivity]|].
    eapply rtc_l; [apply (pb_step_intro _ _ (Free 1584) 2 s2); [by vm_compute|vm_compute; reflexivity]|]. apply rtc_refl. }
  assert (forall a, own a = 0) as Hown.
  { intros a. unfold own. cbn [owners]. rewrite decide_False by done. destruct (decide (1584 = a)) as [<-|].
    - by rewrite !fn_lookup_insert.
    - by rewrite !fn_lookup_insert_ne. }
  exists own, s2. split_and!; [exact Hr|exact Hown|].
  by apply (pool_lives tab3 (boot_pbufs tab3) own s2 booted_tab3 Hr).
Defined.

(** ** Packets *)

(** C14: [pbuf_alloc] from the pool gives a packet of exactly the length asked for, or
    nothing: with enough free buffers the caller gets a chain whose buffers are all
    referred to once, whose total lengths are right at every buffer, whose lengths lie in
    the memory behind each buffer and sum up to the length; with one buffer too few it
    gets the null pointer and every buffer taken on the way is back in the pool. Buffers
    in use by others are not touched either way. *)
Theorem alloc_whole_or_nothing own s layer n :
  pool_ok own s -> 0 <= n < 2 ^ 16 ->
  if decide (needed layer n <= length (pool s))%nat then
    exists s', pbuf_alloc_pool layer n s = Done (hd 0 (pool s)) s' /\ hd 0 (pool s) <> 0 /\
      chain s' (hd 0 (pool s)) (take (needed layer n) (pool s)) /\
      packet layer s' (take (needed layer n) (pool s)) n /\ pool s' = drop (needed layer n) (pool s) /\
      pool_ok (<[hd 0 (pool s) := 1]> own) s' /\ forall a b, live s !! a = Some b -> pb_mem s' !! a = Some b
  else
    exists s', pbuf_alloc_pool layer n s = Done 0 s' /\ pool s' ≡ₚ pool s /\ pool_ok own s' /\ live s' = live s.
Proof.
  intros Hok Hn. pose proof (alloc_pool_ok own s layer n Hok Hn) as H.
  assert (forall a b, live s !! a = Some b -> pb_mem s !! a = Some b /\ a ∉ take (needed layer n) (pool s)) as Hl.
  { intros a b [Hm Ha]%live_Some. split; [done|]. intros (i & Hi & _)%elem_of_take. apply Ha. by eapply list_elem_of_lookup_2. }
  case_decide as Hk.
  - destruct H as (s' & E & Hp0 & Hok' & Hp & Hpk & _ & Hm). exists s'. split_and!; [done|done| |done|done|done|].
    + assert (hd 0 (pool s) = hd 0 (take (needed layer n) (pool s))) as ->.
      { unfold needed. by destruct (pool s). }
      apply (packet_chain own layer s' s _ n Hok); [|by eapply sublist_NoDup; [apply Hok|apply sublist_take]|exact Hpk].
      intros a (i & Hi & _)%elem_of_take. by eapply list_elem_of_lookup_2.
    + intros a b Hab. destruct (Hl a b Hab) as [Hab' Ha]. by rewrite Hm.
  - destruct H as (s' & E & Hok' & Hp & _ & Hm). exists s'. split_and!; [done|done|done|].
    apply map_eq. intros a. rewrite !live_lookup. destruct (decide (a ∈ pool s)) as [Ha|Ha].
    + by rewrite decide_True by by rewrite Hp.
    + rewrite decide_False by by rewrite Hp. by apply Hm.
Qed.

Definition own0 : Z -> Z := fun _ => 0.

Lemma alloc_whole_or_nothing_witness :
  (exists s', pbuf_alloc_pool PBUF_TRANSPORT 600 (boot_pbufs tab3) = Done 1584 s' /\ pool s' = [528]) /\
  (exists s', pbuf_alloc_pool PBUF_RAW 1537 (boot_pbufs tab3) = Done 0 s' /\ pool s' ≡ₚ tab3).
Proof.
  pose proof (pi_ok _ _ _ (inv_booted tab3 (boot_pbufs tab3) booted_tab3)) as Hok. split.
  - destruct (alloc_whole_or_nothing own0 (boot_pbufs tab3) PBUF_TRANSPORT 600 Hok ltac:(lia)) as (s' & E & _ & _ & _ & Hp & _).
    by exists s'.
  - destruct (alloc_whole_or_nothing own0 (boot_pbufs tab3) PBUF_RAW 1537 Hok ltac:(lia)) as (s' & E & Hp & _). by exists s'.
Defined.

(** [pbuf_cat] puts the second packet behind the first: the chain is the first
    followed by the second, the total length of each of its buffers is right again, the
    bytes are those of the first and then those of the second, and no buffer outside the
    first chain is touched. *)
Theorem cat_concatenates s h lh t lt :
  pb_mem s !! 0 = None -> chain s h lh -> chain s t lt -> h <> 0 -> t <> 0 -> lh ## lt ->
  total (pb_mem s) lh + total (pb_mem s) lt < 2 ^ 16 ->
  exists s', pbuf_cat h t s = Done tt s' /\ chain s' h (lh ++ lt) /\
    bytes (pb_mem s') (lh ++ lt) = bytes (pb_mem s) lh ++ bytes (pb_mem s) lt /\
    forall a, a ∉ lh -> pb_mem s' !! a = pb_mem s !! a.
Proof. exact (cat_chain s h lh t lt). Qed.

(** C16: [pbuf_realloc] cuts a packet behind a byte and never makes it longer: what is left
    is a packet of the first [n] bytes, or the whole packet when it has no more, its
    lengths right at every buffer; no other buffer is touched, the counts stay right, and
    when nobody else refers to the buffers behind the cut they are back in the pool. *)
Theorem realloc_cuts all own s p l n :
  pool_inv all own s -> chain s p l -> is_Some (live s !! p) -> 0 <= n < 2 ^ 16 ->
  exists s' l1 l2, pbuf_realloc p n s = Done tt s' /\ pool_inv all own s' /\ l = l1 ++ l2 /\ chain s' p l1 /\
    bytes (pb_mem s') l1 = take (Z.to_nat n) (bytes (pb_mem s) l) /\
    (forall a, a ∉ l -> pb_mem s' !! a = pb_mem s !! a) /\
    ((forall a b, a ∈ l -> pb_mem s !! a = Some b -> pb_ref b = 1) -> pool s' = rev l2 ++ pool s).
Proof.
  intros Hi Hch Hp Hn. destruct (realloc_ok all own s p l n Hi Hch Hp Hn) as (s' & l1 & l2 & H1 & H2 & H3 & H4 & H5 & H6 & H7 & _).
  by exists s', l1, l2.
Qed.

(** C17: [pbuf_header] hides the first [n] bytes of a packet and brings them back: the
    packet is then the one without them, and the move in the other direction leaves
    everything as it was before; a header longer than the first buffer is refused and
    nothing is touched. *)
Theorem header_hides_and_reveals all own s p b l n :
  pool_inv all own s -> live s !! p = Some b -> chain s p l -> 0 <= n -> pb_tot_len b < 2 ^ 16 ->
  if decide (n <= pb_len b) then
    exists s', pbuf_header p (- n) s = Done 0 s' /\ pool_inv all own s' /\ chain s' p l /\
      bytes (pb_mem s') l = drop (Z.to_nat n) (bytes (pb_mem s) l) /\
      (forall a, a <> p -> pb_mem s' !! a = pb_mem s !! a) /\ pbuf_header p n s' = Done 0 s
  else pbuf_header p (- n) s = Done 1 s.
Proof. exact (header_roundtrip all own s p b l n). Qed.

(** Two buffers of 3 and 2 bytes, one behind the other, and one of 4 bytes. *)
Definition small_pbufs : pbufs :=
  Pbufs (list_to_map [(16, Pbuf 32 2 5 3 PBUF_POOL 0 1 [9; 9; 1; 2; 3]); (32, Pbuf 0 0 2 2 PBUF_POOL 0 1 [4; 5; 9]);
    (48, Pbuf 0 1 4 4 PBUF_POOL 0 1 [9; 6; 7; 8; 9])]) (fun _ => []) [] [].

Lemma small_chain : chain small_pbufs 16 [16; 32] /\ chain small_pbufs 48 [48].
Proof.
  split; constructor; try (vm_compute; by eauto 10).
  - by apply (bool_decide_eq_true_1 _).
  - rewrite !not_elem_of_cons. split_and!; [done..|apply not_elem_of_nil].
  - intros a [->|[->|[]%not_elem_of_nil]%elem_of_cons]%elem_of_cons; (eexists; split; [vm_compute; reflexivity|by vm_compute]).
  - by apply (bool_decide_eq_true_1 _).
  - rewrite !not_elem_of_cons. split_and!; [done|apply not_elem_of_nil].
  - intros a [->|[]%not_elem_of_nil]%elem_of_cons; (eexists; split; [vm_compute; reflexivity|by vm_compute]).
Qed.

Lemma cat_concatenates_witness : exists s', pbuf_cat 16 48 small_pbufs = Done tt s' /\
  bytes (pb_mem s') [16; 32; 48] = [1; 2; 3; 4; 5; 6; 7; 8; 9].
Proof.
  destruct small_chain as [Hh Ht].
  destruct (cat_concatenates small_pbufs 16 [16; 32] 48 [48]) as (s' & E & _ & Hb & _); try done.
  - intros a [->|[->|[]%not_elem_of_nil]%elem_of_cons]%elem_of_cons; intros [|[]%not_elem_of_nil]%elem_of_cons; done.
  - by exists s'.
Defined.

Lemma take_then_copy_witness : exists s', pbuf_take 16 [11; 12; 13; 14] small_pbufs = Done 0 s' /\
  pbuf_copy_partial 16 3 2 s' = Done [13; 14; 5] s'.
Proof.
  destruct (take_then_copy small_pbufs 16 [16; 32] [11; 12; 13; 14] 3 2) as (s' & E & _ & _ & Ec); try done.
  - apply small_chain.
  - by exists s'.
Defined.

(** A packet of 600 bytes as it comes from the pool: two buffers. *)
Definition packet_600 : pbufs :=
  match pbuf_alloc_pool PBUF_RAW 600 (boot_pbufs tab3) with Done _ s => s | _ => boot_pbufs tab3 end.

Lemma packet_600_ok : pool_inv (list_to_set tab3) (<[1584 := 1]> own0) packet_600 /\ chain packet_600 1584 [1584; 1056].
Proof.
  pose proof (inv_booted tab3 (boot_pbufs tab3) booted_tab3) as Hi. split.
  - destruct (inv_run _ own0 _ (Alloc PBUF_RAW 600) Hi) as (r & s & E & H); [by cbn|].
    assert (run (Alloc PBUF_RAW 600) (boot_pbufs tab3) = Done 1584 packet_600) as E2 by (vm_compute; reflexivity).
    rewrite E2 in E. injection E as <- <-. exact H.
  - pose proof (alloc_pool_ok own0 (boot_pbufs tab3) PBUF_RAW 600 (pi_ok _ _ _ Hi) ltac:(lia)) as H.
    rewrite decide_True in H by (apply Nat.leb_le; reflexivity). destruct H as (s & E & _ & _ & _ & Hpk & _).
    assert (packet_600 = s) as -> by (unfold packet_600; by rewrite E).
    change (take (needed PBUF_RAW 600) (pool (boot_pbufs tab3))) with [1584; 1056] in Hpk.
    apply (packet_chain own0 PBUF_RAW s (boot_pbufs tab3) [1584; 1056] 600 (pi_ok _ _ _ Hi)); [..|exact Hpk].
    + intros a Ha. change (a ∈ [1584; 1056; 528]). set_solver.
    + apply (bool_decide_eq_true_1 _). vm_compute. reflexivity.
Qed.

Lemma realloc_cuts_witness : exists s', pbuf_realloc 1584 100 packet_600 = Done tt s' /\ pool s' = [1056; 528] /\
  exists l, chain s' 1584 l /\ length (bytes (pb_mem s') l) = 100%nat.
Proof.
  destruct packet_600_ok as [Hi Hch].
  destruct (realloc_cuts _ _ packet_600 1584 [1584; 1056] 100 Hi Hch) as (s' & l1 & l2 & E & _ & El & Hch' & Hb & _ & Hp);
    [apply (bool_decide_eq_true_1 (is_Some _)); vm_compute; reflexivity|lia|].
  assert (pbuf_realloc 1584 100 packet_600 = Done tt s' /\ pool s' = [1056; 528]) as [_ Ep].
  { split; [exact E|]. assert (pool <$> (match pbuf_realloc 1584 100 packet_600 with Done _ s => Some s | _ => None end) = Some [1056; 528]) as Ev by (vm_compute; reflexivity).
    rewrite E in Ev. by injection Ev. }
  exists s'. split; [exact E|]. split; [exact Ep|]. exists l1. split; [exact Hch'|]. rewrite Hb. vm_compute. reflexivity.
Defined.

Lemma header_hides_and_reveals_witness : exists s', pbuf_header 1584 (- 14) packet_600 = Done 0 s' /\
  pbuf_header 1584 14 s' = Done 0 packet_600.
Proof.
  destruct packet_600_ok as [Hi Hch].
  destruct (pb_mem packet_600 !! 1584) as [b|] eqn:Eb; [|vm_compute in Eb; discriminate].
  assert (pb_len b = 512 /\ pb_tot_len b = 600) as [El Et].
  { assert ((fun b => (pb_len b, pb_tot_len b)) <$> pb_mem packet_600 !! 1584 = Some (512, 600)) as Ev by (vm_compute; reflexivity).
    rewrite Eb in Ev. injection Ev. done. }
  pose proof (header_hides_and_reveals _ _ packet_600 1584 b [1584; 1056] 14 Hi) as H.
  rewrite decide_True in H by lia. destruct H as (s' & E & _ & _ & _ & _ & Er);
    [apply live_Some; split; [exact Eb|apply (bool_decide_eq_true_1 _); vm_compute; reflexivity]|exact Hch|lia|lia|].
  exists s'. by split.
Defined.
