(* ===== verification/Eth.v ===== *)
(** * The Ethernet driver

    src/LWIP/lwip-1.4.1/src/netif/ethernetif.c between the packet buffers of lwIP
    and the descriptors of the MAC, over the functions of stm32f4xx_hal_eth.c that
    move them, the interrupt of HARDWARE/LAN8720/lan8720.c, and [tcpip_input] of
    lwIP's tcpip.c, which hands a packet to the task of lwIP. A pointer to a
    descriptor is its index in the table, a buffer address is an offset in the
    memory of [ETH_Mem_Malloc]. The DMA owns the descriptors with their OWN bit set
    and changes only those. [LAN8720_Init] sets [ChecksumMode] to
    [ETH_CHECKSUM_BY_HARDWARE] and [RxMode] to [ETH_RXINTERRUPT_MODE]. *)
From Stdlib Require Import ZArith Lia.
From stdpp Require Import base tactics decidable list list_numbers numbers gmap functions.
From S2P Require Import Prelude Udp Net Pbuf SysArch.
Open Scope Z_scope.
Open Scope c_scope.

Definition ETH_RX_BUF_SIZE : Z := 1524.
Definition ETH_TX_BUF_SIZE : Z := 1524.
Definition ETH_RXBUFNB : Z := 10.
Definition ETH_TXBUFNB : Z := 5.
Definition ETH_DMATXDESC_OWN : Z := 0x80000000.
Definition ETH_DMATXDESC_LS : Z := 0x20000000.
Definition ETH_DMATXDESC_FS : Z := 0x10000000.
Definition ETH_DMATXDESC_TCH : Z := 0x00100000.
Definition ETH_DMATXDESC_CHECKSUMTCPUDPICMPFULL : Z := 0x00C00000.
Definition ETH_DMATXDESC_TBS1 : Z := 0x00001FFF.
Definition ETH_DMARXDESC_OWN : Z := 0x80000000.
Definition ETH_DMARXDESC_FL : Z := 0x3FFF0000.
Definition ETH_DMARXDESC_FS : Z := 0x00000200.
Definition ETH_DMARXDESC_LS : Z := 0x00000100.
Definition ETH_DMARXDESC_DIC : Z := 0x80000000.
Definition ETH_DMARXDESC_RCH : Z := 0x00004000.
Definition ETH_DMASR_RBUS : Z := 0x80.
Definition ETH_DMASR_TUS : Z := 0x20.
Definition ETH_DMASR_TBUS : Z := 0x04.
Definition ETH_DMA_IT_NIS : Z := 0x10000.
Definition ETH_DMA_IT_R : Z := 0x40.

Inductive HAL_Status := HAL_OK | HAL_ERROR | HAL_BUSY | HAL_TIMEOUT.
Inductive HAL_ETH_State :=
  | STATE_RESET | STATE_READY | STATE_BUSY | STATE_BUSY_TX | STATE_BUSY_RX | STATE_BUSY_TX_RX
  | STATE_BUSY_WR | STATE_BUSY_RD | STATE_TIMEOUT | STATE_ERROR.

#[export] Instance HAL_Status_eq_dec : EqDecision HAL_Status.
Proof. solve_decision. Defined.

(** [ETH_DMADescTypeDef]. *)
Record desc := Desc {
  Status : Z;
  ControlBufferSize : Z;
  Buffer1Addr : Z;
  Buffer2NextDescAddr : Z;
}.

#[export] Instance desc_eta : Eta desc := fun d =>
  Desc (Status d) (ControlBufferSize d) (Buffer1Addr d) (Buffer2NextDescAddr d).
#[export] Instance upd_Status : Upd Status := ltac:(derive_upd).
#[export] Instance upd_ControlBufferSize : Upd ControlBufferSize := ltac:(derive_upd).
#[export] Instance upd_Buffer1Addr : Upd Buffer1Addr := ltac:(derive_upd).
#[export] Instance upd_Buffer2NextDescAddr : Upd Buffer2NextDescAddr := ltac:(derive_upd).

(** [ETH_Handler] with its [RxFrameInfos], the tables and buffers, the registers of
    the DMA, and whether interrupts are enabled. Of a register that only wakes the
    DMA up, the number of writes. *)
Record mac := Mac {
  Lock : bool;
  State : HAL_ETH_State;
  TxDesc : Z;
  RxDesc : Z;
  FSRxDesc : Z;
  LSRxDesc : option Z;
  SegCount : Z;
  frame_length : Z;
  frame_buffer : Z;
  TxTab : list desc;
  RxTab : list desc;
  TxBuff : list Z;
  RxBuff : list Z;
  DMASR : Z;
  DMATPDR : Z;
  DMARPDR : Z;
  irq_enabled : bool;
}.

#[export] Instance mac_eta : Eta mac := fun m =>
  Mac (Lock m) (State m) (TxDesc m) (RxDesc m) (FSRxDesc m) (LSRxDesc m) (SegCount m) (frame_length m) (frame_buffer m)
    (TxTab m) (RxTab m) (TxBuff m) (RxBuff m) (DMASR m) (DMATPDR m) (DMARPDR m) (irq_enabled m).
#[export] Instance upd_Lock : Upd Lock := ltac:(derive_upd).
#[export] Instance upd_State : Upd State := ltac:(derive_upd).
#[export] Instance upd_TxDesc : Upd TxDesc := ltac:(derive_upd).
#[export] Instance upd_RxDesc : Upd RxDesc := ltac:(derive_upd).
#[export] Instance upd_FSRxDesc : Upd FSRxDesc := ltac:(derive_upd).
#[export] Instance upd_LSRxDesc : Upd LSRxDesc := ltac:(derive_upd).
#[export] Instance upd_SegCount : Upd SegCount := ltac:(derive_upd).
#[export] Instance upd_frame_length : Upd frame_length := ltac:(derive_upd).
#[export] Instance upd_frame_buffer : Upd frame_buffer := ltac:(derive_upd).
#[export] Instance upd_TxTab : Upd TxTab := ltac:(derive_upd).
#[export] Instance upd_RxTab : Upd RxTab := ltac:(derive_upd).
#[export] Instance upd_TxBuff : Upd TxBuff := ltac:(derive_upd).
#[export] Instance upd_RxBuff : Upd RxBuff := ltac:(derive_upd).
#[export] Instance upd_DMASR : Upd DMASR := ltac:(derive_upd).
#[export] Instance upd_DMATPDR : Upd DMATPDR := ltac:(derive_upd).
#[export] Instance upd_DMARPDR : Upd DMARPDR := ltac:(derive_upd).
#[export] Instance upd_irq_enabled : Upd irq_enabled := ltac:(derive_upd).

(** ** The HAL *)
Section hal.
Local Notation MM := (M mac).

(** [__HAL_LOCK]: [HAL_BUSY] when the handle is locked. *)
Definition locked (body : MM HAL_Status) : MM HAL_Status :=
  l ← gets Lock;
  if (l : bool) then mret HAL_BUSY else
  Lock ::= true ;;
  body.

Definition unlock_with (st : HAL_ETH_State) (r : HAL_Status) : MM HAL_Status :=
  State ::= st ;; Lock ::= false ;; mret r.

(** Writing a one to a bit of [DMASR] clears it. *)
Definition DMASR_clear (bits : Z) : MM unit := sr ← gets DMASR; DMASR ::= Z.ldiff sr bits.

Definition on_tx (i : Z) (f : desc -> desc) : MM unit := d ← rd TxTab i; wr TxTab i (f d).
Definition on_rx (i : Z) (f : desc -> desc) : MM unit := d ← rd RxTab i; wr RxTab i (f d).

Definition set_status (bits : Z) (d : desc) : desc := d <| Status := Z.lor (Status d) bits |>.

(** What the loops of the two functions below write to the [i]-th of [n] descriptors. *)
Definition tx_desc0 (n i : Z) (d : desc) : desc :=
  d <| Status := ETH_DMATXDESC_TCH |>
    <| Buffer1Addr := i * ETH_TX_BUF_SIZE |>
    <| Status := Z.lor ETH_DMATXDESC_TCH ETH_DMATXDESC_CHECKSUMTCPUDPICMPFULL |>
    <| Buffer2NextDescAddr := if i <? u32 (n - 1) then i + 1 else 0 |>.

Definition rx_desc0 (n i : Z) (d : desc) : desc :=
  d <| Status := ETH_DMARXDESC_OWN |>
    <| ControlBufferSize := Z.ldiff (Z.lor ETH_DMARXDESC_RCH ETH_RX_BUF_SIZE) ETH_DMARXDESC_DIC |>
    <| Buffer1Addr := i * ETH_RX_BUF_SIZE |>
    <| Buffer2NextDescAddr := if i <? u32 (n - 1) then i + 1 else 0 |>.

Definition HAL_ETH_DMATxDescListInit (TxBuffCount : Z) : MM HAL_Status :=
  locked (
    State ::= STATE_BUSY ;;
    TxDesc ::= 0 ;;
    for_each (zseq 0 TxBuffCount) (fun i => on_tx i (tx_desc0 TxBuffCount i)) ;;
    unlock_with STATE_READY HAL_OK).

Definition HAL_ETH_DMARxDescListInit (RxBuffCount : Z) : MM HAL_Status :=
  locked (
    State ::= STATE_BUSY ;;
    RxDesc ::= 0 ;;
    for_each (zseq 0 RxBuffCount) (fun i => on_rx i (rx_desc0 RxBuffCount i)) ;;
    unlock_with STATE_READY HAL_OK).

(** One descriptor of a frame in several. *)
Definition give_segment (FrameLength bufcount i : Z) : MM unit :=
  t ← gets TxDesc;
  on_tx t (fun d => d <| Status := Z.ldiff (Status d) (Z.lor ETH_DMATXDESC_FS ETH_DMATXDESC_LS) |>) ;;
  (if i =? 0 then on_tx t (set_status ETH_DMATXDESC_FS) else skip) ;;
  on_tx t (fun d => d <| ControlBufferSize := Z.land ETH_TX_BUF_SIZE ETH_DMATXDESC_TBS1 |>) ;;
  (if i =? bufcount - 1 then
     on_tx t (set_status ETH_DMATXDESC_LS) ;;
     on_tx t (fun d => d <| ControlBufferSize :=
       Z.land (u32 (FrameLength - (bufcount - 1) * ETH_TX_BUF_SIZE)) ETH_DMATXDESC_TBS1 |>)
   else skip) ;;
  on_tx t (set_status ETH_DMATXDESC_OWN) ;;
  d ← rd TxTab t;
  TxDesc ::= Buffer2NextDescAddr d.

Definition bufcount_of (FrameLength : Z) : Z :=
  if FrameLength >? ETH_TX_BUF_SIZE then
    FrameLength / ETH_TX_BUF_SIZE + (if FrameLength mod ETH_TX_BUF_SIZE =? 0 then 0 else 1)
  else 1.

Definition HAL_ETH_TransmitFrame (FrameLength : Z) : MM HAL_Status :=
  locked (
    State ::= STATE_BUSY ;;
    if FrameLength =? 0 then unlock_with STATE_READY HAL_ERROR else
    t ← gets TxDesc;
    d ← rd TxTab t;
    if negb (Z.land (Status d) ETH_DMATXDESC_OWN =? 0) then unlock_with STATE_BUSY_TX HAL_ERROR else
    let bufcount := bufcount_of FrameLength in
    (if bufcount =? 1 then
       on_tx t (set_status (Z.lor ETH_DMATXDESC_FS ETH_DMATXDESC_LS)) ;;
       on_tx t (fun d => d <| ControlBufferSize := Z.land FrameLength ETH_DMATXDESC_TBS1 |>) ;;
       on_tx t (set_status ETH_DMATXDESC_OWN) ;;
       d ← rd TxTab t;
       TxDesc ::= Buffer2NextDescAddr d
     else for_each (zseq 0 bufcount) (give_segment FrameLength bufcount)) ;;
    sr ← gets DMASR;
    (if negb (Z.land sr ETH_DMASR_TBUS =? 0) then
       DMASR_clear ETH_DMASR_TBUS ;; n ← gets DMATPDR; DMATPDR ::= n + 1
     else skip) ;;
    unlock_with STATE_READY HAL_OK).

Definition HAL_ETH_GetReceivedFrame : MM HAL_Status :=
  locked (
    State ::= STATE_BUSY ;;
    r ← gets RxDesc;
    d ← rd RxTab r;
    if Z.land (Status d) ETH_DMARXDESC_OWN =? 0 then
      n ← gets SegCount;
      if negb (Z.land (Status d) ETH_DMARXDESC_LS =? 0) then
        SegCount ::= u32 (n + 1) ;;
        (if u32 (n + 1) =? 1 then FSRxDesc ::= r else skip) ;;
        LSRxDesc ::= Some r ;;
        frame_length ::= u32 (Z.shiftr (Z.land (Status d) ETH_DMARXDESC_FL) 16 - 4) ;;
        f ← gets FSRxDesc;
        fd ← rd RxTab f;
        frame_buffer ::= Buffer1Addr fd ;;
        RxDesc ::= Buffer2NextDescAddr d ;;
        unlock_with STATE_READY HAL_OK
      else if negb (Z.land (Status d) ETH_DMARXDESC_FS =? 0) then
        FSRxDesc ::= r ;;
        LSRxDesc ::= None ;;
        SegCount ::= 1 ;;
        RxDesc ::= Buffer2NextDescAddr d ;;
        unlock_with STATE_READY HAL_ERROR
      else
        SegCount ::= u32 (n + 1) ;;
        RxDesc ::= Buffer2NextDescAddr d ;;
        unlock_with STATE_READY HAL_ERROR
    else unlock_with STATE_READY HAL_ERROR).

Definition INTX_DISABLE : MM unit := irq_enabled ::= false.
Definition INTX_ENABLE : MM unit := irq_enabled ::= true.
End hal.

(** ** ethernetif.c *)

(** The driver: the MAC and the packet buffers. *)
Record drv := Drv { dv_mac : mac; dv_pb : pbufs }.
#[export] Instance drv_eta : Eta drv := fun s => Drv (dv_mac s) (dv_pb s).
#[export] Instance upd_dv_mac : Upd dv_mac := ltac:(derive_upd).
#[export] Instance upd_dv_pb : Upd dv_pb := ltac:(derive_upd).

Section ethernetif.
Local Notation MD := (M drv).
Definition in_mac {A} (c : M mac A) : MD A := zoom dv_mac c.
Definition in_pb {A} (c : MP A) : MD A := zoom dv_pb c.

Definition ERR_USE : Z := -8.

(** [low_level_init], its part on the descriptors. *)
Definition low_level_init : MD Z :=
  _ ← in_mac (HAL_ETH_DMATxDescListInit ETH_TXBUFNB);
  _ ← in_mac (HAL_ETH_DMARxDescListInit ETH_RXBUFNB);
  mret ERR_OK.

(** [(DmaTxDesc->Status&ETH_DMATXDESC_OWN)!=RESET] *)
Definition tx_owned (t : Z) : MD bool :=
  d ← in_mac (rd TxTab t); mret (negb (Z.land (Status d) ETH_DMATXDESC_OWN =? 0)).

(** [memcpy(buffer+off, q->payload+payloadoffset, n)] *)
Definition to_tx (buffer off q payloadoffset n : Z) : MD unit :=
  bytes ← in_pb (pb_read q payloadoffset n);
  b ← gets (fun s => TxBuff (dv_mac s));
  b ← copy_in b (buffer + off) bytes;
  in_mac (TxBuff ::= b).

(** Where the copy has got to: the descriptor, its buffer, the offset in it, and the
    length of the frame so far. *)
Record txpos := TxPos { tp_desc : Z; tp_buffer : Z; tp_off : Z; tp_len : Z }.

(** [while((byteslefttocopy+bufferoffset)>ETH_TX_BUF_SIZE)]: nothing when the next
    descriptor is not free. *)
Fixpoint output_while (fuel : nat) (q : Z) (t : txpos) (byteslefttocopy payloadoffset : Z) : MD (option (txpos * Z * Z)) :=
  if byteslefttocopy + tp_off t >? ETH_TX_BUF_SIZE then
    match fuel with
    | O => halt_with Spin
    | S fuel =>
        let n := ETH_TX_BUF_SIZE - tp_off t in
        to_tx (tp_buffer t) (tp_off t) q payloadoffset n ;;
        d ← in_mac (rd TxTab (tp_desc t));
        let next := Buffer2NextDescAddr d in
        used ← tx_owned next;
        if (used : bool) then mret None else
        d ← in_mac (rd TxTab next);
        output_while fuel q (TxPos next (Buffer1Addr d) 0 (tp_len t + n)) (byteslefttocopy - n) (payloadoffset + n)
    end
  else mret (Some (t, byteslefttocopy, payloadoffset)).

(** A buffer of 65535 bytes fills at most 44 buffers of the MAC. *)
Definition output_fuel : nat := 45.

(** [for(q=p;q!=NULL;q=q->next)] *)
Fixpoint output_copy (fuel : nat) (q : Z) (t : txpos) : MD (option txpos) :=
  if q =? 0 then mret (Some t) else
  match fuel with
  | O => halt_with Spin
  | S fuel =>
      used ← tx_owned (tp_desc t);
      if (used : bool) then mret None else
      qb ← in_pb (pb_get q);
      r ← output_while output_fuel q t (pb_len qb) 0;
      match r with
      | None => mret None
      | Some (t, byteslefttocopy, payloadoffset) =>
          to_tx (tp_buffer t) (tp_off t) q payloadoffset byteslefttocopy ;;
          output_copy fuel (pb_next qb)
            (TxPos (tp_desc t) (tp_buffer t) (tp_off t + byteslefttocopy) (tp_len t + byteslefttocopy))
      end
  end.

Definition low_level_output (p : Z) : MD Z :=
  t ← gets (fun s => TxDesc (dv_mac s));
  d ← in_mac (rd TxTab t);
  in_mac INTX_DISABLE ;;
  n ← in_pb walk_fuel;
  r ← output_copy n p (TxPos t (Buffer1Addr d) 0 0);
  errval ← match r with
    | None => mret ERR_USE
    | Some t => _ ← in_mac (HAL_ETH_TransmitFrame (tp_len t)); mret ERR_OK
    end;
  sr ← gets (fun s => DMASR (dv_mac s));
  (if negb (Z.land sr ETH_DMASR_TUS =? 0) then
     in_mac (DMASR_clear ETH_DMASR_TUS ;; n ← gets DMATPDR; DMATPDR ::= n + 1)
   else skip) ;;
  in_mac INTX_ENABLE ;;
  mret errval.

(** [memcpy(q->payload+payloadoffset, buffer+off, n)] *)
Definition from_rx (q payloadoffset buffer off n : Z) : MD unit :=
  b ← gets (fun s => RxBuff (dv_mac s));
  bytes ← copy_out b (buffer + off) n;
  in_pb (pb_write q payloadoffset bytes).

(** Where the copy has got to: the descriptor, its buffer, the offset in it. *)
Record rxpos := RxPos { rp_desc : Z; rp_buffer : Z; rp_off : Z }.

Fixpoint input_while (fuel : nat) (q : Z) (r : rxpos) (byteslefttocopy payloadoffset : Z) : MD (rxpos * Z * Z) :=
  if byteslefttocopy + rp_off r >? ETH_RX_BUF_SIZE then
    match fuel with
    | O => halt_with Spin
    | S fuel =>
        let n := ETH_RX_BUF_SIZE - rp_off r in
        from_rx q payloadoffset (rp_buffer r) (rp_off r) n ;;
        d ← in_mac (rd RxTab (rp_desc r));
        nd ← in_mac (rd RxTab (Buffer2NextDescAddr d));
        input_while fuel q (RxPos (Buffer2NextDescAddr d) (Buffer1Addr nd) 0) (byteslefttocopy - n) (payloadoffset + n)
    end
  else mret (r, byteslefttocopy, payloadoffset).

Fixpoint input_copy (fuel : nat) (q : Z) (r : rxpos) : MD unit :=
  if q =? 0 then skip else
  match fuel with
  | O => halt_with Spin
  | S fuel =>
      qb ← in_pb (pb_get q);
      w ← input_while output_fuel q r (pb_len qb) 0;
      let '(r, byteslefttocopy, payloadoffset) := w in
      from_rx q payloadoffset (rp_buffer r) (rp_off r) byteslefttocopy ;;
      qb ← in_pb (pb_get q);
      input_copy fuel (pb_next qb) (RxPos (rp_desc r) (rp_buffer r) (rp_off r + byteslefttocopy))
  end.

(** [for(i=0;i<SegCount;i++)]: the descriptors go back to the DMA. *)
Fixpoint release_rx (n : nat) (d : Z) : M mac unit :=
  match n with
  | O => skip
  | S n => on_rx d (set_status ETH_DMARXDESC_OWN) ;; dd ← rd RxTab d; release_rx n (Buffer2NextDescAddr dd)
  end.

Definition low_level_input : MD Z :=
  st ← in_mac HAL_ETH_GetReceivedFrame;
  if negb (bool_decide (st = HAL_OK)) then mret 0 else
  in_mac INTX_DISABLE ;;
  len ← gets (fun s => u16 (frame_length (dv_mac s)));
  buffer ← gets (fun s => frame_buffer (dv_mac s));
  p ← (if len >? 0 then in_pb (pbuf_alloc_pool PBUF_RAW len) else mret 0);
  first ← gets (fun s => FSRxDesc (dv_mac s));
  (if p =? 0 then skip else n ← in_pb walk_fuel; input_copy n p (RxPos first buffer 0)) ;;
  n ← gets (fun s => SegCount (dv_mac s));
  in_mac (release_rx (Z.to_nat n) first) ;;
  in_mac (SegCount ::= 0) ;;
  sr ← gets (fun s => DMASR (dv_mac s));
  (if negb (Z.land sr ETH_DMASR_RBUS =? 0) then
     in_mac (DMASR_clear ETH_DMASR_RBUS ;; n ← gets DMARPDR; DMARPDR ::= n + 1)
   else skip) ;;
  in_mac INTX_ENABLE ;;
  mret p.
End ethernetif.

(** ** tcpip.c and the interrupt *)

(** The driver, the packets in the messages to the task of lwIP, and its mailbox. *)
Record nif {St : Type} := Nif { nif_drv : drv; nif_msg : gmap Z Z; nif_mbox : St }.
Arguments nif : clear implicits.
Arguments Nif {St}.
#[export] Instance nif_eta St : Eta (nif St) := fun s => Nif (nif_drv s) (nif_msg s) (nif_mbox s).
#[export] Instance upd_nif_drv St : Upd (@nif_drv St) := ltac:(derive_upd).
#[export] Instance upd_nif_msg St : Upd (@nif_msg St) := ltac:(derive_upd).
#[export] Instance upd_nif_mbox St : Upd (@nif_mbox St) := ltac:(derive_upd).

Section interrupt.
Context {St : Type} `{!MessageQueue St}.
(** The address of the constant that stands for a null message. *)
Context (pvNullPointer : Z).
Local Notation MN := (M (nif St)).
Definition in_drv {A} (c : M drv A) : MN A := zoom nif_drv c.
Definition in_mbox {A} (c : M St A) : MN A := zoom nif_mbox c.

Definition ERR_VAL : Z := -6.

(** The message has type [TCPIP_MSG_INPKT] and the one interface of the unit. *)
Definition tcpip_input (p : Z) : MN Z :=
  valid ← in_mbox sys_mbox_valid;
  if valid =? 0 then mret ERR_VAL else
  msg ← in_drv (in_pb (memp_malloc MEMP_TCPIP_MSG_INPKT));
  if msg =? 0 then mret ERR_MEM else
  m ← gets nif_msg;
  nif_msg ::= <[msg := p]> m ;;
  err ← in_mbox (sys_mbox_trypost pvNullPointer msg);
  if negb (err =? ERR_OK) then
    in_drv (in_pb (memp_free MEMP_TCPIP_MSG_INPKT msg)) ;; mret ERR_MEM
  else mret ERR_OK.

Definition ethernetif_input : MN Z :=
  p ← in_drv low_level_input;
  if p =? 0 then mret ERR_MEM else
  err ← tcpip_input p;
  (if negb (err =? ERR_OK) then _ ← in_drv (in_pb (pbuf_free p)); skip else skip) ;;
  mret err.

Definition lwip_pkt_handle : MN unit := _ ← ethernetif_input; skip.

(** [while(ETH_GetRxPktSize(ETH_Handler.RxDesc))] *)
Fixpoint irq_loop (fuel : nat) : MN unit :=
  r ← gets (fun s => RxDesc (dv_mac (nif_drv s)));
  d ← in_drv (in_mac (rd RxTab r));
  if ETH_GetRxPktSize (Status d) =? 0 then skip else
  match fuel with
  | O => halt_with Spin
  | S fuel => lwip_pkt_handle ;; irq_loop fuel
  end.

(** A frame more than there are descriptors. *)
Definition irq_fuel : nat := 11.

(** [ETH_IRQHandler].  [OSIntEnter] and [OSIntExit] around it count the nesting and
    switch tasks at the end: they are left out, as nobody waits at the mailbox. *)
Definition ETH_IRQHandler : MN unit :=
  irq_loop irq_fuel ;;
  in_drv (in_mac (DMASR_clear ETH_DMA_IT_R ;; DMASR_clear ETH_DMA_IT_NIS)).
End interrupt.
