(* ===== verification/EthSpec.v ===== *)
(** * What the Ethernet driver promises

    Reception: every frame that waits in the ring of descriptors becomes a packet in
    the mailbox of the task of lwIP, in order, as far as there is room; every
    descriptor goes back to the DMA. Transmission: a frame is handed over whole or not
    at all. *)
From Stdlib Require Import ZArith Lia.
From stdpp Require Import base tactics decidable list list_numbers numbers gmap functions relations.
From S2P Require Import Prelude Udp Net Kernel OsQueue SysArch Pbuf PbufSpec PbufData PbufInv PbufLife Eth.
Open Scope Z_scope.
Open Scope c_scope.

(** ** Running code of a part *)
Lemma in_mac_run {A} (c : M mac A) a m m' pb : c m = Done a m' -> in_mac c (Drv m pb) = Done a (Drv m' pb).
Proof. intros E. unfold in_mac, zoom. cbn. by rewrite E. Qed.

Lemma in_pb_run {A} (c : MP A) a m pb pb' : c pb = Done a pb' -> in_pb c (Drv m pb) = Done a (Drv m pb').
Proof. intros E. unfold in_pb, zoom. cbn. by rewrite E. Qed.

Lemma copy_out_run {S A} (l : list A) off n (s : S) :
  0 <= off -> 0 <= n -> off + n <= Z.of_nat (length l) ->
  copy_out l off n s = Done (take (Z.to_nat n) (drop (Z.to_nat off) l)) s.
Proof. intros. unfold copy_out. by rewrite bool_decide_eq_true_2 by lia. Qed.

Lemma on_rx_run i f d m : RxTab m !! Z.to_nat i = Some d -> 0 <= i ->
  on_rx i f m = Done tt (m <| RxTab := <[Z.to_nat i := f d]> (RxTab m) |>).
Proof.
  intros Hd Hi. assert (index (RxTab m) i = Some d) as Ei by (unfold index; by rewrite bool_decide_eq_true_2).
  unfold on_rx. rewrite (bind_rd RxTab i d _ m Ei). apply wr_Done. apply lookup_lt_Some in Hd. lia.
Qed.

Lemma on_tx_run i f d m : TxTab m !! Z.to_nat i = Some d -> 0 <= i ->
  on_tx i f m = Done tt (m <| TxTab := <[Z.to_nat i := f d]> (TxTab m) |>).
Proof.
  intros Hd Hi. assert (index (TxTab m) i = Some d) as Ei by (unfold index; by rewrite bool_decide_eq_true_2).
  unfold on_tx. rewrite (bind_rd TxTab i d _ m Ei). apply wr_Done. apply lookup_lt_Some in Hd. lia.
Qed.

(** ** The ring of received frames *)
Definition ring_next (n i : Z) : Z := (i + 1) mod n.

(** The [i]-th descriptor of a ring of [n] points to the [i]-th buffer and to the next
    descriptor. *)
Definition desc_ok (n size i : Z) (d : desc) : Prop :=
  Buffer1Addr d = i * size /\ Buffer2NextDescAddr d = ring_next n i.

Record rx_ok (m : mac) : Prop := {
  ro_tab : length (RxTab m) = Z.to_nat ETH_RXBUFNB;
  ro_desc i d : RxTab m !! i = Some d -> desc_ok ETH_RXBUFNB ETH_RX_BUF_SIZE (Z.of_nat i) d;
  ro_buff : Z.of_nat (length (RxBuff m)) = ETH_RXBUFNB * ETH_RX_BUF_SIZE;
  ro_cur : 0 <= RxDesc m < ETH_RXBUFNB;
  ro_seg : SegCount m = 0;
  ro_lock : Lock m = false;
}.

(** A frame of [n] bytes in one descriptor: given back by the DMA without an error,
    with the length of the frame and its checksum. *)
Record whole (st n : Z) : Prop := {
  wh_own : Z.land st ETH_DMARXDESC_OWN = 0;
  wh_es : Z.land st 0x8000 = 0;
  wh_ls : Z.land st ETH_DMARXDESC_LS <> 0;
  wh_len : Z.shiftr (Z.land st ETH_DMARXDESC_FL) 16 = n + 4;
  wh_range : 0 < n <= ETH_RX_BUF_SIZE - 4;
}.

Definition rx_data (m : mac) (i n : Z) : list Z :=
  take (Z.to_nat n) (drop (Z.to_nat (i * ETH_RX_BUF_SIZE)) (RxBuff m)).

(** After [HAL_ETH_GetReceivedFrame]. *)
Definition received (m : mac) (n : Z) : mac :=
  Mac false STATE_READY (TxDesc m) (ring_next ETH_RXBUFNB (RxDesc m)) (RxDesc m) (Some (RxDesc m)) 1 n
    (RxDesc m * ETH_RX_BUF_SIZE) (TxTab m) (RxTab m) (TxBuff m) (RxBuff m) (DMASR m) (DMATPDR m) (DMARPDR m) (irq_enabled m).

Lemma rx_index m d : rx_ok m -> RxTab m !! Z.to_nat (RxDesc m) = Some d -> index (RxTab m) (RxDesc m) = Some d.
Proof. intros [_ _ _ H _ _] Hd. unfold index. by rewrite bool_decide_eq_true_2 by lia. Qed.

Lemma get_received m d n :
  rx_ok m -> RxTab m !! Z.to_nat (RxDesc m) = Some d -> whole (Status d) n ->
  HAL_ETH_GetReceivedFrame m = Done HAL_OK (received m n).
Proof.
  intros Hok Hd [Ho He Hls Hlen Hn]. pose proof (rx_index m d Hok Hd) as Ei. pose proof Hok as [_ Hdesc _ Hr Hseg Hlock].
  destruct (Hdesc _ _ Hd) as [Hb Hnext]. rewrite Z2Nat.id in Hb, Hnext by lia.
  destruct m as [lk st tx rx fs ls sc fl fb tt rt tb rb sr tp rp ie]. cbn in *. subst sc lk.
  unfold HAL_ETH_GetReceivedFrame, locked. rewrite bind_gets. cbn [Lock]. rewrite !bind_put, bind_gets. cbn.
  rewrite (bind_rd RxTab rx d) by done. rewrite Ho. cbn [Z.eqb]. rewrite bind_gets. cbn.
  rewrite (proj2 (Z.eqb_neq _ 0) Hls). cbn [negb]. rewrite bind_put. change (u32 (0 + 1)) with 1.
  cbn [Z.eqb Pos.eqb]. rewrite !bind_put, bind_gets, (bind_rd RxTab rx d) by done.
  rewrite !bind_put. unfold unlock_with. rewrite !bind_put. unfold mret, M_ret, received. cbn.
  rewrite Hnext, Hb, Hlen. replace (u32 (n + 4 - 4)) with n; [done|].
  unfold u32, ETH_RX_BUF_SIZE in *. rewrite Z.mod_small; lia.
Qed.

(** ** Copying a frame into a packet *)
Lemma windows_in_a_row {A} (l : list A) (a i j : nat) :
  take i (drop a l) ++ take j (drop (a + i) l) = take (i + j) (drop a l).
Proof. rewrite <- drop_drop. symmetry. rewrite <- take_take_drop. done. Qed.

Lemma from_rx_run m pb q b buffer off n :
  pb_mem pb !! q = Some b -> within b -> 0 <= n <= pb_len b -> 0 <= buffer + off ->
  buffer + off + n <= Z.of_nat (length (RxBuff m)) ->
  from_rx q 0 buffer off n (Drv m pb) =
    Done tt (Drv m (with_pb q (written 0 (take (Z.to_nat n) (drop (Z.to_nat (buffer + off)) (RxBuff m))) b) pb)).
Proof.
  intros Hb Hw Hn Ho Hl. unfold from_rx. rewrite bind_gets. cbn [dv_mac].
  rewrite (bind_Done _ _ _ _ _ (copy_out_run _ _ _ _ Ho (proj1 Hn) Hl)).
  apply in_pb_run, pb_write_run; [done|done|lia|]. rewrite length_take, length_drop. lia.
Qed.

Lemma input_while_done fuel q r left payloadoffset s :
  left + rp_off r <= ETH_RX_BUF_SIZE -> input_while fuel q r left payloadoffset s = Done (r, left, payloadoffset) s.
Proof. intros H. destruct fuel; cbn [input_while]; rewrite Z.gtb_ltb; by rewrite (proj2 (Z.ltb_ge _ _)) by lia. Qed.

Lemma input_copy_ok fuel : forall l q r buffer off m pb,
  seg (pb_mem pb) q l 0 -> NoDup l -> ~ 0 ∈ l -> all_within (pb_mem pb) l ->
  0 <= off -> off + total (pb_mem pb) l <= ETH_RX_BUF_SIZE -> 0 <= buffer ->
  buffer + off + total (pb_mem pb) l <= Z.of_nat (length (RxBuff m)) -> (length l < fuel)%nat ->
  exists pb', input_copy fuel q (RxPos r buffer off) (Drv m pb) = Done tt (Drv m pb') /\ rewritten l pb pb' /\
    bytes (pb_mem pb') l = take (Z.to_nat (total (pb_mem pb) l)) (drop (Z.to_nat (buffer + off)) (RxBuff m)).
Proof.
  induction fuel as [|fuel IH]; intros l q r buffer off m pb Hseg Hnd H0 Hw Hoff Hsz Hbu Hlen Hf; [lia|].
  destruct l as [|a l].
  { cbn in Hseg. subst q. exists pb. split_and!; [done|apply rewritten_refl|done]. }
  destruct Hseg as [-> (b & Hb & Hseg)]. apply list.NoDup_cons in Hnd as [Ha Hnd].
  rewrite not_elem_of_cons in H0. destruct H0 as [Ha0 H0].
  destruct (Hw a) as (b0 & Hb0 & Hwb); [by left|]. rewrite Hb in Hb0. injection Hb0 as <-.
  assert (all_within (pb_mem pb) l) as Hwl by (intros c Hc; apply Hw; by right).
  pose proof (total_nonneg _ _ Hwl) as Htl.
  assert (total (pb_mem pb) (a :: l) = pb_len b + total (pb_mem pb) l) as Et.
  { change (from_option pb_len 0 (pb_mem pb !! a) + total (pb_mem pb) l = pb_len b + total (pb_mem pb) l). by rewrite Hb. }
  rewrite Et in *. pose proof Hwb as (Hw1 & Hw2 & Hw3).
  set (data := take (Z.to_nat (pb_len b)) (drop (Z.to_nat (buffer + off)) (RxBuff m))).
  assert (Z.of_nat (length data) = pb_len b) as Hd by (subst data; rewrite length_take, length_drop; lia).
  set (b1 := written 0 data b). set (pb1 := with_pb a b1 pb).
  assert (forall c, c ∈ l -> pb_mem pb1 !! c = pb_mem pb !! c) as Hsame.
  { intros c Hcl. cbn. rewrite lookup_insert_ne; [done|by intros ->]. }
  assert (total (pb_mem pb1) l = total (pb_mem pb) l) as Et1 by (apply total_same; intros c Hc; by rewrite Hsame).
  destruct (IH l (pb_next b) r buffer (off + pb_len b) m pb1) as (pb' & E & Hr & Hbytes); rewrite ?Et1; try done; try lia.
  - eapply seg_same; [|exact Hseg]. intros c Hc. by rewrite Hsame.
  - intros c Hc. rewrite Hsame by done. by apply Hwl.
  - cbn in Hf. lia.
  - exists pb'. split_and!.
    + cbn [input_copy]. rewrite (proj2 (Z.eqb_neq a 0)) by done.
      rewrite (bind_Done _ _ _ _ _ (in_pb_run _ _ m pb pb (pb_get_run pb a b Hb))).
      rewrite (bind_Done _ _ _ _ _ (input_while_done output_fuel a (RxPos r buffer off) (pb_len b) 0 (Drv m pb) ltac:(cbn; lia))).
      cbn [rp_buffer rp_off rp_desc].
      rewrite (bind_Done _ _ _ _ _ (from_rx_run m pb a b buffer off (pb_len b) Hb Hwb ltac:(lia) ltac:(lia) ltac:(lia))).
      fold data b1 pb1. rewrite (bind_Done _ _ _ b1 (Drv m pb1)); [exact E|]. apply in_pb_run, pb_get_run. apply lookup_insert_eq.
    + apply (rewritten_cons a l pb pb' b (pb_data b1)); [done|done| |exact Hr].
      apply written_length; [done|lia|lia].
    + rewrite bytes_cons, Hbytes, (rw_others _ _ _ Hr a Ha).
      change (pb_mem pb1 !! a) with (<[a := b1]> (pb_mem pb) !! a). rewrite lookup_insert_eq. cbn [from_option].
      subst b1. rewrite contents_written by (done || lia). change (Z.to_nat 0) with 0%nat. rewrite blit_0.
      pose proof (contents_length b Hwb). rewrite (drop_ge (contents b)), app_nil_r by lia. subst data. rewrite Et1.
      replace (Z.to_nat (buffer + (off + pb_len b))) with (Z.to_nat (buffer + off) + Z.to_nat (pb_len b))%nat by lia.
      rewrite windows_in_a_row. f_equal. lia.
Qed.

(** ** [low_level_input] *)

(** The DMA is woken up when it had no descriptor left. *)
Definition resumed (m : mac) : mac :=
  if Z.land (DMASR m) ETH_DMASR_RBUS =? 0 then m
  else m <| DMASR := Z.ldiff (DMASR m) ETH_DMASR_RBUS |> <| DMARPDR := DMARPDR m + 1 |>.

(** After a frame of [n] bytes in the descriptor [d]: it is back with the DMA. *)
Definition rx_done (m : mac) (n : Z) (d : desc) : mac :=
  (resumed ((received m n) <| irq_enabled := false |>
    <| RxTab := <[Z.to_nat (RxDesc m) := set_status ETH_DMARXDESC_OWN d]> (RxTab m) |> <| SegCount := 0 |>))
  <| irq_enabled := true |>.

Lemma rx_done_fields m n d :
  RxTab (rx_done m n d) = <[Z.to_nat (RxDesc m) := set_status ETH_DMARXDESC_OWN d]> (RxTab m) /\
  RxBuff (rx_done m n d) = RxBuff m /\ RxDesc (rx_done m n d) = ring_next ETH_RXBUFNB (RxDesc m) /\
  SegCount (rx_done m n d) = 0 /\ Lock (rx_done m n d) = false /\
  TxTab (rx_done m n d) = TxTab m /\ TxBuff (rx_done m n d) = TxBuff m /\ TxDesc (rx_done m n d) = TxDesc m.
Proof. unfold rx_done, resumed. by case_match. Qed.

Lemma ring_next_range n i : 0 < n -> 0 <= ring_next n i < n.
Proof. intros Hn. by apply Z.mod_pos_bound. Qed.

Lemma rx_done_ok m n d : rx_ok m -> RxTab m !! Z.to_nat (RxDesc m) = Some d -> rx_ok (rx_done m n d).
Proof.
  intros [H1 H2 H3 H4 H5 H6] Hd. destruct (rx_done_fields m n d) as (E1 & E2 & E3 & E4 & E5 & _).
  constructor; rewrite ?E1, ?E2, ?E3, ?E4, ?E5; try done.
  - by rewrite length_insert.
  - intros i d'. destruct (decide (i = Z.to_nat (RxDesc m))) as [->|Hi].
    + rewrite list_lookup_insert_eq by (by apply lookup_lt_Some in Hd). intros [= <-]. exact (H2 _ _ Hd).
    + rewrite list_lookup_insert_ne by done. apply H2.
  - by apply ring_next_range.
Qed.

(** The end of [low_level_input], for one descriptor. *)
Lemma release_run m n d pb p :
  rx_ok m -> RxTab m !! Z.to_nat (RxDesc m) = Some d ->
  ((n ← gets (fun s => SegCount (dv_mac s));
   in_mac (release_rx (Z.to_nat n) (RxDesc m)) ;;
   in_mac (SegCount ::= 0) ;;
   sr ← gets (fun s => DMASR (dv_mac s));
   (if negb (Z.land sr ETH_DMASR_RBUS =? 0) then
      in_mac (DMASR_clear ETH_DMASR_RBUS ;; n ← gets DMARPDR; DMARPDR ::= n + 1)
    else skip) ;;
   in_mac INTX_ENABLE ;;
   mret p) : M drv Z) (Drv ((received m n) <| irq_enabled := false |>) pb) = Done p (Drv (rx_done m n d) pb).
Proof.
  intros Hok Hd. pose proof (ro_cur _ Hok) as Hr. rewrite bind_gets. cbn [dv_mac].
  change (SegCount _) with 1. change (Z.to_nat 1) with 1%nat. cbn [release_rx].
  set (m1 := (received m n) <| irq_enabled := false |>).
  set (m2 := m1 <| RxTab := <[Z.to_nat (RxDesc m) := set_status ETH_DMARXDESC_OWN d]> (RxTab m) |>).
  rewrite (bind_Done _ _ _ tt (Drv m2 pb)).
  2:{ apply in_mac_run. rewrite (bind_Done _ _ _ _ _ (on_rx_run _ _ d m1 Hd ltac:(lia))).
      rewrite (bind_rd RxTab (RxDesc m) (set_status ETH_DMARXDESC_OWN d)); [done|].
      unfold index. rewrite bool_decide_eq_true_2 by lia. apply list_lookup_insert_eq. by apply lookup_lt_Some in Hd. }
  set (m3 := m2 <| SegCount := 0 |>). rewrite (bind_Done _ _ _ tt (Drv m3 pb)) by done.
  rewrite bind_gets. cbn [dv_mac]. unfold rx_done, resumed. fold m1 m2 m3. destruct (Z.land (DMASR m3) ETH_DMASR_RBUS =? 0) eqn:E.
  all: done.
Qed.

(** The first buffer of a packet of [n] bytes with no room in front. *)
Definition raw_front (pb : pbufs) (p n : Z) : Prop :=
  exists b, pb_mem pb !! p = Some b /\ pb_payload b = 0 /\ pb_len b = Z.min n PBUF_POOL_BUFSIZE_ALIGNED.

(** [pb'] is [pb] with the buffers [l], the first ones of the pool, taken as one packet
    that holds [data]. *)
Record new_packet (pb pb' : pbufs) (l data : list Z) : Prop := {
  np_pool : pool pb = l ++ pool pb';
  np_chain : chain pb' (hd 0 l) l;
  np_bytes : bytes (pb_mem pb') l = data;
  np_front : raw_front pb' (hd 0 l) (Z.of_nat (length data));
  np_refs a : a ∈ l -> exists b, pb_mem pb' !! a = Some b /\ pb_ref b = 1;
  np_same : same_pools pb pb';
  np_others a : a ∉ l -> pb_mem pb' !! a = pb_mem pb !! a;
}.

(** Nothing in use is different. *)
Record same_use (pb pb' : pbufs) : Prop := {
  su_pool : pool pb' ≡ₚ pool pb;
  su_same : same_pools pb pb';
  su_others a : a ∉ pool pb -> pb_mem pb' !! a = pb_mem pb !! a;
}.

Lemma alloc_packet all own pb n :
  pool_inv all own pb -> 0 <= n < 2 ^ 16 ->
  if decide (needed PBUF_RAW n <= length (pool pb))%nat then
    exists p l pb', pbuf_alloc_pool PBUF_RAW n pb = Done p pb' /\ p <> 0 /\ p = hd 0 l /\
      length l = needed PBUF_RAW n /\ total (pb_mem pb') l = n /\
      pool_inv all (<[p := 1]> own) pb' /\ new_packet pb pb' l (bytes (pb_mem pb') l)
  else exists pb', pbuf_alloc_pool PBUF_RAW n pb = Done 0 pb' /\ pool_inv all own pb' /\ same_use pb pb'.
Proof.
  intros Hi Hn. pose proof (pi_ok _ _ _ Hi) as Hok. pose proof (alloc_pool_ok own pb PBUF_RAW n Hok Hn) as H. case_decide as Hk.
  - destruct H as (pb' & E & Hp0 & Hok' & Hp & Hpk & Hs & Hm). set (l := take (needed PBUF_RAW n) (pool pb)) in *.
    assert (hd 0 (pool pb) = hd 0 l) as Ehd by (subst l; unfold needed; by destruct (pool pb)).
    exists (hd 0 (pool pb)), l, pb'. split_and!; [done|done|done|subst l; rewrite length_take; lia|apply Hpk|by eapply inv_alloc_new|].
    constructor; [by rewrite Hp; subst l; rewrite take_drop| |done| | |done|done].
    + apply (packet_chain own PBUF_RAW pb' pb _ n Hok); [|eapply sublist_NoDup; [apply Hok|apply sublist_take]|exact Hpk].
      intros a (i & Hi' & _)%elem_of_take. by eapply list_elem_of_lookup_2.
    + destruct (pk_front _ _ _ _ Hpk) as (b & Hb & Hbp & Hbl).
      rewrite bytes_length, (pk_total _ _ _ _ Hpk) by (intros a Ha; destruct (pk_refs _ _ _ _ Hpk a Ha) as (c & Hc & _ & Hw); by exists c).
      exists b. by rewrite Hbp, Hbl.
    + intros a Ha. destruct (pk_refs _ _ _ _ Hpk a Ha) as (b & Hb & Hr & _). by exists b.
  - destruct H as (pb' & E & Hok' & Hp & Hs & Hm). exists pb'. split_and!; [done|by eapply inv_alloc_none|by constructor].
Qed.

Lemma chain_nonnull s p l : chain s p l -> l <> [] -> p = hd 0 l.
Proof. intros [Hs _ _ _ _] Hl. destruct l as [|a l]; [done|]. by destruct Hs as [-> _]. Qed.

Lemma new_packet_rewritten pb pb1 pb2 l data :
  new_packet pb pb1 l data -> rewritten l pb1 pb2 -> new_packet pb pb2 l (bytes (pb_mem pb2) l).
Proof.
  intros [H1 H2 <- Hfr H4 H5 H6] Hr. pose proof Hr as [Ht Hf Ho Hd]. constructor.
  - unfold pool at 2. rewrite Ht. exact H1.
  - by eapply rewritten_chain.
  - done.
  - destruct Hfr as (b & Hb & Hbp & Hbl). pose proof (rewritten_chain _ _ _ _ H2 Hr) as H2'.
    rewrite (bytes_length _ _ (ch_within _ _ _ H2)) in Hbl.
    rewrite (bytes_length _ _ (ch_within _ _ _ H2')), (rewritten_total _ _ _ _ H2 Hr).
    destruct (decide (hd 0 l ∈ l)) as [Hin|Hni]; [|by exists b; rewrite Ho].
    destruct (Hd _ b Hin Hb) as (dd & E & _). by eexists.
  - intros a Ha. destruct (H4 a Ha) as (b & Hb & Hb1). destruct (Hd a b Ha Hb) as (dd & E & _). by eexists.
  - destruct H5 as [H51 H52]. split; [by rewrite Hf|]. intros t Hne. rewrite Ht. by apply H52.
  - intros a Ha. by rewrite Ho, H6.
Qed.

Lemma low_level_input_ok all own m pb d n :
  rx_ok m -> RxTab m !! Z.to_nat (RxDesc m) = Some d -> whole (Status d) n -> pool_inv all own pb ->
  if decide (needed PBUF_RAW n <= length (pool pb))%nat then
    exists p l pb', low_level_input (Drv m pb) = Done p (Drv (rx_done m n d) pb') /\ p <> 0 /\ p = hd 0 l /\
      length l = needed PBUF_RAW n /\ pool_inv all (<[p := 1]> own) pb' /\ new_packet pb pb' l (rx_data m (RxDesc m) n)
  else exists pb', low_level_input (Drv m pb) = Done 0 (Drv (rx_done m n d) pb') /\ pool_inv all own pb' /\ same_use pb pb'.
Proof.
  intros Hok Hd Hwh Hi. pose proof (wh_range _ _ Hwh) as Hn. pose proof (ro_cur _ Hok) as Hc. pose proof (ro_buff _ Hok) as Hbuf.
  unfold low_level_input. rewrite (bind_Done _ _ _ _ _ (in_mac_run _ _ _ _ pb (get_received m d n Hok Hd Hwh))).
  rewrite bool_decide_eq_true_2 by done. cbn [negb]. set (m1 := (received m n) <| irq_enabled := false |>).
  rewrite (bind_Done _ _ _ tt (Drv m1 pb)) by done. rewrite !bind_gets. cbn [dv_mac].
  change (frame_length m1) with n. change (frame_buffer m1) with (RxDesc m * ETH_RX_BUF_SIZE).
  unfold ETH_RX_BUF_SIZE, ETH_RXBUFNB in Hn, Hbuf, Hc.
  assert (u16 n = n) as -> by (unfold u16; rewrite Z.mod_small; lia). rewrite (proj2 (Z.gtb_lt n 0)) by lia.
  pose proof (alloc_packet all own pb n Hi ltac:(lia)) as H. case_decide as Hk.
  - destruct H as (p & l & pb1 & E & Hp0 & Hpl & Hl & Ht & Hi1 & Hnp).
    pose proof (np_chain _ _ _ _ Hnp) as Hch. pose proof Hch as [Hseg Hnd H0 Hw _].
    destruct (input_copy_ok (S (size (pb_mem pb1))) l p (RxDesc m) (RxDesc m * ETH_RX_BUF_SIZE) 0 m1 pb1) as (pb2 & E2 & Hr & Hb2);
      try done; unfold ETH_RX_BUF_SIZE; rewrite ?Ht; try lia.
    { by rewrite Hpl. }
    { change (RxBuff m1) with (RxBuff m). lia. }
    { by apply walk_enough. }
    exists p, l, pb2. split_and!; [|done|done|done| |].
    + rewrite (bind_Done _ _ _ _ _ (in_pb_run _ _ m1 _ _ E)), bind_gets. cbn [dv_mac]. change (FSRxDesc m1) with (RxDesc m).
      rewrite (proj2 (Z.eqb_neq p 0)) by done. rewrite bind_bind.
      rewrite (bind_Done _ _ _ (S (size (pb_mem pb1))) (Drv m1 pb1)) by done. rewrite (bind_Done _ _ _ _ _ E2).
      exact (release_run m n d pb2 p Hok Hd).
    + eapply inv_same_links; [exact Hi1|]. eapply rewritten_links; [|exact Hr]. intros a Ha. destruct (Hw a Ha) as (b & Hb & _). by exists b.
    + rewrite Ht, Z.add_0_r in Hb2. change (RxBuff m1) with (RxBuff m) in Hb2. unfold rx_data. rewrite <- Hb2.
      by eapply new_packet_rewritten.
  - destruct H as (pb1 & E & Hi1 & Hsu). exists pb1. split_and!; [|done|done].
    rewrite (bind_Done _ _ _ _ _ (in_pb_run _ _ m1 _ _ E)), bind_gets. cbn [dv_mac Z.eqb]. change (FSRxDesc m1) with (RxDesc m).
    exact (release_run m n d pb1 0 Hok Hd).
Qed.

(** ** From the driver to the mailbox *)
Lemma inv_ext all own s s' : pool s' = pool s -> pb_mem s' = pb_mem s -> pool_inv all own s -> pool_inv all own s'.
Proof.
  intros Ep Em [[H1 H2 H3 H4 H5] Hac Hall].
  assert (live s' = live s) as El by (apply map_eq; intros a; by rewrite !live_lookup, Ep, Em).
  constructor; [constructor|..]; by rewrite ?Ep, ?Em, ?El.
Qed.

Lemma free_unowned all own s a : pool_inv all own s -> a ∈ pool s -> own a = 0.
Proof.
  intros [Hok _ _] Ha. destruct (decide (own a = 0)) as [|Hne]; [done|].
  destruct (co_own _ _ (po_counts _ _ Hok) a) as [_ Hs]. destruct (Hs Hne) as [b Hb]. by apply live_pool_disjoint in Hb.
Qed.

(** A packet that is not wanted goes back to the pool. *)
Lemma drop_packet all own pb pb' l data :
  pool_inv all own pb -> pool_inv all (<[hd 0 l := 1]> own) pb' -> l <> [] -> new_packet pb pb' l data ->
  exists n pb2, pbuf_free (hd 0 l) pb' = Done n pb2 /\ pool_inv all own pb2 /\ same_use pb pb2.
Proof.
  intros Hi Hi' Hl [Hp Hch Hb _ Hrefs Hs Hm]. set (p := hd 0 l) in *.
  assert (p ∈ l) as Hpl by (subst p; destruct l; [done|by left]).
  assert (own p = 0) as Ho by (apply (free_unowned all own pb); [done|rewrite Hp; apply elem_of_app; by left]).
  pose proof Hch as [Hseg Hnd H0 _ _]. pose proof (pi_ok _ _ _ Hi') as Hok'.
  destruct (alloc_fails (<[p := 1]> own) pb' p l Hok' Hseg Hnd) as (n & pb2 & E & _ & Hp2 & Hs2 & Hm2).
  - by rewrite fn_lookup_insert.
  - intros a Ha. destruct (Hrefs a Ha) as (b & Hba & Hr). exists b. split; [|done]. apply live_Some. split; [done|].
    pose proof (po_nodup _ _ (pi_ok _ _ _ Hi)) as Hnd0. rewrite Hp in Hnd0. apply list.NoDup_app in Hnd0 as (_ & Hd & _). by apply Hd.
  - exists n, pb2. split; [done|]. destruct (inv_free all _ pb' p Hi') as (n' & pb3 & E3 & Hi3); [by rewrite fn_lookup_insert|].
    rewrite E in E3. injection E3 as <- <-. split.
    + destruct Hi3 as [H1 H2 H3]. constructor; [|done|done]. eapply pool_ok_ext; [|exact H1]. intros a.
      destruct (decide (p = a)) as [<-|]; [rewrite !fn_lookup_insert; lia|by rewrite !fn_lookup_insert_ne].
    + constructor.
      * rewrite Hp2, Hp. apply Permutation_app_tail. symmetry. apply Permutation_rev.
      * by eapply same_pools_trans.
      * intros a Ha. rewrite Hp, not_elem_of_app in Ha. rewrite Hm2, Hm by naive_solver. done.
Qed.

(** A packet of somebody, which holds [data]. *)
Definition holds (own : Z -> Z) (pb : pbufs) (p : Z) (data : list Z) : Prop :=
  0 < own p /\ raw_front pb p (Z.of_nat (length data)) /\ p ∉ pool pb /\ exists l, chain pb p l /\ bytes (pb_mem pb) l = data /\ forall a, a ∈ l -> a ∉ pool pb.

Lemma holds_keep own own' pb pb' p data :
  (forall a, a ∉ pool pb -> pb_mem pb' !! a = pb_mem pb !! a /\ a ∉ pool pb') -> 0 < own' p ->
  holds own pb p data -> holds own' pb' p data.
Proof.
  intros H Ho (_ & (b & Hfb & Hf) & Hp & l & Hch & Hb & Hl). split; [done|].
  split; [exists b; by rewrite (proj1 (H p Hp))|]. split; [by apply H|]. exists l.
  assert (forall a, a ∈ l -> pb_mem pb' !! a = pb_mem pb !! a) as Hs by (intros a Ha; by apply H, Hl).
  split_and!; [by eapply chain_same| |intros a Ha; by apply H, Hl].
  rewrite <- Hb. by apply bytes_same.
Qed.

(** ** Frames that wait in the ring *)
Definition frame_in (m : mac) (i : Z) (f : list Z) : Prop :=
  exists d, RxTab m !! Z.to_nat i = Some d /\ whole (Status d) (Z.of_nat (length f)) /\
    rx_data m i (Z.of_nat (length f)) = f.

(** The DMA has the [i]-th descriptor. *)
Definition owned (m : mac) (i : Z) : Prop :=
  exists d, RxTab m !! Z.to_nat i = Some d /\ Z.land (Status d) ETH_DMARXDESC_OWN <> 0.

Definition ring_at (m : mac) (k : nat) : Z := (RxDesc m + Z.of_nat k) mod ETH_RXBUFNB.

(** From the current descriptor on: the frames [fs], then one the driver leaves alone. *)
Record waiting (m : mac) (fs : list (list Z)) : Prop := {
  wt_len : Z.of_nat (length fs) <= ETH_RXBUFNB;
  wt_frames k f : fs !! k = Some f -> frame_in m (ring_at m k) f;
  wt_end d : Z.of_nat (length fs) < ETH_RXBUFNB ->
    RxTab m !! Z.to_nat (ring_at m (length fs)) = Some d -> ETH_GetRxPktSize (Status d) = 0;
}.

Lemma ring_at_0 m : rx_ok m -> ring_at m 0 = RxDesc m.
Proof. intros H. unfold ring_at. rewrite Z.add_0_r. apply Z.mod_small, H. Qed.

Lemma ring_at_S m n d k : rx_ok m -> ring_at (rx_done m n d) k = ring_at m (S k).
Proof.
  intros H. unfold ring_at. destruct (rx_done_fields m n d) as (_ & _ & -> & _). unfold ring_next.
  rewrite Zplus_mod_idemp_l. f_equal. lia.
Qed.

Lemma ring_at_other m k : rx_ok m -> (0 < k)%nat -> Z.of_nat k < ETH_RXBUFNB -> ring_at m k <> RxDesc m.
Proof.
  intros H Hk Hlt. pose proof (ro_cur _ H). unfold ring_at, ETH_RXBUFNB in *.
  intros E. Z.to_euclidean_division_equations. lia.
Qed.

Lemma ring_at_range m k : 0 <= ring_at m k < ETH_RXBUFNB.
Proof. by apply Z.mod_pos_bound. Qed.

Lemma whole_size st n : whole st n -> ETH_GetRxPktSize st <> 0.
Proof.
  intros [H1 H2 H3 H4 H5]. unfold ETH_GetRxPktSize. change 0x80000000 with ETH_DMARXDESC_OWN. rewrite H1, H2.
  change 0x100 with ETH_DMARXDESC_LS. rewrite (proj2 (Z.eqb_neq _ 0) H3). cbn [Z.eqb andb negb].
  change 0x3FFF0000 with ETH_DMARXDESC_FL. rewrite H4. lia.
Qed.

Lemma set_own st : Z.land (Z.lor st ETH_DMARXDESC_OWN) ETH_DMARXDESC_OWN = ETH_DMARXDESC_OWN.
Proof.
  apply Z.bits_inj. intros k. rewrite Z.land_spec, Z.lor_spec. by destruct (Z.testbit st k), (Z.testbit ETH_DMARXDESC_OWN k).
Qed.

Lemma own_size st : ETH_GetRxPktSize (Z.lor st ETH_DMARXDESC_OWN) = 0.
Proof.
  unfold ETH_GetRxPktSize. change 0x80000000 with ETH_DMARXDESC_OWN. by rewrite set_own.
Qed.

Lemma waiting_head m f fs : rx_ok m -> waiting m (f :: fs) -> frame_in m (RxDesc m) f.
Proof. intros Hok [_ H _]. rewrite <- (ring_at_0 m Hok). by apply H. Qed.

(** The descriptors after one frame. *)
Lemma rx_done_lookup m n d i :
  rx_ok m -> RxTab m !! Z.to_nat (RxDesc m) = Some d -> 0 <= i ->
  RxTab (rx_done m n d) !! Z.to_nat i =
    if decide (i = RxDesc m) then Some (set_status ETH_DMARXDESC_OWN d) else RxTab m !! Z.to_nat i.
Proof.
  intros Hok Hd Hi. pose proof (ro_cur _ Hok). destruct (rx_done_fields m n d) as (-> & _). case_decide as E.
  - subst i. apply list_lookup_insert_eq. by apply lookup_lt_Some in Hd.
  - rewrite list_lookup_insert_ne; [done|lia].
Qed.

Lemma waiting_tail m f fs d n :
  rx_ok m -> waiting m (f :: fs) -> RxTab m !! Z.to_nat (RxDesc m) = Some d -> waiting (rx_done m n d) fs.
Proof.
  intros Hok [H1 H2 H3] Hd. cbn [length] in *. destruct (rx_done_fields m n d) as (_ & Eb & _).
  assert (forall k, (k < length fs)%nat -> ring_at m (S k) <> RxDesc m) as Hne.
  { intros k Hk. apply ring_at_other; [done|lia|lia]. }
  constructor; [lia| |].
  - intros k g Hg. rewrite ring_at_S by done. destruct (H2 (S k) g Hg) as (dg & Hdg & Hw & Hdata).
    pose proof (ring_at_range m (S k)). pose proof (Hne k (lookup_lt_Some _ _ _ Hg)).
    exists dg. rewrite rx_done_lookup, decide_False by (done || lia). split_and!; [done|done|].
    unfold rx_data in *. by rewrite Eb.
  - intros dl Hlt. rewrite ring_at_S by done. pose proof (ring_at_range m (S (length fs))).
    rewrite rx_done_lookup by (done || lia). case_decide as E.
    + intros [= <-]. apply own_size.
    + apply H3. destruct (decide (Z.of_nat (S (length fs)) < ETH_RXBUFNB)) as [|Hge]; [done|]. destruct E.
      unfold ring_at. replace (Z.of_nat (S (length fs))) with (1 * ETH_RXBUFNB) by lia.
      rewrite Z.mod_add by done. apply Z.mod_small, Hok.
Qed.

Section mailbox.
Context {St : Type} `{!MessageQueue St, !MessageQueueLaws St} (pvNullPointer : Z).
Local Notation nif := (nif St).

Definition mac_of (s : nif) : mac := dv_mac (nif_drv s).
Definition pb_of (s : nif) : pbufs := dv_pb (nif_drv s).
Definition free_msgs (s : nif) : list Z := memp_tab (pb_of s) MEMP_TCPIP_MSG_INPKT.
Definition posted (s : nif) : list Z := mq_messages (nif_mbox s).

(** The frames [box] wait in the mailbox, oldest first. *)
Record nif_ok (all : gset Z) (own : Z -> Z) (box : list (list Z)) (s : nif) : Prop := {
  no_rx : rx_ok (mac_of s);
  no_pb : pool_inv all own (pb_of s);
  no_mbox : mq_ok (nif_mbox s);
  no_msgs : NoDup (free_msgs s ++ posted s);
  no_null : 0 ∉ free_msgs s ++ posted s;
  no_box : Forall2 (fun msg data => exists p, nif_msg s !! msg = Some p /\ holds own (pb_of s) p data) (posted s) box;
}.

(** Room for one more frame of [n] bytes. *)
Definition room (s : nif) (n : Z) : bool :=
  bool_decide (needed PBUF_RAW n <= length (pool (pb_of s)))%nat &&
  bool_decide (Z.of_nat (length (posted s)) < mq_size (nif_mbox s)) &&
  bool_decide (0 < length (free_msgs s))%nat.

Lemma in_mbox_run {A} (c : M St A) a d m b b' : c b = Done a b' -> in_mbox c (Nif d m b) = Done a (Nif d m b').
Proof. intros E. unfold in_mbox, zoom. cbn. by rewrite E. Qed.

Lemma in_drv_run {A} (c : M drv A) a d d' m (b : St) : c d = Done a d' -> in_drv c (Nif d m b) = Done a (Nif d' m b).
Proof. intros E. unfold in_drv, zoom. cbn. by rewrite E. Qed.

Lemma in_drv_pb_run {A} (c : MP A) a mc pb pb' m (b : St) :
  c pb = Done a pb' -> in_drv (in_pb c) (Nif (Drv mc pb) m b) = Done a (Nif (Drv mc pb') m b).
Proof. intros E. by apply in_drv_run, in_pb_run. Qed.

(** [tcpip_input] posts the packet, or finds no room and touches nothing. *)
Lemma tcpip_input_run p mc pb ms (b : St) :
  mq_ok b ->
  match memp_tab pb MEMP_TCPIP_MSG_INPKT with
  | msg :: rest =>
      if bool_decide (Z.of_nat (length (mq_messages b)) < mq_size b) then
        msg <> 0 ->
        exists b', tcpip_input pvNullPointer p (Nif (Drv mc pb) ms b) =
          Done ERR_OK (Nif (Drv mc (pb <| memp_tab := <[MEMP_TCPIP_MSG_INPKT := rest]> (memp_tab pb) |>)) (<[msg := p]> ms) b') /\
          mq_ok b' /\ mq_messages b' = mq_messages b ++ [msg] /\ mq_size b' = mq_size b
      else tcpip_input pvNullPointer p (Nif (Drv mc pb) ms b) = Done ERR_VAL (Nif (Drv mc pb) ms b)
  | [] => exists r, tcpip_input pvNullPointer p (Nif (Drv mc pb) ms b) = Done r (Nif (Drv mc pb) ms b) /\ r <> ERR_OK
  end.
Proof.
  intros Hok. unfold tcpip_input. rewrite (bind_Done _ _ _ _ _ (in_mbox_run _ _ _ ms _ _ (valid_run b Hok))).
  destruct (Z.ltb_spec (Z.of_nat (length (mq_messages b))) (mq_size b)) as [Hlt|Hge].
  2:{ rewrite bool_decide_eq_false_2 by lia. cbn [Z.eqb]. destruct (memp_tab pb _); [by exists ERR_VAL|done]. }
  rewrite bool_decide_eq_true_2 by done. cbn [Z.eqb].
  destruct (memp_tab pb MEMP_TCPIP_MSG_INPKT) as [|msg rest] eqn:E.
  - exists ERR_MEM. split; [|done].
    rewrite (bind_Done _ _ _ 0 (Nif (Drv mc pb) ms b)); [done|]. apply in_drv_pb_run. unfold memp_malloc. by rewrite bind_gets, E.
  - intros H0. set (pb1 := pb <| memp_tab := <[MEMP_TCPIP_MSG_INPKT := rest]> (memp_tab pb) |>).
    rewrite (bind_Done _ _ _ msg (Nif (Drv mc pb1) ms b)).
    2:{ apply in_drv_pb_run. unfold memp_malloc. by rewrite bind_gets, E. }
    rewrite (proj2 (Z.eqb_neq msg 0)) by done. rewrite bind_gets, bind_put.
    change (nif_msg (Nif (Drv mc pb1) ms b)) with ms.
    change (upd (g := nif_msg) (fun _ => <[msg := p]> ms) (Nif (Drv mc pb1) ms b)) with (Nif (Drv mc pb1) (<[msg := p]> ms) b).
    pose proof (trypost_run pvNullPointer msg b Hok) as Ht. rewrite bool_decide_eq_true_2 in Ht by done.
    destruct Ht as (b' & Eb & Hok' & Hm & Hs). exists b'. split_and!; [|done| |done].
    + by rewrite (bind_Done _ _ _ _ _ (in_mbox_run _ _ _ _ _ _ Eb)).
    + rewrite Hm. unfold message_of. by rewrite (proj2 (Z.eqb_neq msg 0)).
Qed.

Lemma needed_pos layer n : (0 < needed layer n)%nat.
Proof. unfold needed. lia. Qed.

(** A frame that is dropped. *)
Lemma nif_dropped all own box mc mc' pb pb' ms b :
  nif_ok all own box (Nif (Drv mc pb) ms b) -> rx_ok mc' -> pool_inv all own pb' -> same_use pb pb' ->
  nif_ok all own box (Nif (Drv mc' pb') ms b) /\ length (pool pb') = length (pool pb) /\
  memp_tab pb' MEMP_TCPIP_MSG_INPKT = memp_tab pb MEMP_TCPIP_MSG_INPKT.
Proof.
  intros [H1 H2 H3 H4 H5 H6] Hrx Hi [Hp [_ Ht] Hm].
  assert (memp_tab pb' MEMP_TCPIP_MSG_INPKT = memp_tab pb MEMP_TCPIP_MSG_INPKT) as Et by by apply Ht.
  split_and!; [|by rewrite Hp|done]. constructor; unfold free_msgs, posted, pb_of, mac_of in *; cbn in *; rewrite ?Et; try done.
  eapply Forall2_impl; [exact H6|]. intros msg data (p & Hpm & Hh). exists p. split; [done|].
  eapply holds_keep; [|apply Hh|exact Hh]. intros a Ha. split; [by apply Hm|by rewrite Hp].
Qed.

(** A frame that is delivered. *)
Lemma nif_delivered all own box mc mc' pb pb' l data ms b b' msg rest :
  nif_ok all own box (Nif (Drv mc pb) ms b) -> rx_ok mc' -> l <> [] -> hd 0 l <> 0 ->
  pool_inv all (<[hd 0 l := 1]> own) pb' -> new_packet pb pb' l data ->
  memp_tab pb MEMP_TCPIP_MSG_INPKT = msg :: rest -> mq_ok b' -> mq_messages b' = mq_messages b ++ [msg] ->
  nif_ok all (<[hd 0 l := 1]> own) (box ++ [data])
    (Nif (Drv mc' (pb' <| memp_tab := <[MEMP_TCPIP_MSG_INPKT := rest]> (memp_tab pb') |>)) (<[msg := hd 0 l]> ms) b').
Proof.
  intros [H1 H2 H3 H4 H5 H6] Hrx Hl Hp0 Hi [Hp Hch Hb Hfr Hrefs [_ Ht] Hm] Et Hq' Hms.
  unfold free_msgs, posted, pb_of, mac_of in *; cbn in *. rewrite Et in H4, H5.
  set (pb2 := pb' <| memp_tab := <[MEMP_TCPIP_MSG_INPKT := rest]> (memp_tab pb') |>).
  assert (pool pb2 = pool pb') as Ep2 by (unfold pool, pb2; cbn; by rewrite fn_lookup_insert_ne).
  assert (memp_tab pb2 MEMP_TCPIP_MSG_INPKT = rest) as Et2 by (unfold pb2; cbn; by rewrite fn_lookup_insert).
  assert (pool_inv all (<[hd 0 l := 1]> own) pb2) as Hi2 by (by eapply inv_ext; [..|exact Hi]).
  pose proof (po_nodup _ _ (pi_ok _ _ _ H2)) as Hnd. rewrite Hp in Hnd. apply list.NoDup_app in Hnd as (_ & Hdis & _).
  constructor; unfold free_msgs, posted, pb_of, mac_of; cbn [nif_drv nif_mbox nif_msg dv_mac dv_pb]; fold pb2; rewrite ?Et2, ?Hms; try done.
  - rewrite app_assoc, <- Permutation_cons_append. exact H4.
  - intros Hin. apply H5. rewrite !elem_of_app, list_elem_of_singleton in Hin. cbn. rewrite elem_of_cons, elem_of_app. naive_solver.
  - apply Forall2_app.
    + apply Forall2_same_length_lookup in H6 as [Hlen H6]. apply Forall2_same_length_lookup. split; [done|].
      intros i m0 d0 Hm0 Hd0. destruct (H6 i m0 d0 Hm0 Hd0) as (p & Hpm & Hh). exists p. split.
      * rewrite lookup_insert_ne; [done|]. intros <-. apply list.NoDup_cons in H4 as [Hn _]. apply Hn, elem_of_app. right.
        by eapply list_elem_of_lookup_2.
      * eapply holds_keep; [| |exact Hh].
        -- intros a Ha. rewrite Ep2. rewrite Hp, not_elem_of_app in Ha. split; [apply Hm; naive_solver|naive_solver].
        -- destruct (decide (hd 0 l = p)) as [<-|]; [by rewrite fn_lookup_insert|]. rewrite fn_lookup_insert_ne by done. apply Hh.
    + apply Forall2_cons. split; [|done]. exists (hd 0 l). rewrite lookup_insert_eq. split; [done|]. split; [by rewrite fn_lookup_insert|].
      split; [exact Hfr|]. split; [rewrite Ep2; apply Hdis; destruct l; [done|by left]|]. exists l. split_and!; [exact (chain_same pb' pb2 _ l (fun a _ => eq_refl) Hch)|done|]. intros a Ha. rewrite Ep2. by apply Hdis.
Qed.

(** No message is lost, and none is made. *)
Definition messages_kept (s s' : nif) : Prop := free_msgs s' ++ posted s' ≡ₚ free_msgs s ++ posted s.

#[local] Instance messages_kept_trans : Transitive messages_kept.
Proof. intros s1 s2 s3 H1 H2. unfold messages_kept in *. by rewrite H2. Qed.

(** One frame: delivered when there is room, dropped otherwise; its descriptor goes back. *)
Lemma ethernetif_input_ok all own box s d n :
  nif_ok all own box s -> RxTab (mac_of s) !! Z.to_nat (RxDesc (mac_of s)) = Some d -> whole (Status d) n ->
  exists r s', ethernetif_input pvNullPointer s = Done r s' /\ mac_of s' = rx_done (mac_of s) n d /\
    mq_size (nif_mbox s') = mq_size (nif_mbox s) /\ messages_kept s s' /\
    if room s n then
      (exists own', nif_ok all own' (box ++ [rx_data (mac_of s) (RxDesc (mac_of s)) n]) s') /\
      (length (pool (pb_of s')) + needed PBUF_RAW n = length (pool (pb_of s)))%nat /\
      length (posted s') = S (length (posted s)) /\ S (length (free_msgs s')) = length (free_msgs s)
    else r <> ERR_OK /\ nif_ok all own box s' /\ length (pool (pb_of s')) = length (pool (pb_of s)) /\
      posted s' = posted s /\ free_msgs s' = free_msgs s.
Proof.
  intros Hok Hd Hwh. pose proof Hok as [H1 H2 H3 H4 H5 _]. destruct s as [[mc pb] ms b].
  unfold room, messages_kept, free_msgs, posted, pb_of, mac_of in *. cbn [nif_drv nif_mbox nif_msg dv_mac dv_pb] in *.
  pose proof (rx_done_ok mc n d H1 Hd) as Hrx. pose proof (low_level_input_ok all own mc pb d n H1 Hd Hwh H2) as H.
  unfold ethernetif_input. case_decide as Hk.
  2:{ destruct H as (pb' & E & Hi & Hsu). exists ERR_MEM, (Nif (Drv (rx_done mc n d) pb') ms b).
      rewrite bool_decide_eq_false_2 by done. cbn [andb nif_drv dv_mac nif_mbox dv_pb].
      destruct (nif_dropped all own box mc _ pb pb' ms b Hok Hrx Hi Hsu) as (Hn & Hlen & Ht).
      split_and!; try done; [by rewrite (bind_Done _ _ _ _ _ (in_drv_run _ _ _ _ ms b E))|by rewrite Ht]. }
  destruct H as (p & l & pb' & E & Hp0 & -> & Hl & Hi & Hnp). rewrite (bool_decide_eq_true_2 (needed _ _ <= _)%nat) by done. cbn [andb].
  rewrite (bind_Done _ _ _ _ _ (in_drv_run _ _ _ _ ms b E)), (proj2 (Z.eqb_neq (hd 0 l) 0)) by done.
  assert (l <> []) as Hl0 by (intros ->; pose proof (needed_pos PBUF_RAW n); cbn in Hl; lia).
  assert (memp_tab pb' MEMP_TCPIP_MSG_INPKT = memp_tab pb MEMP_TCPIP_MSG_INPKT) as Et by by apply (np_same _ _ _ _ Hnp).
  pose proof (tcpip_input_run (hd 0 l) (rx_done mc n d) pb' ms b H3) as Ht. rewrite Et in Ht.
  assert (forall r, r <> ERR_OK -> tcpip_input pvNullPointer (hd 0 l) (Nif (Drv (rx_done mc n d) pb') ms b) =
    Done r (Nif (Drv (rx_done mc n d) pb') ms b) -> exists pb2,
    (err ← tcpip_input pvNullPointer (hd 0 l);
     (if negb (err =? ERR_OK) then _ ← in_drv (in_pb (pbuf_free (hd 0 l))); skip else skip) ;; mret err)
      (Nif (Drv (rx_done mc n d) pb') ms b) = Done r (Nif (Drv (rx_done mc n d) pb2) ms b) /\
    nif_ok all own box (Nif (Drv (rx_done mc n d) pb2) ms b) /\ length (pool pb2) = length (pool pb) /\
    memp_tab pb2 MEMP_TCPIP_MSG_INPKT = memp_tab pb MEMP_TCPIP_MSG_INPKT) as Hdrop.
  { intros r Hr Er. destruct (drop_packet all own pb pb' l _ H2 Hi Hl0 Hnp) as (k & pb2 & Ef & Hi2 & Hsu).
    exists pb2. rewrite (bind_Done _ _ _ _ _ Er), (proj2 (Z.eqb_neq r ERR_OK)) by done. cbn [negb].
    split; [|by apply (nif_dropped all own box mc _ pb pb2 ms b)].
    rewrite bind_bind. by rewrite (bind_Done _ _ _ _ _ (in_drv_pb_run _ _ _ _ _ ms b Ef)). }
  destruct (memp_tab pb MEMP_TCPIP_MSG_INPKT) as [|msg rest] eqn:Etab.
  - destruct Ht as (r & Er & Hr). destruct (Hdrop r Hr Er) as (pb2 & Ef & Hn & Hlen & Htab).
    exists r, (Nif (Drv (rx_done mc n d) pb2) ms b). rewrite andb_false_r. cbn [nif_drv dv_mac nif_mbox dv_pb].
    split_and!; try done. by rewrite Htab.
  - case_bool_decide as Hroom; cbn [andb].
    2:{ destruct (Hdrop ERR_VAL ltac:(done) Ht) as (pb2 & Ef & Hn & Hlen & Htab).
        exists ERR_VAL, (Nif (Drv (rx_done mc n d) pb2) ms b). cbn [nif_drv dv_mac nif_mbox dv_pb].
        split_and!; try done. by rewrite Htab. }
    rewrite bool_decide_eq_true_2 by (cbn; lia).
    assert (msg <> 0) as Hmsg by (intros ->; apply H5; by left).
    destruct (Ht Hmsg) as (b' & Eb & Hq & Hm & Hs). eexists ERR_OK, _.
    split_and!; [by rewrite (bind_Done _ _ _ _ _ Eb)|done|done| | | | |]; cbn [nif_drv dv_mac nif_mbox dv_pb].
    + rewrite Hm. cbn. rewrite fn_lookup_insert, app_assoc. by rewrite <- Permutation_cons_append.
    + eexists. exact (nif_delivered all own box mc _ pb pb' l _ ms b b' msg rest Hok Hrx Hl0 Hp0 Hi Hnp Etab Hq Hm).
    + assert (pool (pb' <| memp_tab := <[MEMP_TCPIP_MSG_INPKT := rest]> (memp_tab pb') |>) = pool pb') as ->
        by (unfold pool; cbn; by rewrite fn_lookup_insert_ne).
      rewrite (np_pool _ _ _ _ Hnp), length_app. lia.
    + rewrite Hm, length_app. cbn. lia.
    + cbn. by rewrite fn_lookup_insert.
Qed.

(** Which of the frames find room: buffers of the pool, places of the mailbox, messages. *)
Fixpoint accepted (bufs : nat) (slots : Z) (msgs : nat) (fs : list (list Z)) : list (list Z) :=
  match fs with
  | [] => []
  | f :: fs =>
      let k := needed PBUF_RAW (Z.of_nat (length f)) in
      if bool_decide (k <= bufs)%nat && bool_decide (0 < slots) && bool_decide (0 < msgs)%nat
      then f :: accepted (bufs - k) (slots - 1) (msgs - 1) fs
      else accepted bufs slots msgs fs
  end.

Definition accepts (s : nif) (fs : list (list Z)) : list (list Z) :=
  accepted (length (pool (pb_of s))) (mq_size (nif_mbox s) - Z.of_nat (length (posted s))) (length (free_msgs s)) fs.

Lemma accepts_cons s f fs :
  accepts s (f :: fs) =
    if room s (Z.of_nat (length f))
    then f :: accepted (length (pool (pb_of s)) - needed PBUF_RAW (Z.of_nat (length f)))
      (mq_size (nif_mbox s) - Z.of_nat (length (posted s)) - 1) (length (free_msgs s) - 1) fs
    else accepts s fs.
Proof.
  unfold accepts, room. cbn [accepted].
  by rewrite (bool_decide_ext (0 < mq_size (nif_mbox s) - Z.of_nat (length (posted s)))
    (Z.of_nat (length (posted s)) < mq_size (nif_mbox s))) by lia.
Qed.

Lemma irq_loop_ok fuel : forall fs all own box s,
  nif_ok all own box s -> waiting (mac_of s) fs -> (length fs < fuel)%nat ->
  exists own' s', irq_loop pvNullPointer fuel s = Done tt s' /\ nif_ok all own' (box ++ accepts s fs) s' /\
    waiting (mac_of s') [] /\ RxDesc (mac_of s') = ring_at (mac_of s) (length fs) /\ messages_kept s s' /\
    (forall i, 0 <= i -> owned (mac_of s) i -> owned (mac_of s') i) /\
    forall k, (k < length fs)%nat -> owned (mac_of s') (ring_at (mac_of s) k).
Proof.
  induction fuel as [|fuel IH]; intros fs all own box s Hok Hwt Hf; [lia|].
  pose proof (no_rx _ _ _ _ Hok) as Hrx. pose proof (ro_cur _ Hrx) as Hcur.
  destruct (lookup_lt_is_Some_2 (RxTab (mac_of s)) (Z.to_nat (RxDesc (mac_of s)))) as [d Hd].
  { rewrite (ro_tab _ Hrx). unfold ETH_RXBUFNB in *. lia. }
  assert (in_drv (in_mac (rd RxTab (RxDesc (mac_of s)))) s = Done d s) as Erd.
  { destruct s as [[mc pb] ms b]. apply in_drv_run, in_mac_run. apply rd_Done. by apply rx_index. }
  cbn [irq_loop]. rewrite bind_gets. change (RxDesc (dv_mac (nif_drv s))) with (RxDesc (mac_of s)).
  rewrite (bind_Done _ _ _ _ _ Erd). destruct fs as [|f fs].
  - pose proof (wt_end _ _ Hwt d) as He. cbn [length] in He. rewrite (ring_at_0 _ Hrx) in He. rewrite He by (done || exact Hd).
    exists own, s. rewrite app_nil_r. cbn [length]. rewrite (ring_at_0 _ Hrx). unfold messages_kept. split_and!; try done. intros k Hk. lia.
  - destruct (waiting_head _ _ _ Hrx Hwt) as (d' & Hd' & Hwh & Hdata). rewrite Hd in Hd'. injection Hd' as <-.
    rewrite (proj2 (Z.eqb_neq _ 0) (whole_size _ _ Hwh)). unfold lwip_pkt_handle.
    destruct (ethernetif_input_ok all own box s d _ Hok Hd Hwh) as (r & s1 & E1 & Em & Es & Hkeep & Hroom).
    rewrite bind_bind, (bind_Done _ _ _ _ _ E1). rewrite accepts_cons.
    pose proof (waiting_tail _ _ _ d (Z.of_nat (length f)) Hrx Hwt Hd) as Hwt1. rewrite <- Em in Hwt1.
    assert (exists own1 box1, nif_ok all own1 box1 s1 /\
      box1 ++ accepts s1 fs = box ++ (if room s (Z.of_nat (length f))
        then f :: accepted (length (pool (pb_of s)) - needed PBUF_RAW (Z.of_nat (length f)))
          (mq_size (nif_mbox s) - Z.of_nat (length (posted s)) - 1) (length (free_msgs s) - 1) fs
        else accepts s fs)) as (own1 & box1 & Hok1 & Ebox).
    { destruct (room s (Z.of_nat (length f))).
      - destruct Hroom as ((own1 & Hok1) & Hp & Hl & Hm). exists own1, (box ++ [f]). rewrite Hdata in Hok1. split; [done|].
        rewrite <- app_assoc. cbn [app]. do 2 f_equal. unfold accepts. rewrite Es. f_equal; lia.
      - destruct Hroom as (_ & Hok1 & Hp & Hl & Hm). exists own, box. split; [done|]. unfold accepts. by rewrite Es, Hp, Hl, Hm. }
    cbn [length] in Hf. destruct (IH fs all own1 box1 s1 Hok1 Hwt1 ltac:(lia)) as (own' & s' & E & Hok' & Hw' & Hr' & Hkeep' & Hmono & Hown).
    rewrite Ebox in Hok'. exists own', s'.
    assert (forall i, 0 <= i -> owned (mac_of s) i \/ i = RxDesc (mac_of s) -> owned (mac_of s1) i) as Hown1.
    { intros i Hi Ho. unfold owned. rewrite Em, rx_done_lookup by done. case_decide as Ei; [|destruct Ho as [Ho|Ho]; [exact Ho|done]].
      eexists. split; [done|]. unfold set_status. cbn. by rewrite set_own. }
    split_and!; [exact E|exact Hok'|done| |by etransitivity| |].
    + rewrite Hr', Em. cbn [length]. by rewrite ring_at_S.
    + intros i Hi Ho. apply Hmono; [done|]. apply Hown1; [done|by left].
    + intros [|k] Hk.
      * rewrite (ring_at_0 _ Hrx). apply Hmono; [lia|]. apply Hown1; [lia|by right].
      * rewrite <- (ring_at_S (mac_of s) (Z.of_nat (length f)) d k Hrx), <- Em. apply Hown. cbn in Hk. lia.
Qed.
End mailbox.
