(* ===== verification/EthOut.v ===== *)
(** * The rings at power-up, and transmission

    [low_level_init] makes both rings from any memory; [low_level_output] hands over a
    packet as one frame, or says that no descriptor is free. *)
From Stdlib Require Import ZArith Lia.
From stdpp Require Import base tactics decidable list list_numbers numbers gmap functions.
From S2P Require Import Prelude Udp Net Kernel OsQueue SysArch Pbuf PbufSpec PbufData PbufInv PbufLife Eth EthSpec.
Open Scope Z_scope.
Open Scope c_scope.

(** ** The rings at power-up *)
Lemma zseq_cons a n : 0 < n -> zseq a n = a :: zseq (a + 1) (n - 1).
Proof. intros Hn. unfold zseq. rewrite seqZ_cons by done. do 2 f_equal; lia. Qed.

(** A loop over a whole table. *)
Lemma table_run {St} (g : St -> list desc) `{!Upd g, !UpdLaws g} (f : Z -> desc -> desc) : forall todo done s,
  g s = done ++ todo ->
  for_each (zseq (Z.of_nat (length done)) (Z.of_nat (length todo))) (fun i => d ← rd g i; wr g i (f i d)) s =
    Done tt (s <| g := done ++ imap (fun k d => f (Z.of_nat (length done + k)) d) todo |>).
Proof.
  induction todo as [|d todo IH]; intros dn s Hs.
  - cbn. f_equal. rewrite <- Hs. symmetry. apply upd_same.
  - rewrite zseq_cons by (cbn; lia). cbn [for_each].
    assert (index (g s) (Z.of_nat (length dn)) = Some d) as Hd by (rewrite index_of_nat, Hs; by apply list_lookup_middle).
    rewrite bind_bind, (bind_rd g _ d _ s Hd), bind_wr by (rewrite Hs, length_app; cbn; lia).
    set (x := f (Z.of_nat (length dn)) d). specialize (IH (dn ++ [x])). rewrite length_app in IH. cbn [length] in IH.
    replace (Z.of_nat (length dn) + 1) with (Z.of_nat (length dn + 1)) by lia.
    replace (Z.of_nat (length (d :: todo)) - 1) with (Z.of_nat (length todo)) by (cbn; lia).
    rewrite IH.
    + f_equal. rewrite upd_upd. cbn [imap]. rewrite <- app_assoc. cbn [app]. rewrite Nat.add_0_r.
      enough (E : imap (fun k d => f (Z.of_nat (length dn + 1 + k)) d) todo =
        imap ((fun k d => f (Z.of_nat (length dn + k)) d) ∘ S) todo) by (rewrite E; done).
      apply imap_ext. intros k y _. cbn. do 2 f_equal. lia.
    + rewrite upd_get, Hs, Nat2Z.id, insert_app_r_alt, Nat.sub_diag by lia. cbn. by rewrite <- app_assoc.
Qed.

#[export] Instance RxTab_laws : UpdLaws RxTab := ltac:(upd_laws).
#[export] Instance TxTab_laws : UpdLaws TxTab := ltac:(upd_laws).

(** The MAC at power-up, whatever the memory holds. *)
Record mac_boot (m : mac) : Prop := {
  mb_rx : length (RxTab m) = Z.to_nat ETH_RXBUFNB;
  mb_tx : length (TxTab m) = Z.to_nat ETH_TXBUFNB;
  mb_rxbuf : Z.of_nat (length (RxBuff m)) = ETH_RXBUFNB * ETH_RX_BUF_SIZE;
  mb_txbuf : Z.of_nat (length (TxBuff m)) = ETH_TXBUFNB * ETH_TX_BUF_SIZE;
  mb_seg : SegCount m = 0;
  mb_lock : Lock m = false;
}.

(** The ring of transmission. *)
Record tx_ok (m : mac) : Prop := {
  xo_tab : length (TxTab m) = Z.to_nat ETH_TXBUFNB;
  xo_desc i d : TxTab m !! i = Some d -> desc_ok ETH_TXBUFNB ETH_TX_BUF_SIZE (Z.of_nat i) d;
  xo_buff : Z.of_nat (length (TxBuff m)) = ETH_TXBUFNB * ETH_TX_BUF_SIZE;
  xo_cur : 0 <= TxDesc m < ETH_TXBUFNB;
  xo_lock : Lock m = false;
}.

Definition rings (m : mac) : mac :=
  m <| Lock := false |> <| State := STATE_READY |> <| TxDesc := 0 |> <| RxDesc := 0 |>
    <| TxTab := imap (fun k => tx_desc0 ETH_TXBUFNB (Z.of_nat k)) (TxTab m) |>
    <| RxTab := imap (fun k => rx_desc0 ETH_RXBUFNB (Z.of_nat k)) (RxTab m) |>.

Lemma low_level_init_run m pb :
  mac_boot m -> low_level_init (Drv m pb) = Done ERR_OK (Drv (rings m) pb).
Proof.
  intros [H1 H2 _ _ _ H6]. unfold low_level_init.
  set (m0 := m <| Lock := true |> <| State := STATE_BUSY |> <| TxDesc := 0 |>).
  pose proof (table_run TxTab (tx_desc0 ETH_TXBUFNB) (TxTab m) [] m0 eq_refl) as Etx.
  cbn [length app] in Etx. change (Z.of_nat 0) with 0 in Etx. rewrite H2 in Etx. change (Z.of_nat (Z.to_nat ETH_TXBUFNB)) with ETH_TXBUFNB in Etx.
  set (m1 := m <| Lock := false |> <| State := STATE_READY |> <| TxDesc := 0 |>
    <| TxTab := imap (fun k => tx_desc0 ETH_TXBUFNB (Z.of_nat k)) (TxTab m) |>).
  assert (HAL_ETH_DMATxDescListInit ETH_TXBUFNB m = Done HAL_OK m1) as E1.
  { unfold HAL_ETH_DMATxDescListInit, locked. rewrite bind_gets, H6, !bind_put. fold m0. unfold on_tx. by rewrite (bind_Done _ _ _ _ _ Etx). }
  set (m2 := m1 <| Lock := true |> <| State := STATE_BUSY |> <| RxDesc := 0 |>).
  pose proof (table_run RxTab (rx_desc0 ETH_RXBUFNB) (RxTab m) [] m2 eq_refl) as Erx.
  cbn [length app] in Erx. change (Z.of_nat 0) with 0 in Erx. rewrite H1 in Erx. change (Z.of_nat (Z.to_nat ETH_RXBUFNB)) with ETH_RXBUFNB in Erx.
  assert (HAL_ETH_DMARxDescListInit ETH_RXBUFNB m1 = Done HAL_OK (rings m)) as E2.
  { unfold HAL_ETH_DMARxDescListInit, locked. rewrite bind_gets. change (Lock m1) with false. cbn iota. rewrite !bind_put. fold m2. unfold on_rx. by rewrite (bind_Done _ _ _ _ _ Erx). }
  by rewrite (bind_Done _ _ _ _ _ (in_mac_run _ _ _ _ pb E1)), (bind_Done _ _ _ _ _ (in_mac_run _ _ _ _ pb E2)).
Qed.

Lemma next_ring n i : 0 <= i < n -> n < 2 ^ 32 -> (if i <? u32 (n - 1) then i + 1 else 0) = ring_next n i.
Proof.
  intros Hi Hn. unfold u32, ring_next. rewrite (Z.mod_small (n - 1)) by lia. destruct (Z.ltb_spec i (n - 1)).
  - rewrite Z.mod_small; lia.
  - replace (i + 1) with (1 * n) by lia. by rewrite Z.mod_mul by lia.
Qed.

Lemma rings_ok m : mac_boot m -> rx_ok (rings m) /\ tx_ok (rings m) /\
  (forall i, 0 <= i < ETH_RXBUFNB -> owned (rings m) i) /\ waiting (rings m) [] /\
  (forall i d, TxTab (rings m) !! i = Some d -> Z.land (Status d) ETH_DMATXDESC_OWN = 0).
Proof.
  intros [H1 H2 H3 H4 H5 H6].
  assert (forall i d, RxTab (rings m) !! i = Some d -> exists d0, RxTab m !! i = Some d0 /\ d = rx_desc0 ETH_RXBUFNB (Z.of_nat i) d0) as Hrx.
  { intros i d Hd. change (RxTab (rings m)) with (imap (fun k => rx_desc0 ETH_RXBUFNB (Z.of_nat k)) (RxTab m)) in Hd.
    apply list_lookup_imap_Some in Hd as (d0 & Hd0 & ->). by exists d0. }
  assert (forall i d, TxTab (rings m) !! i = Some d -> exists d0, TxTab m !! i = Some d0 /\ d = tx_desc0 ETH_TXBUFNB (Z.of_nat i) d0) as Htx.
  { intros i d Hd. change (TxTab (rings m)) with (imap (fun k => tx_desc0 ETH_TXBUFNB (Z.of_nat k)) (TxTab m)) in Hd.
    apply list_lookup_imap_Some in Hd as (d0 & Hd0 & ->). by exists d0. }
  assert (forall i, 0 <= i < ETH_RXBUFNB -> exists d0, RxTab (rings m) !! Z.to_nat i = Some (rx_desc0 ETH_RXBUFNB i d0)) as Hall.
  { intros i Hi. destruct (lookup_lt_is_Some_2 (RxTab (rings m)) (Z.to_nat i)) as [d Hd].
    - change (RxTab (rings m)) with (imap (fun k => rx_desc0 ETH_RXBUFNB (Z.of_nat k)) (RxTab m)). rewrite length_imap, H1. unfold ETH_RXBUFNB in *. lia.
    - destruct (Hrx _ _ Hd) as (d0 & _ & ->). rewrite Z2Nat.id in Hd by lia. by exists d0. }
  split_and!.
  - constructor; try done.
    + change (RxTab (rings m)) with (imap (fun k => rx_desc0 ETH_RXBUFNB (Z.of_nat k)) (RxTab m)). by rewrite length_imap.
    + intros i d Hd. destruct (Hrx i d Hd) as (d0 & Hd0 & ->). apply lookup_lt_Some in Hd0. split; [done|].
      unfold rx_desc0. cbn [Buffer2NextDescAddr]. apply next_ring; [|done]. unfold ETH_RXBUFNB in *. lia.
  - constructor; try done.
    + change (TxTab (rings m)) with (imap (fun k => tx_desc0 ETH_TXBUFNB (Z.of_nat k)) (TxTab m)). by rewrite length_imap.
    + intros i d Hd. destruct (Htx i d Hd) as (d0 & Hd0 & ->). apply lookup_lt_Some in Hd0. split; [done|].
      unfold tx_desc0. cbn [Buffer2NextDescAddr]. apply next_ring; [|done]. unfold ETH_TXBUFNB in *. lia.
  - intros i Hi. destruct (Hall i Hi) as [d0 Hd]. eexists. split; [exact Hd|done].
  - constructor; [done|by intros k f Hf|]. intros d _ Hd. destruct (Hall 0) as [d0 Hd0]; [done|].
    change (ring_at (rings m) (length [])) with 0 in Hd. rewrite Hd0 in Hd. by injection Hd as <-.
  - intros i d Hd. by destruct (Htx i d Hd) as (d0 & _ & ->).
Qed.

(** ** Copying a packet into the buffer of a descriptor *)
Lemma blit_app {A} (l x y : list A) (a : nat) :
  (a + length x + length y <= length l)%nat -> blit (blit l a x) (a + length x) y = blit l a (x ++ y).
Proof.
  intros H. apply list_eq. intros i. rewrite !blit_lookup by (rewrite ?blit_length, ?length_app; lia).
  rewrite length_app. repeat case_bool_decide; try lia; try done.
  - rewrite lookup_app_r by lia. f_equal. lia.
  - by rewrite lookup_app_l by lia.
Qed.

Lemma blit_nil {A} (l : list A) (a : nat) : blit l a [] = l.
Proof. unfold blit. cbn. by rewrite Nat.add_0_r, take_drop. Qed.

Lemma blit_slice {A} (l src : list A) (a : nat) :
  (a + length src <= length l)%nat -> take (length src) (drop a (blit l a src)) = src.
Proof.
  intros H. unfold blit. rewrite drop_app_ge by (rewrite length_take; lia). rewrite length_take.
  replace (a - a `min` length l)%nat with 0%nat by lia. rewrite drop_0. by rewrite take_app_length.
Qed.

Lemma to_tx_run m pb q b buffer off n :
  pb_mem pb !! q = Some b -> within b -> 0 <= n <= pb_len b -> 0 <= buffer + off ->
  buffer + off + n <= Z.of_nat (length (TxBuff m)) ->
  to_tx buffer off q 0 n (Drv m pb) =
    Done tt (Drv (m <| TxBuff := blit (TxBuff m) (Z.to_nat (buffer + off)) (take (Z.to_nat n) (contents b)) |>) pb).
Proof.
  intros Hb Hw Hn Ho Hl. unfold to_tx.
  rewrite (bind_Done _ _ _ _ _ (in_pb_run _ _ m _ _ (pb_read_run pb q b 0 n Hb Hw ltac:(lia) ltac:(lia) ltac:(lia)))).
  change (Z.to_nat 0) with 0%nat. rewrite drop_0, bind_gets. cbn [dv_mac]. unfold copy_in.
  pose proof (contents_length b Hw). rewrite bool_decide_eq_true_2 by (rewrite length_take; lia). done.
Qed.

Definition tx_free (m : mac) (t : Z) : Prop :=
  exists d, index (TxTab m) t = Some d /\ Z.land (Status d) ETH_DMATXDESC_OWN = 0.

Lemma tx_owned_run m pb t d : index (TxTab m) t = Some d ->
  tx_owned t (Drv m pb) = Done (negb (Z.land (Status d) ETH_DMATXDESC_OWN =? 0)) (Drv m pb).
Proof.
  intros Hd. unfold tx_owned. by rewrite (bind_Done _ _ _ _ _ (in_mac_run _ _ _ _ pb (rd_Done TxTab t d m Hd))).
Qed.

Lemma output_while_done fuel q t left payloadoffset s :
  left + tp_off t <= ETH_TX_BUF_SIZE -> output_while fuel q t left payloadoffset s = Done (Some (t, left, payloadoffset)) s.
Proof. intros H. destruct fuel; cbn [output_while]; rewrite Z.gtb_ltb; by rewrite (proj2 (Z.ltb_ge _ _)) by lia. Qed.

Lemma output_copy_ok fuel : forall l q t off len m pb,
  seg (pb_mem pb) q l 0 -> NoDup l -> ~ 0 ∈ l -> all_within (pb_mem pb) l -> tx_free m t ->
  0 <= off -> off + total (pb_mem pb) l <= ETH_TX_BUF_SIZE -> 0 <= t ->
  t * ETH_TX_BUF_SIZE + off + total (pb_mem pb) l <= Z.of_nat (length (TxBuff m)) -> (length l < fuel)%nat ->
  output_copy fuel q (TxPos t (t * ETH_TX_BUF_SIZE) off len) (Drv m pb) =
    Done (Some (TxPos t (t * ETH_TX_BUF_SIZE) (off + total (pb_mem pb) l) (len + total (pb_mem pb) l)))
      (Drv (m <| TxBuff := blit (TxBuff m) (Z.to_nat (t * ETH_TX_BUF_SIZE + off)) (bytes (pb_mem pb) l) |>) pb).
Proof.
  induction fuel as [|fuel IH]; intros l q t off len m pb Hseg Hnd H0 Hw Hfree Hoff Hsz Ht Hlen Hf; [lia|].
  destruct l as [|a l].
  { cbn in Hseg. subst q. cbn [output_copy Z.eqb]. change (total (pb_mem pb) []) with 0. rewrite !Z.add_0_r.
    change (bytes (pb_mem pb) []) with (@nil Z). rewrite blit_nil. by destruct m. }
  destruct Hseg as [-> (b & Hb & Hseg)]. apply list.NoDup_cons in Hnd as [Ha Hnd].
  rewrite not_elem_of_cons in H0. destruct H0 as [Ha0 H0].
  destruct (Hw a) as (b0 & Hb0 & Hwb); [by left|]. rewrite Hb in Hb0. injection Hb0 as <-.
  assert (all_within (pb_mem pb) l) as Hwl by (intros c Hc; apply Hw; by right).
  pose proof (total_nonneg _ _ Hwl) as Htl.
  assert (total (pb_mem pb) (a :: l) = pb_len b + total (pb_mem pb) l) as Et.
  { change (from_option pb_len 0 (pb_mem pb !! a) + total (pb_mem pb) l = pb_len b + total (pb_mem pb) l). by rewrite Hb. }
  rewrite Et in *. pose proof Hwb as (Hw1 & Hw2 & Hw3). pose proof (contents_length b Hwb) as Hc.
  pose proof (bytes_length (pb_mem pb) l Hwl) as Hbl.
  destruct Hfree as (d & Hd & Hown). cbn [output_copy tp_desc]. rewrite (proj2 (Z.eqb_neq a 0)) by done.
  rewrite (bind_Done _ _ _ _ _ (tx_owned_run m pb t d Hd)), Hown. cbn [negb Z.eqb].
  rewrite (bind_Done _ _ _ _ _ (in_pb_run _ _ m pb pb (pb_get_run pb a b Hb))).
  rewrite (bind_Done _ _ _ _ _ (output_while_done output_fuel a (TxPos t (t * ETH_TX_BUF_SIZE) off len) (pb_len b) 0 (Drv m pb) ltac:(cbn; lia))).
  cbn [tp_desc tp_buffer tp_off tp_len].
  assert (0 <= t * ETH_TX_BUF_SIZE + off) as Hpos by (unfold ETH_TX_BUF_SIZE; lia).
  rewrite (bind_Done _ _ _ _ _ (to_tx_run m pb a b (t * ETH_TX_BUF_SIZE) off (pb_len b) Hb Hwb ltac:(lia) Hpos ltac:(lia))).
  rewrite (take_ge (contents b)) by lia. set (m1 := m <| TxBuff := _ |>).
  assert (length (TxBuff m1) = length (TxBuff m)) as El1 by (apply blit_length; lia).
  cbn [length] in Hf. rewrite (IH l (pb_next b) t (off + pb_len b) (len + pb_len b) m1 pb); try done; try lia.
  2:{ by exists d. }
  rewrite <- !Z.add_assoc. do 2 f_equal. subst m1. cbn [TxBuff upd upd_TxBuff]. rewrite bytes_cons, Hb. cbn [from_option].
  replace (Z.to_nat (t * ETH_TX_BUF_SIZE + (off + pb_len b))) with (Z.to_nat (t * ETH_TX_BUF_SIZE + off) + length (contents b))%nat by lia.
  rewrite <- blit_app by lia. done.
Qed.

(** ** [HAL_ETH_TransmitFrame], for a frame in one descriptor *)
Definition sent (n : Z) (d : desc) : desc :=
  set_status ETH_DMATXDESC_OWN
    ((set_status (Z.lor ETH_DMATXDESC_FS ETH_DMATXDESC_LS) d) <| ControlBufferSize := Z.land n ETH_DMATXDESC_TBS1 |>).

(** The DMA is woken up when it had nothing to send. *)
Definition tx_woken (bit : Z) (m : mac) : mac :=
  if Z.land (DMASR m) bit =? 0 then m else m <| DMASR := Z.ldiff (DMASR m) bit |> <| DMATPDR := DMATPDR m + 1 |>.

Definition handed_over (n : Z) (d : desc) (m : mac) : mac :=
  (tx_woken ETH_DMASR_TBUS (m <| Lock := true |> <| State := STATE_BUSY |>
    <| TxTab := <[Z.to_nat (TxDesc m) := sent n d]> (TxTab m) |> <| TxDesc := ring_next ETH_TXBUFNB (TxDesc m) |>))
  <| State := STATE_READY |> <| Lock := false |>.

Lemma transmit_run m d n :
  tx_ok m -> TxTab m !! Z.to_nat (TxDesc m) = Some d -> Z.land (Status d) ETH_DMATXDESC_OWN = 0 ->
  0 < n <= ETH_TX_BUF_SIZE -> HAL_ETH_TransmitFrame n m = Done HAL_OK (handed_over n d m).
Proof.
  intros [H1 H2 H3 H4 H5] Hd Hown Hn. destruct (H2 _ _ Hd) as [_ Hnext]. rewrite Z2Nat.id in Hnext by lia.
  pose proof (lookup_lt_Some _ _ _ Hd) as Hlt. set (t := TxDesc m) in *.
  assert (index (TxTab m) t = Some d) as Ei by (unfold index; by rewrite bool_decide_eq_true_2 by lia).
  unfold HAL_ETH_TransmitFrame, locked. rewrite bind_gets, H5. rewrite !bind_put, (proj2 (Z.eqb_neq n 0)) by lia.
  set (m0 := m <| Lock := true |> <| State := STATE_BUSY |>). rewrite bind_gets. change (TxDesc m0) with t.
  rewrite (bind_rd TxTab t d _ m0 Ei), Hown. cbn [Z.eqb negb].
  assert (bufcount_of n = 1) as -> by (unfold bufcount_of; rewrite Z.gtb_ltb; by rewrite (proj2 (Z.ltb_ge _ _)) by lia). cbn [Z.eqb Pos.eqb].
  set (d1 := set_status (Z.lor ETH_DMATXDESC_FS ETH_DMATXDESC_LS) d). set (d2 := d1 <| ControlBufferSize := Z.land n ETH_DMATXDESC_TBS1 |>).
  set (m1 := m0 <| TxTab := <[Z.to_nat t := d1]> (TxTab m) |>).
  set (m2 := m1 <| TxTab := <[Z.to_nat t := d2]> (TxTab m1) |>).
  set (m3 := m2 <| TxTab := <[Z.to_nat t := sent n d]> (TxTab m2) |>).
  assert (TxTab m1 !! Z.to_nat t = Some d1) as L1 by (by apply list_lookup_insert_eq).
  assert (TxTab m2 !! Z.to_nat t = Some d2) as L2 by (apply list_lookup_insert_eq; by apply lookup_lt_Some in L1).
  assert (TxTab m3 !! Z.to_nat t = Some (sent n d)) as L3 by (apply list_lookup_insert_eq; by apply lookup_lt_Some in L2).
  assert (m3 = m0 <| TxTab := <[Z.to_nat t := sent n d]> (TxTab m) |>) as E3.
  { unfold m3, m2, m1. rewrite !upd_upd, !upd_get, !list_insert_insert_eq. reflexivity. }
  set (m4 := m3 <| TxDesc := ring_next ETH_TXBUFNB t |>).
  rewrite (bind_Done _ _ _ tt m4).
  2:{ rewrite (bind_Done _ _ m0 tt m1 (on_tx_run t (set_status (Z.lor ETH_DMATXDESC_FS ETH_DMATXDESC_LS)) d m0 Hd ltac:(lia))).
      rewrite (bind_Done _ _ m1 tt m2 (on_tx_run t (fun d => d <| ControlBufferSize := Z.land n ETH_DMATXDESC_TBS1 |>) d1 m1 L1 ltac:(lia))).
      rewrite (bind_Done _ _ m2 tt m3 (on_tx_run t (set_status ETH_DMATXDESC_OWN) d2 m2 L2 ltac:(lia))).
      rewrite (bind_rd TxTab t (sent n d) _ m3); [unfold m4; rewrite <- Hnext; reflexivity|]. unfold index. by rewrite bool_decide_eq_true_2 by lia. }
  rewrite bind_gets. unfold handed_over, tx_woken. fold t m0.
  rewrite <- E3. fold m4.
  by destruct (Z.land (DMASR m4) ETH_DMASR_TBUS =? 0).
Qed.

Definition tx_data (m : mac) (t n : Z) : list Z := take (Z.to_nat n) (drop (Z.to_nat (t * ETH_TX_BUF_SIZE)) (TxBuff m)).

Lemma handed_over_fields n d m :
  TxTab (handed_over n d m) = <[Z.to_nat (TxDesc m) := sent n d]> (TxTab m) /\
  TxBuff (handed_over n d m) = TxBuff m /\ TxDesc (handed_over n d m) = ring_next ETH_TXBUFNB (TxDesc m) /\
  Lock (handed_over n d m) = false /\ RxTab (handed_over n d m) = RxTab m /\ RxBuff (handed_over n d m) = RxBuff m /\
  RxDesc (handed_over n d m) = RxDesc m.
Proof. unfold handed_over, tx_woken. by case_match. Qed.

(** The end of [low_level_output]. *)
Definition output_end (m : mac) : mac := (tx_woken ETH_DMASR_TUS m) <| irq_enabled := true |>.

Lemma output_end_fields m :
  TxTab (output_end m) = TxTab m /\ TxBuff (output_end m) = TxBuff m /\ TxDesc (output_end m) = TxDesc m /\
  Lock (output_end m) = Lock m /\ RxTab (output_end m) = RxTab m /\ RxBuff (output_end m) = RxBuff m /\
  RxDesc (output_end m) = RxDesc m.
Proof. unfold output_end, tx_woken. by case_match. Qed.

Lemma output_end_run m pb (errval : Z) :
  ((sr ← gets (fun s => DMASR (dv_mac s));
    (if negb (Z.land sr ETH_DMASR_TUS =? 0) then
       in_mac (DMASR_clear ETH_DMASR_TUS ;; n ← gets DMATPDR; DMATPDR ::= n + 1)
     else skip) ;;
    in_mac INTX_ENABLE ;;
    mret errval) : M drv Z) (Drv m pb) = Done errval (Drv (output_end m) pb).
Proof. rewrite bind_gets. cbn [dv_mac]. unfold output_end, tx_woken. by destruct (Z.land (DMASR m) ETH_DMASR_TUS =? 0). Qed.

(** The other buffers of transmission. *)
Definition other_tx_data (m m' : mac) (t : Z) : Prop :=
  forall t' n, 0 <= t' < ETH_TXBUFNB -> t' <> t -> 0 <= n <= ETH_TX_BUF_SIZE -> tx_data m' t' n = tx_data m t' n.

Lemma blit_other {A} (l src : list A) (a b n : nat) :
  (a + length src <= length l)%nat -> (b + n <= a \/ a + length src <= b)%nat -> take n (drop b (blit l a src)) = take n (drop b l).
Proof.
  intros H Hd. apply list_eq. intros i. destruct (decide (i < n)%nat).
  - rewrite !lookup_take_lt, !lookup_drop, blit_lookup by lia. by rewrite bool_decide_eq_false_2 by lia.
  - rewrite !lookup_take_ge by lia. done.
Qed.

(** The part of the invariant that [low_level_output] and reception share. *)
Lemma output_run m pb p l d :
  tx_ok m -> chain pb p l -> p <> 0 -> TxTab m !! Z.to_nat (TxDesc m) = Some d ->
  0 < total (pb_mem pb) l <= ETH_TX_BUF_SIZE ->
  let m1 := m <| irq_enabled := false |> in
  let n := total (pb_mem pb) l in
  let m2 := m1 <| TxBuff := blit (TxBuff m) (Z.to_nat (TxDesc m * ETH_TX_BUF_SIZE)) (bytes (pb_mem pb) l) |> in
  low_level_output p (Drv m pb) =
    if Z.land (Status d) ETH_DMATXDESC_OWN =? 0
    then Done ERR_OK (Drv (output_end (handed_over n d m2)) pb)
    else Done ERR_USE (Drv (output_end m1) pb).
Proof.
  intros Hok Hch Hp Hd Hn m1 n m2. pose proof Hok as [H1 H2 H3 H4 H5]. pose proof Hch as [Hseg Hnd H0 Hw _].
  destruct (H2 _ _ Hd) as [Hb1 _]. rewrite Z2Nat.id in Hb1 by lia.
  assert (index (TxTab m) (TxDesc m) = Some d) as Ei by (unfold index; by rewrite bool_decide_eq_true_2 by lia).
  unfold low_level_output. rewrite bind_gets. cbn [dv_mac].
  rewrite (bind_Done _ _ _ _ _ (in_mac_run _ _ _ _ pb (rd_Done TxTab _ d m Ei))), Hb1.
  rewrite (bind_Done _ _ _ tt (Drv m1 pb)) by done. rewrite (bind_Done _ _ _ (S (size (pb_mem pb))) (Drv m1 pb)) by done.
  destruct (Z.eqb_spec (Z.land (Status d) ETH_DMATXDESC_OWN) 0) as [Hown|Hown].
  - rewrite (bind_Done _ _ _ (Some (TxPos (TxDesc m) (TxDesc m * ETH_TX_BUF_SIZE) n n)) (Drv m2 pb)).
    2:{ rewrite (output_copy_ok _ l p (TxDesc m) 0 0 m1 pb Hseg Hnd H0 Hw); try lia.
        - rewrite !Z.add_0_r. done.
        - by exists d.
        - change (TxBuff m1) with (TxBuff m). unfold ETH_TXBUFNB, ETH_TX_BUF_SIZE in *. lia.
        - by apply walk_enough. }
    cbn [tp_len]. rewrite bind_bind.
    assert (tx_ok m2) as Hok2.
    { constructor; try done. change (TxBuff m2) with (blit (TxBuff m) (Z.to_nat (TxDesc m * ETH_TX_BUF_SIZE)) (bytes (pb_mem pb) l)).
      pose proof (bytes_length _ _ Hw). rewrite blit_length; [done|]. unfold ETH_TXBUFNB, ETH_TX_BUF_SIZE in *. lia. }
    rewrite (bind_Done _ _ _ _ _ (in_mac_run _ _ _ _ pb (transmit_run m2 d n Hok2 Hd Hown Hn))).
    rewrite bind_ret. exact (output_end_run _ pb ERR_OK).
  - rewrite (bind_Done _ _ _ None (Drv m1 pb)).
    2:{ cbn [output_copy tp_desc]. rewrite (proj2 (Z.eqb_neq p 0)) by done.
        rewrite (bind_Done _ _ _ _ _ (tx_owned_run m1 pb (TxDesc m) d Ei)). by rewrite (proj2 (Z.eqb_neq _ 0) Hown). }
    rewrite bind_ret. exact (output_end_run _ pb ERR_USE).
Qed.
