(* ===== verification/EthLink.v ===== *)
(** * The network interface as a whole

    The promises of the Ethernet driver over the packet buffers of lwIP and the
    mailbox of the kernel, and the frame that ends reception for good. *)
From Stdlib Require Import ZArith Lia.
From stdpp Require Import base tactics decidable list list_numbers numbers gmap functions relations.
From S2P Require Import Prelude Udp Net Kernel OsQueue OsQueueSpec LwipTimers SysArch Pbuf PbufSpec PbufData PbufInv PbufLife Eth EthSpec EthOut.
Open Scope Z_scope.
Open Scope c_scope.

(** ** Power-up *)

(** [low_level_init] makes both rings from whatever the allocated memory holds: each
    descriptor has its own buffer and points to the next one, the last to the first;
    every descriptor of reception belongs to the DMA, none of transmission does, and
    nothing waits. *)
Theorem low_level_init_rings m pb :
  mac_boot m -> exists m', low_level_init (Drv m pb) = Done ERR_OK (Drv m' pb) /\ rx_ok m' /\ tx_ok m' /\
    (forall i, 0 <= i < ETH_RXBUFNB -> owned m' i) /\ waiting m' [] /\
    (forall i d, TxTab m' !! i = Some d -> Z.land (Status d) ETH_DMATXDESC_OWN = 0).
Proof. intros H. exists (rings m). split; [by apply low_level_init_run|by apply rings_ok]. Qed.

(** ** Reception *)
Section reception.
Context {St : Type} `{!MessageQueue St, !MessageQueueLaws St} (pvNullPointer : Z).

Definition acknowledged (m : mac) : mac := m <| DMASR := Z.ldiff (Z.ldiff (DMASR m) ETH_DMA_IT_R) ETH_DMA_IT_NIS |>.

Definition with_mac (m : mac) (s : nif St) : nif St := s <| nif_drv := (nif_drv s) <| dv_mac := m |> |>.

Lemma handler_end s :
  (in_drv (in_mac (DMASR_clear ETH_DMA_IT_R ;; DMASR_clear ETH_DMA_IT_NIS)) : M (nif St) unit) s =
    Done tt (with_mac (acknowledged (mac_of s)) s).
Proof. by destruct s as [[mc pb] ms b]. Qed.

Lemma acknowledged_ok all own box s :
  nif_ok all own box s -> nif_ok all own box (with_mac (acknowledged (mac_of s)) s).
Proof. intros [[H1 H2 H3 H4 H5 H6] ? ? ? ? ?]. by constructor. Qed.

(** Enough room for all of [fs]. *)
Fixpoint buffers_for (fs : list (list Z)) : nat :=
  match fs with [] => 0 | f :: fs => needed PBUF_RAW (Z.of_nat (length f)) + buffers_for fs end.

Lemma accepted_all fs : forall bufs slots msgs,
  (buffers_for fs <= bufs)%nat -> Z.of_nat (length fs) <= slots -> (length fs <= msgs)%nat ->
  accepted bufs slots msgs fs = fs.
Proof.
  induction fs as [|f fs IH]; intros bufs slots msgs H1 H2 H3; [done|]. cbn [accepted buffers_for length] in *.
  rewrite !bool_decide_eq_true_2 by lia. cbn [andb]. rewrite IH by lia. done.
Qed.
End reception.

(** C6: when frames wait in the ring, the interrupt handler takes them all, however many
    there are, and no more: it returns; every frame becomes a packet whose bytes are the
    frame without its checksum, behind those already in the mailbox and in the order of
    their arrival; a frame that finds too few packet buffers, no message or a full
    mailbox is dropped and costs nothing; no message is lost; each descriptor is back with the DMA, and the
    packets, the counts of references and the ring keep their invariants. With room for
    all none is dropped. Nobody waits at the mailbox, and the DMA adds no frame while the
    handler runs. *)
Theorem interrupt_delivers {St} `{!MessageQueue St, !MessageQueueLaws St} (pvNullPointer : Z) all own box (s : nif St) fs :
  nif_ok all own box s -> waiting (mac_of s) fs ->
  exists own' s', ETH_IRQHandler pvNullPointer s = Done tt s' /\ nif_ok all own' (box ++ accepts s fs) s' /\
    RxDesc (mac_of s') = ring_at (mac_of s) (length fs) /\ messages_kept s s' /\
    (forall k, (k < length fs)%nat -> owned (mac_of s') (ring_at (mac_of s) k)) /\
    ((buffers_for fs <= length (pool (pb_of s)))%nat ->
     Z.of_nat (length (posted s) + length fs) <= mq_size (nif_mbox s) ->
     (length fs <= length (free_msgs s))%nat -> accepts s fs = fs).
Proof.
  intros Hok Hwt. pose proof (wt_len _ _ Hwt) as Hlen. unfold ETH_RXBUFNB in Hlen.
  destruct (irq_loop_ok pvNullPointer irq_fuel fs all own box s Hok Hwt) as (own' & s' & E & Hok' & _ & Hr & Hkeep & _ & Hown).
  { unfold irq_fuel. lia. }
  exists own', (with_mac (acknowledged (mac_of s')) s'). split_and!.
  - unfold ETH_IRQHandler. rewrite (bind_Done _ _ _ _ _ E). apply handler_end.
  - by apply acknowledged_ok.
  - exact Hr.
  - exact Hkeep.
  - exact Hown.
  - intros H1 H2 H3. apply accepted_all; lia.
Qed.

(** ** Transmission *)

(** C13: [low_level_output] hands a packet over as one frame: the buffer of the current
    descriptor holds its bytes, the descriptor their number, both segment marks and the
    OWN bit, and the next descriptor is the current one; the other descriptors and
    buffers, the packet and reception are not touched. When the DMA still has the
    descriptor the answer is [ERR_USE] and nothing is handed over or overwritten; the comment of the
    function documents [ERR_MEM] for a failure (ethernetif.c, line 34). *)
Theorem output_hands_over m pb p l d :
  tx_ok m -> chain pb p l -> p <> 0 -> TxTab m !! Z.to_nat (TxDesc m) = Some d ->
  0 < total (pb_mem pb) l <= ETH_TX_BUF_SIZE ->
  if Z.land (Status d) ETH_DMATXDESC_OWN =? 0 then
    exists m', low_level_output p (Drv m pb) = Done ERR_OK (Drv m' pb) /\ tx_ok m' /\
      TxTab m' = <[Z.to_nat (TxDesc m) := sent (total (pb_mem pb) l) d]> (TxTab m) /\
      tx_data m' (TxDesc m) (total (pb_mem pb) l) = bytes (pb_mem pb) l /\ other_tx_data m m' (TxDesc m) /\
      TxDesc m' = ring_next ETH_TXBUFNB (TxDesc m) /\ RxTab m' = RxTab m /\ RxBuff m' = RxBuff m /\ RxDesc m' = RxDesc m
  else exists m', low_level_output p (Drv m pb) = Done ERR_USE (Drv m' pb) /\ tx_ok m' /\
    TxTab m' = TxTab m /\ TxBuff m' = TxBuff m /\ TxDesc m' = TxDesc m.
Proof.
  intros Hok Hch Hp Hd Hn. pose proof (output_run m pb p l d Hok Hch Hp Hd Hn) as E. cbn zeta in E.
  set (m1 := m <| irq_enabled := false |>) in *. pose proof Hok as [H1 H2 H3 H4 H5].
  destruct (Z.land (Status d) ETH_DMATXDESC_OWN =? 0).
  - set (n := total (pb_mem pb) l) in *. set (m2 := m1 <| TxBuff := _ |>) in *.
    destruct (output_end_fields (handed_over n d m2)) as (F1 & F2 & F3 & F4 & F5 & F6 & F7).
    destruct (handed_over_fields n d m2) as (G1 & G2 & G3 & G4 & G5 & G6 & G7).
    pose proof (bytes_length _ _ (ch_within _ _ _ Hch)) as Hb. fold n in Hb.
    change (TxTab m2) with (TxTab m) in G1. change (TxDesc m2) with (TxDesc m) in G1, G3.
    assert (Z.to_nat (TxDesc m * ETH_TX_BUF_SIZE) + length (bytes (pb_mem pb) l) <= length (TxBuff m))%nat as Hfit
      by (unfold ETH_TXBUFNB, ETH_TX_BUF_SIZE in *; lia).
    set (m' := output_end (handed_over n d m2)) in *.
    assert (TxTab m' = <[Z.to_nat (TxDesc m) := sent n d]> (TxTab m)) as ETab by (etransitivity; [exact F1|exact G1]).
    assert (TxBuff m' = blit (TxBuff m) (Z.to_nat (TxDesc m * ETH_TX_BUF_SIZE)) (bytes (pb_mem pb) l)) as EBuff by (etransitivity; [exact F2|exact G2]).
    assert (TxDesc m' = ring_next ETH_TXBUFNB (TxDesc m)) as EDesc by (etransitivity; [exact F3|exact G3]).
    exists m'. split_and!; [exact E| |done| | |done|by etransitivity|by etransitivity|by etransitivity].
    + constructor; rewrite ?ETab, ?EBuff, ?EDesc; [by rewrite length_insert| |by rewrite blit_length|by apply ring_next_range|by etransitivity].
      intros i d'. destruct (decide (i = Z.to_nat (TxDesc m))) as [->|Hi].
      * rewrite list_lookup_insert_eq by (by apply lookup_lt_Some in Hd). intros [= <-]. exact (H2 _ _ Hd).
      * rewrite list_lookup_insert_ne by done. apply H2.
    + unfold tx_data. rewrite EBuff. replace (Z.to_nat n) with (length (bytes (pb_mem pb) l)) by lia. by apply blit_slice.
    + intros t' k Ht Hne Hk. unfold tx_data. rewrite EBuff. apply blit_other; [done|]. unfold ETH_TX_BUF_SIZE in *. lia.
  - destruct (output_end_fields m1) as (F1 & F2 & F3 & F4 & _).
    exists (output_end m1). split_and!; [exact E| |exact F1|exact F2|exact F3].
    constructor; rewrite ?F1, ?F2, ?F3, ?F4; done.
Qed.

(** ** A frame that is never taken *)

(** The current descriptor is back from the DMA, but it is not the end of a frame, as
    when a frame is longer than one buffer, or it is marked with an error. *)
Definition stuck (m : mac) : Prop :=
  exists d, index (RxTab m) (RxDesc m) = Some d /\ Z.land (Status d) ETH_DMARXDESC_OWN = 0 /\
    (Z.land (Status d) ETH_DMARXDESC_LS = 0 \/ Z.land (Status d) 0x8000 <> 0).

Lemma stuck_size st :
  Z.land st ETH_DMARXDESC_LS = 0 \/ Z.land st 0x8000 <> 0 -> ETH_GetRxPktSize st = 0.
Proof.
  intros H. unfold ETH_GetRxPktSize. change 0x100 with ETH_DMARXDESC_LS.
  destruct (Z.eqb_spec (Z.land st ETH_DMARXDESC_LS) 0), (Z.eqb_spec (Z.land st 0x8000) 0);
    rewrite ?andb_false_r; try done. destruct H; done.
Qed.

Section stuck.
Context {St : Type} `{!MessageQueue St} (pvNullPointer : Z).

Lemma stuck_handler (s : nif St) :
  stuck (mac_of s) -> ETH_IRQHandler pvNullPointer s = Done tt (with_mac (acknowledged (mac_of s)) s).
Proof.
  intros (d & Hd & _ & Hst). destruct s as [[mc pb] ms b]. unfold mac_of in *. cbn [nif_drv dv_mac] in *.
  unfold ETH_IRQHandler, irq_fuel. rewrite (bind_Done _ _ _ tt (Nif (Drv mc pb) ms b)); [done|].
  cbn [irq_loop]. rewrite bind_gets. cbn [nif_drv dv_mac].
  rewrite (bind_Done _ _ _ d (Nif (Drv mc pb) ms b)) by (by apply in_drv_run, in_mac_run, rd_Done).
  by rewrite stuck_size.
Qed.

(** The interrupt, or anything else: the DMA changes the descriptors it has, frames are
    sent, tasks read the mailbox and free packets. Nothing but reception moves the
    current descriptor or touches one the processor has. *)
Inductive nif_step : nif St -> nif St -> Prop :=
  | nif_irq s s' : ETH_IRQHandler pvNullPointer s = Done tt s' -> nif_step s s'
  | nif_other s s' :
      RxDesc (mac_of s') = RxDesc (mac_of s) ->
      (forall i d, RxTab (mac_of s) !! i = Some d -> Z.land (Status d) ETH_DMARXDESC_OWN = 0 ->
        RxTab (mac_of s') !! i = Some d) ->
      nif_step s s'.

Lemma stuck_step s s' : nif_step s s' -> stuck (mac_of s) -> stuck (mac_of s').
Proof.
  intros [s1 s1' E|s1 s1' Hr Ht] Hst.
  - rewrite (stuck_handler s1 Hst) in E. injection E as <-. exact Hst.
  - destruct Hst as (d & Hd & Hown & H). exists d. split_and!; [|done|done]. rewrite Hr.
    unfold index in *. case_bool_decide; [|done]. by apply Ht.
Qed.

(** C27: a descriptor the DMA gives back without the mark of a last segment, or with an
    error, ends reception: [ETH_GetRxPktSize] calls it empty, nothing else ever looks at
    it, and from then on, whatever happens in between, each interrupt takes no frame
    and leaves packets, messages and mailbox as they are. *)
Theorem long_frame_ends_reception (s s' : nif St) :
  stuck (mac_of s) -> rtc nif_step s s' ->
  RxDesc (mac_of s') = RxDesc (mac_of s) /\
  exists m, ETH_IRQHandler pvNullPointer s' = Done tt (with_mac m s') /\ RxTab m = RxTab (mac_of s') /\
    RxDesc m = RxDesc (mac_of s').
Proof.
  intros Hst Hr. assert (stuck (mac_of s') /\ RxDesc (mac_of s') = RxDesc (mac_of s)) as [Hst' Hd].
  { induction Hr as [x|x y z Hxy _ IH]; [done|]. destruct (IH (stuck_step x y Hxy Hst)) as [Hz Ez]. split; [done|].
    rewrite Ez. destruct Hxy as [x1 y1 E|x1 y1 E _]; [|done]. rewrite (stuck_handler x1 Hst) in E. by injection E as <-. }
  split; [done|]. exists (acknowledged (mac_of s')). by rewrite (stuck_handler s' Hst').
Qed.
End stuck.

(** ** Witnesses *)
Definition zero_desc : desc := Desc 0 0 0 0.
Definition zero_mac : mac :=
  Mac false STATE_READY 0 0 0 None 0 0 0 (replicate 5 zero_desc) (replicate 10 zero_desc)
    (replicate (Z.to_nat 7620) 0) (replicate (Z.to_nat 15240) 0) 0 0 0 true.

Lemma zero_mac_boot : mac_boot zero_mac.
Proof.
  split; cbn [TxBuff RxBuff RxTab TxTab SegCount Lock zero_mac]; rewrite ?length_replicate, ?Z2Nat.id by lia; reflexivity.
Qed.

Lemma rings_cur m : RxDesc (rings m) = 0.
Proof. reflexivity. Qed.

Lemma low_level_init_rings_witness : exists m', low_level_init (Drv zero_mac (boot_pbufs tab3)) =
  Done ERR_OK (Drv m' (boot_pbufs tab3)) /\ RxDesc m' = 0 /\ owned m' 9.
Proof.
  destruct (low_level_init_rings zero_mac (boot_pbufs tab3) zero_mac_boot) as (m' & E & Hrx & _ & Ho & _).
  assert (m' = rings zero_mac) as ->.
  { rewrite (low_level_init_run _ _ zero_mac_boot) in E. by injection E as <-. }
  exists (rings zero_mac). split; [exact E|]. split; [exact (rings_cur zero_mac)|]. apply Ho. unfold ETH_RXBUFNB. lia.
Defined.

(** The MAC at power-up, with [st] in the first descriptor. *)
Definition mac_with (st : Z) : mac :=
  (rings zero_mac) <| RxTab := <[0%nat := (rx_desc0 ETH_RXBUFNB 0 zero_desc) <| Status := st |>]> (RxTab (rings zero_mac)) |>.

(** The DMA writes a status. *)
Lemma rx_ok_status m i d st :
  rx_ok m -> RxTab m !! i = Some d -> rx_ok (m <| RxTab := <[i := d <| Status := st |>]> (RxTab m) |>).
Proof.
  intros [H1 H2 H3 H4 H5 H6] Hd. constructor; rewrite ?upd_get; try done; [by rewrite length_insert|].
  intros k e. destruct (decide (k = i)) as [->|Hk]; [|rewrite list_lookup_insert_ne by done; apply H2].
  rewrite list_lookup_insert_eq by (by apply lookup_lt_Some in Hd). intros [= <-]. exact (H2 _ _ Hd).
Qed.

Lemma mac_with_tab st :
  RxTab (mac_with st) = <[0%nat := (rx_desc0 ETH_RXBUFNB 0 zero_desc) <| Status := st |>]> (RxTab (rings zero_mac)).
Proof. exact (upd_get (rings zero_mac) _). Qed.

Definition msg_pbufs : pbufs :=
  (boot_pbufs tab3) <| memp_tab := <[MEMP_TCPIP_MSG_INPKT := [4096; 4112]]> (memp_tab (boot_pbufs tab3)) |>.

Definition empty_box : queue_os :=
  QueueOs (Os kernel_example (Event OS_EVENT_TYPE_Q 0 pmap_empty)) (OSQ [0; 0; 0; 0] 4 0 0 0).

Definition nif_example (st : Z) : nif queue_os := Nif (Drv (mac_with st) msg_pbufs) ∅ empty_box.

Lemma nif_example_ok st : nif_ok (list_to_set tab3) own0 [] (nif_example st).
Proof.
  constructor.
  - exact (rx_ok_status (rings zero_mac) 0 _ st (proj1 (rings_ok zero_mac zero_mac_boot)) eq_refl).
  - eapply inv_ext; [..|exact (inv_booted tab3 _ booted_tab3)]; done.
  - apply example_ok. constructor; cbn; lia || done.
  - apply (bool_decide_eq_true_1 _). vm_compute. reflexivity.
  - change (0 ∉ [4096; 4112]). rewrite !not_elem_of_cons. split_and!; [done..|apply not_elem_of_nil].
  - constructor.
Qed.

(** A frame of 60 bytes and the checksum: [FS], [LS] and the length 64. *)
Definition frame_status : Z := 0x00400300.

Lemma example_waiting : waiting (mac_of (nif_example frame_status)) [replicate 60 0].
Proof.
  constructor; [done| |].
  - intros k f Hf. destruct k as [|k]; [|done]. injection Hf as <-.
    exists ((rx_desc0 ETH_RXBUFNB 0 zero_desc) <| Status := frame_status |>). split_and!; [vm_compute; reflexivity|by constructor|vm_compute; reflexivity].
  - intros d _ Hd. assert (Status d = ETH_DMARXDESC_OWN) as ->; [|reflexivity].
    assert (Status <$> RxTab (mac_of (nif_example frame_status)) !! Z.to_nat (ring_at (mac_of (nif_example frame_status)) 1) =
      Some ETH_DMARXDESC_OWN) as E by (vm_compute; reflexivity).
    cbn [length] in Hd. rewrite Hd in E. by injection E.
Qed.

Lemma example_room :
  (buffers_for [replicate 60 0%Z] <= length (pool (pb_of (nif_example frame_status))))%nat /\
  Z.of_nat (length (posted (nif_example frame_status)) + 1) <= mq_size (nif_mbox (nif_example frame_status)) /\
  (1 <= length (free_msgs (nif_example frame_status)))%nat.
Proof. split_and!; [apply Nat.leb_le|apply Z.leb_le|apply Nat.leb_le]; vm_compute; reflexivity. Qed.

Lemma interrupt_delivers_witness : exists own' s',
  ETH_IRQHandler 0x8001234 (nif_example frame_status) = Done tt s' /\
  nif_ok (list_to_set tab3) own' ([] ++ [replicate 60 0]) s'.
Proof.
  destruct (interrupt_delivers 0x8001234 _ _ _ (nif_example frame_status) [replicate 60 0] (nif_example_ok frame_status) example_waiting)
    as (own' & s' & E & Hok & _ & _ & _ & Hall).
  destruct example_room as (H1 & H2 & H3). rewrite (Hall H1 H2 H3) in Hok.
  exists own', s'. split; [exact E|exact Hok].
Defined.

Lemma output_hands_over_witness : exists m', low_level_output 16 (Drv (rings zero_mac) small_pbufs) = Done ERR_OK (Drv m' small_pbufs) /\
  tx_data m' 0 5 = [1; 2; 3; 4; 5] /\ TxDesc m' = 1.
Proof.
  pose proof (output_hands_over (rings zero_mac) small_pbufs 16 [16; 32] (tx_desc0 ETH_TXBUFNB 0 zero_desc)
    (proj1 (proj2 (rings_ok zero_mac zero_mac_boot))) (proj1 small_chain) ltac:(done) eq_refl ltac:(by vm_compute)) as (m' & E & _ & _ & Hdata & _ & Ht & _).
  exists m'. split_and!; [exact E|exact Hdata|exact Ht].
Defined.

(** The first 1524 bytes of a longer frame: [FS] alone. *)
Lemma long_frame_ends_reception_witness : exists m,
  ETH_IRQHandler 0x8001234 (nif_example 0x00000200) = Done tt (with_mac m (nif_example 0x00000200)).
Proof.
  destruct (long_frame_ends_reception 0x8001234 (nif_example 0x00000200) (nif_example 0x00000200)) as (_ & m & E & _).
  - eexists. split_and!; [reflexivity|done|by left].
  - apply rtc_refl.
  - exists m. exact E.
Defined.
