(* ===== verification/IpInput.v ===== *)
(** * A packet on its way up

    [ethernet_input] (netif/etharp.c), [ip_input] (core/ipv4/ip.c) and [udp_input]
    (core/udp.c) of src/LWIP/lwip-1.4.1/src. With the options of lwipopts.h and opt.h
    there is no TCP, no DHCP, no forwarding, no VLAN and no check of a checksum in
    software; the unit has one interface [inp] and no raw pcb. An address is the 32-bit
    word of its four bytes in memory. What goes to a callback or to a part of lwIP that
    is not modelled (ARP, ICMP, IGMP) is an entry of the history [handed].  Reassembly
    ([ip_reass] of core/ipv4/ip_frag.c) is not modelled either, and an argument; its
    list of datagrams is part of the state. *)
From Stdlib Require Import ZArith Lia.
From stdpp Require Import base tactics decidable list list_numbers numbers gmap functions.
From S2P Require Import Prelude Udp Net SysArch Pbuf.
Open Scope Z_scope.
Open Scope c_scope.

Definition NETIF_FLAG_UP : Z := 0x01.
Definition NETIF_FLAG_BROADCAST : Z := 0x02.
Definition NETIF_FLAG_ETHARP : Z := 0x20.
Definition NETIF_FLAG_IGMP : Z := 0x80.
Definition PBUF_FLAG_LLBCAST : Z := 0x08.
Definition PBUF_FLAG_LLMCAST : Z := 0x10.
Definition UDP_FLAGS_CONNECTED : Z := 0x04.
Definition SIZEOF_ETH_HDR : Z := 14.
Definition UDP_HLEN : Z := 8.
Definition ETHTYPE_IP : Z := 0x0800.
Definition ETHTYPE_ARP : Z := 0x0806.
Definition IP_PROTO_ICMP : Z := 1.
Definition IP_PROTO_IGMP : Z := 2.
Definition IP_PROTO_UDP : Z := 17.
Definition IP_MF : Z := 0x2000.
Definition IP_OFFMASK : Z := 0x1fff.
Definition IPADDR_ANY : Z := 0.
Definition IPADDR_BROADCAST : Z := 0xffffffff.

Record netif := Netif { nf_ip_addr : Z; nf_netmask : Z; nf_flags : Z }.

(** [struct udp_pcb], its callback by its address. *)
Record udp_pcb := UdpPcb {
  local_ip : Z;
  remote_ip : Z;
  pcb_flags : Z;
  local_port : Z;
  remote_port : Z;
  recv : Z;
}.

(** Where a packet goes, or what is told the sender. *)
Inductive call :=
  | ToArp (p : Z)
  | ToIcmp (p : Z)
  | ToIgmp (p dest : Z)
  | ToRecv (recv p addr port : Z)
  | ProtocolUnreachable (p : Z)
  | PortUnreachable (p : Z).

(** [struct ip_reassdata] of ip_frag.h: a datagram that is put together, the chain of
    its fragments and its IP header. *)
Record ip_reassdata := ReassData {
  rd_p : Z;
  rd_iphdr : list Z;
  rd_datagram_len : Z;
  rd_flags : Z;
  rd_timer : Z;
}.

(** Packet buffers, the lists of pcbs and of joined groups, the addresses of the packet
    that is handled, the state of the reassembly, and the history, the latest first. *)
Record stack := Stack {
  st_pb : pbufs;
  udp_pcbs : list udp_pcb;
  igmp_groups : list Z;
  current_iphdr_src : Z;
  current_iphdr_dest : Z;
  reassdatagrams : list ip_reassdata;
  ip_reass_pbufcount : Z;
  handed : list call;
}.

#[export] Instance stack_eta : Eta stack := fun s =>
  Stack (st_pb s) (udp_pcbs s) (igmp_groups s) (current_iphdr_src s) (current_iphdr_dest s)
    (reassdatagrams s) (ip_reass_pbufcount s) (handed s).
#[export] Instance upd_st_pb : Upd st_pb := ltac:(derive_upd).
#[export] Instance upd_udp_pcbs : Upd udp_pcbs := ltac:(derive_upd).
#[export] Instance upd_igmp_groups : Upd igmp_groups := ltac:(derive_upd).
#[export] Instance upd_current_iphdr_src : Upd current_iphdr_src := ltac:(derive_upd).
#[export] Instance upd_current_iphdr_dest : Upd current_iphdr_dest := ltac:(derive_upd).
#[export] Instance upd_reassdatagrams : Upd reassdatagrams := ltac:(derive_upd).
#[export] Instance upd_ip_reass_pbufcount : Upd ip_reass_pbufcount := ltac:(derive_upd).
#[export] Instance upd_handed : Upd handed := ltac:(derive_upd).

(** ** Addresses and fields *)
Definition ntohs (n : Z) : Z := Z.lor (Z.shiftl (Z.land n 0xff) 8) (Z.shiftr (Z.land n 0xff00) 8).

Definition ip_addr_netcmp (addr1 addr2 mask : Z) : bool := Z.land addr1 mask =? Z.land addr2 mask.
Definition ip_addr_ismulticast (addr : Z) : bool := Z.land addr 0xf0 =? 0xe0.

Definition ip4_addr_isbroadcast (addr : Z) (n : netif) : bool :=
  if (addr =? IPADDR_BROADCAST) || (addr =? IPADDR_ANY) then true
  else if Z.land (nf_flags n) NETIF_FLAG_BROADCAST =? 0 then false
  else if addr =? nf_ip_addr n then false
  else ip_addr_netcmp addr (nf_ip_addr n) (nf_netmask n)
    && (Z.land addr (u32 (Z.lnot (nf_netmask n))) =? Z.land IPADDR_BROADCAST (u32 (Z.lnot (nf_netmask n)))).

Section input.
Local Notation MS := (M stack).
Context (inp : netif) (ip_reass : Z -> MS Z).

Definition in_st {A} (c : MP A) : MS A := zoom st_pb c.

(** A field of the structure [p->payload] points to. *)
Definition field (p off n : Z) : MS Z := l ← in_st (pb_read p off n); mret (le_value l).

Definition hand (c : call) : MS unit := l ← gets handed; handed ::= c :: l.

(** [pbuf_free(p); return ERR_OK;] *)
Definition free_and_return (p : Z) : MS Z := _ ← in_st (pbuf_free p); mret ERR_OK.

(** ** udp.c *)

(** The condition on the local address of a pcb. *)
Definition local_match (c : udp_pcb) (dest_ip dest : Z) (broadcast : bool) : bool :=
  (local_port c =? dest) &&
  (negb broadcast && (local_ip c =? IPADDR_ANY) || (local_ip c =? dest_ip) || ip_addr_ismulticast dest_ip ||
   broadcast && ((local_ip c =? IPADDR_ANY) || ip_addr_netcmp (local_ip c) dest_ip (nf_netmask inp))).

(** [for (pcb = udp_pcbs; pcb != NULL; pcb = pcb->next)]: the pcb and the list, in which
    it has moved to the front. *)
Fixpoint find_pcb (before pcbs : list udp_pcb) (uncon : option udp_pcb) (dest_ip dest : Z) (broadcast : bool) :
    option udp_pcb * list udp_pcb :=
  match pcbs with
  | [] => (uncon, before)
  | c :: pcbs =>
      let m := local_match c dest_ip dest broadcast in
      let uncon := match uncon with
        | None => if m && (Z.land (pcb_flags c) UDP_FLAGS_CONNECTED =? 0) then Some c else None
        | Some _ => uncon
        end in
      if m && (remote_ip c =? IPADDR_ANY) then (Some c, c :: before ++ pcbs)
      else find_pcb (before ++ [c]) pcbs uncon dest_ip dest broadcast
  end.

Definition udp_input (p : Z) : MS unit :=
  v_hl ← field p 0 1;
  let hlen := Z.land v_hl 0x0f * 4 in
  b ← in_st (pb_get p);
  short ← (if pb_tot_len b <? hlen + UDP_HLEN then mret 1 else in_st (pbuf_header p (- hlen)));
  if negb (short =? 0) then _ ← in_st (pbuf_free p); skip else
  dest_ip ← gets current_iphdr_dest;
  src_ip ← gets current_iphdr_src;
  let broadcast := ip4_addr_isbroadcast dest_ip inp in
  src ← field p 0 2;
  dest ← field p 2 2;
  pcbs ← gets udp_pcbs;
  let '(pcb, pcbs) := find_pcb [] pcbs None dest_ip (ntohs dest) broadcast in
  udp_pcbs ::= pcbs ;;
  if match pcb with Some _ => true | None => nf_ip_addr inp =? dest_ip end then
    failed ← in_st (pbuf_header p (- UDP_HLEN));
    if negb (failed =? 0) then _ ← in_st (pbuf_free p); skip else
    match pcb with
    | Some c =>
        if recv c =? 0 then _ ← in_st (pbuf_free p); skip
        else hand (ToRecv (recv c) p src_ip (ntohs src))
    | None =>
        (if negb broadcast && negb (ip_addr_ismulticast dest_ip) then
           _ ← in_st (pbuf_header p (hlen + UDP_HLEN)); hand (PortUnreachable p)
         else skip) ;;
        _ ← in_st (pbuf_free p); skip
    end
  else _ ← in_st (pbuf_free p); skip.

(** ** ip.c *)

(** A packet as a whole, to the protocol it is for. *)
Definition ip_deliver (p : Z) : MS Z :=
  proto ← field p 9 1;
  (if proto =? IP_PROTO_UDP then udp_input p
   else if proto =? IP_PROTO_ICMP then hand (ToIcmp p)
   else if proto =? IP_PROTO_IGMP then d ← gets current_iphdr_dest; hand (ToIgmp p d)
   else
     d ← gets current_iphdr_dest;
     (if negb (ip4_addr_isbroadcast d inp) && negb (ip_addr_ismulticast d) then hand (ProtocolUnreachable p) else skip) ;;
     _ ← in_st (pbuf_free p); skip) ;;
  current_iphdr_src ::= IPADDR_ANY ;;
  current_iphdr_dest ::= IPADDR_ANY ;;
  mret ERR_OK.

(** Whether the packet is for this unit: a group it has joined, its address, or a
    broadcast. *)
Definition for_us (dest : Z) (groups : list Z) : bool :=
  if ip_addr_ismulticast dest then
    negb (Z.land (nf_flags inp) NETIF_FLAG_IGMP =? 0) && bool_decide (dest ∈ groups)
  else
    negb (Z.land (nf_flags inp) NETIF_FLAG_UP =? 0) && negb (nf_ip_addr inp =? IPADDR_ANY) &&
    ((dest =? nf_ip_addr inp) || ip4_addr_isbroadcast dest inp).

Definition ip_input (p : Z) : MS Z :=
  v_hl ← field p 0 1;
  if negb (Z.shiftr v_hl 4 =? 4) then free_and_return p else
  let iphdr_hlen := Z.land v_hl 0x0f * 4 in
  len ← field p 2 2;
  let iphdr_len := ntohs len in
  b ← in_st (pb_get p);
  if (iphdr_hlen >? pb_len b) || (iphdr_len >? pb_tot_len b) then free_and_return p else
  in_st (pbuf_realloc p iphdr_len) ;;
  dest ← field p 16 4;
  current_iphdr_dest ::= dest ;;
  src ← field p 12 4;
  current_iphdr_src ::= src ;;
  groups ← gets igmp_groups;
  if ip4_addr_isbroadcast src inp || ip_addr_ismulticast src then free_and_return p else
  if negb (for_us dest groups) then free_and_return p else
  offset ← field p 6 2;
  if negb (Z.land offset (ntohs (Z.lor IP_OFFMASK IP_MF)) =? 0) then
    q ← ip_reass p;
    if q =? 0 then mret ERR_OK else ip_deliver q
  else ip_deliver p.

(** ** etharp.c *)
Definition set_flag (p flag : Z) : MS unit :=
  in_st (b ← pb_get p; pb_set p (b <| pb_flags := Z.lor (pb_flags b) flag |>)).

(** The mark of a packet that was sent to more than this unit. *)
Definition mark_link_layer (p : Z) : MS unit :=
  d0 ← field p 0 1;
  if Z.land d0 1 =? 0 then skip else
  if d0 =? 0x01 then
    d1 ← field p 1 1;
    d2 ← field p 2 1;
    if (d1 =? 0) && (d2 =? 0x5e) then set_flag p PBUF_FLAG_LLMCAST else skip
  else
    d ← field p 0 6;
    if d =? 0xffffffffffff then set_flag p PBUF_FLAG_LLBCAST else skip.

Definition ethernet_input (p : Z) : MS Z :=
  b ← in_st (pb_get p);
  if pb_len b <=? SIZEOF_ETH_HDR then free_and_return p else
  type ← field p 12 2;
  mark_link_layer p ;;
  if type =? ntohs ETHTYPE_IP then
    if Z.land (nf_flags inp) NETIF_FLAG_ETHARP =? 0 then free_and_return p else
    failed ← in_st (pbuf_header p (- SIZEOF_ETH_HDR));
    if negb (failed =? 0) then free_and_return p else
    _ ← ip_input p;
    mret ERR_OK
  else if type =? ntohs ETHTYPE_ARP then
    if Z.land (nf_flags inp) NETIF_FLAG_ETHARP =? 0 then free_and_return p else
    hand (ToArp p) ;; mret ERR_OK
  else free_and_return p.
End input.
