(* ===== verification/IpInputSpec.v ===== *)
(** * What becomes of a packet

    Every packet that goes up is given back or handed over exactly once, whatever its
    bytes; a datagram for a port that is listened to arrives with its data. *)
From Stdlib Require Import ZArith Lia.
From stdpp Require Import base tactics decidable list list_numbers numbers gmap functions.
From S2P Require Import Prelude Udp Net SysArch Pbuf PbufSpec PbufData PbufInv PbufShape PbufLife IpInput.
Open Scope Z_scope.
Open Scope c_scope.

(** ** A packet of ours *)

(** The chain [l] from [p], to which the caller holds a reference, its first buffer [b]. *)
Record packet_at (all : gset Z) (own : Z -> Z) (pb : pbufs) (p : Z) (b : pbuf) (l : list Z) : Prop := {
  pk_inv : pool_inv all own pb;
  pk_own : 0 < own p;
  pk_chain : chain pb p l;
  pk_first : pb_mem pb !! p = Some b;
  pk_tot : pb_tot_len b < 2 ^ 16;
}.

Lemma inv_set all own s p b b' :
  pool_inv all own s -> live s !! p = Some b ->
  pb_next b' = pb_next b -> pb_ref b' = pb_ref b -> pb_type b' = pb_type b -> (plain b -> plain b') ->
  pool_inv all own (with_pb p b' s).
Proof.
  intros [Hok Hac Hall] Hb En Er Et Hd. pose proof (pool_ok_same own s p b b' Hok Hb En Er Et Hd) as Hok'.
  constructor; [done| |].
  - eapply (acyclic_closed own (live s)); [apply Hok|apply Hok'| |exact Hac].
    rewrite live_with_pb by (by eapply live_pool_disjoint). intros a c [[<- <-]|[_ Hc]]%lookup_insert_Some; [by exists b|by exists c].
  - apply live_Some in Hb as [Hm _]. cbn. rewrite dom_insert_L, Hall. apply subseteq_union_1_L, singleton_subseteq_l.
    rewrite <- Hall. by apply elem_of_dom_2 in Hm.
Qed.

Lemma move_payload_0 b : 0 <= pb_len b < 2 ^ 16 -> 0 <= pb_tot_len b < 2 ^ 16 -> move_payload (- 0) b = b.
Proof.
  destruct b as [nx pl tot len ty fl rf d]. intros H1 H2. cbn [pb_len pb_tot_len] in *.
  change (Pbuf nx (pl - - 0) (u16 (tot + - 0)) (u16 (len + - 0)) ty fl rf d = Pbuf nx pl tot len ty fl rf d).
  change (- 0) with 0. unfold u16. rewrite !Z.add_0_r, Z.sub_0_r, !Z.mod_small by lia. done.
Qed.

(** A field of the memory behind a buffer, from its payload on. *)
Definition mem_field (b : pbuf) (k n : Z) : Z :=
  le_value (take (Z.to_nat n) (drop (Z.to_nat (pb_payload b + k)) (pb_data b))).

Section packet.
Context {all : gset Z} {own : Z -> Z} {pb : pbufs} {p : Z} {b : pbuf} {l : list Z}.
Context (Hpk : packet_at all own pb p b l).

Lemma pk_live : live pb !! p = Some b.
Proof.
  destruct Hpk as [Hi Ho _ Hf _]. destruct (co_own _ _ (po_counts _ _ (pi_ok _ _ _ Hi)) p) as [_ [c Hc]]; [lia|].
  pose proof Hc as [Hm _]%live_Some. rewrite Hf in Hm. by injection Hm as <-.
Qed.

Lemma pk_nonnull : p <> 0.
Proof. exact (live_nonnull own pb p b (pi_ok _ _ _ (pk_inv _ _ _ _ _ _ Hpk)) pk_live). Qed.

Lemma pk_within : within b /\ Z.of_nat (length (pb_data b)) = 512.
Proof.
  destruct Hpk as [Hi Ho Hch Hf _]. split; [|exact (proj1 (po_data _ _ (pi_ok _ _ _ Hi) p b Hf))].
  destruct (chain_first pb p l Hch pk_nonnull) as (b' & l' & Hb' & -> & _).
  destruct (ch_within _ _ _ Hch p) as (c & Hc & Hw); [by left|]. rewrite Hf in Hc. by injection Hc as <-.
Qed.

Lemma pk_bytes : exists rest, bytes (pb_mem pb) l = contents b ++ rest /\ pb_tot_len b = Z.of_nat (length (bytes (pb_mem pb) l)).
Proof.
  pose proof Hpk as [Hi Ho Hch Hf _]. destruct (chain_first pb p l Hch pk_nonnull) as (b' & l' & Hb' & El & Et).
  rewrite Hf in Hb'. injection Hb' as <-. exists (bytes (pb_mem pb) l'). split; [|by rewrite (bytes_length _ _ (ch_within _ _ _ Hch))].
  by rewrite El, bytes_cons, Hf.
Qed.

Lemma free_packet : exists n pb', pbuf_free p pb = Done n pb' /\ pool_inv all (<[p := own p - 1]> own) pb'.
Proof. apply inv_free; apply Hpk. Qed.

(** Bytes hidden at the front. *)
Lemma hide_run n :
  0 <= n ->
  if decide (n <= pb_len b) then
    exists pb', pbuf_header p (- n) pb = Done 0 pb' /\ packet_at all own pb' p (move_payload (- n) b) l /\
      bytes (pb_mem pb') l = drop (Z.to_nat n) (bytes (pb_mem pb) l)
  else pbuf_header p (- n) pb = Done 1 pb.
Proof.
  intros Hn. pose proof Hpk as [Hi Ho Hch Hf Ht]. pose proof pk_within as [Hw _]. pose proof pk_nonnull as Hp. pose proof Hw as (H1 & H2 & H3).
  destruct pk_bytes as (r & _ & Htot).
  rewrite (header_run pb p b (- n) Hf Hp (pool_type all own pb p b Hi pk_live) Hw). case_decide as Hle.
  - destruct (Z.eqb_spec (- n) 0) as [E0|E0].
    { assert (n = 0) as -> by lia. exists pb. rewrite move_payload_0 by lia. by rewrite drop_0. }
    unfold movable. rewrite bool_decide_eq_true_2 by lia.
    destruct (chain_first pb p l Hch Hp) as (b' & l' & _ & -> & _).
    destruct (hidden_chain pb p l' b n Hch Hf ltac:(lia) Ht) as (Hch' & Hb' & _).
    eexists. split_and!; [done| |exact Hb']. constructor; [by eapply inv_with_pb|done|done|apply lookup_insert_eq|].
    cbn. unfold u16. apply Z.mod_pos_bound. lia.
  - rewrite (proj2 (Z.eqb_neq _ _)) by lia. unfold movable. by rewrite bool_decide_eq_false_2 by lia.
Qed.

(** A packet cut at its length. *)
Lemma cut_run n :
  0 <= n < 2 ^ 16 ->
  exists pb' b' l', pbuf_realloc p n pb = Done tt pb' /\ packet_at all own pb' p b' l' /\
    bytes (pb_mem pb') l' = take (Z.to_nat n) (bytes (pb_mem pb) l) /\ cut_first n b b'.
Proof.
  intros Hn. pose proof Hpk as [Hi Ho Hch Hf Ht].
  destruct (realloc_ok all own pb p l n Hi Hch) as (pb' & l1 & l2 & E & Hi' & _ & Hch' & Hb & _ & _ & Hcut); [by exists b; apply pk_live|done|].
  destruct (Hcut b Hf) as (b' & Hb' & Hc). exists pb', b', l1. split_and!; [done| |done|done].
  constructor; [done|done|done|done|]. destruct (chain_first pb' p l1 Hch' pk_nonnull) as (c & l' & Hc' & -> & Htot).
  rewrite Hb' in Hc'. injection Hc' as <-. rewrite Htot, <- (bytes_length _ _ (ch_within _ _ _ Hch')), Hb, length_take. lia.
Qed.

(** A flag set. *)
Lemma flag_run flag :
  Z.land flag PBUF_FLAG_IS_CUSTOM = 0 ->
  let b' := b <| pb_flags := Z.lor (pb_flags b) flag |> in
  packet_at all own (with_pb p b' pb) p b' l /\ bytes (pb_mem (with_pb p b' pb)) l = bytes (pb_mem pb) l.
Proof.
  intros Hfl b'. pose proof Hpk as [Hi Ho Hch Hf Ht].
  assert (forall {A} (f : pbuf -> A), f b' = f b -> forall a, f <$> pb_mem (with_pb p b' pb) !! a = f <$> pb_mem pb !! a) as Hsame.
  { intros A f E a. cbn. destruct (decide (p = a)) as [<-|]; [by rewrite lookup_insert_eq, Hf; cbn; rewrite E|by rewrite lookup_insert_ne]. }
  split; [constructor|].
  - apply (inv_set all own pb p b b' Hi pk_live); [done..|]. intros [H1 H2]. split; [done|]. cbn.
    by rewrite Z.land_lor_distr_l, H2, Hfl.
  - done.
  - destruct Hch as [Hs Hnd H0 Hw Htok]. constructor; [|done|done| |].
    + eapply seg_same; [|exact Hs]. intros a _. by apply Hsame.
    + intros a Ha. destruct (Hw a Ha) as (c & Hc & Hwc). cbn. destruct (decide (p = a)) as [<-|]; [|by rewrite lookup_insert_ne; [exists c|]].
      rewrite lookup_insert_eq. rewrite Hf in Hc. injection Hc as <-. by exists b'.
    + eapply tot_ok_same; [|exact Htok]. intros a _. split; by apply Hsame.
  - apply lookup_insert_eq.
  - done.
  - apply bytes_contents. intros a _. by apply Hsame.
Qed.

(** A field of the memory, and what it is when it is a part of the packet. *)
Lemma field_run s k n :
  st_pb s = pb -> 0 <= k -> 0 <= n -> pb_payload b + k + n <= 512 ->
  field p k n s = Done (le_value (take (Z.to_nat n) (drop (Z.to_nat (pb_payload b + k)) (pb_data b)))) s.
Proof.
  intros Es Hk Hn Hle. pose proof pk_within as [(H1 & _) Hl]. unfold field, in_st.
  rewrite (bind_Done _ _ _ (take (Z.to_nat n) (drop (Z.to_nat (pb_payload b + k)) (pb_data b))) s); [done|].
  unfold zoom. rewrite Es. unfold pb_read. rewrite (bind_Done _ _ _ _ _ (pb_get_run pb p b (pk_first _ _ _ _ _ _ Hpk))).
  unfold copy_out. rewrite bool_decide_eq_true_2 by lia. unfold mret, M_ret. rewrite <- Es. by destruct s.
Qed.

Lemma field_part k n :
  0 <= k -> 0 <= n -> k + n <= pb_len b ->
  take (Z.to_nat n) (drop (Z.to_nat (pb_payload b + k)) (pb_data b)) = take (Z.to_nat n) (drop (Z.to_nat k) (bytes (pb_mem pb) l)).
Proof.
  intros Hk Hn Hle. pose proof pk_within as [Hw _]. pose proof Hw as (H1 & H2 & H3). pose proof (contents_length b Hw) as Hc.
  destruct pk_bytes as (r & -> & _). rewrite drop_app_le by lia. rewrite take_app_le by (rewrite length_drop; lia).
  unfold contents. rewrite skipn_firstn_comm, take_take, drop_drop. f_equal; [lia|]. f_equal. lia.
Qed.
End packet.

(** ** Once and only once *)

(** [c] hands [p] over, or tells the sender about it. *)
Definition takes (c : call) (p : Z) : Prop :=
  match c with ToArp q | ToIcmp q | ToIgmp q _ | ToRecv _ q _ _ => q = p | _ => False end.
Definition tells (c : call) (p : Z) : Prop :=
  match c with ProtocolUnreachable q | PortUnreachable q => q = p | _ => False end.

(** [p] has been given back, perhaps after a message to its sender, or handed over as
    the packet it is: one of the two, and once. *)
Record settled (all : gset Z) (own : Z -> Z) (p : Z) (s s' : stack) : Prop := {
  se_pcbs : udp_pcbs s' ≡ₚ udp_pcbs s;
  se_groups : igmp_groups s' = igmp_groups s;
  se_fate :
    (pool_inv all (<[p := own p - 1]> own) (st_pb s') /\
      (handed s' = handed s \/ exists c, handed s' = c :: handed s /\ tells c p)) \/
    (exists c b l, handed s' = c :: handed s /\ takes c p /\ packet_at all own (st_pb s') p b l);
}.

Lemma settled_from all own p s1 s2 s' :
  udp_pcbs s2 ≡ₚ udp_pcbs s1 -> igmp_groups s2 = igmp_groups s1 -> handed s2 = handed s1 ->
  settled all own p s2 s' -> settled all own p s1 s'.
Proof. intros E1 E2 E3 [H1 H2 H3]. constructor; [by rewrite H1|congruence|]. by rewrite <- E3. Qed.

Lemma low_4 v : 0 <= Z.land v 0x0f <= 15.
Proof. change 15 with (Z.ones 4). rewrite Z.land_ones by lia. change (Z.ones 4) with 15. pose proof (Z.mod_pos_bound v (2 ^ 4) ltac:(lia)). lia. Qed.

Lemma find_pcb_perm inp dest_ip dest broadcast pcbs : forall before uncon,
  (find_pcb inp before pcbs uncon dest_ip dest broadcast).2 ≡ₚ before ++ pcbs.
Proof.
  induction pcbs as [|c pcbs IH]; intros before uncon; cbn [find_pcb]; [by rewrite app_nil_r|]. cbn zeta.
  destruct (local_match inp c dest_ip dest broadcast && (remote_ip c =? IPADDR_ANY)); [apply Permutation_middle|].
  rewrite IH, <- app_assoc. done.
Qed.

Section once.
Context (inp : netif) (ip_reass : Z -> M stack Z) {all : gset Z} {own : Z -> Z}.
Implicit Types s : stack.

Lemma wp_in_st {A} (m : MP A) (Q : A -> stack -> Prop) s a pb' :
  m (st_pb s) = Done a pb' -> Q a s <| st_pb := pb' |> -> wp (in_st m) Q s.
Proof. intros E HQ. unfold in_st, wp, zoom. by rewrite E. Qed.

Lemma wp_mem p b l k n (Q : Z -> stack -> Prop) s :
  packet_at all own (st_pb s) p b l -> 0 <= k -> 0 <= n -> pb_payload b + k + n <= 512 ->
  Q (mem_field b k n) s -> wp (field p k n) Q s.
Proof. intros Hpk Hk Hn Hle HQ. unfold wp. by rewrite (field_run Hpk s k n eq_refl Hk Hn Hle). Qed.

Lemma wp_field p b l k n (Q : Z -> stack -> Prop) s :
  packet_at all own (st_pb s) p b l -> 0 <= k -> 0 <= n -> pb_payload b + k + n <= 512 ->
  (forall v, Q v s) -> wp (field p k n) Q s.
Proof. intros. by eapply wp_mem. Qed.

Lemma wp_get p b l (Q : pbuf -> stack -> Prop) s :
  packet_at all own (st_pb s) p b l -> Q b s -> wp (in_st (pb_get p)) Q s.
Proof.
  intros Hpk HQ. eapply wp_in_st; [apply (pb_get_run _ p b), (pk_first _ _ _ _ _ _ Hpk)|]. by destruct s.
Qed.

Lemma wp_free p b l (Q : Z -> stack -> Prop) s :
  packet_at all own (st_pb s) p b l ->
  (forall n pb', pool_inv all (<[p := own p - 1]> own) pb' -> Q n s <| st_pb := pb' |>) -> wp (in_st (pbuf_free p)) Q s.
Proof. intros Hpk HQ. destruct (free_packet Hpk) as (n & pb' & E & Hi). eapply wp_in_st; [exact E|]. by apply HQ. Qed.

Lemma wp_hide p b l n (Q : Z -> stack -> Prop) s :
  packet_at all own (st_pb s) p b l -> 0 <= n ->
  (forall pb', n <= pb_len b -> packet_at all own pb' p (move_payload (- n) b) l ->
    bytes (pb_mem pb') l = drop (Z.to_nat n) (bytes (pb_mem (st_pb s)) l) -> Q 0 s <| st_pb := pb' |>) ->
  (pb_len b < n -> Q 1 s) -> wp (in_st (pbuf_header p (- n))) Q s.
Proof.
  intros Hpk Hn H0 H1. pose proof (hide_run Hpk n Hn) as H. case_decide as Hle.
  - destruct H as (pb' & E & Hpk' & Hb). eapply wp_in_st; [exact E|]. by apply H0.
  - eapply wp_in_st; [exact H|]. destruct s. apply H1. lia.
Qed.

(** The end of a packet that is dropped. *)
Lemma settled_freed p s s' pb' :
  pool_inv all (<[p := own p - 1]> own) pb' -> st_pb s' = pb' ->
  udp_pcbs s' ≡ₚ udp_pcbs s -> igmp_groups s' = igmp_groups s ->
  (handed s' = handed s \/ exists c, handed s' = c :: handed s /\ tells c p) -> settled all own p s s'.
Proof. intros Hi <- H1 H2 H3. constructor; [done|done|]. by left. Qed.

Lemma settled_taken p s s' c b l :
  packet_at all own (st_pb s') p b l -> udp_pcbs s' ≡ₚ udp_pcbs s -> igmp_groups s' = igmp_groups s ->
  handed s' = c :: handed s -> takes c p -> settled all own p s s'.
Proof. intros Hpk H1 H2 H3 H4. constructor; [done|done|]. right. by exists c, b, l. Qed.

Lemma udp_input_settles p b l s :
  packet_at all own (st_pb s) p b l -> pb_payload b + 80 <= 512 ->
  wp (udp_input inp p) (fun _ s' => settled all own p s s') s.
Proof.
  intros Hpk Hoff. unfold udp_input. apply wp_bind, (wp_field p b l); [done|lia|lia|lia|]. intros v_hl.
  pose proof (low_4 v_hl) as Hhl. set (hlen := Z.land v_hl 0x0f * 4). assert (0 <= hlen <= 60) as Hh by (subst hlen; lia). clearbody hlen.
  cbn zeta. apply wp_bind, (wp_get p b l); [done|]. pose proof (pk_within Hpk) as [(Hw1 & Hw2 & Hw3) _].
  assert (forall s1 b1, packet_at all own (st_pb s1) p b1 l -> udp_pcbs s1 ≡ₚ udp_pcbs s -> igmp_groups s1 = igmp_groups s ->
    (handed s1 = handed s \/ exists c, handed s1 = c :: handed s /\ tells c p) ->
    wp (_ ← in_st (pbuf_free p); skip) (fun _ s' => settled all own p s s') s1) as Hfree.
  { intros s1 b1 Hpk1 E1 E2 E3. apply wp_bind, (wp_free p b1 l); [done|]. intros n pb' Hi. apply wp_ret.
    by apply (settled_freed p s _ pb'). }
  apply wp_bind. destruct (pb_tot_len b <? hlen + UDP_HLEN); [apply wp_ret; by apply (Hfree s b); [|..|left]|].
  apply (wp_hide p b l); [done|lia| |intros _; by apply (Hfree s b); [|..|left]].
  intros pb1 Hle Hpk1 _. cbn [Z.eqb negb]. set (s1 := s <| st_pb := pb1 |>). set (b1 := move_payload (- hlen) b) in *.
  assert (pb_payload b1 = pb_payload b + hlen) as Eoff by (cbn; lia).
  apply wp_bind, wp_gets, wp_bind, wp_gets. cbn zeta.
  apply wp_bind, (wp_field p b1 l); [done|lia|lia|lia|]. intros src.
  apply wp_bind, (wp_field p b1 l); [done|lia|lia|lia|]. intros dest. apply wp_bind, wp_gets.
  pose proof (find_pcb_perm inp (current_iphdr_dest s1) (ntohs dest) (ip4_addr_isbroadcast (current_iphdr_dest s1) inp) (udp_pcbs s1) [] None) as Hperm.
  destruct (find_pcb _ _ _ _ _ _ _) as [pcb pcbs]. cbn [snd app] in Hperm.
  apply wp_bind, wp_put. set (s2 := s1 <| udp_pcbs := pcbs |>).
  assert (packet_at all own (st_pb s2) p b1 l) as Hpk2 by exact Hpk1.
  destruct (match pcb with Some _ => true | None => _ end); [|by apply (Hfree s2 b1); [|..|left]].
  apply wp_bind, (wp_hide p b1 l); [done|done| |intros _; by apply (Hfree s2 b1); [|..|left]].
  intros pb3 Hle3 Hpk3 _. cbn [Z.eqb negb]. set (s3 := s2 <| st_pb := pb3 |>). set (b3 := move_payload (- UDP_HLEN) b1) in *.
  destruct pcb as [c|].
  - destruct (recv c =? 0); [by apply (Hfree s3 b3); [|..|left]|].
    unfold hand. apply wp_bind, wp_gets, wp_put. by eapply (settled_taken p).
  - apply wp_bind. destruct (negb _ && negb _); [|apply wp_ret; by apply (Hfree s3 b3); [|..|left]].
    destruct (inv_header all own pb3 p l (hlen + UDP_HLEN) (pk_inv _ _ _ _ _ _ Hpk3) (pk_chain _ _ _ _ _ _ Hpk3)) as (r & pb4 & E4 & Hi4);
      [exists b3; apply (pk_live Hpk3)|].
    apply wp_bind. eapply wp_in_st; [exact E4|]. unfold hand. apply wp_bind, wp_gets, wp_put.
    destruct (inv_free all own pb4 p Hi4 (pk_own _ _ _ _ _ _ Hpk)) as (n & pb5 & E5 & Hi5).
    apply wp_bind. eapply wp_in_st; [exact E5|]. apply wp_ret. eapply (settled_freed p); [exact Hi5|done|done|done|].
    right. by eexists.
Qed.

Lemma ip_deliver_settles p b l s :
  packet_at all own (st_pb s) p b l -> pb_payload b + 80 <= 512 ->
  wp (ip_deliver inp p) (fun r s' => r = ERR_OK /\ settled all own p s s') s.
Proof.
  intros Hpk Hoff. pose proof (pk_within Hpk) as [(Hw1 & _) _]. unfold ip_deliver.
  apply wp_bind, (wp_field p b l); [done|lia|lia|lia|]. intros proto. apply wp_bind.
  assert (forall s1, settled all own p s s1 ->
    wp (current_iphdr_src ::= IPADDR_ANY ;; current_iphdr_dest ::= IPADDR_ANY ;; mret ERR_OK)
      (fun r s' => r = ERR_OK /\ settled all own p s s') s1) as Hend.
  { intros s1 [H1 H2 H3]. apply wp_bind, wp_put, wp_bind, wp_put, wp_ret. split; [done|]. by constructor. }
  destruct (proto =? IP_PROTO_UDP).
  { eapply wp_mono; [by apply (udp_input_settles p b l)|]. intros [] s1. apply Hend. }
  destruct (proto =? IP_PROTO_ICMP).
  { unfold hand. apply wp_bind, wp_gets, wp_put, Hend. by eapply (settled_taken p). }
  destruct (proto =? IP_PROTO_IGMP).
  { apply wp_bind, wp_gets. unfold hand. apply wp_bind, wp_gets, wp_put, Hend. by eapply (settled_taken p). }
  apply wp_bind, wp_gets, wp_bind. destruct (negb _ && negb _).
  - unfold hand. apply wp_bind, wp_gets, wp_put. apply wp_bind, (wp_free p b l); [done|]. intros n pb' Hi. apply wp_ret, Hend.
    eapply (settled_freed p); [exact Hi|done..|]. right. by eexists.
  - apply wp_ret. apply wp_bind, (wp_free p b l); [done|]. intros n pb' Hi. apply wp_ret, Hend.
    eapply (settled_freed p); [exact Hi|done..|]. by left.
Qed.

Lemma wp_cut p b l n (Q : unit -> stack -> Prop) s :
  packet_at all own (st_pb s) p b l -> 0 <= n < 2 ^ 16 ->
  (forall pb' b' l', packet_at all own pb' p b' l' -> cut_first n b b' ->
    bytes (pb_mem pb') l' = take (Z.to_nat n) (bytes (pb_mem (st_pb s)) l) -> Q tt s <| st_pb := pb' |>) ->
  wp (in_st (pbuf_realloc p n)) Q s.
Proof.
  intros Hpk Hn HQ. destruct (cut_run Hpk n Hn) as (pb' & b' & l' & E & Hpk' & Hb & Hc).
  eapply wp_in_st; [exact E|]. by apply (HQ pb' b' l').
Qed.

Lemma ntohs_u16 v : is_u16 (ntohs v).
Proof.
  unfold ntohs. apply lor_in_width.
  - change 0xff with (Z.ones 8). rewrite Z.land_ones, Z.shiftl_mul_pow2 by lia. pose proof (Z.mod_pos_bound v (2 ^ 8)). unfold in_width. lia.
  - change 0xff00 with (Z.shiftl (Z.ones 8) 8). rewrite Z.shiftr_land, Z.shiftr_shiftl_l, Z.sub_diag, Z.shiftl_0_r, Z.land_ones by lia.
    pose proof (Z.mod_pos_bound (Z.shiftr v 8) (2 ^ 8)). unfold in_width. lia.
Qed.

End once.

Section whole.
Context (inp : netif) (ip_reass : Z -> M stack Z) {all : gset Z}.
Implicit Types s : stack.

(** The mask of the test for a fragment. *)
Definition FRAGMENT_MASK : Z := ntohs (Z.lor IP_OFFMASK IP_MF).

(** A packet that is not a fragment never gets to [ip_reass], whatever that is. *)
Lemma ip_input_settles own p b l s :
  packet_at all own (st_pb s) p b l -> pb_payload b + 80 <= 512 -> Z.land (mem_field b 6 2) FRAGMENT_MASK = 0 ->
  wp (ip_input inp ip_reass p) (fun r s' => r = ERR_OK /\ settled all own p s s') s.
Proof.
  intros Hpk Hoff Hfrag. pose proof (pk_within Hpk) as [(Hw1 & Hw2 & Hw3) _].
  assert (forall s1 b1 l1, packet_at all own (st_pb s1) p b1 l1 -> udp_pcbs s1 = udp_pcbs s -> igmp_groups s1 = igmp_groups s -> handed s1 = handed s ->
    wp (free_and_return p) (fun r s' => r = ERR_OK /\ settled all own p s s') s1) as Hfree.
  { intros s1 b1 l1 Hpk1 E1 E2 E3. unfold free_and_return. apply wp_bind, (wp_free (all := all) (own := own) p b1 l1); [done|]. intros n pb' Hi. apply wp_ret.
    split; [done|]. eapply (settled_freed p); [exact Hi|done|by rewrite <- E1|done|by left]. }
  unfold ip_input. apply wp_bind, (wp_mem (all := all) (own := own) p b l); [done|lia|lia|lia|]. generalize (mem_field b 0 1) as v_hl. intros v_hl.
  destruct (negb (Z.shiftr v_hl 4 =? 4)); [by apply (Hfree s b l)|]. cbn zeta.
  apply wp_bind, (wp_mem (all := all) (own := own) p b l); [done|lia|lia|lia|]. generalize (mem_field b 2 2) as len. intros len. pose proof (ntohs_u16 len) as Hlen.
  apply wp_bind, (wp_get (all := all) (own := own) p b l); [done|]. destruct (_ || _); [by apply (Hfree s b l)|].
  apply wp_bind, (wp_cut (all := all) (own := own) p b l); [done|exact Hlen|]. intros pb1 b1 l1 Hpk1 (Ep & Ed & El) _. set (s1 := s <| st_pb := pb1 |>).
  apply wp_bind, (wp_mem (all := all) (own := own) p b1 l1); [done|lia|lia|lia|]. apply wp_bind, wp_put.
  apply wp_bind, (wp_mem (all := all) (own := own) p b1 l1); [done|lia|lia|lia|]. apply wp_bind, wp_put, wp_bind, wp_gets.
  generalize (mem_field b1 16 4) as dest, (mem_field b1 12 4) as src. intros dest src.
  set (s2 := s1 <| current_iphdr_dest := dest |> <| current_iphdr_src := src |>).
  assert (packet_at all own (st_pb s2) p b1 l1) as Hpk2 by exact Hpk1.
  destruct (_ || _); [by apply (Hfree s2 b1 l1)|]. destruct (negb (for_us _ _ _)); [by apply (Hfree s2 b1 l1)|].
  apply wp_bind, (wp_mem (all := all) (own := own) p b1 l1); [done|lia|lia|lia|].
  assert (mem_field b1 6 2 = mem_field b 6 2) as -> by (unfold mem_field; by rewrite Ep, Ed).
  unfold FRAGMENT_MASK in Hfrag. rewrite Hfrag. cbn [Z.eqb negb].
  eapply wp_mono; [apply (ip_deliver_settles inp (own := own) p b1 l1 s2 Hpk2); lia|]. intros r s' [-> Hs]. split; [done|].
  by apply (settled_from all own p s s2).
Qed.

Lemma wp_mark own p b l (Q : unit -> stack -> Prop) s :
  packet_at all own (st_pb s) p b l -> pb_payload b + 6 <= 512 -> Q tt s ->
  (forall pb' b', packet_at all own pb' p b' l -> pb_payload b' = pb_payload b -> pb_len b' = pb_len b ->
    pb_data b' = pb_data b -> bytes (pb_mem pb') l = bytes (pb_mem (st_pb s)) l -> Q tt s <| st_pb := pb' |>) ->
  wp (mark_link_layer p) Q s.
Proof.
  intros Hpk Hoff Hs HQ. pose proof (pk_within Hpk) as [(Hw1 & _) _].
  assert (forall flag, Z.land flag PBUF_FLAG_IS_CUSTOM = 0 -> wp (set_flag p flag) Q s) as Hset.
  { intros flag Hfl. destruct (flag_run Hpk flag Hfl) as [Hpk' Hb]. eapply wp_in_st.
    - rewrite (bind_Done _ _ _ _ _ (pb_get_run _ p b (pk_first _ _ _ _ _ _ Hpk))). apply pb_set_run.
    - by apply (HQ _ _ Hpk'). }
  unfold mark_link_layer. apply wp_bind, (wp_field (all := all) (own := own) p b l); [done|lia|lia|lia|]. intros d0.
  destruct (Z.land d0 1 =? 0); [by apply wp_ret|]. destruct (d0 =? 1).
  - apply wp_bind, (wp_field (all := all) (own := own) p b l); [done|lia|lia|lia|]. intros d1.
    apply wp_bind, (wp_field (all := all) (own := own) p b l); [done|lia|lia|lia|]. intros d2.
    destruct (_ && _); [by apply Hset|by apply wp_ret].
  - apply wp_bind, (wp_field (all := all) (own := own) p b l); [done|lia|lia|lia|]. intros d.
    destruct (d =? 0xffffffffffff); [by apply Hset|by apply wp_ret].
Qed.

Lemma ethernet_input_settles own p b l s :
  packet_at all own (st_pb s) p b l -> pb_payload b + 94 <= 512 ->
  (mem_field b 12 2 = ntohs ETHTYPE_IP -> Z.land (mem_field b 20 2) FRAGMENT_MASK = 0) ->
  wp (ethernet_input inp ip_reass p) (fun r s' => r = ERR_OK /\ settled all own p s s') s.
Proof.
  intros Hpk Hoff Hfrag. pose proof (pk_within Hpk) as [(Hw1 & Hw2 & Hw3) _].
  assert (forall s1 b1 l1, packet_at all own (st_pb s1) p b1 l1 -> udp_pcbs s1 = udp_pcbs s -> igmp_groups s1 = igmp_groups s -> handed s1 = handed s ->
    wp (free_and_return p) (fun r s' => r = ERR_OK /\ settled all own p s s') s1) as Hfree.
  { intros s1 b1 l1 Hpk1 E1 E2 E3. unfold free_and_return. apply wp_bind, (wp_free (all := all) (own := own) p b1 l1); [done|]. intros n pb' Hi. apply wp_ret.
    split; [done|]. eapply (settled_freed p); [exact Hi|done|by rewrite <- E1|done|by left]. }
  unfold ethernet_input. apply wp_bind, (wp_get (all := all) (own := own) p b l); [done|].
  destruct (pb_len b <=? SIZEOF_ETH_HDR); [by apply (Hfree s b l)|].
  apply wp_bind, (wp_mem (all := all) (own := own) p b l); [done|lia|lia|lia|]. set (type := mem_field b 12 2) in *.
  assert (forall s1 b1, packet_at all own (st_pb s1) p b1 l -> pb_payload b1 = pb_payload b -> pb_data b1 = pb_data b ->
    udp_pcbs s1 = udp_pcbs s -> igmp_groups s1 = igmp_groups s -> handed s1 = handed s ->
    wp (if type =? ntohs ETHTYPE_IP then
          if Z.land (nf_flags inp) NETIF_FLAG_ETHARP =? 0 then free_and_return p else
          failed ← in_st (pbuf_header p (- SIZEOF_ETH_HDR));
          if negb (failed =? 0) then free_and_return p else _ ← ip_input inp ip_reass p; mret ERR_OK
        else if type =? ntohs ETHTYPE_ARP then
          if Z.land (nf_flags inp) NETIF_FLAG_ETHARP =? 0 then free_and_return p else hand (ToArp p) ;; mret ERR_OK
        else free_and_return p) (fun r s' => r = ERR_OK /\ settled all own p s s') s1) as Htype.
  { intros s1 b1 Hpk1 Ep Ed E1 E2 E3. destruct (Z.eqb_spec type (ntohs ETHTYPE_IP)) as [Et|_].
    - destruct (_ =? 0); [by apply (Hfree s1 b1 l)|].
      apply wp_bind, (wp_hide (all := all) (own := own) p b1 l); [done|done| |intros _; by apply (Hfree s1 b1 l)].
      intros pb2 Hle Hpk2 _. cbn [Z.eqb negb]. apply wp_bind.
      eapply wp_mono; [apply (ip_input_settles own p (move_payload (- SIZEOF_ETH_HDR) b1) l (s1 <| st_pb := pb2 |>)); [exact Hpk2|cbn; unfold SIZEOF_ETH_HDR; lia|]|].
      + rewrite <- (Hfrag Et). f_equal. unfold mem_field. rewrite <- Ed, <- Ep. cbn [pb_payload pb_data move_payload upd upd_pb_payload upd_pb_len upd_pb_tot_len].
        do 3 f_equal. unfold SIZEOF_ETH_HDR. lia.
      + intros r s' [-> Hs]. apply wp_ret. split; [done|].
        apply (settled_from all own p s (s1 <| st_pb := pb2 |>)); [by rewrite <- E1|done..].
    - destruct (type =? ntohs ETHTYPE_ARP); [|by apply (Hfree s1 b1 l)]. destruct (_ =? 0); [by apply (Hfree s1 b1 l)|].
      unfold hand. apply wp_bind, wp_bind, wp_gets, wp_put, wp_ret. split; [done|].
      eapply (settled_taken p); [exact Hpk1|by rewrite <- E1|done|cbn; by rewrite E3|done]. }
  apply wp_bind, (wp_mark own p b l); [done|lia|by apply (Htype s b)|].
  intros pb' b' Hpk' Ep _ Ed _. by apply (Htype _ b').
Qed.
End whole.

(** ** A datagram arrives *)

(** [n] bytes of a frame from the [k]-th on, as a field. *)
Definition fld (f : list Z) (k n : Z) : Z := le_value (take (Z.to_nat n) (drop (Z.to_nat k) f)).

(** A frame that carries a whole datagram: the fields of the headers, with [hlen] bytes of
    IP header, and the data; what is behind them is padding. *)
Record udp_frame (f : list Z) (hlen src dst sport dport : Z) (data : list Z) : Prop := {
  uf_type : fld f 12 2 = ntohs ETHTYPE_IP;
  uf_version : Z.shiftr (fld f 14 1) 4 = 4;
  uf_hlen : Z.land (fld f 14 1) 0x0f * 4 = hlen;
  uf_header : 20 <= hlen;
  uf_len : ntohs (fld f 16 2) = hlen + UDP_HLEN + Z.of_nat (length data);
  uf_offset : Z.land (fld f 20 2) (ntohs (Z.lor IP_OFFMASK IP_MF)) = 0;
  uf_proto : fld f 23 1 = IP_PROTO_UDP;
  uf_src : fld f 26 4 = src;
  uf_dst : fld f 30 4 = dst;
  uf_sport : ntohs (fld f (14 + hlen) 2) = sport;
  uf_dport : ntohs (fld f (14 + hlen + 2) 2) = dport;
  uf_fit : 14 + hlen + UDP_HLEN + Z.of_nat (length data) <= Z.of_nat (length f);
  uf_data : take (length data) (drop (Z.to_nat (14 + hlen + UDP_HLEN)) f) = data;
}.

Lemma fld_drop f m k n : 0 <= m -> 0 <= k -> fld (drop (Z.to_nat m) f) k n = fld f (m + k) n.
Proof. intros. unfold fld. rewrite drop_drop. do 3 f_equal. lia. Qed.

Lemma fld_take f m k n : 0 <= k -> 0 <= n -> k + n <= m -> fld (take (Z.to_nat m) f) k n = fld f k n.
Proof. intros. unfold fld. rewrite skipn_firstn_comm, take_take. do 2 f_equal. lia. Qed.

Lemma wp_part {all own} p b l k n (Q : Z -> stack -> Prop) s :
  packet_at all own (st_pb s) p b l -> 0 <= k -> 0 <= n -> k + n <= pb_len b ->
  Q (fld (bytes (pb_mem (st_pb s)) l) k n) s -> wp (field p k n) Q s.
Proof.
  intros Hpk Hk Hn Hle HQ. pose proof (pk_within Hpk) as [(H1 & H2 & H3) H4].
  unfold wp. rewrite (field_run Hpk s k n eq_refl Hk Hn) by lia. rewrite (field_part Hpk k n Hk Hn Hle). exact HQ.
Qed.

(** The one pcb of a port, bound to any address and not connected. *)
Record listens (pcbs : list udp_pcb) (c : udp_pcb) (port : Z) : Prop := {
  li_in : c ∈ pcbs;
  li_port : local_port c = port;
  li_any : local_ip c = IPADDR_ANY /\ remote_ip c = IPADDR_ANY;
  li_only c' : c' ∈ pcbs -> local_port c' = port -> c' = c;
}.

Lemma find_pcb_listens inp dest_ip port broadcast c pcbs : forall before uncon,
  listens pcbs c port -> exists pcbs', find_pcb inp before pcbs uncon dest_ip port broadcast = (Some c, pcbs').
Proof.
  induction pcbs as [|x pcbs IH]; intros before uncon [H1 H2 [H3 H4] H5]; [by apply not_elem_of_nil in H1|].
  cbn [find_pcb]. cbn zeta. unfold local_match. destruct (Z.eqb_spec (local_port x) port) as [E|E].
  - assert (x = c) as -> by (apply H5; [by left|done]). rewrite H3, H4. change (IPADDR_ANY =? IPADDR_ANY) with true.
    assert ((negb broadcast && true || (IPADDR_ANY =? dest_ip) || ip_addr_ismulticast dest_ip ||
      broadcast && (true || ip_addr_netcmp IPADDR_ANY dest_ip (nf_netmask inp))) = true) as ->.
    { destruct broadcast; cbn [negb andb orb]; [by rewrite !orb_true_r|done]. }
    cbn [andb]. by eexists.
  - cbn [andb]. apply elem_of_cons in H1 as [->|H1]; [done|]. destruct uncon.
    all: apply IH; constructor; [done|done|done|intros c' Hc'; apply H5; by right].
Qed.

Section delivery.
Context (inp : netif) (ip_reass : Z -> M stack Z) {all : gset Z} {own : Z -> Z}.
Implicit Types s : stack.

(** [p] has reached the callback [f] with [data]. *)
Definition delivered (p f src sport : Z) (data : list Z) (s s' : stack) : Prop :=
  handed s' = ToRecv f p src sport :: handed s /\ udp_pcbs s' ≡ₚ udp_pcbs s /\ igmp_groups s' = igmp_groups s /\
  exists b l, packet_at all own (st_pb s') p b l /\ bytes (pb_mem (st_pb s')) l = data.

Lemma udp_input_delivers p b l g hlen data c s :
  packet_at all own (st_pb s) p b l -> bytes (pb_mem (st_pb s)) l = g ->
  Z.land (fld g 0 1) 0x0f * 4 = hlen -> hlen + UDP_HLEN <= pb_len b -> drop (Z.to_nat (hlen + UDP_HLEN)) g = data ->
  listens (udp_pcbs s) c (ntohs (fld g (hlen + 2) 2)) -> recv c <> 0 ->
  wp (udp_input inp p) (fun _ => delivered p (recv c) (current_iphdr_src s) (ntohs (fld g hlen 2)) data s) s.
Proof.
  intros Hpk Hg Hhl Hlen Hdata Hlis Hrecv. pose proof (pk_within Hpk) as [(Hw1 & Hw2 & Hw3) _].
  assert (0 <= hlen) as Hh by (pose proof (low_4 (fld g 0 1)); lia). unfold UDP_HLEN in *.
  destruct (pk_bytes Hpk) as (rest & Hrest & Htot). rewrite Hg in Hrest, Htot.
  assert (hlen + 8 <= pb_tot_len b) as Htl.
  { pose proof (contents_length b (proj1 (pk_within Hpk))). rewrite Htot, Hrest, length_app. lia. }
  unfold udp_input, UDP_HLEN. apply wp_bind, (wp_part (all := all) (own := own) p b l); [done|lia|lia|lia|]. rewrite Hg, Hhl. cbn zeta.
  apply wp_bind, (wp_get (all := all) (own := own) p b l); [done|]. rewrite (proj2 (Z.ltb_ge _ _)) by lia.
  apply wp_bind, (wp_hide (all := all) (own := own) p b l); [done|done| |lia]. intros pb1 _ Hpk1 Hb1. cbn [Z.eqb negb].
  set (s1 := s <| st_pb := pb1 |>). set (b1 := move_payload (- hlen) b) in *. rewrite Hg in Hb1.
  assert (pb_len b1 = pb_len b - hlen) as El1 by (cbn; unfold u16; rewrite Z.mod_small; lia).
  assert (packet_at all own (st_pb s1) p b1 l) as Hpk1' by exact Hpk1.
  apply wp_bind, wp_gets, wp_bind, wp_gets. cbn zeta.
  apply wp_bind, (wp_part (all := all) (own := own) p b1 l); [done|lia|lia|lia|]. apply wp_bind, (wp_part (all := all) (own := own) p b1 l); [done|lia|lia|lia|].
  change (st_pb s1) with pb1. rewrite Hb1, !fld_drop by lia. rewrite (Z.add_0_r hlen). apply wp_bind, wp_gets.
  change (udp_pcbs s1) with (udp_pcbs s). change (current_iphdr_dest s1) with (current_iphdr_dest s). change (current_iphdr_src s1) with (current_iphdr_src s).
  destruct (find_pcb_listens inp (current_iphdr_dest s) (ntohs (fld g (hlen + 2) 2)) (ip4_addr_isbroadcast (current_iphdr_dest s) inp) c (udp_pcbs s) [] None Hlis) as [pcbs E].
  pose proof (find_pcb_perm inp (current_iphdr_dest s) (ntohs (fld g (hlen + 2) 2)) (ip4_addr_isbroadcast (current_iphdr_dest s) inp) (udp_pcbs s) [] None) as Hperm.
  rewrite E in Hperm |- *. cbn [snd app] in Hperm. apply wp_bind, wp_put. set (s2 := s1 <| udp_pcbs := pcbs |>).
  apply wp_bind, (wp_hide (all := all) (own := own) p b1 l); [exact Hpk1|done| |lia]. intros pb3 _ Hpk3 Hb3. cbn [Z.eqb negb].
  rewrite (proj2 (Z.eqb_neq _ _) Hrecv). unfold hand. apply wp_bind, wp_gets, wp_put.
  split; [done|]. split; [exact Hperm|]. split; [done|]. exists (move_payload (- (8)) b1), l. split; [exact Hpk3|].
  change (bytes (pb_mem pb3) l = data). rewrite Hb3. change (st_pb s2) with pb1. rewrite Hb1, drop_drop, <- Hdata. f_equal. lia.
Qed.

Lemma ip_deliver_delivers p b l g hlen data c s :
  packet_at all own (st_pb s) p b l -> bytes (pb_mem (st_pb s)) l = g -> fld g 9 1 = IP_PROTO_UDP ->
  Z.land (fld g 0 1) 0x0f * 4 = hlen -> 20 <= hlen -> hlen + UDP_HLEN <= pb_len b -> drop (Z.to_nat (hlen + UDP_HLEN)) g = data ->
  listens (udp_pcbs s) c (ntohs (fld g (hlen + 2) 2)) -> recv c <> 0 ->
  wp (ip_deliver inp p) (fun r s' => r = ERR_OK /\ delivered p (recv c) (current_iphdr_src s) (ntohs (fld g hlen 2)) data s s') s.
Proof.
  intros Hpk Hg Hproto Hhl Hh Hlen Hdata Hlis Hrecv. unfold ip_deliver. unfold UDP_HLEN in *.
  apply wp_bind, (wp_part (all := all) (own := own) p b l); [done|lia|lia|lia|]. rewrite Hg, Hproto. apply wp_bind.
  eapply wp_mono; [exact (udp_input_delivers p b l g hlen data c s Hpk Hg Hhl Hlen Hdata Hlis Hrecv)|].
  intros [] s' H. apply wp_bind, wp_put, wp_bind, wp_put, wp_ret. split; [done|exact H].
Qed.

Lemma ip_input_delivers p b l g hlen src dst data c s :
  packet_at all own (st_pb s) p b l -> bytes (pb_mem (st_pb s)) l = g ->
  Z.shiftr (fld g 0 1) 4 = 4 -> Z.land (fld g 0 1) 0x0f * 4 = hlen -> 20 <= hlen ->
  ntohs (fld g 2 2) = hlen + UDP_HLEN + Z.of_nat (length data) -> Z.land (fld g 6 2) (ntohs (Z.lor IP_OFFMASK IP_MF)) = 0 ->
  fld g 9 1 = IP_PROTO_UDP -> fld g 12 4 = src -> fld g 16 4 = dst ->
  take (length data) (drop (Z.to_nat (hlen + UDP_HLEN)) g) = data -> hlen + UDP_HLEN <= pb_len b ->
  for_us inp dst (igmp_groups s) = true -> ip4_addr_isbroadcast src inp = false -> ip_addr_ismulticast src = false ->
  listens (udp_pcbs s) c (ntohs (fld g (hlen + 2) 2)) -> recv c <> 0 ->
  wp (ip_input inp ip_reass p) (fun r s' => r = ERR_OK /\ delivered p (recv c) src (ntohs (fld g hlen 2)) data s s') s.
Proof.
  intros Hpk Hg Hv Hhl Hh Hl Hoff Hproto Hsrc Hdst Hdata Hlen Hus Hb Hm Hlis Hrecv. unfold UDP_HLEN in *.
  destruct (pk_bytes Hpk) as (rest & Hrest & Htot). rewrite Hg in Hrest, Htot.
  assert (hlen + 8 + Z.of_nat (length data) <= Z.of_nat (length g)) as Hfit.
  { pose proof (f_equal length Hdata) as E. rewrite length_take, length_drop in E.
    pose proof (contents_length b (proj1 (pk_within Hpk))). assert (hlen + 8 <= Z.of_nat (length g)) by (rewrite Hrest, length_app; lia). lia. }
  unfold ip_input. apply wp_bind, (wp_part (all := all) (own := own) p b l); [done|lia|lia|lia|]. rewrite Hg, Hv, Hhl. cbn [Z.eqb Pos.eqb negb]. cbn zeta.
  apply wp_bind, (wp_part (all := all) (own := own) p b l); [done|lia|lia|lia|]. rewrite Hg, Hl. apply wp_bind, (wp_get (all := all) (own := own) p b l); [done|].
  rewrite !Z.gtb_ltb, !(proj2 (Z.ltb_ge _ _)) by lia. cbn [orb].
  pose proof (ntohs_u16 (fld g 2 2)) as Hu16. rewrite Hl in Hu16. unfold in_width in Hu16. set (n := hlen + 8 + Z.of_nat (length data)) in *.
  apply wp_bind, (wp_cut (all := all) (own := own) p b l); [done|lia|]. intros pb1 b1 l1 Hpk1 (_ & _ & El) Hb1. rewrite Hg in Hb1.
  set (s1 := s <| st_pb := pb1 |>). assert (hlen + 8 <= pb_len b1) as Hlen1 by (subst n; lia).
  assert (packet_at all own (st_pb s1) p b1 l1) as Hpk1' by exact Hpk1.
  assert (forall k m, 0 <= k -> 0 <= m -> k + m <= n -> fld (bytes (pb_mem pb1) l1) k m = fld g k m) as Hfld by (intros; by rewrite Hb1, fld_take).
  apply wp_bind, (wp_part (all := all) (own := own) p b1 l1); [done|lia|lia|lia|]. change (st_pb s1) with pb1. rewrite Hfld, Hdst by lia. apply wp_bind, wp_put.
  apply wp_bind, (wp_part (all := all) (own := own) p b1 l1); [exact Hpk1|lia|lia|lia|]. rewrite Hfld, Hsrc by lia. apply wp_bind, wp_put, wp_bind, wp_gets.
  set (s2 := s1 <| current_iphdr_dest := dst |> <| current_iphdr_src := src |>). change (igmp_groups s2) with (igmp_groups s).
  rewrite Hb, Hm, Hus. cbn [orb negb].
  apply wp_bind, (wp_part (all := all) (own := own) p b1 l1); [exact Hpk1|lia|lia|lia|]. change (st_pb s2) with pb1. rewrite Hfld, Hoff by lia. cbn [Z.eqb negb].
  pose proof (ip_deliver_delivers p b1 l1 (take (Z.to_nat n) g) hlen data c s2 Hpk1 Hb1) as H. unfold UDP_HLEN in H.
  rewrite !fld_take in H by lia. apply H; try done.
  transitivity (take (length data) (drop (Z.to_nat (hlen + 8)) g)); [|exact Hdata]. rewrite skipn_firstn_comm. f_equal. subst n. lia.
Qed.
End delivery.
