(* ===== verification/IpLink.v ===== *)
(** * From the wire to the callback

    [tcpip_thread] of src/LWIP/lwip-1.4.1/src/api/tcpip.c with a packet of the
    interrupt, and what the way up promises: every packet is settled exactly once, and
    a frame with a datagram reaches the callback that listens, with its data. *)
From Stdlib Require Import ZArith Lia.
From stdpp Require Import base tactics decidable list list_numbers numbers gmap functions.
From S2P Require Import Prelude Udp Net LwipTimers OsQueue OsQueueSpec SysArch Pbuf PbufSpec PbufData PbufInv PbufShape PbufLife.
From S2P Require Import Eth EthSpec EthLink IpInput IpInputSpec.
Open Scope Z_scope.
Open Scope c_scope.

(** ** One turn of [tcpip_thread] *)

Definition NETIF_FLAG_ETHERNET : Z := 0x40.

(** The interface with its mailbox, the timers of lwIP, and the rest of lwIP, whose packet
    buffers are those of the driver. *)
Record lwip {St : Type} := Lwip { lw_nif : nif St; next_timeout : list timeo; lw_rest : stack }.
Arguments lwip : clear implicits.
Arguments Lwip {St}.
#[export] Instance lwip_eta St : Eta (lwip St) := fun s => Lwip (lw_nif s) (next_timeout s) (lw_rest s).
#[export] Instance upd_lw_nif St : Upd (@lw_nif St) := ltac:(derive_upd).
#[export] Instance upd_next_timeout St : Upd (@next_timeout St) := ltac:(derive_upd).

Definition lw_stack {St} (s : lwip St) : stack := (lw_rest s) <| st_pb := dv_pb (nif_drv (lw_nif s)) |>.
#[export] Instance upd_lw_stack St : Upd (@lw_stack St) := fun f s =>
  let k := f (lw_stack s) in
  Lwip ((lw_nif s) <| nif_drv ::= fun d => d <| dv_pb := st_pb k |> |>) (next_timeout s) k.

Section thread.
Context {St : Type} `{!MessageQueue St} (pvNullPointer : Z) (inp : netif) (ip_reass : Z -> M stack Z).
(** The handlers of the timers (ARP, IGMP, reassembly), and the other messages: functions
    to call for another task. *)
Context (handler : timeo -> M (lwip St) unit) (other_message : Z -> M (lwip St) unit).
Local Notation ML := (M (lwip St)).

(** [sys_timeouts_mbox_fetch] of core/timers.c: the handlers of the timers that are due,
    then a message; [None]: the task sleeps in [sys_arch_mbox_fetch].  The fuel bounds
    the handlers that are called before.  The pool of the timers is not modelled. *)
Fixpoint sys_timeouts_mbox_fetch (fuel : nat) : ML (option Z) :=
  match fuel with
  | O => halt_with Spin
  | S fuel =>
    timers ← gets next_timeout;
    r ← match fetch_timeout timers with
        | Some timeout => zoom lw_nif (in_mbox (sys_arch_mbox_fetch pvNullPointer timeout))
        | None => mret (inl (0, SYS_ARCH_TIMEOUT))
        end;
    match r with
    | inr _ => mret None
    | inl (msg, time_needed) =>
      let '(expired, timers) := after_fetch time_needed timers in
      next_timeout ::= timers ;;
      match expired with
      | Some t => (if h t =? 0 then skip else handler t) ;; sys_timeouts_mbox_fetch fuel
      | None => mret (Some msg)
      end
    end
  end.

(** [case TCPIP_MSG_INPKT] *)
Definition tcpip_inpkt (msg p : Z) : ML unit :=
  _ ← zoom lw_stack
    (if negb (Z.land (nf_flags inp) (Z.lor NETIF_FLAG_ETHARP NETIF_FLAG_ETHERNET) =? 0)
     then ethernet_input inp ip_reass p else ip_input inp ip_reass p);
  zoom lw_stack (in_st (memp_free MEMP_TCPIP_MSG_INPKT msg)).

(** The body of the loop; [false]: the task sleeps. *)
Definition tcpip_turn (fuel : nat) : ML bool :=
  r ← sys_timeouts_mbox_fetch fuel;
  match r with
  | None => mret false
  | Some msg =>
      m ← gets (fun s => nif_msg (lw_nif s));
      match m !! msg with
      | Some p => tcpip_inpkt msg p ;; mret true
      | None => other_message msg ;; mret true
      end
  end.

(** A timer that is due goes first. *)
Lemma turn_timer fuel t timers s :
  next_timeout s = t :: timers -> time t = 0 -> h t <> 0 ->
  tcpip_turn (S fuel) s = (handler t ;; tcpip_turn fuel) (s <| next_timeout := timers |>).
Proof.
  intros Es Et Hh. unfold tcpip_turn. unfold mbind at 1 3, M_bind at 1 3. cbn [sys_timeouts_mbox_fetch].
  rewrite bind_gets, Es. cbn [fetch_timeout]. rewrite Et. cbn [Z.ltb Z.compare]. rewrite bind_ret.
  cbn [after_fetch]. change (SYS_ARCH_TIMEOUT =? 0xffffffff) with true. cbn iota. rewrite bind_put.
  rewrite (proj2 (Z.eqb_neq _ _) Hh). unfold mbind, M_bind. by destruct (handler t _).
Qed.
End thread.

(** ** The frame *)
Section frame.
Context (inp : netif) (ip_reass : Z -> M stack Z) {all : gset Z} {own : Z -> Z}.
Implicit Types s : stack.

Lemma ethernet_input_delivers p b l f hlen src dst sport dport data c s :
  packet_at all own (st_pb s) p b l -> bytes (pb_mem (st_pb s)) l = f ->
  udp_frame f hlen src dst sport dport data ->
  pb_payload b + 94 <= 512 -> SIZEOF_ETH_HDR + hlen + UDP_HLEN <= pb_len b ->
  Z.land (nf_flags inp) NETIF_FLAG_ETHARP <> 0 -> for_us inp dst (igmp_groups s) = true ->
  ip4_addr_isbroadcast src inp = false -> ip_addr_ismulticast src = false ->
  listens (udp_pcbs s) c dport -> recv c <> 0 ->
  wp (ethernet_input inp ip_reass p) (fun r s' => r = ERR_OK /\ delivered (all := all) (own := own) p (recv c) src sport data s s') s.
Proof.
  intros Hpk Hf [U1 U2 U3 U4 U5 U6 U7 U8 U9 U10 U11 U13 U12] Hoff Hlen Harp Hus Hb Hm Hlis Hrecv.
  unfold SIZEOF_ETH_HDR, UDP_HLEN in Hlen. unfold ethernet_input.
  apply wp_bind, (wp_get (all := all) (own := own) p b l); [done|]. rewrite (proj2 (Z.leb_gt _ _)) by (unfold SIZEOF_ETH_HDR; lia).
  apply wp_bind, (wp_part (all := all) (own := own) p b l); [done|lia|lia|lia|]. rewrite Hf, U1.
  assert (forall s1 b1, packet_at all own (st_pb s1) p b1 l -> pb_payload b1 = pb_payload b -> pb_len b1 = pb_len b ->
    bytes (pb_mem (st_pb s1)) l = f -> udp_pcbs s1 = udp_pcbs s -> igmp_groups s1 = igmp_groups s -> handed s1 = handed s ->
    wp (failed ← in_st (pbuf_header p (- SIZEOF_ETH_HDR));
        if negb (failed =? 0) then free_and_return p else _ ← ip_input inp ip_reass p; mret ERR_OK)
      (fun r s' => r = ERR_OK /\ delivered (all := all) (own := own) p (recv c) src sport data s s') s1) as Hrest.
  { intros s1 b1 Hpk1 Ep El Hf1 E1 E2 E3.
    pose proof (pk_within Hpk1) as [(Hw1 & Hw2 & Hw3) _].
    apply wp_bind, (wp_hide (all := all) (own := own) p b1 l); [done|done| |unfold SIZEOF_ETH_HDR; lia]. intros pb2 _ Hpk2 Hf2. cbn [Z.eqb negb].
    rewrite Hf1 in Hf2. set (s2 := s1 <| st_pb := pb2 |>). apply wp_bind.
    assert (pb_len (move_payload (- SIZEOF_ETH_HDR) b1) = pb_len b1 - 14) as El2 by (cbn; unfold u16, SIZEOF_ETH_HDR; rewrite Z.mod_small; lia).
    eapply wp_mono; [apply (ip_input_delivers inp ip_reass (all := all) (own := own) p (move_payload (- SIZEOF_ETH_HDR) b1) l
      (drop (Z.to_nat 14) f) hlen src dst data c s2); rewrite ?fld_drop by lia; try done|].
    - unfold UDP_HLEN. rewrite drop_drop. etransitivity; [|exact U12]. f_equal. f_equal. unfold UDP_HLEN. lia.
    - unfold UDP_HLEN. lia.
    - change (igmp_groups s2) with (igmp_groups s1). by rewrite E2.
    - change (udp_pcbs s2) with (udp_pcbs s1). replace (14 + (hlen + 2)) with (14 + hlen + 2) by lia. by rewrite U11, E1.
    - intros r s' [-> (H1 & H2 & H3 & H4)]. apply wp_ret. split; [done|]. 
      rewrite fld_drop, U10 in H1 by lia.
      split_and!; [by rewrite <- E3|by rewrite <- E1|by rewrite <- E2|done]. }
  apply wp_bind, (wp_mark (all := all) own p b l); [done|lia|..].
  - rewrite Z.eqb_refl, (proj2 (Z.eqb_neq _ _) Harp). by apply (Hrest s b).
  - intros pb' b' Hpk' Ep El _ Hb'. rewrite Z.eqb_refl, (proj2 (Z.eqb_neq _ _) Harp).
    apply (Hrest (s <| st_pb := pb' |>) b'); [exact Hpk'|done|done|by etransitivity|done..].
Qed.
End frame.

(** ** A message *)
Section turn.
Context {St : Type} `{!MessageQueue St, !MessageQueueLaws St} (pvNullPointer : Z) (inp : netif) (ip_reass : Z -> M stack Z).
Context (handler : timeo -> M (lwip St) unit) (other_message : Z -> M (lwip St) unit) {all : gset Z} {own : Z -> Z}.
Implicit Types s : lwip St.
Local Notation turn := (tcpip_turn pvNullPointer inp ip_reass handler other_message).

Lemma stack_put s k : lw_stack (s <| lw_stack := k |>) = k.
Proof. destruct s as [[[mc pb] ms bx] tm k0], k. reflexivity. Qed.

Lemma holds_packet pb p data :
  pool_inv all own pb -> holds own pb p data -> Z.of_nat (length data) < 2 ^ 16 ->
  exists b l, packet_at all own pb p b l /\ bytes (pb_mem pb) l = data /\ pb_payload b = 0 /\
    pb_len b = Z.min (Z.of_nat (length data)) PBUF_POOL_BUFSIZE_ALIGNED.
Proof.
  intros Hi (Ho & (b & Hb & Hp & Hl) & _ & l & Hch & Hd & _) Hn. exists b, l. split_and!; [|done|done|done].
  constructor; [done|done|done|done|].
  assert (p <> 0) as Hp0 by (intros ->; by rewrite (po_null _ _ (pi_ok _ _ _ Hi)) in Hb).
  destruct (chain_first pb p l Hch Hp0) as (b' & l' & Hb' & _ & Ht). rewrite Hb in Hb'. injection Hb' as <-.
  by rewrite Ht, <- (bytes_length _ _ (ch_within _ _ _ Hch)), Hd.
Qed.

(** No timer is due. *)
Definition no_timer s : Prop := fetch_timeout (next_timeout s) <> None.

(** The oldest message is fetched and its packet goes up. *)
Lemma turn_fetches fuel f box s msgs msg (Q : bool -> lwip St -> Prop) :
  fuel <> 0%nat -> no_timer s -> nif_ok all own (f :: box) (lw_nif s) -> posted (lw_nif s) = msg :: msgs -> msg <> pvNullPointer ->
  (forall p s1, holds own (st_pb (lw_stack s)) p f -> lw_stack s1 = lw_stack s -> posted (lw_nif s1) = msgs ->
    mq_ok (nif_mbox (lw_nif s1)) -> nif_msg (lw_nif s1) = nif_msg (lw_nif s) ->
    wp (tcpip_inpkt inp ip_reass msg p) (fun _ s' => Q true s') s1) ->
  wp (turn fuel) Q s.
Proof.
  intros Hfuel Htm Hok Hm Hne HQ. pose proof (no_box _ _ _ _ Hok) as Hbox. rewrite Hm in Hbox.
  apply Forall2_cons_1 in Hbox as [(p & Hp & Hh) _]. destruct fuel as [|fuel]; [done|].
  unfold tcpip_turn. apply wp_bind. cbn [sys_timeouts_mbox_fetch]. apply wp_bind, wp_gets.
  unfold no_timer in Htm. destruct (fetch_timeout (next_timeout s)) as [timeout|] eqn:Et; [|done].
  destruct (fetch_waiting pvNullPointer timeout msg msgs _ (no_mbox _ _ _ _ Hok) Hm) as (bx & E & Hq & Hm' & _).
  destruct s as [[[mc pb] ms b] tm k]. cbn [lw_nif nif_mbox nif_msg next_timeout] in *.
  apply wp_bind, wp_zoom, wp_zoom. unfold wp at 1. cbn [lw_nif nif_mbox]. rewrite E. unfold message_back. rewrite (proj2 (Z.eqb_neq _ _) Hne).
  assert ((after_fetch 4294967 tm).1 = None) as Ea by by destruct tm.
  destruct (after_fetch 4294967 tm) as [expired tm']. cbn [fst] in Ea. subst expired.
  apply wp_bind, wp_put, wp_ret. apply wp_bind, wp_gets.
  match goal with |- wp _ _ ?s1 => set (s2 := s1) end. change (nif_msg (lw_nif s2)) with ms. rewrite Hp.
  apply wp_bind. eapply wp_mono; [apply (HQ p s2); done|]. intros [] s' H. by apply wp_ret.
Qed.

(** ... and the message is free again. *)
Lemma inpkt_run msg p (Q : stack -> Prop) (R : lwip St -> Prop) s :
  Z.land (nf_flags inp) NETIF_FLAG_ETHARP <> 0 -> msg <> 0 ->
  wp (ethernet_input inp ip_reass p) (fun _ k => Q k) (lw_stack s) ->
  (forall k s', Q k -> nif_mbox (lw_nif s') = nif_mbox (lw_nif s) -> nif_msg (lw_nif s') = nif_msg (lw_nif s) ->
    memp_free MEMP_TCPIP_MSG_INPKT msg (st_pb k) = Done tt (st_pb (lw_stack s')) ->
    lw_stack s' = k <| st_pb := st_pb (lw_stack s') |> -> R s') ->
  wp (tcpip_inpkt inp ip_reass msg p) (fun _ s' => R s') s.
Proof.
  intros Hf H0 HQ HR. unfold tcpip_inpkt. apply wp_bind, wp_zoom.
  assert (negb (Z.land (nf_flags inp) (Z.lor NETIF_FLAG_ETHARP NETIF_FLAG_ETHERNET) =? 0) = true) as ->.
  { rewrite Z.land_lor_distr_r. apply negb_true_iff, Z.eqb_neq. intros [E _]%Z.lor_eq_0_iff. done. }
  eapply wp_mono; [exact HQ|]. intros r k Hk. apply wp_zoom, wp_zoom. rewrite stack_put.
  unfold memp_free. rewrite (proj2 (Z.eqb_neq msg 0)) by done. apply wp_bind, wp_gets, wp_put.
  destruct s as [[[mc pb] ms b] tm k0]. apply (HR k); try done.
  unfold memp_free. rewrite (proj2 (Z.eqb_neq msg 0)) by done. done.
Qed.

(** What [memp_free] of a message leaves alone. *)
Lemma free_message msg pb pb' :
  memp_free MEMP_TCPIP_MSG_INPKT msg pb = Done tt pb' -> msg <> 0 ->
  pool pb' = pool pb /\ pb_mem pb' = pb_mem pb /\ exists rest, memp_tab pb' MEMP_TCPIP_MSG_INPKT = msg :: rest.
Proof.
  unfold memp_free. intros E H0. rewrite (proj2 (Z.eqb_neq msg 0)) in E by done. injection E as <-.
  split_and!; [unfold pool; cbn; by rewrite fn_lookup_insert_ne|done|]. exists (memp_tab pb MEMP_TCPIP_MSG_INPKT).
  cbn. by rewrite fn_lookup_insert.
Qed.

Lemma packet_free_message own1 pb pb' p b l :
  pool pb' = pool pb -> pb_mem pb' = pb_mem pb -> packet_at all own1 pb p b l -> packet_at all own1 pb' p b l.
Proof.
  intros Hp Hm [H1 H2 H3 H4 H5]. constructor; [by eapply inv_ext|done| |by rewrite Hm|done].
  apply (chain_same pb pb' p l); [|done]. intros a _. by rewrite Hm.
Qed.

(** A packet of ours and a message: what both need. *)
Lemma message_nonnull f box s msgs msg :
  nif_ok all own (f :: box) (lw_nif s) -> posted (lw_nif s) = msg :: msgs -> msg <> 0.
Proof.
  intros Hok Hm ->. apply (no_null _ _ _ _ Hok). rewrite Hm. apply elem_of_app. right. by left.
Qed.

(** After a turn: the message is free, the mailbox has the others. *)
Definition message_done (msg : Z) (msgs : list Z) (s' : lwip St) : Prop :=
  posted (lw_nif s') = msgs /\ mq_ok (nif_mbox (lw_nif s')) /\ exists rest, free_msgs (lw_nif s') = msg :: rest.

Lemma message_done_intro msg msgs k s1 s' :
  memp_free MEMP_TCPIP_MSG_INPKT msg (st_pb k) = Done tt (st_pb (lw_stack s')) -> msg <> 0 ->
  posted (lw_nif s1) = msgs -> mq_ok (nif_mbox (lw_nif s1)) -> nif_mbox (lw_nif s') = nif_mbox (lw_nif s1) ->
  message_done msg msgs s'.
Proof.
  intros E H0 Hp Hq Hb. split_and!; [by unfold posted; rewrite Hb|by rewrite Hb|].
  destruct (free_message msg _ _ E H0) as (_ & _ & rest & Er). by exists rest.
Qed.

(** An IP packet in fragments. *)
Definition fragment (f : list Z) : bool :=
  (fld f 12 2 =? ntohs ETHTYPE_IP) && negb (Z.land (fld f 20 2) FRAGMENT_MASK =? 0).

Lemma turn_settles fuel f box s msgs msg :
  fuel <> 0%nat -> no_timer s ->
  nif_ok all own (f :: box) (lw_nif s) -> posted (lw_nif s) = msg :: msgs -> msg <> pvNullPointer ->
  22 <= Z.of_nat (length f) < 2 ^ 16 -> fragment f = false -> Z.land (nf_flags inp) NETIF_FLAG_ETHARP <> 0 ->
  wp (turn fuel) (fun r s' => r = true /\ message_done msg msgs s' /\
    exists p k, holds own (st_pb (lw_stack s)) p f /\ settled all own p (lw_stack s) k /\
      lw_stack s' = k <| st_pb := st_pb (lw_stack s') |> /\
      memp_free MEMP_TCPIP_MSG_INPKT msg (st_pb k) = Done tt (st_pb (lw_stack s'))) s.
Proof.
  intros Hfuel Htm Hok Hm Hne Hn Hfrag Hf. pose proof (message_nonnull f box s msgs msg Hok Hm) as H0.
  apply (turn_fetches fuel f box s msgs msg); [done..|]. intros p s1 Hh Es Hp Hq _.
  destruct (holds_packet _ p f (no_pb _ _ _ _ Hok) Hh ltac:(lia)) as (b & l & Hpk & Hd & Hpay & Hlen).
  eapply (inpkt_run msg p (settled all own p (lw_stack s))); [done|done| |].
  - rewrite Es. unfold PBUF_POOL_BUFSIZE_ALIGNED in Hlen.
    assert (forall k n, 0 <= k -> 0 <= n -> k + n <= 22 -> mem_field b k n = fld f k n) as Hfld.
    { intros k n H1 H2 H3. unfold mem_field, fld. rewrite (field_part Hpk k n H1 H2) by lia. by rewrite Hd. }
    eapply wp_mono; [apply (ethernet_input_settles inp ip_reass (all := all) own p b l); [exact Hpk|lia|]|by intros r k [_ H]].
    rewrite !Hfld by lia. intros E. unfold fragment in Hfrag. rewrite E, Z.eqb_refl in Hfrag. cbn [andb] in Hfrag.
    by apply negb_false_iff, Z.eqb_eq in Hfrag.
  - intros k s' Hk Hb _ E Ek. split; [done|]. split; [by eapply message_done_intro|]. by exists p, k.
Qed.

Lemma turn_delivers fuel f box s msgs msg hlen src dst sport dport data c :
  fuel <> 0%nat -> no_timer s -> nif_ok all own (f :: box) (lw_nif s) -> posted (lw_nif s) = msg :: msgs -> msg <> pvNullPointer ->
  Z.of_nat (length f) < 2 ^ 16 -> udp_frame f hlen src dst sport dport data ->
  Z.land (nf_flags inp) NETIF_FLAG_ETHARP <> 0 -> for_us inp dst (igmp_groups (lw_rest s)) = true ->
  ip4_addr_isbroadcast src inp = false -> ip_addr_ismulticast src = false ->
  listens (udp_pcbs (lw_rest s)) c dport -> recv c <> 0 ->
  wp (turn fuel) (fun r s' => r = true /\ message_done msg msgs s' /\
    exists p, delivered (all := all) (own := own) p (recv c) src sport data (lw_stack s) (lw_stack s')) s.
Proof.
  intros Hfuel Htm Hok Hm Hne Hn Hu Hf Hus Hb Hmc Hlis Hrecv. pose proof (message_nonnull f box s msgs msg Hok Hm) as H0.
  apply (turn_fetches fuel f box s msgs msg); [done..|]. intros p s1 Hh Es Hp Hq _.
  destruct (holds_packet _ p f (no_pb _ _ _ _ Hok) Hh Hn) as (b & l & Hpk & Hd & Hpay & Hlen).
  eapply (inpkt_run msg p (delivered (all := all) (own := own) p (recv c) src sport data (lw_stack s))); [done|done| |].
  - rewrite Es. pose proof (uf_fit _ _ _ _ _ _ _ Hu) as Hfit. pose proof (uf_hlen _ _ _ _ _ _ _ Hu) as Hhl.
    pose proof (low_4 (fld f 14 1)). unfold UDP_HLEN, PBUF_POOL_BUFSIZE_ALIGNED in *.
    eapply wp_mono; [apply (ethernet_input_delivers inp ip_reass (all := all) (own := own) p b l f hlen src dst sport dport data c); try done|by intros r k [_ Hd2]].
    + lia.
    + unfold SIZEOF_ETH_HDR, UDP_HLEN. lia.
  - intros k s' (D1 & D2 & D3 & b' & l' & Hpk' & Hd') Hbx _ E Ek. split; [done|]. split; [by eapply message_done_intro|]. exists p.
    destruct (free_message msg _ _ E H0) as (Ep & Em & _). split_and!; [by rewrite Ek|by rewrite Ek|by rewrite Ek|].
    exists b', l'. split; [by eapply packet_free_message|]. by rewrite Em.
Qed.
End turn.

(** C7: a packet is settled exactly once.  When [tcpip_thread] takes a message of the
    interrupt and no timer of lwIP is due, then whatever the bytes of its frame (22 at
    least; a frame on the wire has 60), if it is not an IP fragment, the packet is given back to the pool, after a message to the
    sender at most, or handed over: one of the two and once.  Nothing faults, the counts
    of references stay right, the pcbs are the ones there were, and the message is free
    again and gone from the mailbox.  Reassembly plays no part in this: [ip_reass] is
    any function. *)
Theorem packet_settled_once {St} `{!MessageQueue St, !MessageQueueLaws St} pvNullPointer inp ip_reass handler other_message
    all own fuel f box (s : lwip St) msgs msg :
  fuel <> 0%nat -> no_timer s ->
  nif_ok all own (f :: box) (lw_nif s) -> posted (lw_nif s) = msg :: msgs -> msg <> pvNullPointer ->
  22 <= Z.of_nat (length f) < 2 ^ 16 -> fragment f = false -> Z.land (nf_flags inp) NETIF_FLAG_ETHARP <> 0 ->
  wp (tcpip_turn pvNullPointer inp ip_reass handler other_message fuel) (fun r s' => r = true /\ message_done msg msgs s' /\
    exists p k, holds own (st_pb (lw_stack s)) p f /\ settled all own p (lw_stack s) k /\
      lw_stack s' = k <| st_pb := st_pb (lw_stack s') |> /\
      memp_free MEMP_TCPIP_MSG_INPKT msg (st_pb k) = Done tt (st_pb (lw_stack s'))) s.
Proof. exact (turn_settles pvNullPointer inp ip_reass handler other_message fuel f box s msgs msg). Qed.

(** C5: a datagram goes from the wire to the callback: when the ring of the DMA holds a
    frame with a whole datagram for the unit, the mailbox is empty with nobody waiting at
    it, there is room, no timer of lwIP is due and the DMA adds nothing meanwhile, the
    interrupt and one turn of [tcpip_thread] call the callback of the pcb that
    listens to its port with the address and the port of the sender and with a packet of
    exactly its data, whatever the length of the headers and the padding of the frame;
    nobody else gets it, and the message is free again. *)
Theorem datagram_reaches_callback {St} `{!MessageQueue St, !MessageQueueLaws St} pvNullPointer inp ip_reass handler other_message
    all own fuel f fs (s : lwip St) hlen src dst sport dport data c :
  fuel <> 0%nat -> no_timer s ->
  nif_ok all own [] (lw_nif s) -> waiting (mac_of (lw_nif s)) (f :: fs) -> room (lw_nif s) (Z.of_nat (length f)) = true ->
  pvNullPointer ∉ free_msgs (lw_nif s) -> udp_frame f hlen src dst sport dport data ->
  Z.land (nf_flags inp) NETIF_FLAG_ETHARP <> 0 -> for_us inp dst (igmp_groups (lw_rest s)) = true ->
  ip4_addr_isbroadcast src inp = false -> ip_addr_ismulticast src = false ->
  listens (udp_pcbs (lw_rest s)) c dport -> recv c <> 0 ->
  wp (zoom lw_nif (ETH_IRQHandler pvNullPointer) ;; tcpip_turn pvNullPointer inp ip_reass handler other_message fuel)
    (fun r s' => r = true /\ exists own' p b l msg msgs, message_done msg msgs s' /\
      handed (lw_stack s') = ToRecv (recv c) p src sport :: handed (lw_rest s) /\
      udp_pcbs (lw_stack s') ≡ₚ udp_pcbs (lw_rest s) /\
      packet_at all own' (st_pb (lw_stack s')) p b l /\ bytes (pb_mem (st_pb (lw_stack s'))) l = data) s.
Proof.
  intros Hfuel Htm Hok Hwt Hroom Hpv Hu Hf Hus Hb Hmc Hlis Hrecv. pose proof (wt_len _ _ Hwt) as Hlen. unfold ETH_RXBUFNB in Hlen.
  destruct (wt_frames _ _ Hwt 0%nat f eq_refl) as (d & _ & Hwh & _). pose proof (wh_range _ _ Hwh) as Hrange. unfold ETH_RX_BUF_SIZE in Hrange.
  destruct (irq_loop_ok pvNullPointer irq_fuel (f :: fs) all own [] (lw_nif s) Hok Hwt) as (own' & n1 & E & Hok1 & _ & _ & Hkeep & _).
  { unfold irq_fuel. lia. }
  rewrite accepts_cons, Hroom in Hok1. cbn [app] in Hok1. apply acknowledged_ok in Hok1. set (n2 := with_mac _ n1) in Hok1.
  set (box1 := accepted _ _ _ fs) in Hok1.
  assert (ETH_IRQHandler pvNullPointer (lw_nif s) = Done tt n2) as E2.
  { unfold ETH_IRQHandler. rewrite (bind_Done _ _ _ _ _ E). apply handler_end. }
  pose proof (no_box _ _ _ _ Hok1) as Hbox. destruct (posted n2) as [|msg msgs] eqn:Em; [by apply Forall2_nil_inv_l in Hbox|].
  pose proof (no_box _ _ _ _ Hok) as Hbox0. apply Forall2_nil_inv_r in Hbox0.
  assert (msg <> pvNullPointer) as Hne.
  { intros ->. apply Hpv. assert (pvNullPointer ∈ free_msgs n1 ++ posted n1) as Hin.
    { apply elem_of_app. right. change (posted n1) with (posted n2). rewrite Em. by left. }
    unfold messages_kept in Hkeep. by rewrite Hkeep, Hbox0, app_nil_r in Hin. }
  apply wp_bind, wp_zoom. unfold wp at 1. rewrite E2.
  eapply wp_mono; [apply (turn_delivers pvNullPointer inp ip_reass handler other_message (all := all) (own := own') fuel f box1 _ msgs msg hlen src dst sport dport data c);
    try done; lia|].
  intros r s' (-> & Hdone & p & H1 & H2 & H3 & b & l & H4 & H5). split; [done|]. exists own', p, b, l, msg, msgs. by split_and!.
Qed.

(** ** Witnesses *)

(** Five bytes from 192.168.1.10, port 8080, to 192.168.1.11, port 8081, padded to the
    least length of a frame. *)
Definition example_frame : list Z :=
  [0x02; 0; 0; 0; 0; 0x0b; 0x02; 0; 0; 0; 0; 0x0a; 0x08; 0x00] ++
  [0x45; 0; 0; 33; 0; 0; 0; 0; 64; 17; 0; 0; 192; 168; 1; 10; 192; 168; 1; 11] ++
  [0x1f; 0x90; 0x1f; 0x91; 0; 13; 0; 0] ++ [1; 2; 3; 4; 5] ++ replicate 13 0.

Definition example_netif : netif := Netif 0x0b01a8c0 0x00ffffff 0xb3.
Definition example_pcb : udp_pcb := UdpPcb IPADDR_ANY IPADDR_ANY 0 8081 0 0x8005678.
Definition no_reass : Z -> M stack Z := fun _ => mret 0.
Definition no_handler : timeo -> M (lwip queue_os) unit := fun _ => skip.
Definition no_message : Z -> M (lwip queue_os) unit := fun _ => skip.

(** The timer of IGMP in 100 ms. *)
Definition example_timers : list timeo := [Timeo 100 0x8009abc 0].

Lemma example_udp_frame : udp_frame example_frame 20 0x0a01a8c0 0x0b01a8c0 8080 8081 [1; 2; 3; 4; 5].
Proof. by constructor. Qed.

Definition frame_mac : mac := (mac_with frame_status) <| RxBuff := example_frame ++ replicate (Z.to_nat 15180) 0 |>.
Definition frame_nif : nif queue_os := Nif (Drv frame_mac msg_pbufs) ∅ empty_box.

(** The DMA fills the memory of the frames. *)
Lemma rx_ok_buff m buff : rx_ok m -> length buff = length (RxBuff m) -> rx_ok (m <| RxBuff := buff |>).
Proof. destruct m. intros [H1 H2 H3 H4 H5 H6] E. constructor; try done. cbn in *. by rewrite E. Qed.

Lemma nif_ok_mac all own box mc mc' pb ms (b : queue_os) :
  nif_ok all own box (Nif (Drv mc pb) ms b) -> rx_ok mc' -> nif_ok all own box (Nif (Drv mc' pb) ms b).
Proof. intros [H1 H2 H3 H4 H5 H6] Hrx. by constructor. Qed.

Lemma frame_nif_ok : nif_ok (list_to_set tab3) own0 [] frame_nif.
Proof.
  apply (nif_ok_mac _ _ _ (mac_with frame_status)); [exact (nif_example_ok frame_status)|]. apply rx_ok_buff.
  - exact (no_rx _ _ _ _ (nif_example_ok frame_status)).
  - apply Nat2Z.inj. etransitivity; [|exact (eq_sym (ro_buff _ (no_rx _ _ _ _ (nif_example_ok frame_status))))].
    by rewrite length_app, length_replicate.
Qed.

(** Another frame of the same length in the ring. *)
Lemma waiting_buff m f g buff :
  length g = length f -> waiting m [f] -> rx_data (m <| RxBuff := buff |>) (ring_at m 0) (Z.of_nat (length g)) = g ->
  waiting (m <| RxBuff := buff |>) [g].
Proof.
  destruct m. intros El [H1 H2 H3] Hd. constructor; [done| |exact H3]. intros [|k] h Hh; [|done]. injection Hh as <-.
  destruct (H2 0%nat f eq_refl) as (d & E & Hw & _). exists d. rewrite El in *. by split_and!.
Qed.

Lemma frame_waiting : waiting (mac_of frame_nif) [example_frame].
Proof.
  apply (waiting_buff (mac_with frame_status) (replicate 60 0)); [done|exact example_waiting|]. vm_compute. reflexivity.
Qed.

Lemma frame_room : room frame_nif (Z.of_nat (length example_frame)) = true /\ 0x8001234 ∉ free_msgs frame_nif.
Proof.
  split; [vm_compute; reflexivity|]. change (0x8001234 ∉ [4096; 4112]).
  rewrite !not_elem_of_cons. split_and!; [done..|apply not_elem_of_nil].
Qed.

Definition frame_rest : stack := Stack msg_pbufs [example_pcb] [] 0 0 [] 0 [].

Lemma example_listens : listens [example_pcb] example_pcb 8081.
Proof.
  constructor; [by left|done|done|]. by intros c' [->|[]%not_elem_of_nil]%elem_of_cons.
Qed.

Lemma datagram_reaches_callback_witness :
  wp (zoom lw_nif (ETH_IRQHandler 0x8001234) ;; tcpip_turn 0x8001234 example_netif no_reass no_handler no_message 1)
    (fun r s' => r = true /\ exists p l, handed (lw_stack s') = [ToRecv 0x8005678 p 0x0a01a8c0 8080] /\
      bytes (pb_mem (st_pb (lw_stack s'))) l = [1; 2; 3; 4; 5]) (Lwip frame_nif example_timers frame_rest).
Proof.
  eapply wp_mono.
  - exact (datagram_reaches_callback 0x8001234 example_netif no_reass no_handler no_message (list_to_set tab3) own0 1 example_frame []
      (Lwip frame_nif example_timers frame_rest) 20 0x0a01a8c0 0x0b01a8c0 8080 8081 [1; 2; 3; 4; 5] example_pcb
      ltac:(discriminate) ltac:(discriminate) frame_nif_ok frame_waiting
      (proj1 frame_room) (proj2 frame_room) example_udp_frame ltac:(done) eq_refl eq_refl eq_refl example_listens ltac:(done)).
  - intros r s' (-> & own' & p & b & l & msg & msgs & _ & H & _ & _ & Hd). split; [done|]. by exists p, l.
Defined.

(** The unit after the interrupt. *)
Lemma frame_posted : exists own n msg, nif_ok (list_to_set tab3) own [example_frame] n /\ posted n = [msg] /\ msg <> 0x8001234.
Proof.
  destruct (irq_loop_ok 0x8001234 irq_fuel [example_frame] _ own0 [] frame_nif frame_nif_ok frame_waiting)
    as (own' & n & _ & Hok & _ & _ & Hkeep & _); [cbn; unfold irq_fuel; lia|].
  destruct frame_room as [Hroom Hpv]. rewrite accepts_cons, Hroom in Hok. cbn [app accepted] in Hok.
  pose proof (no_box _ _ _ _ Hok) as Hbox. apply Forall2_cons_inv_r in Hbox as (msg & msgs & _ & Hnil & Em).
  apply Forall2_nil_inv_r in Hnil as ->. exists own', n, msg. split_and!; [exact Hok|done|]. intros ->. apply Hpv.
  unfold messages_kept in Hkeep. change (posted frame_nif) with (@nil Z) in Hkeep. rewrite app_nil_r in Hkeep. rewrite <- Hkeep, Em.
  apply elem_of_app. right. by left.
Qed.

Lemma packet_settled_once_witness : exists n msg, posted n = [msg] /\
  wp (tcpip_turn 0x8001234 example_netif no_reass no_handler no_message 1)
    (fun r s' => r = true /\ message_done msg [] s') (Lwip n example_timers frame_rest).
Proof.
  destruct frame_posted as (own & n & msg & Hok & Em & Hne). exists n, msg. split; [exact Em|]. eapply wp_mono.
  - apply (packet_settled_once 0x8001234 example_netif no_reass no_handler no_message (list_to_set tab3) own 1 example_frame []
      (Lwip n example_timers frame_rest) [] msg ltac:(discriminate) ltac:(discriminate) Hok Em Hne); [by vm_compute|reflexivity|discriminate].
  - intros r s' (-> & H & _). by split.
Defined.
